(* ===== verification/_CoqProject ===== *)
-Q . S2P
Prelude.v
Machine.v
Strings.v
Pic.v
Rtc.v
Console.v
Printf.v
Paging.v
FileSys.v
Terminal.v
Descriptors.v
Process.v
Execute.v
Frames.v
Keyboard.v
Sched.v
Syscall.v
Interrupts.v
Boot.v
Tests.v
Support.v
Os.v
Programs.v
Clients.v
Runs.v
UserKernel.v
Grep.v
GrepDir.v
Spawn.v
Shell.v
UserMem.v
Fish.v
Blink.v
FishFrames.v
Emulate.v
