(* ===== verification/Prelude.v ===== *)
(** * A verification development for the ECE 391 kernel of this repository

    The program is a small i386 operating system: a kernel
    ([src/student-distrib/]) with a text console for three terminals, an
    in-memory read-only file system, six processes in 4 MB pages, ten system
    calls, and a round-robin scheduler driven by the timer; and the user
    programs ([src/syscalls/]) that run on it.  This library is a shallow
    embedding of that code and of the properties that make it correct.

    ** The parts and how they interact

    Interrupt and system call stubs enter C code through the gates of the IDT.
    The keyboard handler edits the line of the terminal on show and echoes
    through the console; [terminal_read] waits for the line Enter ends; the
    timer handler gives the processor to the program of the next terminal.
    System calls go through a jump table to [execute] and [halt], which keep
    the process table and the page of the running program, and to [open],
    [close], [read] and [write], which keep the descriptors and dispatch to the
    terminal, the RTC, the directory or a file.

    ** Files

    - [Prelude]: machine integers, C arrays, the monad of C functions with its
      loops, and the weakest preconditions all proofs are written in.
    - [Machine]: the state of the whole kernel, one record per source file
      ([pics] for i8259.c, [ttys] for lib.c, [kbd] for keyboard.c, [pgs] for
      paging.c, [fsg] for file_sys.c, [prc] for system_call.c, [mach] for the
      processor), physical memory, the translation of an access by the page
      tables, port input and output, and the class [Env] of what the linker and
      the hardware decide.
    - [Strings], [Console]: lib.c, the string functions and the screen.  [Printf]:
      what [printf] of lib.c shows, against a reference formatter.
    - [Pic]: i8259.c.  [Rtc]: rtc.c.  [Paging]: paging.c and the updates of the
      page tables the other files make.  [FileSys]: file_sys.c.
    - [Terminal]: the terminal half of keyboard.c ([terminal_read],
      [terminal_write], [terminal_switch]).  [Keyboard]: the key maps and the
      interrupt handler.
    - [Descriptors]: [open], [close], [read], [write] of system_call.c and the
      four operation tables.  [Process]: [parse], [isExe], [init_pcb],
      [execute], [halt] and their return paths in system_call_asm.S, with the
      theorems of the command line.  [Execute]: what [execute] and [halt] do.
    - [Frames]: what a piece of code leaves alone, as classes solved by
      instance search.
    - [Sched]: pit.c.  [Syscall]: [getargs], [vidmap], [set_handler],
      [sigreturn] and the dispatch of [int 0x80].  [Interrupts]: idt.c and
      exception_handler.c.  [Boot]: kernel.c.  [Tests]: tests.c, the kernel's
      own tests.
    - [Support]: ece391support.c and the system calls as user code sees them.
      [Programs]: the user programs.  [Os]: what the calls promise a program, an
      abstract operating system as executable functions and the class [OS].
      [Clients]: programs verified against that class.  [Runs]: the relation
      between the kernel and the abstract machine of the program that runs
      ([runs own base k w s]: process [k] sees the machine [w] in state [s], and
      since [base] nothing has changed but what is its own; [own] says which
      other processes it may start), and the kernel, entered through [int 0x80],
      as an instance of [OS].  [UserKernel]: sequences of calls, and the programs
      on the kernel.
    - [Grep]: [grep] of ece391grep.c on lists of lines: what it finds
      ([grep_output]), the rules for its buffer, one file; [GrepDir]: a whole
      directory, on the kernel.
    - [Spawn]: programs that start programs.  [run_command] is the system call
      [execute] as its caller meets it: through the gate into the new program,
      and back through the label [return] when that program halts; [system n] is
      the system calls of a program below which [n] others may be nested.  What
      the compiler made of an executable, a [main] per entry point, is the
      parameter [code].
    - [Shell]: the shell and [hello], from the keys that are pressed to the
      screen.
    - [UserMem]: a program logic for code that only computes on the memory of its
      process ([umem]: the bytes user mode sees).  [Fish]: fish.c and blink.S.
      [Blink]: the linked list blink.S keeps in memory, against an abstract list
      of blinking characters.  [FishFrames]: [add_frames] on the kernel; what a
      program with the window open sees ([fishing]), its memory and the screen,
      under its own stores and its system calls.
    - [Emulate]: ece391emulate.c, which stands in for the system calls when a user
      program runs on Linux.  It is apart from the kernel: a process of Linux is
      its memory and the static variables of the file ([process]), the calls of
      Linux are the class [Linux].

    Definitions have the names of the source.  A [#define] is a constant, an
    array of the source is a list, a struct a record, a function of type
    [... -> K A] where [K] is the monad over the kernel state; a function
    returns [Ret], or [Fault] on an access no memory backs or outside an array,
    or [Leave] when control goes to another frame for good (user mode after
    [iret], the frame of the parent in [halt], the frame of another program in
    [resume]), or [Unfinished] when a wait has consumed all the interrupts it
    was given.

    ** What the theorems show

    - Refinement: [putc] implements an abstract 25 x 80 terminal; the keyboard
      handler implements an abstract line editor and a caps lock toggle; what
      [terminal_read] returns after any editing keys and Enter is the line they
      spell.
    - Invariants and safety: from the tables [paging_init] leaves, no sequence
      of table updates lets user code reach memory other than the page of one
      program and a video page; the variables of the keyboard driver stay in
      range whatever way the handler ends; boot establishes the invariants of
      all components.
    - Functional behaviour: loading and starting a program, halting it, reading
      files and the directory, allocating and freeing descriptors, the
      scheduler's switch, [vidmap], [getargs], the gates of the IDT.
    - Round trips: [halt] undoes [execute]; the processor decodes from a segment
      descriptor the base and limit that were packed.
    - Equivalence: [printf] shows the text a reference formatter gives.
    - Errors and bounds: the verdicts of the kernel's own tests; the refusals of every system call change nothing;
      Control-L followed by Backspace stores below video memory;
      [init_pcb] leaves descriptor 7 as memory held it; [pit_init] truncates its
      divisor.
    - Liveness and termination: [terminal_read] returns when its line is
      complete, [rtc_read] at the next RTC interrupt, and every program gets
      the processor back after three ticks.
    - Programs on the kernel: the kernel refines the abstract operating system;
      [cat], [ls], [grep] and the repository's own system call tests ([syserr]) are
      proved against the class [OS] alone and then run on the kernel.  A program
      that starts another gets its machine back when the other returns; a whole
      session of the shell, typing included, is the one its specification
      [session] describes; [hello] greets with the name that was typed.  The
      interrupts of a prompt are the keys typed at it; the programs the shell
      starts must be verified for what they print ([executes]), which the
      witness does for [cat].
    - The fish: any sequence of clock ticks and [mp1_ioctl] requests (add, remove,
      synchronise) returns what it returns on the abstract list and leaves memory
      that represents it; a blinker in the corner of the screen makes the list a
      cycle.  [add_frames], run by a process of the kernel, makes the blinking
      characters its two files say ([frame_ops]).  [main] of fish.c is modelled,
      without a theorem of its own.
    - On Linux: a command line becomes the arguments of a process and these the
      string [getargs] gives, and back; reading a directory stays in its buffer
      unless it is asked for 0 bytes or fewer.

    ** Loops, fuel and interrupts

    A C loop is [loop], which runs its body at most [2 ^ 33] times and is
    [Unfinished] after that; every loop of the source whose counter is a 32-bit
    integer ends before, and the rules for [loop] in [Prelude] ask for a
    measure below that bound.  No theorem has the form "if it returns": a
    theorem about a function gives its result.  A wait is a loop over an
    explicit list of interrupt handlers, those that arrive during the wait; the
    rest of kernel code runs without interruption.

    ** Modelling notes

    - Integers are [Z], converted with [u8], [u16], [u32], [s8], [s32] where C
      converts; an address is a 32-bit number.
    - Memory is a function from physical addresses to bytes; a load or a store
      goes through the page directory and the tables of the model.  The page
      tables themselves are lists and not also bytes of that memory: code that
      writes a page table through a pointer is written as an update of the
      list, and [flush_tlb] does nothing since the model has no TLB.
    - Structures the kernel keeps at fixed addresses (process control blocks,
      the terminal table) are records in maps and lists.  [pcb.argument], a
      pointer into the stack of [execute], is a copy of the 128 bytes.
    - An automatic array of a C function has a negative address of its own, so
      that it is apart from all of memory and from other arrays; a store past
      its end faults.  Uninitialised memory holds the bytes [garbage] of the
      environment.
    - The page of the terminal that is shown is video memory, the others have a
      page of their own, as [vid_page] says.
    - [handler_addr] of the environment gives linker symbols their addresses;
      the descriptors of the GDT are stored at theirs.
    - The condition [readFlag == OFF] of the source compares an array's address
      with 0, so it is false; [halt] stores its status in a variable
      [execute] does not read.

    ** Not modelled

    The registers the stubs save and restore, [lldt], [ltr] and [lgdt]; the TLB;
    the boot sector and the assembly that only saves registers and calls a
    handler (boot.S, interrupt_asm.S, exception_asm.S, x86_desc.S); the tests of
    tests.c that are commented out; [inw] and [inl], which nothing calls; the
    second copy of ece391emulate.c and ece391support.c.  [entry]'s last loop never
    ends and is [Unfinished]. *)
From stdpp Require Import base numbers list gmap.
From Stdlib Require Import ZArith Lia.

#[global] Open Scope Z_scope.

(** * Machine integers

    A C integer is a [Z]; every operation that can leave the range of its type
    is written with one of these conversions. *)

Definition u8 (z : Z) : Z := z mod 2 ^ 8.
Definition u16 (z : Z) : Z := z mod 2 ^ 16.
Definition u32 (z : Z) : Z := z mod 2 ^ 32.
Definition s8 (z : Z) : Z := (z + 2 ^ 7) mod 2 ^ 8 - 2 ^ 7.
Definition s32 (z : Z) : Z := (z + 2 ^ 31) mod 2 ^ 32 - 2 ^ 31.

(** * C arrays

    Indexed by [Z]; [None] is an access outside the array. *)

Definition aget {A} (l : list A) (i : Z) : option A :=
  if (0 <=? i) && (i <? Z.of_nat (length l)) then l !! Z.to_nat i else None.

Definition aset {A} (l : list A) (i : Z) (x : A) : option (list A) :=
  if (0 <=? i) && (i <? Z.of_nat (length l)) then Some (<[Z.to_nat i := x]> l) else None.

(** * Outcomes of C functions

    [S] is the state the function runs in, [X] the ways control can leave it
    for good (a return to user mode, a jump into another frame).  A function
    faults on an access no memory backs or outside an array; it is unfinished
    when a loop is still running after all the rounds, or all the interrupts,
    the model was given. *)

Inductive outcome (S X A : Type) : Type :=
| Ret (a : A) (s : S)
| Fault (addr : Z) (s : S)
| Leave (x : X) (s : S)
| Unfinished (s : S).
Arguments Ret {S X A} a s.
Arguments Fault {S X A} addr s.
Arguments Leave {S X A} x s.
Arguments Unfinished {S X A} s.

Declare Scope kernel_scope.
Delimit Scope kernel_scope with kernel.

Section monad.
Context {S X : Type}.

Definition M (A : Type) : Type := S -> outcome S X A.

Definition ret {A} (a : A) : M A := fun s => Ret a s.

Definition bind {A B} (m : M A) (k : A -> M B) : M B := fun s =>
  match m s with
  | Ret a s' => k a s'
  | Fault va s' => Fault va s'
  | Leave x s' => Leave x s'
  | Unfinished s' => Unfinished s'
  end.

Definition gets {A} (f : S -> A) : M A := fun s => Ret (f s) s.
Definition modify (f : S -> S) : M unit := fun s => Ret tt (f s).
Definition fault {A} (va : Z) : M A := fun s => Fault va s.
Definition leave {A} (x : X) : M A := fun s => Leave x s.
Definition unfinished {A} : M A := fun s => Unfinished s.

(** An array access that faults outside the array. *)
Definition get_or_fault {A} (i : Z) (o : option A) : M A :=
  match o with Some a => ret a | None => fault i end.

(** [for (i = lo; i < lo + n; i++) body] with a bound known in advance. *)
Fixpoint for_up (n : nat) (i : Z) (body : Z -> M unit) : M unit :=
  match n with
  | O => ret tt
  | Datatypes.S n' => bind (body i) (fun _ => for_up n' (i + 1) body)
  end.

(** At most [p] rounds of a loop body that either continues with [inl a] or
    leaves the loop with [inr b].  The recursion is on the binary numeral, so a
    bound of 2^32 rounds costs nothing when the loop stops early. *)
Fixpoint iter_pos {A B} (p : positive) (body : A -> M (A + B)) (a : A) : M (A + B) :=
  match p with
  | xH => body a
  | xO q => bind (iter_pos q body a) (fun r =>
      match r with inl a' => iter_pos q body a' | inr b => ret (inr b) end)
  | xI q => bind (body a) (fun r =>
      match r with
      | inr b => ret (inr b)
      | inl a0 => bind (iter_pos q body a0) (fun r =>
          match r with inl a' => iter_pos q body a' | inr b => ret (inr b) end)
      end)
  end.

(** Loop fuel: no loop of the program runs more rounds than this without
    revisiting a 32-bit counter or pointer value. *)
Definition loop_fuel : positive := (2 ^ 33)%positive.

Definition loop {A B} (body : A -> M (A + B)) (a : A) : M B :=
  bind (iter_pos loop_fuel body a) (fun r =>
    match r with inl _ => unfinished | inr b => ret b end).

(** [while (busy) {}] with the interrupts that arrive while it spins, in order;
    the loop looks at its condition again after each handler. *)
Fixpoint spin (busy : S -> bool) (irqs : list (M unit)) : M unit :=
  bind (gets busy) (fun b =>
    if negb b then ret tt else
    match irqs with
    | [] => unfinished
    | h :: irqs' => bind h (fun _ => spin busy irqs')
    end).

(** Weakest preconditions.  [wp m Q E s]: run in [s], [m] returns with [Q] or
    leaves with [E]; it neither faults nor runs out of fuel. *)
Definition wp {A} (m : M A) (Q : A -> S -> Prop) (E : X -> S -> Prop) (s : S) : Prop :=
  match m s with
  | Ret a s' => Q a s'
  | Leave x s' => E x s'
  | Fault _ _ => False
  | Unfinished _ => False
  end.

(** Unary rounds, the reference for [iter_pos]. *)
Fixpoint iter_nat {A B} (n : nat) (body : A -> M (A + B)) (a : A) : M (A + B) :=
  match n with
  | O => ret (inl a)
  | Datatypes.S n' => bind (body a) (fun r =>
      match r with inl a' => iter_nat n' body a' | inr b => ret (inr b) end)
  end.

Lemma wp_ret {A} (a : A) Q E s : Q a s -> wp (ret a) Q E s.
Proof. done. Qed.

Lemma wp_bind {A B} (m : M A) (k : A -> M B) Q E s :
  wp m (fun a => wp (k a) Q E) E s -> wp (bind m k) Q E s.
Proof. unfold wp, bind. by destruct (m s). Qed.

Lemma wp_bind_inv {A B} (m : M A) (k : A -> M B) Q E s :
  wp (bind m k) Q E s -> wp m (fun a => wp (k a) Q E) E s.
Proof. unfold wp, bind. by destruct (m s). Qed.

Lemma bind_Ret {A B} (m : M A) (k : A -> M B) a s t : m s = Ret a t -> bind m k s = k a t.
Proof. unfold bind. by intros ->. Qed.

Lemma bind_Fault {A B} (m : M A) (k : A -> M B) va s t : m s = Fault va t -> bind m k s = Fault va t.
Proof. unfold bind. by intros ->. Qed.

Lemma bind_Leave {A B} (m : M A) (k : A -> M B) x s t : m s = Leave x t -> bind m k s = Leave x t.
Proof. unfold bind. by intros ->. Qed.

Lemma wp_gets {A} (f : S -> A) Q E s : Q (f s) s -> wp (gets f) Q E s.
Proof. done. Qed.

Lemma wp_modify f Q E s : Q tt (f s) -> wp (modify f) Q E s.
Proof. done. Qed.

Lemma wp_get_or_fault {A} i (o : option A) a Q E s :
  o = Some a -> Q a s -> wp (get_or_fault i o) Q E s.
Proof. by intros ->. Qed.

Lemma wp_mono {A} (m : M A) (Q Q' : A -> S -> Prop) (E E' : X -> S -> Prop) s :
  wp m Q E s -> (forall a s', Q a s' -> Q' a s') -> (forall x s', E x s' -> E' x s') ->
  wp m Q' E' s.
Proof. unfold wp. intros Hw HQ HE. destruct (m s); auto. Qed.

Lemma wp_conj {A} (m : M A) (Q Q' : A -> S -> Prop) (E E' : X -> S -> Prop) s :
  wp m Q E s -> wp m Q' E' s ->
  wp m (fun a s' => Q a s' /\ Q' a s') (fun x s' => E x s' /\ E' x s') s.
Proof. unfold wp. intros H1 H2. destruct (m s); auto. Qed.

(** A computation that never leaves is a run to [Ret]. *)
Lemma wp_Ret {A} (m : M A) Q s :
  wp m Q (fun _ _ => False) s <-> exists a s', m s = Ret a s' /\ Q a s'.
Proof.
  unfold wp. split.
  - destruct (m s); [eauto | done..].
  - by intros (a & s' & -> & HQ).
Qed.

(** A computation that never returns is a run to [Leave]. *)
Lemma wp_Leave {A} (m : M A) E s :
  wp m (fun _ _ => False) E s -> exists x s', m s = Leave x s' /\ E x s'.
Proof. unfold wp. destruct (m s); [done|done|eauto|done]. Qed.

Lemma wp_of_Ret {A} (m : M A) (Q : A -> S -> Prop) E a s s' :
  m s = Ret a s' -> Q a s' -> wp m Q E s.
Proof. unfold wp. by intros ->. Qed.

Lemma Ret_of_wp {A} (m : M A) a s s' :
  wp m (fun a' t => a' = a /\ t = s') (fun _ _ => False) s -> m s = Ret a s'.
Proof. intros (a' & t & Hm & -> & ->)%wp_Ret. done. Qed.

Lemma wp_for_up (I : Z -> S -> Prop) n i body E s (Q : unit -> S -> Prop) :
  I i s ->
  (forall j s, i <= j < i + Z.of_nat n -> I j s -> wp (body j) (fun _ => I (j + 1)) E s) ->
  (forall s, I (i + Z.of_nat n) s -> Q tt s) ->
  wp (for_up n i body) Q E s.
Proof.
  revert i s. induction n as [|n IH]; intros i s Hi Hbody HQ; simpl.
  - apply wp_ret, HQ. by replace (i + Z.of_nat 0) with i by lia.
  - apply wp_bind. eapply wp_mono; [apply Hbody; [lia|done] | | done].
    intros ? s' Hs'. apply IH; [done| |].
    + intros j t Hj Ht. apply Hbody; [lia|done].
    + intros t Ht. apply HQ. by replace (i + Z.of_nat (Datatypes.S n)) with (i + 1 + Z.of_nat n) by lia.
Qed.

Lemma iter_nat_add {A B} (body : A -> M (A + B)) n m a s :
  iter_nat (n + m) body a s =
  bind (iter_nat n body a)
    (fun r => match r with inl a' => iter_nat m body a' | inr b => ret (inr b) end) s.
Proof.
  revert a s. induction n as [|n IH]; intros a s; [done|].
  simpl. unfold bind. destruct (body a s) as [[a'|b] s'| | |]; simpl; done.
Qed.

Lemma iter_pos_nat {A B} (body : A -> M (A + B)) p a s :
  iter_pos p body a s = iter_nat (Pos.to_nat p) body a s.
Proof.
  revert a s. induction p as [p IH|p IH|]; intros a s.
  - rewrite Pos2Nat.inj_xI. replace (Datatypes.S (2 * Pos.to_nat p))
      with (Datatypes.S (Pos.to_nat p + Pos.to_nat p))%nat by lia.
    simpl. unfold bind at 1 3. destruct (body a s) as [[a'|b] s'| | |]; try done.
    rewrite iter_nat_add. unfold bind. rewrite IH.
    destruct (iter_nat _ _ _ _) as [[|]| | |]; done.
  - rewrite Pos2Nat.inj_xO. replace (2 * Pos.to_nat p)%nat
      with (Pos.to_nat p + Pos.to_nat p)%nat by lia.
    rewrite iter_nat_add. simpl. unfold bind. rewrite IH.
    destruct (iter_nat _ _ _ _) as [[|]| | |]; done.
  - simpl. unfold bind. destruct (body a s) as [[|]| | |]; done.
Qed.

(** Total correctness of a loop from an invariant and a variant. *)
Lemma wp_loop {A B} (I : A -> S -> Prop) (mu : A -> S -> Z) (body : A -> M (A + B)) a
    (Q : B -> S -> Prop) E s :
  I a s -> mu a s < Z.pos loop_fuel ->
  (forall a s, I a s -> 0 <= mu a s /\
     wp (body a) (fun r s' => match r with
       | inl a' => I a' s' /\ mu a' s' < mu a s
       | inr b => Q b s' end) E s) ->
  wp (loop body a) Q E s.
Proof.
  intros Ha Hmu Hbody. unfold loop. apply wp_bind. unfold wp at 1. rewrite iter_pos_nat.
  assert (Hlt : mu a s < Z.of_nat (Pos.to_nat loop_fuel)) by lia.
  revert Hlt. clear Hmu. generalize (Pos.to_nat loop_fuel) as n. intros n.
  revert a s Ha. induction n as [|n IH]; intros a s Ha Hlt.
  - destruct (Hbody a s Ha). lia.
  - simpl. destruct (Hbody a s Ha) as [Hpos Hw]. unfold bind. unfold wp in Hw.
    destruct (body a s) as [[a'|b] s'| | |]; try done.
    apply IH; [tauto | lia].
Qed.

(** The same with a ghost value that the invariant carries. *)
Lemma wp_loop_ghost {A B G} (I : G -> A -> S -> Prop) (mu : G -> Z) (body : A -> M (A + B)) g a
    (Q : B -> S -> Prop) E s :
  I g a s -> mu g < Z.pos loop_fuel ->
  (forall g a s, I g a s -> 0 <= mu g /\
     wp (body a) (fun r s' => match r with
       | inl a' => exists g', I g' a' s' /\ mu g' < mu g
       | inr b => Q b s' end) E s) ->
  wp (loop body a) Q E s.
Proof.
  intros Ha Hmu Hbody. unfold loop. apply wp_bind. unfold wp at 1. rewrite iter_pos_nat.
  assert (Hlt : mu g < Z.of_nat (Pos.to_nat loop_fuel)) by lia.
  revert Hlt. clear Hmu. generalize (Pos.to_nat loop_fuel) as n. intros n.
  revert g a s Ha. induction n as [|n IH]; intros g a s Ha Hlt.
  - destruct (Hbody g a s Ha). lia.
  - simpl. destruct (Hbody g a s Ha) as [Hpos Hw]. unfold bind. unfold wp in Hw.
    destruct (body a s) as [[a'|b] s'| | |]; try done.
    destruct Hw as (g' & Hg' & Hm). eapply IH; [exact Hg'|lia].
Qed.

(** A spin loop ends with the first interrupt that clears its condition. *)
Lemma wp_spin (I : S -> Prop) busy pre h post s (Q : unit -> S -> Prop) E :
  I s ->
  (forall s, I s -> busy s = true) ->
  Forall (fun m => forall s, I s -> wp m (fun _ => I) E s) pre ->
  (forall s, I s -> wp h (fun _ s' => busy s' = false /\ Q tt s') E s) ->
  wp (spin busy (pre ++ h :: post)) Q E s.
Proof.
  intros Hs Hbusy Hpre Hh. revert s Hs.
  induction Hpre as [|m pre Hm Hpre IH]; intros s Hs; simpl;
    apply wp_bind, wp_gets; rewrite Hbusy by done; simpl; apply wp_bind.
  - eapply wp_mono; [by apply Hh| |done]. intros ? s' [Hb HQ].
    destruct post; simpl; apply wp_bind, wp_gets; rewrite Hb; by apply wp_ret.
  - eapply wp_mono; [by apply Hm| |done]. intros ? s' Hs'. by apply IH.
Qed.

End monad.
Arguments M : clear implicits.

Notation "'let*' x := m 'in' k" := (bind m (fun x => k))
  (at level 200, x name, m at level 100, k at level 200, right associativity) : kernel_scope.
Notation "'let*' ' p := m 'in' k" := (bind m (fun x => match x with p => k end))
  (at level 200, p strict pattern, m at level 100, k at level 200, right associativity) : kernel_scope.
Notation "m ;; k" := (bind m (fun _ => k)) : kernel_scope.

(** * Automation *)

(** One step of a straight-line computation; branches keep their test. *)
Ltac wp_step :=
  lazymatch goal with
  | |- wp (bind _ _) _ _ _ => apply wp_bind
  | |- wp (ret _) _ _ _ => apply wp_ret
  | |- wp (gets _) _ _ _ => apply wp_gets
  | |- wp (modify _) _ _ _ => apply wp_modify
  | |- wp (if ?b then _ else _) _ _ _ => let E := fresh "Hif" in destruct b eqn:E
  | |- wp (match ?x with (_, _) => _ end) _ _ _ => destruct x
  end; cbn beta iota.

(** Runs a subcomputation whose result is known. *)
Ltac wp_use H := eapply (wp_of_Ret _ _ _ _ _ _ H); cbn beta iota.

(** Boolean tests as propositions. *)
Ltac unbool :=
  repeat match goal with
  | H : (_ && _) = true |- _ => apply andb_true_iff in H; destruct H
  | H : (_ && _) = false |- _ => apply andb_false_iff in H
  | H : (_ || _) = true |- _ => apply orb_true_iff in H
  | H : (_ || _) = false |- _ => apply orb_false_iff in H; destruct H
  | H : negb _ = true |- _ => apply negb_true_iff in H
  | H : negb _ = false |- _ => apply negb_false_iff in H
  | H : (_ =? _) = true |- _ => apply Z.eqb_eq in H
  | H : (_ =? _) = false |- _ => apply Z.eqb_neq in H
  | H : (_ <? _) = true |- _ => apply Z.ltb_lt in H
  | H : (_ <? _) = false |- _ => apply Z.ltb_ge in H
  | H : (_ <=? _) = true |- _ => apply Z.leb_le in H
  | H : (_ <=? _) = false |- _ => apply Z.leb_gt in H
  end.

(** Closes the conjuncts of a loop invariant that need no thought. *)
Ltac solve_inv :=
  repeat match goal with
  | |- _ /\ _ => split
  | |- (_, _) = (_, _) => apply pair_equal_spec
  end; try done; try lia.

(** * Machine integers in range *)

Lemma u8_small z : 0 <= z < 256 -> u8 z = z.
Proof. intros. apply Z.mod_small. lia. Qed.
Lemma u16_small z : 0 <= z < 65536 -> u16 z = z.
Proof. intros. apply Z.mod_small. lia. Qed.
Lemma u32_small z : 0 <= z < 2 ^ 32 -> u32 z = z.
Proof. intros. apply Z.mod_small. lia. Qed.
Lemma s32_small z : - 2 ^ 31 <= z < 2 ^ 31 -> s32 z = z.
Proof. intros. unfold s32. rewrite Z.mod_small; lia. Qed.
Lemma u8_range z : 0 <= u8 z < 256.
Proof. apply Z.mod_pos_bound. lia. Qed.
Lemma u32_range z : 0 <= u32 z < 2 ^ 32.
Proof. apply Z.mod_pos_bound. lia. Qed.
Lemma u8_u8 z : u8 (u8 z) = u8 z.
Proof. apply u8_small, u8_range. Qed.

(** A property of every byte value, checked by evaluation. *)
Lemma byte_cases (P : Z -> bool) :
  forallb P (seqZ 0 256) = true -> forall c, 0 <= c < 256 -> P c = true.
Proof. intros HP c Hc. rewrite forallb_forall in HP. apply HP, list_elem_of_In, elem_of_seqZ. lia. Qed.

(** * C arrays *)

Lemma aget_aset {A} (l l' : list A) i j x :
  aset l i x = Some l' -> aget l' j = if j =? i then Some x else aget l j.
Proof.
  unfold aset, aget. destruct ((0 <=? i) && _) eqn:Ei; [|done]. intros [= <-].
  rewrite length_insert. unbool. destruct (Z.eqb_spec j i) as [->|Hne].
  - rewrite (proj2 (Z.leb_le 0 i)), (proj2 (Z.ltb_lt i _)) by lia. cbn.
    apply list_lookup_insert_eq. lia.
  - destruct ((0 <=? j) && _) eqn:Ej; [|done]. unbool. apply list_lookup_insert_ne. lia.
Qed.

Lemma aset_length {A} (l l' : list A) i x : aset l i x = Some l' -> length l' = length l.
Proof. unfold aset. destruct (_ && _); [|done]. intros [= <-]. apply length_insert. Qed.

Lemma aset_total {A} (l : list A) i x :
  0 <= i < Z.of_nat (length l) -> exists l', aset l i x = Some l'.
Proof.
  intros Hi. unfold aset. rewrite (proj2 (Z.leb_le 0 i)), (proj2 (Z.ltb_lt i _)) by lia. by eexists.
Qed.

Lemma aget_total {A} (l : list A) i :
  0 <= i < Z.of_nat (length l) -> exists x, aget l i = Some x.
Proof.
  intros Hi. unfold aget. rewrite (proj2 (Z.leb_le 0 i)), (proj2 (Z.ltb_lt i _)) by lia. cbn.
  destruct (lookup_lt_is_Some_2 l (Z.to_nat i)) as [x Hx]; [lia|]. by exists x.
Qed.

Lemma aget_bound {A} (l : list A) i x : aget l i = Some x -> 0 <= i < Z.of_nat (length l).
Proof. unfold aget. destruct ((0 <=? i) && _) eqn:E; [|done]. unbool. lia. Qed.

Lemma aget_insert {A} (l : list A) i x y : aget l i = Some y -> aget (<[Z.to_nat i := x]> l) i = Some x.
Proof.
  unfold aget. rewrite length_insert. destruct ((0 <=? i) && _) eqn:E; [|done]. intros _. unbool.
  apply list_lookup_insert_eq. lia.
Qed.

Lemma aget_Some {A} (l : list A) (i : nat) x : l !! i = Some x -> aget l (Z.of_nat i) = Some x.
Proof.
  intros Hx. unfold aget. rewrite Nat2Z.id, (proj2 (Z.leb_le _ _)) by lia.
  rewrite (proj2 (Z.ltb_lt _ _)); [done|]. apply lookup_lt_Some in Hx. lia.
Qed.

Lemma aget_lookup {A} (l : list A) i x : 0 <= i -> l !! Z.to_nat i = Some x -> aget l i = Some x.
Proof. intros Hi Hx. rewrite <- (Z2Nat.id i) by lia. by apply aget_Some. Qed.

Create HintDb kernel.
#[export] Hint Rewrite u8_u8 : kernel.
#[export] Hint Resolve wp_ret u8_range u32_range : kernel.
