(* ===== verification/Machine.v ===== *)
(** The state of the kernel and the machine it runs on: the globals of every
    file of [src/student-distrib] as one record of component states, memory
    behind the page tables, the I/O ports, and the primitive accesses
    ([lib.h], [pcb.h], [x86_desc.h]) every component is written with. *)
From stdpp Require Import base numbers list gmap strings.
From Stdlib Require Import ZArith Lia.
From S2P Require Import Prelude.

(** * Constants shared by the headers *)

Definition NULL : Z := 0.
Definition SUCCESS : Z := 0.
Definition FAILURE : Z := -1.
Definition KB4 : Z := 4096.
Definition KB : Z := 1024.
Definition MB4 : Z := 0x400000.
Definition VIDEO : Z := 0xB8000.
Definition video_mem : Z := VIDEO.
Definition term_1_mem : Z := 0xB9000.
Definition term_2_mem : Z := 0xBA000.
Definition term_3_mem : Z := 0xBB000.
Definition vid_page : list Z := [term_1_mem; term_2_mem; term_3_mem].

(** * Ports

    [outb] and [inb] are instructions: a write is appended to the trace of the
    machine's port accesses (most recent first), and what a read returns is up
    to the devices, which see the whole trace. *)

Inductive io_event : Type :=
| Out (data port : Z)
| In (port data : Z).

(** What the code takes from outside the repository: the devices on the ports,
    the addresses the linker gives to symbols, and the contents of automatic
    storage before it is written. *)
Class Env : Type := {
  port_in : list io_event -> Z -> Z;
  page_table_video_addr : Z;
  handler_addr : string -> Z;
  garbage : Z -> Z
}.

(** * Data *)

(** A function pointer stored in a [fops_t]: [fn_null] is the zero word of a
    table nobody has initialised. *)
Inductive fn : Type :=
| fn_null
| fn_terminal_open | fn_terminal_close | fn_terminal_read | fn_terminal_write
| fn_rtc_open | fn_rtc_close | fn_rtc_read | fn_rtc_write
| fn_dir_open | fn_dir_close | fn_dir_read | fn_dir_write
| fn_file_open | fn_file_close | fn_file_read | fn_file_write
| fn_invalid_read_op | fn_invalid_write_op.

#[global] Instance fn_eq_dec : EqDecision fn.
Proof. solve_decision. Defined.

Record fops : Type := Fops { open_ : fn; close_ : fn; read_ : fn; write_ : fn }.

Definition null_fops : fops := Fops fn_null fn_null fn_null fn_null.

Record file_array : Type := FileArray {
  pointer_ : fops; inode_ : Z; file_position_ : Z; flags_ : Z }.

(** [argument] is the 128-byte array the field points to, which lives in the
    frame of the [execute] call that made the process. *)
Record pcb : Type := Pcb {
  pcb_pid : Z; parent_pid : Z;
  halt_ebp : Z; halt_esp : Z; ebp_val : Z; esp_val : Z;
  argument : list Z;
  file_descriptor : list file_array;
  parent_pcb : Z }.

(** [term_pcb] is the address of a [pcb] or NULL. *)
Record term : Type := Term { term_pcb : Z; screen_x : Z; screen_y : Z }.

(** * Component states *)

(** Memory by physical address (the negative keys hold the automatic arrays,
    which no address of the program reaches by arithmetic), the interrupt flag,
    the frame registers and the port trace. *)
Record machine : Type := Machine {
  mem : gmap Z Z; iflag : bool; ebp : Z; esp : Z; io : list io_event }.

Record paging : Type := Paging {
  page_directory : list Z; page_table_video : list Z; page_vid_mem : list Z;
  paging_on : bool }.

Record tss_t : Type := Tss { ss0 : Z; esp0 : Z }.

Record pic : Type := Pic { master_mask : Z; slave_mask : Z }.

Record tty : Type := Tty {
  terminal : list term; current_terminal : Z; curr_scheduler : Z }.

Record kbd : Type := Kbd {
  shift : Z; capslock : Z; capsChecker : Z; control : Z; left_alt : Z;
  keybufferCount : list Z; cursor : list Z; keyBuf : list (list Z);
  readFlag : list Z }.

Record fsys : Type := Fsys {
  boot_block_addr : Z; inode_addr : Z; data_block_addr : Z; directory_index : Z }.

Record procs : Type := Procs {
  pid : list Z; global_halt : Z; global_status : Z; process_counter : Z;
  stdin_fops : fops; stdout_fops : fops; rtc_fops : fops; dir_fops : fops;
  file_fops : fops;
  pcbs : gmap Z pcb }.

(** One entry of the interrupt descriptor table. *)
Record idt_desc : Type := IdtDesc {
  offset_15_00 : Z; seg_selector : Z; reserved4 : Z; reserved3 : Z; reserved2 : Z;
  reserved1 : Z; idt_size : Z; reserved0 : Z; dpl : Z; present : Z;
  offset_31_16 : Z }.

Record kernel : Type := Kernel {
  mach : machine; pgs : paging; tss : tss_t; pics : pic;
  rtc_interrupt_occurred : Z; ttys : tty; kb : kbd; fsg : fsys; prc : procs;
  idt : list idt_desc }.

(** * Updates *)

Definition on_mach (f : machine -> machine) (s : kernel) : kernel :=
  Kernel (f (mach s)) (pgs s) (tss s) (pics s) (rtc_interrupt_occurred s) (ttys s)
    (kb s) (fsg s) (prc s) (idt s).
Definition on_pgs (f : paging -> paging) (s : kernel) : kernel :=
  Kernel (mach s) (f (pgs s)) (tss s) (pics s) (rtc_interrupt_occurred s) (ttys s)
    (kb s) (fsg s) (prc s) (idt s).
Definition on_tss (f : tss_t -> tss_t) (s : kernel) : kernel :=
  Kernel (mach s) (pgs s) (f (tss s)) (pics s) (rtc_interrupt_occurred s) (ttys s)
    (kb s) (fsg s) (prc s) (idt s).
Definition on_pics (f : pic -> pic) (s : kernel) : kernel :=
  Kernel (mach s) (pgs s) (tss s) (f (pics s)) (rtc_interrupt_occurred s) (ttys s)
    (kb s) (fsg s) (prc s) (idt s).
Definition set_rtc (v : Z) (s : kernel) : kernel :=
  Kernel (mach s) (pgs s) (tss s) (pics s) v (ttys s) (kb s) (fsg s) (prc s) (idt s).
Definition on_ttys (f : tty -> tty) (s : kernel) : kernel :=
  Kernel (mach s) (pgs s) (tss s) (pics s) (rtc_interrupt_occurred s) (f (ttys s))
    (kb s) (fsg s) (prc s) (idt s).
Definition on_kb (f : kbd -> kbd) (s : kernel) : kernel :=
  Kernel (mach s) (pgs s) (tss s) (pics s) (rtc_interrupt_occurred s) (ttys s)
    (f (kb s)) (fsg s) (prc s) (idt s).
Definition on_fsg (f : fsys -> fsys) (s : kernel) : kernel :=
  Kernel (mach s) (pgs s) (tss s) (pics s) (rtc_interrupt_occurred s) (ttys s)
    (kb s) (f (fsg s)) (prc s) (idt s).
Definition on_prc (f : procs -> procs) (s : kernel) : kernel :=
  Kernel (mach s) (pgs s) (tss s) (pics s) (rtc_interrupt_occurred s) (ttys s)
    (kb s) (fsg s) (f (prc s)) (idt s).
Definition set_idt (v : list idt_desc) (s : kernel) : kernel :=
  Kernel (mach s) (pgs s) (tss s) (pics s) (rtc_interrupt_occurred s) (ttys s)
    (kb s) (fsg s) (prc s) v.

Definition set_mem (v : gmap Z Z) : kernel -> kernel :=
  on_mach (fun m => Machine v (iflag m) (ebp m) (esp m) (io m)).
Definition set_iflag (v : bool) : kernel -> kernel :=
  on_mach (fun m => Machine (mem m) v (ebp m) (esp m) (io m)).
Definition set_frame (bp sp : Z) : kernel -> kernel :=
  on_mach (fun m => Machine (mem m) (iflag m) bp sp (io m)).
Definition log_io (e : io_event) : kernel -> kernel :=
  on_mach (fun m => Machine (mem m) (iflag m) (ebp m) (esp m) (e :: io m)).

Definition set_page_directory (v : list Z) : kernel -> kernel :=
  on_pgs (fun p => Paging v (page_table_video p) (page_vid_mem p) (paging_on p)).
Definition set_page_table_video (v : list Z) : kernel -> kernel :=
  on_pgs (fun p => Paging (page_directory p) v (page_vid_mem p) (paging_on p)).
Definition set_page_vid_mem (v : list Z) : kernel -> kernel :=
  on_pgs (fun p => Paging (page_directory p) (page_table_video p) v (paging_on p)).
Definition set_paging_on (v : bool) : kernel -> kernel :=
  on_pgs (fun p => Paging (page_directory p) (page_table_video p) (page_vid_mem p) v).

Definition set_terminal (v : list term) : kernel -> kernel :=
  on_ttys (fun t => Tty v (current_terminal t) (curr_scheduler t)).
Definition set_current_terminal (v : Z) : kernel -> kernel :=
  on_ttys (fun t => Tty (terminal t) v (curr_scheduler t)).
Definition set_curr_scheduler (v : Z) : kernel -> kernel :=
  on_ttys (fun t => Tty (terminal t) (current_terminal t) v).

(** * The static initialisers

    The globals as the image is loaded: what the source initialises, and zero
    everywhere else. *)

Definition zero_term : term := Term NULL 0 0.

Definition initial_kernel : kernel := {|
  mach := Machine ∅ false 0 0 [];
  pgs := Paging (replicate 1024 0) (replicate 1024 0) (replicate 1024 0) false;
  tss := Tss 0 0;
  pics := Pic 0xFF 0xFF;
  rtc_interrupt_occurred := 0;
  ttys := Tty (replicate 3 zero_term) 0 0;
  kb := Kbd 0 0 0 0 0 (replicate 128 0) (replicate 3 0) (replicate 3 (replicate 128 0))
    (replicate 3 0);
  fsg := Fsys 0 0 0 (-1);
  prc := Procs (replicate 6 (-1)) 0 0 (-1) null_fops null_fops null_fops null_fops null_fops ∅;
  idt := replicate 256 (IdtDesc 0 0 0 0 0 0 0 0 0 0 0) |}.

(** The port accesses [es], the most recent first. *)
Definition log_all (es : list io_event) (s : kernel) : kernel := foldr log_io s es.

(** Devices that answer 0 to every read, for closed examples. *)
Definition quiet_env : Env := {|
  port_in := fun _ _ => 0; page_table_video_addr := 0x40F000;
  handler_addr := fun _ => 0x401000; garbage := fun _ => 0 |}.

(** Memory holding [f i] at the [n] addresses [i] from [a] on, for closed
    examples. *)
Definition ram_of (f : Z -> Z) (a n : Z) : gmap Z Z :=
  list_to_map (map (fun i => (i, f i)) (seqZ a n)).
Definition ram (a n : Z) : gmap Z Z := ram_of (fun _ => 0) a n.

Lemma ram_of_lookup f a n i : a <= i < a + n -> ram_of f a n !! i = Some (f i).
Proof.
  intros Hi. apply elem_of_list_to_map_1.
  - replace ((map (fun i => (i, f i)) (seqZ a n)).*1) with (seqZ a n); [apply NoDup_seqZ|].
    rewrite <- list_fmap_compose. symmetry. apply list_fmap_id.
  - apply list_elem_of_fmap. exists i. split; [done|]. apply elem_of_seqZ. lia.
Qed.

Lemma ram_of_lookup_None f a n i : i < a \/ a + n <= i -> ram_of f a n !! i = None.
Proof.
  intros Hi. apply not_elem_of_list_to_map_1.
  replace ((map (fun i => (i, f i)) (seqZ a n)).*1) with (seqZ a n).
  - rewrite elem_of_seqZ. lia.
  - rewrite <- list_fmap_compose. symmetry. apply list_fmap_id.
Qed.

Lemma ram_lookup a n i : a <= i < a + n -> ram a n !! i = Some 0.
Proof. apply ram_of_lookup. Qed.

(** * The monad of kernel code *)

(** The ways control leaves a kernel function for good: [context_switch]'s
    [iret] to a user entry point, [halt]'s jump to the [return] label of the
    parent's [execute] frame, and the scheduler's return on another stack. *)
Inductive transfer : Type :=
| EnterUser (entry : Z)
| JmpReturn
| SwitchFrame.

Notation K := (M kernel transfer).
Open Scope kernel_scope.

Section machine.
Context `{Env}.

(** ** Ports and the interrupt flag *)

Definition outb (data port : Z) : K unit := modify (log_io (Out (u8 data) port)).

Definition inb (port : Z) : K Z :=
  let* s := gets id in
  let v := u8 (port_in (io (mach s)) port) in
  modify (log_io (In port v)) ;; ret v.

Definition cli : K unit := modify (set_iflag false).
Definition sti : K unit := modify (set_iflag true).

(** ** Memory

    The address translation of the processor in 32-bit paged mode with page
    size extensions, for supervisor accesses: a directory entry maps 4 MB
    itself or names a page table.  The only page table the kernel ever installs
    is [page_table_video]. *)
Definition translate (p : paging) (va : Z) : option Z :=
  if negb (paging_on p) then Some va else
  match aget (page_directory p) (va / MB4) with
  | None => None
  | Some pde =>
    if negb (Z.testbit pde 0) then None
    else if Z.testbit pde 7 then Some (Z.land pde 0xFFC00000 + va mod MB4)
    else if Z.land pde 0xFFFFF000 =? page_table_video_addr then
      match aget (page_table_video p) (va mod MB4 / KB4) with
      | None => None
      | Some pte =>
        if Z.testbit pte 0 then Some (Z.land pte 0xFFFFF000 + va mod KB4) else None
      end
    else None
  end.

(** Where the byte at [va] is: an automatic array is addressed directly.  An
    access to a byte memory does not back, or outside an array, faults. *)
Definition cell (p : paging) (va : Z) : option Z :=
  if va <? 0 then Some va else translate p va.

Definition mem_get (s : kernel) (va : Z) : option Z :=
  match cell (pgs s) va with Some c => mem (mach s) !! c | None => None end.

Definition mem_set (va v : Z) (s : kernel) : kernel :=
  match cell (pgs s) va with Some c => set_mem (<[c := v]> (mem (mach s))) s | None => s end.

Definition load8 (va : Z) : K Z :=
  let* s := gets id in get_or_fault va (mem_get s va).

Definition store8 (va v : Z) : K unit :=
  load8 va ;; modify (mem_set va (u8 v)).

(** Little-endian 32-bit word. *)
Definition load32 (va : Z) : K Z :=
  let* b0 := load8 va in
  let* b1 := load8 (va + 1) in
  let* b2 := load8 (va + 2) in
  let* b3 := load8 (va + 3) in
  ret (b0 + b1 * 2 ^ 8 + b2 * 2 ^ 16 + b3 * 2 ^ 24).

Definition store32 (va v : Z) : K unit :=
  store8 va v ;;
  store8 (va + 1) (Z.shiftr v 8) ;;
  store8 (va + 2) (Z.shiftr v 16) ;;
  store8 (va + 3) (Z.shiftr v 24).

(** The automatic array of [n] bytes at the (negative) address [a]. *)
Definition alloc_local (a : Z) (n : nat) : K unit :=
  modify (fun s =>
    set_mem (foldr (fun i m => <[a + i := u8 (garbage (a + i))]> m)
      (mem (mach s)) (seqZ 0 (Z.of_nat n))) s).

End machine.

(** Pointer arithmetic: modulo 2^32 in the address space, exact inside an
    automatic array. *)
Definition ptr_add (p i : Z) : Z := if p <? 0 then p + i else u32 (p + i).

(** The buffer of [n] bytes at [p] does not wrap around the address space. *)
Definition buffer (p n : Z) : Prop := (0 < p /\ p + n <= 2 ^ 32) \/ (p < 0 /\ p + n <= 0).

Lemma ptr_add_buffer p n i : buffer p n -> 0 <= i < n -> ptr_add p i = p + i.
Proof.
  intros Hb Hi. unfold ptr_add. destruct (Z.ltb_spec p 0); [done|].
  apply u32_small. destruct Hb; lia.
Qed.

(** A pointer to constant bytes: an address, or an object nobody writes (a
    string literal, a field of a local copy of a structure). *)
Inductive cptr : Type :=
| Addr (a : Z)
| Lit (l : list Z).

Definition is_null (p : cptr) : bool := match p with Addr a => a =? NULL | Lit _ => false end.

Definition cload `{Env} (p : cptr) (i : Z) : K Z :=
  match p with
  | Addr a => load8 (a + i)
  | Lit l => get_or_fault i (aget l i)
  end.

(** The bytes of a C string literal. *)
Fixpoint bytes_of (s : string) : list Z :=
  match s with
  | EmptyString => []
  | String c s' => Z.of_N (Ascii.N_of_ascii c) :: bytes_of s'
  end.
Definition cstr (s : string) : cptr := Lit (bytes_of s ++ [0]).

(** * Reasoning about memory *)

(** The bytes [l] stored at [a], one after the other. *)
Fixpoint put_bytes `{Env} (a : Z) (l : list Z) (s : kernel) : kernel :=
  match l with
  | [] => s
  | b :: l' => put_bytes (a + 1) l' (mem_set a b s)
  end.

(** [n] bytes from [a] on are backed by memory, each by a byte of its own. *)
Definition region `{Env} (s : kernel) (a n : Z) : Prop :=
  (forall i, 0 <= i < n -> is_Some (mem_get s (a + i))) /\
  (forall i j, 0 <= i < n -> 0 <= j < n ->
     cell (pgs s) (a + i) = cell (pgs s) (a + j) -> i = j).

(** Every element is the value of a byte. *)
Definition bytes (l : list Z) : Prop := Forall (fun b => 0 <= b < 256) l.

(** The byte at [va] is none of the [n] bytes from [a] on. *)
Definition outside `{Env} (p : paging) (a n va : Z) : Prop :=
  forall i, 0 <= i < n -> cell p (a + i) <> cell p va.

(** The bytes at [p], from [p] on, are [l]. *)
Definition reads `{Env} (s : kernel) (p : cptr) (l : list Z) : Prop :=
  forall (i : nat) b, l !! i = Some b -> cload p (Z.of_nat i) s = Ret b s.

Definition bytes_at `{Env} (s : kernel) (a : Z) (l : list Z) : Prop :=
  forall (i : nat) b, l !! i = Some b -> mem_get s (a + Z.of_nat i) = Some b.

(** Only the memory behind the [n] bytes from [a] on may differ between the two
    states. *)
Definition modifies `{Env} (s : kernel) (a n : Z) (t : kernel) : Prop :=
  t = set_mem (mem (mach t)) s /\
  forall c, (forall i, 0 <= i < n -> cell (pgs s) (a + i) <> Some c) ->
    mem (mach t) !! c = mem (mach s) !! c.

Section memory_lemmas.
Context `{Env}.
Implicit Types (s : kernel) (a va v : Z).

Lemma cell_unpaged p va : paging_on p = false -> 0 <= va -> cell p va = Some va.
Proof. intros Hp Hva. unfold cell, translate. rewrite Hp, (proj2 (Z.ltb_ge _ _)); done. Qed.

(** Distinct bytes of an unpaged machine. *)
Lemma region_unpaged s a n :
  paging_on (pgs s) = false -> 0 <= a ->
  (forall i, 0 <= i < n -> is_Some (mem (mach s) !! (a + i))) -> region s a n.
Proof.
  intros Hp Ha Hm. split.
  - intros i Hi. unfold mem_get. rewrite cell_unpaged by (done || lia). by apply Hm.
  - intros i j Hi Hj. rewrite !cell_unpaged by (done || lia). intros [=]. lia.
Qed.

Lemma pgs_mem_set va v s : pgs (mem_set va v s) = pgs s.
Proof. unfold mem_set. by destruct (cell _ _). Qed.

Lemma cell_mem_set va v s va' : cell (pgs (mem_set va v s)) va' = cell (pgs s) va'.
Proof. by rewrite pgs_mem_set. Qed.

Lemma mem_get_set_eq va v s :
  is_Some (mem_get s va) -> mem_get (mem_set va v s) va = Some v.
Proof.
  unfold mem_get. rewrite cell_mem_set. unfold mem_set.
  destruct (cell (pgs s) va) as [c|]; [|by intros [? ?]].
  intros _. apply lookup_insert_eq.
Qed.

Lemma mem_get_set_ne va va' v s :
  cell (pgs s) va <> cell (pgs s) va' -> mem_get (mem_set va v s) va' = mem_get s va'.
Proof.
  intros Hne. unfold mem_get. rewrite cell_mem_set. unfold mem_set.
  destruct (cell (pgs s) va) as [c|]; [|done].
  destruct (cell (pgs s) va') as [c'|]; [|done].
  simpl. apply lookup_insert_ne. congruence.
Qed.

Lemma mem_get_set_is_Some va va' v s :
  is_Some (mem_get s va') -> is_Some (mem_get (mem_set va v s) va').
Proof.
  intros Hs. destruct (decide (cell (pgs s) va = cell (pgs s) va')) as [He|Hne].
  - unfold mem_get in *. rewrite cell_mem_set. unfold mem_set. rewrite <- He in *.
    destruct (cell (pgs s) va) as [c|]; [|done]. simpl. rewrite lookup_insert_eq. by eexists.
  - by rewrite mem_get_set_ne.
Qed.

Lemma pgs_put_bytes a l s : pgs (put_bytes a l s) = pgs s.
Proof. revert a s. induction l as [|b l IH]; intros a s; [done|]. simpl. by rewrite IH, pgs_mem_set. Qed.

Lemma put_bytes_app a l1 l2 s :
  put_bytes a (l1 ++ l2) s = put_bytes (a + Z.of_nat (length l1)) l2 (put_bytes a l1 s).
Proof.
  revert a s. induction l1 as [|b l1 IH]; intros a s; simpl.
  - f_equal. lia.
  - rewrite IH. f_equal. lia.
Qed.

Lemma put_bytes_snoc a l b s :
  put_bytes a (l ++ [b]) s = mem_set (a + Z.of_nat (length l)) b (put_bytes a l s).
Proof. by rewrite put_bytes_app. Qed.

Lemma mem_get_put_bytes_out a l s va :
  outside (pgs s) a (Z.of_nat (length l)) va -> mem_get (put_bytes a l s) va = mem_get s va.
Proof.
  revert a s. induction l as [|b l IH]; intros a s Hout; [done|]. simpl. rewrite IH.
  - apply mem_get_set_ne. specialize (Hout 0). rewrite Z.add_0_r in Hout. apply Hout. simpl. lia.
  - intros i Hi. rewrite pgs_mem_set. replace (a + 1 + i) with (a + (i + 1)) by lia.
    apply Hout. simpl. lia.
Qed.

Lemma put_bytes_is_Some a l s va :
  is_Some (mem_get s va) -> is_Some (mem_get (put_bytes a l s) va).
Proof.
  revert a s. induction l as [|b l IH]; intros a s Hs; [done|]. simpl.
  by apply IH, mem_get_set_is_Some.
Qed.

Lemma region_put_bytes a n a' l s : region s a n -> region (put_bytes a' l s) a n.
Proof.
  intros [H1 H2]. split.
  - intros i Hi. by apply put_bytes_is_Some, H1.
  - intros i j. rewrite pgs_put_bytes. apply H2.
Qed.

Lemma region_mono s a n i m : region s a n -> 0 <= i -> i + m <= n -> region s (a + i) m.
Proof.
  intros [H1 H2] Hi Hm. split.
  - intros j Hj. rewrite <- Z.add_assoc. apply H1. lia.
  - intros j k Hj Hk. rewrite <- !Z.add_assoc. intros He%H2; lia.
Qed.

Lemma mem_get_put_bytes a l s (i : nat) :
  region s a (Z.of_nat (length l)) -> (i < length l)%nat ->
  mem_get (put_bytes a l s) (a + Z.of_nat i) = l !! i.
Proof.
  intros [Hm Hinj] Hi. destruct (lookup_lt_is_Some_2 l i Hi) as [b Hb]. rewrite Hb.
  rewrite <- (take_drop_middle l i b Hb), put_bytes_app. simpl.
  rewrite length_take_le by lia.
  rewrite mem_get_put_bytes_out.
  - apply mem_get_set_eq, put_bytes_is_Some, Hm. lia.
  - rewrite length_drop, pgs_mem_set, pgs_put_bytes. intros j Hj.
    replace (a + Z.of_nat i + 1 + j) with (a + (Z.of_nat i + 1 + j)) by lia.
    intros He%Hinj; lia.
Qed.

Lemma mem_set_comm a b x y s :
  cell (pgs s) a <> cell (pgs s) b ->
  mem_set a x (mem_set b y s) = mem_set b y (mem_set a x s).
Proof.
  intros Hne. unfold mem_set.
  destruct (cell (pgs s) a) as [ca|] eqn:Ea, (cell (pgs s) b) as [cb|] eqn:Eb;
    simpl; rewrite ?Ea, ?Eb; simpl; rewrite ?Ea, ?Eb; try done.
  unfold set_mem, on_mach. simpl. rewrite insert_insert_ne; congruence.
Qed.

(** A byte stored below a buffer that is already filled. *)
Lemma put_bytes_cons a b l s :
  region s a (Z.of_nat (length l) + 1) ->
  mem_set a b (put_bytes (a + 1) l s) = put_bytes a (b :: l) s.
Proof.
  intros [_ Hinj]. simpl. revert Hinj.
  assert (Hg : forall l c s, (forall i, 0 <= i < Z.of_nat (length l) ->
    cell (pgs s) a <> cell (pgs s) (c + i)) ->
    mem_set a b (put_bytes c l s) = put_bytes c l (mem_set a b s)).
  { clear. intros l. induction l as [|x l IH]; intros c s Hne; [done|]. simpl.
    rewrite IH.
    - f_equal. apply mem_set_comm. specialize (Hne 0). rewrite Z.add_0_r in Hne. apply Hne. simpl. lia.
    - intros i Hi. rewrite pgs_mem_set. replace (c + 1 + i) with (c + (i + 1)) by lia.
      apply Hne. simpl. lia. }
  intros Hinj. apply Hg. intros i Hi He.
  replace (a + 1 + i) with (a + (1 + i)) in He by lia. rewrite <- (Z.add_0_r a) in He at 1.
  apply Hinj in He; lia.
Qed.

Lemma bytes_at_put_bytes a l s :
  region s a (Z.of_nat (length l)) -> bytes_at (put_bytes a l s) a l.
Proof.
  intros Hr i b Hb. rewrite mem_get_put_bytes; [done|done|]. by eapply lookup_lt_Some.
Qed.

Lemma bytes_at_frame s s' a l :
  bytes_at s a l ->
  (forall i, 0 <= i < Z.of_nat (length l) -> mem_get s' (a + i) = mem_get s (a + i)) ->
  bytes_at s' a l.
Proof.
  intros Hb Hf i b Hi. rewrite Hf; [by apply Hb|]. apply lookup_lt_Some in Hi. lia.
Qed.

Lemma modifies_refl s a n : modifies s a n s.
Proof. split; [by destruct s as [[] ? ? ? ? ? ? ? ? ?] | done]. Qed.

Lemma modifies_pgs s a n t : modifies s a n t -> pgs t = pgs s.
Proof. by intros [-> _]. Qed.

Lemma modifies_out s a n t va :
  modifies s a n t -> outside (pgs s) a n va -> mem_get t va = mem_get s va.
Proof.
  intros [Ht Hm] Hva. assert (Hp : pgs t = pgs s) by by rewrite Ht.
  unfold mem_get. rewrite Hp. destruct (cell (pgs s) va) as [c|] eqn:Ec; [|done].
  apply Hm. intros i Hi He. by apply (Hva i Hi); rewrite He.
Qed.

Lemma modifies_set s a n t i v :
  modifies s a n t -> 0 <= i < n -> modifies s a n (mem_set (a + i) v t).
Proof.
  intros [Ht Hout] Hi. split.
  - unfold mem_set. destruct (cell _ _) as [c|]; [|done].
    rewrite Ht at 2. by unfold set_mem, on_mach.
  - intros c Hc. rewrite <- (Hout c Hc). assert (Hp : pgs t = pgs s) by by rewrite Ht.
    unfold mem_set. rewrite Hp. destruct (cell (pgs s) (a + i)) as [d|] eqn:Ed; [|done].
    apply lookup_insert_ne. intros ->. by apply (Hc i Hi).
Qed.

Lemma modifies_trans s a n t u : modifies s a n t -> modifies t a n u -> modifies s a n u.
Proof.
  intros [Ht Ho] [Hu Hp]. split.
  - rewrite Hu, Ht at 1. done.
  - intros c Hc. rewrite Hp; [by apply Ho|]. rewrite Ht. done.
Qed.

Lemma modifies_put_bytes s a n l :
  Z.of_nat (length l) <= n -> modifies s a n (put_bytes a l s).
Proof.
  induction l as [|b l IH] using rev_ind; intros Hn; [apply modifies_refl|].
  rewrite length_app in Hn. simpl in Hn. rewrite put_bytes_snoc.
  apply modifies_set; [apply IH; lia | lia].
Qed.

Lemma load8_get va s b : mem_get s va = Some b -> load8 va s = Ret b s.
Proof. unfold load8, bind, gets, get_or_fault; simpl. by intros ->. Qed.

Lemma load8_inv va s b s' : load8 va s = Ret b s' -> mem_get s va = Some b /\ s' = s.
Proof.
  unfold load8, bind, gets, get_or_fault, ret, fault; simpl.
  destruct (mem_get s va); intros [=]; subst; done.
Qed.

Lemma store8_set va v s : is_Some (mem_get s va) -> store8 va v s = Ret tt (mem_set va (u8 v) s).
Proof. intros [b Hb]. unfold store8, bind. by rewrite (load8_get _ _ _ Hb). Qed.

Lemma store8_fault va v s : mem_get s va = None -> store8 va v s = Fault va s.
Proof. intros Hn. unfold store8, load8, bind, gets, get_or_fault; simpl. by rewrite Hn. Qed.

Lemma load32_spec s a b0 b1 b2 b3 :
  bytes_at s a [b0; b1; b2; b3] ->
  load32 a s = Ret (b0 + b1 * 2 ^ 8 + b2 * 2 ^ 16 + b3 * 2 ^ 24) s.
Proof.
  intros Hb. unfold load32, bind.
  pose proof (Hb 0%nat _ eq_refl) as H0. pose proof (Hb 1%nat _ eq_refl) as H1.
  pose proof (Hb 2%nat _ eq_refl) as H2. pose proof (Hb 3%nat _ eq_refl) as H3.
  change (Z.of_nat 0) with 0 in H0. change (Z.of_nat 1) with 1 in H1.
  change (Z.of_nat 2) with 2 in H2. change (Z.of_nat 3) with 3 in H3. rewrite Z.add_0_r in H0.
  by rewrite (load8_get _ _ _ H0), (load8_get _ _ _ H1), (load8_get _ _ _ H2), (load8_get _ _ _ H3).
Qed.

Lemma mem_get_log_io e s va : mem_get (log_io e s) va = mem_get s va.
Proof. done. Qed.

Lemma bytes_at_reads s a l : bytes_at s a l -> reads s (Addr a) l.
Proof. intros Hb i b Hi. apply load8_get, Hb, Hi. Qed.

Lemma reads_Lit s l : reads s (Lit l) l.
Proof. intros i b Hi. unfold cload, get_or_fault. by rewrite (aget_Some _ _ _ Hi). Qed.

(** A constant pointer still reads the same bytes after a store elsewhere. *)
Definition unaliased (s : kernel) (p : cptr) (l : list Z) (a n : Z) : Prop :=
  match p with
  | Addr b => forall i, 0 <= i < Z.of_nat (length l) -> outside (pgs s) a n (b + i)
  | Lit _ => True
  end.

Lemma reads_put_bytes s p l a l' :
  reads s p l -> unaliased s p l a (Z.of_nat (length l')) ->
  reads (put_bytes a l' s) p l.
Proof.
  destruct p as [b|l0]; simpl; intros Hr Hout i x Hi.
  - specialize (Hr i x Hi). simpl in *. apply load8_get.
    rewrite mem_get_put_bytes_out.
    + by apply load8_inv in Hr as [-> _].
    + apply Hout. apply lookup_lt_Some in Hi. lia.
  - specialize (Hr i x Hi). simpl in *. unfold get_or_fault, ret, fault in *.
    destruct (aget l0 _); congruence.
Qed.

Lemma unaliased_mono s p l a n m : unaliased s p l a n -> m <= n -> unaliased s p l a m.
Proof.
  destruct p as [b|]; simpl; [|done]. intros Hu Hm i Hi j Hj. apply Hu; lia.
Qed.

(** One more byte of an output buffer. *)
Lemma store8_put_bytes s a n out i b :
  region s a n -> Z.of_nat (length out) <= n -> 0 <= i ->
  out !! Z.to_nat i = Some b -> 0 <= b < 256 ->
  store8 (a + i) b (put_bytes a (take (Z.to_nat i) out) s)
  = Ret tt (put_bytes a (take (Z.to_nat (i + 1)) out) s).
Proof.
  intros [Hm _] Hlen Hi Hb Hrange. pose proof (lookup_lt_Some _ _ _ Hb) as Hlt.
  rewrite store8_set by (apply put_bytes_is_Some, Hm; lia).
  rewrite u8_small by done. do 2 f_equal.
  replace (Z.to_nat (i + 1)) with (Datatypes.S (Z.to_nat i)) by lia.
  rewrite (take_S_r _ _ _ Hb), put_bytes_snoc, length_take_le by lia. f_equal. lia.
Qed.

Lemma reads_put_take s p l a n out i :
  reads s p l -> unaliased s p l a n -> Z.of_nat (length out) <= n ->
  reads (put_bytes a (take i out) s) p l.
Proof.
  intros Hr Hu Hlen. apply reads_put_bytes; [done|]. eapply unaliased_mono; [done|].
  rewrite length_take. lia.
Qed.

Lemma modifies_widen s a n b m t :
  modifies s a n t -> b <= a -> a + n <= b + m -> modifies s b m t.
Proof.
  intros [Ht Ho] Hb Hm. split; [done|]. intros c Hc. apply Ho. intros i Hi.
  replace (a + i) with (b + (a - b + i)) by lia. apply Hc. lia.
Qed.

Lemma region_modifies s t a n b m : modifies s b m t -> region s a n ->
  (forall i, 0 <= i < n -> outside (pgs s) b m (a + i)) -> region t a n.
Proof.
  intros Hm [H1 H2] Ho. split.
  - intros i Hi. rewrite (modifies_out _ _ _ _ _ Hm); [by apply H1|by apply Ho].
  - intros i j. rewrite (modifies_pgs _ _ _ _ Hm). apply H2.
Qed.

(** ** Automatic arrays *)

Lemma translate_nonneg p va c : 0 <= va -> translate p va = Some c -> 0 <= c.
Proof.
  intros Hva. unfold translate, MB4, KB4. destruct (negb (paging_on p)); [intros [= <-]; done|].
  destruct (aget (page_directory p) _) as [pde|]; [|done]. destruct (negb (Z.testbit pde 0)); [done|].
  destruct (Z.testbit pde 7).
  - intros [= <-]. pose proof (Z.mod_pos_bound va 0x400000 ltac:(lia)).
    assert (0 <= Z.land pde 4290772992) by (apply Z.land_nonneg; lia). lia.
  - destruct (_ =? _); [|done]. destruct (aget (page_table_video p) _) as [pte|]; [|done].
    destruct (Z.testbit pte 0); [|done]. intros [= <-].
    pose proof (Z.mod_pos_bound va 4096 ltac:(lia)).
    assert (0 <= Z.land pte 4294963200) by (apply Z.land_nonneg; lia). lia.
Qed.

(** No address of the program is inside an automatic array. *)
Lemma outside_local p a n va : 0 <= va -> a + n <= 0 -> outside p a n va.
Proof.
  intros Hva Ha i Hi. unfold cell at 1. rewrite (proj2 (Z.ltb_lt _ _)) by lia.
  unfold cell. rewrite (proj2 (Z.ltb_ge _ _)) by lia. intros He.
  symmetry in He. apply translate_nonneg in He; lia.
Qed.

Lemma cell_local p va : va < 0 -> cell p va = Some va.
Proof. intros Hva. unfold cell. by rewrite (proj2 (Z.ltb_lt _ _)). Qed.

Lemma outside_local2 p a n va : va < 0 -> a + n <= 0 -> va < a \/ a + n <= va -> outside p a n va.
Proof. intros Hva Ha Hd i Hi. rewrite !cell_local by lia. intros [=]. lia. Qed.

Lemma alloc_local_spec s a n :
  a + Z.of_nat n <= 0 ->
  exists t, alloc_local a n s = Ret tt t /\ modifies s a (Z.of_nat n) t /\ region t a (Z.of_nat n).
Proof.
  intros Ha. unfold alloc_local, modify. eexists. split; [reflexivity|].
  set (f := fun i m => <[a + i := u8 (garbage (a + i))]> m : gmap Z Z).
  assert (Hin : forall l c, (exists i, i ∈ l /\ c = a + i) -> is_Some (foldr f (mem (mach s)) l !! c)).
  { intros l c. induction l as [|j l IH]; intros (i & Hi & ->); [by apply elem_of_nil in Hi|].
    cbn [foldr]. unfold f at 1. destruct (decide (j = i)) as [->|Hne].
    - rewrite lookup_insert_eq. by eexists.
    - rewrite lookup_insert_ne by lia. apply IH. exists i. split; [|done].
      apply elem_of_cons in Hi as [->|]; done. }
  assert (Hout : forall l c, (forall i, i ∈ l -> c <> a + i) ->
    foldr f (mem (mach s)) l !! c = mem (mach s) !! c).
  { intros l c. induction l as [|j l IH]; intros Hc; [done|]. cbn [foldr]. unfold f at 1.
    rewrite lookup_insert_ne; [apply IH; intros i Hi; apply Hc, list_elem_of_further, Hi|].
    intros He. by apply (Hc j); [apply list_elem_of_here|]. }
  split.
  - split; [done|]. intros c Hc. apply Hout. intros i Hi%elem_of_seqZ ->.
    apply (Hc i); [lia|]. by rewrite cell_local by lia.
  - split.
    + intros i Hi. unfold mem_get. rewrite cell_local by lia. apply Hin.
      exists i. split; [apply elem_of_seqZ; lia|done].
    + intros i j Hi Hj. rewrite !cell_local by lia. intros [=]. lia.
Qed.

(** ** Closed examples *)

Lemma mem_get_ram s f a n va :
  paging_on (pgs s) = false -> mem (mach s) = ram_of f a n -> 0 <= a -> a <= va < a + n ->
  mem_get s va = Some (f va).
Proof.
  intros Hp Hm Ha Hva. unfold mem_get. rewrite cell_unpaged by (done || lia).
  rewrite Hm. by apply ram_of_lookup.
Qed.

Lemma bytes_at_ram s f a n va l :
  paging_on (pgs s) = false -> mem (mach s) = ram_of f a n -> 0 <= a ->
  a <= va -> va + Z.of_nat (length l) <= a + n -> l = map f (seqZ va (Z.of_nat (length l))) ->
  bytes_at s va l.
Proof.
  intros Hp Hm Ha Hva Hend Hl i b Hi. pose proof (lookup_lt_Some _ _ _ Hi).
  rewrite (mem_get_ram s f a n) by (done || lia). rewrite Hl in Hi.
  rewrite list_lookup_fmap, lookup_seqZ_lt in Hi by lia. by injection Hi as <-.
Qed.

(** The same where translation is the identity on the bytes read. *)
Lemma bytes_at_identity s f a n va l :
  mem (mach s) = ram_of f a n -> a <= va -> va + Z.of_nat (length l) <= a + n ->
  (forall i, 0 <= i < Z.of_nat (length l) -> cell (pgs s) (va + i) = Some (va + i)) ->
  l = map f (seqZ va (Z.of_nat (length l))) -> bytes_at s va l.
Proof.
  intros Hm Hva Hend Hc Hl i b Hi. pose proof (lookup_lt_Some _ _ _ Hi).
  unfold mem_get. rewrite Hc, Hm, ram_of_lookup by lia. rewrite Hl in Hi.
  rewrite list_lookup_fmap, lookup_seqZ_lt in Hi by lia. by injection Hi as <-.
Qed.

Lemma region_locals s a n :
  a + n <= 0 -> (forall i, 0 <= i < n -> is_Some (mem (mach s) !! (a + i))) -> region s a n.
Proof.
  intros Ha Hm. split.
  - intros i Hi. unfold mem_get. rewrite cell_local by lia. by apply Hm.
  - intros i j Hi Hj. rewrite !cell_local by lia. intros [=]. lia.
Qed.

Lemma region_ram s f a n va m :
  paging_on (pgs s) = false -> mem (mach s) = ram_of f a n -> 0 <= a ->
  a <= va -> va + m <= a + n -> region s va m.
Proof.
  intros Hp Hm Ha Hva Hend. apply region_unpaged; [done|lia|].
  intros i Hi. rewrite Hm, ram_of_lookup by lia. by eexists.
Qed.

Lemma outside_unpaged p a n va :
  paging_on p = false -> 0 <= a -> 0 <= va -> va < a \/ a + n <= va -> outside p a n va.
Proof. intros Hp Ha Hva Hd i Hi. rewrite !cell_unpaged by (done || lia). intros [=]. lia. Qed.

End memory_lemmas.
