(* ===== verification/Strings.v ===== *)
(** The string and memory routines of [src/student-distrib/lib.c]: [strlen],
    [strcpy], [strncpy], [strncmp], [strrev], [itoa] and the assembly loops of
    [memset], [memset_word], [memset_dword], [memcpy] and [memmove], with the
    reference functions they are proved equal to. *)
From stdpp Require Import base numbers list gmap strings.
From Stdlib Require Import ZArith Lia.
From S2P Require Import Prelude Machine.

Section strings.
Context `{Env}.

Definition strlen (s : cptr) : K Z :=
  loop (fun len =>
    let* c := cload s len in
    if c =? 0 then ret (inr len) else ret (inl (u32 (len + 1)))) 0.

Definition strcpy (dest : Z) (src : cptr) : K Z :=
  let* i := loop (fun i =>
    let* c := cload src i in
    if c =? 0 then ret (inr i)
    else store8 (dest + i) c ;; ret (inl (i + 1))) 0 in
  store8 (dest + i) 0 ;;
  ret dest.

Definition strncpy (dest : Z) (src : cptr) (n : Z) : K Z :=
  let* i := loop (fun i =>
    let* c := cload src i in
    if negb (c =? 0) && (i <? n)
    then store8 (dest + i) c ;; ret (inl (i + 1))
    else ret (inr i)) 0 in
  loop (fun i =>
    if i <? n then store8 (dest + i) 0 ;; ret (inl (i + 1)) else ret (inr tt)) i ;;
  ret dest.

(** The characters are [int8_t]: the result is a difference of signed bytes. *)
Definition strncmp (s1 s2 : cptr) (n : Z) : K Z :=
  loop (fun i =>
    if negb (i <? n) then ret (inr 0) else
    let* c1 := cload s1 i in
    let* c2 := cload s2 i in
    if negb (c1 =? c2) || (c1 =? 0) then ret (inr (s8 c1 - s8 c2))
    else ret (inl (i + 1))) 0.

(** The swap loop of [strrev] between the indices [beg] and [end_]. *)
Definition strrev_loop (s : Z) : Z * Z -> K unit :=
  loop (fun be : Z * Z =>
    if fst be <? snd be then
      let* tmp := load8 (s + snd be) in
      let* b := load8 (s + fst be) in
      store8 (s + snd be) b ;;
      store8 (s + fst be) tmp ;;
      ret (inl (fst be + 1, snd be - 1))
    else ret (inr tt)).

Definition strrev (s : Z) : K Z :=
  let* len := strlen (Addr s) in
  strrev_loop s (0, s32 (len - 1)) ;;
  ret s.

Definition itoa_lookup : list Z := bytes_of "0123456789ABCDEFGHIJKLMNOPQRSTUVWXYZ" ++ [0].

Definition itoa (value buf radix : Z) : K Z :=
  if value =? 0 then
    store8 buf 48 ;;
    store8 (buf + 1) 0 ;;
    ret buf
  else
    if u32 radix =? 0 then fault 0 else
    let* newbuf := loop (fun st : Z * Z =>
      let '(newval, newbuf) := st in
      if 0 <? newval then
        let i := newval mod u32 radix in
        let* d := get_or_fault i (aget itoa_lookup i) in
        store8 newbuf d ;;
        ret (inl (newval / u32 radix, newbuf + 1))
      else ret (inr newbuf)) (value, buf) in
    store8 newbuf 0 ;;
    strrev buf.

(** [rep stosl] with [eax]: [ecx] doubleword stores from [edi] up. *)
Definition rep_stosl (eax : Z) : Z * Z -> K Z :=
  loop (fun st : Z * Z =>
    let '(edi, ecx) := st in
    if ecx =? 0 then ret (inr edi)
    else store32 edi eax ;; ret (inl (edi + 4, ecx - 1))).

(** [movb %al, (%edi)] until the count is used up. *)
Definition memset_bottom (al : Z) : Z * Z -> K unit :=
  loop (fun st : Z * Z =>
    let '(edi, edx) := st in
    if edx =? 0 then ret (inr tt)
    else store8 edi al ;; ret (inl (edi + 1, edx - 1))).

Definition memset (s c n : Z) : K Z :=
  let c := Z.land c 0xFF in
  let eax := Z.lor (Z.lor (Z.lor (Z.shiftl c 24) (Z.shiftl c 16)) (Z.shiftl c 8)) c in
  let* r := loop (fun st : Z * Z =>
    let '(edi, ecx) := st in
    if ecx =? 0 then ret (inr (edi, ecx))
    else if Z.land edi 3 =? 0 then ret (inr (edi, ecx))
    else store8 edi eax ;; ret (inl (edi + 1, ecx - 1))) (s, n) in
  (if snd r =? 0 then ret tt else
   let* edi := rep_stosl eax (fst r, Z.shiftr (snd r) 2) in
   memset_bottom eax (edi, Z.land (snd r) 3)) ;;
  ret s.

Definition memset_word (s c n : Z) : K Z :=
  loop (fun st : Z * Z =>
    let '(edi, ecx) := st in
    if ecx =? 0 then ret (inr tt)
    else store8 edi c ;; store8 (edi + 1) (Z.shiftr c 8) ;; ret (inl (edi + 2, ecx - 1))) (s, n) ;;
  ret s.

Definition memset_dword (s c n : Z) : K Z :=
  rep_stosl c (s, n) ;; ret s.

(** [rep movsl]: [ecx] doublewords from [esi] to [edi], upwards. *)
Definition rep_movsl : Z * Z * Z -> K (Z * Z) :=
  loop (fun st : Z * Z * Z =>
    let '(esi, edi, ecx) := st in
    if ecx =? 0 then ret (inr (esi, edi))
    else let* v := load32 esi in store32 edi v ;; ret (inl (esi + 4, edi + 4, ecx - 1))).

Definition memcpy_bottom : Z * Z * Z -> K unit :=
  loop (fun st : Z * Z * Z =>
    let '(esi, edi, edx) := st in
    if edx =? 0 then ret (inr tt)
    else let* al := load8 esi in store8 edi al ;; ret (inl (esi + 1, edi + 1, edx - 1))).

Definition memcpy (dest src n : Z) : K Z :=
  let* r := loop (fun st : Z * Z * Z =>
    let '(esi, edi, ecx) := st in
    if ecx =? 0 then ret (inr st)
    else if Z.land edi 3 =? 0 then ret (inr st)
    else let* al := load8 esi in store8 edi al ;; ret (inl (esi + 1, edi + 1, ecx - 1)))
    (src, dest, n) in
  (let '(esi, edi, ecx) := r in
   if ecx =? 0 then ret tt else
   let* q := rep_movsl (esi, edi, Z.shiftr ecx 2) in
   memcpy_bottom (fst q, snd q, Z.land ecx 3)) ;;
  ret dest.

(** [rep movsb] in the direction [d] = 1 or -1. *)
Definition rep_movsb (d : Z) : Z * Z * Z -> K unit :=
  loop (fun st : Z * Z * Z =>
    let '(esi, edi, ecx) := st in
    if ecx =? 0 then ret (inr tt)
    else let* b := load8 esi in store8 edi b ;; ret (inl (esi + d, edi + d, ecx - 1))).

Definition memmove (dest src n : Z) : K Z :=
  (if dest <=? src then rep_movsb 1 (src, dest, n)
   else rep_movsb (-1) (src + n - 1, dest + n - 1, n)) ;;
  ret dest.

End strings.

(** * Reference functions *)

(** The bytes before the terminator; [None] when there is none. *)
Fixpoint cstring (l : list Z) : option (list Z) :=
  match l with
  | [] => None
  | b :: l' => if b =? 0 then Some [] else cons b <$> cstring l'
  end.

(** What [strncpy] stores for a source that reads [l]; it looks at one source
    byte more than it copies. *)
Fixpoint strncpy_ref (n : nat) (l : list Z) {struct l} : option (list Z) :=
  match l with
  | [] => None
  | b :: l' =>
    if b =? 0 then Some (replicate n 0)
    else match n with O => Some [] | Datatypes.S n' => cons b <$> strncpy_ref n' l' end
  end.

Fixpoint strncmp_ref (n : nat) (l1 l2 : list Z) : option Z :=
  match n with
  | O => Some 0
  | Datatypes.S n' =>
    match l1, l2 with
    | b1 :: l1', b2 :: l2' =>
      if negb (b1 =? b2) || (b1 =? 0) then Some (s8 b1 - s8 b2) else strncmp_ref n' l1' l2'
    | _, _ => None
    end
  end.

(** The value of a string of digits in a base up to 36, read left to right. *)
Definition digit_val (c : Z) : Z := if c <? 58 then c - 48 else c - 55.
Definition num_val (radix : Z) (w : list Z) : Z :=
  foldl (fun acc c => acc * radix + digit_val c) 0 w.

Lemma cstring_app w r : Forall (fun b => b <> 0) w -> cstring (w ++ 0 :: r) = Some w.
Proof. induction 1 as [|b w Hb _ IH]; [done|]. simpl. by rewrite (proj2 (Z.eqb_neq b 0)), IH. Qed.

Lemma cstring_spec l w :
  cstring l = Some w -> exists r, l = w ++ 0 :: r /\ Forall (fun b => b <> 0) w.
Proof.
  revert w. induction l as [|b l IH]; intros w; simpl; [done|].
  destruct (b =? 0) eqn:E; unbool.
  - intros [= <-]. subst. exists l. done.
  - destruct (cstring l) as [w'|]; [|done]. intros [= <-].
    destruct (IH w' eq_refl) as (r & -> & Hw). exists r. split; [done|]. by constructor.
Qed.

Section string_lemmas.
Context `{Env}.
Implicit Types (s : kernel).

Lemma reads_char s p w r (i : Z) :
  reads s p (w ++ 0 :: r) -> Forall (fun b => b <> 0) w -> 0 <= i <= Z.of_nat (length w) ->
  exists c, cload p i s = Ret c s /\ (c = 0 <-> i = Z.of_nat (length w)) /\
            (i < Z.of_nat (length w) -> w !! Z.to_nat i = Some c).
Proof.
  intros Hr Hw Hi.
  destruct (decide (i = Z.of_nat (length w))) as [->|Hne].
  - exists 0. split; [|split; [done|lia]]. apply Hr.
    by rewrite lookup_app_r, Nat.sub_diag by lia.
  - destruct (lookup_lt_is_Some_2 w (Z.to_nat i)) as [c Hc]; [lia|].
    exists c. split; [|split; [|done]].
    + rewrite <- (Z2Nat.id i) by lia. apply Hr. by rewrite lookup_app_l by lia.
    + split; [|lia]. intros ->. by apply (Forall_lookup_1 _ _ _ _ Hw) in Hc.
Qed.

(** ** strlen *)

Lemma strlen_spec s p l w :
  reads s p l -> cstring l = Some w -> Z.of_nat (length w) < 2 ^ 32 ->
  strlen p s = Ret (Z.of_nat (length w)) s.
Proof.
  intros Hr (r & -> & Hw)%cstring_spec Hlen. apply Ret_of_wp. unfold strlen.
  apply wp_loop with (I := fun i t => t = s /\ 0 <= i <= Z.of_nat (length w))
    (mu := fun i _ => Z.of_nat (length w) - i);
    [solve_inv | unfold loop_fuel; lia |].
  intros i t [-> Hi]. split; [lia|].
  destruct (reads_char s p w r i Hr Hw Hi) as (c & Hc & Hz & _).
  wp_step. wp_use Hc. wp_step; wp_step; unbool.
  - split; [|done]. tauto.
  - assert (i <> Z.of_nat (length w)) by tauto. rewrite u32_small by lia. solve_inv.
Qed.

(** ** strncmp *)

Lemma strncmp_spec s p1 p2 l1 l2 n v :
  reads s p1 l1 -> reads s p2 l2 -> 0 <= n < 2 ^ 32 ->
  strncmp_ref (Z.to_nat n) l1 l2 = Some v ->
  strncmp p1 p2 n s = Ret v s.
Proof.
  intros H1 H2 Hn Hv. apply Ret_of_wp. unfold strncmp.
  apply wp_loop with
    (I := fun i t => t = s /\ 0 <= i <= n /\
       strncmp_ref (Z.to_nat (n - i)) (drop (Z.to_nat i) l1) (drop (Z.to_nat i) l2) = Some v)
    (mu := fun i _ => n - i);
    [rewrite Z.sub_0_r; solve_inv | unfold loop_fuel; lia |].
  intros i t (-> & Hi & Href). split; [lia|]. wp_step; unbool.
  - wp_step. replace (Z.to_nat (n - i)) with O in Href by lia. by injection Href as <-.
  - replace (Z.to_nat (n - i)) with (Datatypes.S (Z.to_nat (n - i - 1))) in Href by lia.
    simpl in Href.
    destruct (drop (Z.to_nat i) l1) as [|b1 d1] eqn:D1; [done|].
    destruct (drop (Z.to_nat i) l2) as [|b2 d2] eqn:D2; [done|].
    assert (E1 : l1 !! Z.to_nat i = Some b1) by (by rewrite <- (Nat.add_0_r (Z.to_nat i)), <- lookup_drop, D1).
    assert (E2 : l2 !! Z.to_nat i = Some b2) by (by rewrite <- (Nat.add_0_r (Z.to_nat i)), <- lookup_drop, D2).
    apply H1 in E1. apply H2 in E2. rewrite Z2Nat.id in E1, E2 by lia.
    wp_step. wp_use E1. wp_step. wp_use E2. destruct (negb (b1 =? b2) || (b1 =? 0)) eqn:Hb.
    + wp_step. by injection Href as <-.
    + wp_step. split; [|lia]. split; [done|]. split; [lia|].
      replace (n - (i + 1)) with (n - i - 1) by lia.
      replace (Z.to_nat (i + 1)) with (Z.to_nat i + 1)%nat by lia.
      rewrite <- !drop_drop, D1, D2. by rewrite skipn_cons.
Qed.
(** ** strncpy *)

Lemma strncpy_ref_length n l out : strncpy_ref n l = Some out -> length out = n.
Proof.
  revert n out. induction l as [|b l IH]; intros n out; simpl; [done|].
  destruct (b =? 0); [intros [= <-]; apply length_replicate|].
  destruct n as [|n]; [by intros [= <-]|].
  destruct (strncpy_ref n l) as [o|] eqn:E; [|done]. intros [= <-]. simpl. f_equal. by apply IH.
Qed.

(** The first loop of [strncpy] stops after [k] copied bytes, the rest is zero. *)
Lemma strncpy_ref_split n l out :
  strncpy_ref n l = Some out ->
  exists k, (k <= n)%nat /\ drop k out = replicate (n - k) 0 /\
    (forall i, (i < k)%nat -> exists b, l !! i = Some b /\ out !! i = Some b /\ b <> 0) /\
    exists b, l !! k = Some b /\ (b = 0 \/ k = n).
Proof.
  revert n out. induction l as [|b l IH]; intros n out; simpl; [done|].
  destruct (b =? 0) eqn:Eb; unbool.
  - intros [= <-]. exists O. rewrite Nat.sub_0_r. split_and!; [lia|done|lia|]. exists b. auto.
  - destruct n as [|n].
    + intros [= <-]. exists O. split_and!; [lia|done|lia|]. exists b. auto.
    + destruct (strncpy_ref n l) as [o|] eqn:E; [|done]. intros [= <-].
      destruct (IH n o E) as (k & Hk & Hd & Hc & b' & Hb' & Hz).
      exists (Datatypes.S k). split_and!; [lia|done| |].
      * intros [|i] Hi; [by exists b|]. simpl. apply Hc. lia.
      * exists b'. split; [done|]. destruct Hz; [by left | right; lia].
Qed.

Lemma strncpy_spec s dest p l n out :
  reads s p l -> bytes l -> 0 <= n < 2 ^ 31 -> region s dest n -> unaliased s p l dest n ->
  strncpy_ref (Z.to_nat n) l = Some out ->
  strncpy dest p n s = Ret dest (put_bytes dest out s).
Proof.
  intros Hr Hbytes Hn Hreg Hu Hout. pose proof (strncpy_ref_length _ _ _ Hout) as Hlen.
  destruct (strncpy_ref_split _ _ _ Hout) as (k & Hk & Hzero & Hcopy & bk & Hbk & Hstop).
  apply Ret_of_wp. unfold strncpy. wp_step.
  apply wp_loop with
    (I := fun i t => 0 <= i <= Z.of_nat k /\ t = put_bytes dest (take (Z.to_nat i) out) s)
    (mu := fun i _ => Z.of_nat k - i); [solve_inv | unfold loop_fuel; lia |].
  intros i t (Hi & ->). split; [lia|].
  pose proof (reads_put_take s p l dest n out (Z.to_nat i) Hr Hu ltac:(lia)) as Hrt.
  destruct (decide (i = Z.of_nat k)) as [->|Hne].
  - wp_step. wp_use (Hrt k bk Hbk). rewrite Nat2Z.id. wp_step.
    { exfalso. unbool. lia. }
    wp_step.
    wp_step. apply wp_loop with
      (I := fun i t => Z.of_nat k <= i <= n /\ t = put_bytes dest (take (Z.to_nat i) out) s)
      (mu := fun i _ => n - i); [rewrite Nat2Z.id; solve_inv | unfold loop_fuel; lia |].
    intros i t (Hi' & ->). split; [lia|]. wp_step; unbool.
    + assert (Hz : out !! Z.to_nat i = Some 0).
      { replace (Z.to_nat i) with (k + (Z.to_nat i - k))%nat by lia.
        rewrite <- lookup_drop, Hzero. apply lookup_replicate_2. lia. }
      wp_step. wp_use (store8_put_bytes s dest n out i 0 Hreg ltac:(lia) ltac:(lia) Hz ltac:(lia)).
      wp_step. solve_inv.
    + wp_step. wp_step. split; [done|]. rewrite take_ge by lia. done.
  - destruct (Hcopy (Z.to_nat i)) as (b & Hb & Hob & Hb0); [lia|].
    wp_step. specialize (Hrt _ _ Hb). rewrite Z2Nat.id in Hrt by lia. wp_use Hrt.
    wp_step; unbool; [|lia]. wp_step.
    wp_use (store8_put_bytes s dest n out i b Hreg ltac:(lia) ltac:(lia) Hob
              (Forall_lookup_1 _ _ _ _ Hbytes Hb)).
    wp_step. solve_inv.
Qed.

(** ** strcpy *)

Lemma strcpy_spec s dest p l w :
  reads s p l -> cstring l = Some w -> bytes w ->
  region s dest (Z.of_nat (length w) + 1) ->
  unaliased s p l dest (Z.of_nat (length w) + 1) -> Z.of_nat (length w) < 2 ^ 31 ->
  strcpy dest p s = Ret dest (put_bytes dest (w ++ [0]) s).
Proof.
  intros Hr (r & -> & Hnz)%cstring_spec Hb Hreg Hu Hlen.
  apply Ret_of_wp. unfold strcpy. wp_step.
  apply wp_loop with
    (I := fun i t => 0 <= i <= Z.of_nat (length w) /\ t = put_bytes dest (take (Z.to_nat i) w) s)
    (mu := fun i _ => Z.of_nat (length w) - i); [solve_inv | unfold loop_fuel; lia |].
  intros i t (Hi & ->). split; [lia|].
  pose proof (reads_put_take s p (w ++ 0 :: r) dest _ w (Z.to_nat i) Hr Hu ltac:(lia)) as Hrt.
  destruct (reads_char _ p w r i Hrt Hnz Hi) as (c & Hc & Hz & Hin).
  wp_step. wp_use Hc. wp_step; unbool.
  - assert (i = Z.of_nat (length w)) as -> by tauto. rewrite take_ge by lia.
    wp_step. wp_step. destruct Hreg as [Hm _].
    eapply wp_of_Ret; [apply store8_set, put_bytes_is_Some, Hm; lia|].
    wp_step. by rewrite put_bytes_snoc.
  - assert (i <> Z.of_nat (length w)) by tauto. pose proof (Hin ltac:(lia)) as Hwi.
    wp_step. wp_use (store8_put_bytes s dest _ w i c Hreg ltac:(lia) ltac:(lia) Hwi
      (Forall_lookup_1 _ _ _ _ Hb Hwi)).
    wp_step. solve_inv.
Qed.

(** ** memset *)

Definition filled (a c i : Z) (s : kernel) : kernel := put_bytes a (replicate (Z.to_nat i) c) s.

Lemma store8_filled s a n c i va j :
  region s a n -> 0 <= c < 256 -> 0 <= i < n -> va = a + i -> j = i + 1 ->
  store8 va c (filled a c i s) = Ret tt (filled a c j s).
Proof.
  intros Hr Hc Hi -> ->. unfold filled.
  pose proof (store8_put_bytes s a n (replicate (Z.to_nat n) c) i c Hr) as Hs.
  rewrite !take_replicate, length_replicate in Hs.
  replace (Z.to_nat i `min` Z.to_nat n)%nat with (Z.to_nat i) in Hs by lia.
  replace (Z.to_nat (i + 1) `min` Z.to_nat n)%nat with (Z.to_nat (i + 1)) in Hs by lia.
  apply Hs; [lia|lia| |done]. apply lookup_replicate_2. lia.
Qed.

Ltac wp_fill :=
  eapply wp_of_Ret; [eapply store8_filled;
    [eassumption | eassumption | lia | lia | reflexivity] |]; cbn beta iota.

Definition fill_word (c : Z) : Z :=
  Z.lor (Z.lor (Z.lor (Z.shiftl c 24) (Z.shiftl c 16)) (Z.shiftl c 8)) c.

Lemma fill_word_bytes c :
  0 <= c < 256 ->
  u8 (fill_word c) = c /\ u8 (Z.shiftr (fill_word c) 8) = c /\
  u8 (Z.shiftr (fill_word c) 16) = c /\ u8 (Z.shiftr (fill_word c) 24) = c.
Proof.
  intros Hc.
  pose proof (byte_cases (fun c => (u8 (fill_word c) =? c) && (u8 (Z.shiftr (fill_word c) 8) =? c) &&
    (u8 (Z.shiftr (fill_word c) 16) =? c) && (u8 (Z.shiftr (fill_word c) 24) =? c))
    eq_refl c Hc) as Hb.
  cbn beta in Hb. unbool. done.
Qed.

Lemma word_bytes b0 b1 b2 b3 :
  0 <= b0 < 256 -> 0 <= b1 < 256 -> 0 <= b2 < 256 -> 0 <= b3 < 256 ->
  let v := b0 + b1 * 2 ^ 8 + b2 * 2 ^ 16 + b3 * 2 ^ 24 in
  u8 v = b0 /\ u8 (Z.shiftr v 8) = b1 /\ u8 (Z.shiftr v 16) = b2 /\ u8 (Z.shiftr v 24) = b3.
Proof.
  intros R0 R1 R2 R3 v. unfold u8, v. rewrite !Z.shiftr_div_pow2 by lia.
  Z.div_mod_to_equations. lia.
Qed.

(** A store truncates its operand to a byte. *)
Lemma store8_u8 va v v' : u8 v = u8 v' -> store8 va v = store8 va v'.
Proof. intros He. unfold store8. by rewrite He. Qed.

Lemma rep_stosl_spec s a n c i q :
  region s a n -> 0 <= c < 256 -> 0 <= i -> 0 <= q < 2 ^ 32 -> i + 4 * q <= n ->
  rep_stosl (fill_word c) (a + i, q) (filled a c i s)
  = Ret (a + i + 4 * q) (filled a c (i + 4 * q) s).
Proof.
  intros Hr Hc Hi Hq Hn. apply Ret_of_wp. unfold rep_stosl.
  destruct (fill_word_bytes c Hc) as (B0 & B1 & B2 & B3).
  apply wp_loop with
    (I := fun st t => exists j, 0 <= j <= q /\ st = (a + i + 4 * j, q - j) /\
       t = filled a c (i + 4 * j) s)
    (mu := fun st _ => snd st); [exists 0; solve_inv; f_equal; lia | unfold loop_fuel; simpl; lia |].
  intros st t (j & Hj & -> & ->). simpl. split; [lia|]. wp_step; unbool.
  - wp_step. replace j with q by lia. done.
  - unfold store32. rewrite (store8_u8 _ (fill_word c) c), (store8_u8 _ (Z.shiftr _ 8) c),
      (store8_u8 _ (Z.shiftr _ 16) c), (store8_u8 _ (Z.shiftr _ 24) c)
      by (rewrite ?B0, ?B1, ?B2, ?B3; symmetry; by apply u8_small).
    wp_step.
    wp_step. wp_fill.
    wp_step. wp_fill.
    wp_step. wp_fill.
    wp_fill.
    wp_step. split; [|simpl; lia]. exists (j + 1). split; [lia|]. split; f_equal; lia.
Qed.

Lemma memset_bottom_spec s a n c i m :
  region s a n -> 0 <= c < 256 -> 0 <= i -> 0 <= m < 2 ^ 32 -> i + m <= n ->
  memset_bottom (fill_word c) (a + i, m) (filled a c i s) = Ret tt (filled a c (i + m) s).
Proof.
  intros Hr Hc Hi Hm Hn. apply Ret_of_wp. unfold memset_bottom.
  destruct (fill_word_bytes c Hc) as (B0 & _).
  apply wp_loop with
    (I := fun st t => exists j, 0 <= j <= m /\ st = (a + i + j, m - j) /\
       t = filled a c (i + j) s)
    (mu := fun st _ => snd st); [exists 0; solve_inv; f_equal; lia | unfold loop_fuel; simpl; lia |].
  intros st t (j & Hj & -> & ->). simpl. split; [lia|]. wp_step; unbool.
  - wp_step. replace j with m by lia. done.
  - rewrite (store8_u8 _ (fill_word c) c) by (rewrite B0; symmetry; by apply u8_small).
    wp_step. wp_fill.
    wp_step. split; [|simpl; lia]. exists (j + 1). split; [lia|]. split; f_equal; lia.
Qed.

Lemma memset_spec s a c n :
  region s a n -> 0 <= n < 2 ^ 32 ->
  memset a c n s = Ret a (put_bytes a (replicate (Z.to_nat n) (u8 c)) s).
Proof.
  intros Hr Hn. apply Ret_of_wp. unfold memset.
  change 0xFF with (Z.ones 8). rewrite Z.land_ones by lia. fold (u8 c).
  pose proof (u8_range c) as Hc. generalize dependent (u8 c). clear c. intros c Hc.
  fold (fill_word c). destruct (fill_word_bytes c Hc) as (B0 & _).
  wp_step. eapply (wp_loop (fun st t => exists i, 0 <= i <= n /\ st = (a + i, n - i) /\
       t = filled a c i s) (fun st _ => snd st)).
  - exists 0. unfold filled. solve_inv.
  - unfold loop_fuel; simpl; lia.
  - intros st t (i & Hi & -> & ->). simpl. split; [lia|].
    assert (Hend : wp ((if snd (a + i, n - i) =? 0 then ret tt
      else bind (rep_stosl (fill_word c) (fst (a + i, n - i), Z.shiftr (snd (a + i, n - i)) 2))
        (fun edi => memset_bottom (fill_word c) (edi, Z.land (snd (a + i, n - i)) 3))) ;; ret a)
      (fun a' t => a' = a /\ t = put_bytes a (replicate (Z.to_nat n) c) s) (fun _ _ => False)
      (filled a c i s)).
    { simpl. wp_step. wp_step; unbool.
      { do 2 wp_step. by replace i with n by lia. }
      change 3 with (Z.ones 2). rewrite Z.land_ones, Z.shiftr_div_pow2 by lia.
      pose proof (Z.div_mod (n - i) (2 ^ 2) ltac:(lia)) as Hdm.
      pose proof (Z.mod_pos_bound (n - i) (2 ^ 2) ltac:(lia)).
      assert (0 <= (n - i) / 2 ^ 2) by (apply Z.div_pos; lia).
      wp_step. wp_use (rep_stosl_spec s a n c i ((n - i) / 2 ^ 2) Hr Hc ltac:(lia) ltac:(lia) ltac:(lia)).
      rewrite <- Z.add_assoc.
      wp_use (memset_bottom_spec s a n c (i + 4 * ((n - i) / 2 ^ 2)) ((n - i) mod 2 ^ 2) Hr Hc
        ltac:(lia) ltac:(lia) ltac:(lia)).
      wp_step. split; [done|]. unfold filled. do 3 f_equal. lia. }
    wp_step; [by wp_step|]. wp_step; [by wp_step|]. unbool.
    rewrite (store8_u8 _ (fill_word c) c) by (rewrite B0; symmetry; by apply u8_small).
    wp_step. wp_fill.
    wp_step. split; [|simpl; lia]. exists (i + 1). split; [lia|]. split; [f_equal; lia|done].
Qed.
(** ** memcpy and memmove *)

Definition copied (a : Z) (l : list Z) (i : Z) (s : kernel) : kernel :=
  put_bytes a (take (Z.to_nat i) l) s.

Section copy.
Variables (s : kernel) (dest src : Z) (l : list Z).
Hypothesis Hsrc : bytes_at s src l.
Hypothesis Hbytes : bytes l.
Hypothesis Hdest : region s dest (Z.of_nat (length l)).
Hypothesis Halias : unaliased s (Addr src) l dest (Z.of_nat (length l)).

Lemma load_copied i j va :
  0 <= j < Z.of_nat (length l) -> va = src + j ->
  exists b, l !! Z.to_nat j = Some b /\ 0 <= b < 256 /\
    load8 va (copied dest l i s) = Ret b (copied dest l i s).
Proof using Hsrc Hbytes Halias.
  intros Hj ->. destruct (lookup_lt_is_Some_2 l (Z.to_nat j)) as [b Hb]; [lia|].
  exists b. split; [done|]. split; [by apply (Forall_lookup_1 _ _ _ _ Hbytes Hb)|].
  pose proof (reads_put_take s (Addr src) l dest _ l (Z.to_nat i)
    (bytes_at_reads _ _ _ Hsrc) Halias ltac:(lia) _ _ Hb) as Hr.
  simpl in Hr. by rewrite Z2Nat.id in Hr by lia.
Qed.

Lemma store_copied i b va j :
  0 <= i -> l !! Z.to_nat i = Some b -> 0 <= b < 256 -> va = dest + i -> j = i + 1 ->
  store8 va b (copied dest l i s) = Ret tt (copied dest l j s).
Proof using Hdest.
  intros Hi Hb Hr -> ->. by apply (store8_put_bytes s dest _ l i b Hdest).
Qed.

Lemma rep_movsl_spec i q :
  0 <= i -> 0 <= q < 2 ^ 32 -> i + 4 * q <= Z.of_nat (length l) ->
  rep_movsl (src + i, dest + i, q) (copied dest l i s)
  = Ret (src + i + 4 * q, dest + i + 4 * q) (copied dest l (i + 4 * q) s).
Proof using Hsrc Hbytes Hdest Halias.
  intros Hi Hq Hn. apply Ret_of_wp. unfold rep_movsl.
  apply wp_loop with
    (I := fun st t => exists j, 0 <= j <= q /\
       st = (src + i + 4 * j, dest + i + 4 * j, q - j) /\ t = copied dest l (i + 4 * j) s)
    (mu := fun st _ => snd st);
    [exists 0; solve_inv; f_equal; lia | unfold loop_fuel; simpl; lia |].
  intros st t (j & Hj & -> & ->). simpl. split; [lia|]. wp_step; unbool.
  - wp_step. replace j with q by lia. done.
  - set (k := i + 4 * j). set (t0 := copied dest l k s).
    destruct (load_copied k k (src + i + 4 * j)) as (b0 & H0 & R0 & L0); [lia..|].
    destruct (load_copied k (k + 1) (src + i + 4 * j + 1)) as (b1 & H1 & R1 & L1); [lia..|].
    destruct (load_copied k (k + 2) (src + i + 4 * j + 2)) as (b2 & H2 & R2 & L2); [lia..|].
    destruct (load_copied k (k + 3) (src + i + 4 * j + 3)) as (b3 & H3 & R3 & L3); [lia..|].
    unfold load32. wp_step. wp_step. wp_use L0. wp_step. wp_use L1. wp_step. wp_use L2.
    wp_step. wp_use L3. wp_step.
    destruct (word_bytes b0 b1 b2 b3 R0 R1 R2 R3) as (B0 & B1 & B2 & B3).
    unfold store32. rewrite (store8_u8 _ (b0 + _ + _ + _) b0), (store8_u8 _ (Z.shiftr _ 8) b1),
      (store8_u8 _ (Z.shiftr _ 16) b2), (store8_u8 _ (Z.shiftr _ 24) b3)
      by (rewrite ?B0, ?B1, ?B2, ?B3; symmetry; by apply u8_small).
    wp_step. wp_step. eapply wp_of_Ret; [apply (store_copied k b0); [lia|done|done|lia|reflexivity]|].
    wp_step. eapply wp_of_Ret; [apply (store_copied (k + 1) b1); [lia|done|done|lia|reflexivity]|].
    wp_step. eapply wp_of_Ret; [apply (store_copied (k + 1 + 1) b2);
      [lia|by replace (k + 1 + 1) with (k + 2) by lia|done|lia|reflexivity]|].
    eapply wp_of_Ret; [apply (store_copied (k + 1 + 1 + 1) b3);
      [lia|by replace (k + 1 + 1 + 1) with (k + 3) by lia|done|lia|reflexivity]|].
    wp_step. split; [|simpl; lia]. exists (j + 1). solve_inv; f_equal; lia.
Qed.
Lemma memcpy_bottom_spec i m :
  0 <= i -> 0 <= m < 2 ^ 32 -> i + m <= Z.of_nat (length l) ->
  memcpy_bottom (src + i, dest + i, m) (copied dest l i s) = Ret tt (copied dest l (i + m) s).
Proof using Hsrc Hbytes Hdest Halias.
  intros Hi Hm Hn. apply Ret_of_wp. unfold memcpy_bottom.
  apply wp_loop with
    (I := fun st t => exists j, 0 <= j <= m /\
       st = (src + i + j, dest + i + j, m - j) /\ t = copied dest l (i + j) s)
    (mu := fun st _ => snd st);
    [exists 0; solve_inv; f_equal; lia | unfold loop_fuel; simpl; lia |].
  intros st t (j & Hj & -> & ->). simpl. split; [lia|]. wp_step; unbool.
  - wp_step. replace j with m by lia. done.
  - destruct (load_copied (i + j) (i + j) (src + i + j)) as (b & Hb & Rb & Lb); [lia..|].
    wp_step. wp_use Lb. wp_step.
    eapply wp_of_Ret; [apply (store_copied (i + j) b); [lia|done|done|lia|reflexivity]|].
    wp_step. split; [|simpl; lia]. exists (j + 1). solve_inv; f_equal; lia.
Qed.

Lemma memcpy_spec n :
  n = Z.of_nat (length l) -> n < 2 ^ 32 ->
  memcpy dest src n s = Ret dest (put_bytes dest l s).
Proof using Hsrc Hbytes Hdest Halias.
  intros Hlen Hn. apply Ret_of_wp. unfold memcpy. wp_step.
  eapply (wp_loop (fun st t => exists i, 0 <= i <= n /\ st = (src + i, dest + i, n - i) /\
       t = copied dest l i s) (fun st _ => snd st)).
  - exists 0. unfold copied. solve_inv.
  - unfold loop_fuel; simpl; lia.
  - intros st t (i & Hi & -> & ->). simpl. split; [lia|].
    assert (Hend : wp ((if n - i =? 0 then ret tt else
       bind (rep_movsl (src + i, dest + i, Z.shiftr (n - i) 2))
         (fun q => memcpy_bottom (fst q, snd q, Z.land (n - i) 3))) ;; ret dest)
      (fun a' t => a' = dest /\ t = put_bytes dest l s) (fun _ _ => False) (copied dest l i s)).
    { wp_step. wp_step; unbool.
      { do 2 wp_step. split; [done|]. unfold copied. rewrite take_ge by lia. done. }
      change 3 with (Z.ones 2). rewrite Z.land_ones, Z.shiftr_div_pow2 by lia.
      pose proof (Z.div_mod (n - i) (2 ^ 2) ltac:(lia)) as Hdm.
      pose proof (Z.mod_pos_bound (n - i) (2 ^ 2) ltac:(lia)).
      assert (0 <= (n - i) / 2 ^ 2) by (apply Z.div_pos; lia).
      set (q := (n - i) / 2 ^ 2) in *. set (r := (n - i) mod 2 ^ 2) in *.
      wp_step. wp_use (rep_movsl_spec i q ltac:(lia) ltac:(lia) ltac:(lia)). simpl.
      rewrite <- !Z.add_assoc.
      wp_use (memcpy_bottom_spec (i + 4 * q) r ltac:(lia) ltac:(lia) ltac:(lia)).
      wp_step. split; [done|]. unfold copied. rewrite take_ge by lia. done. }
    wp_step; [wp_step; rewrite Hif; exact Hend|]. wp_step; [wp_step; rewrite Hif; exact Hend|]. unbool.
    destruct (load_copied i i (src + i)) as (b & Hb & Rb & Lb); [lia..|].
    wp_step. wp_use Lb. wp_step.
    eapply wp_of_Ret; [apply (store_copied i b); [lia|done|done|lia|reflexivity]|].
    wp_step. split; [|simpl; lia]. exists (i + 1). solve_inv.
Qed.
End copy.

(** [memmove] copies correctly whatever the overlap: source and destination lie
    anywhere in one stretch of distinct bytes. *)
Lemma memmove_spec s dest src l base N :
  region s base N -> base <= src -> src + Z.of_nat (length l) <= base + N ->
  base <= dest -> dest + Z.of_nat (length l) <= base + N ->
  Z.of_nat (length l) < 2 ^ 32 -> bytes_at s src l -> bytes l ->
  memmove dest src (Z.of_nat (length l)) s = Ret dest (put_bytes dest l s).
Proof.
  intros Hreg Hs1 Hs2 Hd1 Hd2 Hn Hsrc Hb. set (n := Z.of_nat (length l)) in *.
  assert (Hdest : region s dest n).
  { replace dest with (base + (dest - base)) by lia. eapply region_mono; [done|lia|lia]. }
  assert (Hne : forall i j, 0 <= i < n -> 0 <= j < n -> dest + i <> src + j ->
    cell (pgs s) (dest + i) <> cell (pgs s) (src + j)).
  { intros i j Hi Hj Hne He. apply Hne.
    replace (dest + i) with (base + (dest + i - base)) in He |- * by lia.
    replace (src + j) with (base + (src + j - base)) in He |- * by lia.
    apply Hreg in He; lia. }
  assert (Hget : forall i, 0 <= i < n -> exists b, l !! Z.to_nat i = Some b /\ 0 <= b < 256 /\
    mem_get s (src + i) = Some b).
  { intros i Hi. destruct (lookup_lt_is_Some_2 l (Z.to_nat i)) as [b Hlb]; [lia|].
    exists b. split; [done|]. split; [by apply (Forall_lookup_1 _ _ _ _ Hb Hlb)|].
    rewrite <- (Z2Nat.id i) by lia. by apply Hsrc. }
  apply Ret_of_wp. unfold memmove. wp_step. wp_step; unbool.
  - unfold rep_movsb. apply wp_loop with
      (I := fun st t => exists i, 0 <= i <= n /\ st = (src + i, dest + i, n - i) /\
         t = copied dest l i s) (mu := fun st _ => snd st);
      [exists 0; unfold copied; solve_inv | unfold loop_fuel; simpl; lia |].
    intros st t (i & Hi & -> & ->). simpl. split; [lia|]. wp_step; unbool.
    + do 2 wp_step. split; [done|]. unfold copied. rewrite take_ge by lia. done.
    + destruct (Hget i) as (b & Hlb & Rb & Hmb); [lia|].
      wp_step. eapply wp_of_Ret; [apply load8_get|].
      { unfold copied. rewrite mem_get_put_bytes_out; [done|].
        rewrite length_take. intros j Hj. apply Hne; lia. }
      wp_step. eapply wp_of_Ret; [apply (store8_put_bytes s dest n l i b); [done|lia|lia|done|done]|].
      wp_step. split; [|simpl; lia]. exists (i + 1). solve_inv.
  - unfold rep_movsb. apply wp_loop with
      (I := fun st t => exists i, 0 <= i <= n /\ st = (src + i - 1, dest + i - 1, i) /\
         t = put_bytes (dest + i) (drop (Z.to_nat i) l) s) (mu := fun st _ => snd st);
      [exists n; solve_inv; rewrite drop_ge by lia; done | unfold loop_fuel; simpl; lia |].
    intros st t (i & Hi & -> & ->). simpl. split; [lia|]. wp_step; unbool.
    + do 2 wp_step. split; [done|]. subst i. by rewrite Z.add_0_r.
    + destruct (Hget (i - 1)) as (b & Hlb & Rb & Hmb); [lia|].
      wp_step. eapply wp_of_Ret; [apply load8_get|].
      { rewrite mem_get_put_bytes_out; [by rewrite <- Z.add_sub_assoc|].
        rewrite length_drop. intros j Hj. rewrite <- Z.add_sub_assoc, <- Z.add_assoc.
        apply Hne; lia. }
      wp_step. eapply wp_of_Ret; [apply store8_set, put_bytes_is_Some|].
      { destruct Hdest as [Hm _]. rewrite <- Z.add_sub_assoc. apply Hm. lia. }
      wp_step. split; [|simpl; lia]. exists (i - 1). solve_inv.
      rewrite u8_small by done. replace (Z.to_nat i) with (Datatypes.S (Z.to_nat (i - 1))) by lia.
      rewrite (drop_S _ _ _ Hlb). replace (dest + i - 1) with (dest + (i - 1)) by lia.
      replace (dest + i) with (dest + (i - 1) + 1) by lia. apply put_bytes_cons.
      eapply region_mono; [done|lia|]. rewrite length_drop. lia.
Qed.
(** ** strrev *)

(** [w] with the segments below [b] and above [e] already exchanged. *)
Definition half_rev (w : list Z) (b e : Z) (t : kernel) (a : Z) : Prop :=
  forall i, 0 <= i < Z.of_nat (length w) ->
    mem_get t (a + i) =
      if (i <? b) || (e <? i) then w !! Z.to_nat (Z.of_nat (length w) - 1 - i)
      else w !! Z.to_nat i.

Lemma strrev_loop_spec s a w :
  region s a (Z.of_nat (length w)) -> bytes_at s a w -> bytes w ->
  Z.of_nat (length w) < 2 ^ 31 ->
  wp (strrev_loop a (0, Z.of_nat (length w) - 1))
    (fun _ t => bytes_at t a (reverse w) /\ modifies s a (Z.of_nat (length w)) t)
    (fun _ _ => False) s.
Proof.
  intros Hreg Hw Hb Hlen. set (n := Z.of_nat (length w)) in *. unfold strrev_loop.
  apply wp_loop with
    (I := fun be t => 0 <= fst be /\ fst be + snd be = n - 1 /\ -1 <= snd be - fst be + 1 /\
       half_rev w (fst be) (snd be) t a /\ modifies s a n t)
    (mu := fun be _ => snd be - fst be + 2).
  - simpl. split_and!; [lia|lia|lia| |apply modifies_refl].
    intros i Hi. rewrite (proj2 (Z.ltb_ge i 0)), (proj2 (Z.ltb_ge (n - 1) i)) by (unfold n; lia).
    simpl. destruct (lookup_lt_is_Some_2 w (Z.to_nat i)) as [x Hx]; [lia|]. rewrite Hx.
    rewrite <- (Z2Nat.id i) by lia. by apply Hw.
  - unfold loop_fuel; simpl; lia.
  - intros [b e] t (Hb0 & Hbe & Hgap & Hhalf & Hmod). simpl in *. split; [lia|].
    wp_step; unbool.
    + assert (Hat : forall i, b <= i <= e -> exists x, w !! Z.to_nat i = Some x /\ 0 <= x < 256 /\
        mem_get t (a + i) = Some x).
      { intros i Hi. destruct (lookup_lt_is_Some_2 w (Z.to_nat i)) as [x Hx]; [lia|].
        exists x. split; [done|]. split; [by apply (Forall_lookup_1 _ _ _ _ Hb Hx)|].
        rewrite Hhalf by (unfold n in *; lia).
        rewrite (proj2 (Z.ltb_ge i b)), (proj2 (Z.ltb_ge e i)) by lia. done. }
      destruct (Hat e) as (xe & Hxe & Re & Me); [lia|].
      destruct (Hat b) as (xb & Hxb & Rb & Mb); [lia|].
      wp_step. eapply wp_of_Ret; [by apply load8_get|]. wp_step.
      eapply wp_of_Ret; [by apply load8_get|]. wp_step.
      eapply wp_of_Ret; [by apply store8_set; eexists|]. wp_step.
      eapply wp_of_Ret; [by apply store8_set, mem_get_set_is_Some; eexists|]. wp_step.
      rewrite !u8_small by done. split; [|simpl; lia].
      split_and!; [simpl; lia|simpl; lia|simpl; lia| |].
      2: { apply modifies_set; [apply modifies_set; [done|lia]|lia]. }
      simpl. intros i Hi. fold n in Hi.
      assert (Hne : forall j, 0 <= j < n -> j <> i -> cell (pgs t) (a + j) <> cell (pgs t) (a + i)).
      { intros j Hj Hji Hc. rewrite (modifies_pgs _ _ _ _ Hmod) in Hc. apply Hreg in Hc; lia. }
      destruct (decide (i = b)) as [->|Hib].
      { rewrite mem_get_set_eq by (apply mem_get_set_is_Some; by eexists).
        rewrite (proj2 (Z.ltb_lt b (b + 1))) by lia. simpl. fold n.
        replace (n - 1 - b) with e by lia. done. }
      rewrite mem_get_set_ne by (rewrite pgs_mem_set; apply Hne; lia).
      destruct (decide (i = e)) as [->|Hie].
      { rewrite mem_get_set_eq by (by eexists).
        rewrite (proj2 (Z.ltb_lt (e - 1) e)), orb_true_r by lia. fold n.
        replace (n - 1 - e) with b by lia. done. }
      rewrite mem_get_set_ne by (apply Hne; lia). rewrite Hhalf by done. fold n.
      destruct (Z.ltb_spec i b), (Z.ltb_spec e i), (Z.ltb_spec i (b + 1)), (Z.ltb_spec (e - 1) i);
        try lia; done.
    + wp_step. split; [|done]. intros i x Hx.
      assert (Hlt := lookup_lt_Some _ _ _ Hx). rewrite length_reverse in Hlt.
      rewrite reverse_lookup in Hx by done.
      rewrite Hhalf by lia. fold n.
      replace (Z.to_nat (n - 1 - Z.of_nat i)) with (length w - Datatypes.S i)%nat by lia.
      destruct (Z.ltb_spec (Z.of_nat i) b), (Z.ltb_spec e (Z.of_nat i)); simpl; try done.
      replace (length w - Datatypes.S i)%nat with (Z.to_nat (Z.of_nat i)) in Hx by lia. done.
Qed.

Lemma strrev_spec s a w :
  region s a (Z.of_nat (length w)) -> bytes_at s a (w ++ [0]) -> bytes w ->
  Forall (fun b => b <> 0) w -> Z.of_nat (length w) < 2 ^ 31 ->
  wp (strrev a) (fun r t => r = a /\ bytes_at t a (reverse w) /\
                 modifies s a (Z.of_nat (length w)) t)
    (fun _ _ => False) s.
Proof.
  intros Hreg Hw Hb Hz Hlen. unfold strrev. wp_step.
  assert (Hlenw : strlen (Addr a) s = Ret (Z.of_nat (length w)) s).
  { apply (strlen_spec s (Addr a) (w ++ [0])); [by apply bytes_at_reads| |lia].
    clear - Hz. induction Hz as [|b w Hb Hz IH]; [done|]. simpl.
    rewrite (proj2 (Z.eqb_neq b 0)) by done. by rewrite IH. }
  wp_use Hlenw. rewrite s32_small by lia. wp_step.
  eapply wp_mono; [apply strrev_loop_spec; try done| |done].
  - intros i b Hi. apply Hw. by apply lookup_app_l_Some.
  - intros _ t [H1 H2]. wp_step. done.
Qed.
(** ** itoa *)

(** A digit of the base: its character is in the table and not NUL. *)
Definition is_digit (radix c : Z) : Prop :=
  0 <= digit_val c < radix /\ itoa_lookup !! Z.to_nat (digit_val c) = Some c.

Lemma itoa_lookup_digit i :
  0 <= i < 36 ->
  exists c, aget itoa_lookup i = Some c /\ digit_val c = i /\ 0 < c < 256 /\
    itoa_lookup !! Z.to_nat i = Some c.
Proof.
  intros Hi.
  pose proof (byte_cases (fun i => if i <? 36 then
    match aget itoa_lookup i, itoa_lookup !! Z.to_nat i with
    | Some c, Some c' => (digit_val c =? i) && (0 <? c) && (c <? 256) && (c =? c')
    | _, _ => false end else true) eq_refl i ltac:(lia)) as Hc.
  cbn beta in Hc. rewrite (proj2 (Z.ltb_lt i 36)) in Hc by lia.
  destruct (aget itoa_lookup i) as [c|]; [|done].
  destruct (itoa_lookup !! Z.to_nat i) as [c'|]; [|done]. unbool. subst c'. by exists c.
Qed.

Lemma num_val_cons radix d w :
  num_val radix (d :: w) = digit_val d * radix ^ Z.of_nat (length w) + num_val radix w.
Proof.
  unfold num_val. simpl.
  assert (Hacc : forall w a, foldl (fun acc c => acc * radix + digit_val c) a w
    = a * radix ^ Z.of_nat (length w) + foldl (fun acc c => acc * radix + digit_val c) 0 w).
  { clear. intros w. induction w as [|x w IH]; intros a; [simpl; lia|].
    simpl foldl. rewrite IH, (IH (0 * radix + digit_val x)). simpl length.
    rewrite Nat2Z.inj_succ, Z.pow_succ_r by lia. lia. }
  by rewrite Hacc.
Qed.

Lemma num_val_nonneg radix w : 0 <= radix -> Forall (is_digit radix) w -> 0 <= num_val radix w.
Proof.
  intros Hr. induction 1 as [|c w [Hc _] Hw IH]; [done|]. rewrite num_val_cons.
  assert (0 <= radix ^ Z.of_nat (length w)) by (by apply Z.pow_nonneg). nia.
Qed.

Lemma bytes_at_app s a l1 l2 :
  bytes_at s a (l1 ++ l2) <->
  bytes_at s a l1 /\ bytes_at s (a + Z.of_nat (length l1)) l2.
Proof.
  split.
  - intros Hb. split; intros i b Hi.
    + apply Hb. by apply lookup_app_l_Some.
    + replace (a + Z.of_nat (length l1) + Z.of_nat i) with (a + Z.of_nat (length l1 + i)) by lia.
      apply Hb. by rewrite lookup_app_r, Nat.add_comm, Nat.add_sub by lia.
  - intros [H1 H2] i b [Hi|[Hlen Hi]]%lookup_app_Some; [by apply H1|].
    replace (a + Z.of_nat i)
      with (a + Z.of_nat (length l1) + Z.of_nat (i - length l1)) by lia. by apply H2.
Qed.

Definition itoa_post (s : kernel) (value buf radix k : Z) (r : Z) (t : kernel) : Prop :=
  r = buf /\ modifies s buf (k + 1) t /\
  exists w, bytes_at t buf (w ++ [0]) /\ num_val radix w = value /\
    0 < Z.of_nat (length w) <= k /\ Forall (is_digit radix) w /\
    (value <> 0 -> exists d, hd_error w = Some d /\ digit_val d <> 0).

(** The digit loop: [ds] is what has been written so far, least significant
    digit first. *)
Definition itoa_inv (s : kernel) (value buf radix k : Z) (st : Z * Z) (t : kernel) : Prop :=
  exists ds, 0 <= fst st /\ snd st = buf + Z.of_nat (length ds) /\ t = put_bytes buf ds s /\
    value = fst st * radix ^ Z.of_nat (length ds) + num_val radix (reverse ds) /\
    Forall (fun c => is_digit radix c /\ 0 < c < 256) ds /\
    (fst st = 0 -> exists d, last ds = Some d /\ digit_val d <> 0) /\
    0 <= num_val radix (reverse ds).

Lemma itoa_room value newval radix k m n :
  2 <= radix -> 0 < newval -> 0 <= m -> 0 <= k ->
  value = newval * radix ^ n + m -> 0 <= n -> value < radix ^ k -> n < k.
Proof.
  intros Hr Hv Hm Hk He Hn Hlt. apply (Z.pow_lt_mono_r_iff radix); [lia|lia|].
  assert (0 < radix ^ n) by (apply Z.pow_pos_nonneg; lia). nia.
Qed.

Lemma itoa_loop_spec s value buf radix k :
  2 <= radix <= 36 -> 0 < value < 2 ^ 32 -> value < radix ^ k -> 1 <= k < 2 ^ 30 ->
  region s buf (k + 1) ->
  wp (loop (fun st : Z * Z =>
      let '(newval, newbuf) := st in
      if 0 <? newval then
        let i := newval mod radix in
        let* d := get_or_fault i (aget itoa_lookup i) in
        store8 newbuf d ;;
        ret (inl (newval / radix, newbuf + 1))
      else ret (inr newbuf)) (value, buf))
    (fun newbuf t => itoa_inv s value buf radix k (0, newbuf) t) (fun _ _ => False) s.
Proof.
  intros Hr Hv Hk Hk1 Hreg.
  apply wp_loop with (I := itoa_inv s value buf radix k) (mu := fun st _ => fst st).
  - exists []. simpl. solve_inv. unfold num_val. simpl. lia.
  - unfold loop_fuel; simpl; lia.
  - intros [nv nb] t (ds & H0 & Hnb & -> & Hval & Hds & Hlast & Hnn). simpl in *. subst nb.
    split; [done|]. wp_step; unbool.
    + assert (Hroom : Z.of_nat (length ds) < k) by (eapply itoa_room; [..|exact Hval|lia|done]; lia).
      pose proof (Z.mod_pos_bound nv radix ltac:(lia)) as Hmod.
      destruct (itoa_lookup_digit (nv mod radix)) as (c & Hc & Hdc & Hc0 & Hlk); [lia|].
      wp_step. eapply wp_get_or_fault; [done|]. wp_step.
      destruct Hreg as [Hm Hinj].
      eapply wp_of_Ret; [apply store8_set, put_bytes_is_Some, Hm; lia|].
      rewrite u8_small by lia. wp_step.
      pose proof (Z.div_mod nv radix ltac:(lia)) as Hdm.
      assert (0 <= nv / radix) by (apply Z.div_pos; lia).
      split; [|simpl; apply Z.div_lt; lia].
      exists (ds ++ [c]). simpl. rewrite reverse_snoc, num_val_cons, length_reverse, length_app, Hdc.
      simpl. rewrite put_bytes_snoc, Nat2Z.inj_add. split_and!; [done|lia|done| | | |].
      * rewrite Z.pow_add_r, Z.pow_1_r by lia. rewrite Hval, Hdm at 1. lia.
      * apply Forall_app. split; [done|]. constructor; [|done]. split; [|done].
        unfold is_digit. rewrite Hdc. done.
      * intros Hz. exists c. rewrite last_snoc. split; [done|]. rewrite Hdc.
        rewrite Hz, Z.mul_0_r in Hdm. lia.
      * assert (0 < radix ^ Z.of_nat (length ds)) by (apply Z.pow_pos_nonneg; lia). nia.
    + wp_step. exists ds. simpl. assert (nv = 0) as -> by lia. done.
Qed.

Lemma itoa_spec s value buf radix k :
  2 <= radix <= 36 -> 0 <= value < 2 ^ 32 -> value < radix ^ k -> 1 <= k < 2 ^ 30 ->
  region s buf (k + 1) ->
  wp (itoa value buf radix) (itoa_post s value buf radix k) (fun _ _ => False) s.
Proof.
  intros Hr Hv Hk Hk1 Hreg. unfold itoa. rewrite u32_small by lia.
  destruct (Z.eqb_spec value 0) as [->|Hne].
  - assert (Hput : forall t, t = put_bytes buf [48; 0] s -> itoa_post s 0 buf radix k buf t).
    { intros t ->. split; [done|]. split; [apply modifies_put_bytes; simpl; lia|].
      exists [48]. split_and!; [|done|simpl; lia|simpl; lia| |done].
      - apply bytes_at_put_bytes. simpl. rewrite <- (Z.add_0_r buf).
        eapply region_mono; [done|lia|lia].
      - constructor; [|done]. unfold is_digit. simpl. split; [|done]. unfold digit_val. simpl. lia. }
    destruct Hreg as [Hm _]. wp_step.
    eapply wp_of_Ret; [apply store8_set; rewrite <- (Z.add_0_r buf); apply Hm; lia|]. wp_step.
    eapply wp_of_Ret; [apply store8_set, mem_get_set_is_Some, Hm; lia|]. wp_step.
    by apply Hput.
  - rewrite (proj2 (Z.eqb_neq radix 0)) by lia. wp_step.
    eapply wp_mono; [apply itoa_loop_spec; try done; lia| |done].
    intros newbuf t (ds & _ & Hnb & -> & Hval & Hds & Hlast & _). simpl in *. subst newbuf.
    assert (Hlen : Z.of_nat (length ds) <= k).
    { destruct (decide (ds = [])) as [->|Hnil]; [simpl; lia|].
      destruct (Hlast eq_refl) as (d & Hd & Hd0). apply last_Some in Hd as [l ->].
      rewrite reverse_snoc, num_val_cons, length_reverse in Hval.
      apply Forall_app in Hds as [Hl [[[Hdr _] _] _]%Forall_cons_1].
      rewrite length_app. simpl. enough (Z.of_nat (length l) < k) by lia.
      assert (0 <= num_val radix (reverse l)).
      { apply num_val_nonneg; [lia|]. apply Forall_reverse. eapply Forall_impl; [done|]. by intros c [? _]. }
      apply (itoa_room value (digit_val d) radix k (num_val radix (reverse l))); lia. }
    destruct (Hlast eq_refl) as (d & Hd & Hd0).
    assert (Hne0 : ds <> []) by (by intros ->).
    wp_step. pose proof Hreg as [Hm Hinj].
    eapply wp_of_Ret; [apply store8_set, put_bytes_is_Some, Hm; lia|].
    rewrite <- put_bytes_snoc. set (t := put_bytes buf (ds ++ [u8 0]) s).
    assert (Hreg' : region t buf (Z.of_nat (length ds) + 1)).
    { unfold t. apply region_put_bytes. rewrite <- (Z.add_0_r buf). eapply region_mono; [done|lia|lia]. }
    assert (Hat : bytes_at t buf (ds ++ [0])).
    { apply bytes_at_put_bytes. rewrite length_app. simpl. rewrite Nat2Z.inj_add.
      rewrite <- (Z.add_0_r buf). eapply region_mono; [done|lia|simpl; lia]. }
    eapply wp_mono; [apply (strrev_spec t buf ds)| |done].
    + rewrite <- (Z.add_0_r buf). eapply region_mono; [done|lia|lia].
    + done.
    + eapply Forall_impl; [done|]. intros c [_ Hc]. lia.
    + eapply Forall_impl; [done|]. intros c [_ Hc]. lia.
    + lia.
    + intros r u (-> & Hu & Hmod). split; [done|]. split.
      { eapply modifies_trans; [apply (modifies_put_bytes s buf (k + 1) (ds ++ [u8 0]))|].
        - rewrite length_app. simpl. lia.
        - destruct Hmod as [Hset Hout]. split; [done|]. intros c Hc. apply Hout.
          intros i Hi. apply Hc. lia. }
      exists (reverse ds). rewrite length_reverse. split_and!.
      * apply bytes_at_app. split; [done|]. rewrite length_reverse.
        apply bytes_at_app in Hat as [_ Hz]. eapply bytes_at_frame; [done|].
        intros i Hi. simpl in Hi. apply (modifies_out _ _ _ _ _ Hmod).
        intros j Hj Hc. rewrite <- Z.add_assoc in Hc. apply Hreg' in Hc; lia.
      * lia.
      * destruct ds; [done|simpl; lia].
      * done.
      * apply Forall_reverse. eapply Forall_impl; [done|]. by intros c [? _].
      * intros _. exists d. split; [|done]. apply last_Some in Hd as [l ->]. by rewrite reverse_snoc.
Qed.
End string_lemmas.
