(* ===== verification/Pic.v ===== *)
(** The 8259 interrupt controllers, [src/student-distrib/i8259.c]: the two mask
    registers the driver shadows, [enable_irq], [disable_irq], [send_eoi] and
    the initialisation sequence. *)
From stdpp Require Import base numbers list gmap strings.
From Stdlib Require Import ZArith Lia.
From S2P Require Import Prelude Machine.

Definition MASTER_8259_PORT : Z := 0x20.
Definition SLAVE_8259_PORT : Z := 0xA0.
Definition MASTER_8259_DATA : Z := MASTER_8259_PORT + 1.
Definition SLAVE_8259_DATA : Z := SLAVE_8259_PORT + 1.
Definition MASTER_MASK : Z := 0xFF.
Definition SLAVE_MASK : Z := 0xFF.
Definition SLAVE_PORT : Z := 0x02.
Definition NUM_PORTS : Z := 0x08.
Definition MAX_PORTS : Z := 0x10.
Definition ICW1 : Z := 0x11.
Definition ICW2_MASTER : Z := 0x20.
Definition ICW2_SLAVE : Z := 0x28.
Definition ICW3_MASTER : Z := 0x04.
Definition ICW3_SLAVE : Z := 0x02.
Definition ICW4 : Z := 0x01.
Definition EOI : Z := 0x60.

Definition set_master_mask (v : Z) : kernel -> kernel := on_pics (fun p => Pic v (slave_mask p)).
Definition set_slave_mask (v : Z) : kernel -> kernel := on_pics (fun p => Pic (master_mask p) v).

Definition enable_irq (irq_num : Z) : K unit :=
  if (irq_num <? 0) || (MAX_PORTS <=? irq_num) then ret tt else
  let* p := gets pics in
  if irq_num <? NUM_PORTS then
    let mask := u8 (Z.shiftl 1 irq_num) in
    let m := u8 (Z.land (master_mask p) (Z.lnot mask)) in
    modify (set_master_mask m) ;;
    outb m MASTER_8259_DATA
  else
    let mask := u8 (Z.shiftl 1 (irq_num - NUM_PORTS)) in
    let m := u8 (Z.land (slave_mask p) (Z.lnot mask)) in
    modify (set_slave_mask m) ;;
    outb m SLAVE_8259_DATA.

(** The slave branch ORs in the complement of the bit, as the source does. *)
Definition disable_irq (irq_num : Z) : K unit :=
  if (irq_num <? 0) || (MAX_PORTS <=? irq_num) then ret tt else
  let* p := gets pics in
  if irq_num <? NUM_PORTS then
    let mask := u8 (Z.shiftl 1 irq_num) in
    let m := u8 (Z.lor (master_mask p) mask) in
    modify (set_master_mask m) ;;
    outb m MASTER_8259_DATA
  else
    let mask := u8 (Z.shiftl 1 (irq_num - NUM_PORTS)) in
    let m := u8 (Z.lor (slave_mask p) (Z.lnot mask)) in
    modify (set_slave_mask m) ;;
    outb m SLAVE_8259_DATA.

Definition send_eoi (irq_num : Z) : K unit :=
  if (irq_num <? 0) || (MAX_PORTS <=? irq_num) then ret tt else
  if irq_num <? NUM_PORTS then
    outb (Z.lor EOI irq_num) MASTER_8259_PORT
  else
    outb (Z.lor EOI (irq_num - NUM_PORTS)) SLAVE_8259_PORT ;;
    outb (Z.lor EOI SLAVE_PORT) MASTER_8259_PORT.

Definition i8259_init : K unit :=
  outb ICW1 MASTER_8259_PORT ;;
  outb ICW1 SLAVE_8259_PORT ;;
  outb ICW2_MASTER MASTER_8259_DATA ;;
  outb ICW2_SLAVE SLAVE_8259_DATA ;;
  outb ICW3_MASTER MASTER_8259_DATA ;;
  outb ICW3_SLAVE SLAVE_8259_DATA ;;
  outb ICW4 MASTER_8259_DATA ;;
  outb ICW4 SLAVE_8259_DATA ;;
  let* p := gets pics in
  outb (master_mask p) MASTER_8259_DATA ;;
  outb (slave_mask p) SLAVE_8259_DATA ;;
  enable_irq SLAVE_PORT.

(** The static initialisers of the two masks. *)
Definition initial_pic : pic := Pic MASTER_MASK SLAVE_MASK.

(** * Specification

    Interrupt line [i] (0-15) as the driver believes it: masked or not. *)

Definition masked (s : kernel) (i : Z) : bool :=
  if i <? 8 then Z.testbit (master_mask (pics s)) i
  else Z.testbit (slave_mask (pics s)) (i - 8).

(** The data port and shadow register of a line's controller. *)
Definition mask_port (i : Z) : Z := if i <? 8 then MASTER_8259_DATA else SLAVE_8259_DATA.
Definition mask_of (s : kernel) (i : Z) : Z :=
  if i <? 8 then master_mask (pics s) else slave_mask (pics s).

Definition pic_ok (s : kernel) : Prop :=
  0 <= master_mask (pics s) < 256 /\ 0 <= slave_mask (pics s) < 256.

(** [s'] is [s] up to the masks and one write of the new mask of line [i]. *)
Definition mask_write (s s' : kernel) (i : Z) : Prop :=
  s' = log_io (Out (mask_of s' i) (mask_port i)) (on_pics (fun _ => pics s') s).

Lemma u8_testbit a i : 0 <= i < 8 -> Z.testbit (u8 a) i = Z.testbit a i.
Proof. intros Hi. unfold u8. by rewrite Z.mod_pow2_bits_low by lia. Qed.

Lemma bit_mask_testbit k i : 0 <= k < 8 -> Z.testbit (u8 (Z.shiftl 1 k)) i = (i =? k).
Proof.
  intros Hk. rewrite Z.shiftl_1_l, u8_small.
  - destruct (Z.eqb_spec i k) as [->|Hne]; [by rewrite Z.pow2_bits_true by lia|].
    by rewrite Z.pow2_bits_false by lia.
  - split; [apply Z.pow_nonneg; lia|]. change 256 with (2 ^ 8). apply Z.pow_lt_mono_r; lia.
Qed.

Lemma cleared_bit a k i :
  0 <= i < 8 -> 0 <= k < 8 ->
  Z.testbit (u8 (Z.land a (Z.lnot (u8 (Z.shiftl 1 k))))) i = Z.testbit a i && negb (i =? k).
Proof.
  intros Hi Hk. rewrite u8_testbit, Z.land_spec, Z.lnot_spec, bit_mask_testbit by lia. done.
Qed.

Section pic_lemmas.
Context `{Env}.

Ltac pic_run :=
  unfold masked, mask_write, pic_ok, mask_of, mask_port, outb, bind, gets, modify, ret; cbn.

Lemma enable_irq_spec irq s :
  0 <= irq < 16 -> pic_ok s ->
  exists s', enable_irq irq s = Ret tt s' /\ mask_write s s' irq /\ pic_ok s' /\
    forall j, 0 <= j < 16 -> masked s' j = masked s j && negb (j =? irq).
Proof.
  intros Hi [Hm Hs]. unfold enable_irq, MAX_PORTS, NUM_PORTS.
  rewrite (proj2 (Z.ltb_ge irq 0)), (proj2 (Z.leb_gt 16 irq)) by lia. cbn [orb].
  destruct (Z.ltb_spec irq 8) as [Hlt|Hge].
  - eexists. split; [pic_run; reflexivity|]. pic_run.
    rewrite (proj2 (Z.ltb_lt irq 8)) by lia. split; [by rewrite u8_u8|].
    split; [split; [apply u8_range|done]|]. intros j Hj.
    destruct (Z.ltb_spec j 8); [apply cleared_bit; lia|].
    rewrite (proj2 (Z.eqb_neq j irq)) by lia. by rewrite andb_true_r.
  - eexists. split; [pic_run; reflexivity|]. pic_run.
    rewrite (proj2 (Z.ltb_ge irq 8)) by lia. split; [by rewrite u8_u8|].
    split; [split; [done|apply u8_range]|]. intros j Hj.
    destruct (Z.ltb_spec j 8).
    + rewrite (proj2 (Z.eqb_neq j irq)) by lia. by rewrite andb_true_r.
    + rewrite cleared_bit by lia. do 2 f_equal.
      destruct (Z.eqb_spec j irq), (Z.eqb_spec (j - 8) (irq - 8)); lia.
Qed.

Lemma disable_irq_spec irq s :
  0 <= irq < 16 -> pic_ok s ->
  exists s', disable_irq irq s = Ret tt s' /\ mask_write s s' irq /\ pic_ok s' /\
    forall j, 0 <= j < 16 -> masked s' j = masked s j ||
      (if irq <? 8 then j =? irq else (8 <=? j) && negb (j =? irq)).
Proof.
  intros Hi [Hm Hs]. unfold disable_irq, MAX_PORTS, NUM_PORTS.
  rewrite (proj2 (Z.ltb_ge irq 0)), (proj2 (Z.leb_gt 16 irq)) by lia. cbn [orb].
  destruct (Z.ltb_spec irq 8) as [Hlt|Hge].
  - eexists. split; [pic_run; reflexivity|]. pic_run.
    rewrite (proj2 (Z.ltb_lt irq 8)) by lia. split; [by rewrite u8_u8|].
    split; [split; [apply u8_range|done]|]. intros j Hj.
    destruct (Z.ltb_spec j 8).
    + by rewrite u8_testbit, Z.lor_spec, bit_mask_testbit by lia.
    + rewrite (proj2 (Z.eqb_neq j irq)) by lia. by rewrite orb_false_r.
  - eexists. split; [pic_run; reflexivity|]. pic_run.
    rewrite (proj2 (Z.ltb_ge irq 8)) by lia. split; [by rewrite u8_u8|].
    split; [split; [done|apply u8_range]|]. intros j Hj.
    destruct (Z.ltb_spec j 8).
    + rewrite (proj2 (Z.leb_gt 8 j)) by lia. by rewrite orb_false_r.
    + rewrite (proj2 (Z.leb_le 8 j)), u8_testbit, Z.lor_spec, Z.lnot_spec, bit_mask_testbit by lia.
      do 2 f_equal. destruct (Z.eqb_spec j irq), (Z.eqb_spec (j - 8) (irq - 8)); lia.
Qed.

Lemma send_eoi_master irq s :
  0 <= irq < 8 ->
  send_eoi irq s = Ret tt (log_io (Out (Z.lor EOI irq) MASTER_8259_PORT) s).
Proof.
  intros Hi. unfold send_eoi, MAX_PORTS, NUM_PORTS.
  rewrite (proj2 (Z.ltb_ge irq 0)), (proj2 (Z.leb_gt 16 irq)), (proj2 (Z.ltb_lt irq 8)) by lia.
  cbn [orb]. unfold outb, modify. rewrite u8_small; [done|].
  pose proof (byte_cases (fun i => if i <? 8 then (0 <=? Z.lor EOI i) && (Z.lor EOI i <? 256) else true)
    eq_refl irq ltac:(lia)) as Hb. cbn beta in Hb.
  rewrite (proj2 (Z.ltb_lt irq 8)) in Hb by lia. unbool. lia.
Qed.

(** ** Properties *)

(** Unmasking.  For every line 0-15, [enable_irq] clears exactly the bit of
    that line in the driver's masks, leaves the other fifteen as they were, and
    writes the new mask of that line's controller to its data port, once; a
    number above 15 changes nothing. *)
Theorem enable_irq_correct irq s :
  pic_ok s ->
  (0 <= irq < 16 ->
    exists s', enable_irq irq s = Ret tt s' /\ mask_write s s' irq /\ pic_ok s' /\
      forall j, 0 <= j < 16 -> masked s' j = masked s j && negb (j =? irq)) /\
  (16 <= irq -> enable_irq irq s = Ret tt s).
Proof.
  intros Hok. split; [intros; by apply enable_irq_spec|]. intros Hge.
  unfold enable_irq, MAX_PORTS. by rewrite (proj2 (Z.leb_le 16 irq)), orb_true_r by lia.
Qed.

(** Masking.  On the master controller [disable_irq] masks exactly the
    requested line; on the slave (lines 8-15) it masks every line except the
    requested one, whose state it leaves alone. *)
Theorem disable_irq_lines irq s :
  pic_ok s -> 0 <= irq < 16 ->
  exists s', disable_irq irq s = Ret tt s' /\ mask_write s s' irq /\
    forall j, 0 <= j < 16 ->
      masked s' j =
        if irq <? 8 then masked s j || (j =? irq)
        else if j <? 8 then masked s j
        else if j =? irq then masked s irq else true.
Proof.
  intros Hok Hi. destruct (disable_irq_spec irq s Hi Hok) as (s' & Hrun & Hw & _ & Hj).
  exists s'. split; [done|]. split; [done|]. intros j Hjr. rewrite Hj by done.
  destruct (irq <? 8); [done|].
  destruct (Z.ltb_spec j 8), (Z.leb_spec 8 j), (Z.eqb_spec j irq); try lia; simpl;
    subst; rewrite ?orb_true_r, ?orb_false_r; done.
Qed.

(** Initialisation.  From the static masks, [i8259_init] sends the four
    control words to both controllers and leaves every line masked except the
    cascade line 2. *)
Theorem i8259_init_masks s :
  pics s = initial_pic ->
  exists s', i8259_init s = Ret tt s' /\
    io (mach s') =
      [Out 0xFB 0x21; Out 0xFF 0xA1; Out 0xFF 0x21; Out 0x01 0xA1; Out 0x01 0x21;
       Out 0x02 0xA1; Out 0x04 0x21; Out 0x28 0xA1; Out 0x20 0x21; Out 0x11 0xA0; Out 0x11 0x20]
      ++ io (mach s) /\
    forall j, 0 <= j < 16 -> masked s' j = negb (j =? 2).
Proof.
  intros Hp. eexists. split.
  { unfold i8259_init, enable_irq, outb, bind, gets, modify. cbn. rewrite Hp. reflexivity. }
  cbn. split; [done|]. intros j Hj.
  pose proof (byte_cases (fun j => if j <? 16 then
    Bool.eqb (if j <? 8 then Z.testbit 251 j else Z.testbit 255 (j - 8)) (negb (j =? 2))
    else true) eq_refl j ltac:(lia)) as Hb. cbn beta in Hb.
  rewrite (proj2 (Z.ltb_lt j 16)) in Hb by lia. apply Bool.eqb_prop in Hb.
  unfold masked. cbn. rewrite Hp. exact Hb.
Qed.

End pic_lemmas.

Lemma enable_irq_correct_witness :
  let H := quiet_env in
  exists t, enable_irq 1 initial_kernel = Ret tt t /\ masked t 1 = false.
Proof.
  intros H. destruct (enable_irq_correct 1 initial_kernel) as [Hok _]; [by split|].
  destruct Hok as (t & Hrun & _ & _ & Hm); [lia|]. exists t. split; [exact Hrun|].
  rewrite Hm by lia. reflexivity.
Defined.

(** Both lines of interest open: the mask after [i8259_init], the keyboard's and
    the clock's [enable_irq]. *)
Definition demo_open : kernel := on_pics (fun _ => Pic 0xF9 0xFE) initial_kernel.

Lemma disable_irq_lines_witness :
  let H := quiet_env in
  exists t, disable_irq 9 demo_open = Ret tt t /\ masked t 9 = true /\ masked demo_open 8 = false /\ masked t 8 = true.
Proof.
  intros H. destruct (disable_irq_lines 9 demo_open) as (t & Hrun & _ & Hm); [by split|lia|].
  exists t. split; [exact Hrun|]. split; [|split; [reflexivity|]]; rewrite Hm by lia; reflexivity.
Defined.

Lemma i8259_init_masks_witness :
  let H := quiet_env in
  exists t, i8259_init initial_kernel = Ret tt t /\ masked t 2 = false /\ masked t 1 = true.
Proof.
  intros H. destruct (i8259_init_masks initial_kernel) as (t & Hrun & _ & Hm); [reflexivity|].
  exists t. split; [exact Hrun|]. split; rewrite Hm by lia; reflexivity.
Defined.
