(* ===== verification/Rtc.v ===== *)
(** The real-time clock driver, [src/student-distrib/rtc.c]. *)
From stdpp Require Import base numbers list gmap strings.
From Stdlib Require Import ZArith Lia.
From S2P Require Import Prelude Machine Pic.

Definition RTC_REG_NUM : Z := 0x70.
Definition RTC_READ_WRITE : Z := 0x71.
Definition RTC_REG_A : Z := 0x8A.
Definition RTC_REG_B : Z := 0x8B.
Definition RTC_REG_C : Z := 0x8C.
Definition BIT_6 : Z := 0x40.
Definition TOP_FOUR_BIT : Z := 0xF0.
Definition RTC_IRQ : Z := 0x08.
Definition HZ_0 : Z := 0x00.
Definition HZ_2 : Z := 0x0F.
Definition HZ_4 : Z := 0x0E.
Definition HZ_8 : Z := 0x0D.
Definition HZ_16 : Z := 0x0C.
Definition HZ_32 : Z := 0x0B.
Definition HZ_64 : Z := 0x0A.
Definition HZ_128 : Z := 0x09.
Definition HZ_256 : Z := 0x08.
Definition HZ_512 : Z := 0x07.
Definition HZ_1024 : Z := 0x06.
Definition UPPER_MASK : Z := 0xF0.
Definition LOWER_MASK : Z := 0x0F.
Definition NUM_BYTES : Z := 4.
Definition LOCK : Z := 1.
Definition UNLOCK : Z := 0.

Section rtc.
Context `{Env}.

Definition rtc_open (filename : cptr) : K Z :=
  outb RTC_REG_A RTC_REG_NUM ;;
  let* prev := inb RTC_READ_WRITE in
  outb RTC_REG_A RTC_REG_NUM ;;
  outb (Z.lor (Z.land (s8 prev) TOP_FOUR_BIT) HZ_2) RTC_READ_WRITE ;;
  ret SUCCESS.

Definition rtc_init : K unit :=
  outb RTC_REG_B RTC_REG_NUM ;;
  let* prev := inb RTC_READ_WRITE in
  outb RTC_REG_B RTC_REG_NUM ;;
  outb (Z.lor (s8 prev) BIT_6) RTC_READ_WRITE ;;
  rtc_open (Addr 0) ;;
  enable_irq RTC_IRQ.

Definition rtc_handler : K Z :=
  send_eoi RTC_IRQ ;;
  modify (set_rtc UNLOCK) ;;
  outb RTC_REG_C RTC_REG_NUM ;;
  inb RTC_READ_WRITE ;;
  ret SUCCESS.

(** [irqs] are the interrupts served while the read waits. *)
Definition rtc_read (irqs : list (K unit)) (fd buf nbytes : Z) : K Z :=
  modify (set_rtc LOCK) ;;
  spin (fun s => rtc_interrupt_occurred s =? LOCK) irqs ;;
  ret SUCCESS.

(** The [switch] of [rtc_write]: the rate bits of a frequency. *)
Definition rtc_rate (value : Z) : option Z :=
  if value =? 0 then Some HZ_0
  else if value =? 2 then Some HZ_2
  else if value =? 4 then Some HZ_4
  else if value =? 8 then Some HZ_8
  else if value =? 16 then Some HZ_16
  else if value =? 32 then Some HZ_32
  else if value =? 64 then Some HZ_64
  else if value =? 128 then Some HZ_128
  else if value =? 256 then Some HZ_256
  else if value =? 512 then Some HZ_512
  else if value =? 1024 then Some HZ_1024
  else None.

(** The part of [rtc_write] after the frequency is fetched. *)
Definition rtc_write_value (prev_a value : Z) : K Z :=
  let power_of_two := Z.land value (u32 (value - 1)) in
  if negb (power_of_two =? 0) then ret FAILURE else
  match rtc_rate value with
  | None => ret FAILURE
  | Some r =>
    outb RTC_REG_A RTC_REG_NUM ;;
    outb (Z.lor (Z.land prev_a UPPER_MASK) (Z.land r LOWER_MASK)) RTC_READ_WRITE ;;
    ret SUCCESS
  end.

Definition rtc_write (fd buf nbytes : Z) : K Z :=
  if (buf =? 0) || negb (nbytes =? NUM_BYTES) then ret FAILURE else
  outb RTC_REG_A RTC_REG_NUM ;;
  let* prev_a := inb RTC_READ_WRITE in
  let* value := load32 buf in
  rtc_write_value prev_a value.

Definition rtc_close (fd : Z) : K Z := ret SUCCESS.

End rtc.

(** The value of four little-endian bytes. *)
Definition le32 (b0 b1 b2 b3 : Z) : Z := b0 + b1 * 2 ^ 8 + b2 * 2 ^ 16 + b3 * 2 ^ 24.

Lemma rtc_rate_spec v r :
  rtc_rate v = Some r <->
  (v = 0 /\ r = 0) \/ exists k, 1 <= k <= 10 /\ v = 2 ^ k /\ r = 16 - k.
Proof.
  split.
  - unfold rtc_rate. intros Hr.
    repeat match type of Hr with
    | (if ?v =? ?n then _ else _) = _ => destruct (Z.eqb_spec v n); [injection Hr as <-; subst|]
    end; [by left| | | | | | | | | | |done]; right.
    all: [> exists 1 | exists 2 | exists 3 | exists 4 | exists 5 | exists 6 | exists 7 | exists 8
         | exists 9 | exists 10 ]; done.
  - intros [[-> ->] | (k & Hk & -> & ->)]; [done|].
    assert (Hc : k = 1 \/ k = 2 \/ k = 3 \/ k = 4 \/ k = 5 \/ k = 6 \/ k = 7 \/ k = 8 \/ k = 9 \/ k = 10) by lia.
    by repeat destruct Hc as [->|Hc]; [..|subst k].
Qed.

Section rtc_lemmas.
Context `{Env}.

Lemma rate_register prev k :
  0 <= prev < 256 -> 1 <= k <= 10 ->
  u8 (Z.lor (Z.land prev UPPER_MASK) (Z.land (16 - k) LOWER_MASK)) = prev / 16 * 16 + (16 - k).
Proof.
  intros Hp Hk.
  pose proof (byte_cases (fun p => forallb (fun k =>
     u8 (Z.lor (Z.land p UPPER_MASK) (Z.land (16 - k) LOWER_MASK)) =? p / 16 * 16 + (16 - k))
     (seqZ 1 10)) eq_refl prev Hp) as Hb. cbn beta in Hb.
  rewrite forallb_forall in Hb. specialize (Hb k).
  rewrite <- list_elem_of_In, elem_of_seqZ in Hb. specialize (Hb ltac:(lia)). by unbool.
Qed.

Lemma rate_register_0 prev : 0 <= prev < 256 -> u8 (Z.lor (Z.land prev UPPER_MASK) (Z.land 0 LOWER_MASK)) = prev / 16 * 16.
Proof.
  intros Hp. pose proof (byte_cases (fun p => u8 (Z.lor (Z.land p UPPER_MASK) (Z.land 0 LOWER_MASK)) =? p / 16 * 16)
    eq_refl prev Hp) as Hb. cbn beta in Hb. by unbool.
Qed.

(** The two accesses that fetch register A, and the byte they fetch. *)
Definition reg_a (s : kernel) : Z := u8 (port_in (Out 0x8A 0x70 :: io (mach s)) 0x71).
Definition after_reg_a (s : kernel) : kernel := log_all [In 0x71 (reg_a s); Out 0x8A 0x70] s.

(** C40: programming the rate.  A request whose four bytes hold 2^k with k from 1
    to 10 succeeds: register A keeps its upper half and gets rate 16-k, which is
    the divisor of the 32768 Hz clock for 2^k Hz; a request for 0 succeeds too and
    writes the upper half of register A with rate 0.  Any other value is
    refused after register A was only read; a NULL buffer or a size other than 4
    is refused with no port access. *)
Theorem rtc_write_correct fd buf s b0 b1 b2 b3 :
  buf <> 0 -> bytes_at s buf [b0; b1; b2; b3] -> bytes [b0; b1; b2; b3] ->
  let v := le32 b0 b1 b2 b3 in
  (forall k, 1 <= k <= 10 -> v = 2 ^ k ->
     32768 / 2 ^ ((16 - k) - 1) = v /\
     rtc_write fd buf 4 s =
       Ret SUCCESS (log_all [Out (reg_a s / 16 * 16 + (16 - k)) 0x71; Out 0x8A 0x70] (after_reg_a s))) /\
  (v = 0 -> rtc_write fd buf 4 s =
     Ret SUCCESS (log_all [Out (reg_a s / 16 * 16) 0x71; Out 0x8A 0x70] (after_reg_a s))) /\
  (v <> 0 -> (forall k, 1 <= k <= 10 -> v <> 2 ^ k) ->
     rtc_write fd buf 4 s = Ret FAILURE (after_reg_a s)) /\
  (forall n, n <> 4 -> rtc_write fd buf n s = Ret FAILURE s) /\
  (forall n, rtc_write fd 0 n s = Ret FAILURE s).
Proof.
  intros Hbuf Hat Hb v.
  assert (Hpre : rtc_write fd buf 4 s = rtc_write_value (reg_a s) v (after_reg_a s)).
  { unfold rtc_write. rewrite (proj2 (Z.eqb_neq buf 0)) by done. cbn [orb negb Z.eqb NUM_BYTES].
    assert (Hld : load32 buf (after_reg_a s) = Ret v (after_reg_a s)) by (by apply load32_spec).
    change (bind (load32 buf) (rtc_write_value (reg_a s)) (after_reg_a s)
      = rtc_write_value (reg_a s) v (after_reg_a s)).
    unfold bind. by rewrite Hld. }
  unfold rtc_write_value in Hpre.
  split_and!.
  - intros k Hk Hv. split.
    + rewrite Hv. replace (16 - k - 1) with (15 - k) by lia. change 32768 with (2 ^ 15).
      rewrite <- Z.pow_sub_r by lia. f_equal. lia.
    + rewrite Hpre. assert (Hr : rtc_rate v = Some (16 - k)).
      { apply rtc_rate_spec. right. by exists k. }
      assert (Hpow : Z.land v (u32 (v - 1)) = 0).
      { rewrite Hv. assert (0 < 2 ^ k <= 2 ^ 10).
        { split; [apply Z.pow_pos_nonneg; lia|]. apply Z.pow_le_mono_r; lia. }
        rewrite u32_small by lia. replace (2 ^ k - 1) with (Z.ones k) by (rewrite Z.ones_equiv; lia).
        rewrite Z.land_ones by lia. apply Z_mod_same_full. }
      rewrite Hpow, Hr. cbn [negb Z.eqb]. unfold outb, bind, modify, ret. cbn.
      rewrite rate_register by first [apply u8_range|lia]. done.
  - intros Hv. rewrite Hpre, Hv. unfold outb, bind, modify, ret. cbn.
    rewrite rate_register_0 by apply u8_range. done.
  - intros Hv Hk. rewrite Hpre. destruct (negb _); [done|].
    destruct (rtc_rate v) as [r|] eqn:Hr; [|done].
    apply rtc_rate_spec in Hr as [[? _]|(k & ? & ? & _)]; [done|]. by destruct (Hk k).
  - intros n Hn. unfold rtc_write. rewrite (proj2 (Z.eqb_neq buf 0)) by done.
    unfold NUM_BYTES. by rewrite (proj2 (Z.eqb_neq n 4)).
  - intros n. done.
Qed.

(** The interrupt service routine as the processor runs it. *)
Definition rtc_irq : K unit := rtc_handler ;; ret tt.

(** Waiting for a tick.  [rtc_read] returns 0 at the first RTC interrupt,
    whatever interrupts that do not touch its flag came before; with none it is
    still waiting. *)
Theorem rtc_read_waits fd buf nbytes pre post s :
  Forall (fun m : K unit => forall t, rtc_interrupt_occurred t = LOCK ->
    wp m (fun _ t' => rtc_interrupt_occurred t' = LOCK) (fun _ _ => False) t) pre ->
  wp (rtc_read (pre ++ rtc_irq :: post) fd buf nbytes)
    (fun r t => r = SUCCESS /\ rtc_interrupt_occurred t = UNLOCK) (fun _ _ => False) s /\
  rtc_read [] fd buf nbytes s = Unfinished (set_rtc LOCK s).
Proof.
  intros Hpre. split; [|done]. unfold rtc_read. do 2 wp_step. wp_step.
  apply (wp_spin (fun t => rtc_interrupt_occurred t = LOCK)); [done| |done|].
  - intros t ->. done.
  - intros t _. done.
Qed.
End rtc_lemmas.

(** Memory holding the number 32 at address 16. *)
Definition demo_rate : kernel := set_mem (ram_of (fun a => if a =? 16 then 32 else 0) 0 32) initial_kernel.

Lemma rtc_write_correct_witness :
  let H := quiet_env in
  rtc_write 2 16 4 demo_rate = Ret SUCCESS (log_all [Out 11 0x71; Out 0x8A 0x70] (after_reg_a demo_rate)).
Proof.
  intros H. destruct (rtc_write_correct 2 16 demo_rate 32 0 0 0) as [Hok _].
  - done.
  - apply (bytes_at_ram _ (fun a => if a =? 16 then 32 else 0) 0 32); done.
  - by repeat constructor.
  - apply (Hok 5); [lia|reflexivity].
Defined.

Lemma rtc_read_waits_witness :
  let H := quiet_env in
  wp (rtc_read ([ret tt] ++ rtc_irq :: []) 2 0 0)
    (fun r t => r = SUCCESS /\ rtc_interrupt_occurred t = UNLOCK) (fun _ _ => False) initial_kernel.
Proof.
  intros H. apply (rtc_read_waits 2 0 0 [ret tt] [] initial_kernel).
  constructor; [|constructor]. intros t Ht. exact Ht.
Defined.
