(* ===== verification/Console.v ===== *)
(** The screen half of [src/student-distrib/lib.c]: [clear], [clear_set],
    [enable_cursor], [delete], [putc], [puts], [change_terminal_cursor],
    [printf] and [test_interrupts], and the abstract 80 by 25 terminal that
    [putc] implements on whichever video page belongs to the running terminal. *)
From stdpp Require Import base numbers list gmap strings.
From Stdlib Require Import ZArith Lia.
From S2P Require Import Prelude Machine Strings.

Definition NUM_COLS : Z := 80.
Definition NUM_ROWS : Z := 25.
Definition ATTRIB : Z := 0x7.
Definition ASCII_SPACE : Z := 32.
Definition NEWLINE : Z := 10.
Definition CARRIAGE_RETURN : Z := 13.
Definition PORT3D4 : Z := 0x3D4.
Definition PORT3D5 : Z := 0x3D5.
Definition BITS3210 : Z := 0x0F.
Definition BITS321 : Z := 0x0E.
Definition BITS31 : Z := 0x0A.
Definition BITS310 : Z := 0x0B.
Definition BITS76 : Z := 0xC0.
Definition BITS765 : Z := 0xE0.
Definition BITS76543210 : Z := 0xFF.
Definition SHIFT8 : Z := 8.

(** An argument of [printf] on the caller's stack. *)
Inductive parg : Type :=
| PInt (v : Z)
| PStr (p : cptr).

Section console.
Context `{Env}.

(** [terminal[t]], read and written; an index above 2 is outside the array. *)
Definition get_term (t : Z) : K term :=
  let* s := gets ttys in get_or_fault t (aget (terminal s) t).

Definition put_term (t : Z) (v : term) : K unit :=
  let* s := gets ttys in
  let* l := get_or_fault t (aset (terminal s) t v) in
  modify (set_terminal l).

Definition set_screen_x (v : Z) (t : term) : term := Term (term_pcb t) (u32 v) (screen_y t).
Definition set_screen_y (v : Z) (t : term) : term := Term (term_pcb t) (screen_x t) (u32 v).

(** The character cell of row [y], column [x] of the page at [base]: 32-bit
    unsigned arithmetic throughout. *)
Definition cell_addr (base y x : Z) : Z := u32 (base + u32 (Z.shiftl (u32 (NUM_COLS * y + x)) 1)).

Definition put_cell (base y x c : Z) : K unit :=
  store8 (cell_addr base y x) c ;;
  store8 (u32 (cell_addr base y x + 1)) ATTRIB.

(** The four port writes that move the hardware cursor to [pos]. *)
Definition write_cursor (pos : Z) : K unit :=
  outb BITS3210 PORT3D4 ;;
  outb (u8 (Z.land pos BITS76543210)) PORT3D5 ;;
  outb BITS321 PORT3D4 ;;
  outb (u8 (Z.land (Z.shiftr pos SHIFT8) BITS76543210)) PORT3D5.

Definition term_pos (t : term) : Z := u16 (u32 (screen_y t * NUM_COLS + screen_x t)).

Definition clear : K unit :=
  for_up (Z.to_nat (NUM_ROWS * NUM_COLS)) 0 (fun i =>
    store8 (video_mem + Z.shiftl i 1) ASCII_SPACE ;;
    store8 (video_mem + Z.shiftl i 1 + 1) ATTRIB).

Definition clear_set : K unit :=
  let* ct := gets (fun s => current_terminal (ttys s)) in
  let* t := get_term ct in
  let t' := set_screen_y 0 (set_screen_x 0 t) in
  put_term ct t' ;;
  write_cursor (term_pos t').

Definition enable_cursor (cursor_start cursor_end : Z) : K unit :=
  outb BITS31 PORT3D4 ;;
  let* v := inb PORT3D5 in
  outb (Z.lor (Z.land v BITS76) cursor_start) PORT3D5 ;;
  outb BITS310 PORT3D4 ;;
  let* v := inb PORT3D5 in
  outb (Z.lor (Z.land v BITS765) cursor_end) PORT3D5.

Definition delete : K unit :=
  let* ct := gets (fun s => current_terminal (ttys s)) in
  let* t := get_term ct in
  let t' := set_screen_x (screen_x t - 1) t in
  put_term ct t' ;;
  put_cell video_mem (screen_y t') (screen_x t') 0 ;;
  write_cursor (term_pos t').

Definition change_terminal_cursor (new_cursor : Z) : K Z :=
  let* t := get_term new_cursor in
  write_cursor (term_pos t) ;;
  ret 0.

(** The [while(screen_x > NUM_COLS)] loop of a newline. *)
Definition wrap_rows (t : Z) : K unit :=
  loop (fun _ : unit =>
    let* T := get_term t in
    if NUM_COLS <? screen_x T then
      put_term t (set_screen_y (screen_y T + 1) T) ;;
      let* T := get_term t in
      put_term t (set_screen_x (screen_x T - NUM_COLS) T) ;;
      ret (inl tt)
    else ret (inr tt)) tt.

(** The rows move up by one, the last one is blanked. *)
Definition scroll (base : Z) : K unit :=
  for_up (Z.to_nat (NUM_ROWS - 1)) 0 (fun i =>
    for_up (Z.to_nat NUM_COLS) 0 (fun j =>
      let* c := load8 (base + Z.shiftl (NUM_COLS * (i + 1) + j) 1) in
      store8 (base + Z.shiftl (NUM_COLS * i + j) 1) c ;;
      store8 (base + Z.shiftl (NUM_COLS * i + j) 1 + 1) ATTRIB)) ;;
  for_up (Z.to_nat NUM_COLS) 0 (fun j =>
    store8 (base + Z.shiftl (NUM_COLS * (NUM_ROWS - 1) + j) 1) ASCII_SPACE ;;
    store8 (base + Z.shiftl (NUM_COLS * (NUM_ROWS - 1) + j) 1 + 1) ATTRIB).

(** The end of both branches of [putc]: a row up when the cursor is past the page. *)
Definition keep_on_page (base t : Z) : K unit :=
  let* T := get_term t in
  if NUM_COLS * NUM_ROWS <=? u32 (screen_y T * NUM_COLS + screen_x T) then
    (if 0 <? screen_y T then put_term t (set_screen_y (screen_y T - 1) T)
     else put_term t (set_screen_x (screen_x T - NUM_COLS) T)) ;;
    scroll base
  else ret tt.

(** What both branches of [putc] do, for terminal [t] on the page at [base]. *)
Definition putc_on (base t c : Z) : K unit :=
  (if (c =? NEWLINE) || (c =? CARRIAGE_RETURN) then
     wrap_rows t ;;
     let* T := get_term t in
     put_term t (set_screen_y (screen_y T + 1) T) ;;
     let* T := get_term t in
     put_term t (set_screen_x 0 T)
   else
     let* T := get_term t in
     put_cell base (screen_y T) (screen_x T) c ;;
     put_term t (set_screen_x (screen_x T + 1) T)) ;;
  keep_on_page base t.

Definition putc (c : Z) : K unit :=
  let* s := gets ttys in
  if curr_scheduler s =? current_terminal s then
    putc_on video_mem (current_terminal s) c ;;
    let* T := get_term (current_terminal s) in
    write_cursor (term_pos T)
  else
    let* page := get_or_fault (curr_scheduler s) (aget vid_page (curr_scheduler s)) in
    putc_on page (curr_scheduler s) c.

Definition puts (p : cptr) : K Z :=
  loop (fun index =>
    let* c := cload p index in
    if c =? 0 then ret (inr index) else putc c ;; ret (inl (index + 1))) 0.

(** The automatic array [conv_buf]. *)
Definition CONV_BUF : Z := -8192.

Definition arg_word (a : parg) : K Z :=
  match a with
  | PInt v => ret (u32 v)
  | PStr (Addr a) => ret (u32 a)
  | PStr (Lit _) => fault 0
  end.

Definition next_arg (args : list parg) : K (parg * list parg) :=
  match args with a :: args' => ret (a, args') | [] => fault 0 end.

(** One conversion: [c] is the character after the percent sign and any [#]. *)
Definition printf_conv (alternate : Z) (c : Z) (args : list parg) : K (list parg) :=
  if c =? 37 (* percent *) then putc 37 ;; ret args
  else if c =? 120 (* x *) then
    let* '(a, args') := next_arg args in
    let* v := arg_word a in
    alloc_local CONV_BUF 64 ;;
    (if alternate =? 0 then
       itoa v CONV_BUF 16 ;;
       puts (Addr CONV_BUF) ;; ret tt
     else
       itoa v (CONV_BUF + 8) 16 ;;
       let* starting_index := strlen (Addr (CONV_BUF + 8)) in
       loop (fun i => if i <? 8 then store8 (CONV_BUF + i) 48 ;; ret (inl (i + 1))
                      else ret (inr tt)) starting_index ;;
       puts (Addr (CONV_BUF + starting_index)) ;; ret tt) ;;
    ret args'
  else if c =? 117 (* u *) then
    let* '(a, args') := next_arg args in
    let* v := arg_word a in
    alloc_local CONV_BUF 36 ;;
    itoa v CONV_BUF 10 ;;
    puts (Addr CONV_BUF) ;;
    ret args'
  else if c =? 100 (* d *) then
    let* '(a, args') := next_arg args in
    let* v := arg_word a in
    alloc_local CONV_BUF 36 ;;
    (if s32 v <? 0 then
       store8 CONV_BUF 45 ;;
       itoa (u32 (- s32 v)) (CONV_BUF + 1) 10
     else itoa (s32 v) CONV_BUF 10) ;;
    puts (Addr CONV_BUF) ;;
    ret args'
  else if c =? 99 (* c *) then
    let* '(a, args') := next_arg args in
    let* v := arg_word a in
    putc (u8 v) ;;
    ret args'
  else if c =? 115 (* s *) then
    let* '(a, args') := next_arg args in
    (match a with
     | PStr p => puts p
     | PInt v => puts (Addr (u32 v))
     end) ;;
    ret args'
  else ret args.

Definition printf (format : cptr) (args : list parg) : K Z :=
  loop (fun st : Z * list parg =>
    let '(buf, args) := st in
    let* c := cload format buf in
    if c =? 0 then ret (inr buf)
    else if c =? 37 then
      let* r := loop (fun st : Z * Z =>
        let* c := cload format (fst st) in
        if c =? 35 (* hash *) then ret (inl (fst st + 1, 1))
        else ret (inr (fst st, snd st, c))) (buf + 1, 0) in
      let* args' := printf_conv (snd (fst r)) (snd r) args in
      ret (inl (fst (fst r) + 1, args'))
    else putc c ;; ret (inl (buf + 1, args))) (0, args).

Definition test_interrupts : K unit :=
  for_up (Z.to_nat (NUM_ROWS * NUM_COLS)) 0 (fun i =>
    let* v := load8 (video_mem + Z.shiftl i 1) in
    store8 (video_mem + Z.shiftl i 1) (v + 1)).

End console.

(** * The abstract screen

    A page of 2000 cells, each a character and an attribute byte. *)

Definition CELLS : nat := 2000.

Definition grid `{Env} (s : kernel) (base : Z) (g : list (Z * Z)) : Prop :=
  length g = CELLS /\ 0 <= base < 2 ^ 31 /\ region s base 4000 /\
  (forall (k : nat) c, g !! k = Some c ->
     0 <= fst c < 256 /\ 0 <= snd c < 256 /\
     mem_get s (base + 2 * Z.of_nat k) = Some (fst c) /\
     mem_get s (base + 2 * Z.of_nat k + 1) = Some (snd c)).

(** A written cell has the default attribute. *)
Definition norm (c : Z * Z) : Z * Z := (fst c, ATTRIB).
Definition blank : Z * Z := (ASCII_SPACE, ATTRIB).

Definition scroll_ref (g : list (Z * Z)) : list (Z * Z) :=
  map norm (drop 80 g) ++ replicate 80 blank.

(** The abstract terminal: its page and its cursor.  The column may run past
    80: the cursor is the linear position [80 * row + col]. *)
Record screen : Type := Screen { cells : list (Z * Z); row : Z; col : Z }.

Definition cursor_pos (v : screen) : Z := 80 * row v + col v.

Definition screen_ok (v : screen) : Prop :=
  length (cells v) = CELLS /\ 0 <= row v /\ 0 <= col v /\ cursor_pos v < 2000.

(** One row up when the cursor has left the page. *)
Definition fit (v : screen) : screen :=
  if 2000 <=? cursor_pos v then
    if 0 <? row v then Screen (scroll_ref (cells v)) (row v - 1) (col v)
    else Screen (scroll_ref (cells v)) (row v) (col v - 80)
  else v.

Definition put_char (c : Z) (v : screen) : screen :=
  if (c =? NEWLINE) || (c =? CARRIAGE_RETURN)
  then fit (Screen (cells v) (row v + Z.max 0 ((col v - 1) / 80) + 1) 0)
  else fit (Screen (<[Z.to_nat (cursor_pos v) := (c, ATTRIB)]> (cells v)) (row v) (col v + 1)).

(** Terminal [t] shows [v] on the page at [base]. *)
Definition shows `{Env} (s : kernel) (base t : Z) (v : screen) : Prop :=
  grid s base (cells v) /\ screen_ok v /\
  exists T, aget (terminal (ttys s)) t = Some T /\ screen_y T = row v /\ screen_x T = col v.

(** Two states that differ only in one page of memory, the port trace and the
    cursors of the terminals. *)
Record same_but_screen `{Env} (base : Z) (s s' : kernel) : Prop := {
  sb_cells : forall c, (forall i, 0 <= i < 4000 -> cell (pgs s) (base + i) <> Some c) ->
    mem (mach s') !! c = mem (mach s) !! c;
  sb_pgs : pgs s' = pgs s;
  sb_tss : tss s' = tss s;
  sb_pics : pics s' = pics s;
  sb_rtc : rtc_interrupt_occurred s' = rtc_interrupt_occurred s;
  sb_kb : kb s' = kb s;
  sb_fsg : fsg s' = fsg s;
  sb_prc : prc s' = prc s;
  sb_idt : idt s' = idt s;
  sb_cpu : iflag (mach s') = iflag (mach s) /\ ebp (mach s') = ebp (mach s) /\
           esp (mach s') = esp (mach s);
  sb_cur : current_terminal (ttys s') = current_terminal (ttys s) /\
           curr_scheduler (ttys s') = curr_scheduler (ttys s);
  sb_pcb : map term_pcb (terminal (ttys s')) = map term_pcb (terminal (ttys s)) }.

(** [t]'s page and cursor are the only things that differ. *)
Definition only_screen `{Env} (base t : Z) (s s' : kernel) : Prop :=
  same_but_screen base s s' /\
  forall t', t' <> t -> aget (terminal (ttys s')) t' = aget (terminal (ttys s)) t'.

Section console_lemmas.
Context `{Env}.

Lemma sb_mem base s s' :
  same_but_screen base s s' -> forall va, outside (pgs s) base 4000 va -> mem_get s' va = mem_get s va.
Proof.
  intros Hsb va Ho. unfold mem_get. rewrite (sb_pgs _ _ _ Hsb).
  destruct (cell (pgs s) va) as [c|] eqn:Hc; [|done]. apply (sb_cells _ _ _ Hsb).
  intros i Hi He. apply (Ho i Hi). by rewrite He, Hc.
Qed.

#[export] Instance same_but_screen_refl base : Reflexive (same_but_screen base).
Proof. intros s. by constructor. Qed.

#[export] Instance same_but_screen_trans base : Transitive (same_but_screen base).
Proof.
  intros s t u H1 H2. destruct (sb_cpu _ _ _ H1) as (? & ? & ?), (sb_cpu _ _ _ H2) as (? & ? & ?).
  destruct (sb_cur _ _ _ H1), (sb_cur _ _ _ H2).
  destruct H1 as [Hm1 Hp1], H2 as [Hm2 Hp2]. constructor; try congruence.
  intros c Hc. rewrite Hm2 by (intros i Hi; rewrite Hp1; by apply Hc). by apply Hm1.
Qed.

Lemma modifies_same_but_screen s base t : modifies s base 4000 t -> same_but_screen base s t.
Proof.
  intros [Ht Hout]. rewrite Ht. by constructor.
Qed.

Lemma grid_lookup s base g (k : Z) :
  grid s base g -> 0 <= k < 2000 ->
  exists c, g !! Z.to_nat k = Some c /\ 0 <= fst c < 256 /\
    load8 (base + Z.shiftl k 1) s = Ret (fst c) s.
Proof.
  intros (Hlen & _ & _ & Hg) Hk. unfold CELLS in Hlen.
  destruct (lookup_lt_is_Some_2 g (Z.to_nat k)) as [c Hc]; [lia|].
  exists c. destruct (Hg _ _ Hc) as (? & ? & Hm & _). split; [done|]. split; [done|].
  apply load8_get. rewrite Z.shiftl_mul_pow2 by lia. rewrite Z2Nat.id in Hm by lia.
  replace (base + k * 2 ^ 1) with (base + 2 * k) by lia. done.
Qed.

(** Writing one cell. *)
Lemma grid_put s base g k a0 a1 c E :
  grid s base g -> 0 <= k < 2000 -> 0 <= c < 256 ->
  a0 = base + 2 * k -> a1 = base + 2 * k + 1 ->
  wp (store8 a0 c ;; store8 a1 ATTRIB)
    (fun _ s' => grid s' base (<[Z.to_nat k := (c, ATTRIB)]> g) /\ modifies s base 4000 s') E s.
Proof.
  intros (Hlen & Hbase & Hreg & Hg) Hk Hc -> ->. pose proof Hreg as [Hm Hinj].
  pose proof (Hm (2 * k) ltac:(lia)) as M0.
  pose proof (Hm (2 * k + 1) ltac:(lia)) as M1. rewrite Z.add_assoc in M1.
  wp_step. eapply wp_of_Ret; [by apply store8_set|].
  eapply wp_of_Ret; [by apply store8_set, mem_get_set_is_Some|].
  rewrite (u8_small c) by done. change (u8 ATTRIB) with ATTRIB.
  assert (Hmod : modifies s base 4000 (mem_set (base + 2 * k + 1) ATTRIB (mem_set (base + 2 * k) c s))).
  { rewrite <- (Z.add_assoc base). do 2 (apply modifies_set; [|lia]). apply modifies_refl. }
  split; [|done]. split; [by rewrite length_insert|]. split; [done|]. split.
  - split; [|intros i j; rewrite !pgs_mem_set; apply Hinj].
    intros i Hi. by apply mem_get_set_is_Some, mem_get_set_is_Some, Hm.
  - assert (Hne : forall i j, 0 <= i < 4000 -> 0 <= j < 4000 -> i <> j ->
      cell (pgs s) (base + i) <> cell (pgs s) (base + j)).
    { intros i j Hi Hj Hij He. by apply Hij, Hinj. }
    intros j x Hx. destruct (decide (j = Z.to_nat k)) as [->|Hjk].
    + rewrite list_lookup_insert_eq in Hx by (unfold CELLS in *; lia). injection Hx as <-. simpl.
      rewrite Z2Nat.id by lia. split_and!; [lia|lia|done|done| |].
      * rewrite mem_get_set_ne; [by apply mem_get_set_eq|].
        rewrite pgs_mem_set, <- Z.add_assoc. apply Hne; lia.
      * by apply mem_get_set_eq, mem_get_set_is_Some.
    + rewrite list_lookup_insert_ne in Hx by done. pose proof (lookup_lt_Some _ _ _ Hx).
      unfold CELLS in *. destruct (Hg _ _ Hx) as (? & ? & E0 & E1).
      split_and!; [lia|lia|lia|lia| |].
      * rewrite !mem_get_set_ne; [done| |];
          rewrite ?pgs_mem_set, <- ?(Z.add_assoc base); apply Hne; lia.
      * rewrite !mem_get_set_ne; [done| |];
          rewrite ?pgs_mem_set, <- ?(Z.add_assoc base); apply Hne; lia.
Qed.

(** The page after [k] cells have moved up by a row. *)
Definition scrolled (g : list (Z * Z)) (k : nat) : list (Z * Z) :=
  map norm (take k (drop 80 g)) ++ drop k g.

Lemma scrolled_step g k c :
  (k + 80 < length g)%nat -> g !! (k + 80)%nat = Some c ->
  scrolled g k !! (k + 80)%nat = Some c /\
  <[k := norm c]> (scrolled g k) = scrolled g (k + 1).
Proof.
  intros Hk Hc. unfold scrolled.
  assert (Hl : length (map norm (take k (drop 80 g))) = k).
  { rewrite length_map, length_take, length_drop. lia. }
  split.
  - rewrite lookup_app_r by lia. rewrite Hl, lookup_drop. rewrite <- Hc. f_equal. lia.
  - rewrite insert_app_r_alt by lia. rewrite Hl, Nat.sub_diag.
    destruct (lookup_lt_is_Some_2 g k) as [d Hd]; [lia|].
    rewrite (drop_S _ _ _ Hd). simpl. rewrite Nat.add_1_r.
    rewrite (take_S_r _ _ c) by (rewrite lookup_drop, <- Hc; f_equal; lia).
    by rewrite map_app, <- app_assoc.
Qed.

Lemma wp_for_cells s base n i (body : Z -> K unit) (G : Z -> list (Z * Z)) E (Q : unit -> kernel -> Prop) :
  grid s base (G i) ->
  (forall j t, i <= j < i + Z.of_nat n -> grid t base (G j) -> modifies s base 4000 t ->
     wp (body j) (fun _ t' => grid t' base (G (j + 1)) /\ modifies t base 4000 t') E t) ->
  (forall t, grid t base (G (i + Z.of_nat n)) -> modifies s base 4000 t -> Q tt t) ->
  wp (for_up n i body) Q E s.
Proof.
  intros Hg Hbody HQ.
  apply (wp_for_up (fun j t => grid t base (G j) /\ modifies s base 4000 t)).
  - split; [done|apply modifies_refl].
  - intros j t Hj [Ht Hm]. eapply wp_mono; [by apply Hbody| |done].
    intros ? t' [? ?]. split; [done|]. by eapply modifies_trans.
  - intros t [? ?]. by apply HQ.
Qed.

Lemma scroll_spec s base g E :
  grid s base g ->
  wp (scroll base) (fun _ s' => grid s' base (scroll_ref g) /\ modifies s base 4000 s') E s.
Proof.
  intros Hg. pose proof Hg as (Hlen & _ & _ & _). unfold CELLS in Hlen.
  unfold scroll, NUM_ROWS, NUM_COLS. change (Z.to_nat (25 - 1)) with 24%nat.
  change (Z.to_nat 80) with 80%nat. wp_step.
  apply (wp_for_cells _ base _ _ _ (fun i => scrolled g (Z.to_nat (80 * i)))); [done| |].
  - intros i t Hi Ht Hmod.
    apply (wp_for_cells _ base _ _ _ (fun j => scrolled g (Z.to_nat (80 * i + j)))).
    + by rewrite Z.add_0_r.
    + intros j u Hj Hu _. set (k := 80 * i + j).
      destruct (lookup_lt_is_Some_2 g (Z.to_nat k + 80)) as [c Hc]; [lia|].
      destruct (scrolled_step g (Z.to_nat k) c) as [Hk Hstep]; [lia|done|].
      destruct (grid_lookup u base (scrolled g (Z.to_nat k)) (80 * (i + 1) + j) Hu) as (c' & Hc' & Rc & Hload); [lia|].
      wp_step. wp_use Hload.
      replace (Z.to_nat (80 * (i + 1) + j)) with (Z.to_nat k + 80)%nat in Hc' by lia.
      fold k in Hc'. rewrite Hk in Hc'. injection Hc' as <-.
      eapply wp_mono; [apply (grid_put u base (scrolled g (Z.to_nat k)) k); [done|lia|done| |]; rewrite Z.shiftl_mul_pow2 by lia; lia| |done].
      intros ? u' [Hu' Hm']. split; [|done].
      replace (Z.to_nat (80 * i + (j + 1))) with (Z.to_nat k + 1)%nat by lia.
      by rewrite <- Hstep.
    + intros u Hu Hm'. split; [|done].
      replace (80 * (i + 1)) with (80 * i + (0 + Z.of_nat 80)) by lia. done.
  - intros t Ht Hmod. change (0 + Z.of_nat 24) with 24 in Ht.
    apply (wp_for_cells _ base _ _ _ (fun j => map norm (drop 80 g) ++
      replicate (Z.to_nat j) blank ++ drop (Z.to_nat (1920 + j)) g)).
    + unfold scrolled in Ht. change (Z.to_nat (80 * 24)) with 1920%nat in Ht.
      rewrite take_ge in Ht by (rewrite length_drop; lia). done.
    + intros j u Hj Hu Hm'.
      eapply wp_mono; [apply (grid_put u base (map norm (drop 80 g) ++ replicate (Z.to_nat j) blank ++ drop (Z.to_nat (1920 + j)) g) (80 * (25 - 1) + j) _ _ 32); [done|lia|lia| |]; rewrite Z.shiftl_mul_pow2 by lia; lia| |done].
      intros ? u' [Hu' Hm'']. split; [|done].
      rewrite insert_app_r_alt in Hu' by (rewrite length_map, length_drop; lia).
      rewrite length_map, length_drop, Hlen in Hu'.
      replace (Z.to_nat (80 * (25 - 1) + j) - (2000 - 80))%nat with (Z.to_nat j) in Hu' by lia.
      rewrite insert_app_r_alt in Hu' by (rewrite length_replicate; lia).
      rewrite length_replicate, Nat.sub_diag in Hu'.
      destruct (lookup_lt_is_Some_2 g (Z.to_nat (1920 + j))) as [d Hd]; [lia|].
      rewrite (drop_S _ _ _ Hd) in Hu'. simpl in Hu'.
      replace (Z.to_nat (j + 1)) with (Z.to_nat j + 1)%nat by lia.
      rewrite replicate_add, <- !app_assoc. simpl.
      by replace (Z.to_nat (1920 + (j + 1))) with (Datatypes.S (Z.to_nat (1920 + j))) by lia.
    + intros u Hu Hm'. split; [|by eapply modifies_trans].
      change (0 + Z.of_nat 80) with 80 in Hu. rewrite (drop_ge g (Z.to_nat (1920 + 80))), app_nil_r in Hu by lia. done.
Qed.

(** [clear] blanks all of video memory. *)
Lemma clear_spec s g E :
  grid s video_mem g ->
  wp clear (fun _ s' => grid s' video_mem (replicate CELLS blank) /\ modifies s video_mem 4000 s') E s.
Proof.
  intros Hg. pose proof Hg as (Hlen & _). unfold CELLS in Hlen. unfold clear, NUM_ROWS, NUM_COLS.
  change (Z.to_nat (25 * 80)) with 2000%nat.
  apply (wp_for_cells _ video_mem _ _ _ (fun i => replicate (Z.to_nat i) blank ++ drop (Z.to_nat i) g)).
  - done.
  - intros j u Hj Hu _.
    eapply wp_mono; [apply (grid_put u video_mem (replicate (Z.to_nat j) blank ++ drop (Z.to_nat j) g)
      j _ _ 32); [done|lia|lia| |]; rewrite Z.shiftl_mul_pow2 by lia; lia| |done].
    intros ? u' [Hu' Hm]. split; [|done].
    rewrite insert_app_r_alt in Hu' by (rewrite length_replicate; lia).
    rewrite length_replicate, Nat.sub_diag in Hu'.
    destruct (lookup_lt_is_Some_2 g (Z.to_nat j)) as [d Hd]; [lia|].
    rewrite (drop_S _ _ _ Hd) in Hu'. simpl in Hu'.
    replace (Z.to_nat (j + 1)) with (Z.to_nat j + 1)%nat by lia.
    rewrite replicate_add, <- app_assoc. simpl.
    by replace (Z.to_nat j + 1)%nat with (Datatypes.S (Z.to_nat j)) by lia.
  - intros u Hu Hm. split; [|done]. change (Z.to_nat (0 + Z.of_nat 2000)) with 2000%nat in Hu.
    rewrite (drop_ge g 2000), app_nil_r in Hu by lia. done.
Qed.

(** ** The terminal table *)

Definition with_term (t : Z) (v : term) (s : kernel) : kernel :=
  set_terminal (<[Z.to_nat t := v]> (terminal (ttys s))) s.

Lemma get_term_eq s t T : aget (terminal (ttys s)) t = Some T -> get_term t s = Ret T s.
Proof. unfold get_term, bind, gets, get_or_fault. by intros ->. Qed.

Lemma put_term_eq s t T v :
  aget (terminal (ttys s)) t = Some T -> put_term t v s = Ret tt (with_term t v s).
Proof.
  unfold put_term, bind, gets, get_or_fault, aget, aset.
  by destruct ((0 <=? t) && _).
Qed.

Lemma get_with_term s t T v :
  aget (terminal (ttys s)) t = Some T -> aget (terminal (ttys (with_term t v s))) t = Some v.
Proof.
  unfold aget, with_term. simpl. rewrite length_insert.
  destruct ((0 <=? t) && _) eqn:E; [|done]. intros _. unbool.
  apply list_lookup_insert_eq. lia.
Qed.

Lemma get_with_term_ne s t t' v :
  t' <> t -> 0 <= t -> aget (terminal (ttys (with_term t v s))) t' = aget (terminal (ttys s)) t'.
Proof.
  intros Hne Ht. unfold aget, with_term. simpl. rewrite length_insert.
  destruct ((0 <=? t') && _) eqn:E; [|done]. unbool. apply list_lookup_insert_ne. lia.
Qed.

Lemma with_term_twice s t v w : with_term t v (with_term t w s) = with_term t v s.
Proof. unfold with_term, set_terminal, on_ttys. simpl. by rewrite list_insert_insert_eq. Qed.

Lemma with_term_id s t T : aget (terminal (ttys s)) t = Some T -> with_term t T s = s.
Proof.
  unfold aget, with_term, set_terminal, on_ttys. destruct ((0 <=? t) && _); [|done].
  intros Ht. rewrite list_insert_id by done. by destruct s as [? ? ? ? ? [] ? ? ? ?].
Qed.

Lemma with_term_same base s t T v :
  aget (terminal (ttys s)) t = Some T -> term_pcb v = term_pcb T ->
  same_but_screen base s (with_term t v s).
Proof.
  intros HT Hv. constructor; try done. unfold with_term. simpl.
  rewrite list_fmap_insert, Hv. apply list_insert_id. rewrite list_lookup_fmap.
  unfold aget in HT. destruct ((0 <=? t) && _); [|done]. by rewrite HT.
Qed.

Definition at_pos (T : term) (y x : Z) : term := Term (term_pcb T) x y.

(** The cursor rows a newline skips. *)
Lemma wrap_rows_spec s t T Q E :
  aget (terminal (ttys s)) t = Some T ->
  0 <= screen_x T < 2 ^ 31 -> 0 <= screen_y T < 2 ^ 31 ->
  (let q := Z.max 0 ((screen_x T - 1) / 80) in
   Q tt (with_term t (at_pos T (screen_y T + q) (screen_x T - 80 * q)) s)) ->
  wp (wrap_rows t) Q E s.
Proof.
  intros HT Hx Hy HQ. cbv zeta in HQ. unfold wrap_rows.
  assert (Hq : 80 * ((screen_x T - 1) / 80) <= screen_x T - 1 < 80 * ((screen_x T - 1) / 80) + 80)
    by (Z.to_euclidean_division_equations; lia).
  apply (wp_loop (fun _ s' => exists i, 0 <= i <= Z.max 0 ((screen_x T - 1) / 80) /\
      s' = with_term t (at_pos T (screen_y T + i) (screen_x T - 80 * i)) s)
    (fun _ s' => match aget (terminal (ttys s')) t with Some T' => screen_x T' | None => 0 end)).
  - exists 0. split; [lia|]. rewrite <- (with_term_id s t T) at 1 by done.
    f_equal. destruct T. unfold at_pos. simpl in *. f_equal; lia.
  - rewrite HT. unfold loop_fuel. lia.
  - intros [] s' (i & Hi & ->).
    rewrite (get_with_term s t T) by done. cbn [at_pos screen_x]. split; [lia|].
    wp_step. eapply wp_of_Ret; [by eapply get_term_eq, get_with_term|]. cbn [at_pos screen_x].
    unfold NUM_COLS. wp_step; unbool.
    + wp_step. eapply wp_of_Ret; [by eapply put_term_eq, get_with_term|].
      rewrite with_term_twice.
      wp_step. eapply wp_of_Ret; [by eapply get_term_eq, get_with_term|].
      wp_step. eapply wp_of_Ret; [by eapply put_term_eq, get_with_term|].
      rewrite with_term_twice. wp_step.
      unfold set_screen_y, set_screen_x. cbn [at_pos screen_x screen_y term_pcb].
      rewrite (get_with_term s t T) by done. cbn [screen_x].
      rewrite !u32_small by lia. split; [|lia].
      exists (i + 1). split; [lia|]. f_equal. unfold at_pos. f_equal; lia.
    + wp_step. replace (Z.max 0 ((screen_x T - 1) / 80)) with i in HQ by lia. done.
Qed.

Lemma only_screen_trans base t s1 s2 s3 :
  only_screen base t s1 s2 -> only_screen base t s2 s3 -> only_screen base t s1 s3.
Proof.
  intros [H1 O1] [H2 O2]. split; [by etrans|]. intros t' Ht. rewrite O2, O1; done.
Qed.

Lemma only_screen_modifies base t s s' : modifies s base 4000 s' -> only_screen base t s s'.
Proof. intros Hm. split; [by apply modifies_same_but_screen|]. destruct Hm as [-> _]. done. Qed.

Lemma only_screen_with_term base t s T v :
  aget (terminal (ttys s)) t = Some T -> term_pcb v = term_pcb T ->
  only_screen base t s (with_term t v s).
Proof.
  intros HT Hv. split; [by eapply with_term_same|]. intros t' Hne.
  apply get_with_term_ne; [done|]. apply aget_bound in HT. lia.
Qed.

Lemma modifies_ttys s a n s' : modifies s a n s' -> ttys s' = ttys s.
Proof. by intros [-> _]. Qed.

(** The page shows [g] and terminal [t] is [T]. *)
Definition on_page (s : kernel) (base t : Z) (g : list (Z * Z)) (T : term) : Prop :=
  grid s base g /\ aget (terminal (ttys s)) t = Some T.

Lemma on_page_term s base t g T v :
  on_page s base t g T -> on_page (with_term t v s) base t g v.
Proof. intros [Hg HT]. split; [done|]. by eapply get_with_term. Qed.

Lemma scroll_ref_length g : length g = CELLS -> length (scroll_ref g) = CELLS.
Proof.
  intros Hl. unfold scroll_ref.
  rewrite length_app, length_map, length_drop, length_replicate, Hl. done.
Qed.

Lemma keep_on_page_spec s base t g T E :
  on_page s base t g T -> 0 <= screen_y T -> 0 <= screen_x T ->
  80 * screen_y T + screen_x T <= 2000 ->
  wp (keep_on_page base t)
    (fun _ s' => shows s' base t (fit (Screen g (screen_y T) (screen_x T))) /\
       only_screen base t s s') E s.
Proof.
  intros [Hg HT] Hy Hx Hp. pose proof Hg as (Hlen & _). unfold keep_on_page, fit, cursor_pos.
  cbn [row col cells]. wp_step. wp_use (get_term_eq _ _ _ HT). unfold NUM_COLS, NUM_ROWS.
  rewrite u32_small by lia. replace (80 * screen_y T) with (screen_y T * 80) by lia.
  change (80 * 25) with 2000. destruct (Z.leb_spec 2000 (screen_y T * 80 + screen_x T)).
  - assert (Hs : forall y x, 0 <= y -> 0 <= x -> 80 * y + x < 2000 ->
      wp (put_term t (at_pos T y x) ;; scroll base)
        (fun _ s' => shows s' base t (Screen (scroll_ref g) y x) /\ only_screen base t s s') E s).
    { intros y x Hy' Hx' Hyx. wp_step. wp_use (put_term_eq _ _ _ (at_pos T y x) HT).
      eapply wp_mono; [apply (scroll_spec _ base g), (on_page_term s base t g T); done| |done].
      intros ? s' [Hg' Hm]. split.
      - split; [done|]. split.
        + split; [by apply scroll_ref_length|]. done.
        + exists (at_pos T y x). rewrite (modifies_ttys _ _ _ _ Hm).
          split; [by eapply get_with_term|done].
      - eapply only_screen_trans; [|by apply only_screen_modifies].
        by eapply only_screen_with_term. }
    destruct (Z.ltb_spec 0 (screen_y T)); unfold set_screen_y, set_screen_x;
      rewrite u32_small by lia; apply Hs; lia.
  - wp_step. split; [|split; [reflexivity|done]]. split; [done|]. split.
    + split; [done|]. unfold cursor_pos. simpl. lia.
    + by exists T.
Qed.

Lemma cell_addr_eq base y x :
  0 <= base < 2 ^ 31 -> 0 <= y -> 0 <= x -> 80 * y + x < 2000 ->
  cell_addr base y x = base + 2 * (80 * y + x).
Proof.
  intros. unfold cell_addr, NUM_COLS. rewrite (u32_small (80 * y + x)) by lia.
  rewrite Z.shiftl_mul_pow2 by lia. rewrite !u32_small; rewrite ?u32_small; lia.
Qed.

Lemma putc_on_spec s base t v c E :
  shows s base t v -> 0 <= c < 256 ->
  wp (putc_on base t c)
    (fun _ s' => shows s' base t (put_char c v) /\ only_screen base t s s') E s.
Proof.
  intros (Hg & (Hlen & Hr & Hc & Hpos) & T & HT & Hy & Hx) Hchar.
  unfold cursor_pos in Hpos. unfold putc_on, put_char. wp_step. wp_step.
  - wp_step. apply (wrap_rows_spec s t T); [done|lia|lia|]. rewrite Hx, Hy. cbv zeta.
    set (q := Z.max 0 ((col v - 1) / 80)).
    assert (Hq : 0 <= q /\ (80 * q <= col v - 1 \/ q = 0))
      by (unfold q; Z.to_euclidean_division_equations; lia).
    wp_step. eapply wp_of_Ret; [by eapply get_term_eq, get_with_term|].
    wp_step. wp_use (put_term_eq _ _ _ (at_pos T (u32 (row v + q + 1)) (col v - 80 * q))
      (get_with_term s t T (at_pos T (row v + q) (col v - 80 * q)) HT)).
    rewrite with_term_twice.
    wp_step. eapply wp_of_Ret; [by eapply get_term_eq, get_with_term|].
    wp_use (put_term_eq _ _ _ (at_pos T (u32 (row v + q + 1)) 0)
      (get_with_term s t T (at_pos T (u32 (row v + q + 1)) (col v - 80 * q)) HT)).
    rewrite with_term_twice, u32_small by lia.
    eapply wp_mono; [apply (keep_on_page_spec _ base t (cells v) (at_pos T (row v + q + 1) 0));
      [by apply (on_page_term _ _ _ _ T)|simpl; lia..]| |done].
    cbn [at_pos screen_y screen_x]. intros ? s' [Hs Ho]. split; [done|].
    eapply only_screen_trans; [|done]. by eapply only_screen_with_term.
  - wp_step. wp_use (get_term_eq _ _ _ HT). wp_step. unfold put_cell.
    pose proof Hg as (_ & Hbase & _). rewrite Hx, Hy, cell_addr_eq, u32_small by lia.
    eapply wp_mono; [apply (grid_put s base (cells v) (80 * row v + col v)); [done|lia|lia|lia|lia]| |done].
    intros ? s1 [Hg1 Hm1]. assert (HT1 : aget (terminal (ttys s1)) t = Some T)
      by by rewrite (modifies_ttys _ _ _ _ Hm1).
    wp_use (put_term_eq _ _ _ (set_screen_x (col v + 1) T) HT1).
    unfold set_screen_x. rewrite u32_small, Hy by lia.
    eapply wp_mono; [apply (keep_on_page_spec _ base t
      (<[Z.to_nat (cursor_pos v) := (c, ATTRIB)]> (cells v)) (at_pos T (row v) (col v + 1)));
      [by apply (on_page_term _ _ _ _ T)|simpl; lia..]| |done].
    intros ? s' [Hs Ho]. split; [done|].
    eapply only_screen_trans; [by apply only_screen_modifies|].
    eapply only_screen_trans; [|done]. by eapply only_screen_with_term.
Qed.

(** ** [putc] on the page of the running terminal *)

(** The page the running process writes to: video memory when its terminal is
    on screen, its terminal's own page otherwise. *)
Definition page_of (s : kernel) : Z :=
  if curr_scheduler (ttys s) =? current_terminal (ttys s) then video_mem
  else nth (Z.to_nat (curr_scheduler (ttys s))) vid_page 0.

Definition running_shows (s : kernel) (v : screen) : Prop :=
  0 <= curr_scheduler (ttys s) < 3 /\ shows s (page_of s) (curr_scheduler (ttys s)) v.

Definition only_running_screen (s s' : kernel) : Prop :=
  only_screen (page_of s) (curr_scheduler (ttys s)) s s'.

Lemma shows_log_all s base t v es : shows s base t v -> shows (log_all es s) base t v.
Proof.
  intros Hs. induction es as [|e es IH]; [done|]. exact IH.
Qed.

Lemma only_screen_log_all base t s es : only_screen base t s (log_all es s).
Proof.
  induction es as [|e es IH]; [by split; [reflexivity|]|].
  eapply only_screen_trans; [exact IH|]. split; [by constructor|done].
Qed.

Lemma running_shows_log_all s v es : running_shows s v -> running_shows (log_all es s) v.
Proof.
  intros Hs. induction es as [|e es IH]; [done|]. exact IH.
Qed.

Lemma write_cursor_eq pos s :
  exists es, write_cursor pos s = Ret tt (log_all es s) /\ length es = 4%nat.
Proof. by eexists [_; _; _; _]. Qed.

Lemma page_of_only s s' :
  only_running_screen s s' ->
  page_of s' = page_of s /\ curr_scheduler (ttys s') = curr_scheduler (ttys s).
Proof.
  intros [Hsb _]. destruct (sb_cur _ _ _ Hsb) as [H1 H2]. unfold page_of.
  by rewrite H1, H2.
Qed.

Lemma only_running_trans s1 s2 s3 :
  only_running_screen s1 s2 -> only_running_screen s2 s3 -> only_running_screen s1 s3.
Proof.
  intros H1 H2. destruct (page_of_only _ _ H1) as [Hp Hc].
  unfold only_running_screen in *. rewrite Hp, Hc in H2. by eapply only_screen_trans.
Qed.

(** The screen depends on the terminals and the bytes of the page. *)
Lemma running_shows_frame s t v :
  ttys t = ttys s -> pgs t = pgs s ->
  (forall i, 0 <= i < 4000 -> mem_get t (page_of s + i) = mem_get s (page_of s + i)) ->
  running_shows s v -> running_shows t v.
Proof.
  intros Ht Hp Hm [Hc ((G1 & G2 & [G3 G3'] & G4) & Hok & T & HT)].
  assert (Hpage : page_of t = page_of s) by (unfold page_of; by rewrite Ht).
  unfold running_shows. rewrite Hpage, Ht. split; [done|]. split; [|split; [done|exists T; by rewrite Ht]].
  split_and!; [done|lia|lia| |].
  - split; [|by rewrite Hp]. intros i Hi. rewrite Hm by done. by apply G3.
  - intros j c Hj. pose proof (lookup_lt_Some _ _ _ Hj) as Hlt. rewrite G1 in Hlt. unfold CELLS in Hlt.
    destruct (G4 j c Hj) as (? & ? & <- & <-). rewrite <- !Z.add_assoc, !Hm by lia. done.
Qed.

(** Writing to the screen keeps the running program's place in the tables. *)
Lemma running_shown s t v T :
  only_running_screen s t -> running_shows t v ->
  aget (terminal (ttys s)) (curr_scheduler (ttys s)) = Some T ->
  exists T', aget (terminal (ttys t)) (curr_scheduler (ttys t)) = Some T' /\ term_pcb T' = term_pcb T.
Proof.
  intros [Hsb _] (_ & _ & _ & T' & HT' & _) C1. destruct (sb_cur _ _ _ Hsb) as [_ Ec].
  exists T'. split; [done|]. pose proof (sb_pcb _ _ _ Hsb) as Em. rewrite Ec in HT'. unfold aget in HT', C1.
  destruct (_ && _) in HT'; [|done]. destruct (_ && _) in C1; [|done].
  apply (f_equal (fun l => l !! Z.to_nat (curr_scheduler (ttys s)))) in Em.
  change (map term_pcb ?l) with (term_pcb <$> l) in Em. cbn beta in Em.
  rewrite !list_lookup_fmap, HT', C1 in Em. by injection Em.
Qed.

Lemma putc_spec s v c E :
  running_shows s v -> 0 <= c < 256 ->
  wp (putc c) (fun _ s' => running_shows s' (put_char c v) /\ only_running_screen s s') E s.
Proof.
  intros [Ht Hs] Hc.
  assert (Hput : wp (putc_on (page_of s) (curr_scheduler (ttys s)) c)
    (fun _ s' => running_shows s' (put_char c v) /\ only_running_screen s s') E s).
  { eapply wp_mono; [by apply putc_on_spec| |done]. intros ? s' [Hs' Ho]. split; [|done].
    destruct (page_of_only s s' Ho) as [Hp Hcs]. unfold running_shows. by rewrite Hp, Hcs. }
  unfold putc. wp_step. wp_step.
  destruct (Z.eqb_spec (curr_scheduler (ttys s)) (current_terminal (ttys s))) as [Heq|Hne].
  - unfold page_of in Hput. rewrite Heq, Z.eqb_refl in Hput. wp_step.
    eapply wp_mono; [exact Hput| |done]. intros ? s1 [[Ht1 Hs1] Ho1]. wp_step.
    pose proof (page_of_only _ _ Ho1) as [Hp1 Hc1].
    pose proof Hs1 as (_ & _ & T & HT & _ & _). rewrite Hc1, Heq in HT.
    wp_use (get_term_eq _ _ _ HT).
    destruct (write_cursor_eq (term_pos T) s1) as (es & Hrun & _). wp_use Hrun. split.
    + by apply running_shows_log_all.
    + eapply only_running_trans; [done|]. apply only_screen_log_all.
  - wp_step. unfold page_of in Hput. rewrite (proj2 (Z.eqb_neq _ _)) in Hput by done.
    assert (Ha : aget vid_page (curr_scheduler (ttys s)) =
      Some (nth (Z.to_nat (curr_scheduler (ttys s))) vid_page 0)).
    { assert (Hc3 : curr_scheduler (ttys s) = 0 \/ curr_scheduler (ttys s) = 1 \/
        curr_scheduler (ttys s) = 2) by lia. by destruct Hc3 as [->|[->| ->]]. }
    eapply wp_get_or_fault; [exact Ha|exact Hput].
Qed.

(** ** Text *)

Definition put_text (l : list Z) (v : screen) : screen := foldl (fun v c => put_char c v) v l.

Lemma put_text_app l1 l2 v : put_text (l1 ++ l2) v = put_text l2 (put_text l1 v).
Proof. apply foldl_app. Qed.

Lemma puts_spec s p w r v E :
  running_shows s v -> reads s p (w ++ 0 :: r) -> bytes w -> Forall (fun c => c <> 0) w ->
  Z.of_nat (length w) < 2 ^ 32 ->
  unaliased s p (w ++ 0 :: r) (page_of s) 4000 ->
  wp (puts p) (fun n s' => n = Z.of_nat (length w) /\ running_shows s' (put_text w v) /\
    only_running_screen s s') E s.
Proof.
  intros Hs Hr Hb Hnz Hlen Hu.
  assert (Hreads : forall s', only_running_screen s s' -> reads s' p (w ++ 0 :: r)).
  { intros s' [Hsb _] i b Hi. specialize (Hr i b Hi). destruct p as [a|l]; simpl in *.
    - apply load8_inv in Hr as [Hm _]. apply load8_get. rewrite <- Hm.
      apply (sb_mem _ _ _ Hsb), Hu. apply lookup_lt_Some in Hi. lia.
    - unfold get_or_fault, ret, fault in *. destruct (aget l _); congruence. }
  unfold puts.
  apply wp_loop with
    (I := fun i s' => 0 <= i <= Z.of_nat (length w) /\ only_running_screen s s' /\
       running_shows s' (put_text (take (Z.to_nat i) w) v))
    (mu := fun i _ => Z.of_nat (length w) - i).
  - split; [lia|]. split; [by apply (only_screen_log_all _ _ s [])|done].
  - unfold loop_fuel. lia.
  - intros i t (Hi & Ho & Ht). split; [lia|]. wp_step.
    destruct (decide (i = Z.of_nat (length w))) as [->|Hne].
    + eapply wp_of_Ret; [apply (Hreads t Ho); by rewrite list_lookup_middle|]. cbn.
      rewrite Nat2Z.id, firstn_all in Ht. done.
    + destruct (lookup_lt_is_Some_2 w (Z.to_nat i)) as [c Hc]; [lia|].
      rewrite <- (Z2Nat.id i) by lia.
      eapply wp_of_Ret; [apply (Hreads t Ho); rewrite lookup_app_l by lia; exact Hc|].
      rewrite Z2Nat.id by lia.
      rewrite (proj2 (Z.eqb_neq c 0)) by (eapply (Forall_lookup_1 _ _ _ _ Hnz), Hc).
      wp_step. eapply wp_mono; [apply putc_spec; [exact Ht|]| |done].
      { by apply (Forall_lookup_1 _ _ _ _ Hb Hc). }
      intros ? t' [Ht' Ho']. wp_step. split; [|lia]. split; [lia|].
      split; [by eapply only_running_trans|].
      replace (Z.to_nat (i + 1)) with (Datatypes.S (Z.to_nat i)) by lia.
      rewrite (take_S_r _ _ _ Hc). unfold put_text in *. by rewrite foldl_app.
Qed.

(** ** A closed example: an unpaged machine whose screen is all zeros *)

Definition demo_kernel : kernel := set_mem (ram video_mem 0x2000) initial_kernel.
Definition demo_screen : screen := Screen (replicate CELLS (0, 0)) 0 0.

Lemma demo_shows : running_shows demo_kernel demo_screen.
Proof.
  assert (Hr : forall i, 0 <= i < 4000 -> mem (mach demo_kernel) !! (video_mem + i) = Some 0).
  { intros i Hi. apply ram_lookup. lia. }
  assert (Hm : forall i, 0 <= i < 4000 -> mem_get demo_kernel (video_mem + i) = Some 0).
  { intros i Hi. unfold mem_get. rewrite cell_unpaged by (done || unfold video_mem, VIDEO; lia).
    by apply Hr. }
  split; [change (0 <= 0 < 3); lia|]. change (page_of demo_kernel) with video_mem.
  change (curr_scheduler (ttys demo_kernel)) with 0. split; [|split].
  - split; [apply length_replicate|]. split; [by unfold video_mem, VIDEO; lia|]. split.
    + apply region_unpaged; [done|done|]. intros i Hi. by eexists; apply Hr.
    + intros k c Hc. apply lookup_replicate in Hc as [-> Hk]. unfold CELLS in Hk. cbn [fst snd].
      split_and!; [lia..| |]; [rewrite Hm by lia|rewrite <- Z.add_assoc, Hm by lia]; done.
  - split; [apply length_replicate|done].
  - by exists zero_term.
Qed.

(** ** Properties *)

(** C18: the terminal.  When the running process's terminal shows [v] - its 2000
    cells and a cursor inside them - on the page it writes to (video memory if
    that terminal is on screen, its own page if not), [putc c] returns with the
    page showing [put_char c v], whose cursor is inside the page again; the
    bytes of every other page, the other terminals and all kernel state but the
    cursor ports are untouched. *)
Theorem putc_refines s v c :
  running_shows s v -> 0 <= c < 256 ->
  exists s', putc c s = Ret tt s' /\ running_shows s' (put_char c v) /\ only_running_screen s s'.
Proof.
  intros Hs Hc. pose proof (putc_spec s v c (fun _ _ => False) Hs Hc) as Hw.
  apply wp_Ret in Hw as ([] & s' & ? & ?). by exists s'.
Qed.

(** Strings on the terminal.  [puts] of a NUL-terminated string outside the
    page writes its characters one after the other as [put_char] does and
    returns their number. *)
Theorem puts_refines s p w r v :
  running_shows s v -> reads s p (w ++ 0 :: r) -> bytes w -> Forall (fun c => c <> 0) w ->
  Z.of_nat (length w) < 2 ^ 32 -> unaliased s p (w ++ 0 :: r) (page_of s) 4000 ->
  exists s', puts p s = Ret (Z.of_nat (length w)) s' /\ running_shows s' (put_text w v) /\
    only_running_screen s s'.
Proof.
  intros. pose proof (puts_spec s p w r v (fun _ _ => False)) as Hw.
  apply wp_Ret in Hw as (n & s' & Hrun & -> & ? & ?); [|done..]. by exists s'.
Qed.

End console_lemmas.

Lemma putc_refines_witness :
  let H := quiet_env in
  running_shows demo_kernel demo_screen /\
  exists s', putc 65 demo_kernel = Ret tt s' /\ running_shows s' (put_char 65 demo_screen) /\
    only_running_screen demo_kernel s'.
Proof.
  intros H. split; [apply demo_shows|]. apply putc_refines; [apply demo_shows|lia].
Defined.

Lemma puts_refines_witness :
  let H := quiet_env in
  exists s', puts (cstr "ok") demo_kernel = Ret 2 s' /\
    running_shows s' (put_text [111; 107] demo_screen) /\ only_running_screen demo_kernel s'.
Proof.
  intros H. apply (puts_refines demo_kernel (cstr "ok") [111; 107] []).
  - apply demo_shows.
  - apply reads_Lit.
  - repeat constructor; lia.
  - repeat constructor; lia.
  - done.
  - done.
Defined.
