(* ===== verification/Printf.v ===== *)
(** [printf] of [src/student-distrib/lib.c] against a reference formatter: what a
    format and its arguments spell, and the proof that this text, and nothing
    else, appears on the running program's terminal. *)
From stdpp Require Import base numbers list gmap strings.
From Stdlib Require Import ZArith Lia.
From S2P Require Import Prelude Machine Strings Console.

(** * The reference *)

(** ** Numbers *)

Definition digit_char (d : Z) : Z := if d <? 10 then 48 + d else 55 + d.

(** The numeral of [v], most significant digit first, in front of [acc]. *)
Fixpoint digits_onto (fuel : nat) (radix v : Z) (acc : list Z) : list Z :=
  match fuel with
  | O => acc
  | S fuel =>
    let acc' := digit_char (v mod radix) :: acc in
    if v <? radix then acc' else digits_onto fuel radix (v / radix) acc'
  end.

(** 32 digits are enough for a 32-bit word in any base. *)
Definition digits (radix v : Z) : list Z := digits_onto 32 radix v [].

(** ** Formats *)

(** What an argument stands for: a 32-bit word, or the string at a pointer. *)
Inductive fval : Type := FInt (v : Z) | FStr (w : list Z).

(** The text of a conversion with argument [a]. *)
Definition conversion (alternate : bool) (c : Z) (a : fval) : option (list Z) :=
  match a with
  | FInt v =>
    if c =? 120 then
      Some (if alternate then replicate (8 - length (digits 16 v)) 48 ++ digits 16 v else digits 16 v)
    else if c =? 117 then Some (digits 10 v)
    else if c =? 100 then Some (if s32 v <? 0 then 45 :: digits 10 (- s32 v) else digits 10 v)
    else if c =? 99 then Some [u8 v]
    else None
  | FStr w => if c =? 115 then Some w else None
  end.

Definition takes_argument (c : Z) : bool :=
  (c =? 120) || (c =? 117) || (c =? 100) || (c =? 99) || (c =? 115).

(** The text of a format: [pending] is [None] between conversions, and after a
    percent sign whether a [#] has followed it.  There is none when the format
    ends inside a conversion or the arguments do not fit. *)
Fixpoint format_text (pending : option bool) (format : list Z) (args : list fval) : option (list Z) :=
  match format with
  | [] => match pending with None => Some [] | Some _ => None end
  | c :: format =>
    match pending with
    | None =>
      if c =? 37 then format_text (Some false) format args
      else cons c <$> format_text None format args
    | Some alternate =>
      if c =? 37 then cons 37 <$> format_text None format args
      else if c =? 35 then format_text (Some true) format args
      else if takes_argument c then
        match args with
        | a :: args =>
          match conversion alternate c a with
          | Some w => app w <$> format_text None format args
          | None => None
          end
        | [] => None
        end
      else format_text None format args
    end
  end.

Example formatted :
  format_text None (bytes_of "%s: %d of %u, %#x%%") [FStr (bytes_of "n"); FInt (2 ^ 32 - 7); FInt 10; FInt 48879]
  = Some (bytes_of "n: -7 of 10, 0000BEEF%").
Proof. reflexivity. Qed.

(** * Numerals *)

Section numerals.
Context (radix : Z) (Hradix : 2 <= radix <= 36).

Lemma digit_char_of c : is_digit radix c -> c = digit_char (digit_val c).
Proof.
  intros [Hd Hl]. destruct (itoa_lookup_digit (digit_val c)) as (c' & _ & Hv & _ & Hl'); [lia|].
  rewrite Hl in Hl'. injection Hl' as <-.
  assert (Hc : Forall (fun c => c = digit_char (digit_val c)) (take 36 itoa_lookup)) by by repeat constructor.
  apply (Forall_lookup_1 _ _ (Z.to_nat (digit_val c)) _ Hc). rewrite lookup_take_lt; [done|lia].
Qed.

Lemma num_val_snoc w c : num_val radix (w ++ [c]) = num_val radix w * radix + digit_val c.
Proof. unfold num_val. by rewrite foldl_snoc. Qed.

Lemma num_val_pos w d :
  Forall (is_digit radix) w -> hd_error w = Some d -> digit_val d <> 0 -> 0 < num_val radix w.
Proof.
  destruct w as [|c w]; [done|]. intros [[Hc _] Hw]%Forall_cons_1 [= <-] Hd. rewrite num_val_cons.
  pose proof (num_val_nonneg radix w ltac:(lia) Hw).
  assert (0 < radix ^ Z.of_nat (length w)) by (apply Z.pow_pos_nonneg; lia). nia.
Qed.

(** A numeral without leading zeros is the one [digits_onto] makes. *)
Lemma digits_onto_unique fuel : forall w acc d,
  Forall (is_digit radix) w -> (length w <= fuel)%nat -> hd_error w = Some d ->
  (length w = 1%nat \/ digit_val d <> 0) ->
  digits_onto fuel radix (num_val radix w) acc = w ++ acc.
Proof.
  induction fuel as [|fuel IH]; intros w acc d Hw Hlen Hhd Hd; [by destruct w; [|simpl in Hlen; lia]|].
  destruct (exists_last (l := w)) as (w' & c & ->); [by intros ->|].
  apply Forall_app in Hw as [Hw' [Hc _]%Forall_cons_1]. pose proof Hc as [Hc0 _].
  pose proof (num_val_nonneg radix w' ltac:(lia) Hw') as Hnn.
  rewrite num_val_snoc. cbn [digits_onto].
  rewrite (Z.add_comm (_ * _)), Z_mod_plus_full, Z.div_add, (Z.mod_small (digit_val c)),
    (Z.div_small (digit_val c)), Z.add_0_l by lia. rewrite <- (digit_char_of c Hc).
  destruct w' as [|d' w'].
  - cbn [num_val foldl]. rewrite (proj2 (Z.ltb_lt _ _)) by (unfold num_val; simpl; lia). done.
  - injection Hhd as ->. destruct Hd as [Hd|Hd]; [rewrite length_app in Hd; simpl in Hd; lia|].
    pose proof (num_val_pos (d :: w') d Hw' eq_refl Hd).
    rewrite (proj2 (Z.ltb_ge _ _)) by nia. rewrite (IH (d :: w') _ d); [by rewrite <- app_assoc|done| |done|by right].
    rewrite length_app in Hlen. simpl in Hlen |- *. lia.
Qed.

End numerals.

Lemma digits_zero radix : 2 <= radix <= 36 -> digits radix 0 = [48].
Proof. intros Hr. unfold digits. cbn [digits_onto]. by rewrite Zmod_0_l, (proj2 (Z.ltb_lt 0 radix)) by lia. Qed.

Section printf.
Context `{Env}.

(** What [itoa] stores. *)
Lemma itoa_digits s v buf radix k :
  2 <= radix <= 36 -> 0 <= v < 2 ^ 32 -> v < radix ^ k -> 1 <= k <= 32 -> region s buf (k + 1) ->
  exists t, itoa v buf radix s = Ret buf t /\ modifies s buf (k + 1) t /\
    bytes_at t buf (digits radix v ++ [0]) /\ 0 < Z.of_nat (length (digits radix v)) <= k.
Proof.
  intros Hr Hv Hk Hk1 Hreg.
  assert (Hone : forall j, 1 <= j <= k -> v < radix ^ j -> (v = 0 -> j = 1) ->
    exists t, itoa v buf radix s = Ret buf t /\ modifies s buf (k + 1) t /\
      bytes_at t buf (digits radix v ++ [0]) /\ 0 < Z.of_nat (length (digits radix v)) <= k).
  { intros j Hj Hvj H0.
    assert (Hreg' : region s buf (j + 1)) by (rewrite <- (Z.add_0_r buf); eapply region_mono; [exact Hreg|lia..]).
    pose proof (itoa_spec s v buf radix j Hr Hv Hvj ltac:(lia) Hreg') as Hw.
    apply wp_Ret in Hw as (r & t & Hrun & -> & Hm & w & Hat & Hnum & Hlen & Hw & Hhd).
    assert (Hw' : digits radix v = w).
    { destruct w as [|d w]; [simpl in Hlen; lia|]. unfold digits. rewrite <- Hnum.
      rewrite (digits_onto_unique radix Hr 32 (d :: w) [] d); [by rewrite app_nil_r|done|lia|done|].
      destruct (decide (v = 0)) as [Hz|Hz]; [left; specialize (H0 Hz); simpl in *; lia|right].
      destruct (Hhd Hz) as (d' & [= ->] & Hd'). exact Hd'. }
    exists t. rewrite Hw'. split_and!; [done| |done|lia..]. eapply modifies_widen; [exact Hm|lia..]. }
  destruct (decide (v = 0)) as [->|Hz]; [apply (Hone 1); lia|apply (Hone k); lia].
Qed.

(** ** What [printf] leaves alone *)

(** Everything but the screen and [conv_buf]. *)
Definition scratched (s t : kernel) : Prop :=
  exists u, modifies s CONV_BUF 64 u /\ only_running_screen u t.

(** The NUL-terminated string [w] at [p], away from the screen. *)
Record constant (s : kernel) (p : cptr) (w : list Z) : Prop := {
  co_reads : reads s p (w ++ [0]);
  co_chars : bytes w /\ Forall (fun c => c <> 0) w;
  co_length : Z.of_nat (length w) < 2 ^ 32;
  co_address : match p with Addr b => 0 <= b | Lit _ => True end;
  co_screen : unaliased s p (w ++ [0]) (page_of s) 4000 }.

Lemma overlay (a n : Z) (m1 m2 : gmap Z Z) :
  exists m : gmap Z Z, (forall c, a <= c < a + n -> m !! c = m1 !! c) /\
    (forall c, ~ a <= c < a + n -> m !! c = m2 !! c).
Proof.
  exists (filter (fun x => a <= fst x < a + n) m1 ∪ filter (fun x => ~ a <= fst x < a + n) m2).
  split; intros c Hc; apply option_eq; intros x;
    rewrite lookup_union_Some_raw, map_lookup_filter_None, !map_lookup_filter_Some; naive_solver.
Qed.

Lemma local_under_screen u t a n t' :
  a + n <= 0 -> only_running_screen u t -> modifies t a n t' ->
  exists u', modifies u a n u' /\ only_running_screen u' t'.
Proof.
  intros Ha [Hsb Hterm] [Ht Hout]. destruct (overlay a n (mem (mach t')) (mem (mach u))) as (m & Hin & Hm).
  assert (Hcell : forall c, ~ a <= c < a + n -> mem (mach t') !! c = mem (mach t) !! c).
  { intros c Hc. apply Hout. intros i Hi. rewrite cell_local by lia. intros [=]. lia. }
  exists (set_mem m u). split.
  - split; [done|]. intros c Hc. apply Hm. intros Hr. apply (Hc (c - a)); [lia|].
    rewrite cell_local by lia. f_equal. lia.
  - destruct Hsb. split; [|by rewrite Ht]. rewrite Ht. constructor; try done.
    intros c Hc. cbn [mach set_mem on_mach mem]. destruct (decide (a <= c < a + n)) as [Hr|Hr].
    + by rewrite Hin.
    + rewrite Hm, Hcell by done. by apply sb_cells.
Qed.

Lemma scratched_refl s : scratched s s.
Proof. exists s. split; [apply modifies_refl|apply (only_screen_log_all _ _ s [])]. Qed.

Lemma scratched_screen s t u : scratched s t -> only_running_screen t u -> scratched s u.
Proof. intros (s' & Hm & Ho) Hu. exists s'. split; [done|by eapply only_running_trans]. Qed.

Lemma scratched_local s t a n u :
  scratched s t -> modifies t a n u -> CONV_BUF <= a -> a + n <= CONV_BUF + 64 -> scratched s u.
Proof.
  intros (s' & Hm & Ho) Hu Ha Hn.
  destruct (local_under_screen s' t CONV_BUF 64 u) as (u' & Hu' & Ho'); [done|done|by eapply modifies_widen|].
  exists u'. split; [by eapply modifies_trans|done].
Qed.

Lemma scratched_trans s t u : scratched s t -> scratched t u -> scratched s u.
Proof.
  intros Hs (t' & Hm & Ho). eapply scratched_screen; [|exact Ho].
  by eapply scratched_local; [exact Hs|exact Hm|..].
Qed.

Lemma page_nonneg s v : running_shows s v -> 0 <= page_of s.
Proof. intros [_ ((_ & G & _) & _)]. lia. Qed.

Lemma shows_local s v a n t :
  running_shows s v -> modifies s a n t -> a + n <= 0 -> running_shows t v.
Proof.
  intros Hs Hm Ha. pose proof (page_nonneg s v Hs).
  apply (running_shows_frame s); [by eapply modifies_ttys|by eapply modifies_pgs| |done].
  intros i Hi. apply (modifies_out _ _ _ _ _ Hm), outside_local; lia.
Qed.

Lemma page_of_scratched s t : scratched s t -> page_of t = page_of s /\ pgs t = pgs s.
Proof.
  intros (u & Hm & Ho). destruct (page_of_only _ _ Ho) as [-> _]. destruct Ho as [Hsb _].
  rewrite (sb_pgs _ _ _ Hsb), (modifies_pgs _ _ _ _ Hm). unfold page_of.
  by rewrite (modifies_ttys _ _ _ _ Hm).
Qed.

Lemma scratched_get s t a :
  scratched s t -> 0 <= a -> outside (pgs s) (page_of s) 4000 a -> mem_get t a = mem_get s a.
Proof.
  intros (u & Hm & Hsb & _) Ha Ho.
  assert (Hp : page_of u = page_of s) by (unfold page_of; by rewrite (modifies_ttys _ _ _ _ Hm)).
  rewrite Hp in Hsb. rewrite (sb_mem _ _ _ Hsb) by by rewrite (modifies_pgs _ _ _ _ Hm).
  apply (modifies_out _ _ _ _ _ Hm), outside_local; [done|unfold CONV_BUF; lia].
Qed.

Lemma constant_scratched s t p w : constant s p w -> scratched s t -> constant t p w.
Proof.
  intros [Hr Hc Hl Ha Hu] Hs. destruct (page_of_scratched _ _ Hs) as [Hp Hpg].
  constructor; try done; [|destruct p; [by rewrite Hp; simpl; rewrite Hpg|done]].
  intros i b Hi. specialize (Hr i b Hi). destruct p as [a|l]; simpl in *.
  - apply load8_inv in Hr as [Hm _]. apply load8_get. rewrite <- Hm.
    apply (scratched_get s t); [done|lia|]. apply Hu. apply lookup_lt_Some in Hi. lia.
  - unfold get_or_fault, ret, fault in *. destruct (aget l _); congruence.
Qed.

Lemma puts_constant s p w v E :
  running_shows s v -> constant s p w ->
  wp (puts p) (fun _ t => running_shows t (put_text w v) /\ only_running_screen s t) E s.
Proof.
  intros Hs [Hr [Hb Hn] Hl _ Hu]. eapply wp_mono; [by apply (puts_spec s p w [] v E)| |done].
  by intros n t (_ & ? & ?).
Qed.

(** The same for a string in [conv_buf]. *)
Lemma puts_scratch s buf w v E :
  running_shows s v -> bytes_at s buf (w ++ [0]) -> CONV_BUF <= buf -> buf + Z.of_nat (length w) < 0 ->
  bytes w -> Forall (fun c => c <> 0) w ->
  wp (puts (Addr buf)) (fun _ t => running_shows t (put_text w v) /\ only_running_screen s t) E s.
Proof.
  intros Hs Hat Hlow Hbuf Hb Hn. pose proof (page_nonneg s v Hs) as Hp.
  assert (Hu : unaliased s (Addr buf) (w ++ [0]) (page_of s) 4000).
  { intros i Hi j Hj. rewrite length_app in Hi. simpl in Hi. rewrite (cell_local _ (buf + i)) by lia.
    unfold cell. rewrite (proj2 (Z.ltb_ge _ 0)) by lia. intros He. apply translate_nonneg in He; lia. }
  eapply wp_mono; [apply (puts_spec s (Addr buf) w [] v E); try done|by intros n t (_ & ? & ?)|done].
  - by apply bytes_at_reads.
  - unfold CONV_BUF in Hlow. lia.
Qed.

Lemma digits_chars radix v :
  2 <= radix <= 36 -> bytes (digits radix v) /\ Forall (fun c => c <> 0) (digits radix v).
Proof.
  intros Hr. assert (Hd : forall n x acc, Forall (fun c => 0 < c < 256) acc ->
    Forall (fun c => 0 < c < 256) (digits_onto n radix x acc)).
  { induction n as [|n IH]; intros x acc Hacc; [done|]. cbn [digits_onto].
    assert (Hacc' : Forall (fun c => 0 < c < 256) (digit_char (x mod radix) :: acc)).
    { constructor; [|done]. pose proof (Z.mod_pos_bound x radix ltac:(lia)).
      unfold digit_char. destruct (Z.ltb_spec (x mod radix) 10); lia. }
    destruct (x <? radix); [done|by apply IH]. }
  pose proof (Hd 32%nat v [] (Forall_nil_2 _)) as Hw. fold (digits radix v) in Hw.
  split; (eapply Forall_impl; [exact Hw|]); cbv beta; lia.
Qed.

(** A numeral through [conv_buf]. *)
Lemma number_spec {B} s v x buf radix k (f : K B) Q E :
  running_shows s v -> 2 <= radix <= 36 -> 0 <= x < 2 ^ 32 -> x < radix ^ k -> 1 <= k <= 32 ->
  region s buf (k + 1) -> CONV_BUF <= buf -> buf + k + 1 <= CONV_BUF + 64 ->
  (forall u, running_shows u (put_text (digits radix x) v) -> scratched s u -> wp f Q E u) ->
  wp (itoa x buf radix ;; puts (Addr buf) ;; f) Q E s.
Proof.
  intros Hs Hr Hx Hk Hk1 Hreg Hlow Hhigh Hf. unfold CONV_BUF in Hlow, Hhigh.
  destruct (itoa_digits s x buf radix k Hr Hx Hk Hk1 Hreg) as (t & Ht & Hm & Hat & Hlen).
  destruct (digits_chars radix x Hr) as [Hb Hn].
  wp_step. wp_use Ht. wp_step. eapply wp_mono; [apply (puts_scratch t buf (digits radix x) v E); try done| |done].
  - eapply shows_local; [done|exact Hm|lia].
  - lia.
  - intros n u [Hu Ho]. apply Hf; [done|]. eapply scratched_screen; [|exact Ho].
    eapply scratched_local; [apply scratched_refl|exact Hm|unfold CONV_BUF; lia..].
Qed.

(** Eight digits: zeros in front of the numeral at [conv_buf + 8]. *)
Lemma padded_spec {B} s v x (f : K B) Q E :
  running_shows s v -> 0 <= x < 2 ^ 32 -> region s CONV_BUF 64 ->
  (forall u, running_shows u (put_text (replicate (8 - length (digits 16 x)) 48 ++ digits 16 x) v) ->
     scratched s u -> wp f Q E u) ->
  wp (itoa x (CONV_BUF + 8) 16 ;;
      let* starting_index := strlen (Addr (CONV_BUF + 8)) in
      loop (fun i => if i <? 8 then store8 (CONV_BUF + i) 48 ;; ret (inl (i + 1))
                     else ret (inr tt)) starting_index ;;
      puts (Addr (CONV_BUF + starting_index)) ;; f) Q E s.
Proof.
  intros Hs Hx Hreg Hf.
  destruct (itoa_digits s x (CONV_BUF + 8) 16 8) as (t & Ht & Hm & Hat & Hlen); [lia..| |].
  { eapply region_mono; [exact Hreg|lia..]. }
  destruct (digits_chars 16 x ltac:(lia)) as [Hb Hn]. set (w := digits 16 x) in *.
  wp_step. wp_use Ht. wp_step.
  assert (Hl : strlen (Addr (CONV_BUF + 8)) t = Ret (Z.of_nat (length w)) t).
  { apply (strlen_spec t _ (w ++ [0]) w); [by apply bytes_at_reads|by apply cstring_app|lia]. }
  wp_use Hl. wp_step. set (n := Z.of_nat (length w)) in *. set (a := CONV_BUF + n).
  assert (Hreg' : region t a (8 - n)).
  { eapply region_modifies; [exact Hm|apply (region_mono s CONV_BUF 64 n (8 - n)); [exact Hreg|lia..]|].
    intros i Hi. apply outside_local2; unfold a, CONV_BUF; lia. }
  assert (M : modifies t a (8 - n) (filled a 48 (8 - n) t)).
  { apply modifies_put_bytes. rewrite length_replicate. lia. }
  eapply wp_mono with (Q := fun _ u => u = filled a 48 (8 - n) t); [| |done].
  - apply wp_loop with (I := fun i u => n <= i <= 8 /\ u = filled a 48 (i - n) t) (mu := fun i _ => 8 - i).
    + split; [lia|]. by rewrite Z.sub_diag.
    + unfold loop_fuel. lia.
    + intros i u [Hi ->]. split; [lia|]. destruct (Z.ltb_spec i 8).
      * wp_step. eapply wp_of_Ret; [apply (store8_filled t a (8 - n) 48 (i - n) _ (i + 1 - n)); [done|lia..]|].
        apply wp_ret. split; [split; [lia|done]|lia].
      * apply wp_ret. by replace i with 8 by lia.
  - intros _ u ->. wp_step. fold a. set (u := filled a 48 (8 - n) t) in *.
    assert (Hatu : bytes_at u a ((replicate (8 - length w) 48 ++ w) ++ [0])).
    { rewrite <- app_assoc. apply bytes_at_app. rewrite length_replicate. split.
      - replace (8 - length w)%nat with (Z.to_nat (8 - n)) by lia. apply bytes_at_put_bytes.
        rewrite length_replicate, Z2Nat.id by lia. exact Hreg'.
      - replace (a + Z.of_nat (8 - length w)) with (CONV_BUF + 8) by lia.
        eapply bytes_at_frame; [exact Hat|]. intros i Hi. rewrite length_app in Hi. simpl in Hi.
        apply (modifies_out _ _ _ _ _ M), outside_local2; unfold a, CONV_BUF; lia. }
    eapply wp_mono; [apply (puts_scratch u a (replicate (8 - length w) 48 ++ w) v E); [|exact Hatu|..]| |done].
    + eapply shows_local; [eapply shows_local; [exact Hs|exact Hm|]|exact M|]; unfold a, CONV_BUF; lia.
    + unfold a. lia.
    + rewrite length_app, length_replicate. unfold a, CONV_BUF. lia.
    + apply Forall_app. split; [apply Forall_replicate; lia|done].
    + apply Forall_app. split; [by apply Forall_replicate|done].
    + intros _ r [Hr Ho]. apply Hf; [done|]. eapply scratched_screen; [|exact Ho].
      eapply scratched_local; [eapply scratched_local; [apply scratched_refl|exact Hm|lia..]|exact M|unfold a; lia..].
Qed.

(** ** Conversions *)

Definition means (s : kernel) (a : parg) (f : fval) : Prop :=
  match a, f with
  | PInt x, FInt v => v = u32 x
  | PStr p, FStr w => constant s p w
  | _, _ => False
  end.

Lemma means_scratched s t a f : means s a f -> scratched s t -> means t a f.
Proof. destruct a, f; simpl; [done..|apply constant_scratched]. Qed.

Lemma in_scratch s v n (m : K (list parg)) w args E :
  running_shows s v -> (n <= 64)%nat ->
  (forall t, running_shows t v -> region t CONV_BUF (Z.of_nat n) ->
     wp m (fun r u => r = args /\ running_shows u (put_text w v) /\ scratched t u) E t) ->
  wp (alloc_local CONV_BUF n ;; m)
    (fun r t => r = args /\ running_shows t (put_text w v) /\ scratched s t) E s.
Proof.
  intros Hs Hn Hm. destruct (alloc_local_spec s CONV_BUF n) as (t & Ht & Mt & Rt); [unfold CONV_BUF; lia|].
  assert (Hst : scratched s t) by (eapply scratched_local; [apply scratched_refl|exact Mt|lia..]).
  wp_step. wp_use Ht. eapply wp_mono; [apply Hm; [|exact Rt]| |done].
  - eapply shows_local; [exact Hs|exact Mt|unfold CONV_BUF; lia].
  - intros r u (Hr & Hu & Hsu). split; [done|]. split; [done|]. by eapply scratched_trans.
Qed.

(** The conversions one by one. *)
Lemma printf_hex alternate x args :
  printf_conv alternate 120 (PInt x :: args) =
    (alloc_local CONV_BUF 64 ;;
     (if alternate =? 0 then itoa (u32 x) CONV_BUF 16 ;; puts (Addr CONV_BUF) ;; ret tt
      else
        itoa (u32 x) (CONV_BUF + 8) 16 ;;
        let* starting_index := strlen (Addr (CONV_BUF + 8)) in
        loop (fun i => if i <? 8 then store8 (CONV_BUF + i) 48 ;; ret (inl (i + 1))
                       else ret (inr tt)) starting_index ;;
        puts (Addr (CONV_BUF + starting_index)) ;; ret tt) ;;
     ret args).
Proof. reflexivity. Qed.

Lemma printf_unsigned alternate x args :
  printf_conv alternate 117 (PInt x :: args) =
    (alloc_local CONV_BUF 36 ;; itoa (u32 x) CONV_BUF 10 ;; puts (Addr CONV_BUF) ;; ret args).
Proof. reflexivity. Qed.

Lemma printf_signed alternate x args :
  printf_conv alternate 100 (PInt x :: args) =
    (alloc_local CONV_BUF 36 ;;
     (if s32 (u32 x) <? 0 then store8 CONV_BUF 45 ;; itoa (u32 (- s32 (u32 x))) (CONV_BUF + 1) 10
      else itoa (s32 (u32 x)) CONV_BUF 10) ;;
     puts (Addr CONV_BUF) ;; ret args).
Proof. reflexivity. Qed.

Lemma hex_spec s v alternate x args E :
  running_shows s v ->
  wp (printf_conv (Z.b2z alternate) 120 (PInt x :: args))
    (fun r t => r = args /\ running_shows t (put_text (if alternate
        then replicate (8 - length (digits 16 (u32 x))) 48 ++ digits 16 (u32 x)
        else digits 16 (u32 x)) v) /\ scratched s t) E s.
Proof.
  intros Hs. pose proof (u32_range x) as Hx. rewrite printf_hex. apply in_scratch; [done|lia|].
  intros t Ht Rt. wp_step. destruct alternate; cbn [Z.b2z].
  - change (1 =? 0) with false. cbv iota.
    by apply (padded_spec t v (u32 x)).
  - change (0 =? 0) with true. cbv iota. apply (number_spec t v (u32 x) CONV_BUF 16 8); try done; try lia.
    rewrite <- (Z.add_0_r CONV_BUF). eapply region_mono; [exact Rt|lia..].
Qed.

Lemma unsigned_spec s v alternate x args E :
  running_shows s v ->
  wp (printf_conv alternate 117 (PInt x :: args))
    (fun r t => r = args /\ running_shows t (put_text (digits 10 (u32 x)) v) /\ scratched s t) E s.
Proof.
  intros Hs. pose proof (u32_range x) as Hx. rewrite printf_unsigned. apply in_scratch; [done|lia|].
  intros t Ht Rt. apply (number_spec t v (u32 x) CONV_BUF 10 10); try done; try lia.
  rewrite <- (Z.add_0_r CONV_BUF). eapply region_mono; [exact Rt|lia..].
Qed.

Lemma signed_spec s v alternate x args E :
  running_shows s v ->
  wp (printf_conv alternate 100 (PInt x :: args))
    (fun r t => r = args /\ running_shows t (put_text
        (if s32 (u32 x) <? 0 then 45 :: digits 10 (- s32 (u32 x)) else digits 10 (u32 x)) v) /\ scratched s t) E s.
Proof.
  intros Hs. pose proof (u32_range x) as Hx. rewrite printf_signed. apply in_scratch; [done|lia|].
  intros t Ht Rt. set (y := s32 (u32 x)).
  assert (Hy : - 2 ^ 31 <= y < 2 ^ 31 /\ (0 <= y -> y = u32 x)).
  { unfold y, s32. pose proof (Z.mod_pos_bound (u32 x + 2 ^ 31) (2 ^ 32) ltac:(lia)). split; [lia|]. intros Hy.
    destruct (Z.lt_ge_cases (u32 x) (2 ^ 31)); [rewrite Z.mod_small; lia|].
    replace (u32 x + 2 ^ 31) with (u32 x - 2 ^ 31 + 1 * 2 ^ 32) in Hy |- * by lia.
    rewrite Z_mod_plus_full, Z.mod_small in Hy |- *; lia. }
  clearbody y. destruct Hy as [Hy Hyx]. wp_step. destruct (Z.ltb_spec y 0) as [Hneg|Hpos].
  - wp_step. set (t1 := put_bytes CONV_BUF [45] t).
    assert (R0 : region t CONV_BUF 1) by (rewrite <- (Z.add_0_r CONV_BUF); eapply region_mono; [exact Rt|lia..]).
    assert (H1 : store8 CONV_BUF 45 t = Ret tt t1).
    { rewrite store8_set; [done|]. rewrite <- (Z.add_0_r CONV_BUF). apply (proj1 R0). lia. }
    assert (M1 : modifies t CONV_BUF 1 t1) by (apply modifies_put_bytes; simpl; lia).
    wp_use H1. rewrite u32_small by lia.
    destruct (itoa_digits t1 (- y) (CONV_BUF + 1) 10 10) as (t2 & H2 & M2 & Hat & Hlen); [lia..| |].
    { apply region_put_bytes. eapply region_mono; [exact Rt|lia..]. }
    destruct (digits_chars 10 (- y) ltac:(lia)) as [Hb Hn]. wp_use H2. wp_step.
    assert (Hat2 : bytes_at t2 CONV_BUF ((45 :: digits 10 (- y)) ++ [0])).
    { change ((45 :: digits 10 (- y)) ++ [0]) with ([45] ++ (digits 10 (- y) ++ [0])).
      apply bytes_at_app. split; [|exact Hat]. eapply bytes_at_frame; [by apply bytes_at_put_bytes|].
      intros i Hi. simpl in Hi. apply (modifies_out _ _ _ _ _ M2), outside_local2; unfold CONV_BUF; lia. }
    eapply wp_mono; [apply (puts_scratch t2 CONV_BUF (45 :: digits 10 (- y)) v E); [|exact Hat2|..]| |done].
    + eapply shows_local; [eapply shows_local; [exact Ht|exact M1|]|exact M2|]; unfold CONV_BUF; lia.
    + lia.
    + simpl. unfold CONV_BUF. lia.
    + by constructor; [lia|].
    + by constructor.
    + intros _ u [Hu Ho]. apply wp_ret. split; [done|]. split; [done|]. eapply scratched_screen; [|exact Ho].
      eapply scratched_local; [eapply scratched_local; [apply scratched_refl|exact M1|lia..]|exact M2|lia..].
  - rewrite <- (Hyx Hpos). apply wp_bind_inv.
    apply (number_spec t v y CONV_BUF 10 10); try done; try lia.
    rewrite <- (Z.add_0_r CONV_BUF). eapply region_mono; [exact Rt|lia..].
Qed.

(** One conversion appends the text the reference gives. *)
Lemma printf_conv_spec s v alternate c a f args w E :
  running_shows s v -> means s a f -> conversion alternate c f = Some w ->
  wp (printf_conv (Z.b2z alternate) c (a :: args))
    (fun r t => r = args /\ running_shows t (put_text w v) /\ scratched s t) E s.
Proof.
  intros Hs Ha Hw. destruct a as [x|p], f as [y|l]; simpl in Ha; try done; [subst y|]; unfold conversion in Hw.
  - destruct (Z.eqb_spec c 120) as [->|_]; [injection Hw as <-; by apply hex_spec|].
    destruct (Z.eqb_spec c 117) as [->|_]; [injection Hw as <-; by apply unsigned_spec|].
    destruct (Z.eqb_spec c 100) as [->|_]; [injection Hw as <-; by apply signed_spec|].
    destruct (Z.eqb_spec c 99) as [->|_]; [|done]. injection Hw as <-.
    change (printf_conv (Z.b2z alternate) 99 (PInt x :: args)) with (putc (u8 (u32 x)) ;; ret args).
    wp_step. eapply wp_mono; [apply (putc_spec s v); [done|apply u8_range]| |done].
    intros _ t [Ht Ho]. apply wp_ret. split; [done|]. split; [done|].
    eapply scratched_screen; [apply scratched_refl|exact Ho].
  - destruct (Z.eqb_spec c 115) as [->|_]; [|done]. injection Hw as <-.
    change (printf_conv (Z.b2z alternate) 115 (PStr p :: args)) with (puts p ;; ret args).
    wp_step. eapply wp_mono; [by apply (puts_constant s p l v)| |done].
    intros _ t [Ht Ho]. apply wp_ret. split; [done|]. split; [done|].
    eapply scratched_screen; [apply scratched_refl|exact Ho].
Qed.

(** ** The format *)

(** What follows a percent sign and its [#]s. *)
Lemma directive_spec s v alternate c format args fargs rest E :
  running_shows s v -> Forall2 (means s) args fargs -> c <> 35 ->
  format_text (Some alternate) (c :: format) fargs = Some rest ->
  wp (printf_conv (Z.b2z alternate) c args) (fun args' t => exists w rest' fargs',
    rest = w ++ rest' /\ format_text None format fargs' = Some rest' /\ Forall2 (means s) args' fargs' /\
    running_shows t (put_text w v) /\ scratched s t) E s.
Proof.
  intros Hs Hargs H35 Hf. cbn [format_text] in Hf. rewrite (proj2 (Z.eqb_neq c 35)) in Hf by done.
  destruct (Z.eqb_spec c 37) as [->|H37].
  { apply fmap_Some in Hf as (rest' & Hf & ->).
    change (printf_conv (Z.b2z alternate) 37 args) with (putc 37 ;; ret args). wp_step.
    eapply wp_mono; [apply (putc_spec s v); [done|lia]| |done]. intros _ t [Ht Ho]. apply wp_ret.
    exists [37], rest', fargs. split_and!; try done. eapply scratched_screen; [apply scratched_refl|exact Ho]. }
  destruct (takes_argument c) eqn:Harg.
  - destruct Hargs as [|a f args fargs Ha Hargs]; [done|].
    destruct (conversion alternate c f) as [w|] eqn:Hw; [|done]. apply fmap_Some in Hf as (rest' & Hf & ->).
    eapply wp_mono; [by apply (printf_conv_spec s v alternate c a f args w)| |done].
    intros r t (-> & Ht & Hst). by exists w, rest', fargs.
  - unfold takes_argument in Harg. rewrite !orb_false_iff in Harg. destruct Harg as [[[[A1 A2] A3] A4] A5].
    unfold printf_conv. rewrite (proj2 (Z.eqb_neq c 37)), A1, A2, A3, A4, A5 by done. apply wp_ret.
    exists [], rest, fargs. split_and!; try done. apply scratched_refl.
Qed.

Lemma constant_char s p w i c :
  constant s p w -> 0 <= i -> (w ++ [0]) !! Z.to_nat i = Some c -> cload p i s = Ret c s.
Proof. intros Hp Hi Hc. rewrite <- (Z2Nat.id i) by lia. by apply (co_reads _ _ _ Hp). Qed.

(** The [#]s. *)
Lemma hashes_spec s f format i alternate fargs rest E :
  constant s f format -> 0 <= i ->
  format_text (Some alternate) (drop (Z.to_nat i) format) fargs = Some rest ->
  wp (loop (fun st : Z * Z =>
      let* c := cload f (fst st) in
      if c =? 35 then ret (inl (fst st + 1, 1)) else ret (inr (fst st, snd st, c))) (i, Z.b2z alternate))
    (fun r t => t = s /\ exists j alternate' c format', r = (j, Z.b2z alternate', c) /\ i <= j /\ c <> 35 /\
       drop (Z.to_nat j) format = c :: format' /\
       format_text (Some alternate') (c :: format') fargs = Some rest) E s.
Proof.
  intros Hf Hi Htext.
  apply wp_loop with
    (I := fun st t => t = s /\ i <= fst st /\ exists alternate', snd st = Z.b2z alternate' /\
       format_text (Some alternate') (drop (Z.to_nat (fst st)) format) fargs = Some rest)
    (mu := fun st _ => Z.of_nat (length format) - fst st).
  - split; [done|]. split; [done|]. by exists alternate.
  - pose proof (co_length _ _ _ Hf). simpl. unfold loop_fuel. lia.
  - intros [j a] t (-> & Hj & alternate' & Ha & Ht). cbn [fst snd] in *. subst a.
    destruct (drop (Z.to_nat j) format) as [|c format'] eqn:Hd; [done|].
    assert (Hc : format !! Z.to_nat j = Some c).
    { rewrite <- (Nat.add_0_r (Z.to_nat j)), <- lookup_drop, Hd. done. }
    pose proof (lookup_lt_Some _ _ _ Hc). split; [lia|]. wp_step.
    eapply wp_of_Ret; [apply (constant_char s f format j c Hf); [lia|by apply lookup_app_l_Some]|].
    cbv beta. destruct (Z.eqb_spec c 35) as [->|Hc35].
    + apply wp_ret. split; [|simpl; lia]. split; [done|]. split; [simpl; lia|]. exists true. split; [done|].
      cbn [fst]. cbn [format_text] in Ht. change (35 =? 37) with false in Ht. change (35 =? 35) with true in Ht.
      cbv iota in Ht. replace (Z.to_nat (j + 1)) with (S (Z.to_nat j)) by lia.
      rewrite (drop_S _ _ _ Hc) in Hd. injection Hd as ->. exact Ht.
    + apply wp_ret. split; [done|]. by exists j, alternate', c, format'.
Qed.

Lemma drop_cons {A} (l l' : list A) i c :
  0 <= i -> drop (Z.to_nat i) l = c :: l' ->
  l !! Z.to_nat i = Some c /\ i < Z.of_nat (length l) /\ drop (Z.to_nat (i + 1)) l = l'.
Proof.
  intros Hi Hd. assert (Hc : l !! Z.to_nat i = Some c) by by rewrite <- (Nat.add_0_r (Z.to_nat i)), <- lookup_drop, Hd.
  pose proof (lookup_lt_Some _ _ _ Hc). split; [done|]. split; [lia|].
  replace (Z.to_nat (i + 1)) with (S (Z.to_nat i)) by lia. rewrite (drop_S _ _ _ Hc) in Hd. by injection Hd.
Qed.

(** The state of [printf] when it has shown [printed] and is to show [rest]. *)
Definition printing (format printed rest : list Z) (v : screen) (st : Z * list parg) (t : kernel) : Prop :=
  0 <= fst st <= Z.of_nat (length format) /\ running_shows t (put_text printed v) /\
  exists fargs, Forall2 (means t) (snd st) fargs /\
    format_text None (drop (Z.to_nat (fst st)) format) fargs = Some rest.

(** A percent sign at [i]. *)
Lemma percent_spec s v f format i args fargs rest E :
  constant s f format -> running_shows s v -> Forall2 (means s) args fargs -> 0 <= i ->
  format_text (Some false) (drop (Z.to_nat (i + 1)) format) fargs = Some rest ->
  wp (let* r := loop (fun st : Z * Z =>
        let* c := cload f (fst st) in
        if c =? 35 then ret (inl (fst st + 1, 1)) else ret (inr (fst st, snd st, c))) (i + 1, 0) in
      let* args' := printf_conv (snd (fst r)) (snd r) args in
      ret (inl (fst (fst r) + 1, args')))
    (fun r t => exists st w rest', (r : Z * list parg + Z) = inl st /\ i < fst st /\ rest = w ++ rest' /\
       printing format w rest' v st t /\ scratched s t) E s.
Proof.
  intros Hf Hs Hargs Hi Htext. wp_step.
  eapply wp_mono; [apply (hashes_spec s f format (i + 1) false fargs rest E Hf); [lia|exact Htext]| |done].
  intros r t (-> & j & alternate & c & format' & -> & Hj & Hc & Hd & Hrest). cbn [fst snd]. wp_step.
  destruct (drop_cons _ _ j _ ltac:(lia) Hd) as (_ & Hlt & Hd').
  eapply wp_mono; [by apply (directive_spec s v alternate c format' args fargs rest E)| |done].
  intros args' u (w & rest' & fargs' & -> & Hf' & Hargs' & Hu & Hsu). apply wp_ret.
  exists (j + 1, args'), w, rest'. cbn [fst]. split; [done|]. split; [lia|]. split; [done|].
  split; [|done]. split; [simpl; lia|]. split; [done|]. exists fargs'. cbn [fst snd]. split; [|by rewrite Hd'].
  eapply Forall2_impl; [exact Hargs'|]. intros. by eapply means_scratched.
Qed.

Lemma printf_spec s v f format args fargs text E :
  running_shows s v -> constant s f format -> Forall2 (means s) args fargs ->
  format_text None format fargs = Some text ->
  wp (printf f args) (fun r t => r = Z.of_nat (length format) /\ running_shows t (put_text text v) /\
    scratched s t) E s.
Proof.
  intros Hs Hf Hargs Htext. destruct (co_chars _ _ _ Hf) as [Hbytes Hnz]. unfold printf.
  apply wp_loop with
    (I := fun st t => exists printed rest, text = printed ++ rest /\ printing format printed rest v st t /\ scratched s t)
    (mu := fun st _ => Z.of_nat (length format) - fst st).
  - exists [], text. split; [done|]. split; [|apply scratched_refl]. split; [simpl; lia|]. split; [done|].
    by exists fargs.
  - pose proof (co_length _ _ _ Hf). simpl. unfold loop_fuel. lia.
  - intros [i args'] t (printed & rest & -> & ([Hi Hi'] & Hst & fargs' & Hargs' & Ht) & Hsc). cbn [fst snd] in *.
    split; [lia|]. pose proof (constant_scratched _ _ _ _ Hf Hsc) as Hft. wp_step.
    destruct (drop (Z.to_nat i) format) as [|c format'] eqn:Hd.
    { assert (Hlen : (length format - Z.to_nat i = 0)%nat) by by rewrite <- length_drop, Hd.
      assert (i = Z.of_nat (length format)) as -> by lia.
      eapply wp_of_Ret; [apply (constant_char t f format _ 0 Hft); [lia|by rewrite Nat2Z.id, list_lookup_middle]|].
      apply wp_ret. injection Ht as <-. by rewrite app_nil_r. }
    destruct (drop_cons _ _ i _ Hi Hd) as (Hc & Hlt & Hd').
    eapply wp_of_Ret; [apply (constant_char t f format i c Hft); [lia|by apply lookup_app_l_Some]|]. cbv beta.
    rewrite (proj2 (Z.eqb_neq c 0)) by exact (Forall_lookup_1 _ _ _ _ Hnz Hc).
    cbn [format_text] in Ht. destruct (Z.eqb_spec c 37) as [->|H37].
    + eapply wp_mono; [apply (percent_spec t _ f format i args' fargs' rest E Hft Hst Hargs' Hi); by rewrite Hd'| |done].
      intros r u (st & w & rest' & -> & Hj & -> & (Hr & Hu & Hrest) & Hsu). split; [|lia].
      exists (printed ++ w), rest'. split; [by rewrite <- app_assoc|]. split; [|by eapply scratched_trans].
      split; [done|]. split; [|done]. unfold put_text in *. by rewrite foldl_app.
    + apply fmap_Some in Ht as (rest' & Ht & ->). wp_step.
      eapply wp_mono; [apply (putc_spec t _ c E Hst); exact (Forall_lookup_1 _ _ _ _ Hbytes Hc)| |done].
      intros _ u [Hu Ho]. assert (Htu : scratched t u) by (eapply scratched_screen; [apply scratched_refl|exact Ho]).
      apply wp_ret. cbn [fst snd]. split; [|lia]. exists (printed ++ [c]), rest'.
      split; [by rewrite <- app_assoc|]. split; [|by eapply scratched_trans].
      split; [simpl; lia|]. split; [unfold put_text in *; by rewrite foldl_app|].
      exists fargs'. cbn [fst snd]. rewrite Hd'. split; [|done].
      eapply Forall2_impl; [exact Hargs'|]. intros. by eapply means_scratched.
Qed.

(** ** Properties *)

(** C19: [printf].  For a format and string arguments that lie away from the
    screen and arguments that fit the format, [printf] returns the length of the
    format, and the running program's terminal shows exactly the text the
    reference formatter gives: numerals in base 16 and 10 without leading zeros
    or padded to eight digits, the sign of [%d] down to -2147483648, characters,
    strings, the percent sign.  Besides the screen only the local [conv_buf]
    changes. *)
Theorem printf_formats s v f format args fargs text :
  running_shows s v -> constant s f format -> Forall2 (means s) args fargs ->
  format_text None format fargs = Some text ->
  exists t, printf f args s = Ret (Z.of_nat (length format)) t /\ running_shows t (put_text text v) /\
    scratched s t.
Proof.
  intros Hs Hf Hargs Htext.
  pose proof (printf_spec s v f format args fargs text (fun _ _ => False) Hs Hf Hargs Htext) as Hw.
  apply wp_Ret in Hw as (r & t & Hrun & -> & Hshow). by exists t.
Qed.

End printf.

Lemma printf_formats_witness :
  let H := quiet_env in
  exists t, printf (cstr "%s: %d of %u, %#x") [PStr (cstr "n"); PInt (-7); PInt 10; PInt 48879] demo_kernel = Ret 17 t /\
    running_shows t (put_text (bytes_of "n: -7 of 10, 0000BEEF") demo_screen) /\ scratched demo_kernel t.
Proof.
  intros H. apply (printf_formats demo_kernel demo_screen (cstr "%s: %d of %u, %#x") (bytes_of "%s: %d of %u, %#x")
    [PStr (cstr "n"); PInt (-7); PInt 10; PInt 48879] [FStr (bytes_of "n"); FInt (2 ^ 32 - 7); FInt 10; FInt 48879]).
  - apply demo_shows.
  - constructor; [apply reads_Lit|split; repeat constructor; done|done..].
  - repeat constructor; try done. apply reads_Lit.
  - reflexivity.
Defined.
