(* ===== verification/Paging.v ===== *)
(** Paging, [src/student-distrib/paging.c] and [flush_tlb]: the tables
    [paging_init] builds, the user window [map_video_memory] opens, and the
    invariant of the tables that keeps user programs away from the kernel. *)
From stdpp Require Import base numbers list gmap strings.
From Stdlib Require Import ZArith Lia.
From S2P Require Import Prelude Machine.

Definition video_memory_PD : Z := 0.
Definition kernel_PD : Z := 1.
Definition video_memory_PT : Z := 0xB8.
Definition term_1_PT : Z := 0xB9.
Definition term_2_PT : Z := 0xBA.
Definition term_3_PT : Z := 0xBB.
Definition initial_flag_vid : Z := 0x03.
Definition initial_flag_ker : Z := 0x83.
Definition kernel_address : Z := 0x00400000.
Definition vid_mem_flag : Z := 0x07.
Definition VIRTUAL_MEMORY_START : Z := 32.
Definition PAGING_USER_ON : Z := 0x87.
Definition EIGHT_MB : Z := 0x800000.
Definition FOUR_MB : Z := 0x400000.
Definition EIGHT_KB : Z := 0x002000.
Definition MB136 : Z := 0x8800000.

Section paging.
Context `{Env}.

(** The three tables; an index outside [page_directory] or [page_vid_mem] never
    occurs, one outside [page_table_video] is a store further on in memory. *)
Definition set_pd (i v : Z) : K unit :=
  let* p := gets pgs in
  let* l := get_or_fault i (aset (page_directory p) i (u32 v)) in
  modify (set_page_directory l).

Definition set_pvm (i v : Z) : K unit :=
  let* p := gets pgs in
  let* l := get_or_fault i (aset (page_vid_mem p) i (u32 v)) in
  modify (set_page_vid_mem l).

Definition set_ptv (i v : Z) : K unit :=
  let* p := gets pgs in
  match aset (page_table_video p) i (u32 v) with
  | Some l => modify (set_page_table_video l)
  | None => store32 (u32 (page_table_video_addr + 4 * i)) (u32 v)
  end.

(** Reloading cr3 changes nothing the model can see: [translate] always walks
    the tables. *)
Definition flush_tlb : K unit := ret tt.

Definition paging_init : K unit :=
  for_up (Z.to_nat KB) 0 (fun i =>
    set_pd i 0 ;;
    set_ptv i 0 ;;
    set_pvm i 0) ;;
  set_pd video_memory_PD (Z.lor page_table_video_addr initial_flag_vid) ;;
  set_ptv video_memory_PT (Z.lor video_mem initial_flag_vid) ;;
  set_ptv term_1_PT (Z.lor term_1_mem initial_flag_vid) ;;
  set_ptv term_2_PT (Z.lor term_2_mem initial_flag_vid) ;;
  set_ptv term_3_PT (Z.lor term_3_mem initial_flag_vid) ;;
  set_pd kernel_PD (Z.lor kernel_address initial_flag_ker) ;;
  modify (set_paging_on true).

Definition map_video_memory (virtual_addr phys_addr : Z) : K unit :=
  set_pd (virtual_addr / MB4) (Z.lor page_table_video_addr vid_mem_flag) ;;
  set_ptv 0 (Z.lor phys_addr vid_mem_flag) ;;
  flush_tlb.

(** [page_directory[VIRTUAL_MEMORY_START] = (EIGHT_MB + pid * FOUR_MB) |
    PAGING_USER_ON; flush_tlb();] as [execute], [halt] and [scheduler] write it. *)
Definition map_program (pid : Z) : K unit :=
  set_pd VIRTUAL_MEMORY_START (Z.lor (u32 (EIGHT_MB + pid * FOUR_MB)) PAGING_USER_ON) ;;
  flush_tlb.

(** [page_table_video[0] = ... | vid_mem_flag], the page behind the user's
    window, as [terminal_switch] and [scheduler] write it: video memory when the
    running terminal is on screen, its own page otherwise. *)
Definition map_window : K unit :=
  let* t := gets ttys in
  if curr_scheduler t =? current_terminal t then set_ptv 0 (Z.lor video_mem vid_mem_flag)
  else
    let* page := get_or_fault (curr_scheduler t) (aget vid_page (curr_scheduler t)) in
    set_ptv 0 (Z.lor page vid_mem_flag).

(** The translation of an access made in user mode: the user bit must be set in
    every entry the walk uses. *)
Definition user_translate (p : paging) (va : Z) : option Z :=
  if negb (paging_on p) then Some va else
  match aget (page_directory p) (va / MB4) with
  | None => None
  | Some pde =>
    if negb (Z.testbit pde 2) then None else
    if Z.testbit pde 7 then translate p va else
    match aget (page_table_video p) (va mod MB4 / KB4) with
    | None => None
    | Some pte => if Z.testbit pte 2 then translate p va else None
    end
  end.

End paging.

(** * Entries *)

(** An entry is an aligned address and flag bits below it. *)
Lemma entry_testbit k f n i :
  0 <= n -> 0 <= f < 2 ^ n -> 0 <= i < n -> Z.testbit (2 ^ n * k + f) i = Z.testbit f i.
Proof.
  intros Hn Hf Hi. rewrite <- (Z.mod_pow2_bits_low _ n) by lia.
  f_equal. rewrite Z.mul_comm, Z.add_comm, Z_mod_plus_full. by apply Z.mod_small.
Qed.

Lemma high_bits f n i : 0 <= f < 2 ^ n -> n <= i -> Z.testbit f i = false.
Proof.
  intros Hf Hi. assert (0 <= n) by (destruct (Z.lt_ge_cases n 0); [rewrite Z.pow_neg_r in Hf by lia|]; lia).
  rewrite <- (Z.mod_small f (2 ^ n)) by done. by apply Z.mod_pow2_bits_high.
Qed.

Lemma entry_lor k f n : 0 <= n -> 0 <= f < 2 ^ n -> Z.lor (2 ^ n * k) f = 2 ^ n * k + f.
Proof.
  intros Hn Hf. assert (Hl : Z.land (2 ^ n * k) f = 0).
  { apply Z.bits_inj'. intros i Hi.
    rewrite Z.land_spec, Z.bits_0, Z.mul_comm. destruct (Z.lt_ge_cases i n).
    - by rewrite Z.mul_pow2_bits_low.
    - by rewrite (high_bits f n), andb_false_r. }
  by rewrite <- Z.lxor_lor, <- Z.add_nocarry_lxor.
Qed.

Lemma entry_land k f n m :
  0 <= n <= 32 -> 0 <= f < 2 ^ n -> 0 <= 2 ^ n * k + f < 2 ^ 32 ->
  m = Z.ldiff (Z.ones 32) (Z.ones n) -> Z.land (2 ^ n * k + f) m = 2 ^ n * k.
Proof.
  intros Hn Hf Hx ->. rewrite Z.ldiff_land, Z.land_assoc, Z.land_ones by lia.
  rewrite Z.mod_small by lia. rewrite <- Z.ldiff_land, Z.ldiff_ones_r by lia.
  rewrite Z.shiftl_mul_pow2, Z.shiftr_div_pow2 by lia.
  rewrite (Z.mul_comm (2 ^ n) k), Z.div_add_l, Z.div_small by lia. lia.
Qed.

Section paging_lemmas.
Context `{Env}.

(** The linker places the table on a page boundary below 4 GB, as its
    [aligned] attribute asks. *)
Definition table_linked : Prop :=
  exists k, page_table_video_addr = 2 ^ 12 * k /\ 0 < k < 2 ^ 20.

(** The pages a user window can show. *)
Definition video_pages : list Z := [VIDEO; term_1_mem; term_2_mem; term_3_mem].

(** ** The invariant of the tables

    Entry 0 leads to the page table, entry 1 is the kernel's 4 MB, entry 32 is
    the running program's 4 MB and entry 34 leads to the page table again; the
    page table maps the four video pages to themselves and its entry 0 to the
    page behind the window. *)
Record tables_ok (p : paging) : Prop := {
  t_on : paging_on p = true;
  t_pd_len : length (page_directory p) = 1024%nat;
  t_pt_len : length (page_table_video p) = 1024%nat;
  t_pd_0 : aget (page_directory p) 0 = Some (page_table_video_addr + 3);
  t_pd_1 : aget (page_directory p) 1 = Some 0x400083;
  t_pd_32 : exists e, aget (page_directory p) 32 = Some e /\
    (e = 0 \/ exists pid, 0 <= pid < 6 /\ e = 2 ^ 22 * (2 + pid) + 0x87);
  t_pd_34 : exists e, aget (page_directory p) 34 = Some e /\
    (e = 0 \/ e = page_table_video_addr + 7);
  t_pd_rest : forall i, 0 <= i < 1024 -> i <> 0 -> i <> 1 -> i <> 32 -> i <> 34 ->
    aget (page_directory p) i = Some 0;
  t_pt_0 : exists e, aget (page_table_video p) 0 = Some e /\
    (e = 0 \/ exists page, page ∈ video_pages /\ e = page + 7);
  t_pt_video : forall i, 0xB8 <= i <= 0xBB ->
    aget (page_table_video p) i = Some (2 ^ 12 * i + 3);
  t_pt_rest : forall i, 0 < i < 1024 -> ~ (0xB8 <= i <= 0xBB) ->
    aget (page_table_video p) i = Some 0 }.

(** The frame of one page table access: what entry [i] of the window's or the
    kernel's low 4 MB maps to. *)
Definition pt_frame (p : paging) (va : Z) : option Z :=
  match aget (page_table_video p) (va mod MB4 / KB4) with
  | Some pte => if Z.testbit pte 0 then Some (Z.land pte 0xFFFFF000 + va mod KB4) else None
  | None => None
  end.

Lemma pde_table f :
  table_linked -> 0 <= f < 2 ^ 7 -> Z.testbit f 0 = true ->
  let pde := page_table_video_addr + f in
  Z.testbit pde 0 = true /\ Z.testbit pde 7 = false /\ Z.testbit pde 2 = Z.testbit f 2 /\
  Z.land pde 0xFFFFF000 = page_table_video_addr.
Proof.
  intros (k & -> & Hk) Hf Hf0 pde. subst pde.
  assert (Hb : forall i, 0 <= i < 12 -> Z.testbit (2 ^ 12 * k + f) i = Z.testbit f i).
  { intros i Hi. apply entry_testbit; lia. }
  split_and!.
  - by rewrite Hb.
  - rewrite Hb by lia. by apply (high_bits f 7).
  - by rewrite Hb.
  - apply entry_land; [lia|lia|lia|reflexivity].
Qed.

Lemma translate_table p va f :
  table_linked -> paging_on p = true -> 0 <= f < 2 ^ 7 -> Z.testbit f 0 = true ->
  aget (page_directory p) (va / MB4) = Some (page_table_video_addr + f) ->
  translate p va = pt_frame p va.
Proof.
  intros Hl Hon Hf Hf0 Hpd. destruct (pde_table f Hl Hf Hf0) as (H0 & H7 & _ & Ha).
  unfold translate. rewrite Hon, Hpd, H0, H7, Ha, Z.eqb_refl. done.
Qed.

Lemma translate_large p va k f :
  paging_on p = true -> 0 <= k < 2 ^ 10 -> 0 <= f < 2 ^ 22 ->
  Z.testbit f 0 = true -> Z.testbit f 7 = true ->
  aget (page_directory p) (va / MB4) = Some (2 ^ 22 * k + f) ->
  translate p va = Some (2 ^ 22 * k + va mod MB4).
Proof.
  intros Hon Hk Hf H0 H7 Hpd. unfold translate.
  rewrite Hon, Hpd, !entry_testbit, H0, H7 by lia. cbn [negb].
  by rewrite (entry_land k f 22) by first [lia|reflexivity].
Qed.

Lemma wp_set_pd i v s (Q : unit -> kernel -> Prop) E :
  0 <= i < 1024 -> length (page_directory (pgs s)) = 1024%nat ->
  (forall l, aset (page_directory (pgs s)) i (u32 v) = Some l -> Q tt (set_page_directory l s)) ->
  wp (set_pd i v) Q E s.
Proof.
  intros Hi Hl HQ. unfold set_pd. do 2 wp_step.
  destruct (aset_total (page_directory (pgs s)) i (u32 v)) as [l El]; [lia|]. wp_step.
  eapply wp_get_or_fault; [exact El|]. apply wp_modify. by apply HQ.
Qed.

Lemma wp_set_ptv i v s (Q : unit -> kernel -> Prop) E :
  0 <= i < 1024 -> length (page_table_video (pgs s)) = 1024%nat ->
  (forall l, aset (page_table_video (pgs s)) i (u32 v) = Some l -> Q tt (set_page_table_video l s)) ->
  wp (set_ptv i v) Q E s.
Proof.
  intros Hi Hl HQ. unfold set_ptv. do 2 wp_step.
  destruct (aset_total (page_table_video (pgs s)) i (u32 v)) as [l El]; [lia|].
  rewrite El. apply wp_modify. by apply HQ.
Qed.

Lemma table_addr_range : table_linked -> 2 ^ 12 <= page_table_video_addr < 2 ^ 32.
Proof. intros (k & -> & Hk). lia. Qed.

Lemma table_flags f :
  table_linked -> 0 <= f < 2 ^ 12 ->
  u32 (Z.lor page_table_video_addr f) = page_table_video_addr + f.
Proof.
  intros (k & -> & Hk) Hf. rewrite entry_lor by lia. apply u32_small. lia.
Qed.

Lemma tables_set_pd p l i v :
  tables_ok p -> aset (page_directory p) i v = Some l ->
  (i = 32 /\ exists pid, 0 <= pid < 6 /\ v = 2 ^ 22 * (2 + pid) + 0x87) \/
  (i = 34 /\ v = page_table_video_addr + 7) ->
  tables_ok (Paging l (page_table_video p) (page_vid_mem p) (paging_on p)).
Proof.
  intros [] Hl Hi.
  assert (Hg : forall j, j <> i -> aget l j = aget (page_directory p) j).
  { intros j Hj. rewrite (aget_aset _ _ _ j _ Hl). by rewrite (proj2 (Z.eqb_neq j i)). }
  assert (He : aget l i = Some v) by (by rewrite (aget_aset _ _ _ i _ Hl), Z.eqb_refl).
  constructor; cbn [page_directory page_table_video paging_on]; try done.
  - by rewrite (aset_length _ _ _ _ Hl).
  - rewrite Hg by lia. done.
  - rewrite Hg by lia. done.
  - destruct Hi as [[-> Hv]|[-> Hv]]; [exists v; auto|]. by rewrite Hg.
  - destruct Hi as [[-> Hv]|[-> Hv]]; [by rewrite Hg|exists v; auto].
  - intros j ? ? ? ? ?. rewrite Hg by lia. auto.
Qed.

Lemma tables_set_window p l page :
  tables_ok p -> page ∈ video_pages -> aset (page_table_video p) 0 (page + 7) = Some l ->
  tables_ok (Paging (page_directory p) l (page_vid_mem p) (paging_on p)).
Proof.
  intros [] Hp Hl.
  assert (Hg : forall j, j <> 0 -> aget l j = aget (page_table_video p) j).
  { intros j Hj. rewrite (aget_aset _ _ _ j _ Hl). by rewrite (proj2 (Z.eqb_neq j 0)). }
  assert (He : aget l 0 = Some (page + 7)) by (by rewrite (aget_aset _ _ _ 0 _ Hl)).
  constructor; cbn [page_directory page_table_video paging_on]; try done.
  - by rewrite (aset_length _ _ _ _ Hl).
  - exists (page + 7). eauto.
  - intros i Hi. rewrite Hg by lia. auto.
  - intros i Hi Hn. rewrite Hg by lia. auto.
Qed.

(** ** The operations keep the invariant *)

(** Only the page tables differ. *)
Definition only_tables (s s' : kernel) : Prop := s' = on_pgs (fun _ => pgs s') s.

(** The tables with the page of process [pid] at 128 MB. *)
Definition program_at (pid : Z) (p : paging) : paging :=
  Paging (<[32%nat := 2 ^ 22 * (2 + pid) + 0x87]> (page_directory p)) (page_table_video p)
    (page_vid_mem p) (paging_on p).

Lemma map_program_spec s pid E :
  tables_ok (pgs s) -> 0 <= pid < 6 ->
  wp (map_program pid) (fun _ s' => tables_ok (pgs s') /\ only_tables s s' /\
    aget (page_directory (pgs s')) 32 = Some (2 ^ 22 * (2 + pid) + 0x87) /\
    page_table_video (pgs s') = page_table_video (pgs s) /\ pgs s' = program_at pid (pgs s)) E s.
Proof.
  intros Hok Hpid. unfold map_program, VIRTUAL_MEMORY_START, EIGHT_MB, FOUR_MB, PAGING_USER_ON.
  assert (Hv : u32 (Z.lor (u32 (0x800000 + pid * 0x400000)) 0x87) = 2 ^ 22 * (2 + pid) + 0x87).
  { rewrite (u32_small (_ + _)) by lia. replace (0x800000 + pid * 0x400000) with (2 ^ 22 * (2 + pid)) by lia.
    rewrite entry_lor by lia. apply u32_small. lia. }
  wp_step. apply wp_set_pd; [lia|apply Hok|]. rewrite Hv. intros l Hl. apply wp_ret.
  split_and!; [|done| |done|].
  - eapply (tables_set_pd (pgs s)); [done|done|]. left. eauto.
  - cbn. by rewrite (aget_aset _ _ _ 32 _ Hl).
  - unfold aset in Hl. rewrite (t_pd_len _ Hok) in Hl. injection Hl as <-. done.
Qed.

Lemma window_flags page : page ∈ video_pages -> u32 (Z.lor page vid_mem_flag) = page + 7.
Proof.
  unfold video_pages. intros Hp. repeat (apply elem_of_cons in Hp as [->|Hp]; [done|]).
  by apply elem_of_nil in Hp.
Qed.

(** The page behind the window of the running terminal. *)
Definition window_page (s : kernel) : Z :=
  if curr_scheduler (ttys s) =? current_terminal (ttys s) then VIDEO
  else nth (Z.to_nat (curr_scheduler (ttys s))) vid_page 0.

Lemma window_page_video s : 0 <= curr_scheduler (ttys s) < 3 -> window_page s ∈ video_pages.
Proof.
  intros Hc. unfold window_page. destruct (_ =? _); [apply list_elem_of_here|].
  assert (Hc3 : curr_scheduler (ttys s) = 0 \/ curr_scheduler (ttys s) = 1 \/
    curr_scheduler (ttys s) = 2) by lia.
  unfold video_pages. destruct Hc3 as [->|[->| ->]]; simpl; set_solver.
Qed.

(** The tables with [page] behind the window. *)
Definition window_at (page : Z) (p : paging) : paging :=
  Paging (page_directory p) (<[0%nat := page + 7]> (page_table_video p)) (page_vid_mem p) (paging_on p).

Lemma map_window_spec s E :
  tables_ok (pgs s) -> 0 <= curr_scheduler (ttys s) < 3 ->
  wp map_window (fun _ s' => tables_ok (pgs s') /\ only_tables s s' /\
    aget (page_table_video (pgs s')) 0 = Some (window_page s + 7) /\
    page_directory (pgs s') = page_directory (pgs s) /\ pgs s' = window_at (window_page s) (pgs s)) E s.
Proof.
  intros Hok Hc. pose proof (window_page_video s Hc) as Hw.
  assert (Hset : wp (set_ptv 0 (Z.lor (window_page s) vid_mem_flag))
    (fun _ s' => tables_ok (pgs s') /\ only_tables s s' /\
      aget (page_table_video (pgs s')) 0 = Some (window_page s + 7) /\
      page_directory (pgs s') = page_directory (pgs s) /\ pgs s' = window_at (window_page s) (pgs s)) E s).
  { apply wp_set_ptv; [lia|apply Hok|]. rewrite window_flags by done. intros l Hl.
    split_and!; [|done| |done|].
    - by eapply (tables_set_window (pgs s)).
    - cbn. by rewrite (aget_aset _ _ _ 0 _ Hl).
    - unfold aset in Hl. destruct (_ && _) in Hl; [|done]. injection Hl as <-. done. }
  unfold map_window. do 2 wp_step. revert Hset. unfold window_page.
  destruct (curr_scheduler (ttys s) =? current_terminal (ttys s)); [done|]. intros Hset.
  wp_step. eapply wp_get_or_fault; [|exact Hset].
  assert (Hc3 : curr_scheduler (ttys s) = 0 \/ curr_scheduler (ttys s) = 1 \/
    curr_scheduler (ttys s) = 2) by lia. by destruct Hc3 as [->|[->| ->]].
Qed.

Lemma map_video_memory_spec s page E :
  table_linked -> tables_ok (pgs s) -> page ∈ video_pages ->
  wp (map_video_memory MB136 page) (fun _ s' => tables_ok (pgs s') /\ only_tables s s' /\
    aget (page_directory (pgs s')) 34 = Some (page_table_video_addr + 7) /\
    aget (page_directory (pgs s')) 32 = aget (page_directory (pgs s)) 32 /\
    aget (page_table_video (pgs s')) 0 = Some (page + 7)) E s.
Proof.
  intros Hlink Hok Hp. unfold map_video_memory. change (MB136 / MB4) with 34.
  wp_step. apply wp_set_pd; [lia|apply Hok|]. unfold vid_mem_flag. rewrite table_flags by (done || lia).
  intros l Hl. assert (Hok1 : tables_ok (pgs (set_page_directory l s))).
  { eapply (tables_set_pd (pgs s)); [done|done|]. by right. }
  wp_step. apply wp_set_ptv; [lia|apply Hok1|]. rewrite window_flags by done.
  intros l' Hl'. apply wp_ret. split_and!; [|done| | |].
  - by eapply (tables_set_window (pgs (set_page_directory l s))).
  - cbn. by rewrite (aget_aset _ _ _ 34 _ Hl).
  - cbn. by rewrite (aget_aset _ _ _ 32 _ Hl).
  - cbn. by rewrite (aget_aset _ _ _ 0 _ Hl').
Qed.

Lemma wp_set_pvm i v s (Q : unit -> kernel -> Prop) E :
  0 <= i < 1024 -> length (page_vid_mem (pgs s)) = 1024%nat ->
  (forall l, aset (page_vid_mem (pgs s)) i (u32 v) = Some l -> Q tt (set_page_vid_mem l s)) ->
  wp (set_pvm i v) Q E s.
Proof.
  intros Hi Hl HQ. unfold set_pvm. do 2 wp_step.
  destruct (aset_total (page_vid_mem (pgs s)) i (u32 v)) as [l El]; [lia|]. wp_step.
  eapply wp_get_or_fault; [exact El|]. apply wp_modify. by apply HQ.
Qed.

Definition table_lengths (p : paging) : Prop :=
  length (page_directory p) = 1024%nat /\ length (page_table_video p) = 1024%nat /\
  length (page_vid_mem p) = 1024%nat.

(** The first [i] entries of the directory and the table are zero. *)
Definition cleared (i : Z) (p : paging) : Prop :=
  table_lengths p /\ forall j, 0 <= j < i ->
    aget (page_directory p) j = Some 0 /\ aget (page_table_video p) j = Some 0.

Lemma paging_init_loop s E (Q : unit -> kernel -> Prop) :
  table_lengths (pgs s) ->
  (forall s', cleared 1024 (pgs s') -> only_tables s s' -> Q tt s') ->
  wp (for_up (Z.to_nat KB) 0 (fun i => set_pd i 0 ;; set_ptv i 0 ;; set_pvm i 0)) Q E s.
Proof.
  intros Hlen HQ. unfold KB. change (Z.to_nat 1024) with 1024%nat.
  apply (wp_for_up (fun i t => cleared i (pgs t) /\ only_tables s t)).
  - split; [split; [done|lia]|]. by destruct s.
  - intros i t Hi [[(L1 & L2 & L3) Hz] Ho].
    wp_step. apply wp_set_pd; [lia|done|]. intros l1 H1.
    wp_step. apply wp_set_ptv; [lia|done|]. intros l2 H2.
    apply wp_set_pvm; [lia|done|]. intros l3 H3. change (u32 0) with 0 in *.
    cbn in H1, H2, H3. split; [split|].
    + split_and!; cbn; [by rewrite (aset_length _ _ _ _ H1)|by rewrite (aset_length _ _ _ _ H2)
        |by rewrite (aset_length _ _ _ _ H3)].
    + intros j Hj. cbn. rewrite (aget_aset _ _ _ j _ H1), (aget_aset _ _ _ j _ H2).
      destruct (Z.eqb_spec j i); [done|]. apply Hz. lia.
    + unfold only_tables in *. rewrite Ho. done.
  - intros t [Hc Ho]. by apply HQ.
Qed.

Lemma paging_init_spec s E :
  table_linked -> table_lengths (pgs s) ->
  wp paging_init (fun _ s' => tables_ok (pgs s') /\ only_tables s s' /\
    aget (page_directory (pgs s')) 32 = Some 0 /\ aget (page_directory (pgs s')) 34 = Some 0 /\
    aget (page_table_video (pgs s')) 0 = Some 0) E s.
Proof.
  intros Hlink Hlen. unfold paging_init. wp_step. apply paging_init_loop; [done|].
  intros s0 [(L1 & L2 & L3) Hz] Ho.
  unfold video_memory_PD, kernel_PD, video_memory_PT, term_1_PT, term_2_PT, term_3_PT,
    initial_flag_vid, initial_flag_ker, kernel_address.
  wp_step. apply wp_set_pd; [lia|done|]. rewrite table_flags by (done || lia). intros pd1 P1.
  wp_step. apply wp_set_ptv; [lia|done|]. intros pt1 P2.
  pose proof (aset_length _ _ _ _ P2) as L3'. cbn in P2, L3'.
  wp_step. apply wp_set_ptv; [lia|cbn; congruence|]. intros pt2 P3.
  pose proof (aset_length _ _ _ _ P3) as L4'. cbn in P3, L4'.
  wp_step. apply wp_set_ptv; [lia|cbn; congruence|]. intros pt3 P4.
  pose proof (aset_length _ _ _ _ P4) as L5'. cbn in P4, L5'.
  wp_step. apply wp_set_ptv; [lia|cbn; congruence|]. intros pt4 P5.
  pose proof (aset_length _ _ _ _ P5) as L6'. cbn in P5, L6'.
  wp_step. apply wp_set_pd; [lia|cbn; by rewrite (aset_length _ _ _ _ P1)|]. intros pd2 P6.
  pose proof (aset_length _ _ _ _ P6) as L7'. cbn in P6, L7'. apply wp_modify.
  assert (Hpd : forall j, 0 <= j < 1024 -> aget pd2 j =
    Some (if j =? 1 then 0x400083 else if j =? 0 then page_table_video_addr + 3 else 0)).
  { intros j Hj. rewrite (aget_aset _ _ _ j _ P6), (aget_aset _ _ _ j _ P1).
    destruct (j =? 1); [done|]. destruct (j =? 0); [done|]. by apply Hz. }
  assert (Hpt : forall j, 0 <= j < 1024 -> aget pt4 j =
    Some (if (0xB8 <=? j) && (j <=? 0xBB) then 2 ^ 12 * j + 3 else 0)).
  { intros j Hj. rewrite (aget_aset _ _ _ j _ P5), (aget_aset _ _ _ j _ P4),
      (aget_aset _ _ _ j _ P3), (aget_aset _ _ _ j _ P2).
    repeat match goal with |- context [j =? ?n] => destruct (Z.eqb_spec j n); [by subst|] end.
    rewrite (proj2 (Hz j Hj)). destruct (Z.leb_spec 0xB8 j), (Z.leb_spec j 0xBB); try done; lia. }
  assert (Hpg : pgs (set_paging_on true (set_page_directory pd2 (set_page_table_video pt4 s0))) =
    Paging pd2 pt4 (page_vid_mem (pgs s0)) true) by done.
  split_and!; [|by unfold only_tables in *; rewrite Ho|by apply Hpd|by apply Hpd|by apply Hpt].
  constructor; cbn [pgs page_directory page_table_video paging_on set_paging_on set_page_directory
    set_page_table_video on_pgs]; try done.
  - by rewrite L7', (aset_length _ _ _ _ P1).
  - congruence.
  - by apply Hpd.
  - by apply Hpd.
  - exists 0. split; [by apply Hpd|by left].
  - exists 0. split; [by apply Hpd|by left].
  - intros i Hi ? ? ? ?. rewrite Hpd by lia.
    by rewrite (proj2 (Z.eqb_neq i 1)), (proj2 (Z.eqb_neq i 0)).
  - exists 0. split; [by apply Hpt|by left].
  - intros i Hi. rewrite Hpt by lia. by rewrite (proj2 (Z.leb_le _ _)), (proj2 (Z.leb_le _ _)) by lia.
  - intros i Hi Hn. rewrite Hpt by lia.
    destruct (Z.leb_spec 0xB8 i), (Z.leb_spec i 0xBB); try done; lia.
Qed.

Lemma window_entry page f off :
  page ∈ video_pages -> f = 3 \/ f = 7 -> 0 <= off < KB4 ->
  Z.testbit (page + f) 0 = true /\ Z.testbit (page + f) 2 = Z.testbit f 2 /\
  Z.land (page + f) 0xFFFFF000 + off = page + off.
Proof.
  unfold video_pages. intros Hp Hf Ho.
  repeat (apply elem_of_cons in Hp as [->|Hp]; [by destruct Hf as [->| ->]|]).
  by apply elem_of_nil in Hp.
Qed.

Lemma table_entry_at p va :
  tables_ok p ->
  let i := va mod MB4 / KB4 in
  (i = 0 /\ exists e, aget (page_table_video p) i = Some e /\
     (e = 0 \/ exists page, page ∈ video_pages /\ e = page + 7)) \/
  (0xB8 <= i <= 0xBB /\ aget (page_table_video p) i = Some (2 ^ 12 * i + 3)) \/
  (0 < i /\ ~ (0xB8 <= i <= 0xBB) /\ aget (page_table_video p) i = Some 0).
Proof.
  intros Hok i. assert (Hi : 0 <= i < 1024).
  { unfold i, MB4, KB4. pose proof (Z.mod_pos_bound va 0x400000 ltac:(lia)).
    split; [apply Z.div_pos; lia|]. apply Z.div_lt_upper_bound; lia. }
  destruct (decide (i = 0)) as [H0|H0].
  { left. split; [done|]. rewrite H0. apply Hok. }
  right. destruct (decide (0xB8 <= i <= 0xBB)); [left|right].
  - split; [done|]. by apply (t_pt_video _ Hok).
  - split_and!; [lia|done|]. by apply (t_pt_rest _ Hok); [lia|].
Qed.

(** Splitting an address below 4 GB into directory index, table index, offset. *)
Lemma va_split va :
  va mod KB4 = va mod MB4 - KB4 * (va mod MB4 / KB4) /\ 0 <= va mod MB4 < MB4 /\
  0 <= va mod KB4 < KB4 /\ va = MB4 * (va / MB4) + va mod MB4.
Proof.
  unfold MB4, KB4.
  split; [|split; [apply Z.mod_pos_bound; lia|split; [apply Z.mod_pos_bound; lia|]]].
  - replace (va mod 4096) with ((va mod 0x400000) mod 4096).
    + rewrite (Z.mod_eq (va mod 0x400000) 4096) by lia. lia.
    + rewrite <- (Znumtheory.Zmod_div_mod 4096 0x400000 va); [done|lia|lia|]. by exists 1024.
  - apply Z_div_mod_eq_full.
Qed.

Lemma kernel_identity p va :
  table_linked -> tables_ok p ->
  (0x400000 <= va < 0x800000 \/ 0xB8000 <= va < 0xBC000) -> translate p va = Some va.
Proof.
  intros Hlink Hok Hva. destruct (va_split va) as (Hk & Hm & Ho & Hsplit). unfold MB4, KB4 in *.
  destruct Hva as [Hva|Hva].
  - assert (Hd : va / 0x400000 = 1) by (symmetry; apply Z.div_unique with (va - 0x400000); lia).
    rewrite (translate_large p va 1 0x83); [f_equal; unfold MB4; lia|apply Hok|lia|lia|done|done|].
    unfold MB4. rewrite Hd. apply Hok.
  - assert (Hd : va / 0x400000 = 0) by (apply Z.div_small; lia).
    rewrite (translate_table p va 3 Hlink); [|apply Hok|lia|done|unfold MB4; rewrite Hd; apply Hok].
    unfold pt_frame. destruct (table_entry_at p va Hok) as [[? _]|[[Hi ->]|[? [? _]]]];
      unfold MB4, KB4 in *; [lia| |lia].
    set (i := va mod 0x400000 / 4096) in *. rewrite entry_testbit by lia.
    rewrite (entry_land i 3 12) by first [lia|reflexivity]. cbn. f_equal. lia.
Qed.

Lemma window_translate p va page :
  table_linked -> tables_ok p -> page ∈ video_pages ->
  aget (page_directory p) 34 = Some (page_table_video_addr + 7) ->
  aget (page_table_video p) 0 = Some (page + 7) ->
  MB136 <= va < MB136 + KB4 -> translate p va = Some (page + (va - MB136)).
Proof.
  intros Hlink Hok Hp H34 H0 Hva. destruct (va_split va) as (Hk & Hm & Ho & Hsplit).
  unfold MB136, KB4, MB4 in *.
  assert (Hd : va / 0x400000 = 34) by (symmetry; apply Z.div_unique with (va - 0x8800000); lia).
  rewrite (translate_table p va 7 Hlink); [|apply Hok|lia|done|unfold MB4; by rewrite Hd].
  unfold pt_frame, MB4, KB4.
  assert (Hi : va mod 0x400000 / 4096 = 0) by (apply Z.div_small; lia).
  rewrite Hi, H0. destruct (window_entry page 7 (va mod 4096)) as (-> & _ & ->); [done|by right|done|].
  f_equal. lia.
Qed.

Lemma program_translate p va pid :
  tables_ok p -> 0 <= pid < 6 ->
  aget (page_directory p) 32 = Some (2 ^ 22 * (2 + pid) + 0x87) ->
  0x8000000 <= va < 0x8400000 -> translate p va = Some (EIGHT_MB + pid * FOUR_MB + (va - 0x8000000)).
Proof.
  intros Hok Hpid H32 Hva. destruct (va_split va) as (Hk & Hm & Ho & Hsplit). unfold MB4, KB4 in *.
  assert (Hd : va / 0x400000 = 32) by (symmetry; apply Z.div_unique with (va - 0x8000000); lia).
  rewrite (translate_large p va (2 + pid) 0x87); [|apply Hok|lia|lia|done|done|unfold MB4; by rewrite Hd].
  f_equal. unfold EIGHT_MB, FOUR_MB, MB4. lia.
Qed.

Lemma user_directory p va :
  table_linked -> tables_ok p -> 0 <= va < 2 ^ 32 -> is_Some (user_translate p va) ->
  (va / MB4 = 32 /\ exists pid, 0 <= pid < 6 /\
     aget (page_directory p) 32 = Some (2 ^ 22 * (2 + pid) + 0x87)) \/
  (va / MB4 = 34 /\ aget (page_directory p) 34 = Some (page_table_video_addr + 7)).
Proof.
  intros Hlink Hok Hva [pa Hpa]. unfold user_translate in Hpa. rewrite (t_on _ Hok) in Hpa. cbn [negb] in Hpa.
  assert (Hd : 0 <= va / MB4 < 1024).
  { unfold MB4. split; [apply Z.div_pos; lia|]. apply Z.div_lt_upper_bound; lia. }
  set (d := va / MB4) in *.
  destruct (decide (d = 0)) as [E|?].
  { rewrite E, (t_pd_0 _ Hok) in Hpa. destruct (pde_table 3 Hlink) as (_ & _ & H2 & _); [lia|done|].
    rewrite H2 in Hpa. done. }
  destruct (decide (d = 1)) as [E|?]; [by rewrite E, (t_pd_1 _ Hok) in Hpa|].
  destruct (decide (d = 32)) as [E|?].
  { left. split; [done|]. rewrite E in Hpa.
    destruct (t_pd_32 _ Hok) as (e & He & [->|(pid & Hpid & ->)]); [by rewrite He in Hpa|].
    by exists pid. }
  destruct (decide (d = 34)) as [E|?].
  { right. split; [done|]. rewrite E in Hpa.
    by destruct (t_pd_34 _ Hok) as (e & He & [-> | ->]); [rewrite He in Hpa|]. }
  by rewrite (t_pd_rest _ Hok d) in Hpa.
Qed.

(** ** Properties *)

(** Boot mapping.  [paging_init] turns paging on with tables under which the
    kernel's 4 MB and the four video pages are mapped to themselves and no user
    access at all translates. *)
Theorem paging_init_maps s :
  table_linked -> table_lengths (pgs s) ->
  exists s', paging_init s = Ret tt s' /\ s' = on_pgs (fun _ => pgs s') s /\ tables_ok (pgs s') /\
    (forall va, 0x400000 <= va < 0x800000 \/ 0xB8000 <= va < 0xBC000 ->
       translate (pgs s') va = Some va) /\
    (forall va, 0 <= va < 2 ^ 32 -> user_translate (pgs s') va = None).
Proof.
  intros Hlink Hlen. pose proof (paging_init_spec s (fun _ _ => False) Hlink Hlen) as Hw.
  apply wp_Ret in Hw as ([] & s' & Hrun & Hok & Ho & H32 & H34 & _). exists s'.
  split_and!; [done|done|done|intros va; by apply kernel_identity|].
  intros va Hva. destruct (user_translate (pgs s') va) as [pa|] eqn:Hu; [|done]. exfalso.
  pose proof (table_addr_range Hlink).
  destruct (user_directory (pgs s') va Hlink Hok Hva) as [[_ (pid & ? & E)]|[_ E]];
    [by exists pa|rewrite H32 in E; injection E; lia|rewrite H34 in E; injection E; lia].
Qed.

(** What the kernel does to the tables once they are set up: it changes the
    program's page, the window of a terminal, opens the window at 136 MB, and
    in between does anything that leaves the tables alone. *)
Inductive table_step : kernel -> kernel -> Prop :=
| step_program pid s s' : 0 <= pid < 6 -> map_program pid s = Ret tt s' -> table_step s s'
| step_window s s' : 0 <= curr_scheduler (ttys s) < 3 -> map_window s = Ret tt s' -> table_step s s'
| step_video s s' : map_video_memory MB136 video_mem s = Ret tt s' -> table_step s s'
| step_other s s' : pgs s' = pgs s -> table_step s s'.

Lemma table_step_ok s s' : table_linked -> table_step s s' -> tables_ok (pgs s) -> tables_ok (pgs s').
Proof.
  intros Hlink Hs Hok. destruct Hs as [pid s s' Hpid Hr|s s' Hc Hr|s s' Hr|s s' Hr].
  - pose proof (map_program_spec s pid (fun _ _ => False) Hok Hpid) as Hw.
    apply wp_Ret in Hw as ([] & s1 & Hr1 & Hpost & _). congruence.
  - pose proof (map_window_spec s (fun _ _ => False) Hok Hc) as Hw.
    apply wp_Ret in Hw as ([] & s1 & Hr1 & Hpost & _). congruence.
  - pose proof (map_video_memory_spec s VIDEO (fun _ _ => False) Hlink Hok
      (list_elem_of_here _ _)) as Hw.
    apply wp_Ret in Hw as ([] & s1 & Hr1 & Hpost & _).
    change VIDEO with video_mem in Hr1. congruence.
  - by rewrite Hr.
Qed.

Lemma table_steps_ok s s' : table_linked -> rtc table_step s s' -> tables_ok (pgs s) -> tables_ok (pgs s').
Proof. intros Hlink. induction 1; eauto using table_step_ok. Qed.

Lemma user_reach p va pa :
  table_linked -> tables_ok p -> 0 <= va < 2 ^ 32 -> user_translate p va = Some pa ->
  (0x8000000 <= va < 0x8400000 /\ exists pid, 0 <= pid < 6 /\
     aget (page_directory p) 32 = Some (2 ^ 22 * (2 + pid) + 0x87) /\
     pa = EIGHT_MB + pid * FOUR_MB + (va - 0x8000000)) \/
  (MB136 <= va < MB136 + KB4 /\ exists page, page ∈ video_pages /\ pa = page + (va - MB136)).
Proof.
  intros Hlink Hok Hva Hu. destruct (va_split va) as (Hk & Hm & Ho & Hsplit).
  destruct (user_directory p va Hlink Hok Hva) as [[Hd (pid & Hpid & H32)]|[Hd H34]]; [by exists pa| |].
  - left. unfold MB4 in *. split; [lia|]. exists pid. split_and!; [lia|lia|done|].
    unfold user_translate in Hu. rewrite (t_on _ Hok) in Hu. unfold MB4 in Hu. cbn [negb] in Hu.
    rewrite Hd, H32, !entry_testbit in Hu by lia. cbn in Hu.
    rewrite (program_translate p va pid) in Hu by (done || lia). by injection Hu as <-.
  - right. unfold user_translate in Hu. rewrite (t_on _ Hok), Hd, H34 in Hu.
    destruct (pde_table 7 Hlink) as (_ & H7 & H2 & _); [lia|done|]. rewrite H2, H7 in Hu. change (Z.testbit 7 2) with true in Hu. cbn [negb] in Hu.
    destruct (table_entry_at p va Hok) as [(H0 & e & He & [->|(page & Hp & ->)])|[[Hi He]|[_ [_ He]]]].
    + by rewrite He in Hu.
    + rewrite H0 in He. unfold MB4, KB4, MB136 in *. split; [lia|]. exists page. split; [done|].
      rewrite H0, He in Hu. destruct (window_entry page 7 0) as (_ & H7' & _); [done|by right|done|].
      rewrite H7' in Hu. change (Z.testbit 7 2) with true in Hu. cbn [negb] in Hu.
      rewrite (window_translate p va page) in Hu by (done || unfold MB136, KB4; lia).
      by injection Hu as <-.
    + rewrite He, entry_testbit in Hu by lia. done.
    + by rewrite He in Hu.
Qed.

(** C9: isolation.  From the tables [paging_init] leaves, whatever the kernel maps
    for whichever process and terminal, in whatever order, a user access
    reaches only the 4 MB of physical memory of the process whose number the
    directory holds, at 128 MB, and one of the four video pages, at 136 MB. *)
Theorem user_isolation s s0 s' va pa :
  table_linked -> table_lengths (pgs s) ->
  paging_init s = Ret tt s0 -> rtc table_step s0 s' ->
  0 <= va < 2 ^ 32 -> user_translate (pgs s') va = Some pa ->
  (0x8000000 <= va < 0x8400000 /\ exists pid, 0 <= pid < 6 /\
     aget (page_directory (pgs s')) 32 = Some (2 ^ 22 * (2 + pid) + 0x87) /\
     pa = EIGHT_MB + pid * FOUR_MB + (va - 0x8000000)) \/
  (MB136 <= va < MB136 + KB4 /\ exists page, page ∈ video_pages /\ pa = page + (va - MB136)).
Proof.
  intros Hlink Hlen Hinit Hsteps Hva. apply user_reach; [done| |done].
  apply (table_steps_ok s0 s' Hlink Hsteps).
  pose proof (paging_init_spec s (fun _ _ => False) Hlink Hlen) as Hw.
  apply wp_Ret in Hw as ([] & s1 & Hr1 & Hpost & _). congruence.
Qed.

(** The window at address 0.  The page behind the user's video window also
    appears at address 0 of the kernel: once the window is open, a kernel access
    through a NULL pointer reaches a video page instead of faulting. *)
Theorem null_reaches_video p page off :
  table_linked -> tables_ok p -> page ∈ video_pages ->
  aget (page_table_video p) 0 = Some (page + 7) -> 0 <= off < KB4 ->
  translate p off = Some (page + off).
Proof.
  intros Hlink Hok Hp H0 Ho. destruct (va_split off) as (Hk & Hm & _ & Hsplit). unfold MB4, KB4 in *.
  assert (Hd : off / 0x400000 = 0) by (apply Z.div_small; lia).
  rewrite (translate_table p off 3 Hlink); [|apply Hok|lia|done|unfold MB4; rewrite Hd; apply Hok].
  unfold pt_frame, MB4, KB4. rewrite (Z.mod_small off 0x400000), (Z.mod_small off 4096) by lia.
  rewrite (Z.div_small off 4096), H0 by lia.
  destruct (window_entry page 7 off) as (-> & _ & ->); [done|by right|done|done].
Qed.

Lemma boot_then_program s pid :
  table_linked -> table_lengths (pgs s) -> 0 <= pid < 6 ->
  exists s0 s', paging_init s = Ret tt s0 /\ map_program pid s0 = Ret tt s' /\
    user_translate (pgs s') 0x8048000 = Some (EIGHT_MB + pid * FOUR_MB + 0x48000).
Proof.
  intros Hlink Hlen Hpid. pose proof (paging_init_spec s (fun _ _ => False) Hlink Hlen) as Hw.
  apply wp_Ret in Hw as ([] & s0 & Hi & Hok & _).
  pose proof (map_program_spec s0 pid (fun _ _ => False) Hok Hpid) as Hw.
  apply wp_Ret in Hw as ([] & s' & Hp & Hok' & _ & H32 & _).
  exists s0, s'. split; [exact Hi|]. split; [exact Hp|].
  unfold user_translate. rewrite (t_on _ Hok'). cbn [negb].
  change (0x8048000 / MB4) with 32. rewrite H32, !entry_testbit by lia. cbn [Z.testbit negb Pos.testbit].
  rewrite (program_translate _ _ pid) by (done || lia). done.
Qed.

End paging_lemmas.

(** * A closed example: process 0 running with its window on video memory *)

Definition table_of (es : list (nat * Z)) : list Z :=
  foldr (fun e l => <[fst e := snd e]> l) (replicate 1024 0) es.

Definition demo_tables : paging := {|
  page_directory := table_of [(0%nat, 0x40F003); (1%nat, 0x400083); (32%nat, 0x800087); (34%nat, 0x40F007)];
  page_table_video := table_of [(0%nat, 0xB8007); (0xB8%nat, 0xB8003); (0xB9%nat, 0xB9003);
    (0xBA%nat, 0xBA003); (0xBB%nat, 0xBB003)];
  page_vid_mem := replicate 1024 0; paging_on := true |}.

Lemma table_of_rest es i :
  0 <= i < 1024 -> Forall (fun e => Z.of_nat (fst e) <> i) es -> aget (table_of es) i = Some 0.
Proof.
  intros Hi Hes. assert (Hl : length (table_of es) = 1024%nat).
  { clear. induction es as [|e es IH]; [apply length_replicate|].
    cbn [table_of foldr]. by rewrite length_insert. }
  unfold aget. rewrite Hl, (proj2 (Z.leb_le 0 i)), (proj2 (Z.ltb_lt i _)) by lia. cbn [andb].
  clear Hl. induction Hes as [|e es He Hes IH]; [apply lookup_replicate_2; lia|].
  cbn [table_of foldr]. rewrite list_lookup_insert_ne by lia. exact IH.
Qed.

Lemma demo_table_linked : let H := quiet_env in table_linked.
Proof. exists 0x40F. split; [done|lia]. Qed.

Lemma demo_tables_ok : let H := quiet_env in tables_ok demo_tables.
Proof.
  intros H. constructor; try done.
  - exists 0x800087. split; [done|]. right. exists 0. split; [lia|done].
  - exists 0x40F007. split; [done|]. by right.
  - intros i Hi ? ? ? ?. apply table_of_rest; [done|]. repeat constructor; simpl; lia.
  - exists 0xB8007. split; [done|]. right. exists VIDEO. split; [apply list_elem_of_here|done].
  - intros i Hi. assert (i = 0xB8 \/ i = 0xB9 \/ i = 0xBA \/ i = 0xBB) as Hc by lia.
    by destruct Hc as [->|[->|[->| ->]]].
  - intros i Hi Hn. apply table_of_rest; [lia|]. repeat constructor; simpl; lia.
Qed.

Lemma paging_init_maps_witness :
  let H := quiet_env in
  exists s', paging_init initial_kernel = Ret tt s' /\ tables_ok (pgs s').
Proof.
  intros H. destruct (paging_init_maps initial_kernel) as (s' & Hrun & _ & Hok & _).
  - apply demo_table_linked.
  - split_and!; apply length_replicate.
  - exists s'. split; [exact Hrun|exact Hok].
Defined.

(** Boot, then the page of process 0: user address [0x8048000] is physical [0x848000]. *)
Lemma user_isolation_witness :
  let H := quiet_env in
  exists s0 s', paging_init initial_kernel = Ret tt s0 /\ map_program 0 s0 = Ret tt s' /\
    user_translate (pgs s') 0x8048000 = Some 0x848000 /\
    ((0x8000000 <= 0x8048000 < 0x8400000 /\ exists pid, 0 <= pid < 6 /\
       aget (page_directory (pgs s')) 32 = Some (2 ^ 22 * (2 + pid) + 0x87) /\
       0x848000 = EIGHT_MB + pid * FOUR_MB + (0x8048000 - 0x8000000)) \/
     (MB136 <= 0x8048000 < MB136 + KB4 /\
       exists page, page ∈ video_pages /\ 0x848000 = page + (0x8048000 - MB136))).
Proof.
  intros H.
  assert (Hlen : table_lengths (pgs initial_kernel)) by (split_and!; apply length_replicate).
  destruct (boot_then_program initial_kernel 0 demo_table_linked Hlen ltac:(lia)) as (s0 & s' & Hi & Hp & Hu).
  exists s0, s'. split; [exact Hi|]. split; [exact Hp|]. split; [exact Hu|].
  apply (user_isolation initial_kernel s0 s');
    [apply demo_table_linked|exact Hlen|exact Hi| |lia|exact Hu].
  apply rtc_once, (step_program 0); [lia|exact Hp].
Defined.

Lemma null_reaches_video_witness :
  let H := quiet_env in translate demo_tables 8 = Some (VIDEO + 8).
Proof.
  intros H. apply null_reaches_video;
    [apply demo_table_linked|apply demo_tables_ok|apply list_elem_of_here|reflexivity|unfold KB4; lia].
Defined.
