(* ===== verification/FileSys.v ===== *)
(** The read-only file system, [src/student-distrib/file_sys.c]: the image in
    memory (a boot block of 64-byte directory entries, inode blocks, data
    blocks), the two directory lookups, [read_data] and the file and directory
    operations of the descriptor tables. *)
From stdpp Require Import base numbers list gmap strings.
From Stdlib Require Import ZArith Lia.
From S2P Require Import Prelude Machine Strings Console.

Definition MAX_LEN : Z := 32.
Definition FILE_NUM : Z := 62.
Definition INDEX_2 : Z := 2.
Definition STRNCMP_32 : Z := 32.
Definition BYTE4 : Z := 32.
Definition NULL_TERM : Z := 0.

(** A [dentry_t] is its 64 raw bytes: the routines that copy names look one
    byte past [file_name_]. *)
Definition dentry : Type := list Z.
Definition DENTRY_SIZE : Z := 64.

Definition byte_of (d : list Z) (i : nat) : Z := nth i d 0.
Definition word_of (d : list Z) (i : nat) : Z :=
  byte_of d i + byte_of d (i + 1) * 2 ^ 8 + byte_of d (i + 2) * 2 ^ 16 + byte_of d (i + 3) * 2 ^ 24.

Definition file_name_ (d : dentry) : list Z := take 32 d.
Definition file_type_ (d : dentry) : Z := word_of d 32.
Definition inode_num_ (d : dentry) : Z := word_of d 36.

(** The automatic array [temp] of [read_dentry_by_name]. *)
Definition TEMP : Z := -4096.

Section file_sys.
Context `{Env}.

(** Fields of the boot block at [b]. *)
Definition dir_entry_num_at (b : Z) : Z := b.
Definition inode_num_at (b : Z) : Z := b + 4.
Definition data_block_num_at (b : Z) : Z := b + 8.
Definition dir_dentry_at (b : Z) : Z := b + 64.
Definition dentry_at (b i : Z) : Z := b + 128 + DENTRY_SIZE * i.

(** The assignment of a structure of [n] bytes. *)
Fixpoint load_struct (n : nat) (a : Z) : K (list Z) :=
  match n with
  | O => ret []
  | Datatypes.S n' =>
    let* b := load8 a in
    let* l := load_struct n' (a + 1) in
    ret (b :: l)
  end.

Definition load_dentry (a : Z) : K dentry := load_struct (Z.to_nat DENTRY_SIZE) a.

Definition set_fs_addrs (b i d : Z) : kernel -> kernel :=
  on_fsg (fun f => Fsys b i d (directory_index f)).

Definition file_sys_init (start_addr : Z) : K unit :=
  let* f := gets fsg in
  modify (set_fs_addrs start_addr (u32 (start_addr + KB4)) (data_block_addr f)) ;;
  let* inode_num := load32 (inode_num_at start_addr) in
  let* f := gets fsg in
  modify (set_fs_addrs (boot_block_addr f) (inode_addr f) (u32 (inode_addr f + inode_num * KB4))).

(** [out] is what the caller's object holds before the call; the second
    component what it holds after. *)
Definition read_dentry_by_name (fname : cptr) (out : dentry) : K (Z * dentry) :=
  let* r := strncmp fname (cstr ".") STRNCMP_32 in
  let* f := gets fsg in
  if r =? 0 then
    let* d := load_dentry (dir_dentry_at (boot_block_addr f)) in
    ret (SUCCESS, d)
  else
    loop (fun i =>
      if i <? FILE_NUM then
        let* curr_dentry := load_dentry (dentry_at (boot_block_addr f) i) in
        alloc_local TEMP 33 ;;
        strncpy TEMP (Lit curr_dentry) BYTE4 ;;
        store8 (TEMP + BYTE4) NULL_TERM ;;
        let* r := strncmp (Addr TEMP) fname (BYTE4 + 1) in
        if r =? 0 then ret (inr (SUCCESS, curr_dentry)) else ret (inl (i + 1))
      else ret (inr (FAILURE, out))) 0.

Definition read_dentry_by_index (index : Z) (out : dentry) : K (Z * dentry) :=
  let* f := gets fsg in
  let b := boot_block_addr f in
  let* n := load32 (dir_entry_num_at b) in
  if n <=? index then ret (FAILURE, out) else
  if index =? 0 then
    let* d := load_dentry (dir_dentry_at b) in
    ret (SUCCESS, d)
  else
    let* d := load_dentry (u32 (dentry_at b (index - 1))) in
    ret (SUCCESS, d).

(** The address of inode [inode], of its [i]-th block number and of data block
    [block]. *)
Definition inode_at (f : fsys) (inode : Z) : Z := u32 (inode_addr f + inode * KB4).
Definition block_num_at (inode_ptr i : Z) : Z := u32 (inode_ptr + 4 + 4 * i).
Definition block_at (f : fsys) (block : Z) : Z := u32 (data_block_addr f + block * KB4).

(** The loop of [read_data]; its variables are [offset], [block_index],
    [curr_block_ptr] and [data_counter], which [i] equals. *)
Definition read_data_loop (f : fsys) (inode_ptr max_data_block buf length : Z)
    : Z * Z * Z * Z -> K Z :=
  loop (fun '(offset, block_index, curr_block_ptr, data_counter) =>
    if negb (data_counter <? length) then ret (inr data_counter) else
    if (data_counter =? length) || (block_index =? KB - INDEX_2) then ret (inr data_counter) else
    if max_data_block <=? block_index then
      printf (cstr "invalid data block!
") [] ;;
      ret (inr data_counter)
    else
      let* '(offset, block_index, curr_block_ptr) :=
        if offset =? KB4 then
          let* curr_block_num := load32 (block_num_at inode_ptr (block_index + 1)) in
          ret (0, block_index + 1, block_at f curr_block_num)
        else ret (offset, block_index, curr_block_ptr) in
      memcpy (ptr_add buf data_counter) (u32 (curr_block_ptr + offset)) 1 ;;
      ret (inl (offset + 1, block_index, curr_block_ptr, data_counter + 1))).

Definition read_data (inode offset buf length : Z) : K Z :=
  let* f := gets fsg in
  let* max_data_block := load32 (data_block_num_at (boot_block_addr f)) in
  let* max_inode := load32 (inode_num_at (boot_block_addr f)) in
  let inode_ptr := inode_at f inode in
  let* file_size := load32 inode_ptr in
  if (max_inode <=? inode) || (buf =? 0) then ret (-1) else
  let block_index := offset / KB4 in
  if file_size <=? offset then ret 0 else
  let* curr_block_num := load32 (block_num_at inode_ptr block_index) in
  read_data_loop f inode_ptr max_data_block buf length
    (offset - block_index * KB4, block_index, block_at f curr_block_num, 0).

Definition file_open (fname : cptr) : K Z := ret SUCCESS.
Definition file_close (fd : Z) : K Z := ret SUCCESS.
Definition file_write (fd buf nbytes : Z) : K Z := ret FAILURE.

(** [terminal[curr_scheduler].pcb], dereferenced. *)
Definition running_pcb : K pcb :=
  let* t := gets ttys in
  let* T := get_term (curr_scheduler t) in
  let* p := gets prc in
  get_or_fault (term_pcb T) (pcbs p !! term_pcb T).

(** [terminal[curr_scheduler].pcb->file_descriptor[fd]] *)
Definition running_fd (fd : Z) : K file_array :=
  let* p := running_pcb in
  get_or_fault fd (aget (file_descriptor p) fd).

Definition file_read (fd buf nbytes : Z) : K Z :=
  let* d := running_fd fd in
  read_data (inode_ d) (file_position_ d) buf (u32 nbytes).

Definition dir_open (fname : cptr) : K Z := ret SUCCESS.
Definition dir_close (fd : Z) : K Z := ret SUCCESS.
Definition dir_write (fd buf nbytes : Z) : K Z := ret FAILURE.

Definition set_directory_index (v : Z) : kernel -> kernel :=
  on_fsg (fun f => Fsys (boot_block_addr f) (inode_addr f) (data_block_addr f) (s32 v)).

(** [nbytes] is not used, as in the source. *)
Definition dir_read (fd buf nbytes : Z) : K Z :=
  let* f := gets fsg in
  let b := boot_block_addr f in
  let* n := load32 (dir_entry_num_at b) in
  let num_file := s32 n in
  if buf =? NULL then ret FAILURE else
  if s32 (num_file - 1) <=? directory_index f then
    modify (set_directory_index (-1)) ;;
    ret SUCCESS
  else
    (if directory_index f =? -1 then
       strcpy buf (cstr ".") ;; ret tt
     else
       strncpy buf (Addr (dentry_at b (directory_index f))) BYTE4 ;;
       let* z := cload (cstr "") 0 in
       store8 (buf + BYTE4) z) ;;
    modify (set_directory_index (directory_index f + 1)) ;;
    strlen (Addr buf).

Definition invalid_write_op (fd buf nbytes : Z) : K Z := ret FAILURE.
Definition invalid_read_op (fd buf nbytes : Z) : K Z := ret FAILURE.

End file_sys.

(** * The directory as a list of names *)

(** The bytes before the first NUL. *)
Fixpoint until_nul (l : list Z) : list Z :=
  match l with
  | [] => []
  | b :: l' => if b =? 0 then [] else b :: until_nul l'
  end.

(** A name fills the 32 bytes of its field or ends at a NUL. *)
Definition dname (d : dentry) : list Z := until_nul (file_name_ d).

(** The first entry of that name. *)
Definition find_dentry (w : list Z) (ds : list dentry) : option dentry :=
  List.find (fun d => bool_decide (dname d = w)) ds.

(** The directory in the boot block at [b]: 62 entries, used or not, and the
    entry of the directory itself. *)
Record directory `{Env} (s : kernel) (b : Z) (ds : list dentry) (dot : dentry) : Prop := {
  dir_base : 0 <= b;
  dir_count : length ds = 62%nat;
  dir_shape : Forall (fun d => length d = 64%nat /\ bytes d) ds;
  dir_entry : forall i d, ds !! i = Some d -> bytes_at s (dentry_at b (Z.of_nat i)) d;
  dir_dot_len : length dot = 64%nat;
  dir_dot : bytes_at s (dir_dentry_at b) dot }.

Lemma until_nul_spec l :
  Forall (fun b => b <> 0) (until_nul l) /\ (length (until_nul l) <= length l)%nat /\
  (bytes l -> bytes (until_nul l)).
Proof.
  induction l as [|b l (H1 & H2 & H3)]; [done|]. simpl. destruct (b =? 0) eqn:E; unbool.
  - split_and!; [done|simpl; lia|constructor].
  - split_and!; [by constructor|simpl; lia|]. intros Hb. inversion Hb; subst. by constructor; [|apply H3].
Qed.

(** What [strncpy] leaves of a name field. *)
Lemma strncpy_ref_name n l :
  (n < length l)%nat ->
  strncpy_ref n l =
    Some (until_nul (take n l) ++ replicate (n - length (until_nul (take n l))) 0).
Proof.
  revert n. induction l as [|b l IH]; intros n Hn; [simpl in Hn; lia|].
  simpl. destruct n as [|n]; simpl; destruct (b =? 0) eqn:E; try done.
  rewrite IH by (simpl in Hn; lia). done.
Qed.

Lemma s8_inj a b : 0 <= a < 256 -> 0 <= b < 256 -> s8 a - s8 b = 0 -> a = b.
Proof.
  intros Ha Hb. unfold s8. intros He.
  pose proof (Z.div_mod (a + 2 ^ 7) (2 ^ 8) ltac:(lia)).
  pose proof (Z.div_mod (b + 2 ^ 7) (2 ^ 8) ltac:(lia)).
  assert ((a + 2 ^ 7) / 2 ^ 8 = 0 \/ (a + 2 ^ 7) / 2 ^ 8 = 1) as [?|?]
    by (Z.to_euclidean_division_equations; lia);
  assert ((b + 2 ^ 7) / 2 ^ 8 = 0 \/ (b + 2 ^ 7) / 2 ^ 8 = 1) as [?|?]
    by (Z.to_euclidean_division_equations; lia); lia.
Qed.

(** Comparing two strings, one of which ends within the limit. *)
Lemma strncmp_ref_strings n w1 r1 w2 r2 :
  Forall (fun b => b <> 0) w1 -> Forall (fun b => b <> 0) w2 -> bytes w1 -> bytes w2 ->
  (length w1 < n)%nat \/ (length w2 < n)%nat ->
  exists v, strncmp_ref n (w1 ++ 0 :: r1) (w2 ++ 0 :: r2) = Some v /\ (v = 0 <-> w1 = w2).
Proof.
  intros H1. revert n w2. induction H1 as [|b1 w1 Hb1 H1 IH]; intros n w2 H2 B1 B2 Hn.
  - destruct n as [|n]; [lia|]. inversion H2 as [|b2 w2' Hb2 H2']; subst; cbn [strncmp_ref app].
    + by exists 0.
    + rewrite (proj2 (Z.eqb_neq 0 b2)) by done. cbn [negb orb]. eexists. split; [done|].
      inversion B2; subst. split; [|done]. intros He.
      apply s8_inj in He; [by subst|lia|done].
  - inversion B1 as [|? ? R1 B1']; subst. destruct n as [|n]; [simpl in Hn; lia|].
    inversion H2 as [|b2 w2' Hb2 H2']; subst; cbn [strncmp_ref app].
    + rewrite (proj2 (Z.eqb_neq b1 0)) by done. cbn [negb orb]. eexists. split; [done|].
      split; [|done]. intros He. by apply s8_inj in He; [|done|lia].
    + inversion B2 as [|? ? R2 B2']; subst. destruct (Z.eqb_spec b1 b2) as [->|Hne]; cbn [negb orb].
      * rewrite (proj2 (Z.eqb_neq b2 0)) by done.
        destruct (IH n w2') as (v & -> & Hv); [done..|simpl in Hn; lia|].
        exists v. split; [done|]. rewrite Hv. split; [by intros ->|by intros [=]].
      * eexists. split; [done|]. split; [|by intros [=]].
        intros He%s8_inj; done.
Qed.

Lemma find_dentry_cons w d ds :
  find_dentry w (d :: ds) = if bool_decide (dname d = w) then Some d else find_dentry w ds.
Proof. done. Qed.

Section file_sys_lemmas.
Context `{Env}.

Lemma load_struct_spec s a l : bytes_at s a l -> load_struct (length l) a s = Ret l s.
Proof.
  revert a. induction l as [|b l IH]; intros a Hb; [done|]. cbn [length load_struct].
  unfold bind. pose proof (Hb 0%nat b eq_refl) as H0. rewrite Z.add_0_r in H0.
  rewrite (load8_get _ _ _ H0), IH; [done|]. intros i c Hi.
  rewrite <- (Hb (Datatypes.S i) c Hi). f_equal. lia.
Qed.

Lemma directory_frame s t b ds dot :
  modifies s TEMP 33 t -> directory s b ds dot -> directory t b ds dot.
Proof.
  intros Hm [Hb Hc Hs He Hl Hd]. pose proof (fun va => modifies_out _ _ _ _ va Hm) as Hout.
  assert (Hf : forall a l, 0 <= a -> bytes_at s a l -> bytes_at t a l).
  { intros a l Ha Hal. eapply bytes_at_frame; [done|]. intros i Hi.
    apply Hout, outside_local; unfold TEMP; lia. }
  constructor; try done.
  - intros i d Hi. apply Hf; [unfold dentry_at, DENTRY_SIZE; lia|by apply He].
  - apply Hf; [unfold dir_dentry_at; lia|done].
Qed.

Lemma reads_frame s t p l a n :
  modifies s a n t -> unaliased s p l a n -> reads s p l -> reads t p l.
Proof.
  intros Hm0 Hu Hr i x Hi. pose proof (fun va => modifies_out _ _ _ _ va Hm0) as Hout. specialize (Hr i x Hi). destruct p as [b|l0]; simpl in *.
  - apply load8_inv in Hr as [Hm _]. apply load8_get. rewrite <- Hm. apply Hout, Hu.
    apply lookup_lt_Some in Hi. lia.
  - unfold get_or_fault, ret, fault in *. destruct (aget l0 _); congruence.
Qed.

(** One comparison of the loop. *)
Lemma compare_name s p w r d (Q : Z -> kernel -> Prop) E :
  reads s p (w ++ 0 :: r) -> Forall (fun b => b <> 0) w -> bytes w ->
  unaliased s p (w ++ 0 :: r) TEMP 33 -> length d = 64%nat -> bytes d ->
  (forall v t, modifies s TEMP 33 t -> (v = 0 <-> dname d = w) -> Q v t) ->
  wp (alloc_local TEMP 33 ;; strncpy TEMP (Lit d) BYTE4 ;; store8 (TEMP + BYTE4) NULL_TERM ;;
      strncmp (Addr TEMP) p (BYTE4 + 1)) Q E s.
Proof.
  intros Hr Hw Bw Hu Hd Bd HQ. destruct (until_nul_spec (take 32 d)) as (N1 & N2 & N3).
  assert (N4 : (length (until_nul (take 32 d)) <= 32)%nat) by (rewrite length_take in N2; lia).
  destruct (alloc_local_spec s TEMP 33) as (t & Ht & Hm & Hreg); [unfold TEMP; lia|].
  change (Z.of_nat 33) with 33 in *. wp_step. wp_use Ht.
  set (out := until_nul (take 32 d) ++ replicate (32 - length (until_nul (take 32 d))) 0).
  assert (Hlen : length out = 32%nat) by (unfold out; rewrite length_app, length_replicate; lia).
  pose proof (region_mono t TEMP 33 0 32 Hreg ltac:(lia) ltac:(lia)) as Hreg32.
  rewrite Z.add_0_r in Hreg32.
  wp_step. wp_use (strncpy_spec t TEMP (Lit d) d 32 out (reads_Lit t d) Bd ltac:(lia) Hreg32 I
    (strncpy_ref_name 32 d ltac:(lia))).
  assert (Hst : store8 (TEMP + BYTE4) NULL_TERM (put_bytes TEMP out t) =
    Ret tt (put_bytes TEMP (out ++ [0]) t)).
  { rewrite put_bytes_snoc, Hlen. apply store8_set, put_bytes_is_Some.
    destruct Hreg as [Hm' _]. apply Hm'. unfold BYTE4. lia. }
  wp_step. wp_use Hst.
  assert (Hm2 : modifies s TEMP 33 (put_bytes TEMP (out ++ [0]) t)).
  { eapply modifies_trans; [exact Hm|]. apply modifies_put_bytes. rewrite length_app, Hlen. done. }
  destruct (strncmp_ref_strings 33 (until_nul (take 32 d))
    (replicate (32 - length (until_nul (take 32 d))) 0) w r N1 Hw) as (v & Hv & Hz).
  { apply N3. by apply Forall_take. }
  { done. }
  { left. lia. }
  eapply wp_of_Ret.
  - apply (strncmp_spec _ (Addr TEMP) p (out ++ [0]) (w ++ 0 :: r) 33 v).
    + apply bytes_at_reads, bytes_at_put_bytes. rewrite length_app, Hlen. exact Hreg.
    + by eapply reads_frame.
    + lia.
    + rewrite <- Hv. f_equal. unfold out. rewrite <- app_assoc. f_equal.
      change [0] with (replicate 1 0). rewrite <- replicate_add, Nat.add_1_r. done.
  - apply HQ; [done|]. rewrite Hz. done.
Qed.

Lemma read_dentry_by_name_spec s p w r ds dot o (Q : Z * dentry -> kernel -> Prop) E :
  reads s p (w ++ 0 :: r) -> Forall (fun b => b <> 0) w -> bytes w ->
  unaliased s p (w ++ 0 :: r) TEMP 33 -> directory s (boot_block_addr (fsg s)) ds dot ->
  (forall t, modifies s TEMP 33 t ->
     Q (if bool_decide (w = [46]) then (SUCCESS, dot)
        else match find_dentry w ds with Some d => (SUCCESS, d) | None => (FAILURE, o) end) t) ->
  wp (read_dentry_by_name p o) Q E s.
Proof.
  intros Hr Hw Bw Hu Hdir HQ. unfold read_dentry_by_name.
  destruct (strncmp_ref_strings 32 w r [46] [] Hw) as (v & Hv & Hz);
    [by repeat constructor|done|by repeat constructor|simpl; lia|].
  wp_step. wp_use (strncmp_spec s p (cstr ".") _ _ 32 v Hr (reads_Lit s [46; 0]) ltac:(lia) Hv).
  do 2 wp_step. destruct (Z.eqb_spec v 0) as [Hv0|Hv0].
  - rewrite bool_decide_eq_true_2 in HQ by by apply Hz.
    wp_step. unfold load_dentry. change (Z.to_nat DENTRY_SIZE) with 64%nat.
    rewrite <- (dir_dot_len _ _ _ _ Hdir).
    wp_use (load_struct_spec s _ dot (dir_dot _ _ _ _ Hdir)). apply wp_ret, HQ, modifies_refl.
  - rewrite bool_decide_eq_false_2 in HQ by (intros ?; by apply Hv0, Hz). clear v Hv Hz Hv0.
    apply wp_loop with
      (I := fun i t => 0 <= i <= 62 /\ modifies s TEMP 33 t /\
         find_dentry w (drop (Z.to_nat i) ds) = find_dentry w ds)
      (mu := fun i _ => 62 - i); [split; [lia|split; [apply modifies_refl|done]]|unfold loop_fuel; lia|].
    intros i t (Hi & Hm & Hf). split; [lia|]. pose proof (dir_count _ _ _ _ Hdir) as Hn.
    unfold FILE_NUM. destruct (Z.ltb_spec i 62).
    + destruct (lookup_lt_is_Some_2 ds (Z.to_nat i)) as [d Hd]; [lia|].
      pose proof (directory_frame _ _ _ _ _ Hm Hdir) as Hdt.
      destruct (Forall_lookup_1 _ _ _ _ (dir_shape _ _ _ _ Hdir) Hd) as [Ld Bd].
      assert (Hload : load_dentry (dentry_at (boot_block_addr (fsg s)) i) t = Ret d t).
      { unfold load_dentry. change (Z.to_nat DENTRY_SIZE) with 64%nat. rewrite <- Ld.
        apply load_struct_spec. rewrite <- (Z2Nat.id i) by lia. by apply (dir_entry _ _ _ _ Hdt). }
      wp_step. wp_use Hload.
      assert (Hwp : wp (alloc_local TEMP 33 ;; strncpy TEMP (Lit d) BYTE4 ;;
          store8 (TEMP + BYTE4) NULL_TERM ;; strncmp (Addr TEMP) p (BYTE4 + 1))
        (fun v t' => modifies s TEMP 33 t' /\ (v = 0 <-> dname d = w)) E t).
      { apply (compare_name t p w r d); [by eapply reads_frame| done | done | | done | done |].
        - destruct p; [|done]. intros j Hj. rewrite (modifies_pgs _ _ _ _ Hm). by apply Hu.
        - intros v t' Hm' Hz. split; [by eapply modifies_trans|done]. }
      rewrite (drop_S _ _ _ Hd), find_dentry_cons in Hf.
      apply wp_bind_inv in Hwp. wp_step. eapply wp_mono; [exact Hwp| |done]. cbn beta.
      intros [] t1 Hwp1. apply wp_bind_inv in Hwp1. wp_step. eapply wp_mono; [exact Hwp1| |done].
      intros ? t2 Hwp2. apply wp_bind_inv in Hwp2. wp_step. eapply wp_mono; [exact Hwp2| |done].
      intros ? t3 Hwp3. wp_step. eapply wp_mono; [exact Hwp3| |done].
      intros v t4 [Hm4 Hz]. destruct (Z.eqb_spec v 0) as [Hv0|Hv0]; apply wp_ret.
      * rewrite bool_decide_eq_true_2 in Hf by by apply Hz.
        specialize (HQ t4 Hm4). by rewrite <- Hf in HQ.
      * rewrite bool_decide_eq_false_2 in Hf by (intros ?; by apply Hv0, Hz).
        split; [|lia]. split; [lia|]. split; [done|].
        by replace (Z.to_nat (i + 1)) with (Datatypes.S (Z.to_nat i)) by lia.
    + wp_step. specialize (HQ t Hm). rewrite <- Hf in HQ. rewrite drop_ge in HQ by lia. done.
Qed.

(** ** [read_data] *)

(** The 32-bit word stored at [a]. *)
Definition word_at (s : kernel) (a v : Z) : Prop :=
  exists b0 b1 b2 b3, bytes_at s a [b0; b1; b2; b3] /\
    v = b0 + b1 * 2 ^ 8 + b2 * 2 ^ 16 + b3 * 2 ^ 24.

Lemma load32_word s a v : word_at s a v -> load32 a s = Ret v s.
Proof. intros (b0 & b1 & b2 & b3 & Hb & ->). by apply load32_spec. Qed.

Lemma word_frame s t p0 a n va v :
  p0 = pgs s -> modifies s a n t -> (forall i, 0 <= i < 4 -> outside p0 a n (va + i)) ->
  word_at s va v -> word_at t va v.
Proof.
  intros -> Hm Ho (b0 & b1 & b2 & b3 & Hb & ->). exists b0, b1, b2, b3. split; [|done].
  eapply bytes_at_frame; [done|]. intros i Hi. apply (modifies_out _ _ _ _ _ Hm), Ho. done.
Qed.

(** Where byte [k] of the data in [blocks] lives. *)
Definition data_at (f : fsys) (blocks : list Z) (k : Z) : Z :=
  u32 (block_at f (nth (Z.to_nat (k / 4096)) blocks 0) + k mod 4096).

(** Inode [inode] has [size] in its length field, the numbers [blocks], and
    [data] in those blocks, the unused end of the last one included. *)
Record stored (s : kernel) (inode size : Z) (blocks data : list Z) : Prop := {
  st_size : word_at s (inode_at (fsg s) inode) size;
  st_nums : forall j b, blocks !! j = Some b ->
    word_at s (block_num_at (inode_at (fsg s) inode) (Z.of_nat j)) b;
  st_len : length data = (4096 * length blocks)%nat;
  st_bytes : bytes data;
  st_data : forall k b, data !! k = Some b ->
    mem_get s (data_at (fsg s) blocks (Z.of_nat k)) = Some b }.

(** The buffer of [n] bytes at [buf] overlaps neither the block numbers nor the
    data. *)
Definition buffer_apart (s : kernel) (inode : Z) (blocks data : list Z) (buf n : Z) : Prop :=
  (forall j i, 0 <= j < Z.of_nat (length blocks) -> 0 <= i < 4 ->
     outside (pgs s) buf n (block_num_at (inode_at (fsg s) inode) j + i)) /\
  (forall k, 0 <= k < Z.of_nat (length data) -> outside (pgs s) buf n (data_at (fsg s) blocks k)).

Lemma memcpy_byte s dest src b :
  mem_get s src = Some b -> 0 <= b < 256 -> is_Some (mem_get s dest) ->
  cell (pgs s) dest <> cell (pgs s) src ->
  memcpy dest src 1 s = Ret dest (mem_set dest b s).
Proof.
  intros Hs Hb Hd Hne. rewrite (memcpy_spec s dest src [b]); [done|..].
  - intros [|i] c Hc; [|done]. injection Hc as <-. by rewrite Z.add_0_r.
  - by constructor.
  - split.
    + intros i Hi. simpl in Hi. replace (dest + i) with dest by lia. done.
    + simpl. intros. lia.
  - intros i Hi j Hj. simpl in Hi, Hj. replace (dest + j) with dest by lia.
    by replace (src + i) with src by lia.
  - done.
  - lia.
Qed.

Section read.
Variables (s : kernel) (inode size offset buf n max_data : Z) (blocks data : list Z).
Hypothesis Hst : stored s inode size blocks data.
Hypothesis Hoff : 0 <= offset.
Hypothesis Hn : 0 <= n.
Hypothesis Hin : offset + n <= Z.of_nat (length data).
Hypothesis Hblocks : offset + n <= 4096 * 1022 /\ offset + n <= 4096 * max_data.
Hypothesis Hbuf : buffer buf n.
Hypothesis Hn31 : n < 2 ^ 32.
Hypothesis Hreg : region s buf n.
Hypothesis Hapart : buffer_apart s inode blocks data buf n.

Let f := fsg s.
Let out := take (Z.to_nat n) (drop (Z.to_nat offset) data).
Let done_ (i : Z) : kernel := put_bytes buf (take (Z.to_nat i) out) s.

Lemma out_length : length out = Z.to_nat n.
Proof using Hin Hoff Hn. unfold out. rewrite length_take_le; [done|]. rewrite length_drop. lia. Qed.

Lemma done_modifies i : i <= n -> modifies s buf n (done_ i).
Proof using Hin Hoff Hn.
  intros Hi. apply modifies_put_bytes. rewrite length_take, out_length. lia.
Qed.

(** The state of the loop after [dc] bytes. *)
Definition read_inv (st : Z * Z * Z * Z) (t : kernel) : Prop :=
  let '(off, bi, ptr, dc) := st in
  t = done_ dc /\ 0 <= dc <= n /\ 0 <= off <= 4096 /\ 0 <= bi /\ offset + dc = 4096 * bi + off /\
  (dc < n -> ptr = block_at f (nth (Z.to_nat bi) blocks 0)).

Lemma copy_step bi off dc :
  0 <= dc < n -> 0 <= off < 4096 -> 0 <= bi -> offset + dc = 4096 * bi + off ->
  memcpy (ptr_add buf dc) (u32 (block_at f (nth (Z.to_nat bi) blocks 0) + off)) 1 (done_ dc) =
  Ret (buf + dc) (done_ (dc + 1)).
Proof using All.
  intros Hdc Ho Hbi Hpos. rewrite (ptr_add_buffer buf n dc Hbuf) by lia.
  destruct (lookup_lt_is_Some_2 data (Z.to_nat (offset + dc))) as [b Hb]; [lia|].
  assert (Hd : data_at f blocks (offset + dc) = u32 (block_at f (nth (Z.to_nat bi) blocks 0) + off)).
  { unfold data_at.
    assert (Hq : (offset + dc) / 4096 = bi) by (symmetry; apply Z.div_unique with off; lia).
    assert (Hr : (offset + dc) mod 4096 = off) by (symmetry; apply Z.mod_unique with bi; lia).
    by rewrite Hq, Hr. }
  rewrite <- Hd. pose proof (st_data _ _ _ _ _ Hst _ _ Hb) as Hm. rewrite Z2Nat.id in Hm by lia.
  assert (Hnd : outside (pgs s) buf n (data_at f blocks (offset + dc))) by (apply Hapart; lia).
  rewrite (memcpy_byte _ _ _ b).
  - f_equal. unfold done_. assert (Hob : out !! Z.to_nat dc = Some b).
    { unfold out. rewrite lookup_take_lt, lookup_drop by lia. rewrite <- Hb. f_equal. lia. }
    replace (Z.to_nat (dc + 1)) with (Datatypes.S (Z.to_nat dc)) by lia.
    rewrite (take_S_r _ _ _ Hob), put_bytes_snoc. f_equal.
    rewrite length_take_le by (rewrite out_length; lia). lia.
  - rewrite (modifies_out _ _ _ _ _ (done_modifies dc ltac:(lia))); [done|exact Hnd].
  - by apply (Forall_lookup_1 _ _ _ _ (st_bytes _ _ _ _ _ Hst) Hb).
  - apply put_bytes_is_Some. destruct Hreg as [Hm' _]. apply Hm'. lia.
  - unfold done_. rewrite pgs_put_bytes. apply Hnd. lia.
Qed.

Lemma read_data_loop_spec E :
  wp (read_data_loop f (inode_at f inode) max_data buf n
        (offset - offset / 4096 * 4096, offset / 4096,
         block_at f (nth (Z.to_nat (offset / 4096)) blocks 0), 0))
    (fun r t => r = n /\ t = put_bytes buf out s) E s.
Proof using All.
  pose proof (Z.div_mod offset 4096 ltac:(lia)) as Hdm.
  pose proof (Z.mod_pos_bound offset 4096 ltac:(lia)) as Hmod.
  assert (0 <= offset / 4096) by (apply Z.div_pos; lia).
  unfold read_data_loop.
  apply wp_loop with (I := read_inv) (mu := fun st _ => n - snd st).
  - split_and!; try lia; done.
  - unfold loop_fuel. simpl. lia.
  - intros [[[off bi] ptr] dc] t (-> & Hdc & Ho & Hbi & Hpos & Hptr). cbn [snd]. split; [lia|].
    destruct (Z.ltb_spec dc n) as [Hlt|Hge]; cbn [negb].
    + rewrite (proj2 (Z.eqb_neq dc n)) by lia. cbn [orb]. change (KB - INDEX_2) with 1022.
      rewrite (proj2 (Z.eqb_neq bi 1022)), (proj2 (Z.leb_gt max_data bi)) by lia.
      wp_step. unfold KB4. destruct (Z.eqb_spec off 4096) as [->|Hne].
      * destruct (lookup_lt_is_Some_2 blocks (Z.to_nat (bi + 1))) as [b Hb].
        { pose proof (st_len _ _ _ _ _ Hst). lia. }
        assert (Hw : word_at (done_ dc) (block_num_at (inode_at f inode) (bi + 1)) b).
        { pose proof (st_nums _ _ _ _ _ Hst _ _ Hb) as Hw. rewrite Z2Nat.id in Hw by lia.
          eapply word_frame; [reflexivity|by apply done_modifies; lia| |exact Hw].
          intros i Hi. apply Hapart; [|done]. apply lookup_lt_Some in Hb. lia. }
        wp_step. wp_use (load32_word _ _ _ Hw). apply wp_ret. cbv beta iota.
        apply nth_lookup_Some with (d := 0) in Hb. rewrite <- Hb. wp_step.
        wp_use (copy_step (bi + 1) 0 dc ltac:(lia) ltac:(lia) ltac:(lia) ltac:(lia)).
        apply wp_ret. split; [|simpl; lia]. split_and!; try lia; done.
      * apply wp_ret. cbv beta iota. rewrite Hptr by done. wp_step.
        wp_use (copy_step bi off dc ltac:(lia) ltac:(lia) ltac:(lia) ltac:(lia)).
        apply wp_ret. split; [|simpl; lia]. split_and!; try lia; done.
    + apply wp_ret. replace dc with n by lia. split; [done|]. unfold done_.
      by rewrite take_ge by (rewrite out_length; lia).
Qed.
End read.

(** The part of [read_data] before the loop. *)
Lemma read_data_prefix s inode offset buf n max_data max_inode size :
  word_at s (data_block_num_at (boot_block_addr (fsg s))) max_data ->
  word_at s (inode_num_at (boot_block_addr (fsg s))) max_inode ->
  word_at s (inode_at (fsg s) inode) size ->
  read_data inode offset buf n s =
    if (max_inode <=? inode) || (buf =? 0) then Ret (-1) s
    else if size <=? offset then Ret 0 s
    else (let* curr := load32 (block_num_at (inode_at (fsg s) inode) (offset / 4096)) in
          read_data_loop (fsg s) (inode_at (fsg s) inode) max_data buf n
            (offset - offset / 4096 * 4096, offset / 4096, block_at (fsg s) curr, 0)) s.
Proof.
  intros H1%load32_word H2%load32_word H3%load32_word. unfold read_data.
  unfold bind at 1, gets at 1. unfold bind at 1. rewrite H1. unfold bind at 1. rewrite H2.
  unfold bind at 1. rewrite H3. destruct (_ || _); [done|]. by destruct (size <=? offset).
Qed.

Lemma read_data_spec s inode offset buf n max_data max_inode size blocks data :
  word_at s (data_block_num_at (boot_block_addr (fsg s))) max_data ->
  word_at s (inode_num_at (boot_block_addr (fsg s))) max_inode ->
  stored s inode size blocks data -> buffer_apart s inode blocks data buf n -> region s buf n ->
  inode < max_inode -> buffer buf n -> 0 <= offset < size -> 0 < n < 2 ^ 32 ->
  offset + n <= Z.of_nat (length data) ->
  offset + n <= 4096 * 1022 -> offset + n <= 4096 * max_data ->
  read_data inode offset buf n s =
    Ret n (put_bytes buf (take (Z.to_nat n) (drop (Z.to_nat offset) data)) s).
Proof.
  intros H1 H2 Hst Hap Hreg Hino Hbuf Hoff Hn Hin Hlim Hmax.
  assert (buf <> 0) by (destruct Hbuf; lia).
  rewrite (read_data_prefix s inode offset buf n max_data max_inode size H1 H2 (st_size _ _ _ _ _ Hst)).
  rewrite (proj2 (Z.leb_gt max_inode inode)), (proj2 (Z.eqb_neq buf 0)), (proj2 (Z.leb_gt size offset)) by lia.
  cbn [orb].
  assert (Hq : 0 <= offset / 4096 < Z.of_nat (length blocks)).
  { pose proof (st_len _ _ _ _ _ Hst). split; [apply Z.div_pos; lia|].
    apply Z.div_lt_upper_bound; lia. }
  destruct (lookup_lt_is_Some_2 blocks (Z.to_nat (offset / 4096))) as [b Hb]; [lia|].
  pose proof (st_nums _ _ _ _ _ Hst _ _ Hb) as Hw. rewrite Z2Nat.id in Hw by lia.
  unfold bind. rewrite (load32_word _ _ _ Hw). apply Ret_of_wp.
  apply nth_lookup_Some with (d := 0) in Hb. rewrite <- Hb.
  eapply read_data_loop_spec; try done; lia.
Qed.

(** ** Directory reads *)

Lemma dentry_past_name d : length d = 64%nat -> bytes d -> exists c r, d = file_name_ d ++ c :: r.
Proof.
  intros Hl _. destruct (lookup_lt_is_Some_2 d 32) as [c Hc]; [lia|].
  exists c, (drop 33 d). symmetry. by apply take_drop_middle.
Qed.

(** The 32 bytes of a name, padded. *)
Definition padded (w : list Z) : list Z := w ++ replicate (32 - length w) 0.

Lemma padded_length d : length (padded (dname d)) = 32%nat.
Proof.
  unfold padded. rewrite length_app, length_replicate.
  destruct (until_nul_spec (file_name_ d)) as (_ & Hl & _).
  unfold file_name_ in Hl. rewrite length_take in Hl. unfold dname, file_name_. lia.
Qed.

Lemma put_byte_comm s b x y : mem_set b x (set_directory_index y s) = set_directory_index y (mem_set b x s).
Proof. unfold mem_set. cbn [pgs set_directory_index on_fsg]. by destruct (cell (pgs s) b). Qed.

Lemma strlen_of s buf w tail :
  region s buf (Z.of_nat (length (w ++ 0 :: tail))) -> Forall (fun b => b <> 0) w ->
  Z.of_nat (length w) < 2 ^ 32 -> forall k,
  strlen (Addr buf) (set_directory_index k (put_bytes buf (w ++ 0 :: tail) s)) =
  Ret (Z.of_nat (length w)) (set_directory_index k (put_bytes buf (w ++ 0 :: tail) s)).
Proof.
  intros Hreg Hnz Hlen k. apply (strlen_spec _ (Addr buf) (w ++ 0 :: tail) w); [| |done].
  - apply bytes_at_reads. change (bytes_at (put_bytes buf (w ++ 0 :: tail) s) buf (w ++ 0 :: tail)).
    by apply bytes_at_put_bytes.
  - clear Hlen Hreg. induction Hnz as [|b w Hb Hw IH]; [done|]. simpl.
    rewrite (proj2 (Z.eqb_neq b 0)) by done. by rewrite IH.
Qed.

Lemma dir_read_name s fd buf nbytes n ds dot d :
  directory s (boot_block_addr (fsg s)) ds dot ->
  word_at s (dir_entry_num_at (boot_block_addr (fsg s))) n -> 1 <= n <= 63 ->
  let idx := directory_index (fsg s) in
  0 <= idx < n - 1 -> ds !! Z.to_nat idx = Some d ->
  buf <> 0 -> region s buf 33 ->
  (forall i, 0 <= i < 64 -> outside (pgs s) buf 33 (dentry_at (boot_block_addr (fsg s)) idx + i)) ->
  dir_read fd buf nbytes s =
    Ret (Z.of_nat (length (dname d)))
      (set_directory_index (idx + 1) (put_bytes buf (padded (dname d) ++ [0]) s)).
Proof.
  intros Hdir Hn Hn63 idx Hidx Hd Hbuf Hreg Hap. unfold dir_read.
  unfold bind at 1, gets at 1. unfold bind at 1. rewrite (load32_word _ _ _ Hn).
  rewrite (s32_small n), (s32_small (n - 1)) by lia. unfold NULL.
  rewrite (proj2 (Z.eqb_neq buf 0)) by done. fold idx.
  rewrite (proj2 (Z.leb_gt (n - 1) idx)), (proj2 (Z.eqb_neq idx (-1))) by lia.
  destruct (Forall_lookup_1 _ _ _ _ (dir_shape _ _ _ _ Hdir) Hd) as [Ld Bd].
  pose proof (dir_entry _ _ _ _ Hdir _ _ Hd) as Hat. rewrite Z2Nat.id in Hat by lia.
  pose proof (region_mono s buf 33 0 32 Hreg ltac:(lia) ltac:(lia)) as Hreg32.
  rewrite Z.add_0_r in Hreg32. pose proof (padded_length d) as Lp.
  assert (Hcpy : strncpy buf (Addr (dentry_at (boot_block_addr (fsg s)) idx)) BYTE4 s =
    Ret buf (put_bytes buf (padded (dname d)) s)).
  { eapply strncpy_spec; [by apply bytes_at_reads| done | unfold BYTE4; lia | done | |].
    - intros i Hi j Hj. apply Hap; [lia|]. unfold BYTE4 in Hj. lia.
    - change (Z.to_nat BYTE4) with 32%nat. rewrite strncpy_ref_name by lia. done. }
  assert (Hput : store8 (buf + BYTE4) 0 (put_bytes buf (padded (dname d)) s) =
    Ret tt (put_bytes buf (padded (dname d) ++ [0]) s)).
  { rewrite put_bytes_snoc, Lp. apply store8_set, put_bytes_is_Some.
    destruct Hreg as [Hm _]. apply Hm. unfold BYTE4. lia. }
  assert (Hsplit : exists tail, padded (dname d) ++ [0] = dname d ++ 0 :: tail /\
      length (dname d ++ 0 :: tail) = 33%nat).
  { unfold padded. rewrite <- app_assoc. change [0] with (replicate 1 0).
    rewrite <- replicate_add, Nat.add_1_r. eexists. split; [reflexivity|].
    unfold padded in Lp. rewrite length_app, length_replicate in Lp.
    rewrite length_app. cbn [length]. rewrite length_replicate. lia. }
  apply Ret_of_wp. do 2 wp_step. wp_use Hcpy. wp_step.
  eapply wp_of_Ret; [by apply (reads_Lit _ [0] 0%nat)|]. wp_use Hput. do 2 wp_step. fold idx.
  destruct Hsplit as (tail & -> & Ltail). eapply wp_of_Ret; [apply strlen_of|done].
  - by rewrite Ltail.
  - apply until_nul_spec.
  - rewrite length_app in Ltail. lia.
Qed.

Lemma dir_read_end s fd buf nbytes n :
  word_at s (dir_entry_num_at (boot_block_addr (fsg s))) n -> 1 <= n <= 63 -> buf <> 0 ->
  n - 1 <= directory_index (fsg s) -> dir_read fd buf nbytes s = Ret 0 (set_directory_index (-1) s).
Proof.
  intros Hn Hn63 Hbuf Hge. unfold dir_read. unfold bind at 1, gets at 1. unfold bind at 1.
  rewrite (load32_word _ _ _ Hn), (s32_small n), (s32_small (n - 1)) by lia. unfold NULL.
  by rewrite (proj2 (Z.eqb_neq buf 0)), (proj2 (Z.leb_le (n - 1) _)).
Qed.

Lemma dir_read_dot s fd buf nbytes n :
  word_at s (dir_entry_num_at (boot_block_addr (fsg s))) n -> 1 <= n <= 63 -> buf <> 0 ->
  region s buf 33 -> directory_index (fsg s) = -1 ->
  dir_read fd buf nbytes s = Ret 1 (set_directory_index 0 (put_bytes buf [46; 0] s)).
Proof.
  intros Hn Hn63 Hbuf Hreg He. unfold dir_read. unfold bind at 1, gets at 1. unfold bind at 1.
  rewrite (load32_word _ _ _ Hn), (s32_small n), (s32_small (n - 1)) by lia. unfold NULL.
  rewrite (proj2 (Z.eqb_neq buf 0)) by done. rewrite He.
  rewrite (proj2 (Z.leb_gt (n - 1) (-1))) by lia. cbn [Z.eqb Pos.eqb].
  pose proof (region_mono s buf 33 0 2 Hreg ltac:(lia) ltac:(lia)) as Hreg2.
  rewrite Z.add_0_r in Hreg2.
  assert (Hcpy : strcpy buf (cstr ".") s = Ret buf (put_bytes buf [46; 0] s)).
  { apply (strcpy_spec s buf (cstr ".") [46; 0] [46]); [apply reads_Lit|done| |done|done|simpl; lia].
    by repeat constructor. }
  unfold bind. rewrite Hcpy. apply (strlen_of s buf [46] []); [done|by repeat constructor|simpl; lia].
Qed.

(** ** Properties *)

(** Lookup by name.  For a string outside the automatic arrays,
    [read_dentry_by_name] succeeds exactly on the name [.], giving the
    directory's own entry, and on names some entry of the directory carries,
    giving the first such entry; otherwise it returns -1 and leaves the caller's
    entry alone.  Nothing in memory changes but its own temporary. *)
Theorem read_dentry_by_name_finds s p w r ds dot o :
  reads s p (w ++ 0 :: r) -> Forall (fun b => b <> 0) w -> bytes w ->
  unaliased s p (w ++ 0 :: r) TEMP 33 -> directory s (boot_block_addr (fsg s)) ds dot ->
  exists res t, read_dentry_by_name p o s = Ret res t /\ modifies s TEMP 33 t /\
    (w = [46] -> res = (SUCCESS, dot)) /\
    (w <> [46] -> forall d, find_dentry w ds = Some d -> res = (SUCCESS, d) /\ dname d = w) /\
    (w <> [46] -> Forall (fun d => dname d <> w) ds -> res = (FAILURE, o)).
Proof.
  intros Hr Hw Bw Hu Hdir.
  assert (Hwp : wp (read_dentry_by_name p o) (fun res t => modifies s TEMP 33 t /\
    res = if bool_decide (w = [46]) then (SUCCESS, dot)
        else match find_dentry w ds with Some d => (SUCCESS, d) | None => (FAILURE, o) end)
    (fun _ _ => False) s) by by eapply read_dentry_by_name_spec.
  apply wp_Ret in Hwp as (res & t & Hrun & Hm & ->). eexists _, t.
  split; [exact Hrun|]. split; [done|]. split_and!.
  - intros Hw'. by rewrite bool_decide_eq_true_2.
  - intros Hw' d Hd. rewrite bool_decide_eq_false_2, Hd by done. split; [done|].
    unfold find_dentry in Hd. apply find_some in Hd as [_ Hd]. by apply bool_decide_eq_true in Hd.
  - intros Hw' Hall. rewrite bool_decide_eq_false_2 by done.
    destruct (find_dentry w ds) as [d|] eqn:Hd; [|done]. unfold find_dentry in Hd.
    apply find_some in Hd as [Hin Hd]. apply bool_decide_eq_true in Hd.
    rewrite Forall_forall in Hall. exfalso. eapply Hall; [|exact Hd]. by apply list_elem_of_In.
Qed.

(** C10: reading a file.  For an inode below the image's count, a non-NULL buffer
    apart from the image and an offset inside the file, [read_data] returns the
    requested number of bytes and fills the buffer with that part of the file's
    blocks, across block boundaries, as long as the request stays within the
    blocks, 1022 of them and the image's block count; the file's length does not
    shorten the request.  An offset at or past the length reads nothing, a bad
    inode or a NULL buffer is refused, and neither changes the state. *)
Theorem read_data_correct s inode offset buf n max_data max_inode size blocks data :
  word_at s (data_block_num_at (boot_block_addr (fsg s))) max_data ->
  word_at s (inode_num_at (boot_block_addr (fsg s))) max_inode ->
  stored s inode size blocks data ->
  (max_inode <= inode \/ buf = 0 -> read_data inode offset buf n s = Ret (-1) s) /\
  (inode < max_inode -> buf <> 0 -> size <= offset -> read_data inode offset buf n s = Ret 0 s) /\
  (buffer_apart s inode blocks data buf n -> region s buf n ->
   inode < max_inode -> buffer buf n -> 0 <= offset < size -> 0 < n < 2 ^ 32 ->
   offset + n <= Z.of_nat (length data) ->
   offset + n <= 4096 * 1022 -> offset + n <= 4096 * max_data ->
   exists t, read_data inode offset buf n s = Ret n t /\ modifies s buf n t /\
     forall i, 0 <= i < n -> mem_get t (buf + i) = data !! Z.to_nat (offset + i)).
Proof.
  intros H1 H2 Hst.
  pose proof (read_data_prefix s inode offset buf n max_data max_inode size H1 H2
    (st_size _ _ _ _ _ Hst)) as Hpre. split; [|split].
  - intros Hbad. rewrite Hpre.
    destruct Hbad as [Hbad| ->]; [by rewrite (proj2 (Z.leb_le _ _))|by rewrite orb_true_r].
  - intros Hi Hb Hs. rewrite Hpre.
    by rewrite (proj2 (Z.leb_gt max_inode inode)), (proj2 (Z.eqb_neq buf 0)), (proj2 (Z.leb_le size offset)).
  - intros Hap Hreg Hi Hb Ho Hn Hin Hl Hm.
    set (out := take (Z.to_nat n) (drop (Z.to_nat offset) data)).
    assert (Lo : length out = Z.to_nat n).
    { unfold out. rewrite length_take_le; [done|]. rewrite length_drop. lia. }
    exists (put_bytes buf out s). split; [by eapply read_data_spec|].
    split; [apply modifies_put_bytes; lia|]. intros i Hi'.
    rewrite <- (Z2Nat.id i) at 1 by lia. rewrite mem_get_put_bytes.
    + unfold out. rewrite lookup_take_lt, lookup_drop by lia. f_equal. lia.
    + rewrite Lo, Z2Nat.id by lia. done.
    + lia.
Qed.

(** Listing the directory.  With an image of [n] entries, [dir_read] stores
    ["."] first, then the name of entry [idx] padded with zeros to 33 bytes
    whatever [nbytes] is, returns the length of the name and moves to the next
    entry; after the last one it returns 0 and starts over. *)
Theorem dir_read_lists s fd buf nbytes n ds dot :
  directory s (boot_block_addr (fsg s)) ds dot ->
  word_at s (dir_entry_num_at (boot_block_addr (fsg s))) n -> 1 <= n <= 63 ->
  let idx := directory_index (fsg s) in
  -1 <= idx -> buf <> 0 -> region s buf 33 ->
  (n - 1 <= idx -> dir_read fd buf nbytes s = Ret 0 (set_directory_index (-1) s)) /\
  (idx = -1 ->
   dir_read fd buf nbytes s = Ret 1 (set_directory_index 0 (put_bytes buf [46; 0] s))) /\
  (0 <= idx < n - 1 ->
   (forall i, 0 <= i < 64 -> outside (pgs s) buf 33 (dentry_at (boot_block_addr (fsg s)) idx + i)) ->
   exists d, ds !! Z.to_nat idx = Some d /\
     dir_read fd buf nbytes s =
       Ret (Z.of_nat (length (dname d)))
         (set_directory_index (idx + 1) (put_bytes buf (padded (dname d) ++ [0]) s))).
Proof.
  intros Hdir Hn Hn63 idx Hlow Hbuf Hreg. split; [|split].
  - by apply dir_read_end.
  - by apply dir_read_dot with n.
  - intros Hidx Hap. destruct (lookup_lt_is_Some_2 ds (Z.to_nat idx)) as [d Hd].
    { rewrite (dir_count _ _ _ _ Hdir). lia. }
    exists d. split; [done|]. by eapply dir_read_name.
Qed.

End file_sys_lemmas.

(** * A closed example: an image with one 3-byte file, [hi] *)

Definition demo_byte (a : Z) : Z :=
  if a =? 0x10000 then 2 else if a =? 0x10004 then 1 else if a =? 0x10008 then 1
  else if a =? 0x10040 then 46
  else if a =? 0x10080 then 104 else if a =? 0x10081 then 105 else if a =? 0x100A0 then 2
  else if a =? 0x11000 then 3
  else if a =? 0x12000 then 97 else if a =? 0x12001 then 98 else if a =? 0x12002 then 99
  else 0.

Definition demo_image : kernel :=
  on_fsg (fun _ => Fsys 0x10000 0x11000 0x12000 0)
    (set_mem (ram_of demo_byte 0x10000 0x10040) initial_kernel).

Definition demo_bytes (a n : Z) : list Z := map demo_byte (seqZ a n).
Definition demo_dents : list dentry := map (fun i => demo_bytes (0x10080 + 64 * i) 64) (seqZ 0 62).

Lemma demo_byte_range a : 0 <= demo_byte a < 256.
Proof. unfold demo_byte. repeat destruct (_ =? _); lia. Qed.

Lemma demo_bytes_length a n : 0 <= n -> length (demo_bytes a n) = Z.to_nat n.
Proof. intros Hn. unfold demo_bytes. by rewrite length_map, length_seqZ. Qed.

Lemma demo_bytes_bytes a n : bytes (demo_bytes a n).
Proof. apply Forall_forall. intros b (i & -> & _)%list_elem_of_fmap. apply demo_byte_range. Qed.

Section demo.
Let H := quiet_env.
Local Existing Instance H.

Lemma demo_at a n :
  0x10000 <= a -> 0 <= n -> a + n <= 0x20040 -> bytes_at demo_image a (demo_bytes a n).
Proof.
  intros Ha Hn He. pose proof (demo_bytes_length a n Hn) as Hl.
  apply (bytes_at_ram demo_image demo_byte 0x10000 0x10040); [done|reflexivity|lia|lia|lia|].
  by rewrite Hl, Z2Nat.id.
Qed.

Lemma demo_word a v :
  0x10000 <= a -> a + 4 <= 0x20040 ->
  v = demo_byte a + demo_byte (1 + a) * 2 ^ 8 + demo_byte (2 + a) * 2 ^ 16
    + demo_byte (3 + a) * 2 ^ 24 -> word_at demo_image a v.
Proof.
  intros Ha He Hv. do 4 eexists. split; [|exact Hv]. apply (demo_at a 4); lia.
Qed.

Lemma demo_directory :
  directory demo_image (boot_block_addr (fsg demo_image)) demo_dents (demo_bytes 0x10040 64).
Proof.
  constructor.
  - done.
  - reflexivity.
  - apply Forall_forall. intros d (i & -> & _)%list_elem_of_fmap.
    split; [by apply demo_bytes_length|apply demo_bytes_bytes].
  - intros i d Hd. apply list_lookup_fmap_Some in Hd as (j & -> & Hj).
    apply lookup_seqZ in Hj as [-> Hj].
    change (dentry_at (boot_block_addr (fsg demo_image)) (Z.of_nat i)) with (0x10000 + 128 + 64 * Z.of_nat i).
    replace (0x10000 + 128 + 64 * Z.of_nat i) with (0x10080 + 64 * (0 + Z.of_nat i)) by lia.
    apply demo_at; lia.
  - reflexivity.
  - apply demo_at; lia.
Qed.

Lemma demo_stored : stored demo_image 0 3 [0] (demo_bytes 0x12000 4096).
Proof.
  constructor.
  - by apply demo_word.
  - intros j b Hj. destruct j as [|j]; [|done]. injection Hj as <-. by apply demo_word.
  - by rewrite demo_bytes_length.
  - apply demo_bytes_bytes.
  - intros k b Hk. pose proof (lookup_lt_Some _ _ _ Hk) as Hl. rewrite demo_bytes_length in Hl by lia.
    assert (Hd : data_at (fsg demo_image) [0] (Z.of_nat k) = 0x12000 + Z.of_nat k).
    { unfold data_at. rewrite Z.mod_small, Z.div_small by lia. change (Z.to_nat 0) with O. cbn [nth].
      change (block_at (fsg demo_image) 0) with 0x12000. apply u32_small. lia. }
    rewrite Hd. by apply (demo_at 0x12000 4096).
Qed.

Lemma demo_region n : 0 <= n <= 64 -> region demo_image 0x20000 n.
Proof. intros Hn. apply (region_ram demo_image demo_byte 0x10000 0x10040); [done|reflexivity|lia|lia|lia]. Qed.

Lemma demo_outside va n : 0 <= va < 0x20000 -> outside (pgs demo_image) 0x20000 n va.
Proof. intros Hva. apply outside_unpaged; [done|lia|lia|lia]. Qed.

Lemma demo_apart n : buffer_apart demo_image 0 [0] (demo_bytes 0x12000 4096) 0x20000 n.
Proof.
  split.
  - intros j i Hj Hi. simpl in Hj. assert (j = 0) as -> by lia. apply demo_outside.
    change (block_num_at (inode_at (fsg demo_image) 0) 0) with 0x11004. lia.
  - intros k Hk. rewrite demo_bytes_length in Hk by lia. apply demo_outside.
    unfold data_at. rewrite Z.mod_small, Z.div_small by lia. change (Z.to_nat 0) with O. cbn [nth].
    change (block_at (fsg demo_image) 0) with 0x12000. rewrite u32_small; lia.
Qed.
End demo.

Lemma read_dentry_by_name_finds_witness :
  let H := quiet_env in
  exists res t, read_dentry_by_name (cstr "hi") [] demo_image = Ret res t /\
    res = (SUCCESS, demo_bytes 0x10080 64).
Proof.
  intros H. destruct (read_dentry_by_name_finds demo_image (cstr "hi") [104; 105] [] demo_dents
    (demo_bytes 0x10040 64) []) as (res & t & Hrun & _ & _ & Hfind & _).
  - apply reads_Lit.
  - by repeat constructor.
  - by repeat constructor.
  - done.
  - apply demo_directory.
  - exists res, t. split; [exact Hrun|]. by apply Hfind; [|vm_compute].
Defined.

Lemma read_data_correct_witness :
  let H := quiet_env in
  exists t, read_data 0 1 0x20000 5 demo_image = Ret 5 t /\
    mem_get t 0x20000 = Some 98 /\ mem_get t 0x20004 = Some 0.
Proof.
  intros H. destruct (read_data_correct demo_image 0 1 0x20000 5 1 1 3 [0] (demo_bytes 0x12000 4096))
    as (_ & _ & Hok).
  - by apply demo_word.
  - by apply demo_word.
  - apply demo_stored.
  - destruct Hok as (t & Hrun & _ & Hb); try lia.
    + apply demo_apart.
    + apply demo_region. lia.
    + left. lia.
    + rewrite demo_bytes_length; lia.
    + exists t. split; [exact Hrun|]. split.
      * apply (Hb 0). lia.
      * apply (Hb 4). lia.
Defined.

Lemma dir_read_lists_witness :
  let H := quiet_env in
  exists d, demo_dents !! 0%nat = Some d /\
    dir_read 2 0x20000 32 demo_image =
      Ret (Z.of_nat (length (dname d)))
        (set_directory_index 1 (put_bytes 0x20000 (padded (dname d) ++ [0]) demo_image)).
Proof.
  intros H. destruct (dir_read_lists demo_image 2 0x20000 32 2 demo_dents (demo_bytes 0x10040 64))
    as (_ & _ & Hok).
  - apply demo_directory.
  - by apply demo_word.
  - lia.
  - cbn. lia.
  - done.
  - apply demo_region. lia.
  - destruct Hok as (d & Hd & Hrun).
    + cbn. lia.
    + intros i Hi. apply demo_outside. unfold dentry_at, DENTRY_SIZE. cbn. lia.
    + exists d. split; [exact Hd|exact Hrun].
Defined.
