(* ===== verification/Terminal.v ===== *)
(** The terminal driver, the second half of [src/student-distrib/keyboard.c]:
    [terminal_init], [terminal_open], [terminal_read], [terminal_write],
    [terminal_close], [terminal_switch] and the page swap behind it. *)
From stdpp Require Import base numbers list gmap strings.
From Stdlib Require Import ZArith Lia.
From S2P Require Import Prelude Machine Strings Rtc Console Paging.

Definition TERM_0 : Z := 0.
Definition TERM_1 : Z := 1.
Definition TERM_2 : Z := 2.

Section terminal.
Context `{Env}.

Definition set_term_pcb (t p : Z) : K unit :=
  let* T := get_term t in put_term t (Term p (screen_x T) (screen_y T)).

(** [readFlag[t] = v] *)
Definition set_readFlag (t v : Z) : K unit :=
  let* k := gets kb in
  let* l := get_or_fault t (aset (readFlag k) t (u8 v)) in
  modify (on_kb (fun k => Kbd (shift k) (capslock k) (capsChecker k) (control k) (left_alt k)
    (keybufferCount k) (cursor k) (keyBuf k) l)).

(** [keyBuf[t][i]] *)
Definition get_keyBuf (t i : Z) : K Z :=
  let* k := gets kb in
  let* row := get_or_fault t (aget (keyBuf k) t) in
  get_or_fault i (aget row i).

Definition terminal_init : K unit :=
  set_term_pcb TERM_0 NULL ;;
  set_term_pcb TERM_1 NULL ;;
  set_term_pcb TERM_2 NULL.

Definition terminal_open (filename : cptr) : K Z := ret SUCCESS.
Definition terminal_close (fd : Z) : K Z := ret SUCCESS.

(** The running terminal's line is not complete yet. *)
Definition line_pending (s : kernel) : bool :=
  nth (Z.to_nat (curr_scheduler (ttys s))) (readFlag (kb s)) 0 =? LOCK.

(** The copy loop of [terminal_read]; [counter] is [i] at its head. *)
Definition read_line (buffer nbytes : Z) : K Z :=
  loop (fun i =>
    if negb (i <? nbytes) then ret (inr i) else
    if i =? nbytes - 1 then store8 (buffer + i) NEWLINE ;; ret (inr (i + 1)) else
    let* t := gets ttys in
    let* c := get_keyBuf (curr_scheduler t) i in
    store8 (buffer + i) c ;;
    let* t := gets ttys in
    let* c := get_keyBuf (curr_scheduler t) i in
    if c =? NEWLINE then ret (inr (i + 1)) else ret (inl (i + 1))) 0.

(** [irqs] are the interrupts served while the read waits for a line. *)
Definition terminal_read (irqs : list (K unit)) (fd buf nbytes : Z) : K Z :=
  let* t := gets ttys in
  set_readFlag (curr_scheduler t) LOCK ;;
  if (buf =? NULL) || (nbytes <? 0) then ret FAILURE else
  spin line_pending irqs ;;
  read_line buf nbytes.

Definition terminal_write (fd buf nbytes : Z) : K Z :=
  if (buf =? NULL) || (nbytes <? 0) then ret FAILURE else
  loop (fun i =>
    if i <? nbytes then
      let* c := load8 (buf + i) in
      putc c ;;
      ret (inl (i + 1))
    else ret (inr i)) 0.

Definition swap_kb_cursor (new_terminal : Z) : K unit :=
  change_terminal_cursor new_terminal ;; ret tt.

Definition swap_vid_mem (new_terminal : Z) : K unit :=
  let* t := gets ttys in
  memcpy (term_1_mem + current_terminal t * KB4) video_mem KB4 ;;
  clear ;;
  memcpy video_mem (term_1_mem + new_terminal * KB4) KB4 ;;
  ret tt.

Definition terminal_switch (new_terminal : Z) : K Z :=
  swap_vid_mem new_terminal ;;
  swap_kb_cursor new_terminal ;;
  modify (set_current_terminal (u8 new_terminal)) ;;
  map_window ;;
  flush_tlb ;;
  ret 0.

End terminal.

(** * Specifications *)

(** What a read of [nbytes] bytes delivers of the line [w] (without its
    newline): the whole line and its newline, or its first bytes and a newline
    forced at the end of the buffer. *)
Definition delivered (w : list Z) (nbytes : Z) : list Z :=
  if nbytes <=? 0 then []
  else if Z.of_nat (length w) <? nbytes then w ++ [NEWLINE]
  else take (Z.to_nat (nbytes - 1)) w ++ [NEWLINE].

(** The key buffer of the running terminal holds the line [w]. *)
Definition line_ready `{Env} (s : kernel) (w : list Z) : Prop :=
  exists row, aget (keyBuf (kb s)) (curr_scheduler (ttys s)) = Some row /\ bytes row /\
    (exists r, row = w ++ NEWLINE :: r) /\ Forall (fun c => c <> NEWLINE) w.

(** The page holding the text of terminal [t]: video memory when it is on
    screen, its own page otherwise. *)
Definition text_page (s : kernel) (t : Z) : Z :=
  if t =? current_terminal (ttys s) then VIDEO else term_1_mem + t * KB4.

(** Byte [i] of the text of terminal [t]. *)
Definition text_at `{Env} (s : kernel) (t i : Z) : option Z := mem_get s (text_page s t + i).

(** Paging is set up and memory backs the four video pages with bytes. *)
Definition video_ready `{Env} (s : kernel) : Prop :=
  tables_ok (pgs s) /\
  forall i, 0 <= i < 0x4000 -> exists b, mem_get s (VIDEO + i) = Some b /\ 0 <= b < 256.

Section terminal_lemmas.
Context `{Env}.

Lemma delivered_length w n :
  0 <= n -> Z.of_nat (length (delivered w n)) = Z.min n (Z.of_nat (length w) + 1).
Proof.
  intros Hn. unfold delivered. destruct (Z.leb_spec n 0); [simpl; lia|].
  destruct (Z.ltb_spec (Z.of_nat (length w)) n); rewrite length_app, ?length_take; simpl; lia.
Qed.

Lemma read_line_spec s w buf n E :
  line_ready s w -> region s buf n -> 0 <= n < 2 ^ 31 ->
  wp (read_line buf n) (fun r t => r = Z.of_nat (length (delivered w n)) /\
    t = put_bytes buf (delivered w n) s) E s.
Proof.
  intros (row & Hrow & Hb & (r & Hr) & Hnl) Hreg Hn.
  pose proof (delivered_length w n ltac:(lia)) as Hlen.
  assert (Hkey : forall i c t, 0 <= i -> row !! Z.to_nat i = Some c -> kb t = kb s ->
    ttys t = ttys s -> get_keyBuf (curr_scheduler (ttys t)) i t = Ret c t).
  { intros i c t Hi Hc Hk Ht. unfold get_keyBuf, bind, gets. rewrite Hk, Ht, Hrow. simpl.
    rewrite <- (Z2Nat.id i) by lia. by rewrite (aget_Some _ _ _ Hc). }
  assert (Hframe : forall i, kb (put_bytes buf (take i (delivered w n)) s) = kb s /\
    ttys (put_bytes buf (take i (delivered w n)) s) = ttys s).
  { intros i. pose proof (modifies_put_bytes s buf n (take i (delivered w n))) as Hm.
    destruct Hm as [-> _]; [rewrite length_take; lia|]. done. }
  unfold read_line.
  apply wp_loop with
    (I := fun i t => 0 <= i <= n /\ i <= Z.of_nat (length w) /\
       t = put_bytes buf (take (Z.to_nat i) (delivered w n)) s)
    (mu := fun i _ => n - i); [split_and!; [lia|lia|lia|done]|unfold loop_fuel; lia|].
  intros i t (Hi & Hiw & ->). split; [lia|]. destruct (Z.ltb_spec i n) as [Hlt|Hge]; cbn [negb].
  - assert (Hpos : delivered w n !! Z.to_nat i =
      Some (if i =? n - 1 then NEWLINE else default NEWLINE (row !! Z.to_nat i))).
    { unfold delivered. rewrite (proj2 (Z.leb_gt n 0)) by lia.
      destruct (Z.ltb_spec (Z.of_nat (length w)) n) as [Hw|Hw].
      - destruct (decide (i = Z.of_nat (length w))) as [He|He].
        + rewrite lookup_app_r by lia. replace (Z.to_nat i - length w)%nat with O by lia.
          rewrite Hr, lookup_app_r by lia. replace (Z.to_nat i - length w)%nat with O by lia.
          simpl. by destruct (i =? n - 1).
        + rewrite lookup_app_l by lia. rewrite (proj2 (Z.eqb_neq i (n - 1))) by lia.
          rewrite Hr, lookup_app_l by lia.
          by destruct (lookup_lt_is_Some_2 w (Z.to_nat i)) as [c ->]; [lia|].
      - destruct (Z.eqb_spec i (n - 1)) as [->|He].
        + rewrite lookup_app_r by (rewrite length_take; lia).
          rewrite length_take_le by lia. by rewrite Nat.sub_diag.
        + rewrite lookup_app_l by (rewrite length_take; lia). rewrite lookup_take_lt by lia.
          rewrite Hr, lookup_app_l by lia.
          by destruct (lookup_lt_is_Some_2 w (Z.to_nat i)) as [c ->]; [lia|]. }
    destruct (Z.eqb_spec i (n - 1)) as [Hlast|Hlast].
    + wp_step. wp_use (store8_put_bytes s buf n (delivered w n) i NEWLINE Hreg
        ltac:(lia) ltac:(lia) Hpos ltac:(unfold NEWLINE; lia)).
      wp_step. split; [lia|]. by rewrite take_ge by lia.
    + destruct (Hframe (Z.to_nat i)) as [Fk Ft].
      destruct (lookup_lt_is_Some_2 row (Z.to_nat i)) as [c Hc].
      { rewrite Hr, length_app. simpl. lia. }
      rewrite Hc in Hpos. simpl in Hpos. pose proof (Forall_lookup_1 _ _ _ _ Hb Hc) as Rc.
      do 3 wp_step. wp_use (Hkey i c _ ltac:(lia) Hc Fk Ft). wp_step.
      wp_use (store8_put_bytes s buf n (delivered w n) i c Hreg ltac:(lia) ltac:(lia) Hpos Rc).
      destruct (Hframe (Z.to_nat (i + 1))) as [Fk' Ft'].
      do 3 wp_step. wp_use (Hkey i c _ ltac:(lia) Hc Fk' Ft').
      rewrite Hr in Hc. destruct (decide (i = Z.of_nat (length w))) as [He|He].
      * rewrite lookup_app_r in Hc by lia. replace (Z.to_nat i - length w)%nat with O in Hc by lia.
        injection Hc as <-. cbn. split; [lia|]. by rewrite take_ge by lia.
      * rewrite lookup_app_l in Hc by lia.
        rewrite (proj2 (Z.eqb_neq c NEWLINE)) by by apply (Forall_lookup_1 _ _ _ _ Hnl Hc).
        wp_step. split; [|lia]. split_and!; [lia|lia|lia|done].
  - wp_step. split; [lia|]. rewrite take_ge by lia. done.
Qed.

Lemma terminal_write_spec s fd buf w v E :
  running_shows s v -> bytes_at s buf w -> bytes w -> buf <> 0 ->
  Z.of_nat (length w) < 2 ^ 31 -> unaliased s (Addr buf) w (page_of s) 4000 ->
  wp (terminal_write fd buf (Z.of_nat (length w)))
    (fun n s' => n = Z.of_nat (length w) /\ running_shows s' (put_text w v) /\
       only_running_screen s s') E s.
Proof.
  intros Hs Hat Hb Hbuf Hlen Hu. unfold terminal_write, NULL.
  rewrite (proj2 (Z.eqb_neq buf 0)), (proj2 (Z.ltb_ge _ 0)) by lia. cbn [orb].
  apply wp_loop with
    (I := fun i s' => 0 <= i <= Z.of_nat (length w) /\ only_running_screen s s' /\
       running_shows s' (put_text (take (Z.to_nat i) w) v))
    (mu := fun i _ => Z.of_nat (length w) - i).
  - split; [lia|]. split; [by apply (only_screen_log_all _ _ s [])|done].
  - unfold loop_fuel. lia.
  - intros i t (Hi & Ho & Ht). split; [lia|].
    destruct (Z.ltb_spec i (Z.of_nat (length w))) as [Hlt|Hge].
    + destruct (lookup_lt_is_Some_2 w (Z.to_nat i)) as [c Hc]; [lia|].
      assert (Hload : load8 (buf + i) t = Ret c t).
      { apply load8_get. rewrite <- (Hat _ _ Hc), Z2Nat.id by lia.
        destruct Ho as [Hsb _]. apply (sb_mem _ _ _ Hsb), Hu. lia. }
      wp_step. wp_use Hload. wp_step.
      eapply wp_mono; [apply putc_spec; [exact Ht|]| |done].
      { by apply (Forall_lookup_1 _ _ _ _ Hb Hc). }
      intros ? t' [Ht' Ho']. wp_step. split; [|lia]. split; [lia|].
      split; [by eapply only_running_trans|].
      replace (Z.to_nat (i + 1)) with (Datatypes.S (Z.to_nat i)) by lia.
      rewrite (take_S_r _ _ _ Hc). unfold put_text in *. by rewrite foldl_app.
    + wp_step. split; [lia|]. split; [|done]. by rewrite take_ge in Ht by lia.
Qed.

(** ** Switching terminals *)

Lemma cell_video s va :
  table_linked -> tables_ok (pgs s) -> VIDEO <= va < VIDEO + 0x4000 -> cell (pgs s) va = Some va.
Proof.
  intros Hl Hok Hva. unfold cell, VIDEO in *. rewrite (proj2 (Z.ltb_ge va 0)) by lia.
  apply kernel_identity; [done|done|lia].
Qed.

Lemma video_region s a n :
  table_linked -> video_ready s -> VIDEO <= a -> a + n <= VIDEO + 0x4000 -> region s a n.
Proof.
  intros Hl [Hok Hb] Ha Hn. split.
  - intros i Hi. destruct (Hb (a + i - VIDEO)) as (b & Hm & _); [lia|].
    replace (VIDEO + (a + i - VIDEO)) with (a + i) in Hm by lia. by exists b.
  - intros i j Hi Hj. rewrite !cell_video by (done || lia). intros [=]. lia.
Qed.

Lemma video_outside s a n va :
  table_linked -> tables_ok (pgs s) -> VIDEO <= a -> a + n <= VIDEO + 0x4000 ->
  VIDEO <= va < VIDEO + 0x4000 -> va < a \/ a + n <= va -> outside (pgs s) a n va.
Proof.
  intros Hl Hok Ha Hn Hva Hd i Hi. rewrite !cell_video by (done || lia). intros [=]. lia.
Qed.

(** The contents of a page. *)
Lemma page_bytes s a n :
  0 <= n -> (forall i, 0 <= i < n -> exists b, mem_get s (a + i) = Some b /\ 0 <= b < 256) ->
  exists l, Z.of_nat (length l) = n /\ bytes l /\
    forall i, 0 <= i < n -> mem_get s (a + i) = l !! Z.to_nat i.
Proof.
  intros Hn Hb. set (g := fun i => default 0 (mem_get s (a + i))).
  exists (map g (seqZ 0 n)). split_and!.
  - rewrite length_map, length_seqZ. lia.
  - apply Forall_forall. intros b (i & -> & Hi%elem_of_seqZ)%list_elem_of_fmap.
    destruct (Hb i) as (b & Hm & Hr); [lia|]. unfold g. by rewrite Hm.
  - intros i Hi. destruct (Hb i Hi) as (b & Hm & _).
    rewrite list_lookup_fmap, lookup_seqZ_lt by lia. simpl. unfold g.
    by rewrite Z2Nat.id, Z.add_0_l, Hm by lia.
Qed.

Lemma put_page s a n l i :
  region s a n -> Z.of_nat (length l) = n -> 0 <= i < n ->
  mem_get (put_bytes a l s) (a + i) = l !! Z.to_nat i.
Proof.
  intros Hr Hl Hi. rewrite <- (Z2Nat.id i) at 1 by lia. apply mem_get_put_bytes; [by rewrite Hl|lia].
Qed.

Lemma copy_page s a b :
  table_linked -> video_ready s -> VIDEO <= a -> a + KB4 <= VIDEO + 0x4000 ->
  VIDEO <= b -> b + KB4 <= VIDEO + 0x4000 -> a + KB4 <= b \/ b + KB4 <= a ->
  exists t, memcpy a b KB4 s = Ret a t /\ modifies s a KB4 t /\ video_ready t /\
    forall i, 0 <= i < KB4 -> mem_get t (a + i) = mem_get s (b + i).
Proof.
  intros Hl Hv Ha Ha' Hb Hb' Hd. pose proof Hv as [Hok Hm].
  destruct (page_bytes s b KB4) as (l & Ll & Bl & Hg); [done| |].
  { intros i Hi. replace (b + i) with (VIDEO + (b + i - VIDEO)) by lia. apply Hm. unfold KB4 in *. lia. }
  pose proof (video_region s a KB4 Hl Hv Ha Ha') as Hreg.
  exists (put_bytes a l s).
  assert (Hmod : modifies s a KB4 (put_bytes a l s)) by (apply modifies_put_bytes; lia).
  split_and!; [|done| |].
  - apply memcpy_spec; [|done|by rewrite Ll| |done|done].
    + intros i c Hc. rewrite (Hg (Z.of_nat i)), Nat2Z.id; [done|]. apply lookup_lt_Some in Hc. lia.
    + intros i Hi. rewrite Ll in *. apply video_outside; try done; lia.
  - split; [by rewrite (modifies_pgs _ _ _ _ Hmod)|]. intros i Hi.
    destruct (decide (a <= VIDEO + i < a + KB4)) as [Hin|Hout].
    + replace (VIDEO + i) with (a + (VIDEO + i - a)) by lia. rewrite (put_page s a KB4) by (done || lia).
      destruct (lookup_lt_is_Some_2 l (Z.to_nat (VIDEO + i - a))) as [c Hc]; [lia|].
      exists c. split; [done|]. by apply (Forall_lookup_1 _ _ _ _ Bl Hc).
    + rewrite (modifies_out _ _ _ _ _ Hmod); [by apply Hm|]. apply video_outside; try done; lia.
  - intros i Hi. rewrite (put_page s a KB4) by (done || lia). by rewrite Hg.
Qed.

(** Video memory as a grid of cells. *)
Lemma video_grid s : table_linked -> video_ready s -> exists g, grid s video_mem g.
Proof.
  intros Hl Hv. pose proof Hv as [_ Hm].
  set (g := fun i => default 0 (mem_get s (VIDEO + i))).
  exists (map (fun k => (g (2 * k), g (2 * k + 1))) (seqZ 0 2000)).
  assert (Hg : forall i, 0 <= i < 0x4000 -> mem_get s (VIDEO + i) = Some (g i) /\ 0 <= g i < 256).
  { intros i Hi. destruct (Hm i Hi) as (b & Hb & Hr). unfold g. by rewrite Hb. }
  split_and!; [by rewrite length_map, length_seqZ|done|done| |].
  - apply video_region; [done|done|unfold video_mem; lia|unfold video_mem; lia].
  - intros k c Hc. rewrite list_lookup_fmap in Hc.
    destruct (seqZ 0 2000 !! k) as [j|] eqn:Hj; [|done]. injection Hc as <-.
    apply lookup_seqZ in Hj as [-> Hj]. cbn [fst snd]. unfold video_mem.
    rewrite Z.add_0_l.
    destruct (Hg (2 * Z.of_nat k)) as [H0 R0]; [lia|]. destruct (Hg (2 * Z.of_nat k + 1)) as [H1 R1]; [lia|].
    rewrite <- Z.add_assoc. done.
Qed.

Lemma video_ready_modifies s t n :
  table_linked -> video_ready s -> 0 <= n <= 0x4000 -> modifies s VIDEO n t ->
  (forall i, 0 <= i < n -> exists b, mem_get t (VIDEO + i) = Some b /\ 0 <= b < 256) ->
  video_ready t.
Proof.
  intros Hl [Hok Hm] Hn Hmod Hb. split; [by rewrite (modifies_pgs _ _ _ _ Hmod)|].
  intros i Hi. destruct (Z.lt_ge_cases i n) as [Hlt|Hge]; [apply Hb; lia|].
  rewrite (modifies_out _ _ _ _ _ Hmod); [by apply Hm|]. apply video_outside; try done; lia.
Qed.

Lemma clear_video s E :
  table_linked -> video_ready s ->
  wp clear (fun _ t => modifies s VIDEO KB4 t /\ video_ready t) E s.
Proof.
  intros Hl Hv. destruct (video_grid s Hl Hv) as [g Hg].
  eapply wp_mono; [by apply (clear_spec s g)| |done]. intros ? t [(Lg & _ & _ & Hg') Hm]. split.
  - eapply modifies_widen; [exact Hm|done|unfold video_mem, KB4; lia].
  - apply (video_ready_modifies s t 4000); [done|done|lia|exact Hm|]. intros i Hi.
    destruct (Hg' (Z.to_nat (i / 2)) blank) as (R0 & R1 & M0 & M1).
    { apply lookup_replicate_2. unfold CELLS.
      assert (i / 2 < 2000) by (apply Z.div_lt_upper_bound; lia).
      assert (0 <= i / 2) by (apply Z.div_pos; lia). lia. }
    rewrite Z2Nat.id in M0, M1 by (apply Z.div_pos; lia).
    pose proof (Z.div_mod i 2 ltac:(lia)). pose proof (Z.mod_pos_bound i 2 ltac:(lia)).
    destruct (decide (i mod 2 = 0)).
    + exists (fst blank). split; [|done]. rewrite <- M0. f_equal. unfold video_mem. lia.
    + exists (snd blank). split; [|done]. rewrite <- M1. f_equal. unfold video_mem. lia.
Qed.

(** The page swap moves the text of the old terminal out and that of the new one in. *)
Lemma swap_vid_mem_spec s new E :
  table_linked -> video_ready s -> 0 <= current_terminal (ttys s) < 3 -> 0 <= new < 3 ->
  wp (swap_vid_mem new) (fun _ t => video_ready t /\ t = set_mem (mem (mach t)) s /\
    forall k i, 0 <= k < 3 -> 0 <= i < KB4 ->
      mem_get t ((if k =? new then VIDEO else term_1_mem + k * KB4) + i) = text_at s k i) E s.
Proof.
  intros Hl Hv Hcur Hnew. unfold swap_vid_mem. do 2 wp_step.
  set (cur := current_terminal (ttys s)) in *.
  destruct (copy_page s (term_1_mem + cur * KB4) video_mem) as (s1 & R1 & M1 & V1 & C1);
    [done|done|unfold term_1_mem, video_mem, KB4, VIDEO; lia..|].
  wp_step. wp_use R1. wp_step. eapply wp_mono; [by apply clear_video| |done].
  intros ? s2 [M2 V2]. wp_step.
  destruct (copy_page s2 video_mem (term_1_mem + new * KB4)) as (s3 & R3 & M3 & V3 & C3);
    [done|done|unfold term_1_mem, video_mem, KB4, VIDEO; lia..|].
  wp_use R3. apply wp_ret. split; [done|]. split.
  { destruct M1 as [H1 _], M2 as [H2 _], M3 as [H3 _]. rewrite H3 at 1. rewrite H2 at 1. by rewrite H1 at 1. }
  assert (P1 : tables_ok (pgs s1)) by apply V1. assert (P2 : tables_ok (pgs s2)) by apply V2.
  assert (P0 : tables_ok (pgs s)) by apply Hv.
  (* what the two stores after the first leave of a page of its own *)
  assert (Hpage : forall k i, 0 <= k < 3 -> 0 <= i < KB4 ->
    mem_get s2 (term_1_mem + k * KB4 + i) = text_at s k i).
  { intros k i Hk Hi. rewrite (modifies_out _ _ _ _ _ M2).
    - unfold text_at, text_page. fold cur. destruct (Z.eqb_spec k cur) as [->|Hne].
      + by rewrite C1.
      + rewrite (modifies_out _ _ _ _ _ M1); [done|]. unfold KB4, term_1_mem, VIDEO in *.
        apply video_outside; try done; unfold VIDEO; lia.
    - unfold KB4, term_1_mem, VIDEO in *. apply video_outside; try done; unfold VIDEO; lia. }
  intros k i Hk Hi. destruct (Z.eqb_spec k new) as [->|Hne].
  - change VIDEO with video_mem. rewrite C3 by done. by apply Hpage.
  - rewrite (modifies_out _ _ _ _ _ M3); [by apply Hpage|].
    unfold video_mem, KB4, term_1_mem, VIDEO in *. apply video_outside; try done; unfold VIDEO; lia.
Qed.

(** The bytes of the video pages do not depend on the window. *)
Lemma mem_get_video s t va :
  table_linked -> tables_ok (pgs s) -> tables_ok (pgs t) -> mem (mach s) = mem (mach t) ->
  VIDEO <= va < VIDEO + 0x4000 -> mem_get s va = mem_get t va.
Proof.
  intros Hl Hs Ht Hm Hva. unfold mem_get. by rewrite !cell_video, Hm.
Qed.

Lemma terminal_switch_spec s new E :
  table_linked -> video_ready s -> 0 <= current_terminal (ttys s) < 3 -> 0 <= new < 3 ->
  0 <= curr_scheduler (ttys s) < 3 -> length (terminal (ttys s)) = 3%nat ->
  wp (terminal_switch new) (fun r t => r = 0 /\ video_ready t /\
    ttys t = Tty (terminal (ttys s)) new (curr_scheduler (ttys s)) /\
    kb t = kb s /\ prc t = prc s /\ fsg t = fsg s /\ tss t = tss s /\
    page_directory (pgs t) = page_directory (pgs s) /\
    aget (page_table_video (pgs t)) 0 = Some (window_page t + 7) /\
    forall k i, 0 <= k < 3 -> 0 <= i < KB4 -> text_at t k i = text_at s k i) E s.
Proof.
  intros Hl Hv Hcur Hnew Hcs Hlen. unfold terminal_switch. wp_step.
  eapply wp_mono; [by apply swap_vid_mem_spec| |done]. intros ? s1 (V1 & H1 & T1).
  assert (Htt : ttys s1 = ttys s) by (by rewrite H1).
  wp_step. unfold swap_kb_cursor, change_terminal_cursor.
  destruct (aget_total (terminal (ttys s)) new) as [T HT]; [lia|].
  do 2 wp_step. eapply wp_of_Ret; [apply (get_term_eq _ _ T); by rewrite Htt|].
  destruct (write_cursor_eq (term_pos T) s1) as (es & Hrun & _). wp_step. wp_use Hrun.
  do 3 wp_step. wp_step. rewrite u8_small by lia.
  assert (Hlog : forall P : kernel -> Prop, (forall e u, P u -> P (log_io e u)) -> P s1 ->
    P (log_all es s1)) by (intros P HP H0; clear -HP H0; by induction es; [|apply HP]).
  set (s2 := set_current_terminal new (log_all es s1)).
  assert (F2 : pgs s2 = pgs s1 /\ mem (mach s2) = mem (mach s1) /\ kb s2 = kb s1 /\ prc s2 = prc s1 /\
    fsg s2 = fsg s1 /\ tss s2 = tss s1 /\
    ttys s2 = Tty (terminal (ttys s1)) new (curr_scheduler (ttys s1))).
  { apply (Hlog (fun u => pgs (set_current_terminal new u) = pgs s1 /\
      mem (mach (set_current_terminal new u)) = mem (mach s1) /\
      kb (set_current_terminal new u) = kb s1 /\ prc (set_current_terminal new u) = prc s1 /\
      fsg (set_current_terminal new u) = fsg s1 /\ tss (set_current_terminal new u) = tss s1 /\
      ttys (set_current_terminal new u) = Tty (terminal (ttys s1)) new (curr_scheduler (ttys s1))));
      done. }
  destruct F2 as (Fp & Fm & Fk & Fr & Ff & Fs & Ft). rewrite Htt in Ft.
  wp_step. eapply wp_mono; [apply map_window_spec; [rewrite Fp; apply V1|by rewrite Ft]| |done].
  intros ? s3 (O3 & E3 & W3 & D3 & _). wp_step. apply wp_ret. apply wp_ret.
  assert (F3 : mem (mach s3) = mem (mach s1)) by (by rewrite E3, <- Fm).
  assert (V3 : forall va, VIDEO <= va < VIDEO + 0x4000 -> mem_get s3 va = mem_get s1 va).
  { intros va Hva. apply mem_get_video; [done|done|apply V1|done|done]. }
  assert (E3t : ttys s3 = ttys s2) by (by rewrite E3).
  split_and!.
  - done.
  - split; [done|]. intros i Hi. rewrite V3 by lia. by apply V1.
  - by rewrite E3t, Ft.
  - rewrite E3. change (kb (on_pgs (fun _ => pgs s3) s2)) with (kb s2). by rewrite Fk, H1.
  - rewrite E3. change (prc (on_pgs (fun _ => pgs s3) s2)) with (prc s2). by rewrite Fr, H1.
  - rewrite E3. change (fsg (on_pgs (fun _ => pgs s3) s2)) with (fsg s2). by rewrite Ff, H1.
  - rewrite E3. change (tss (on_pgs (fun _ => pgs s3) s2)) with (tss s2). by rewrite Fs, H1.
  - by rewrite D3, Fp, H1.
  - unfold window_page in *. by rewrite E3t.
  - intros k i Hk Hi. rewrite <- T1 by done. unfold text_at, text_page. rewrite E3t, Ft.
    cbn [current_terminal]. apply V3. unfold term_1_mem, VIDEO, KB4 in *.
    destruct (Z.eqb_spec k new); lia.
Qed.

(** [terminal_read] after the wait: the flag is set, the interrupts run, the
    line is copied. *)
Lemma terminal_read_spec (I : kernel -> Prop) s fd buf n w pre h post s0 E
    (Q : Z -> kernel -> Prop) :
  buf <> 0 -> 0 <= n < 2 ^ 31 ->
  (let* t := gets ttys in set_readFlag (curr_scheduler t) LOCK) s = Ret tt s0 -> I s0 ->
  (forall t, I t -> line_pending t = true) ->
  Forall (fun m => forall t, I t -> wp m (fun _ => I) E t) pre ->
  (forall t, I t -> wp h (fun _ t' => line_pending t' = false /\ line_ready t' w /\
     region t' buf n /\
     Q (Z.of_nat (length (delivered w n))) (put_bytes buf (delivered w n) t')) E t) ->
  wp (terminal_read (pre ++ h :: post) fd buf n) Q E s.
Proof.
  intros Hbuf Hn Hset H0 Hpend Hpre Hh. unfold terminal_read, NULL.
  apply (wp_of_Ret _ (fun _ t => wp (if (buf =? 0) || (n <? 0) then ret FAILURE
    else spin line_pending (pre ++ h :: post) ;; read_line buf n) Q E t) E) in Hset.
  2:{ rewrite (proj2 (Z.eqb_neq buf 0)), (proj2 (Z.ltb_ge n 0)) by lia. cbn [orb]. wp_step.
      apply (wp_spin I); [done|done|done|]. intros t Ht.
      eapply wp_mono; [by apply Hh| |done]. intros ? t' (Hp & Hr & Hreg & HQ).
      split; [done|]. eapply wp_mono; [by apply read_line_spec| |done].
      intros r u [-> ->]. done. }
  apply wp_bind_inv in Hset. wp_step. eapply wp_mono; [exact Hset| |done].
  intros t t' Ht. wp_step. exact Ht.
Qed.

(** ** Properties *)

(** C24: switching terminals.  Wherever the text of a terminal is - in video
    memory for the one on screen, in its own page for the others - a switch
    keeps it, byte for byte, for all three terminals; the new terminal is on
    screen, the user window follows the running terminal, and no process, file
    system or keyboard state changes. *)
Theorem terminal_switch_keeps_text s new :
  table_linked -> video_ready s -> 0 <= current_terminal (ttys s) < 3 -> 0 <= new < 3 ->
  0 <= curr_scheduler (ttys s) < 3 -> length (terminal (ttys s)) = 3%nat ->
  exists t, terminal_switch new s = Ret 0 t /\ current_terminal (ttys t) = new /\
    (forall k i, 0 <= k < 3 -> 0 <= i < KB4 -> text_at t k i = text_at s k i) /\
    (forall i, 0 <= i < KB4 -> mem_get t (VIDEO + i) = text_at s new i) /\
    aget (page_table_video (pgs t)) 0 = Some (window_page t + 7) /\ tables_ok (pgs t) /\
    prc t = prc s /\ kb t = kb s /\ fsg t = fsg s.
Proof.
  intros Hl Hv Hcur Hnew Hcs Hlen.
  pose proof (terminal_switch_spec s new (fun _ _ => False) Hl Hv Hcur Hnew Hcs Hlen) as Hw.
  apply wp_Ret in Hw as (r & t & Hrun & -> & [Hok _] & Ht & Hk & Hp & Hf & _ & _ & Hwin & Htext).
  exists t. split_and!; try done; [by rewrite Ht|].
  intros i Hi. rewrite <- (Htext new i) by done. unfold text_at, text_page. rewrite Ht.
  cbn [current_terminal]. by rewrite Z.eqb_refl.
Qed.

(** C34: reading a line.  [terminal_read] sleeps through every interrupt that
    leaves the line incomplete and returns at the first one that completes it,
    with the line and its newline, or as much of it as fits before a newline
    forced into the last byte of the buffer; it returns the number of bytes
    stored.  A NULL buffer or a negative size is refused. *)
Theorem terminal_read_delivers (I : kernel -> Prop) s fd buf n w pre h post s0 :
  buf <> 0 -> 0 <= n < 2 ^ 31 ->
  (let* t := gets ttys in set_readFlag (curr_scheduler t) LOCK) s = Ret tt s0 -> I s0 ->
  (forall t, I t -> line_pending t = true) ->
  Forall (fun m => forall t, I t -> wp m (fun _ => I) (fun _ _ => False) t) pre ->
  (forall t, I t -> wp h (fun _ t' => line_pending t' = false /\ line_ready t' w /\
     region t' buf n) (fun _ _ => False) t) ->
  (exists t, terminal_read (pre ++ h :: post) fd buf n s = Ret (Z.min n (Z.of_nat (length w) + 1)) t /\
    bytes_at t buf (delivered w n)) /\
  (forall irqs m, m < 0 -> terminal_read irqs fd buf m s = Ret FAILURE s0) /\
  (forall irqs m, terminal_read irqs fd 0 m s = Ret FAILURE s0).
Proof.
  intros Hbuf Hn Hset H0 Hpend Hpre Hh. split; [|split].
  - assert (Hw : wp (terminal_read (pre ++ h :: post) fd buf n) (fun r t =>
      r = Z.min n (Z.of_nat (length w) + 1) /\ bytes_at t buf (delivered w n)) (fun _ _ => False) s).
    { eapply terminal_read_spec; try done. intros t Ht. eapply wp_mono; [by apply Hh| |done].
      intros ? t' (Hp & Hr & Hreg). pose proof (delivered_length w n ltac:(lia)) as Hlen.
      split_and!; try done. apply bytes_at_put_bytes. rewrite Hlen.
      rewrite <- (Z.add_0_r buf). eapply region_mono; [exact Hreg|lia|lia]. }
    apply wp_Ret in Hw as (r & t & Hrun & -> & Hb). by exists t.
  - intros irqs m Hm. unfold terminal_read. unfold bind at 1, gets at 1. unfold bind in Hset |- *.
    unfold gets in Hset. rewrite Hset. by rewrite (proj2 (Z.ltb_lt m 0)), orb_true_r.
  - intros irqs m. unfold terminal_read. unfold bind at 1, gets at 1. unfold bind in Hset |- *.
    unfold gets in Hset. by rewrite Hset.
Qed.

(** Writing to the terminal.  [terminal_write] shows the bytes of the
    buffer, NUL bytes included, on the running terminal one after the other and
    returns their number; a NULL buffer or a negative size writes nothing. *)
Theorem terminal_write_refines s fd buf w v :
  running_shows s v -> bytes_at s buf w -> bytes w -> buf <> 0 ->
  Z.of_nat (length w) < 2 ^ 31 -> unaliased s (Addr buf) w (page_of s) 4000 ->
  (exists t, terminal_write fd buf (Z.of_nat (length w)) s = Ret (Z.of_nat (length w)) t /\
     running_shows t (put_text w v) /\ only_running_screen s t) /\
  (forall n, n < 0 -> terminal_write fd buf n s = Ret FAILURE s) /\
  (forall n, terminal_write fd 0 n s = Ret FAILURE s).
Proof.
  intros Hs Hat Hb Hbuf Hlen Hu. split; [|split].
  - pose proof (terminal_write_spec s fd buf w v (fun _ _ => False) Hs Hat Hb Hbuf Hlen Hu) as Hw.
    apply wp_Ret in Hw as (n & t & Hrun & -> & ? & ?). by exists t.
  - intros n Hn. unfold terminal_write. by rewrite (proj2 (Z.ltb_lt n 0)), orb_true_r.
  - intros n. done.
Qed.

End terminal_lemmas.

(** * Closed examples *)

Definition demo_text (a : Z) : Z := a mod 251.

(** Process 0 on the first of three terminals, the four pages full of text. *)
Definition demo_terminals : kernel :=
  set_terminal (replicate 3 zero_term)
    (on_pgs (fun _ => demo_tables) (set_mem (ram_of demo_text VIDEO 0x4000) initial_kernel)).

Lemma demo_video_ready : let H := quiet_env in video_ready demo_terminals.
Proof.
  intros H. split; [apply demo_tables_ok|]. intros i Hi. exists (demo_text (VIDEO + i)). split.
  - unfold mem_get.
    rewrite (cell_video demo_terminals) by (apply demo_table_linked || apply demo_tables_ok || lia).
    change (mem (mach demo_terminals)) with (ram_of demo_text VIDEO 0x4000).
    apply ram_of_lookup. lia.
  - unfold demo_text. pose proof (Z.mod_pos_bound (VIDEO + i) 251 ltac:(lia)). lia.
Qed.

Lemma terminal_switch_keeps_text_witness :
  let H := quiet_env in
  exists t, terminal_switch 2 demo_terminals = Ret 0 t /\ current_terminal (ttys t) = 2 /\
    text_at t 0 7 = text_at demo_terminals 0 7.
Proof.
  intros H. destruct (terminal_switch_keeps_text demo_terminals 2) as (t & Hrun & Hc & Ht & _).
  - apply demo_table_linked.
  - apply demo_video_ready.
  - simpl. lia.
  - lia.
  - simpl. lia.
  - reflexivity.
  - exists t. split; [exact Hrun|]. split; [exact Hc|]. apply Ht; unfold KB4; lia.
Defined.

(** An interrupt that completes the line [ok]. *)
Definition demo_enter : K unit :=
  modify (on_kb (fun k => Kbd (shift k) (capslock k) (capsChecker k) (control k) (left_alt k)
    (keybufferCount k) (cursor k) (replicate 3 ([111; 107; 10] ++ replicate 125 0)) (replicate 3 UNLOCK))).

Definition demo_buffer : kernel := set_mem (ram 0x20000 16) initial_kernel.

Lemma terminal_read_delivers_witness :
  let H := quiet_env in
  exists t, terminal_read ([] ++ demo_enter :: []) 0 0x20000 16 demo_buffer = Ret 3 t /\
    bytes_at t 0x20000 [111; 107; 10].
Proof.
  intros H.
  set (s0 := on_kb (fun k => Kbd 0 0 0 0 0 (keybufferCount k) (cursor k) (keyBuf k) [1; 0; 0]) demo_buffer).
  destruct (terminal_read_delivers (fun t => t = s0) demo_buffer 0 0x20000 16 [111; 107] []
    demo_enter [] s0) as [Hok _].
  - done.
  - lia.
  - reflexivity.
  - done.
  - intros t ->. reflexivity.
  - constructor.
  - intros t ->. split; [reflexivity|]. split.
    + eexists. split; [reflexivity|]. split; [|split; [by eexists|by repeat constructor]].
      by repeat constructor.
    + apply (region_ram _ (fun _ => 0) 0x20000 16); [done|reflexivity|lia|lia|lia].
  - exact Hok.
Defined.

Lemma terminal_write_refines_witness :
  let H := quiet_env in
  exists t, terminal_write 1 0xB9000 2 demo_kernel = Ret 2 t /\
    running_shows t (put_text [0; 0] demo_screen).
Proof.
  intros H. destruct (terminal_write_refines demo_kernel 1 0xB9000 [0; 0] demo_screen) as [Hok _].
  - apply demo_shows.
  - apply (bytes_at_ram demo_kernel (fun _ => 0) video_mem 0x2000); done.
  - by repeat constructor.
  - done.
  - done.
  - intros i Hi. simpl in Hi. apply outside_unpaged; [done|done|lia|].
    right. change (page_of demo_kernel) with 0xB8000. lia.
  - destruct Hok as (t & Hrun & Hs & _). exists t. split; [exact Hrun|exact Hs].
Defined.
