(* ===== verification/Descriptors.v ===== *)
(** File descriptors: the operation tables of [pcb.h] and the system calls
    [read], [write], [open] and [close] of [src/student-distrib/system_call.c],
    which dispatch on them. *)
From stdpp Require Import base numbers list gmap strings.
From Stdlib Require Import ZArith Lia.
From S2P Require Import Prelude Machine Strings Rtc Console FileSys Terminal.

Definition END_OF_FDA : Z := 7.
Definition BEGINING_FDA : Z := 2.
Definition RTC_TYPE : Z := 0.
Definition DIR_TYPE : Z := 1.
Definition FILE_TYPE : Z := 2.

Section descriptors.
Context `{Env}.

Definition set_stdin_fops (f : fops) : kernel -> kernel := on_prc (fun p =>
  Procs (pid p) (global_halt p) (global_status p) (process_counter p)
    f (stdout_fops p) (rtc_fops p) (dir_fops p) (file_fops p) (pcbs p)).
Definition set_stdout_fops (f : fops) : kernel -> kernel := on_prc (fun p =>
  Procs (pid p) (global_halt p) (global_status p) (process_counter p)
    (stdin_fops p) f (rtc_fops p) (dir_fops p) (file_fops p) (pcbs p)).
Definition set_rtc_fops (f : fops) : kernel -> kernel := on_prc (fun p =>
  Procs (pid p) (global_halt p) (global_status p) (process_counter p)
    (stdin_fops p) (stdout_fops p) f (dir_fops p) (file_fops p) (pcbs p)).
Definition set_dir_fops (f : fops) : kernel -> kernel := on_prc (fun p =>
  Procs (pid p) (global_halt p) (global_status p) (process_counter p)
    (stdin_fops p) (stdout_fops p) (rtc_fops p) f (file_fops p) (pcbs p)).
Definition set_file_fops (f : fops) : kernel -> kernel := on_prc (fun p =>
  Procs (pid p) (global_halt p) (global_status p) (process_counter p)
    (stdin_fops p) (stdout_fops p) (rtc_fops p) (dir_fops p) f (pcbs p)).
Definition set_pcbs (m : gmap Z pcb) : kernel -> kernel := on_prc (fun p =>
  Procs (pid p) (global_halt p) (global_status p) (process_counter p)
    (stdin_fops p) (stdout_fops p) (rtc_fops p) (dir_fops p) (file_fops p) m).

Definition init_fops_table : K unit :=
  modify (set_stdin_fops (Fops fn_terminal_open fn_terminal_close fn_terminal_read fn_invalid_write_op)) ;;
  modify (set_stdout_fops (Fops fn_terminal_open fn_terminal_close fn_invalid_read_op fn_terminal_write)) ;;
  modify (set_rtc_fops (Fops fn_rtc_open fn_rtc_close fn_rtc_read fn_rtc_write)) ;;
  modify (set_dir_fops (Fops fn_dir_open fn_dir_close fn_dir_read fn_dir_write)) ;;
  modify (set_file_fops (Fops fn_file_open fn_file_close fn_file_read fn_file_write)).

(** Calls through the pointers of a table; a pointer no table holds in that
    field is not a function of that type. *)
Definition call_open (f : fn) (filename : cptr) : K Z :=
  match f with
  | fn_terminal_open => terminal_open filename
  | fn_rtc_open => rtc_open filename
  | fn_dir_open => dir_open filename
  | fn_file_open => file_open filename
  | _ => fault 0
  end.

Definition call_close (f : fn) (fd : Z) : K Z :=
  match f with
  | fn_terminal_close => terminal_close fd
  | fn_rtc_close => rtc_close fd
  | fn_dir_close => dir_close fd
  | fn_file_close => file_close fd
  | _ => fault 0
  end.

(** [irqs] are the interrupts served while the call waits. *)
Definition call_read (irqs : list (K unit)) (f : fn) (fd buf nbytes : Z) : K Z :=
  match f with
  | fn_terminal_read => terminal_read irqs fd buf nbytes
  | fn_rtc_read => rtc_read irqs fd buf nbytes
  | fn_dir_read => dir_read fd buf nbytes
  | fn_file_read => file_read fd buf nbytes
  | fn_invalid_read_op => invalid_read_op fd buf nbytes
  | _ => fault 0
  end.

Definition call_write (f : fn) (fd buf nbytes : Z) : K Z :=
  match f with
  | fn_terminal_write => terminal_write fd buf nbytes
  | fn_rtc_write => rtc_write fd buf nbytes
  | fn_dir_write => dir_write fd buf nbytes
  | fn_file_write => file_write fd buf nbytes
  | fn_invalid_write_op => invalid_write_op fd buf nbytes
  | _ => fault 0
  end.

Definition set_file_descriptor (l : list file_array) (p : pcb) : pcb :=
  Pcb (pcb_pid p) (parent_pid p) (halt_ebp p) (halt_esp p) (ebp_val p) (esp_val p)
    (argument p) l (parent_pcb p).

(** [*terminal[curr_scheduler].pcb = f (...)] *)
Definition update_running_pcb (f : pcb -> pcb) : K unit :=
  let* t := gets ttys in
  let* T := get_term (curr_scheduler t) in
  let* p := running_pcb in
  let* s := gets prc in
  modify (set_pcbs (<[term_pcb T := f p]> (pcbs s))).

(** An assignment to [terminal[curr_scheduler].pcb->file_descriptor[fd]]. *)
Definition update_fd (fd : Z) (f : file_array -> file_array) : K unit :=
  let* p := running_pcb in
  let* d := get_or_fault fd (aget (file_descriptor p) fd) in
  let* l := get_or_fault fd (aset (file_descriptor p) fd (f d)) in
  update_running_pcb (set_file_descriptor l).

Definition set_pointer_ (v : fops) (d : file_array) := FileArray v (inode_ d) (file_position_ d) (flags_ d).
Definition set_inode_ (v : Z) (d : file_array) := FileArray (pointer_ d) v (file_position_ d) (flags_ d).
Definition set_file_position_ (v : Z) (d : file_array) := FileArray (pointer_ d) (inode_ d) (u32 v) (flags_ d).
Definition set_flags_ (v : Z) (d : file_array) := FileArray (pointer_ d) (inode_ d) (file_position_ d) v.

(** The checks [read] and [write] share; true when the call is refused. *)
Definition bad_descriptor (fd buf nbytes : Z) : K bool :=
  if nbytes <? 0 then ret true else
  if (fd <? 0) || (END_OF_FDA <? fd) then ret true else
  if buf =? NULL then ret true else
  let* d := running_fd fd in
  ret (flags_ d =? 0).

(** [num_read] is unsigned: a failed read adds 2^32 - 1 to the position. *)
Definition read (irqs : list (K unit)) (fd buf nbytes : Z) : K Z :=
  let* bad := bad_descriptor fd buf nbytes in
  if bad then ret FAILURE else
  let* d := running_fd fd in
  let* num_read := call_read irqs (read_ (pointer_ d)) fd buf nbytes in
  update_fd fd (fun d => set_file_position_ (file_position_ d + u32 num_read) d) ;;
  ret (s32 num_read).

Definition write (fd buf nbytes : Z) : K Z :=
  let* bad := bad_descriptor fd buf nbytes in
  if bad then ret FAILURE else
  let* d := running_fd fd in
  call_write (write_ (pointer_ d)) fd buf nbytes.

(** The first closed descriptor from [BEGINING_FDA] on, or -1. *)
Definition find_fd : K Z :=
  loop (fun i =>
    if negb (i <=? END_OF_FDA) then ret (inr (-1)) else
    let* d := running_fd i in
    if flags_ d =? 0 then ret (inr i) else ret (inl (i + 1))) BEGINING_FDA.

(** The case of [open]'s [switch] for the table [f] and the inode [inode]. *)
Definition open_as (f : fops) (inode fd : Z) (filename : cptr) : K Z :=
  update_fd fd (set_pointer_ f) ;;
  update_fd fd (set_inode_ inode) ;;
  update_fd fd (set_file_position_ 0) ;;
  update_fd fd (set_flags_ 1) ;;
  let* d := running_fd fd in
  call_open (open_ (pointer_ d)) filename ;;
  ret fd.

Definition open (filename : cptr) : K Z :=
  if is_null filename then ret FAILURE else
  let* c := cload filename 0 in
  if c =? NULL then ret FAILURE else
  let* '(r, temp_dentry) := read_dentry_by_name filename [] in
  if negb (r =? 0) then ret FAILURE else
  let* fd := find_fd in
  if fd =? -1 then ret FAILURE else
  let* p := gets prc in
  if file_type_ temp_dentry =? RTC_TYPE then open_as (rtc_fops p) NULL fd filename
  else if file_type_ temp_dentry =? DIR_TYPE then open_as (dir_fops p) NULL fd filename
  else if file_type_ temp_dentry =? FILE_TYPE then
    open_as (file_fops p) (inode_num_ temp_dentry) fd filename
  else ret FAILURE.

Definition close (fd : Z) : K Z :=
  if (fd <? BEGINING_FDA) || (END_OF_FDA <? fd) then ret FAILURE else
  let* d := running_fd fd in
  if flags_ d =? 0 then ret FAILURE else
  update_fd fd (set_inode_ 0) ;;
  update_fd fd (set_file_position_ 0) ;;
  update_fd fd (set_flags_ 0) ;;
  let* d := running_fd fd in
  call_close (close_ (pointer_ d)) fd ;;
  ret SUCCESS.

End descriptors.

(** * Reasoning about the running process *)

(** The running terminal's process has control block [p] at [a]. *)
Definition running (s : kernel) (a : Z) (p : pcb) : Prop :=
  exists T, aget (terminal (ttys s)) (curr_scheduler (ttys s)) = Some T /\ term_pcb T = a /\
    pcbs (prc s) !! a = Some p.

Definition with_pcb (a : Z) (p : pcb) (s : kernel) : kernel :=
  set_pcbs (<[a := p]> (pcbs (prc s))) s.

Definition with_fd (a : Z) (p : pcb) (fd : Z) (d : file_array) (s : kernel) : kernel :=
  with_pcb a (set_file_descriptor (<[Z.to_nat fd := d]> (file_descriptor p)) p) s.

(** The first closed descriptor. *)
Definition first_closed (p : pcb) (fd : Z) : Prop :=
  2 <= fd <= 7 /\ (exists d, aget (file_descriptor p) fd = Some d /\ flags_ d = 0) /\
  forall i, 2 <= i < fd -> exists d, aget (file_descriptor p) i = Some d /\ flags_ d <> 0.

Definition all_open (p : pcb) : Prop :=
  forall i, 2 <= i <= 7 -> exists d, aget (file_descriptor p) i = Some d /\ flags_ d <> 0.

Section descriptor_lemmas.
Context `{Env}.

Lemma running_pcb_eq s a p : running s a p -> running_pcb s = Ret p s.
Proof.
  intros (T & HT & <- & Hp). unfold running_pcb, bind at 1, gets at 1. unfold bind.
  rewrite (get_term_eq _ _ _ HT). unfold gets, get_or_fault. by rewrite Hp.
Qed.

Lemma running_fd_eq s a p fd d :
  running s a p -> aget (file_descriptor p) fd = Some d -> running_fd fd s = Ret d s.
Proof.
  intros Hr Hd. unfold running_fd, bind. rewrite (running_pcb_eq _ _ _ Hr).
  unfold get_or_fault. by rewrite Hd.
Qed.

Lemma update_running_pcb_eq s a p f :
  running s a p -> update_running_pcb f s = Ret tt (with_pcb a (f p) s).
Proof.
  intros Hr. pose proof (running_pcb_eq _ _ _ Hr) as Hrun. destruct Hr as (T & HT & <- & Hp).
  unfold update_running_pcb, bind, gets, modify. by rewrite (get_term_eq _ _ _ HT), Hrun.
Qed.

Lemma running_with_pcb s a p p' : running s a p -> running (with_pcb a p' s) a p'.
Proof.
  intros (T & HT & Ha & _). exists T. split; [done|]. split; [done|]. apply lookup_insert_eq.
Qed.

Lemma with_pcb_twice a p p' s : with_pcb a p (with_pcb a p' s) = with_pcb a p s.
Proof. unfold with_pcb, set_pcbs, on_prc. simpl. by rewrite insert_insert_eq. Qed.

Lemma update_fd_eq s a p fd d f :
  running s a p -> aget (file_descriptor p) fd = Some d ->
  update_fd fd f s = Ret tt (with_fd a p fd (f d) s).
Proof.
  intros Hr Hd. unfold update_fd, bind. rewrite (running_pcb_eq _ _ _ Hr).
  unfold get_or_fault at 1. rewrite Hd. unfold ret at 1.
  assert (Hs : aset (file_descriptor p) fd (f d) = Some (<[Z.to_nat fd := f d]> (file_descriptor p))).
  { unfold aget in Hd. unfold aset. by destruct ((0 <=? fd) && _). }
  unfold get_or_fault. rewrite Hs. unfold ret. by apply update_running_pcb_eq.
Qed.

Lemma running_with_fd s a p fd d :
  running s a p ->
  running (with_fd a p fd d s) a (set_file_descriptor (<[Z.to_nat fd := d]> (file_descriptor p)) p).
Proof. apply running_with_pcb. Qed.

(** A second assignment to the same descriptor. *)
Lemma update_fd_again s a p fd d0 d f :
  running s a p -> aget (file_descriptor p) fd = Some d0 ->
  update_fd fd f (with_fd a p fd d s) = Ret tt (with_fd a p fd (f d) s).
Proof.
  intros Hr Hd. rewrite (update_fd_eq _ a _ fd d f (running_with_fd s a p fd d Hr)).
  - unfold with_fd. rewrite with_pcb_twice. f_equal. f_equal.
    unfold set_file_descriptor. cbn. by rewrite list_insert_insert_eq.
  - cbn. by eapply aget_insert.
Qed.

Lemma running_fd_again s a p fd d0 d :
  running s a p -> aget (file_descriptor p) fd = Some d0 ->
  running_fd fd (with_fd a p fd d s) = Ret d (with_fd a p fd d s).
Proof.
  intros Hr Hd. eapply running_fd_eq; [by apply running_with_fd|]. cbn. by eapply aget_insert.
Qed.

Lemma find_fd_spec s a p E :
  running s a p ->
  (forall fd, first_closed p fd -> wp find_fd (fun r t => r = fd /\ t = s) E s) /\
  (all_open p -> wp find_fd (fun r t => r = -1 /\ t = s) E s).
Proof.
  intros Hr. unfold find_fd, BEGINING_FDA, END_OF_FDA. split.
  - intros fd (Hfd & (d & Hd & Hd0) & Hbefore).
    apply wp_loop with (I := fun i t => t = s /\ 2 <= i <= fd) (mu := fun i _ => fd - i);
      [solve_inv|unfold loop_fuel; lia|].
    intros i t [-> Hi]. split; [lia|]. rewrite (proj2 (Z.leb_le i 7)) by lia. cbn [negb]. wp_step.
    destruct (decide (i = fd)) as [->|Hne].
    + wp_use (running_fd_eq _ _ _ _ _ Hr Hd). rewrite Hd0. by apply wp_ret.
    + destruct (Hbefore i) as (d' & Hd' & Hn); [lia|].
      wp_use (running_fd_eq _ _ _ _ _ Hr Hd'). rewrite (proj2 (Z.eqb_neq _ 0)) by done.
      apply wp_ret. solve_inv.
  - intros Hall.
    apply wp_loop with (I := fun i t => t = s /\ 2 <= i <= 8) (mu := fun i _ => 8 - i);
      [solve_inv|unfold loop_fuel; lia|].
    intros i t [-> Hi]. split; [lia|]. destruct (Z.leb_spec i 7); cbn [negb].
    + wp_step. destruct (Hall i) as (d' & Hd' & Hn); [lia|].
      wp_use (running_fd_eq _ _ _ _ _ Hr Hd'). rewrite (proj2 (Z.eqb_neq _ 0)) by done.
      apply wp_ret. solve_inv.
    + by apply wp_ret.
Qed.

Lemma open_as_eq s a p fd d0 f ino filename r t :
  running s a p -> aget (file_descriptor p) fd = Some d0 ->
  call_open (open_ f) filename (with_fd a p fd (FileArray f ino 0 1) s) = Ret r t ->
  open_as f ino fd filename s = Ret fd t.
Proof.
  intros Hr Hd Hcall. unfold open_as. apply Ret_of_wp.
  wp_step. wp_use (update_fd_eq s a p fd d0 (set_pointer_ f) Hr Hd).
  wp_step. wp_use (update_fd_again s a p fd d0 (set_pointer_ f d0) (set_inode_ ino) Hr Hd).
  wp_step. wp_use (update_fd_again s a p fd d0 (set_inode_ ino (set_pointer_ f d0)) (set_file_position_ 0) Hr Hd).
  wp_step. wp_use (update_fd_again s a p fd d0
    (set_file_position_ 0 (set_inode_ ino (set_pointer_ f d0))) (set_flags_ 1) Hr Hd).
  wp_step. eapply wp_of_Ret; [by eapply running_fd_again|].
  wp_step. wp_use Hcall. by apply wp_ret.
Qed.

Lemma close_eq s a p fd d :
  running s a p -> 2 <= fd <= 7 -> aget (file_descriptor p) fd = Some d -> flags_ d <> 0 ->
  close_ (pointer_ d) ∈ [fn_terminal_close; fn_rtc_close; fn_dir_close; fn_file_close] ->
  close fd s = Ret SUCCESS (with_fd a p fd (FileArray (pointer_ d) 0 0 0) s).
Proof.
  intros Hr Hfd Hd Hf Hc. unfold close, BEGINING_FDA, END_OF_FDA.
  rewrite (proj2 (Z.ltb_ge fd 2)), (proj2 (Z.ltb_ge 7 fd)) by lia. cbn [orb]. apply Ret_of_wp.
  wp_step. wp_use (running_fd_eq s a p fd d Hr Hd). rewrite (proj2 (Z.eqb_neq _ 0)) by done.
  wp_step. wp_use (update_fd_eq s a p fd d (set_inode_ 0) Hr Hd).
  wp_step. wp_use (update_fd_again s a p fd d (set_inode_ 0 d) (set_file_position_ 0) Hr Hd).
  wp_step. wp_use (update_fd_again s a p fd d
    (set_file_position_ 0 (set_inode_ 0 d)) (set_flags_ 0) Hr Hd).
  wp_step. eapply wp_of_Ret; [by eapply running_fd_again|].
  cbn [pointer_ set_flags_ set_file_position_ set_inode_]. wp_step.
  eapply (wp_of_Ret _ _ _ 0); [|by apply wp_ret].
  repeat (apply elem_of_cons in Hc as [->|Hc]; [done|]). by apply elem_of_nil in Hc.
Qed.

Lemma bad_descriptor_eq s a p fd buf n :
  running s a p -> length (file_descriptor p) = 8%nat ->
  exists b, bad_descriptor fd buf n s = Ret b s /\
    (b = true <-> n < 0 \/ fd < 0 \/ 7 < fd \/ buf = 0 \/
       exists d, aget (file_descriptor p) fd = Some d /\ flags_ d = 0).
Proof.
  intros Hr Hl. unfold bad_descriptor, END_OF_FDA, NULL.
  destruct (Z.ltb_spec n 0); [exists true; split; [done|]; tauto|].
  destruct (Z.ltb_spec fd 0); [exists true; split; [done|]; tauto|].
  destruct (Z.ltb_spec 7 fd); [exists true; split; [done|]; tauto|]. cbn [orb].
  destruct (Z.eqb_spec buf 0); [exists true; split; [done|]; tauto|].
  destruct (aget_total (file_descriptor p) fd) as [d Hd]; [lia|].
  unfold bind. rewrite (running_fd_eq _ _ _ _ _ Hr Hd). eexists. split; [reflexivity|].
  rewrite Z.eqb_eq. split; [eauto 10|].
  intros [?|[?|[?|[?|(d' & Hd' & ?)]]]]; try lia. by simplify_eq.
Qed.

(** [read] and [write] on an open descriptor. *)
Lemma good_descriptor s a p fd buf n d :
  running s a p -> length (file_descriptor p) = 8%nat -> 0 <= n -> buf <> 0 ->
  aget (file_descriptor p) fd = Some d -> flags_ d <> 0 -> bad_descriptor fd buf n s = Ret false s.
Proof.
  intros Hr Hl Hn Hbuf Hd Hf. destruct (bad_descriptor_eq s a p fd buf n Hr Hl) as (b & Hb & Hbad).
  destruct b; [|done]. pose proof (aget_bound _ _ _ Hd).
  destruct Hbad as [Hbad _]. destruct (Hbad eq_refl) as [?|[?|[?|[?|(d' & Hd' & ?)]]]]; try lia; simplify_eq.
Qed.

Lemma write_open s a p fd buf n d :
  running s a p -> length (file_descriptor p) = 8%nat -> 0 <= n -> buf <> 0 ->
  aget (file_descriptor p) fd = Some d -> flags_ d <> 0 ->
  write fd buf n s = call_write (write_ (pointer_ d)) fd buf n s.
Proof.
  intros Hr Hl Hn Hbuf Hd Hf. unfold write, bind.
  by rewrite (good_descriptor s a p fd buf n d), (running_fd_eq _ _ _ _ _ Hr Hd).
Qed.

Lemma read_open s a p fd buf n d irqs v t d' p' :
  running s a p -> length (file_descriptor p) = 8%nat -> 0 <= n -> buf <> 0 ->
  aget (file_descriptor p) fd = Some d -> flags_ d <> 0 ->
  call_read irqs (read_ (pointer_ d)) fd buf n s = Ret v t ->
  running t a p' -> aget (file_descriptor p') fd = Some d' -> - 2 ^ 31 <= v < 2 ^ 31 ->
  read irqs fd buf n s = Ret v (with_fd a p' fd (set_file_position_ (file_position_ d' + v) d') t).
Proof.
  intros Hr Hl Hn Hbuf Hd Hf Hcall Hr' Hd' Hv. unfold read, bind.
  rewrite (good_descriptor s a p fd buf n d) by done. rewrite (running_fd_eq _ _ _ _ _ Hr Hd), Hcall.
  rewrite (update_fd_eq _ _ _ _ _ _ Hr' Hd'). rewrite s32_small by lia.
  assert (Hpos : set_file_position_ (file_position_ d' + u32 v) d' =
    set_file_position_ (file_position_ d' + v) d').
  { unfold set_file_position_, u32. by rewrite Zplus_mod_idemp_r. }
  by rewrite Hpos.
Qed.

(** [open] after the lookup: the name is no entry's, or the first closed
    descriptor gets the operations of the entry's type. *)
Lemma open_lookup s filename w r ds dot :
  reads s filename (w ++ 0 :: r) -> Forall (fun b => b <> 0) w -> bytes w ->
  is_null filename = false -> w <> [] ->
  unaliased s filename (w ++ 0 :: r) TEMP 33 -> directory s (boot_block_addr (fsg s)) ds dot ->
  exists t, modifies s TEMP 33 t /\ open filename s =
    match (if bool_decide (w = [46]) then Some dot else find_dentry w ds) with
    | None => Ret FAILURE t
    | Some d => (let* fd := find_fd in
        if fd =? -1 then ret FAILURE else
        let* p := gets prc in
        if file_type_ d =? RTC_TYPE then open_as (rtc_fops p) NULL fd filename
        else if file_type_ d =? DIR_TYPE then open_as (dir_fops p) NULL fd filename
        else if file_type_ d =? FILE_TYPE then open_as (file_fops p) (inode_num_ d) fd filename
        else ret FAILURE) t
    end.
Proof.
  intros Hread Hnz Hb Hnull Hne Hu Hdir. destruct w as [|c w]; [done|].
  assert (Hc : cload filename 0 s = Ret c s) by by apply (Hread 0%nat).
  assert (Hc0 : (c =? NULL) = false) by (inversion Hnz; by apply Z.eqb_neq).
  assert (Hw : wp (read_dentry_by_name filename []) (fun res t => modifies s TEMP 33 t /\
    res = if bool_decide (c :: w = [46]) then (SUCCESS, dot)
      else match find_dentry (c :: w) ds with Some d => (SUCCESS, d) | None => (FAILURE, []) end)
    (fun _ _ => False) s).
  { eapply read_dentry_by_name_spec; [exact Hread|done|done|done|exact Hdir|done]. }
  apply wp_Ret in Hw as (res & t & Hrun & Hm & Hres). exists t. split; [done|].
  unfold open. rewrite Hnull. unfold bind at 1. rewrite Hc, Hc0. unfold bind at 1. rewrite Hrun, Hres.
  destruct (bool_decide _); [done|]. by destruct (find_dentry _ ds).
Qed.

Lemma find_dentry_none w ds : Forall (fun d => dname d <> w) ds -> find_dentry w ds = None.
Proof.
  intros Hnone. destruct (find_dentry w ds) as [d|] eqn:Hd; [|done]. unfold find_dentry in Hd.
  apply find_some in Hd as [Hin Hd]. apply bool_decide_eq_true in Hd.
  rewrite Forall_forall in Hnone. exfalso. eapply Hnone; [|exact Hd]. by apply list_elem_of_In.
Qed.

(** The descriptor [open] takes. *)
Lemma open_free s a p fd d0 f ino filename (ops : procs -> fops) :
  running s a p -> first_closed p fd -> aget (file_descriptor p) fd = Some d0 ->
  ops (prc s) = f -> call_open (open_ f) filename (with_fd a p fd (FileArray f ino 0 1) s) =
    Ret 0 (with_fd a p fd (FileArray f ino 0 1) s) ->
  (let* fd := find_fd in
   if fd =? -1 then ret FAILURE else
   let* p := gets prc in open_as (ops p) ino fd filename) s =
    Ret fd (with_fd a p fd (FileArray f ino 0 1) s).
Proof.
  intros Hr Hfd Hd0 Hops Hcall. destruct (find_fd_spec s a p (fun _ _ => False) Hr) as [Hfree _].
  specialize (Hfree fd Hfd). apply wp_Ret in Hfree as (v & t' & Hf & -> & ->).
  unfold bind at 1. rewrite Hf, (proj2 (Z.eqb_neq fd (-1))) by (destruct Hfd; lia).
  unfold bind at 1, gets at 1. rewrite Hops. by eapply open_as_eq.
Qed.

Lemma open_full s a p (k : Z -> K Z) :
  running s a p -> all_open p ->
  (let* fd := find_fd in if fd =? -1 then ret FAILURE else k fd) s = Ret FAILURE s.
Proof.
  intros Hr Hall. destruct (find_fd_spec s a p (fun _ _ => False) Hr) as [_ Hfull].
  specialize (Hfull Hall). apply wp_Ret in Hfull as (v & t' & Hf & -> & ->).
  unfold bind. by rewrite Hf.
Qed.

(** ** Properties *)

(** Closing.  [close] of an open descriptor from 2 to 7 frees exactly that
    descriptor, keeping its operation table, and returns 0; standard input and
    output, numbers out of range and descriptors that are not open are refused
    without any change. *)
Theorem close_frees s a p fd :
  running s a p -> length (file_descriptor p) = 8%nat ->
  Forall (fun d => flags_ d <> 0 -> close_ (pointer_ d) ∈
    [fn_terminal_close; fn_rtc_close; fn_dir_close; fn_file_close]) (file_descriptor p) ->
  (fd < 2 \/ 7 < fd -> close fd s = Ret FAILURE s) /\
  (2 <= fd <= 7 -> exists d, aget (file_descriptor p) fd = Some d /\
     close fd s = if flags_ d =? 0 then Ret FAILURE s
                  else Ret SUCCESS (with_fd a p fd (FileArray (pointer_ d) 0 0 0) s)).
Proof.
  intros Hr Hl Hc. split.
  - intros Hfd. unfold close, BEGINING_FDA, END_OF_FDA.
    destruct Hfd; [by rewrite (proj2 (Z.ltb_lt fd 2))|by rewrite (proj2 (Z.ltb_lt 7 fd)), orb_true_r].
  - intros Hfd. destruct (aget_total (file_descriptor p) fd) as [d Hd]; [lia|].
    exists d. split; [done|]. destruct (Z.eqb_spec (flags_ d) 0) as [Hf|Hf].
    + unfold close, BEGINING_FDA, END_OF_FDA, bind.
      rewrite (proj2 (Z.ltb_ge fd 2)), (proj2 (Z.ltb_ge 7 fd)) by lia. cbn [orb].
      by rewrite (running_fd_eq _ _ _ _ _ Hr Hd), Hf.
    + eapply close_eq; try done. rewrite Forall_forall in Hc. apply Hc; [|done].
      unfold aget in Hd. destruct ((0 <=? fd) && _); [|done]. by eapply list_elem_of_lookup_2.
Qed.

(** Opening.  [open] of a regular file takes the first closed descriptor and
    starts it at position 0 of the file's inode; a directory gets the directory
    operations.  A NULL or empty name, a name no entry has and a full table are
    refused, leaving the descriptors alone. *)
Theorem open_allocates s a p filename w r ds dot :
  running s a p -> reads s filename (w ++ 0 :: r) -> Forall (fun b => b <> 0) w -> bytes w ->
  is_null filename = false -> w <> [46] ->
  unaliased s filename (w ++ 0 :: r) TEMP 33 -> directory s (boot_block_addr (fsg s)) ds dot ->
  file_fops (prc s) = Fops fn_file_open fn_file_close fn_file_read fn_file_write ->
  (w = [] -> open filename s = Ret FAILURE s) /\
  (w <> [] -> exists t, modifies s TEMP 33 t /\
    (Forall (fun d => dname d <> w) ds -> open filename s = Ret FAILURE t) /\
    (forall d, find_dentry w ds = Some d ->
      (all_open p -> open filename s = Ret FAILURE t) /\
      (forall fd, first_closed p fd -> file_type_ d = FILE_TYPE ->
         open filename s =
           Ret fd (with_fd a p fd (FileArray (file_fops (prc s)) (inode_num_ d) 0 1) t)))).
Proof.
  intros Hr Hread Hnz Hb Hnull Hdot Hu Hdir Hops. split.
  - intros ->. assert (Hc : cload filename 0 s = Ret 0 s) by by apply (Hread 0%nat).
    unfold open. rewrite Hnull. unfold bind. by rewrite Hc.
  - intros Hne. destruct (open_lookup s filename w r ds dot) as (t & Hm & Hopen); [done..|].
    rewrite bool_decide_eq_false_2 in Hopen by done. exists t. split; [done|].
    assert (Hrt : running t a p) by (destruct Hm as [-> _]; exact Hr).
    assert (Hprc : prc t = prc s) by by destruct Hm as [-> _].
    split; [intros Hnone; by rewrite find_dentry_none in Hopen|].
    intros d Hd. rewrite Hd in Hopen. rewrite Hopen. split.
    + by eapply open_full.
    + intros fd Hfd Hty. rewrite Hty. cbn [Z.eqb Pos.eqb RTC_TYPE DIR_TYPE FILE_TYPE].
      destruct (Hfd) as (_ & (d0 & Hd0 & _) & _).
      eapply (open_free t a p fd d0 _ _ filename file_fops); [done|done|done|by rewrite Hprc|].
      by rewrite Hops.
Qed.


End descriptor_lemmas.

(** * A closed example: process 0 on the image with the file [hi] *)

Definition stdin_table : fops := Fops fn_terminal_open fn_terminal_close fn_terminal_read fn_invalid_write_op.
Definition stdout_table : fops := Fops fn_terminal_open fn_terminal_close fn_invalid_read_op fn_terminal_write.
Definition file_table : fops := Fops fn_file_open fn_file_close fn_file_read fn_file_write.

Definition demo_pcb : pcb :=
  Pcb 0 (-1) 0 0 0 0 (replicate 128 0)
    (FileArray stdin_table 0 0 1 :: FileArray stdout_table 0 0 1 :: FileArray file_table 0 0 1
       :: replicate 5 (FileArray null_fops 0 0 0)) 0.

Definition demo_process : kernel :=
  set_pcbs {[ 0x7FE000 := demo_pcb ]}
    (set_terminal [Term 0x7FE000 0 0; zero_term; zero_term] (set_file_fops file_table demo_image)).

Lemma demo_running : running demo_process 0x7FE000 demo_pcb.
Proof. eexists. split; [reflexivity|]. split; [done|]. apply lookup_singleton_eq. Qed.

Lemma close_frees_witness :
  let H := quiet_env in
  exists d, aget (file_descriptor demo_pcb) 2 = Some d /\
    close 2 demo_process = if flags_ d =? 0 then Ret FAILURE demo_process
      else Ret SUCCESS (with_fd 0x7FE000 demo_pcb 2 (FileArray (pointer_ d) 0 0 0) demo_process).
Proof.
  intros H. destruct (close_frees demo_process 0x7FE000 demo_pcb 2) as [_ Hok].
  - apply demo_running.
  - reflexivity.
  - repeat constructor; simpl; try done; intros _; set_solver.
  - apply Hok. lia.
Defined.

Lemma open_allocates_witness :
  let H := quiet_env in
  exists t d, open (cstr "hi") demo_process =
    Ret 3 (with_fd 0x7FE000 demo_pcb 3 (FileArray file_table (inode_num_ d) 0 1) t) /\
    find_dentry [104; 105] demo_dents = Some d.
Proof.
  intros H.
  destruct (open_allocates demo_process 0x7FE000 demo_pcb (cstr "hi") [104; 105] [] demo_dents
    (demo_bytes 0x10040 64)) as [_ Hok].
  - apply demo_running.
  - apply reads_Lit.
  - by repeat constructor.
  - by repeat constructor.
  - reflexivity.
  - done.
  - done.
  - destruct demo_directory as [D1 D2 D3 D4 D5 D6].
    constructor; [exact D1|exact D2|exact D3|exact D4|exact D5|exact D6].
  - reflexivity.
  - destruct Hok as (t & _ & _ & Hfind); [done|].
    exists t, (demo_bytes 0x10080 64).
    assert (Hf : find_dentry [104; 105] demo_dents = Some (demo_bytes 0x10080 64)) by by vm_compute.
    split; [|exact Hf]. apply Hfind; [exact Hf| |by vm_compute].
    split; [lia|]. split; [by eexists|]. intros i Hi. assert (i = 2) as -> by lia. by eexists.
Defined.

