(* ===== verification/Process.v ===== *)
(** Processes, [src/student-distrib/system_call.c]: the command line, process
    numbers and control blocks, the system calls [execute] and [halt]; here their
    definitions and the lemmas of the command line and of the control block.
    [Execute] has what the two calls do. *)
From stdpp Require Import base numbers list gmap strings.
From Stdlib Require Import ZArith Lia.
From S2P Require Import Prelude Machine Strings Console Paging FileSys Terminal Descriptors.

Definition VACANT : Z := -1.
Definition OCCUPIED : Z := 1.
Definition MAGIC_1 : Z := 0x7F.
Definition MAGIC_2 : Z := 0x45.
Definition MAGIC_3 : Z := 0x4C.
Definition MAGIC_4 : Z := 0x46.
Definition magic_identifiers : list Z := [MAGIC_1; MAGIC_2; MAGIC_3; MAGIC_4].
Definition FOUR_BYTE : Z := 4.
Definition FIVE_BYTE : Z := 5.
Definition EIGHT_BYTE : Z := 8.
Definition ENTRY_INDEX : Z := 24.
Definition PROGRAM_IMG : Z := 0x08048000.
Definition MAX_FILE_LEN : Z := 32.
Definition MAX_PID : Z := 5.
Definition MAX_ARG_LEN : Z := 128.
Definition SPACE : Z := 32.
Definition EXCEPTION_256 : Z := 256.
Definition KERNEL_DS : Z := 0x18.

(** The automatic arrays of [execute] and [isExe]. *)
Definition FILENAME : Z := -1024.
Definition ARG : Z := -2048.
Definition ENTRY_POINT : Z := -3072.
Definition ISEXE_BUF : Z := -3584.

(** Where process [this_pid]'s control block is: at the bottom of its 8 KB
    kernel stack. *)
Definition pcb_addr (this_pid : Z) : Z := u32 (EIGHT_MB - EIGHT_KB * (this_pid + 1)).

(** The top of that stack, the [esp0] of the task state segment. *)
Definition kernel_stack (this_pid : Z) : Z := u32 (EIGHT_MB - this_pid * EIGHT_KB - FOUR_BYTE).

Section process.
Context `{Env}.

Definition set_pids (v : list Z) : kernel -> kernel := on_prc (fun p =>
  Procs v (global_halt p) (global_status p) (process_counter p)
    (stdin_fops p) (stdout_fops p) (rtc_fops p) (dir_fops p) (file_fops p) (pcbs p)).
Definition set_global_halt (v : Z) : kernel -> kernel := on_prc (fun p =>
  Procs (pid p) v (global_status p) (process_counter p)
    (stdin_fops p) (stdout_fops p) (rtc_fops p) (dir_fops p) (file_fops p) (pcbs p)).
Definition set_global_status (v : Z) : kernel -> kernel := on_prc (fun p =>
  Procs (pid p) (global_halt p) v (process_counter p)
    (stdin_fops p) (stdout_fops p) (rtc_fops p) (dir_fops p) (file_fops p) (pcbs p)).
Definition set_process_counter (v : Z) : kernel -> kernel := on_prc (fun p =>
  Procs (pid p) (global_halt p) (global_status p) (s32 v)
    (stdin_fops p) (stdout_fops p) (rtc_fops p) (dir_fops p) (file_fops p) (pcbs p)).

(** [pid[i] = v] *)
Definition set_pid (i v : Z) : K unit :=
  let* p := gets prc in
  let* l := get_or_fault i (aset (pid p) i v) in
  modify (set_pids l).

Definition set_tss (ss esp : Z) : K unit := modify (on_tss (fun _ => Tss ss esp)).
Definition set_esp0 (esp : Z) : K unit := modify (on_tss (fun t => Tss (ss0 t) esp)).

(** [parse] stops with [FAILURE] inside its loops, [None] here. *)
Definition skip_spaces (command : cptr) : Z -> K Z :=
  loop (fun i =>
    let* c := cload command i in
    if c =? SPACE then ret (inl (i + 1)) else ret (inr i)).

Definition parse_name (command : cptr) (filename : Z) : Z * Z -> K (option (Z * Z)) :=
  loop (fun '(i, length) =>
    let* c := cload command i in
    if negb (c =? SPACE) && negb (c =? NULL_TERM) then
      if length =? MAX_FILE_LEN then ret (inr None) else
      store8 (filename + length) c ;;
      ret (inl (i + 1, length + 1))
    else ret (inr (Some (i, length)))).

Definition parse_arg (command : cptr) (arg length : Z) : Z * Z -> K (option Z) :=
  loop (fun '(i, argLen) =>
    let* c := cload command i in
    if negb (c =? NULL_TERM) then
      if argLen =? MAX_ARG_LEN - length then ret (inr None) else
      store8 (arg + argLen) c ;;
      ret (inl (i + 1, argLen + 1))
    else ret (inr (Some argLen))).

Definition parse (command : cptr) (filename arg : Z) : K Z :=
  if is_null command then ret FAILURE else
  store8 (arg + 0) NULL_TERM ;;
  let* i := skip_spaces command 0 in
  let* r := parse_name command filename (i, 0) in
  match r with
  | None => ret FAILURE
  | Some (i, length) =>
    store8 (filename + length) NULL_TERM ;;
    let* c := cload command i in
    if c =? SPACE then
      let* i := skip_spaces command i in
      let* r := parse_arg command arg length (i, 0) in
      match r with
      | None => ret FAILURE
      | Some argLen =>
        store8 (arg + argLen) NULL_TERM ;;
        ret SUCCESS
      end
    else ret SUCCESS
  end.

Definition find_pid : K Z :=
  loop (fun i =>
    if negb (i <=? MAX_PID) then ret (inr FAILURE) else
    let* p := gets prc in
    let* v := get_or_fault i (aget (pid p) i) in
    if v =? VACANT then ret (inr i) else ret (inl (i + 1))) 0.

Definition isExe (filename : cptr) : K Z :=
  if is_null filename then ret FAILURE else
  let* '(r, temp) := read_dentry_by_name filename [] in
  if r =? FAILURE then ret FAILURE else
  alloc_local ISEXE_BUF 8 ;;
  read_data (inode_num_ temp) 0 ISEXE_BUF FOUR_BYTE ;;
  let* r := strncmp (Addr ISEXE_BUF) (Lit magic_identifiers) FOUR_BYTE in
  if negb (r =? 0) then ret FAILURE else ret SUCCESS.

(** A control block in memory no process has used yet: only its words matter,
    none of its operation pointers is a function. *)
Definition raw_word (a : Z) : Z :=
  u8 (garbage a) + u8 (garbage (a + 1)) * 2 ^ 8 + u8 (garbage (a + 2)) * 2 ^ 16 + u8 (garbage (a + 3)) * 2 ^ 24.

Definition raw_fd (a : Z) : file_array :=
  FileArray null_fops (raw_word (a + 16)) (raw_word (a + 20)) (raw_word (a + 24)).

Definition raw_pcb (a : Z) : pcb :=
  Pcb (s32 (raw_word a)) (s32 (raw_word (a + 4))) (raw_word (a + 8)) (raw_word (a + 12))
    (raw_word (a + 16)) (raw_word (a + 20)) []
    (map (fun i => raw_fd (a + 28 + 28 * i)) (seqZ 0 8)) (raw_word (a + 252)).

(** [*pcb_process = f (...)] *)
Definition update_pcb (a : Z) (f : pcb -> pcb) : K unit :=
  modify (fun s => set_pcbs (<[a := f (default (raw_pcb a) (pcbs (prc s) !! a))]> (pcbs (prc s))) s).

Definition set_parent (parent ppid this : Z) (p : pcb) : pcb :=
  Pcb this ppid (halt_ebp p) (halt_esp p) (ebp_val p) (esp_val p) (argument p) (file_descriptor p) parent.
Definition set_argument (l : list Z) (p : pcb) : pcb :=
  Pcb (pcb_pid p) (parent_pid p) (halt_ebp p) (halt_esp p) (ebp_val p) (esp_val p) l
    (file_descriptor p) (parent_pcb p).
Definition set_halt_frame (bp sp : Z) (p : pcb) : pcb :=
  Pcb (pcb_pid p) (parent_pid p) bp sp (ebp_val p) (esp_val p) (argument p) (file_descriptor p) (parent_pcb p).
Definition set_frame_vals (bp sp : Z) (p : pcb) : pcb :=
  Pcb (pcb_pid p) (parent_pid p) (halt_ebp p) (halt_esp p) bp sp (argument p) (file_descriptor p) (parent_pcb p).

(** [file_descriptor[i] = ... stdin or stdout ...] of the running process. *)
Definition init_std (i : Z) (f : fops) : K unit :=
  update_fd i (set_pointer_ f) ;;
  update_fd i (set_inode_ NULL) ;;
  update_fd i (set_file_position_ NULL) ;;
  update_fd i (set_flags_ 1).

Definition init_pcb (pcb_process arg this_pid : Z) : K unit :=
  let* t := gets ttys in
  let* T := get_term (curr_scheduler t) in
  (if term_pcb T =? NULL then
     update_pcb pcb_process (set_parent NULL (-1) this_pid) ;;
     set_pid this_pid OCCUPIED
   else
     let* parent := running_pcb in
     update_pcb pcb_process (set_parent (term_pcb T) (pcb_pid parent) this_pid) ;;
     set_pid this_pid OCCUPIED) ;;
  let* l := load_struct 128 arg in
  update_pcb pcb_process (set_argument l) ;;
  set_term_pcb (curr_scheduler t) pcb_process ;;
  let* p := gets prc in
  init_std 0 (stdin_fops p) ;;
  init_std 1 (stdout_fops p) ;;
  for_up (Z.to_nat (END_OF_FDA - BEGINING_FDA)) BEGINING_FDA (fun i => update_fd i (set_flags_ 0)).

(** [context_switch] of [system_call_asm.S]: [iret] to the program with
    interrupts on. *)
Definition context_switch (entry_point : Z) : K unit :=
  modify (set_iflag true) ;; leave (EnterUser entry_point).

(** The code of [execute] from the [return] label on, where [halt] continues. *)
Definition execute_return : K Z :=
  let* p := gets prc in
  if global_halt p =? 1 then modify (set_global_halt 0) ;; ret EXCEPTION_256
  else ret 0.

Definition too_many : string := "Maximum number of process reached. Exit please
".

(** [execute], reading the entry point and the image of the program. *)
Definition load_program (temp_dentry : dentry) : K unit :=
  alloc_local ENTRY_POINT 4 ;;
  read_data (inode_num_ temp_dentry) ENTRY_INDEX ENTRY_POINT FOUR_BYTE ;;
  let* f := gets fsg in
  let* length := load32 (inode_at f (inode_num_ temp_dentry)) in
  read_data (inode_num_ temp_dentry) 0 PROGRAM_IMG length ;;
  ret tt.

(** [execute] from the task state segment on. *)
Definition enter_program (this_pid : Z) : K Z :=
  set_tss KERNEL_DS (kernel_stack this_pid) ;;
  let* child := running_pcb in
  (if negb (parent_pcb child =? NULL) then
     let* m := gets mach in
     update_pcb (parent_pcb child) (set_halt_frame (ebp m) (esp m))
   else ret tt) ;;
  let* entry_point_value := load32 ENTRY_POINT in
  context_switch entry_point_value ;;
  execute_return.

(** The part of [execute] after its checks. *)
Definition launch (temp_dentry : dentry) : K Z :=
  let* p := gets prc in
  modify (set_process_counter (process_counter p + 1)) ;;
  let* this_pid := find_pid in
  map_program this_pid ;;
  init_pcb (pcb_addr this_pid) ARG this_pid ;;
  load_program temp_dentry ;;
  enter_program this_pid.

(** The part of [execute] after [parse]: the limit on processes and the checks
    on the file. *)
Definition execute_file : K Z :=
  let* t := gets ttys in
  let* T := get_term (curr_scheduler t) in
  let* p := gets prc in
  let* full :=
    if negb (term_pcb T =? NULL) && (process_counter p =? MAX_PID) then
      let* r := strncmp (Addr FILENAME) (cstr "exit") FIVE_BYTE in
      ret (negb (r =? SUCCESS))
    else ret false in
  if full then printf (cstr too_many) [] ;; ret FAILURE else
  let* '(r, temp_dentry) := read_dentry_by_name (Addr FILENAME) [] in
  if r =? FAILURE then ret FAILURE else
  let* r := isExe (Addr FILENAME) in
  if r =? FAILURE then ret FAILURE else
  launch temp_dentry.

Definition execute (command : cptr) : K Z :=
  cli ;;
  alloc_local FILENAME 32 ;;
  alloc_local ARG 128 ;;
  let* r := parse command FILENAME ARG in
  if r =? FAILURE then ret FAILURE else
  execute_file.

(** The body of [halt]'s loop over the descriptors. *)
Definition halt_close (i : Z) : K unit :=
  let* d := running_fd i in
  if flags_ d =? 1 then close i ;; ret tt else ret tt.

(** [halt] ends in the parent's [execute] at [return], with the parent's frame
    registers; the store to [global_status] is written as the source has it. *)
Definition halt (status : Z) : K Z :=
  let* t := gets ttys in
  let cs := curr_scheduler t in
  let* p := running_pcb in
  set_pid (pcb_pid p) VACANT ;;
  (if parent_pid p =? -1 then
     set_term_pcb cs NULL ;;
     let* q := gets prc in
     modify (set_process_counter (process_counter q - 1)) ;;
     execute (cstr "shell") ;; ret tt
   else ret tt) ;;
  let* p := running_pcb in
  map_program (parent_pid p) ;;
  set_esp0 (kernel_stack (parent_pid p)) ;;
  let* q := gets prc in
  let* parent := get_or_fault (parent_pcb p) (pcbs q !! parent_pcb p) in
  modify (set_frame (halt_ebp parent) (halt_esp parent)) ;;
  for_up (Z.to_nat (END_OF_FDA + 1)) 0 halt_close ;;
  let* p := running_pcb in
  set_term_pcb cs (parent_pcb p) ;;
  let* q := gets prc in
  modify (set_process_counter (process_counter q - 1)) ;;
  modify (set_global_status (u8 status)) ;;
  leave JmpReturn.

End process.

(** * The command line *)

(** Leading spaces removed; the characters up to a space; the rest. *)
Fixpoint drop_spaces (l : list Z) : list Z :=
  match l with
  | [] => []
  | b :: l' => if b =? SPACE then drop_spaces l' else l
  end.

Fixpoint first_word (l : list Z) : list Z :=
  match l with
  | [] => []
  | b :: l' => if b =? SPACE then [] else b :: first_word l'
  end.

Definition command_name (l : list Z) : list Z := first_word (drop_spaces l).
Definition command_arg (l : list Z) : list Z :=
  drop_spaces (drop (length (command_name l)) (drop_spaces l)).

Lemma drop_spaces_drop l : exists k, drop_spaces l = drop k l /\ (k <= length l)%nat.
Proof.
  induction l as [|b l (k & IH & Hk)]; [by exists O|]. simpl. destruct (b =? SPACE).
  - exists (Datatypes.S k). simpl. split; [done|lia].
  - exists O. split; [done|lia].
Qed.

Lemma first_word_prefix l : exists r, l = first_word l ++ r.
Proof.
  induction l as [|b l (r & IH)]; [by exists []|]. simpl. destruct (b =? SPACE); [by eexists|].
  exists r. simpl. by f_equal.
Qed.

Section process_lemmas.
Context `{Env}.

(** The command at [p] is the string [l]. *)
Definition command_at (s : kernel) (p : cptr) (l : list Z) : Prop :=
  exists r, reads s p (l ++ 0 :: r) /\ Forall (fun b => b <> 0) l /\ bytes l.

Lemma command_char s p l i :
  command_at s p l -> 0 <= i <= Z.of_nat (length l) ->
  cload p i s = Ret (default 0 (l !! Z.to_nat i)) s.
Proof.
  intros (r & Hr & Hnz & _) Hi. destruct (reads_char s p l r i Hr Hnz Hi) as (c & Hc & Hz & Hl).
  destruct (decide (i = Z.of_nat (length l))) as [He|He].
  - rewrite lookup_ge_None_2 by lia. simpl. rewrite Hc. f_equal. tauto.
  - by rewrite Hl by lia.
Qed.

Lemma drop_lookup (l : list Z) i :
  0 <= i <= Z.of_nat (length l) ->
  match drop (Z.to_nat i) l with
  | [] => l !! Z.to_nat i = None /\ i = Z.of_nat (length l)
  | b :: d => l !! Z.to_nat i = Some b /\ drop (Z.to_nat (i + 1)) l = d /\ i < Z.of_nat (length l)
  end.
Proof.
  intros Hi. destruct (drop (Z.to_nat i) l) as [|b d] eqn:Hd.
  - assert (Hlen : (length (drop (Z.to_nat i) l) = 0)%nat) by by rewrite Hd.
    rewrite length_drop in Hlen. split; [|lia]. apply lookup_ge_None_2. lia.
  - assert (Hb : l !! Z.to_nat i = Some b).
    { rewrite <- (Nat.add_0_r (Z.to_nat i)), <- lookup_drop, Hd. done. }
    split; [done|]. pose proof (lookup_lt_Some _ _ _ Hb). split; [|lia].
    rewrite (drop_S _ _ _ Hb) in Hd. injection Hd as <-. f_equal. lia.
Qed.

Lemma skip_spaces_spec s p l i (Q : Z -> kernel -> Prop) E :
  command_at s p l -> 0 <= i <= Z.of_nat (length l) -> Z.of_nat (length l) < 2 ^ 31 ->
  (forall j, i <= j <= Z.of_nat (length l) ->
     drop (Z.to_nat j) l = drop_spaces (drop (Z.to_nat i) l) -> Q j s) ->
  wp (skip_spaces p i) Q E s.
Proof.
  intros Hc Hi Hlen HQ. unfold skip_spaces.
  apply wp_loop with
    (I := fun j t => t = s /\ i <= j <= Z.of_nat (length l) /\
       drop_spaces (drop (Z.to_nat j) l) = drop_spaces (drop (Z.to_nat i) l))
    (mu := fun j _ => Z.of_nat (length l) - j); [solve_inv|unfold loop_fuel; lia|].
  intros j t (-> & Hj & Hd). split; [lia|]. wp_step.
  wp_use (command_char s p l j Hc ltac:(lia)). pose proof (drop_lookup l j ltac:(lia)) as Hl.
  destruct (drop (Z.to_nat j) l) as [|b d] eqn:Ed.
  - destruct Hl as [-> ?]. apply wp_ret. apply HQ; [lia|]. rewrite Ed, <- Hd. done.
  - destruct Hl as (-> & Ed' & Hlt). simpl in Hd |- *. destruct (b =? SPACE) eqn:Eb.
    + apply wp_ret. split; [|lia]. split_and!; [done|lia|lia|]. by rewrite Ed'.
    + apply wp_ret. apply HQ; [lia|]. by rewrite Ed.
Qed.

(** The name is copied while it fits. *)
Lemma parse_name_spec s p l filename i (Q : option (Z * Z) -> kernel -> Prop) E :
  command_at s p l -> 0 <= i <= Z.of_nat (length l) -> Z.of_nat (length l) < 2 ^ 31 ->
  region s filename 32 ->
  (forall b, unaliased s p (l ++ 0 :: b) filename 32) ->
  (let w := first_word (drop (Z.to_nat i) l) in
   if (length w <=? 32)%nat
   then Q (Some (i + Z.of_nat (length w), Z.of_nat (length w))) (put_bytes filename w s)
   else forall t, modifies s filename 32 t -> Q None t) ->
  wp (parse_name p filename (i, 0)) Q E s.
Proof.
  intros Hc Hi Hlen Hreg Hu HQ. cbv zeta in HQ. set (w := first_word (drop (Z.to_nat i) l)) in *.
  destruct (first_word_prefix (drop (Z.to_nat i) l)) as (r & Hw). fold w in Hw.
  assert (Hwl : i + Z.of_nat (length w) <= Z.of_nat (length l)).
  { apply (f_equal length) in Hw. rewrite length_drop, length_app in Hw. lia. }
  unfold parse_name.
  apply wp_loop with
    (I := fun st t => exists k, st = (i + k, k) /\ 0 <= k <= Z.of_nat (length w) /\ k <= 32 /\
       t = put_bytes filename (take (Z.to_nat k) w) s /\
       first_word (drop (Z.to_nat (i + k)) l) = drop (Z.to_nat k) w)
    (mu := fun st _ => 32 - snd st);
    [exists 0; rewrite Z.add_0_r; solve_inv|unfold loop_fuel; simpl; lia|].
  intros [i' k'] t (k & [= -> ->] & Hk & Hk32 & -> & Hfw). cbn [snd]. split; [lia|].
  assert (Hct : command_at (put_bytes filename (take (Z.to_nat k) w) s) p l).
  { destruct Hc as (b & Hr & Hnz & Hb). exists b. split; [|done].
    eapply reads_frame; [apply (modifies_put_bytes s filename 32); rewrite length_take; lia|apply Hu|done]. }
  wp_step. wp_use (command_char _ p l (i + k) Hct ltac:(lia)).
  pose proof (drop_lookup l (i + k) ltac:(lia)) as Hl.
  destruct (drop (Z.to_nat (i + k)) l) as [|b d] eqn:Ed.
  - destruct Hl as [-> He]. simpl. apply wp_ret.
    assert (Hkw : k = Z.of_nat (length w)) by lia. rewrite (proj2 (Nat.leb_le _ _)) in HQ by lia.
    by rewrite take_ge, Hkw in * by lia.
  - destruct Hl as (Hb & Ed' & Hlt). rewrite Hb. cbn [from_option id].
    assert (Hb0 : (b =? NULL_TERM) = false).
    { destruct Hc as (? & _ & Hnz & _). apply Z.eqb_neq. by apply (Forall_lookup_1 _ _ _ _ Hnz Hb). }
    rewrite Hb0. simpl in Hfw. destruct (b =? SPACE) eqn:Eb; cbn [negb andb].
    + apply wp_ret. assert (Hkw : k = Z.of_nat (length w)).
      { apply (f_equal length) in Hfw. rewrite length_drop in Hfw. simpl in Hfw. lia. }
      rewrite (proj2 (Nat.leb_le _ _)) in HQ by lia. by rewrite take_ge, Hkw in * by lia.
    + assert (Hwk : w !! Z.to_nat k = Some b /\ drop (Z.to_nat (k + 1)) w = first_word d).
      { assert (Hwk : w !! Z.to_nat k = Some b).
        { rewrite <- (Nat.add_0_r (Z.to_nat k)), <- lookup_drop, <- Hfw. done. }
        split; [done|]. rewrite (drop_S _ _ _ Hwk) in Hfw. injection Hfw as ->. f_equal. lia. }
      destruct Hwk as [Hwk Hwd]. pose proof (lookup_lt_Some _ _ _ Hwk).
      unfold MAX_FILE_LEN. destruct (Z.eqb_spec k 32) as [->|Hne].
      * apply wp_ret. rewrite (proj2 (Nat.leb_gt _ _)) in HQ by lia. apply HQ.
        apply modifies_put_bytes. rewrite length_take. lia.
      * assert (Hst : store8 (filename + k) b (put_bytes filename (take (Z.to_nat k) w) s) =
          Ret tt (put_bytes filename (take (Z.to_nat (k + 1)) w) s)).
        { rewrite store8_set by (apply put_bytes_is_Some; destruct Hreg as [Hm _]; apply Hm; lia).
          destruct Hc as (? & _ & _ & Hbytes).
          rewrite u8_small by by apply (Forall_lookup_1 _ _ _ _ Hbytes Hb).
          replace (Z.to_nat (k + 1)) with (Datatypes.S (Z.to_nat k)) by lia.
          rewrite (take_S_r _ _ _ Hwk), put_bytes_snoc, length_take_le by lia. do 2 f_equal. lia. }
        wp_step. wp_use Hst. apply wp_ret. split; [|simpl; lia].
        exists (k + 1). split; [f_equal; lia|]. split_and!; [lia|lia|lia|done|].
        replace (i + (k + 1)) with (i + k + 1) by lia. by rewrite Ed', Hwd.
Qed.

(** The rest of the line is copied while it fits. *)
Lemma parse_arg_spec s p l arg len i (Q : option Z -> kernel -> Prop) E :
  command_at s p l -> 0 <= i <= Z.of_nat (length l) -> Z.of_nat (length l) < 2 ^ 31 ->
  0 <= len <= 128 -> region s arg 128 ->
  (forall b, unaliased s p (l ++ 0 :: b) arg 128) ->
  (let a := drop (Z.to_nat i) l in
   if Z.of_nat (length a) <=? 128 - len then Q (Some (Z.of_nat (length a))) (put_bytes arg a s)
   else forall t, modifies s arg 128 t -> Q None t) ->
  wp (parse_arg p arg len (i, 0)) Q E s.
Proof.
  intros Hc Hi Hlen Hl Hreg Hu HQ. cbv zeta in HQ. set (a := drop (Z.to_nat i) l) in *.
  assert (Hal : Z.of_nat (length a) = Z.of_nat (length l) - i) by (unfold a; rewrite length_drop; lia).
  unfold parse_arg.
  apply wp_loop with
    (I := fun st t => exists k, st = (i + k, k) /\ 0 <= k <= Z.of_nat (length a) /\ k <= 128 - len /\
       t = put_bytes arg (take (Z.to_nat k) a) s)
    (mu := fun st _ => 128 - snd st);
    [exists 0; rewrite Z.add_0_r; solve_inv|unfold loop_fuel; simpl; lia|].
  intros [i' k'] t (k & [= -> ->] & Hk & Hk128 & ->). cbn [snd]. split; [lia|].
  assert (Hct : command_at (put_bytes arg (take (Z.to_nat k) a) s) p l).
  { destruct Hc as (b & Hr & Hnz & Hb). exists b. split; [|done].
    eapply reads_frame; [apply (modifies_put_bytes s arg 128); rewrite length_take; lia|apply Hu|done]. }
  wp_step. wp_use (command_char _ p l (i + k) Hct ltac:(lia)).
  destruct (decide (k = Z.of_nat (length a))) as [Hke|Hke].
  - rewrite lookup_ge_None_2 by lia. simpl. apply wp_ret.
    rewrite (proj2 (Z.leb_le _ _)) in HQ by lia. by rewrite take_ge, Hke in * by lia.
  - destruct (lookup_lt_is_Some_2 l (Z.to_nat (i + k))) as [b Hb]; [lia|]. rewrite Hb. cbn [from_option id].
    destruct Hc as (? & _ & Hnz & Hbytes). pose proof (Forall_lookup_1 _ _ _ _ Hnz Hb) as Hb0.
    unfold NULL_TERM. rewrite (proj2 (Z.eqb_neq b 0)) by done. cbn [negb].
    unfold MAX_ARG_LEN. destruct (Z.eqb_spec k (128 - len)) as [->|Hne].
    + apply wp_ret. rewrite (proj2 (Z.leb_gt _ _)) in HQ by lia. apply HQ.
      apply modifies_put_bytes. rewrite length_take. lia.
    + assert (Hak : a !! Z.to_nat k = Some b).
      { unfold a. rewrite lookup_drop. rewrite <- Hb. f_equal. lia. }
      assert (Hst : store8 (arg + k) b (put_bytes arg (take (Z.to_nat k) a) s) =
        Ret tt (put_bytes arg (take (Z.to_nat (k + 1)) a) s)).
      { rewrite store8_set by (apply put_bytes_is_Some; destruct Hreg as [Hm _]; apply Hm; lia).
        rewrite u8_small by by apply (Forall_lookup_1 _ _ _ _ Hbytes Hb).
        replace (Z.to_nat (k + 1)) with (Datatypes.S (Z.to_nat k)) by lia.
        rewrite (take_S_r _ _ _ Hak), put_bytes_snoc, length_take_le by lia. do 2 f_equal. lia. }
      wp_step. wp_use Hst. apply wp_ret. split; [|simpl; lia].
      exists (k + 1). split; [f_equal; lia|]. split_and!; [lia|lia|lia|done].
Qed.

Lemma command_frame s t p l a n :
  modifies s a n t -> (forall b, unaliased s p (l ++ 0 :: b) a n) ->
  command_at s p l -> command_at t p l.
Proof.
  intros Hm Hu (b & Hr & Hrest). exists b. split; [|done]. eapply reads_frame; [done|apply Hu|done].
Qed.

Lemma unaliased_modifies s t p l a n b m :
  modifies s b m t -> unaliased s p l a n -> unaliased t p l a n.
Proof.
  intros Hm Hu. destruct p; [|done]. intros i Hi j. rewrite (modifies_pgs _ _ _ _ Hm). by apply Hu.
Qed.

Lemma unaliased_sub s p l a n b m :
  unaliased s p l a n -> a <= b -> b + m <= a + n -> unaliased s p l b m.
Proof.
  destruct p; [|done]. intros Hu Ha Hn i Hi j Hj. replace (b + j) with (a + (b - a + j)) by lia.
  apply Hu; lia.
Qed.

(** A command outside the two arrays of [execute]. *)
Definition command_apart (s : kernel) (p : cptr) (l : list Z) : Prop :=
  forall b, unaliased s p (l ++ 0 :: b) ARG 2048.

(** The outcomes of [parse]. *)
Definition parse_post (s : kernel) (l : list Z) (r : Z) (t : kernel) : Prop :=
  let w := command_name l in
  let a := command_arg l in
  modifies s ARG 2048 t /\
  if (length w <? 32)%nat && (Z.of_nat (length a) <=? 128 - Z.of_nat (length w))
  then r = SUCCESS /\ bytes_at t FILENAME (w ++ [0]) /\ bytes_at t ARG (a ++ [0]) /\ region t ARG 128
  else r = FAILURE.

Lemma local_bytes s t a l b m :
  bytes_at s a l -> modifies s b m t -> b + m <= 0 -> a + Z.of_nat (length l) <= 0 ->
  a + Z.of_nat (length l) <= b \/ b + m <= a -> bytes_at t a l.
Proof.
  intros Hb Ho Hm Ha Hd. eapply bytes_at_frame; [exact Hb|]. intros i Hi.
  apply (modifies_out _ _ _ _ _ Ho), outside_local2; lia.
Qed.

Lemma store_end s a n l :
  region s a n -> Z.of_nat (length l) < n ->
  store8 (a + Z.of_nat (length l)) 0 (put_bytes a l s) = Ret tt (put_bytes a (l ++ [0]) s).
Proof.
  intros [Hm _] Hl. rewrite put_bytes_snoc. apply store8_set, put_bytes_is_Some, Hm. lia.
Qed.

(** [parse] after its name loop. *)
Lemma parse_rest s p l E i :
  command_at s p l -> command_apart s p l -> Z.of_nat (length l) < 2 ^ 31 ->
  0 <= i <= Z.of_nat (length l) ->
  region s FILENAME 32 -> region s ARG 128 -> bytes_at s ARG [0] ->
  let w := command_name l in
  drop (Z.to_nat i) l = drop (length w) (drop_spaces l) -> (length w < 32)%nat ->
  wp (store8 (FILENAME + Z.of_nat (length w)) NULL_TERM ;;
      let* c := cload p i in
      if c =? SPACE then
        let* i := skip_spaces p i in
        let* r := parse_arg p ARG (Z.of_nat (length w)) (i, 0) in
        match r with
        | None => ret FAILURE
        | Some argLen => store8 (ARG + argLen) NULL_TERM ;; ret SUCCESS
        end
      else ret SUCCESS) (parse_post s l) E (put_bytes FILENAME w s).
Proof.
  intros Hc Hap Hlen Hi RF RA HA0 w Hdrop Hw.
  assert (M1 : modifies s FILENAME 32 (put_bytes FILENAME (w ++ [0]) s)).
  { apply modifies_put_bytes. rewrite length_app. simpl. lia. }
  set (s1 := put_bytes FILENAME (w ++ [0]) s) in *.
  wp_step. wp_use (store_end s FILENAME 32 w RF ltac:(lia)). fold s1.
  assert (W1 : modifies s ARG 2048 s1) by (eapply modifies_widen; [exact M1|unfold ARG, FILENAME; lia..]).
  assert (Hc1 : command_at s1 p l) by (eapply command_frame; [exact W1|exact Hap|done]).
  assert (B1 : bytes_at s1 FILENAME (w ++ [0])).
  { apply bytes_at_put_bytes. rewrite <- (Z.add_0_r FILENAME).
    eapply region_mono; [exact RF|lia|rewrite length_app; simpl; lia]. }
  assert (A1 : bytes_at s1 ARG [0]).
  { eapply local_bytes; [exact HA0|exact M1|unfold FILENAME, ARG; simpl; lia..]. }
  assert (R1 : region s1 ARG 128) by (by apply region_put_bytes).
  wp_step. wp_use (command_char s1 p l i Hc1 Hi).
  pose proof (drop_lookup l i Hi) as Hl. rewrite Hdrop in Hl.
  unfold parse_post. fold w. unfold command_arg. fold w.
  destruct (drop (length w) (drop_spaces l)) as [|b d] eqn:Ed.
  - destruct Hl as [-> _]. simpl. apply wp_ret. split; [done|].
    rewrite (proj2 (Nat.ltb_lt _ _)), (proj2 (Z.leb_le _ _)) by lia. done.
  - destruct Hl as (-> & Ed' & Hlt). cbn [from_option id]. destruct (b =? SPACE) eqn:Eb.
    + wp_step. apply (skip_spaces_spec s1 p l i); [done|done|done|]. intros j Hj Hdj.
      rewrite Hdrop in Hdj. wp_step.
      apply (parse_arg_spec s1 p l); [done|lia|done|lia|done| |].
      { intros b'. eapply unaliased_sub; [eapply unaliased_modifies; [exact W1|apply Hap]| |]; unfold ARG; lia. }
      rewrite <- Hdj. set (a := drop (Z.to_nat j) l) in *. rewrite (proj2 (Nat.ltb_lt _ _)) by lia. cbn [andb].
      assert (Hww : w <> []).
      { intros Hnil. rewrite Hnil in Ed. simpl in Ed.
        revert Ed Eb. clear. revert b d. induction l as [|x l IH]; intros b d; simpl; [done|].
        destruct (x =? SPACE) eqn:Ex; [apply IH|]. intros [= <- <-]. by rewrite Ex. }
      assert (Hw1 : (1 <= length w)%nat) by (destruct w; [done|simpl; lia]).
      destruct (Z.leb_spec (Z.of_nat (length a)) (128 - Z.of_nat (length w))) as [Ha|Ha].
      * wp_step. wp_use (store_end s1 ARG 128 a R1 ltac:(lia)). apply wp_ret.
        assert (M2 : modifies s1 ARG 128 (put_bytes ARG (a ++ [0]) s1)).
        { apply modifies_put_bytes. rewrite length_app. simpl. lia. }
        split; [eapply modifies_trans; [exact W1|]; eapply modifies_widen; [exact M2|lia|lia]|].
        split; [done|]. split; [|split].
        -- eapply local_bytes; [exact B1|exact M2|unfold ARG, FILENAME; rewrite ?length_app; simpl; lia..].
        -- apply bytes_at_put_bytes. rewrite <- (Z.add_0_r ARG).
           eapply region_mono; [exact R1|lia|rewrite length_app; simpl; lia].
        -- by apply region_put_bytes.
      * intros t Ht. apply wp_ret. split; [|done].
        eapply modifies_trans; [exact W1|]. eapply modifies_widen; [exact Ht|lia|lia].
    + apply wp_ret. split; [done|].
      assert (Hww : drop (length w) (drop_spaces l) = [] \/ b = SPACE).
      { right. unfold w, command_name in Ed. revert Ed. generalize (drop_spaces l). clear.
        intros m. induction m as [|x m IH]; simpl; [done|]. destruct (x =? SPACE) eqn:Ex.
        - simpl. intros [= <- <-]. by apply Z.eqb_eq.
        - exact IH. }
      destruct Hww as [Hww|Hww]; [congruence|]. subst b. done.
Qed.

Lemma parse_spec s p l E :
  command_at s p l -> is_null p = false -> command_apart s p l -> Z.of_nat (length l) < 2 ^ 31 ->
  region s FILENAME 32 -> region s ARG 128 -> length (command_name l) <> 32%nat ->
  wp (parse p FILENAME ARG) (parse_post s l) E s.
Proof.
  intros Hc Hnull Hap Hlen RF RA Hw. unfold parse. rewrite Hnull.
  assert (H0 : store8 (ARG + 0) NULL_TERM s = Ret tt (put_bytes ARG [0] s)).
  { pose proof (store_end s ARG 128 [] RA ltac:(simpl; lia)) as Hs. exact Hs. }
  wp_step. wp_use H0. set (s0 := put_bytes ARG [0] s).
  assert (M0 : modifies s ARG 2048 s0).
  { eapply modifies_widen; [apply (modifies_put_bytes s ARG 1); simpl; lia|lia|lia]. }
  assert (Hc0 : command_at s0 p l) by (eapply command_frame; [exact M0|exact Hap|done]).
  assert (Hap0 : command_apart s0 p l) by (intros b; eapply unaliased_modifies; [exact M0|apply Hap]).
  assert (RF0 : region s0 FILENAME 32) by by apply region_put_bytes.
  assert (RA0 : region s0 ARG 128) by by apply region_put_bytes.
  assert (A0 : bytes_at s0 ARG [0]).
  { apply bytes_at_put_bytes. rewrite <- (Z.add_0_r ARG). eapply region_mono; [exact RA|lia|simpl; lia]. }
  wp_step. apply (skip_spaces_spec s0 p l 0); [done|lia|done|]. intros j Hj Hdj.
  change (drop (Z.to_nat 0) l) with l in Hdj.
  wp_step. apply (parse_name_spec s0 p l FILENAME j); [done|lia|done|done| |].
  { intros b. eapply unaliased_sub; [apply Hap0|unfold ARG, FILENAME; lia..]. }
  rewrite Hdj. fold (command_name l). set (w := command_name l) in *.
  assert (Hjw : drop (Z.to_nat (j + Z.of_nat (length w))) l = drop (length w) (drop_spaces l)).
  { rewrite <- Hdj, drop_drop. f_equal. lia. }
  assert (Hlw : j + Z.of_nat (length w) <= Z.of_nat (length l)).
  { destruct (first_word_prefix (drop_spaces l)) as (r & Hr). fold (command_name l) in Hr. fold w in Hr.
    rewrite <- Hdj in Hr. apply (f_equal length) in Hr. rewrite length_drop, length_app in Hr. lia. }
  cbv zeta. destruct (length w <=? 32)%nat eqn:Hle; [apply Nat.leb_le in Hle|apply Nat.leb_gt in Hle].
  - eapply wp_mono; [apply (parse_rest s0 p l E (j + Z.of_nat (length w))); try done; fold w; lia| |done].
    intros r t [Hm Hpost]. split; [by eapply modifies_trans|done].
  - intros t Ht. apply wp_ret. unfold parse_post. fold w. split.
    + eapply modifies_trans; [exact M0|]. eapply modifies_widen; [exact Ht|unfold ARG, FILENAME; lia..].
    + by rewrite (proj2 (Nat.ltb_ge _ _)) by lia.
Qed.

(** ** Process numbers *)

(** The smallest vacant number. *)
Definition first_vacant (pids : list Z) (k : Z) : Prop :=
  0 <= k < 6 /\ aget pids k = Some VACANT /\
  forall i, 0 <= i < k -> exists v, aget pids i = Some v /\ v <> VACANT.

Lemma find_pid_spec s E :
  length (pid (prc s)) = 6%nat ->
  (forall k, first_vacant (pid (prc s)) k -> wp find_pid (fun r t => r = k /\ t = s) E s) /\
  (Forall (fun v => v <> VACANT) (pid (prc s)) -> wp find_pid (fun r t => r = FAILURE /\ t = s) E s).
Proof.
  intros Hl. unfold find_pid, MAX_PID. split.
  - intros k (Hk & Hv & Hbefore).
    apply wp_loop with (I := fun i t => t = s /\ 0 <= i <= k) (mu := fun i _ => k - i);
      [solve_inv|unfold loop_fuel; lia|].
    intros i t [-> Hi]. split; [lia|]. rewrite (proj2 (Z.leb_le i 5)) by lia. cbn [negb].
    do 2 wp_step. wp_step. destruct (decide (i = k)) as [->|Hne].
    + eapply wp_get_or_fault; [exact Hv|]. by apply wp_ret.
    + destruct (Hbefore i) as (v & Hi' & Hn); [lia|]. eapply wp_get_or_fault; [exact Hi'|].
      rewrite (proj2 (Z.eqb_neq v VACANT)) by done. apply wp_ret. solve_inv.
  - intros Hall.
    apply wp_loop with (I := fun i t => t = s /\ 0 <= i <= 6) (mu := fun i _ => 6 - i);
      [solve_inv|unfold loop_fuel; lia|].
    intros i t [-> Hi]. split; [lia|]. destruct (Z.leb_spec i 5); cbn [negb]; [|by apply wp_ret].
    do 2 wp_step. wp_step. destruct (aget_total (pid (prc s)) i) as [v Hv]; [lia|].
    eapply wp_get_or_fault; [exact Hv|].
    assert (v <> VACANT).
    { rewrite Forall_forall in Hall. apply Hall. unfold aget in Hv.
      destruct ((0 <=? i) && _); [|done]. by eapply list_elem_of_lookup_2. }
    rewrite (proj2 (Z.eqb_neq v VACANT)) by done. apply wp_ret. solve_inv.
Qed.

Lemma set_pid_eq s k v :
  0 <= k < Z.of_nat (length (pid (prc s))) ->
  set_pid k v s = Ret tt (set_pids (<[Z.to_nat k := v]> (pid (prc s))) s).
Proof.
  intros Hk. unfold set_pid, bind, gets, get_or_fault, aset.
  by rewrite (proj2 (Z.leb_le 0 k)), (proj2 (Z.ltb_lt k _)) by lia.
Qed.

(** ** The control block [init_pcb] makes *)

(** Descriptors 0 and 1 are the terminal, 2 to 6 are closed; 7 is whatever the
    memory held. *)
Definition init_fds (f0 f1 : fops) (fds : list file_array) : list file_array :=
  FileArray f0 0 0 1 :: FileArray f1 0 0 1 :: map (set_flags_ 0) (take 5 (drop 2 fds)) ++ drop 7 fds.

Definition child_pcb (old : pcb) (parent ppid k : Z) (l : list Z) (f0 f1 : fops) : pcb :=
  set_file_descriptor (init_fds f0 f1 (file_descriptor old)) (set_argument l (set_parent parent ppid k old)).

(** What is in memory at [a] before. *)
Definition old_pcb (s : kernel) (a : Z) : pcb := default (raw_pcb a) (pcbs (prc s) !! a).

Lemma update_fd_with s a p0 p fd d f :
  running s a p0 -> aget (file_descriptor p) fd = Some d ->
  update_fd fd f (with_pcb a p s) =
    Ret tt (with_pcb a (set_file_descriptor (<[Z.to_nat fd := f d]> (file_descriptor p)) p) s).
Proof.
  intros Hr Hd. rewrite (update_fd_eq _ a p fd d f (running_with_pcb s a p0 p Hr) Hd).
  unfold with_fd. by rewrite with_pcb_twice.
Qed.

Lemma init_std_eq s a p0 p f fd d :
  running s a p0 -> aget (file_descriptor p) fd = Some d ->
  init_std fd f (with_pcb a p s) =
    Ret tt (with_pcb a (set_file_descriptor
      (<[Z.to_nat fd := FileArray f 0 0 1]> (file_descriptor p)) p) s).
Proof.
  intros Hr Hd. assert (Hi : forall x, aget (<[Z.to_nat fd := x]> (file_descriptor p)) fd = Some x)
    by (intros x; by eapply aget_insert).
  unfold init_std.
  rewrite (bind_Ret _ _ _ _ _ (update_fd_with s a p0 p fd d _ Hr Hd)). cbv beta.
  do 2 (erewrite bind_Ret by (eapply update_fd_with; [exact Hr|]; cbn [set_file_descriptor file_descriptor];
    rewrite ?list_insert_insert_eq; apply Hi); cbv beta).
  erewrite update_fd_with; [|exact Hr|cbn [set_file_descriptor file_descriptor];
    rewrite ?list_insert_insert_eq; apply Hi].
  cbn [set_file_descriptor file_descriptor]. by rewrite !list_insert_insert_eq.
Qed.

(** The loop that closes descriptors. *)
Lemma close_fds_eq s a p0 n : forall i p,
  running s a p0 -> 0 <= i -> i + Z.of_nat n <= Z.of_nat (length (file_descriptor p)) ->
  for_up n i (fun i => update_fd i (set_flags_ 0)) (with_pcb a p s) =
    Ret tt (with_pcb a (set_file_descriptor (take (Z.to_nat i) (file_descriptor p) ++
      map (set_flags_ 0) (take n (drop (Z.to_nat i) (file_descriptor p))) ++
      drop (Z.to_nat i + n) (file_descriptor p)) p) s).
Proof.
  induction n as [|n IH]; intros i p Hr Hi Hn.
  - rewrite take_0, Nat.add_0_r. simpl. rewrite take_drop. by destruct p.
  - destruct (lookup_lt_is_Some_2 (file_descriptor p) (Z.to_nat i)) as [d Hd]; [lia|].
    assert (Hlt : (Z.to_nat i < length (file_descriptor p))%nat) by lia.
    cbn [for_up]. rewrite (bind_Ret _ _ _ _ _ (update_fd_with s a p0 p i d _ Hr
      ltac:(by apply aget_lookup))). cbv beta.
    rewrite IH; [|done|lia|cbn [set_file_descriptor file_descriptor]; rewrite length_insert; lia].
    cbn [set_file_descriptor file_descriptor].
    replace (Z.to_nat (i + 1)) with (S (Z.to_nat i)) by lia.
    rewrite (take_S_r _ _ (set_flags_ 0 d)), take_insert_ge by (try apply list_lookup_insert_eq; lia).
    rewrite !drop_insert_lt, (drop_S _ _ _ Hd) by lia. rewrite <- app_assoc, <- Nat.add_succ_comm. done.
Qed.

(** The descriptor half of [init_pcb]. *)
Lemma init_fds_eq s a p0 p f0 f1 :
  running s a p0 -> length (file_descriptor p) = 8%nat ->
  (init_std 0 f0 ;; init_std 1 f1 ;;
   for_up (Z.to_nat (END_OF_FDA - BEGINING_FDA)) BEGINING_FDA (fun i => update_fd i (set_flags_ 0)))
    (with_pcb a p s) = Ret tt (with_pcb a (set_file_descriptor (init_fds f0 f1 (file_descriptor p)) p) s).
Proof.
  intros Hr Hl.
  destruct (file_descriptor p) as [|d0 [|d1 l]] eqn:Hp; [discriminate..|].
  assert (H1 : forall x, aget (x :: d1 :: l) 1 = Some d1) by (intros x; by apply aget_lookup).
  rewrite (bind_Ret _ _ _ _ _ (init_std_eq s a p0 p f0 0 d0 Hr ltac:(by rewrite Hp))). cbv beta.
  erewrite bind_Ret by (eapply (init_std_eq s a p0 _ f1 1 d1 Hr); cbn [set_file_descriptor file_descriptor];
    rewrite Hp; apply H1). cbv beta.
  rewrite (close_fds_eq s a p0); [|exact Hr|done|]; cbn [set_file_descriptor file_descriptor];
    rewrite Hp; [done|]. rewrite !length_insert, Hl. done.
Qed.

(** The block's identity and its parent's. *)
Lemma init_block_eq a parent ppid k s :
  length (pid (prc s)) = 6%nat -> 0 <= k < 6 ->
  (update_pcb a (set_parent parent ppid k) ;; set_pid k OCCUPIED) s =
    Ret tt (set_pids (<[Z.to_nat k := OCCUPIED]> (pid (prc s)))
      (with_pcb a (set_parent parent ppid k (old_pcb s a)) s)).
Proof.
  intros Hl Hk. exact (set_pid_eq (with_pcb a (set_parent parent ppid k (old_pcb s a)) s) k OCCUPIED
    ltac:(change (pid (prc (with_pcb a ?[p] s))) with (pid (prc s)); rewrite Hl; lia)).
Qed.

(** The rest: the argument, the terminal's program, the descriptors. *)
Lemma init_rest_eq s a q k l T :
  aget (terminal (ttys s)) (curr_scheduler (ttys s)) = Some T ->
  bytes_at s ARG l -> length l = 128%nat -> length (file_descriptor q) = 8%nat ->
  (let* l := load_struct 128 ARG in
   update_pcb a (set_argument l) ;;
   set_term_pcb (curr_scheduler (ttys s)) a ;;
   let* p := gets prc in
   init_std 0 (stdin_fops p) ;;
   init_std 1 (stdout_fops p) ;;
   for_up (Z.to_nat (END_OF_FDA - BEGINING_FDA)) BEGINING_FDA (fun i => update_fd i (set_flags_ 0)))
    (set_pids k (with_pcb a q s)) =
  Ret tt (with_term (curr_scheduler (ttys s)) (Term a (screen_x T) (screen_y T))
    (set_pids k (with_pcb a (set_file_descriptor
      (init_fds (stdin_fops (prc s)) (stdout_fops (prc s)) (file_descriptor q)) (set_argument l q)) s))).
Proof.
  intros HT Hl Hl128 Hfds. set (cs := curr_scheduler (ttys s)). set (s2 := set_pids k (with_pcb a q s)).
  assert (L2 : load_struct 128 ARG s2 = Ret l s2) by (rewrite <- Hl128; by apply load_struct_spec).
  rewrite (bind_Ret _ _ _ _ _ L2). cbv beta.
  set (s4 := with_term cs (Term a (screen_x T) (screen_y T)) s2).
  assert (E3 : update_pcb a (set_argument l) s2 = Ret tt (with_pcb a (set_argument l q) s2)).
  { unfold update_pcb, modify, s2, with_pcb. cbn [set_pids set_pcbs on_prc prc pcbs].
    by rewrite lookup_insert_eq. }
  rewrite (bind_Ret _ _ _ _ _ E3). cbv beta.
  assert (E4 : set_term_pcb cs a (with_pcb a (set_argument l q) s2) = Ret tt (with_pcb a (set_argument l q) s4)).
  { unfold set_term_pcb. rewrite (bind_Ret _ _ _ _ _ (get_term_eq (with_pcb _ _ s2) cs T HT)).
    exact (put_term_eq (with_pcb _ _ s2) cs T _ HT). }
  rewrite (bind_Ret _ _ _ _ _ E4). cbv beta.
  assert (R4 : running s4 a q).
  { exists (Term a (screen_x T) (screen_y T)). split; [|split; [done|apply lookup_insert_eq]].
    by eapply (get_with_term s2 cs T). }
  unfold gets at 1. cbn [bind].
  etransitivity; [exact (init_fds_eq s4 a q (set_argument l q) _ _ R4 Hfds)|].
  unfold s4, s2, with_pcb, with_term, set_pids, set_pcbs, on_prc, set_terminal, on_ttys.
  simpl. by rewrite insert_insert_eq.
Qed.

Lemma init_pcb_spec s a k l T E :
  aget (terminal (ttys s)) (curr_scheduler (ttys s)) = Some T ->
  length (pid (prc s)) = 6%nat -> 0 <= k < 6 ->
  (term_pcb T <> NULL -> exists parent, running s (term_pcb T) parent) ->
  bytes_at s ARG l -> length l = 128%nat -> length (file_descriptor (old_pcb s a)) = 8%nat ->
  wp (init_pcb a ARG k) (fun _ t => exists ppid,
    (term_pcb T = NULL -> ppid = -1) /\
    (forall parent, term_pcb T <> NULL -> running s (term_pcb T) parent -> ppid = pcb_pid parent) /\
    t = with_term (curr_scheduler (ttys s)) (Term a (screen_x T) (screen_y T))
          (set_pids (<[Z.to_nat k := OCCUPIED]> (pid (prc s)))
            (with_pcb a (child_pcb (old_pcb s a) (term_pcb T) ppid k l
               (stdin_fops (prc s)) (stdout_fops (prc s))) s))) E s.
Proof.
  intros HT Hlp Hk Hpar Hl Hl128 Hfds. unfold init_pcb. do 3 wp_step. wp_use (get_term_eq _ _ _ HT).
  pose proof (fun ppid => init_rest_eq s a (set_parent (term_pcb T) ppid k (old_pcb s a))
    (<[Z.to_nat k := OCCUPIED]> (pid (prc s))) l T HT Hl Hl128 Hfds) as Hrest.
  destruct (Z.eqb_spec (term_pcb T) NULL) as [Hn|Hn].
  - rewrite Hn in Hrest. wp_step. wp_use (init_block_eq a NULL (-1) k s Hlp Hk).
    eapply wp_of_Ret; [apply Hrest|]. exists (-1). rewrite Hn. by split; [|split].
  - destruct (Hpar Hn) as [parent Hrun]. do 2 wp_step. wp_use (running_pcb_eq _ _ _ Hrun).
    wp_step. wp_use (init_block_eq a (term_pcb T) (pcb_pid parent) k s Hlp Hk).
    eapply wp_of_Ret; [apply Hrest|]. exists (pcb_pid parent). split; [done|]. split; [|done].
    intros parent' _ (? & ? & ? & ?). destruct Hrun as (? & ? & ? & ?). congruence.
Qed.

(** ** Properties *)

(** The command line.  For a command string outside its two arrays, [parse]
    stores the first word as the name and the rest, without the spaces between,
    as the argument, each with its terminator, when the word has at most 31
    characters and word and argument together at most 128; it refuses a longer
    word or argument.  Nothing outside the two arrays changes. *)
Theorem parse_splits s p l :
  command_at s p l -> is_null p = false -> command_apart s p l -> Z.of_nat (length l) < 2 ^ 31 ->
  region s FILENAME 32 -> region s ARG 128 ->
  let w := command_name l in
  let a := command_arg l in
  length w <> 32%nat ->
  exists r t, parse p FILENAME ARG s = Ret r t /\ modifies s ARG 2048 t /\
    (r = SUCCESS <->
       (length w < 32)%nat /\ Z.of_nat (length w) + Z.of_nat (length a) <= 128) /\
    (r = SUCCESS -> bytes_at t FILENAME (w ++ [0]) /\ bytes_at t ARG (a ++ [0])) /\
    (r <> SUCCESS -> r = FAILURE).
Proof.
  intros Hc Hn Hap Hl RF RA w a Hw.
  pose proof (parse_spec s p l (fun _ _ => False) Hc Hn Hap Hl RF RA Hw) as Hwp.
  apply wp_Ret in Hwp as (r & t & Hrun & Hm & Hpost). exists r, t. fold w a in Hpost.
  split; [done|]. split; [done|].
  destruct (length w <? 32)%nat eqn:E1; [apply Nat.ltb_lt in E1|apply Nat.ltb_ge in E1]; cbn [andb] in Hpost.
  2:{ subst r. split; [|split; [done|done]]. split; [done|lia]. }
  destruct (Z.leb_spec (Z.of_nat (length a)) (128 - Z.of_nat (length w))) as [E2|E2].
  - destruct Hpost as (-> & ? & ? & _). split; [|done]. split; [lia|done].
  - subst r. split; [|split; [done|done]]. split; [done|lia].
Qed.

(** A 32-character name.  [parse] accepts a word of exactly 32 characters and
    then stores its terminator one byte past the 32-byte name array; it faults
    where no memory follows the array. *)
Theorem parse_overflows s p l :
  command_at s p l -> is_null p = false -> command_apart s p l -> Z.of_nat (length l) < 2 ^ 31 ->
  region s FILENAME 32 -> region s ARG 128 -> length (command_name l) = 32%nat ->
  mem_get s (FILENAME + 32) = None ->
  exists t, parse p FILENAME ARG s = Fault (FILENAME + 32) t /\ bytes_at t FILENAME (command_name l).
Proof.
  intros Hc Hnull Hap Hlen RF RA Hw Hnone.
  assert (H0 : store8 (ARG + 0) NULL_TERM s = Ret tt (put_bytes ARG [0] s)).
  { pose proof (store_end s ARG 128 [] RA ltac:(simpl; lia)) as Hs. exact Hs. }
  set (s0 := put_bytes ARG [0] s) in *.
  assert (M0 : modifies s ARG 2048 s0).
  { eapply modifies_widen; [apply (modifies_put_bytes s ARG 1); simpl; lia|lia|lia]. }
  assert (Hc0 : command_at s0 p l) by (eapply command_frame; [exact M0|exact Hap|done]).
  assert (Hap0 : command_apart s0 p l) by (intros b; eapply unaliased_modifies; [exact M0|apply Hap]).
  assert (RF0 : region s0 FILENAME 32) by by apply region_put_bytes.
  assert (Hskip : wp (skip_spaces p 0) (fun j t => t = s0 /\ 0 <= j <= Z.of_nat (length l) /\
    drop (Z.to_nat j) l = drop_spaces l) (fun _ _ => False) s0).
  { apply (skip_spaces_spec s0 p l 0); [done|lia|done|]. intros j Hj Hdj. done. }
  apply wp_Ret in Hskip as (j & t & Hskip & -> & Hj & Hdj).
  assert (Hname : wp (parse_name p FILENAME (j, 0))
    (fun r t => (exists i, r = Some (i, 32)) /\ t = put_bytes FILENAME (command_name l) s0)
    (fun _ _ => False) s0).
  { apply (parse_name_spec s0 p l FILENAME j); [done|lia|done|done| |].
    { intros b. eapply unaliased_sub; [apply Hap0|unfold ARG, FILENAME; lia..]. }
    rewrite Hdj. fold (command_name l). cbv zeta. rewrite Hw. cbn [Nat.leb]. split; [by eexists|done]. }
  apply wp_Ret in Hname as (r & t & Hname & (i & ->) & ->).
  exists (put_bytes FILENAME (command_name l) s0). split.
  - unfold parse. rewrite Hnull, (bind_Ret _ _ _ _ _ H0), (bind_Ret _ _ _ _ _ Hskip),
      (bind_Ret _ _ _ _ _ Hname). apply bind_Fault.
    assert (Hf : mem_get (put_bytes FILENAME (command_name l) s0) (FILENAME + 32) = None).
    { rewrite mem_get_put_bytes_out by (apply outside_local2; unfold FILENAME; lia).
      unfold s0. rewrite mem_get_put_bytes_out; [done|]. apply outside_local2; unfold ARG, FILENAME; simpl; lia. }
    by apply store8_fault.
  - apply bytes_at_put_bytes. by rewrite Hw.
Qed.

End process_lemmas.

Section demo.
Let H := quiet_env.
Local Existing Instance H.

Lemma demo_command (s : kernel) : command_at s (cstr "shell") (bytes_of "shell").
Proof.
  exists []. split; [apply reads_Lit|]. split; by repeat constructor.
Qed.

(** The two arrays of [execute] and nothing else. *)
Definition demo_arrays : kernel := set_mem (ram ARG 128 ∪ ram FILENAME 32) initial_kernel.

Lemma demo_arrays_regions : region demo_arrays FILENAME 32 /\ region demo_arrays ARG 128.
Proof.
  split; apply region_locals; try (unfold FILENAME, ARG; lia); intros i Hi;
    change (mem (mach demo_arrays)) with (ram ARG 128 ∪ ram FILENAME 32).
  - rewrite lookup_union_r; [rewrite ram_lookup by lia; by eexists|].
    apply ram_of_lookup_None. unfold FILENAME, ARG. lia.
  - exists 0. apply lookup_union_Some_l, ram_lookup. lia.
Qed.
End demo.

Lemma parse_splits_witness :
  let H := quiet_env in
  exists r t, parse (cstr "shell") FILENAME ARG demo_arrays = Ret r t /\ bytes_at t FILENAME (bytes_of "shell" ++ [0]).
Proof.
  intros H. destruct (parse_splits demo_arrays (cstr "shell") (bytes_of "shell")) as (r & t & Hrun & _ & Hok & Hb & _).
  - apply demo_command.
  - reflexivity.
  - intros b. exact I.
  - reflexivity.
  - apply demo_arrays_regions.
  - apply demo_arrays_regions.
  - discriminate.
  - exists r, t. split; [exact Hrun|]. apply Hb, Hok. vm_compute. split; [lia|done].
Defined.

Lemma parse_overflows_witness :
  let H := quiet_env in
  exists t, parse (Lit (replicate 32 97 ++ [0])) FILENAME ARG demo_arrays = Fault (FILENAME + 32) t.
Proof.
  intros H. destruct (parse_overflows demo_arrays (Lit (replicate 32 97 ++ [0])) (replicate 32 97)) as (t & Hrun & _).
  - exists []. split; [apply reads_Lit|]. split; by repeat constructor.
  - reflexivity.
  - intros b. exact I.
  - reflexivity.
  - apply demo_arrays_regions.
  - apply demo_arrays_regions.
  - reflexivity.
  - unfold mem_get. rewrite cell_local by (unfold FILENAME; lia).
    change (mem (mach demo_arrays)) with (ram ARG 128 ∪ ram FILENAME 32).
    apply lookup_union_None. split; apply ram_of_lookup_None; unfold ARG, FILENAME; lia.
  - exists t. exact Hrun.
Defined.
