(* ===== verification/Execute.v ===== *)
(** Starting and ending a program, [src/student-distrib/system_call.c]: the image
    of the file system, what [execute] leads to, and what [halt] returns to. *)
From stdpp Require Import base numbers list gmap strings.
From Stdlib Require Import ZArith Lia.
From S2P Require Import Prelude Machine Strings Console Paging FileSys Terminal Descriptors Process.

Section execute.
Context `{Env}.

(** ** Kernel memory

    The kernel's own 4 MB, where the image of the file system is, hold the same
    bytes in two states, whatever programs the tables map. *)
Definition same_kmem (s t : kernel) : Prop :=
  tables_ok (pgs t) /\
  forall pa, 0x400000 <= pa < 0x800000 -> mem (mach t) !! pa = mem (mach s) !! pa.

Lemma kmem_cell s va :
  table_linked -> tables_ok (pgs s) -> 0x400000 <= va < 0x800000 -> cell (pgs s) va = Some va.
Proof.
  intros Hl Hok Hva. unfold cell. rewrite (proj2 (Z.ltb_ge va 0)) by lia.
  apply kernel_identity; [done|done|by left].
Qed.

Lemma kmem_get s t va :
  table_linked -> tables_ok (pgs s) -> same_kmem s t -> 0x400000 <= va < 0x800000 ->
  mem_get t va = mem_get s va.
Proof.
  intros Hl Hok [Hok' Hm] Hva. unfold mem_get. rewrite !kmem_cell by done. by apply Hm.
Qed.

Lemma same_kmem_trans s t u : same_kmem s t -> same_kmem t u -> same_kmem s u.
Proof. intros [_ H1] [Hok H2]. split; [done|]. intros pa Hpa. by rewrite H2, H1. Qed.

Lemma same_kmem_modifies s t a n :
  table_linked -> tables_ok (pgs s) -> modifies s a n t ->
  (forall va, 0x400000 <= va < 0x800000 -> outside (pgs s) a n va) -> same_kmem s t.
Proof.
  intros Hl Hok Hm Ho. assert (Hok' : tables_ok (pgs t)) by by rewrite (modifies_pgs _ _ _ _ Hm).
  split; [done|]. intros pa Hpa. pose proof (modifies_out _ _ _ _ _ Hm (Ho pa Hpa)) as Hm'.
  unfold mem_get in Hm'. by rewrite !kmem_cell in Hm'.
Qed.

Lemma same_kmem_local s t a n :
  table_linked -> tables_ok (pgs s) -> modifies s a n t -> a + n <= 0 -> same_kmem s t.
Proof.
  intros Hl Hok Hm Ha. eapply same_kmem_modifies; [done|done|exact Hm|].
  intros va Hva. apply outside_local; lia.
Qed.

(** The image of the file system: its directory, and inode [ino] of [size]
    bytes with the contents [data] of its blocks, all in the kernel's 4 MB. *)
Record image (s : kernel) (ds : list dentry) (dot : dentry) (ino size : Z)
    (blocks data : list Z) (max_data max_inode : Z) : Prop := {
  img_dir : directory s (boot_block_addr (fsg s)) ds dot;
  img_max_data : word_at s (data_block_num_at (boot_block_addr (fsg s))) max_data;
  img_max_inode : word_at s (inode_num_at (boot_block_addr (fsg s))) max_inode;
  img_stored : stored s ino size blocks data;
  img_boot_range : 0x400000 <= boot_block_addr (fsg s) /\ boot_block_addr (fsg s) + KB4 <= 0x800000;
  img_inode_range : 0x400000 <= inode_at (fsg s) ino /\
    inode_at (fsg s) ino + 4 + 4 * Z.of_nat (length blocks) <= 0x800000;
  img_data_range : forall k, 0 <= k < Z.of_nat (length data) ->
    0x400000 <= data_at (fsg s) blocks k < 0x800000 }.

Lemma kmem_bytes s t a l :
  table_linked -> tables_ok (pgs s) -> same_kmem s t ->
  0x400000 <= a -> a + Z.of_nat (length l) <= 0x800000 -> bytes_at s a l -> bytes_at t a l.
Proof.
  intros Hl Hok Hk Ha Hb Hat. eapply bytes_at_frame; [exact Hat|]. intros i Hi.
  apply kmem_get; [done|done|done|lia].
Qed.

Lemma kmem_word s t a v :
  table_linked -> tables_ok (pgs s) -> same_kmem s t ->
  0x400000 <= a -> a + 4 <= 0x800000 -> word_at s a v -> word_at t a v.
Proof.
  intros Hl Hok Hk Ha Hb (b0 & b1 & b2 & b3 & Hat & ->). exists b0, b1, b2, b3. split; [|done].
  by eapply kmem_bytes.
Qed.

Lemma block_num_range s ds dot ino size blocks data md mi j :
  image s ds dot ino size blocks data md mi -> 0 <= j < Z.of_nat (length blocks) ->
  block_num_at (inode_at (fsg s) ino) j = inode_at (fsg s) ino + 4 + 4 * j.
Proof.
  intros Himg Hj. destruct (img_inode_range _ _ _ _ _ _ _ _ _ Himg).
  unfold block_num_at. apply u32_small. lia.
Qed.

Lemma kmem_directory s t b ds dot :
  table_linked -> tables_ok (pgs s) -> same_kmem s t -> 0x400000 <= b /\ b + KB4 <= 0x800000 ->
  directory s b ds dot -> directory t b ds dot.
Proof.
  intros Hl Hok Hk Hr [D1 D2 D3 D4 D5 D6]. unfold KB4 in Hr. constructor; try done.
  - intros i d Hi. assert (i < 62)%nat by (rewrite <- D2; exact (lookup_lt_Some _ _ _ Hi)).
    destruct (Forall_lookup_1 _ _ _ _ D3 Hi) as [Ld _].
    apply (kmem_bytes s t _ d); [done|done|done| | |by apply D4]; unfold dentry_at, DENTRY_SIZE; lia.
  - apply (kmem_bytes s t _ dot); [done|done|done| | |exact D6]; unfold dir_dentry_at; lia.
Qed.

Lemma image_frame s t ds dot ino size blocks data md mi :
  table_linked -> tables_ok (pgs s) -> same_kmem s t -> fsg t = fsg s ->
  image s ds dot ino size blocks data md mi -> image t ds dot ino size blocks data md mi.
Proof.
  intros Hl Hok Hk Hf Himg. destruct Himg as [HD Hmd Hmi [S1 S2 S3 S4 S5] Hr1 Hr2 Hr3].
  pose proof (kmem_directory s t _ _ _ Hl Hok Hk Hr1 HD) as HD'. unfold KB4 in Hr1.
  constructor; rewrite ?Hf; try done.
  - eapply (kmem_word s t); [done|done|done| | |exact Hmd]; unfold data_block_num_at; lia.
  - eapply (kmem_word s t); [done|done|done| | |exact Hmi]; unfold inode_num_at; lia.
  - constructor; rewrite ?Hf; try done.
    + eapply (kmem_word s t); [done|done|done| | |exact S1]; lia.
    + intros j b Hj. pose proof (lookup_lt_Some _ _ _ Hj).
      assert (Hb : block_num_at (inode_at (fsg s) ino) (Z.of_nat j) =
        inode_at (fsg s) ino + 4 + 4 * Z.of_nat j) by (apply u32_small; lia).
      eapply (kmem_word s t); [done|done|done| | |by apply S2]; lia.
    + intros k b Hkb. pose proof (lookup_lt_Some _ _ _ Hkb).
      rewrite (kmem_get s t) by (done || (apply Hr3; lia)). by apply S5.
Qed.

Lemma image_apart s ds dot ino size blocks data md mi buf n :
  image s ds dot ino size blocks data md mi ->
  (forall va, 0x400000 <= va < 0x800000 -> outside (pgs s) buf n va) ->
  buffer_apart s ino blocks data buf n.
Proof.
  intros Himg Ho. pose proof (img_inode_range _ _ _ _ _ _ _ _ _ Himg). split.
  - intros j i Hj Hi. apply Ho. rewrite (block_num_range _ _ _ _ _ _ _ _ _ j Himg Hj). lia.
  - intros k Hk. apply Ho. by apply (img_data_range _ _ _ _ _ _ _ _ _ Himg).
Qed.

(** A read of the image into a buffer outside the kernel's 4 MB. *)
Lemma image_read s ds dot ino size blocks data md mi offset buf n :
  image s ds dot ino size blocks data md mi ->
  (forall va, 0x400000 <= va < 0x800000 -> outside (pgs s) buf n va) -> region s buf n ->
  ino < mi -> buffer buf n -> 0 <= offset < size -> 0 < n < 2 ^ 32 ->
  offset + n <= Z.of_nat (length data) -> offset + n <= 4096 * 1022 -> offset + n <= 4096 * md ->
  read_data ino offset buf n s =
    Ret n (put_bytes buf (take (Z.to_nat n) (drop (Z.to_nat offset) data)) s).
Proof.
  intros Himg Ho Hreg Hi Hb Hoff Hn Hl H1 H2.
  eapply read_data_spec; try done; try apply Himg. by eapply image_apart.
Qed.

(** ** Starting a program *)

(** The running terminal's process, if it has one. *)
Definition caller (s : kernel) (T : term) : Prop :=
  aget (terminal (ttys s)) (curr_scheduler (ttys s)) = Some T /\
  (term_pcb T <> NULL -> exists parent, running s (term_pcb T) parent).

(** The physical address of byte [i] of the image of process [k]. *)
Definition image_cell (k i : Z) : Z := EIGHT_MB + k * FOUR_MB + (PROGRAM_IMG - 0x8000000) + i.

(** Physical memory backs the program page of process [k] where an image of
    [size] bytes goes. *)
Definition program_backed (s : kernel) (k size : Z) : Prop :=
  forall i, 0 <= i < size -> is_Some (mem (mach s) !! image_cell k i).

(** The operation tables do not differ. *)
Definition same_tables (p q : procs) : Prop :=
  stdin_fops q = stdin_fops p /\ stdout_fops q = stdout_fops p /\ rtc_fops q = rtc_fops p /\
  dir_fops q = dir_fops p /\ file_fops q = file_fops p.

(** The state in which the new program starts. *)
Record launched (s : kernel) (T : term) (k size : Z) (arg data : list Z) (t : kernel) : Prop := {
  la_pid : pid (prc t) = <[Z.to_nat k := OCCUPIED]> (pid (prc s));
  la_counter : process_counter (prc t) = s32 (process_counter (prc s) + 1);
  la_ttys : ttys t = Tty (<[Z.to_nat (curr_scheduler (ttys s)) :=
      Term (pcb_addr k) (screen_x T) (screen_y T)]> (terminal (ttys s)))
    (current_terminal (ttys s)) (curr_scheduler (ttys s));
  la_child : exists ppid l, length l = 128%nat /\ cstring l = Some arg /\
    (term_pcb T = NULL -> ppid = -1) /\
    (forall parent, term_pcb T <> NULL -> running s (term_pcb T) parent -> ppid = pcb_pid parent) /\
    pcbs (prc t) !! pcb_addr k = Some (child_pcb (old_pcb s (pcb_addr k)) (term_pcb T) ppid k l
      (stdin_fops (prc s)) (stdout_fops (prc s)));
  la_parent : forall parent, term_pcb T <> NULL -> running s (term_pcb T) parent ->
    pcbs (prc t) !! term_pcb T = Some (set_halt_frame (ebp (mach s)) (esp (mach s)) parent);
  la_others : forall a, a <> pcb_addr k -> a <> term_pcb T -> pcbs (prc t) !! a = pcbs (prc s) !! a;
  la_tss : tss t = Tss KERNEL_DS (kernel_stack k);
  la_tables : tables_ok (pgs t) /\
    aget (page_directory (pgs t)) 32 = Some (2 ^ 22 * (2 + k) + 0x87);
  la_pgs : pgs t = program_at k (pgs s);
  la_program : bytes_at t PROGRAM_IMG (take (Z.to_nat size) data);
  la_kmem : same_kmem s t;
  la_mem : forall c, 0 <= c -> (forall i, 0 <= i < size -> c <> image_cell k i) ->
    mem (mach t) !! c = mem (mach s) !! c;
  la_ops : same_tables (prc s) (prc t);
  la_rest : fsg t = fsg s /\ kb t = kb s /\ pics t = pics s /\ idt t = idt s /\ iflag (mach t) = true /\
    global_halt (prc t) = global_halt (prc s) }.

(** The entry point in the header of a program. *)
Definition entry_of (data : list Z) : Z :=
  byte_of data 24 + byte_of data 25 * 2 ^ 8 + byte_of data 26 * 2 ^ 16 + byte_of data 27 * 2 ^ 24.

Lemma image_translate p k n i :
  tables_ok p -> 0 <= k < 6 -> PROGRAM_IMG + n <= 0x8400000 ->
  aget (page_directory p) 32 = Some (2 ^ 22 * (2 + k) + 0x87) -> 0 <= i < n ->
  cell p (PROGRAM_IMG + i) = Some (image_cell k i).
Proof.
  intros Hok Hk Hend H32 Hi. unfold image_cell, PROGRAM_IMG in *. unfold cell.
  rewrite (proj2 (Z.ltb_ge _ 0)) by lia.
  rewrite (program_translate p _ k) by (done || lia). f_equal. lia.
Qed.

Lemma program_region s k n :
  tables_ok (pgs s) -> 0 <= k < 6 -> 0 <= n -> PROGRAM_IMG + n <= 0x8400000 ->
  aget (page_directory (pgs s)) 32 = Some (2 ^ 22 * (2 + k) + 0x87) -> program_backed s k n ->
  region s PROGRAM_IMG n /\
  forall va, va < EIGHT_MB -> cell (pgs s) va = Some va -> outside (pgs s) PROGRAM_IMG n va.
Proof.
  intros Hok Hk Hn Hend H32 Hb.
  pose proof (fun i => image_translate (pgs s) k n i Hok Hk Hend H32) as Hcell.
  split.
  - split.
    + intros i Hi. unfold mem_get. rewrite Hcell by done. by apply Hb.
    + intros i j Hi Hj. rewrite !Hcell by done. unfold image_cell. intros [=]. lia.
  - intros va Hva Hc i Hi. rewrite Hcell, Hc by done. intros [=].
    unfold image_cell, PROGRAM_IMG, EIGHT_MB, FOUR_MB in *. lia.
Qed.

Lemma pcb_addr_pos k : 0 <= k < 6 -> pcb_addr k = EIGHT_MB - EIGHT_KB * (k + 1) /\ pcb_addr k <> NULL.
Proof.
  intros Hk. unfold pcb_addr, EIGHT_MB, EIGHT_KB, NULL. rewrite u32_small by lia. split; [done|lia].
Qed.

Lemma take_drop_word (data : list Z) :
  (28 <= length data)%nat ->
  take (Z.to_nat 4) (drop (Z.to_nat 24) data) =
    [byte_of data 24; byte_of data 25; byte_of data 26; byte_of data 27].
Proof.
  intros Hl. change (Z.to_nat 4) with 4%nat. change (Z.to_nat 24) with 24%nat.
  assert (Hb : forall i, (i < length data)%nat -> data !! i = Some (byte_of data i)).
  { intros i Hi. unfold byte_of. destruct (lookup_lt_is_Some_2 data i Hi) as [x Hx].
    rewrite Hx. f_equal. symmetry. by apply nth_lookup_Some. }
  do 4 (erewrite drop_S by (apply Hb; lia)). done.
Qed.

(** The process exists; its program is not loaded yet. *)
Record prepared (s : kernel) (T : term) (k : Z) (l : list Z) (t : kernel) : Prop := {
  pr_pid : pid (prc t) = <[Z.to_nat k := OCCUPIED]> (pid (prc s));
  pr_counter : process_counter (prc t) = s32 (process_counter (prc s) + 1);
  pr_halt : global_halt (prc t) = global_halt (prc s);
  pr_ttys : ttys t = Tty (<[Z.to_nat (curr_scheduler (ttys s)) :=
      Term (pcb_addr k) (screen_x T) (screen_y T)]> (terminal (ttys s)))
    (current_terminal (ttys s)) (curr_scheduler (ttys s));
  pr_pcbs : exists ppid, (term_pcb T = NULL -> ppid = -1) /\
    (forall parent, term_pcb T <> NULL -> running s (term_pcb T) parent -> ppid = pcb_pid parent) /\
    pcbs (prc t) = <[pcb_addr k := child_pcb (old_pcb s (pcb_addr k)) (term_pcb T) ppid k l
      (stdin_fops (prc s)) (stdout_fops (prc s))]> (pcbs (prc s));
  pr_mach : mach t = mach s;
  pr_ops : same_tables (prc s) (prc t);
  pr_tables : tables_ok (pgs t) /\
    aget (page_directory (pgs t)) 32 = Some (2 ^ 22 * (2 + k) + 0x87);
  pr_pgs : pgs t = program_at k (pgs s);
  pr_rest : fsg t = fsg s /\ kb t = kb s /\ pics t = pics s /\ idt t = idt s }.

Lemma launch_prepared s T k l d (Q : Z -> kernel -> Prop) E :
  tables_ok (pgs s) -> caller s T -> length (pid (prc s)) = 6%nat ->
  first_vacant (pid (prc s)) k ->
  length (file_descriptor (old_pcb s (pcb_addr k))) = 8%nat ->
  bytes_at s ARG l -> length l = 128%nat ->
  (forall t, prepared s T k l t -> wp (load_program d ;; enter_program k) Q E t) ->
  wp (launch d) Q E s.
Proof.
  intros Hok [HT Hpar] Hlp Hk Hlens Hl Hl128 HQ. pose proof Hk as (Hk6 & _).
  set (a := pcb_addr k) in *. set (cs := curr_scheduler (ttys s)) in *.
  unfold launch. do 3 wp_step. wp_step.
  set (s1 := set_process_counter (process_counter (prc s) + 1) s).
  wp_step. destruct (find_pid_spec s1 E) as [Hfind _]; [exact Hlp|].
  eapply wp_mono; [apply Hfind, Hk| |done]. intros k' t [-> ->].
  wp_step. eapply wp_mono; [apply (map_program_spec s1 k E); [exact Hok|exact Hk6]| |done].
  intros [] s2 (Hok2 & E2 & H32 & _ & Hpgs2). fold a.
  assert (F2 : ttys s2 = ttys s /\ prc s2 = prc s1 /\ mach s2 = mach s /\ fsg s2 = fsg s /\ kb s2 = kb s /\
    pics s2 = pics s /\ idt s2 = idt s) by by rewrite E2.
  destruct F2 as (Ft2 & Fp2 & Fm2 & Ff2 & Fk2 & Fi2 & Fd2). clear E2.
  assert (Hrun2 : forall b p, running s2 b p <-> running s b p).
  { intros b p. unfold running. rewrite Ft2, Fp2. done. }
  assert (Hold : old_pcb s2 a = old_pcb s a) by by (unfold old_pcb; rewrite Fp2).
  wp_step. eapply wp_mono; [apply (init_pcb_spec s2 a k l T E)| |done].
  { by rewrite Ft2. } { by rewrite Fp2. } { done. }
  { intros Hn. destruct (Hpar Hn) as [parent Hp]. exists parent. by apply Hrun2. }
  { intros i b Hi. rewrite <- (Hl i b Hi). pose proof (lookup_lt_Some _ _ _ Hi).
    unfold mem_get. rewrite !cell_local by (unfold ARG; lia). by rewrite Fm2. }
  { done. }
  { by rewrite Hold. }
  intros [] s3 (ppid & Hpp1 & Hpp2 & ->). apply HQ. rewrite Hold, Ft2.
  constructor; cbn; rewrite ?Ft2, ?Fp2, ?Fm2, ?Ff2, ?Fk2, ?Fi2, ?Fd2; try done.
  exists ppid. split; [done|]. split; [|done]. intros parent Hn Hp. by apply Hpp2, Hrun2.
Qed.

(** The program is in its page and its entry point in the local array. *)
Record loaded (s : kernel) (k size : Z) (data : list Z) (t : kernel) : Prop := {
  lo_mem : t = set_mem (mem (mach t)) s;
  lo_cells : forall c, 0 <= c -> (forall i, 0 <= i < size -> c <> image_cell k i) ->
    mem (mach t) !! c = mem (mach s) !! c;
  lo_program : bytes_at t PROGRAM_IMG (take (Z.to_nat size) data);
  lo_entry : bytes_at t ENTRY_POINT
    [byte_of data 24; byte_of data 25; byte_of data 26; byte_of data 27];
  lo_kmem : same_kmem s t }.

(** The four bytes of the entry point go to their array. *)
Lemma load_entry s d size blocks data md mi ds dot :
  table_linked -> tables_ok (pgs s) ->
  image s ds dot (inode_num_ d) size blocks data md mi -> inode_num_ d < mi ->
  28 <= size -> size <= Z.of_nat (length data) -> 28 <= 4096 * md ->
  exists t u, alloc_local ENTRY_POINT 4 s = Ret tt t /\
    read_data (inode_num_ d) 24 ENTRY_POINT 4 t = Ret 4 u /\ modifies s ENTRY_POINT 4 u /\
    bytes_at u ENTRY_POINT [byte_of data 24; byte_of data 25; byte_of data 26; byte_of data 27].
Proof.
  intros Hlink Hok Himg Hino Hs1 Hs2 Hs3.
  destruct (alloc_local_spec s ENTRY_POINT 4) as (t & R4 & M4 & G4); [unfold ENTRY_POINT; lia|].
  change (Z.of_nat 4) with 4 in *.
  assert (K4 : same_kmem s t) by (eapply same_kmem_local; [done|done|exact M4|unfold ENTRY_POINT; lia]).
  assert (Himgt : image t ds dot (inode_num_ d) size blocks data md mi).
  { eapply image_frame; [done|exact Hok|exact K4| |exact Himg]. by destruct M4 as [-> _]. }
  set (eb := [byte_of data 24; byte_of data 25; byte_of data 26; byte_of data 27]).
  exists t, (put_bytes ENTRY_POINT eb t). split; [done|]. split; [|split].
  - rewrite (image_read t ds dot (inode_num_ d) size blocks data md mi 24 ENTRY_POINT 4 Himgt);
      try done; try lia.
    + by rewrite take_drop_word by lia.
    + intros va Hva. apply outside_local; unfold ENTRY_POINT; lia.
    + right. unfold ENTRY_POINT. lia.
  - eapply modifies_trans; [exact M4|]. by apply modifies_put_bytes.
  - by apply bytes_at_put_bytes.
Qed.

Lemma load_program_spec s k d size blocks data md mi ds dot E :
  table_linked -> tables_ok (pgs s) -> 0 <= k < 6 ->
  aget (page_directory (pgs s)) 32 = Some (2 ^ 22 * (2 + k) + 0x87) ->
  image s ds dot (inode_num_ d) size blocks data md mi -> inode_num_ d < mi ->
  28 <= size -> size <= Z.of_nat (length data) -> size <= 4096 * 1022 -> size <= 4096 * md ->
  PROGRAM_IMG + size <= 0x8400000 -> program_backed s k size ->
  wp (load_program d) (fun _ t => loaded s k size data t) E s.
Proof.
  intros Hlink Hok Hk H32 Himg Hino Hs1 Hs2 Hs3 Hs4 Hend Hback. unfold load_program.
  destruct (load_entry s d size blocks data md mi ds dot) as (t & u & Rt & Ru & Mu & Bu); try done; try lia.
  wp_step. wp_use Rt. wp_step. unfold ENTRY_INDEX, FOUR_BYTE. wp_use Ru.
  assert (Hpg : pgs u = pgs s) by by apply (modifies_pgs _ _ _ _ Mu).
  assert (Hoku : tables_ok (pgs u)) by by rewrite Hpg.
  assert (Ku : same_kmem s u) by (eapply same_kmem_local; [done|done|exact Mu|unfold ENTRY_POINT; lia]).
  assert (Himgu : image u ds dot (inode_num_ d) size blocks data md mi).
  { eapply image_frame; [done|exact Hok|exact Ku| |exact Himg]. by destruct Mu as [-> _]. }
  do 3 wp_step. wp_use (load32_word u _ _ (st_size _ _ _ _ _ (img_stored _ _ _ _ _ _ _ _ _ Himgu))).
  assert (Hback5 : program_backed u k size).
  { intros i Hi. rewrite (proj2 Mu); [by apply Hback|].
    intros j Hj. rewrite cell_local by (unfold ENTRY_POINT; lia). intros [=].
    unfold image_cell, ENTRY_POINT, EIGHT_MB, FOUR_MB, PROGRAM_IMG in *. lia. }
  destruct (program_region u k size Hoku Hk ltac:(lia) Hend) as [G5 O5]; [by rewrite Hpg|done|].
  assert (O5k : forall va, 0x400000 <= va < 0x800000 -> outside (pgs u) PROGRAM_IMG size va).
  { intros va Hva. apply O5; [unfold EIGHT_MB; lia|]. by apply kmem_cell. }
  wp_step. wp_use (image_read u ds dot (inode_num_ d) size blocks data md mi 0 PROGRAM_IMG size Himgu
    O5k G5 Hino ltac:(left; unfold PROGRAM_IMG in *; lia) ltac:(lia) ltac:(lia) ltac:(lia) ltac:(lia) ltac:(lia)).
  apply wp_ret. change (drop (Z.to_nat 0) data) with data. set (img := take (Z.to_nat size) data).
  assert (Limg : Z.of_nat (length img) = size) by (unfold img; rewrite length_take_le; lia).
  assert (M6 : modifies u PROGRAM_IMG size (put_bytes PROGRAM_IMG img u)) by (apply modifies_put_bytes; lia).
  constructor.
  - destruct M6 as [-> _], Mu as [-> _]. done.
  - intros c Hc Hn. rewrite (proj2 M6), (proj2 Mu); [done| |].
    + intros i Hi. rewrite cell_local by (unfold ENTRY_POINT; lia). intros [=]. unfold ENTRY_POINT in *. lia.
    + intros i Hi. rewrite (image_translate _ k size) by (done || by rewrite Hpg). intros [=]. by apply (Hn i Hi).
  - apply bytes_at_put_bytes. fold img. by rewrite Limg.
  - eapply bytes_at_frame; [exact Bu|]. intros i Hi. simpl in Hi.
    rewrite (modifies_out _ _ _ _ _ M6); [done|].
    apply O5; [unfold ENTRY_POINT, EIGHT_MB; lia|]. apply cell_local. unfold ENTRY_POINT. lia.
  - eapply same_kmem_trans; [exact Ku|]. by eapply same_kmem_modifies.
Qed.

(** The last steps, from the prepared and loaded process into user mode. *)
Lemma enter_program_spec s T k size l arg data t u :
  length l = 128%nat -> cstring l = Some arg ->
  tables_ok (pgs s) -> term_pcb T <> pcb_addr k ->
  aget (terminal (ttys s)) (curr_scheduler (ttys s)) = Some T ->
  prepared s T k l t -> loaded t k size data u ->
  wp (enter_program k) (fun _ _ => False)
    (fun x v => x = EnterUser (entry_of data) /\ launched s T k size arg data v) u.
Proof.
  intros Hl128 Harg Hok Hne HT [P1 P2 P3 P4 (ppid & Pp1 & Pp2 & P5) P6 Po [P7 P8] Pg (P9 & P10 & P11 & P12)] [L1 L0 L2 L3 L4].
  set (a := pcb_addr k) in *. set (child := child_pcb _ _ _ _ _ _ _) in P5.
  assert (F : prc u = prc t /\ ttys u = ttys t /\ pgs u = pgs t /\ fsg u = fsg s /\ kb u = kb s /\
    pics u = pics s /\ idt u = idt s /\ ebp (mach u) = ebp (mach s) /\ esp (mach u) = esp (mach s)).
  { rewrite L1. cbn. by rewrite P6, P9, P10, P11, P12. }
  destruct F as (Fp & Ft & Fg & Ff & Fk & Fi & Fd & Fb & Fs).
  assert (Kst : same_kmem s u).
  { eapply same_kmem_trans; [|exact L4]. split; [done|]. by rewrite P6. }
  unfold enter_program, set_tss. wp_step. wp_step.
  set (u1 := on_tss _ u). assert (R1 : running u1 a child).
  { exists (Term a (screen_x T) (screen_y T)). cbn. rewrite Ft, Fp, P4, P5. cbn.
    split; [by eapply aget_insert|]. split; [done|]. apply lookup_insert_eq. }
  wp_step. wp_use (running_pcb_eq _ _ _ R1). change (parent_pcb child) with (term_pcb T).
  set (m := if term_pcb T =? NULL then pcbs (prc u) else
    <[term_pcb T := set_halt_frame (ebp (mach s)) (esp (mach s))
       (default (raw_pcb (term_pcb T)) (pcbs (prc s) !! term_pcb T))]> (pcbs (prc u))).
  wp_step. eapply wp_mono with (Q := fun _ t => t = set_pcbs m u1) (E := fun _ _ => False); [|..|done].
  { unfold m. destruct (Z.eqb_spec (term_pcb T) NULL) as [Hn|Hn]; cbn [negb].
    - apply wp_ret. unfold u1, set_pcbs, on_prc, on_tss. by destruct u as [? ? ? ? ? ? ? ? [] ?].
    - do 2 wp_step. unfold update_pcb. apply wp_modify. cbn. rewrite Fb, Fs.
      assert (Hsame : pcbs (prc u) !! term_pcb T = pcbs (prc s) !! term_pcb T).
      { by rewrite Fp, P5, lookup_insert_ne by done. }
      by rewrite Hsame. }
  intros [] v ->. wp_step. wp_use (load32_spec (set_pcbs m u1) _ _ _ _ _ L3).
  unfold context_switch. wp_step. wp_step. apply wp_modify. cbn. split; [done|].
  assert (Hm : m !! a = Some child).
  { unfold m. rewrite Fp, P5. destruct (term_pcb T =? NULL); [apply lookup_insert_eq|].
    by rewrite lookup_insert_ne, lookup_insert_eq. }
  constructor; cbn; rewrite ?Fp, ?Ft, ?Fg, ?Ff, ?Fk, ?Fi, ?Fd; try done.
  - by exists ppid, l.
  - intros parent Hn (T' & HT' & Ha & Hp). unfold m. rewrite (proj2 (Z.eqb_neq _ _)) by done.
    by rewrite lookup_insert_eq, Hp.
  - intros b Hb1 Hb2. unfold m. rewrite Fp, P5.
    destruct (term_pcb T =? NULL); rewrite !lookup_insert_ne; done.
  - intros c Hc Hn. by rewrite L0, P6.
Qed.

Lemma launch_spec s T k l arg d size blocks data md mi ds dot :
  table_linked -> tables_ok (pgs s) -> caller s T -> length (pid (prc s)) = 6%nat ->
  first_vacant (pid (prc s)) k -> term_pcb T <> pcb_addr k ->
  length (file_descriptor (old_pcb s (pcb_addr k))) = 8%nat ->
  bytes_at s ARG l -> length l = 128%nat -> cstring l = Some arg ->
  image s ds dot (inode_num_ d) size blocks data md mi -> inode_num_ d < mi ->
  28 <= size -> size <= Z.of_nat (length data) -> size <= 4096 * 1022 -> size <= 4096 * md ->
  PROGRAM_IMG + size <= 0x8400000 -> program_backed s k size ->
  wp (launch d) (fun _ _ => False)
    (fun x t => x = EnterUser (entry_of data) /\ launched s T k size arg data t) s.
Proof.
  intros Hlink Hok Hcl Hlp Hk Hne Hlens Hl Hl128 Harg Himg Hino Hs1 Hs2 Hs3 Hs4 Hend Hback.
  apply (launch_prepared s T k l); try done. intros t Hpr. pose proof Hpr as [_ _ _ _ _ P6 _ [P7 P8] _ (P9 & _)].
  assert (Kst : same_kmem s t) by (split; [done|by rewrite P6]).
  wp_step. eapply wp_mono; [apply (load_program_spec t k d size blocks data md mi ds dot
    (fun x t => x = EnterUser (entry_of data) /\ launched s T k size arg data t)); try done| |done].
  - by destruct Hk.
  - by apply (image_frame s).
  - intros i Hi. rewrite P6. by apply Hback.
  - intros [] u Hu. eapply enter_program_spec; try done. by destruct Hcl.
Qed.

(** ** The checks of [execute] *)

(** The two states differ in automatic arrays only. *)
Definition locals (s t : kernel) : Prop :=
  t = set_mem (mem (mach t)) s /\
  forall c, 0 <= c -> mem (mach t) !! c = mem (mach s) !! c.

Lemma locals_modifies s a n t : modifies s a n t -> a + n <= 0 -> locals s t.
Proof.
  intros [Ht Ho] Ha. split; [done|]. intros c Hc. apply Ho. intros i Hi.
  rewrite cell_local by lia. intros [=]. lia.
Qed.

Lemma locals_trans s t u : locals s t -> locals t u -> locals s u.
Proof.
  intros [Ht H1] [Hu H2]. split; [by rewrite Hu, Ht at 1|]. intros c Hc. by rewrite H2, H1.
Qed.

Lemma locals_kmem s t : table_linked -> tables_ok (pgs s) -> locals s t -> same_kmem s t.
Proof.
  intros Hl Hok [Ht Hm]. split; [by rewrite Ht|]. intros pa Hpa. apply Hm. lia.
Qed.

(** What follows [parse]: the name is in its array and the argument in its own. *)
Record parsed (s : kernel) (w arg : list Z) (t : kernel) : Prop := {
  pd_locals : locals s t;
  pd_name : bytes_at t FILENAME (w ++ [0]);
  pd_region : region t ARG 128;
  pd_arg : bytes_at t ARG (arg ++ [0]);
  pd_string : (length arg < 128)%nat /\ Forall (fun b => b <> 0) arg }.

(** Stores to other arrays below the two keep them. *)
Lemma parsed_modifies s w arg t b n u :
  parsed s w arg t -> (length w < 32)%nat -> modifies t b n u -> b + n <= ARG -> parsed s w arg u.
Proof.
  intros [Hloc Hname Hreg Harg [Hlen Hnz]] Hw Hm Hb. unfold ARG, FILENAME in *. constructor; [| | | |done].
  - eapply locals_trans; [exact Hloc|]. eapply locals_modifies; [exact Hm|lia].
  - eapply local_bytes; [exact Hname|exact Hm|lia|rewrite length_app; unfold FILENAME; simpl; lia|].
    right. unfold FILENAME. lia.
  - eapply region_modifies; [exact Hm|done|]. intros i Hi. apply outside_local2; unfold ARG; lia.
  - eapply local_bytes; [exact Harg|exact Hm|lia|rewrite length_app; unfold ARG; simpl; lia|].
    right. unfold ARG. lia.
Qed.

Lemma name_reads t w : bytes_at t FILENAME (w ++ [0]) -> reads t (Addr FILENAME) (w ++ 0 :: []).
Proof. apply bytes_at_reads. Qed.

Lemma filename_apart t l a n :
  Z.of_nat (length l) <= 32 -> a + n <= FILENAME -> unaliased t (Addr FILENAME) l a n.
Proof.
  intros Hl Ha i Hi. apply outside_local2; unfold FILENAME in *; lia.
Qed.

(** Looking the parsed name up changes nothing but locals. *)
Lemma lookup_parsed s w arg t ds dot (Q : Z * dentry -> kernel -> Prop) E :
  parsed s w arg t -> Forall (fun b => b <> 0) w -> bytes w -> (length w < 32)%nat -> w <> [46] ->
  directory t (boot_block_addr (fsg t)) ds dot ->
  (forall u, parsed s w arg u -> locals t u ->
     Q (match find_dentry w ds with Some d => (SUCCESS, d) | None => (FAILURE, []) end) u) ->
  wp (read_dentry_by_name (Addr FILENAME) []) Q E t.
Proof.
  intros Hp Hnz Hb Hlen Hdot Hdir HQ. pose proof (pd_name _ _ _ _ Hp) as Hname.
  apply (read_dentry_by_name_spec t (Addr FILENAME) w [] ds dot); [by apply name_reads|done|done| |done|].
  { apply filename_apart; [rewrite length_app; simpl; lia|unfold TEMP, FILENAME; lia]. }
  intros u Hu. rewrite bool_decide_eq_false_2 by done.
  assert (Hlu : locals t u) by (eapply locals_modifies; [exact Hu|unfold TEMP; lia]).
  apply HQ; [|done]. eapply parsed_modifies; [done|done|exact Hu|unfold ARG, TEMP; lia].
Qed.

Lemma kmem_locals_image s t ds dot ino size blocks data md mi :
  table_linked -> tables_ok (pgs s) -> locals s t ->
  image s ds dot ino size blocks data md mi -> image t ds dot ino size blocks data md mi.
Proof.
  intros Hl Hok Hloc Himg. eapply image_frame; [done|exact Hok|by apply locals_kmem| |done].
  by destruct Hloc as [-> _].
Qed.

(** [isExe] on a file whose first four bytes are [m]. *)
Lemma isExe_spec s w arg t ds dot d size blocks data md mi (Q : Z -> kernel -> Prop) E :
  table_linked -> tables_ok (pgs s) -> parsed s w arg t ->
  Forall (fun b => b <> 0) w -> bytes w -> (length w < 32)%nat -> w <> [46] ->
  image s ds dot (inode_num_ d) size blocks data md mi -> inode_num_ d < mi ->
  find_dentry w ds = Some d -> 4 <= size -> size <= Z.of_nat (length data) -> 4 <= 4096 * md ->
  (forall u, parsed s w arg u ->
     Q (if bool_decide (take 4 data = magic_identifiers) then SUCCESS else FAILURE) u) ->
  wp (isExe (Addr FILENAME)) Q E t.
Proof.
  intros Hlink Hok Hp Hnz Hb Hlen Hdot Himg Hino Hd Hs1 Hs2 Hmd HQ.
  assert (Himgt : image t ds dot (inode_num_ d) size blocks data md mi).
  { eapply kmem_locals_image; [done|exact Hok|apply Hp|done]. }
  unfold isExe. cbn [is_null]. change (FILENAME =? NULL) with false. cbv iota. wp_step.
  eapply (lookup_parsed s w arg t ds dot); [done..|apply Himgt|].
  intros u Hu Hltu. rewrite Hd. cbv iota beta. change (SUCCESS =? FAILURE) with false. cbv iota.
  destruct (alloc_local_spec u ISEXE_BUF 8) as (v & Rv & Mv & Gv); [unfold ISEXE_BUF; lia|].
  change (Z.of_nat 8) with 8 in *. wp_step. wp_use Rv.
  assert (Hlv : locals t v).
  { eapply locals_trans; [exact Hltu|]. eapply locals_modifies; [exact Mv|unfold ISEXE_BUF; lia]. }
  assert (Hokt : tables_ok (pgs t)) by (destruct Hp as [[-> _] _ _]; exact Hok).
  assert (Himgv : image v ds dot (inode_num_ d) size blocks data md mi).
  { by eapply kmem_locals_image. }
  pose proof (region_mono v ISEXE_BUF 8 0 4 Gv ltac:(lia) ltac:(lia)) as G4. rewrite Z.add_0_r in G4.
  wp_step. unfold FOUR_BYTE.
  wp_use (image_read v ds dot (inode_num_ d) size blocks data md mi 0 ISEXE_BUF 4 Himgv
    ltac:(intros va Hva; apply outside_local; unfold ISEXE_BUF; lia) G4 Hino
    ltac:(right; unfold ISEXE_BUF; lia) ltac:(lia) ltac:(lia) ltac:(lia) ltac:(lia) ltac:(lia)).
  change (drop (Z.to_nat 0) data) with data. change (Z.to_nat 4) with 4%nat.
  set (m := take 4 data). assert (Lm : length m = 4%nat) by (unfold m; rewrite length_take_le; lia).
  assert (Bm : bytes m).
  { unfold m. apply Forall_take. apply (st_bytes _ _ _ _ _ (img_stored _ _ _ _ _ _ _ _ _ Himg)). }
  set (x := put_bytes ISEXE_BUF m v).
  assert (Mx : modifies v ISEXE_BUF 8 x) by (apply modifies_put_bytes; rewrite Lm; lia).
  assert (Hux : parsed s w arg x).
  { eapply parsed_modifies; [exact Hu|done|by eapply modifies_trans|unfold ISEXE_BUF, ARG; lia]. }
  assert (Hcmp : exists c, strncmp_ref 4 m magic_identifiers = Some c /\ (c = 0 <-> m = magic_identifiers)).
  { clear -Lm Bm. destruct m as [|b0 [|b1 [|b2 [|b3 [|]]]]]; try done.
    change magic_identifiers with [0x7F; 0x45; 0x4C; 0x46]. cbn [strncmp_ref].
    inversion Bm as [|? ? R0 B1]; subst. inversion B1 as [|? ? R1 B2]; subst.
    inversion B2 as [|? ? R2 B3]; subst. inversion B3 as [|? ? R3 _]; subst.
    destruct (Z.eqb_spec b0 0x7F) as [->|N0]; cbn [negb orb Z.eqb].
    2:{ eexists. split; [done|]. split; [intros He; apply s8_inj in He; [done|lia|lia]|congruence]. }
    destruct (Z.eqb_spec b1 0x45) as [->|N1]; cbn [negb orb Z.eqb].
    2:{ eexists. split; [done|]. split; [intros He; apply s8_inj in He; [done|lia|lia]|congruence]. }
    destruct (Z.eqb_spec b2 0x4C) as [->|N2]; cbn [negb orb Z.eqb].
    2:{ eexists. split; [done|]. split; [intros He; apply s8_inj in He; [done|lia|lia]|congruence]. }
    destruct (Z.eqb_spec b3 0x46) as [->|N3]; cbn [negb orb Z.eqb].
    2:{ eexists. split; [done|]. split; [intros He; apply s8_inj in He; [done|lia|lia]|congruence]. }
    by eexists. }
  destruct Hcmp as (c & Hc & Hcz).
  assert (Hx : bytes_at x ISEXE_BUF m) by (apply bytes_at_put_bytes; by rewrite Lm).
  wp_step. wp_use (strncmp_spec x (Addr ISEXE_BUF) (Lit magic_identifiers) m magic_identifiers 4 c
    (bytes_at_reads _ _ _ Hx) (reads_Lit _ _) ltac:(lia) Hc).
  specialize (HQ x Hux). destruct (Z.eqb_spec c 0) as [E0|E0]; apply wp_ret.
  - by rewrite bool_decide_eq_true_2 in HQ by tauto.
  - by rewrite bool_decide_eq_false_2 in HQ by tauto.
Qed.

(** The bytes of the argument array. *)
Lemma arg_bytes s w arg t :
  parsed s w arg t -> exists l, length l = 128%nat /\ bytes_at t ARG l /\ cstring l = Some arg.
Proof.
  intros [_ _ [Hm _] Harg [Hlen Hnz]].
  set (l := map (fun i => default 0 (mem_get t (ARG + i))) (seqZ 0 128)).
  assert (Hat : bytes_at t ARG l).
  { intros i b Hi. unfold l in Hi. rewrite list_lookup_fmap in Hi.
    destruct (seqZ 0 128 !! i) as [j|] eqn:Hj; [|done]. injection Hi as <-.
    apply lookup_seqZ in Hj as [-> Hj]. rewrite Z.add_0_l. destruct (Hm (Z.of_nat i)) as [b Hb]; [lia|].
    by rewrite Hb. }
  exists l. split; [done|]. split; [done|]. rewrite <- (take_drop (length (arg ++ [0%Z])) l).
  assert (Htake : take (length (arg ++ [0%Z])) l = arg ++ [0]).
  { assert (Hl : (length (arg ++ [0%Z]) <= length l)%nat) by (rewrite length_app; simpl; lia).
    apply list_eq_same_length with (length (arg ++ [0%Z])); [done|by rewrite length_take_le|].
    intros i x y Hi Hx Hy. rewrite lookup_take_lt in Hx by done. apply Harg in Hy. apply Hat in Hx.
    congruence. }
  rewrite Htake, <- app_assoc. by apply cstring_app.
Qed.

Lemma launched_locals s t T k size l data u :
  table_linked -> tables_ok (pgs s) -> locals s t -> launched t T k size l data u ->
  launched s T k size l data u.
Proof.
  intros Hl Hok Hloc Hla. pose proof (locals_kmem s t Hl Hok Hloc) as Hk.
  destruct Hloc as [Ht Hcells]. assert (F : prc t = prc s /\ ttys t = ttys s /\ fsg t = fsg s /\ kb t = kb s /\
    pics t = pics s /\ idt t = idt s /\ pgs t = pgs s /\
    ebp (mach t) = ebp (mach s) /\ esp (mach t) = esp (mach s)) by by rewrite Ht.
  destruct F as (Fp & Ft & Ff & Fk & Fi & Fd & Fg & Fb & Fs).
  destruct Hla as [L1 L2 L3 L4 L5 L6 L7 L8 Lg L9 L10 Lm Lo L11]. unfold running, old_pcb in *.
  rewrite Fp, Ft in *. rewrite Ff, Fk, Fi, Fd in L11. rewrite Fg in Lg. rewrite Fb, Fs in L5.
  constructor; try done; [by eapply same_kmem_trans|]. intros c Hc Hn. by rewrite Lm, Hcells.
Qed.

(** What [execute] needs of the machine to start inode [ino] as process [k]. *)
Record startable (s : kernel) (T : term) (k ino size : Z) (blocks data : list Z)
    (ds : list dentry) (dot : dentry) (md mi : Z) : Prop := {
  sa_tables : tables_ok (pgs s);
  sa_caller : caller s T;
  sa_pids : length (pid (prc s)) = 6%nat;
  sa_vacant : first_vacant (pid (prc s)) k;
  sa_fresh : term_pcb T <> pcb_addr k;
  sa_fds : length (file_descriptor (old_pcb s (pcb_addr k))) = 8%nat;
  sa_image : image s ds dot ino size blocks data md mi;
  sa_inode : ino < mi;
  sa_size : 28 <= size /\ size <= Z.of_nat (length data) /\ size <= 4096 * 1022 /\ size <= 4096 * md /\
    PROGRAM_IMG + size <= 0x8400000;
  sa_backed : program_backed s k size }.

Lemma execute_file_spec s w arg t T k d size blocks data ds dot md mi (Q : Z -> kernel -> Prop)
    (E : transfer -> kernel -> Prop) :
  table_linked -> parsed s w arg t -> Forall (fun b => b <> 0) w -> bytes w -> (length w < 32)%nat ->
  w <> [46] -> startable s T k (inode_num_ d) size blocks data ds dot md mi ->
  term_pcb T = NULL \/ process_counter (prc s) <> MAX_PID ->
  (find_dentry w ds = None -> forall u, locals s u -> Q FAILURE u) ->
  (find_dentry w ds = Some d -> take 4 data <> magic_identifiers -> forall u, locals s u -> Q FAILURE u) ->
  (find_dentry w ds = Some d -> take 4 data = magic_identifiers ->
     forall u, launched s T k size arg data u -> E (EnterUser (entry_of data)) u) ->
  (forall d', find_dentry w ds = Some d' -> d' = d) ->
  wp execute_file Q E t.
Proof.
  intros Hlink Hp Hnz Hb Hlen Hdot [Hok [HT Hpar] Hpl Hvac Hfresh Hfds Himg Hino Hsz Hback] Hfull Q1 Q2 Q3 Hd.
  destruct Hsz as (Z1 & Z2 & Z3 & Z4 & Z5). pose proof (pd_locals _ _ _ _ Hp) as Hst.
  assert (Ft : prc t = prc s /\ ttys t = ttys s /\ fsg t = fsg s /\ pgs t = pgs s)
    by by destruct Hst as [-> _].
  destruct Ft as (Fp & Ftt & Ff & Fg). unfold execute_file. do 2 wp_step. wp_step.
  eapply wp_of_Ret; [apply (get_term_eq _ _ T); by rewrite Ftt|]. do 2 wp_step. wp_step.
  assert (Hguard : negb (term_pcb T =? NULL) && (process_counter (prc t) =? MAX_PID) = false).
  { rewrite Fp. destruct Hfull as [-> | Hc]; [done|]. by rewrite (proj2 (Z.eqb_neq _ MAX_PID)), andb_false_r. }
  rewrite Hguard. apply wp_ret. cbv beta iota.
  assert (Himgt : image t ds dot (inode_num_ d) size blocks data md mi) by by eapply kmem_locals_image.
  wp_step. apply (lookup_parsed s w arg t ds dot); [done..|apply Himgt|]. intros u Hu _.
  destruct (find_dentry w ds) as [d'|] eqn:Hfd.
  2:{ apply wp_ret. apply Q1; [done|]. apply Hu. }
  rewrite (Hd d' eq_refl) in *. clear Hd. cbv iota beta. change (SUCCESS =? FAILURE) with false. cbv iota.
  wp_step. apply (isExe_spec s w arg u ds dot d size blocks data md mi); try done; try lia.
  intros v Hv. case_bool_decide as Hmag.
  2:{ apply wp_ret. apply Q2; [done|done|]. apply Hv. }
  change (SUCCESS =? FAILURE) with false. cbv iota.
  destruct (arg_bytes _ _ _ _ Hv) as (l & Ll & Bl & Cl). pose proof (pd_locals _ _ _ _ Hv) as Hsv.
  assert (Fv : prc v = prc s /\ ttys v = ttys s /\ fsg v = fsg s /\ pgs v = pgs s)
    by by destruct Hsv as [-> _].
  destruct Fv as (Fpv & Ftv & Ffv & Fgv).
  eapply wp_mono; [apply (launch_spec v T k l arg d size blocks data md mi ds dot); try done| |].
  - by rewrite Fgv.
  - split; [by rewrite Ftv|]. intros Hn. destruct (Hpar Hn) as [parent (T' & ? & ? & ?)].
    exists parent, T'. by rewrite Ftv, Fpv.
  - by rewrite Fpv.
  - by rewrite Fpv.
  - unfold old_pcb. by rewrite Fpv.
  - by eapply kmem_locals_image.
  - intros i Hi. destruct Hsv as [_ ->]; [by apply Hback|].
    destruct Hvac as [Hk6 _]. unfold image_cell, EIGHT_MB, FOUR_MB, PROGRAM_IMG. lia.
  - done.
  - intros x u' [-> Hla]. eapply Q3; [done|done|]. by eapply launched_locals.
Qed.

(** The characters of a command's name are characters of the command. *)
Lemma command_name_chars l (P : Z -> Prop) : Forall P l -> Forall P (command_name l).
Proof.
  intros Hl. unfold command_name. destruct (drop_spaces_drop l) as (k & -> & _).
  destruct (first_word_prefix (drop k l)) as (r & Hr).
  apply (Forall_drop _ k) in Hl. rewrite Hr in Hl. by apply Forall_app in Hl as [? _].
Qed.

Lemma reads_iflag s p l b : reads s p l -> reads (set_iflag b s) p l.
Proof.
  intros Hr i x Hi. specialize (Hr i x Hi). destruct p as [a|l0]; simpl in *.
  - apply load8_inv in Hr as [Hm _]. by apply load8_get.
  - unfold get_or_fault, ret, fault in *. destruct (aget l0 _); congruence.
Qed.

Lemma command_arg_chars l (P : Z -> Prop) : Forall P l -> Forall P (command_arg l).
Proof.
  intros Hl. unfold command_arg. destruct (drop_spaces_drop l) as (k & -> & _). rewrite drop_drop.
  destruct (drop_spaces_drop (drop (k + length (command_name l)) l)) as (m & -> & _).
  by apply Forall_drop, Forall_drop.
Qed.

(** A command without a name has no argument. *)
Lemma command_arg_short l : (length (command_name l) = 0 -> length (command_arg l) = 0)%nat.
Proof.
  unfold command_arg. intros Hw. rewrite Hw. unfold command_name in Hw. cbn [drop]. induction l as [|b l IH]; [done|].
  simpl in *. destruct (b =? SPACE) eqn:Eb; [by apply IH|]. simpl in Hw. by rewrite Eb in Hw.
Qed.

(** [execute] up to the end of [parse]. *)
Lemma execute_parse s p l (Q : Z -> kernel -> Prop) E :
  let s0 := set_iflag false s in
  command_at s p l -> is_null p = false -> command_apart s p l -> Z.of_nat (length l) < 2 ^ 31 ->
  length (command_name l) <> 32%nat ->
  ((32 < length (command_name l))%nat \/
     128 < Z.of_nat (length (command_arg l)) + Z.of_nat (length (command_name l)) ->
   forall t, locals s0 t -> Q FAILURE t) ->
  ((length (command_name l) < 32)%nat ->
     Z.of_nat (length (command_arg l)) + Z.of_nat (length (command_name l)) <= 128 ->
   forall t, parsed s0 (command_name l) (command_arg l) t -> wp execute_file Q E t) ->
  wp (execute p) Q E s.
Proof.
  intros s0 Hc Hnull Hap Hlen Hw Qbad Qok. unfold execute, cli. wp_step. apply wp_modify. fold s0.
  destruct (alloc_local_spec s0 FILENAME 32) as (s1 & R1 & M1 & G1); [unfold FILENAME; lia|].
  destruct (alloc_local_spec s1 ARG 128) as (s2 & R2 & M2 & G2); [unfold ARG; lia|].
  change (Z.of_nat 32) with 32 in *. change (Z.of_nat 128) with 128 in *.
  wp_step. wp_use R1. wp_step. wp_use R2. wp_step.
  assert (W1 : modifies s0 ARG 2048 s1) by (eapply modifies_widen; [exact M1|unfold ARG, FILENAME; lia..]).
  assert (W2 : modifies s0 ARG 2048 s2).
  { eapply modifies_trans; [exact W1|]. eapply modifies_widen; [exact M2|lia|lia]. }
  assert (Hap0 : command_apart s0 p l) by exact Hap.
  assert (Hc2 : command_at s2 p l).
  { eapply (command_frame s0); [exact W2|exact Hap0|]. destruct Hc as (b & Hr & Hrest). exists b.
    split; [by apply reads_iflag|done]. }
  assert (Hap2 : command_apart s2 p l) by (intros b; eapply unaliased_modifies; [exact W2|apply Hap0]).
  assert (GF : region s2 FILENAME 32).
  { eapply region_modifies; [exact M2|exact G1|]. intros i Hi. apply outside_local2; unfold ARG, FILENAME; lia. }
  eapply wp_mono; [apply (parse_spec s2 p l); done| |done].
  intros r t [Ht Hpost].
  assert (Wt : locals s0 t).
  { eapply locals_modifies; [eapply modifies_trans; [exact W2|exact Ht]|unfold ARG; lia]. }
  destruct (length (command_name l) <? 32)%nat eqn:E1;
    destruct (Z.of_nat (length (command_arg l)) <=? 128 - Z.of_nat (length (command_name l))) eqn:E2;
    cbn [andb] in Hpost;
    first [apply Nat.ltb_ge in E1 | apply Nat.ltb_lt in E1]; unbool.
  - destruct Hpost as (-> & Hn & Harg & Hreg). change (SUCCESS =? FAILURE) with false. cbv iota.
    destruct Hc as (_ & _ & Hnz & _).
    apply Qok; [done|lia|]. constructor; [done..|]. split; [|by apply command_arg_chars].
    pose proof (command_arg_short l). lia.
  - subst r. apply wp_ret. apply Qbad; [right; lia|done].
  - subst r. apply wp_ret. apply Qbad; [left; lia|done].
  - subst r. apply wp_ret. apply Qbad; [left; lia|done].
Qed.

(** A name no entry has. *)
Lemma execute_unknown s p l T ds dot E :
  table_linked -> command_at s p l -> is_null p = false -> command_apart s p l ->
  Z.of_nat (length l) < 2 ^ 31 -> (length (command_name l) < 32)%nat -> command_name l <> [46] ->
  Z.of_nat (length (command_arg l)) + Z.of_nat (length (command_name l)) <= 128 ->
  tables_ok (pgs s) -> aget (terminal (ttys s)) (curr_scheduler (ttys s)) = Some T ->
  process_counter (prc s) <> MAX_PID ->
  0x400000 <= boot_block_addr (fsg s) /\ boot_block_addr (fsg s) + KB4 <= 0x800000 ->
  directory s (boot_block_addr (fsg s)) ds dot -> find_dentry (command_name l) ds = None ->
  wp (execute p) (fun r t => r = FAILURE /\ locals (set_iflag false s) t) E s.
Proof.
  intros Hlink Hc Hnull Hap Hlen Hw Hdot Ha Hok HT Hfull Hr Hdir Hfd. pose proof Hc as (_ & _ & Hnz & Hb).
  apply (execute_parse s p l); try done; [lia|]. intros _ _ t Hp.
  set (s0 := set_iflag false s) in *. pose proof (pd_locals _ _ _ _ Hp) as Hst.
  assert (Ft : prc t = prc s /\ ttys t = ttys s /\ fsg t = fsg s) by by destruct Hst as [-> _].
  destruct Ft as (Fp & Ftt & Ff). unfold execute_file. do 2 wp_step. wp_step.
  eapply wp_of_Ret; [apply (get_term_eq _ _ T); by rewrite Ftt|]. do 2 wp_step. wp_step.
  rewrite Fp, (proj2 (Z.eqb_neq _ MAX_PID) Hfull), andb_false_r. apply wp_ret. cbv beta iota. wp_step.
  apply (lookup_parsed s0 (command_name l) (command_arg l) t ds dot); try done.
  - by apply command_name_chars.
  - by apply command_name_chars.
  - rewrite Ff. apply (kmem_directory s0 t); [done|exact Hok|by apply locals_kmem|done|].
    apply (kmem_directory s s0); [done|exact Hok|by split|done|exact Hdir].
  - intros u Hu _. rewrite Hfd. apply wp_ret. split; [done|]. apply Hu.
Qed.

(** ** Ending a program *)

(** Every open descriptor's table has a close operation. *)
Definition closable (fds : list file_array) : Prop :=
  Forall (fun d => flags_ d <> 0 -> close_ (pointer_ d) ∈
    [fn_terminal_close; fn_rtc_close; fn_dir_close; fn_file_close]) fds.

(** Descriptor [j] after [halt]'s loop has passed the first [i]. *)
Definition closed_upto (i : Z) (fds : list file_array) : list file_array :=
  imap (fun j d => if (2 <=? Z.of_nat j) && (Z.of_nat j <? i) && (flags_ d =? 1)
                   then FileArray (pointer_ d) 0 0 0 else d) fds.

Lemma closed_upto_step i fds d :
  0 <= i -> fds !! Z.to_nat i = Some d ->
  closed_upto (i + 1) fds =
    if (2 <=? i) && (flags_ d =? 1)
    then <[Z.to_nat i := FileArray (pointer_ d) 0 0 0]> (closed_upto i fds) else closed_upto i fds.
Proof.
  intros Hi Hd. apply list_eq. intros j.
  destruct (decide (j = Z.to_nat i)) as [->|Hne].
  - unfold closed_upto. rewrite list_lookup_imap, Hd. simpl. rewrite Z2Nat.id by lia.
    rewrite (proj2 (Z.ltb_lt i (i + 1))), andb_true_r by lia.
    pose proof (lookup_lt_Some _ _ _ Hd).
    destruct ((2 <=? i) && (flags_ d =? 1)) eqn:E.
    + rewrite list_lookup_insert_eq by (rewrite length_imap; done). done.
    + rewrite list_lookup_imap, Hd. simpl. rewrite Z2Nat.id by lia.
      by rewrite (proj2 (Z.ltb_ge i i)), andb_false_r by lia.
  - assert (Hsame : closed_upto (i + 1) fds !! j = closed_upto i fds !! j).
    { unfold closed_upto. rewrite !list_lookup_imap. destruct (fds !! j) as [d'|]; [|done]. simpl.
      do 2 f_equal. destruct (Z.ltb_spec (Z.of_nat j) (i + 1)), (Z.ltb_spec (Z.of_nat j) i); try done; lia. }
    rewrite Hsame. destruct (_ && _); [|done]. by rewrite list_lookup_insert_ne.
Qed.

Lemma closed_upto_lookup i fds d :
  0 <= i -> fds !! Z.to_nat i = Some d -> closed_upto i fds !! Z.to_nat i = Some d.
Proof.
  intros Hi Hd. unfold closed_upto. rewrite list_lookup_imap, Hd. simpl. rewrite Z2Nat.id by lia.
  by rewrite (proj2 (Z.ltb_ge i i)), andb_false_r by lia.
Qed.

Definition with_fds (a : Z) (p : pcb) (fds : list file_array) (s : kernel) : kernel :=
  with_pcb a (set_file_descriptor fds p) s.

Lemma halt_close_loop s a p E :
  running s a p -> length (file_descriptor p) = 8%nat -> closable (file_descriptor p) ->
  wp (for_up (Z.to_nat (END_OF_FDA + 1)) 0 halt_close)
    (fun _ t => t = with_fds a p (closed_upto 8 (file_descriptor p)) s) E s.
Proof.
  intros Hr Hl Hc. change (Z.to_nat (END_OF_FDA + 1)) with 8%nat.
  apply (wp_for_up (fun i t => t = with_fds a p (closed_upto i (file_descriptor p)) s)).
  - assert (Hz : closed_upto 0 (file_descriptor p) = file_descriptor p).
    { apply list_eq. intros j. unfold closed_upto. rewrite list_lookup_imap.
      destruct (file_descriptor p !! j) as [d|]; [|done]. simpl.
      by rewrite (proj2 (Z.ltb_ge _ 0)), andb_false_r by lia. }
    rewrite Hz. destruct Hr as (T & _ & _ & Hp). unfold with_fds, with_pcb, set_pcbs, on_prc.
    replace (set_file_descriptor (file_descriptor p) p) with p by by destruct p.
    rewrite insert_id by done. by destruct s as [? ? ? ? ? ? ? ? [] ?].
  - intros i t Hi ->. destruct (lookup_lt_is_Some_2 (file_descriptor p) (Z.to_nat i)) as [d Hd]; [lia|].
    set (fds := closed_upto i (file_descriptor p)).
    assert (Hf : aget fds i = Some d) by (apply aget_lookup; [lia|apply closed_upto_lookup; [lia|done]]).
    assert (Hrt : running (with_fds a p fds s) a (set_file_descriptor fds p)) by by eapply running_with_pcb.
    rewrite (closed_upto_step i _ d) by (done || lia). fold fds.
    unfold halt_close. wp_step. wp_use (running_fd_eq _ _ _ i d Hrt Hf).
    destruct (Z.eqb_spec (flags_ d) 1) as [Hopen|Hopen]; [|apply wp_ret; by rewrite andb_false_r].
    wp_step. destruct (Z.leb_spec 2 i) as [H2|H2]; cbn [andb].
    + assert (Hclose : close_ (pointer_ d) ∈ [fn_terminal_close; fn_rtc_close; fn_dir_close; fn_file_close]).
      { apply (Forall_lookup_1 _ _ _ _ Hc Hd). lia. }
      wp_use (close_eq _ a _ i d Hrt ltac:(lia) Hf ltac:(lia) Hclose). apply wp_ret.
      unfold with_fd, with_fds. by rewrite with_pcb_twice.
    + eapply (wp_of_Ret _ _ _ FAILURE); [|by apply wp_ret].
      unfold close, BEGINING_FDA. by rewrite (proj2 (Z.ltb_lt i 2)) by lia.
  - intros t ->. done.
Qed.

(** A program that [execute] started from another one. *)
Record child_of (s : kernel) (T : term) (child parent : pcb) : Prop := {
  co_term : aget (terminal (ttys s)) (curr_scheduler (ttys s)) = Some T;
  co_child : pcbs (prc s) !! term_pcb T = Some child;
  co_parent : pcbs (prc s) !! parent_pcb child = Some parent;
  co_pid : 0 <= pcb_pid child < 6 /\ length (pid (prc s)) = 6%nat;
  co_ppid : 0 <= parent_pid child < 6;
  co_fds : length (file_descriptor child) = 8%nat /\ closable (file_descriptor child);
  co_apart : parent_pcb child <> term_pcb T }.

(** The state in which the parent goes on. *)
Record halted (s : kernel) (T : term) (child parent : pcb) (status : Z) (t : kernel) : Prop := {
  ha_pid : pid (prc t) = <[Z.to_nat (pcb_pid child) := VACANT]> (pid (prc s));
  ha_counter : process_counter (prc t) = s32 (process_counter (prc s) - 1);
  ha_status : global_status (prc t) = u8 status /\ global_halt (prc t) = global_halt (prc s);
  ha_ttys : ttys t = Tty (<[Z.to_nat (curr_scheduler (ttys s)) :=
      Term (parent_pcb child) (screen_x T) (screen_y T)]> (terminal (ttys s)))
    (current_terminal (ttys s)) (curr_scheduler (ttys s));
  ha_pcbs : pcbs (prc t) = <[term_pcb T :=
      set_file_descriptor (closed_upto 8 (file_descriptor child)) child]> (pcbs (prc s));
  ha_tss : tss t = Tss (ss0 (tss s)) (kernel_stack (parent_pid child));
  ha_tables : tables_ok (pgs t) /\
    aget (page_directory (pgs t)) 32 = Some (2 ^ 22 * (2 + parent_pid child) + 0x87);
  ha_pgs : pgs t = program_at (parent_pid child) (pgs s);
  ha_ops : same_tables (prc s) (prc t);
  ha_frame : ebp (mach t) = halt_ebp parent /\ esp (mach t) = halt_esp parent;
  ha_mem : mem (mach t) = mem (mach s) /\ fsg t = fsg s /\ kb t = kb s;
  ha_cpu : pics t = pics s /\ idt t = idt s }.

Lemma halt_spec s T child parent status :
  tables_ok (pgs s) -> child_of s T child parent ->
  wp (halt status) (fun _ _ => False) (fun x t => x = JmpReturn /\ halted s T child parent status t) s.
Proof.
  intros Hok [HT Hch Hpar [Hpid Hlp] Hppid [Hl Hc] Hap].
  set (Ex := fun x t => x = JmpReturn /\ halted s T child parent status t).
  set (a := term_pcb T) in *. set (cs := curr_scheduler (ttys s)) in *.
  assert (Hrun : running s a child) by by exists T.
  unfold halt. do 2 wp_step. wp_step. wp_use (running_pcb_eq _ _ _ Hrun). fold cs.
  wp_step. wp_use (set_pid_eq s (pcb_pid child) VACANT ltac:(lia)).
  set (s1 := set_pids _ s). rewrite (proj2 (Z.eqb_neq (parent_pid child) (-1))) by lia.
  wp_step. apply wp_ret. assert (Hrun1 : running s1 a child) by by exists T.
  wp_step. wp_use (running_pcb_eq _ _ _ Hrun1).
  wp_step. eapply wp_mono; [apply (map_program_spec s1 _ Ex); [exact Hok|exact Hppid]| |done].
  intros [] s2 (Hok2 & E2 & H32 & _ & Hpgs2).
  assert (F2 : prc s2 = prc s1 /\ ttys s2 = ttys s /\ mach s2 = mach s /\ fsg s2 = fsg s /\ kb s2 = kb s /\
    tss s2 = tss s /\ pics s2 = pics s /\ idt s2 = idt s) by by rewrite E2.
  destruct F2 as (Fp & Ft & Fm & Ff & Fk & Fs & Fi & Fd). clear E2.
  wp_step. unfold set_esp0. wp_step. do 2 wp_step. wp_step.
  eapply wp_get_or_fault; [cbn; rewrite Fp; exact Hpar|]. wp_step. wp_step.
  set (s3 := set_frame _ _ _). assert (Hrun3 : running s3 a child).
  { exists T. cbn. rewrite Ft, Fp. done. }
  wp_step. eapply wp_mono; [apply (halt_close_loop s3 a child Ex); done| |done].
  intros [] s4 ->. set (child' := set_file_descriptor (closed_upto 8 (file_descriptor child)) child).
  assert (Hrun4 : running (with_pcb a child' s3) a child') by by eapply running_with_pcb.
  unfold with_fds. fold child'. wp_step. wp_use (running_pcb_eq _ _ _ Hrun4).
  unfold set_term_pcb. wp_step. wp_step.
  assert (HT4 : aget (terminal (ttys (with_pcb a child' s3))) cs = Some T) by (cbn; by rewrite Ft).
  wp_use (get_term_eq _ _ _ HT4). wp_use (put_term_eq _ _ _ (Term (parent_pcb child') (screen_x T) (screen_y T)) HT4).
  do 4 wp_step. wp_step. wp_step. cbn. split; [done|].
  constructor; cbn; rewrite ?Fp, ?Ft, ?Fm, ?Ff, ?Fk, ?Fs, ?Fi, ?Fd; done.
Qed.

Lemma startable_iflag s b T k ino size blocks data ds dot md mi :
  table_linked -> startable s T k ino size blocks data ds dot md mi ->
  startable (set_iflag b s) T k ino size blocks data ds dot md mi.
Proof.
  intros Hl [S1 S2 S3 S4 S5 S6 S7 S8 S9 S10].
  assert (Himg : image (set_iflag b s) ds dot ino size blocks data md mi).
  { apply (image_frame s); [done|exact S1|split; [exact S1|done]|done|exact S7]. }
  exact (Build_startable (set_iflag b s) T k ino size blocks data ds dot md mi
    S1 S2 S3 S4 S5 S6 Himg S8 S9 S10).
Qed.

Lemma launched_iflag s b T k size l data t :
  launched (set_iflag b s) T k size l data t -> launched s T k size l data t.
Proof.
  intros [L1 L2 L3 L4 L5 L6 L7 L8 L9 L10 L11 L12 L13 L14].
  exact (Build_launched s T k size l data t L1 L2 L3 L4 L5 L6 L7 L8 L9 L10 L11 L12 L13 L14).
Qed.

(** ** Properties *)

(** The successful run of [execute] as a triple. *)
Lemma execute_spec s p l T k d size blocks data ds dot md mi :
  table_linked -> command_at s p l -> is_null p = false -> command_apart s p l ->
  Z.of_nat (length l) < 2 ^ 31 ->
  (length (command_name l) < 32)%nat ->
  Z.of_nat (length (command_arg l)) + Z.of_nat (length (command_name l)) <= 128 ->
  command_name l <> [46] -> find_dentry (command_name l) ds = Some d ->
  take 4 data = magic_identifiers ->
  startable s T k (inode_num_ d) size blocks data ds dot md mi ->
  term_pcb T = NULL \/ process_counter (prc s) <> MAX_PID ->
  wp (execute p) (fun _ _ => False) (fun x t => x = EnterUser (entry_of data) /\
    launched s T k size (command_arg l) data t) s.
Proof.
  intros Hlink Hc Hnull Hap Hlen Hw Ha Hdot Hfd Hmag Hst Hfull.
  pose proof Hc as (_ & _ & Hnz & Hb). set (w := command_name l) in *.
  apply (execute_parse s p l); try done; [fold w; lia|fold w; intros [?|?]; lia|].
  intros _ _ t Hp. fold w in Hp. apply (startable_iflag s false) in Hst; [|done].
  eapply (execute_file_spec (set_iflag false s) w (command_arg l) t T k d size blocks data ds dot md mi); try done.
  - by apply command_name_chars.
  - by apply command_name_chars.
  - intros Hnone. congruence.
  - intros _ _ u Hla. split; [done|]. by eapply launched_iflag.
  - intros d' Hd'. congruence.
Qed.

(** C4: starting a program.  When a command names a file that begins with the
    ELF magic number and a process number is free, [execute] leaves the kernel
    for the entry point in the file's header.  In that state the file's bytes
    are at the program's address, the user page and the kernel stack belong to
    the new process number, the new control block has the terminal as
    descriptors 0 and 1, has the rest of the command as its argument and points
    to the caller, the caller's frame is saved, the process is counted, and no
    other byte of memory but the arrays of [execute] has changed. *)
Theorem execute_starts s p l T k d size blocks data ds dot md mi :
  table_linked -> command_at s p l -> is_null p = false -> command_apart s p l ->
  Z.of_nat (length l) < 2 ^ 31 ->
  let w := command_name l in
  (length w < 32)%nat -> Z.of_nat (length (command_arg l)) + Z.of_nat (length w) <= 128 ->
  w <> [46] -> find_dentry w ds = Some d -> take 4 data = magic_identifiers ->
  startable s T k (inode_num_ d) size blocks data ds dot md mi ->
  term_pcb T = NULL \/ process_counter (prc s) <> MAX_PID ->
  exists t, execute p s = Leave (EnterUser (entry_of data)) t /\
    launched s T k size (command_arg l) data t.
Proof.
  intros Hlink Hc Hnull Hap Hlen w Hw Ha Hdot Hfd Hmag Hst Hfull.
  pose proof (execute_spec s p l T k d size blocks data ds dot md mi
    Hlink Hc Hnull Hap Hlen Hw Ha Hdot Hfd Hmag Hst Hfull) as Hwp.
  apply wp_Leave in Hwp as (x & t & Hrun & -> & Hla). by exists t.
Qed.

(** C27: refused commands.  A name or argument that does not fit, a name no
    directory entry has and a file without the ELF magic number make [execute]
    return -1 to its caller with nothing changed but its own arrays and the
    interrupt flag, which is off. *)
Theorem execute_refuses s p l T k d size blocks data ds dot md mi :
  table_linked -> command_at s p l -> is_null p = false -> command_apart s p l ->
  Z.of_nat (length l) < 2 ^ 31 ->
  let w := command_name l in
  length w <> 32%nat -> w <> [46] ->
  startable s T k (inode_num_ d) size blocks data ds dot md mi ->
  term_pcb T = NULL \/ process_counter (prc s) <> MAX_PID ->
  (32 < length w)%nat \/ 128 < Z.of_nat (length (command_arg l)) + Z.of_nat (length w) \/
    find_dentry w ds = None \/ (find_dentry w ds = Some d /\ take 4 data <> magic_identifiers) ->
  exists t, execute p s = Ret FAILURE t /\ locals (set_iflag false s) t.
Proof.
  intros Hlink Hc Hnull Hap Hlen w Hw Hdot Hst Hfull Hbad.
  pose proof Hc as (_ & _ & Hnz & Hb).
  assert (Hwp : wp (execute p) (fun r t => r = FAILURE /\ locals (set_iflag false s) t)
    (fun _ _ => False) s).
  { apply (execute_parse s p l); try done. intros Hlt Hle t Hp. fold w in Hlt, Hle, Hp.
    assert (Hbad' : find_dentry w ds = None \/ (find_dentry w ds = Some d /\ take 4 data <> magic_identifiers)).
    { destruct Hbad as [?|[?|?]]; [lia|lia|done]. }
    apply (startable_iflag s false) in Hst; [|done].
    eapply (execute_file_spec (set_iflag false s) w (command_arg l) t T k d size blocks data ds dot md mi); try done.
    - by apply command_name_chars.
    - by apply command_name_chars.
    - intros Hfd Hmag. exfalso. destruct Hbad' as [?|[_ ?]]; congruence.
    - intros d' Hd'. destruct Hbad' as [?|[? _]]; congruence. }
  apply wp_Ret in Hwp as (r & t & Hrun & -> & Hl). by exists t.
Qed.

(** C26: ending a program.  [halt] of a program started by another one frees its
    number and its open files, gives the user page, the kernel stack and the
    terminal back to the parent, and continues in the parent's [execute] with
    the frame saved there.  That [execute] returns 256 when an exception ended
    the program and 0 otherwise - whatever status [halt] was given. *)
Theorem halt_resumes s T child parent status :
  tables_ok (pgs s) -> child_of s T child parent ->
  exists t, halt status s = Leave JmpReturn t /\ halted s T child parent status t /\
    exists u, execute_return t = Ret (if global_halt (prc s) =? 1 then 256 else 0) u /\
      mach u = mach t /\ ttys u = ttys t /\ global_halt (prc u) <> 1.
Proof.
  intros Hok Hch. pose proof (halt_spec s T child parent status Hok Hch) as Hwp.
  apply wp_Leave in Hwp as (x & t & Hrun & -> & Hha). exists t.
  split; [done|]. split; [done|]. destruct (ha_status _ _ _ _ _ _ Hha) as [_ Hg].
  unfold execute_return, bind, gets. rewrite <- Hg.
  destruct (Z.eqb_spec (global_halt (prc t)) 1); by eexists.
Qed.

(** C5: [execute] and [halt] balance.  When the program [execute] started halts,
    in any state that still has its process bookkeeping, the table of process
    numbers, the process count, every terminal's control block pointer and the
    frame registers are those at the call of [execute]. *)
Theorem execute_halt_balance s T k size arg data t parent u child status :
  launched s T k size arg data t -> caller s T -> term_pcb T <> NULL ->
  running s (term_pcb T) parent -> first_vacant (pid (prc s)) k ->
  - 2 ^ 31 <= process_counter (prc s) < 2 ^ 31 - 1 ->
  (* what the running program leaves of the kernel's state *)
  tables_ok (pgs u) -> pid (prc u) = pid (prc t) -> process_counter (prc u) = process_counter (prc t) ->
  terminal (ttys u) = terminal (ttys t) -> curr_scheduler (ttys u) = curr_scheduler (ttys t) ->
  pcb_pid child = k -> parent_pcb child = term_pcb T ->
  child_of u (Term (pcb_addr k) (screen_x T) (screen_y T)) child
    (set_halt_frame (ebp (mach s)) (esp (mach s)) parent) ->
  exists v, halt status u = Leave JmpReturn v /\
    pid (prc v) = pid (prc s) /\ process_counter (prc v) = process_counter (prc s) /\
    terminal (ttys v) = terminal (ttys s) /\
    ebp (mach v) = ebp (mach s) /\ esp (mach v) = esp (mach s).
Proof.
  intros Hla [HT _] Hn Hrun (Hk & Hvac & _) Hcnt Hok Hpid Hctr Hterm Hcs Hck Hcp Hch.
  pose proof (halt_spec u _ child _ status Hok Hch) as Hwp.
  apply wp_Leave in Hwp as (x & v & Hrunv & -> & Hha). exists v. split; [done|].
  pose proof (la_pid _ _ _ _ _ _ _ Hla) as L1. pose proof (la_counter _ _ _ _ _ _ _ Hla) as L2.
  pose proof (la_ttys _ _ _ _ _ _ _ Hla) as L3. destruct Hha as [H1 H2 _ H4 _ _ _ _ _ [H5 H6] _ _].
  split_and!.
  - rewrite H1, Hpid, L1, Hck, list_insert_insert_eq. apply list_insert_id.
    unfold aget in Hvac. by destruct ((0 <=? k) && _).
  - rewrite H2, Hctr, L2. rewrite (s32_small (process_counter (prc s) + 1)) by lia.
    rewrite s32_small by lia. lia.
  - rewrite H4, Hterm, Hcs, L3, Hcp. cbn. rewrite list_insert_insert_eq. apply list_insert_id.
    unfold aget in HT. destruct ((0 <=? _) && _); [|done]. by destruct T.
  - by rewrite H5.
  - by rewrite H6.
Qed.

(** C38: descriptor 7 of a new process.  [init_pcb] opens descriptors 0 and 1 and
    closes 2 to 6; descriptor 7 keeps whatever the control block's memory held,
    open if it said so. *)
Theorem init_pcb_skips_seven s a k l T :
  aget (terminal (ttys s)) (curr_scheduler (ttys s)) = Some T ->
  length (pid (prc s)) = 6%nat -> 0 <= k < 6 ->
  (term_pcb T <> NULL -> exists parent, running s (term_pcb T) parent) ->
  bytes_at s ARG l -> length l = 128%nat -> length (file_descriptor (old_pcb s a)) = 8%nat ->
  exists t p, init_pcb a ARG k s = Ret tt t /\ running t a p /\ pcb_pid p = k /\
    aget (file_descriptor p) 0 = Some (FileArray (stdin_fops (prc s)) 0 0 1) /\
    aget (file_descriptor p) 1 = Some (FileArray (stdout_fops (prc s)) 0 0 1) /\
    (forall i, 2 <= i <= 6 -> exists d, aget (file_descriptor p) i = Some d /\ flags_ d = 0) /\
    aget (file_descriptor p) 7 = aget (file_descriptor (old_pcb s a)) 7.
Proof.
  intros HT Hlp Hk Hpar Hl Hl128 Hfds.
  pose proof (init_pcb_spec s a k l T (fun _ _ => False) HT Hlp Hk Hpar Hl Hl128 Hfds) as Hwp.
  apply wp_Ret in Hwp as ([] & t & Hrun & ppid & _ & _ & ->). eexists _, _. split; [exact Hrun|].
  split.
  { eexists. split; [by eapply get_with_term; exact HT|]. split; [done|]. cbn. apply lookup_insert_eq. }
  destruct (file_descriptor (old_pcb s a)) as [|d0 [|d1 [|d2 [|d3 [|d4 [|d5 [|d6 [|d7 [|]]]]]]]]] eqn:E; try done.
  cbn [child_pcb set_file_descriptor file_descriptor]. rewrite E. split_and!; try done.
  intros i Hi. assert (Hc : i = 2 \/ i = 3 \/ i = 4 \/ i = 5 \/ i = 6) by lia.
  destruct Hc as [->|[->|[->|[->| ->]]]]; by eexists.
Qed.

End execute.

(** * A closed example: a shell whose image holds the program [shell] *)

(** The program's 29 bytes: the magic number, text, the entry point [0x8048001];
    three lines for who reads it as text. *)
Definition demo_file : list Z :=
  0x7F :: bytes_of "ELF" ++ 10 :: bytes_of "the shell" ++ 10 :: bytes_of "good bye,"
    ++ [1; 0x80; 4; 8; 10].

Definition demo_exec_byte (a : Z) : Z :=
  if a =? 0x500000 then 2 else if a =? 0x500004 then 1 else if a =? 0x500008 then 1
  else if a =? 0x500040 then 46 else if a =? 0x500060 then 1
  else if a =? 0x500080 then 115 else if a =? 0x500081 then 104
  else if a =? 0x500082 then 101 else if a =? 0x500083 then 108 else if a =? 0x500084 then 108 else if a =? 0x5000A0 then 2
  else if a =? 0x501000 then 29
  else if (0x502000 <=? a) && (a <? 0x50201D) then nth (Z.to_nat (a - 0x502000)) demo_file 0
  else 0.

Definition demo_exec : kernel :=
  set_mem (ram_of demo_exec_byte 0x500000 0x800000)
    (on_pgs (fun _ => demo_tables)
      (on_fsg (fun _ => Fsys 0x500000 0x501000 0x502000 (-1))
        (set_terminal [Term 0x7FE000 0 0; zero_term; zero_term]
          (on_prc (fun _ => Procs [1; -1; -1; -1; -1; -1] 0 0 0 stdin_table stdout_table
             null_fops null_fops file_table {[ 0x7FE000 := demo_pcb ]}) initial_kernel)))).

Definition demo_exec_bytes (a n : Z) : list Z := map demo_exec_byte (seqZ a n).
Definition demo_exec_dents : list dentry :=
  map (fun i => demo_exec_bytes (0x500080 + 64 * i) 64) (seqZ 0 62).
Definition demo_caller : term := Term 0x7FE000 0 0.

Section demo.
Let H := quiet_env.
Local Existing Instance H.

Lemma demo_exec_length a n : 0 <= n -> length (demo_exec_bytes a n) = Z.to_nat n.
Proof. intros Hn. unfold demo_exec_bytes. by rewrite length_map, length_seqZ. Qed.

Lemma demo_file_range i : 0 <= nth i demo_file 0 < 256.
Proof.
  destruct (nth_in_or_default i demo_file 0) as [Hin| ->]; [|lia].
  assert (Hall : forallb (fun b => (0 <=? b) && (b <? 256)) demo_file = true) by by vm_compute.
  rewrite forallb_forall in Hall. specialize (Hall _ Hin). unbool. lia.
Qed.

Lemma demo_exec_byte_range a : 0 <= demo_exec_byte a < 256.
Proof.
  unfold demo_exec_byte. repeat (destruct (a =? _); [lia|]). destruct (_ && _); [apply demo_file_range|lia].
Qed.

Lemma demo_exec_range a n : bytes (demo_exec_bytes a n).
Proof.
  apply Forall_forall. intros b (i & -> & _)%list_elem_of_fmap. apply demo_exec_byte_range.
Qed.

Lemma demo_exec_at a n :
  0x500000 <= a -> 0 <= n -> a + n <= 0x800000 -> bytes_at demo_exec a (demo_exec_bytes a n).
Proof.
  intros Ha Hn He. pose proof (demo_exec_length a n Hn) as Hl.
  apply (bytes_at_identity demo_exec demo_exec_byte 0x500000 0x800000); [reflexivity|lia|lia| |].
  - intros i Hi. apply kmem_cell; [apply demo_table_linked|apply demo_tables_ok|lia].
  - by rewrite Hl, Z2Nat.id.
Qed.

Lemma demo_exec_word a v :
  0x500000 <= a -> a + 4 <= 0x800000 ->
  v = demo_exec_byte a + demo_exec_byte (1 + a) * 2 ^ 8 + demo_exec_byte (2 + a) * 2 ^ 16
    + demo_exec_byte (3 + a) * 2 ^ 24 -> word_at demo_exec a v.
Proof. intros Ha He Hv. do 4 eexists. split; [|exact Hv]. apply (demo_exec_at a 4); lia. Qed.

Lemma demo_exec_data k :
  0 <= k < 4096 -> data_at (fsg demo_exec) [0] k = 0x502000 + k.
Proof.
  intros Hk. unfold data_at. rewrite Z.mod_small, Z.div_small by lia.
  change (Z.to_nat 0) with O. cbn [nth]. change (block_at (fsg demo_exec) 0) with 0x502000.
  apply u32_small. lia.
Qed.

Lemma demo_exec_image :
  image demo_exec demo_exec_dents (demo_exec_bytes 0x500040 64) 0 29 [0]
    (demo_exec_bytes 0x502000 4096) 1 1.
Proof.
  constructor.
  - constructor; [done|reflexivity| | |reflexivity|apply demo_exec_at; lia].
    + apply Forall_forall. intros d (i & -> & _)%list_elem_of_fmap.
      split; [by apply demo_exec_length|apply demo_exec_range].
    + intros i d Hd. apply list_lookup_fmap_Some in Hd as (j & -> & Hj).
      apply lookup_seqZ in Hj as [-> Hj].
      change (dentry_at (boot_block_addr (fsg demo_exec)) (Z.of_nat i)) with (0x500000 + 128 + 64 * Z.of_nat i).
      replace (0x500000 + 128 + 64 * Z.of_nat i) with (0x500080 + 64 * (0 + Z.of_nat i)) by lia.
      apply demo_exec_at; lia.
  - by apply demo_exec_word.
  - by apply demo_exec_word.
  - constructor.
    + by apply demo_exec_word.
    + intros j b Hj. destruct j as [|j]; [|done]. injection Hj as <-. by apply demo_exec_word.
    + by rewrite demo_exec_length.
    + apply demo_exec_range.
    + intros k b Hk. pose proof (lookup_lt_Some _ _ _ Hk) as Hl. rewrite demo_exec_length in Hl by lia.
      rewrite demo_exec_data by lia. by apply (demo_exec_at 0x502000 4096).
  - cbn. unfold KB4. lia.
  - change (inode_at (fsg demo_exec) 0) with 0x501000. simpl. lia.
  - intros k Hk. rewrite demo_exec_length in Hk by lia. rewrite demo_exec_data; lia.
Qed.

Lemma demo_exec_running : running demo_exec 0x7FE000 demo_pcb.
Proof. exists demo_caller. split; [done|]. split; [done|]. apply lookup_singleton_eq. Qed.

Lemma demo_exec_vacant : first_vacant (pid (prc demo_exec)) 1.
Proof.
  split; [lia|]. split; [done|]. intros i Hi. assert (i = 0) as -> by lia. by eexists.
Qed.

Lemma demo_startable :
  startable demo_exec demo_caller 1 0 29 [0] (demo_exec_bytes 0x502000 4096) demo_exec_dents
    (demo_exec_bytes 0x500040 64) 1 1.
Proof.
  constructor.
  - apply demo_tables_ok.
  - split; [done|]. intros _. exists demo_pcb. apply demo_exec_running.
  - done.
  - apply demo_exec_vacant.
  - done.
  - unfold old_pcb. change (pcbs (prc demo_exec)) with ({[ 0x7FE000 := demo_pcb ]} : gmap Z pcb).
    by rewrite lookup_singleton_ne.
  - apply demo_exec_image.
  - lia.
  - rewrite demo_exec_length by lia. unfold PROGRAM_IMG. lia.
  - intros i Hi. change (mem (mach demo_exec)) with (ram_of demo_exec_byte 0x500000 0x800000).
    rewrite ram_of_lookup; [by eexists|]. unfold image_cell, EIGHT_MB, FOUR_MB, PROGRAM_IMG. lia.
Qed.

Lemma demo_find : find_dentry (bytes_of "shell") demo_exec_dents = Some (demo_exec_bytes 0x500080 64).
Proof. by vm_compute. Qed.

Lemma demo_launched :
  exists t, execute (cstr "shell") demo_exec = Leave (EnterUser 0x8048001) t /\
    launched demo_exec demo_caller 1 29 [] (demo_exec_bytes 0x502000 4096) t.
Proof.
  cut (wp (execute (cstr "shell")) (fun _ _ => False) (fun x t => x = EnterUser 0x8048001 /\
    launched demo_exec demo_caller 1 29 [] (demo_exec_bytes 0x502000 4096) t) demo_exec).
  { intros Hwp. apply wp_Leave in Hwp as (x & t & Hrun & -> & Hla). exists t. exact (conj Hrun Hla). }
  apply (execute_spec demo_exec (cstr "shell") (bytes_of "shell") demo_caller 1
    (demo_exec_bytes 0x500080 64) 29 [0] (demo_exec_bytes 0x502000 4096) demo_exec_dents
    (demo_exec_bytes 0x500040 64) 1 1 demo_table_linked (demo_command _)).
  - reflexivity.
  - intros b. exact I.
  - reflexivity.
  - apply Nat.ltb_lt. reflexivity.
  - apply Z.leb_le. reflexivity.
  - discriminate.
  - apply demo_find.
  - reflexivity.
  - apply demo_startable.
  - right. discriminate.
Qed.
Lemma demo_child_fds parent arg :
  let c := child_pcb (old_pcb demo_exec (pcb_addr 1)) parent 0 1 arg stdin_table stdout_table in
  length (file_descriptor c) = 8%nat /\ closable (file_descriptor c).
Proof.
  unfold old_pcb. change (pcbs (prc demo_exec)) with ({[ 0x7FE000 := demo_pcb ]} : gmap Z pcb).
  rewrite lookup_singleton_ne by done. cbn [default child_pcb file_descriptor set_file_descriptor].
  split; [reflexivity|]. repeat constructor; cbn; try done; intros _; set_solver.
Qed.
End demo.

Lemma execute_starts_witness :
  let H := quiet_env in
  exists t, execute (cstr "shell") demo_exec = Leave (EnterUser 0x8048001) t /\ tss t = Tss 0x18 0x7FDFFC.
Proof.
  intros H. destruct (execute_starts demo_exec (cstr "shell") (bytes_of "shell") demo_caller 1
    (demo_exec_bytes 0x500080 64) 29 [0] (demo_exec_bytes 0x502000 4096) demo_exec_dents
    (demo_exec_bytes 0x500040 64) 1 1) as (t & Hrun & Hla).
  - apply demo_table_linked.
  - apply demo_command.
  - reflexivity.
  - intros b. exact I.
  - reflexivity.
  - apply Nat.ltb_lt. reflexivity.
  - apply Z.leb_le. reflexivity.
  - discriminate.
  - apply demo_find.
  - reflexivity.
  - apply demo_startable.
  - right. discriminate.
  - exists t. split; [exact Hrun|]. apply (la_tss _ _ _ _ _ _ _ Hla).
Defined.

Lemma execute_refuses_witness :
  let H := quiet_env in
  exists t, execute (cstr "no") demo_exec = Ret FAILURE t /\ locals (set_iflag false demo_exec) t.
Proof.
  intros H. apply (execute_refuses demo_exec (cstr "no") [110; 111] demo_caller 1
    (demo_exec_bytes 0x500080 64) 29 [0] (demo_exec_bytes 0x502000 4096) demo_exec_dents
    (demo_exec_bytes 0x500040 64) 1 1).
  - apply demo_table_linked.
  - exists []. split; [apply reads_Lit|]. split; by repeat constructor.
  - reflexivity.
  - intros b. exact I.
  - reflexivity.
  - discriminate.
  - discriminate.
  - apply demo_startable.
  - right. discriminate.
  - right. right. left. vm_compute. reflexivity.
Defined.

(** Process 1 running under the shell. *)
Definition demo_child : pcb :=
  Pcb 1 0 0 0 0 0 (replicate 128 0)
    (FileArray stdin_table 0 0 1 :: FileArray stdout_table 0 0 1 :: FileArray file_table 0 9 1
       :: replicate 5 (FileArray null_fops 0 0 0)) 0x7FE000.

Definition demo_two : kernel :=
  set_terminal [Term 0x7FC000 5 6; zero_term; zero_term]
    (on_prc (fun p => Procs [1; 1; -1; -1; -1; -1] 0 0 1 (stdin_fops p) (stdout_fops p) (rtc_fops p)
       (dir_fops p) (file_fops p) {[ 0x7FE000 := demo_pcb; 0x7FC000 := demo_child ]}) demo_exec).

Lemma halt_resumes_witness :
  let H := quiet_env in
  exists t u, halt 7 demo_two = Leave JmpReturn t /\ pid (prc t) = [1; -1; -1; -1; -1; -1] /\
    execute_return t = Ret 0 u.
Proof.
  intros H. destruct (halt_resumes demo_two (Term 0x7FC000 5 6) demo_child demo_pcb 7)
    as (t & Hrun & Hha & u & Hret & _).
  - apply demo_tables_ok.
  - constructor; try reflexivity; try (cbn; lia).
    split; [reflexivity|]. repeat constructor; cbn; try done; intros _; set_solver.
  - exists t, u. split; [exact Hrun|]. split; [|exact Hret].
    rewrite (ha_pid _ _ _ _ _ _ Hha). reflexivity.
Defined.

Lemma execute_halt_balance_witness :
  let H := quiet_env in
  exists t v, execute (cstr "shell") demo_exec = Leave (EnterUser 0x8048001) t /\
    halt 0 t = Leave JmpReturn v /\ pid (prc v) = pid (prc demo_exec).
Proof.
  intros H. destruct demo_launched as (t & Hrun & Hla). exists t.
  pose proof demo_exec_running as Hparent.
  destruct (la_child _ _ _ _ _ _ _ Hla) as (ppid & arg & _ & _ & _ & Hpp & Hchild).
  specialize (Hpp demo_pcb ltac:(discriminate) Hparent). cbn in Hpp. subst ppid.
  pose proof (la_ttys _ _ _ _ _ _ _ Hla) as Ht. pose proof (la_pid _ _ _ _ _ _ _ Hla) as Hp.
  destruct (execute_halt_balance demo_exec demo_caller 1 29 [] (demo_exec_bytes 0x502000 4096) t demo_pcb t
    (child_pcb (old_pcb demo_exec (pcb_addr 1)) 0x7FE000 0 1 arg stdin_table stdout_table) 0 Hla)
    as (v & Hv & Hpid & _); try reflexivity.
  - apply demo_startable.
  - discriminate.
  - exact Hparent.
  - apply demo_exec_vacant.
  - cbn. lia.
  - apply (la_tables _ _ _ _ _ _ _ Hla).
  - split.
    + rewrite Ht. reflexivity.
    + exact Hchild.
    + apply (la_parent _ _ _ _ _ _ _ Hla demo_pcb); [discriminate|exact Hparent].
    + rewrite Hp. split; [cbn; lia|reflexivity].
    + cbn. lia.
    + apply demo_child_fds.
    + discriminate.
  - exists v. split; [exact Hrun|]. split; [exact Hv|exact Hpid].
Defined.

Lemma init_pcb_skips_seven_witness :
  let H := quiet_env in
  let s := set_mem (ram ARG 128) demo_exec in
  exists t p, init_pcb 0x7FC000 ARG 1 s = Ret tt t /\ running t 0x7FC000 p /\
    aget (file_descriptor p) 7 = Some (raw_fd (0x7FC000 + 28 + 28 * 7)).
Proof.
  intros H s. destruct (init_pcb_skips_seven s 0x7FC000 1 (replicate 128 0) demo_caller)
    as (t & p & Hrun & Hr & _ & _ & _ & _ & H7).
  - reflexivity.
  - reflexivity.
  - lia.
  - intros _. exists demo_pcb, demo_caller. split; [reflexivity|]. split; [reflexivity|].
    apply lookup_singleton_eq.
  - intros i b Hi. apply lookup_replicate in Hi as [-> Hi]. unfold mem_get.
    rewrite cell_local by (unfold ARG; lia). change (mem (mach s)) with (ram ARG 128).
    apply ram_lookup. lia.
  - reflexivity.
  - reflexivity.
  - exists t, p. split; [exact Hrun|]. split; [exact Hr|]. rewrite H7. reflexivity.
Defined.
