(* ===== verification/Frames.v ===== *)
(** What a function leaves alone, whatever way it ends: the class [Keeps],
    its closure under the control structures, and the functions of the kernel
    that keep the keyboard driver's state. *)
From stdpp Require Import base numbers list gmap strings.
From Stdlib Require Import ZArith Lia.
From S2P Require Import Prelude Machine Strings Pic Rtc Console Paging FileSys Terminal Descriptors Process Execute.

(** The state a function ends in: after a return, at a fault, on leaving for
    good, or when the model stops it. *)
Definition final {S X A} (o : outcome S X A) : S :=
  match o with
  | Ret _ s => s
  | Fault _ s => s
  | Leave _ s => s
  | Unfinished s => s
  end.

(** [f] of the state is the same before and after every run of [m]. *)
Class Keeps {S X A B} (f : S -> B) (m : M S X A) : Prop := keeps : forall s, f (final (m s)) = f s.

#[export] Hint Mode Keeps - - - - - ! : typeclass_instances.

#[export] Typeclasses Opaque ret gets modify fault leave unfinished get_or_fault bind for_up loop.

Section combinators.
Context {S X B : Type} (f : S -> B).

#[export] Instance keeps_ret {A} (a : A) : Keeps f (ret a : M S X A).
Proof. by intros s. Qed.

#[export] Instance keeps_gets {A} (g : S -> A) : Keeps f (gets g : M S X A).
Proof. by intros s. Qed.

#[export] Instance keeps_fault {A} va : Keeps f (fault va : M S X A).
Proof. by intros s. Qed.

#[export] Instance keeps_leave {A} (x : X) : Keeps f (leave x : M S X A).
Proof. by intros s. Qed.

#[export] Instance keeps_unfinished {A} : Keeps f (unfinished : M S X A).
Proof. by intros s. Qed.

#[export] Instance keeps_get_or_fault {A} i (o : option A) : Keeps f (get_or_fault i o : M S X A).
Proof. intros s. by destruct o. Qed.

#[export] Instance keeps_bind {A C} (m : M S X A) (k : A -> M S X C) :
  Keeps f m -> (forall a, Keeps f (k a)) -> Keeps f (bind m k).
Proof.
  intros Hm Hk s. specialize (Hm s). unfold bind. destruct (m s); simpl in *; try done.
  rewrite <- Hm. apply Hk.
Qed.

Lemma keeps_modify g : (forall s, f (g s) = f s) -> Keeps f (modify g : M S X unit).
Proof. intros Hg s. apply Hg. Qed.

#[export] Instance keeps_for_up n i (body : Z -> M S X unit) :
  (forall j, Keeps f (body j)) -> Keeps f (for_up n i body).
Proof. intros Hb. revert i. induction n as [|n IH]; intros i; simpl; apply _. Qed.

Lemma keeps_iter_nat {A C} n (body : A -> M S X (A + C)) a :
  (forall a, Keeps f (body a)) -> Keeps f (iter_nat n body a).
Proof.
  intros Hb. revert a. induction n as [|n IH]; intros a; simpl; [apply _|].
  apply keeps_bind; [apply _|]. intros [a'|c]; apply _.
Qed.

#[export] Instance keeps_loop {A C} (body : A -> M S X (A + C)) a :
  (forall a, Keeps f (body a)) -> Keeps f (loop body a).
Proof.
  intros Hb. unfold loop. apply keeps_bind.
  - intros s. rewrite iter_pos_nat. by apply keeps_iter_nat.
  - intros [a'|c]; apply _.
Qed.

End combinators.

(** Decides [Keeps] for a function written with the combinators: registered
    functions by instance, tests by cases, primitive updates by computation. *)
Ltac keeps_step :=
  lazymatch goal with
  | |- Keeps _ (bind _ _) => apply keeps_bind; [|intros ?]
  | |- Keeps _ (modify _) => apply keeps_modify; intros ?; reflexivity
  | |- Keeps _ (for_up _ _ _) => apply keeps_for_up; intros ?
  | |- Keeps _ (loop _ _) => apply keeps_loop; intros ?
  | |- Keeps _ (match ?x with _ => _ end) => destruct x
  | |- Keeps _ (let _ := _ in _) => cbv zeta
  | |- Keeps _ _ => apply _
  end; cbn beta iota.
Ltac keeps := repeat keeps_step.

(** [P] of [f] of the state is an invariant of [m], and what [m] returns
    satisfies [Q]. *)
Definition Invariant {S X A B} (f : S -> B) (P : B -> Prop) (m : M S X A) (Q : A -> Prop) : Prop :=
  forall s, P (f s) -> P (f (final (m s))) /\ forall a t, m s = Ret a t -> Q a.

Section invariants.
Context {S X B : Type} (f : S -> B) (P : B -> Prop).

Lemma invariant_bind {A C} (m : M S X A) (k : A -> M S X C) (Q : A -> Prop) R :
  Invariant f P m Q -> (forall a, Q a -> Invariant f P (k a) R) -> Invariant f P (bind m k) R.
Proof.
  intros Hm Hk s Hs. destruct (Hm s Hs) as [H1 H2]. unfold bind.
  destruct (m s) as [a t| | |]; simpl in *; try done. by apply Hk; [apply (H2 a t)|].
Qed.

Lemma invariant_keeps {A} (m : M S X A) : Keeps f m -> Invariant f P m (fun _ => True).
Proof. intros Hm s Hs. by rewrite Hm. Qed.

Lemma invariant_modify g : (forall s, P (f s) -> P (f (g s))) -> Invariant f P (modify g : M S X unit) (fun _ => True).
Proof. intros Hg s Hs. split; [by apply Hg|done]. Qed.

Lemma invariant_ret {A} (a : A) (Q : A -> Prop) : Q a -> Invariant f P (ret a : M S X A) Q.
Proof. intros Ha s Hs. split; [done|]. by intros ? ? [= <- _]. Qed.

Lemma invariant_weaken {A} (m : M S X A) (Q R : A -> Prop) :
  Invariant f P m Q -> (forall a, Q a -> R a) -> Invariant f P m R.
Proof. intros Hm Hq s Hs. destruct (Hm s Hs) as [H1 H2]. split; [done|]. eauto. Qed.

Lemma invariant_for_up n i (body : Z -> M S X unit) :
  (forall j, Invariant f P (body j) (fun _ => True)) -> Invariant f P (for_up n i body) (fun _ => True).
Proof.
  intros Hb. revert i. induction n as [|n IH]; intros i; simpl; [by apply invariant_ret|].
  by eapply invariant_bind.
Qed.

End invariants.

Section keyboard_kept.
Context `{Env}.

(** ** Memory and ports *)

#[export] Instance keeps_outb d p : Keeps kb (outb d p).
Proof. unfold outb. keeps. Qed.
#[export] Instance keeps_inb p : Keeps kb (inb p).
Proof. unfold inb. keeps. Qed.
#[export] Instance keeps_cli : Keeps kb cli.
Proof. unfold cli. keeps. Qed.
#[export] Instance keeps_sti : Keeps kb sti.
Proof. unfold sti. keeps. Qed.
#[export] Instance keeps_load8 a : Keeps kb (load8 a).
Proof. unfold load8. keeps. Qed.
#[export] Instance keeps_store8 a v : Keeps kb (store8 a v).
Proof. unfold store8. keeps. apply keeps_modify. intros s. unfold mem_set. by destruct (cell _ _). Qed.
#[export] Instance keeps_load32 a : Keeps kb (load32 a).
Proof. unfold load32. keeps. Qed.
#[export] Instance keeps_store32 a v : Keeps kb (store32 a v).
Proof. unfold store32. keeps. Qed.
#[export] Instance keeps_alloc_local a n : Keeps kb (alloc_local a n).
Proof. unfold alloc_local. keeps. Qed.
#[export] Instance keeps_cload p i : Keeps kb (cload p i).
Proof. unfold cload. keeps. Qed.
#[export] Instance keeps_load_struct n a : Keeps kb (load_struct n a).
Proof. revert a. induction n as [|n IH]; intros a; cbn [load_struct]; keeps. Qed.

(** ** Strings *)

#[export] Instance keeps_strlen p : Keeps kb (strlen p).
Proof. unfold strlen. keeps. Qed.
#[export] Instance keeps_strncmp p q n : Keeps kb (strncmp p q n).
Proof. unfold strncmp. keeps. Qed.
#[export] Instance keeps_strncpy d p n : Keeps kb (strncpy d p n).
Proof. unfold strncpy. keeps. Qed.
#[export] Instance keeps_strrev a : Keeps kb (strrev a).
Proof. unfold strrev, strrev_loop. keeps. Qed.
#[export] Instance keeps_itoa v b r : Keeps kb (itoa v b r).
Proof. unfold itoa. keeps. Qed.
#[export] Instance keeps_memcpy d s n : Keeps kb (memcpy d s n).
Proof. unfold memcpy, memcpy_bottom, rep_movsl. keeps. Qed.

(** ** The interrupt controller, the screen, the terminals *)

#[export] Instance keeps_send_eoi i : Keeps kb (send_eoi i).
Proof. unfold send_eoi. keeps. Qed.
#[export] Instance keeps_enable_irq i : Keeps kb (enable_irq i).
Proof. unfold enable_irq. keeps. Qed.
#[export] Instance keeps_get_term t : Keeps kb (get_term t).
Proof. unfold get_term. keeps. Qed.
#[export] Instance keeps_put_term t v : Keeps kb (put_term t v).
Proof. unfold put_term. keeps. Qed.
#[export] Instance keeps_set_term_pcb t v : Keeps kb (set_term_pcb t v).
Proof. unfold set_term_pcb. keeps. Qed.
#[export] Instance keeps_put_cell b y x c : Keeps kb (put_cell b y x c).
Proof. unfold put_cell. keeps. Qed.
#[export] Instance keeps_write_cursor p : Keeps kb (write_cursor p).
Proof. unfold write_cursor. keeps. Qed.
#[export] Instance keeps_enable_cursor a b : Keeps kb (enable_cursor a b).
Proof. unfold enable_cursor. keeps. Qed.
#[export] Instance keeps_clear : Keeps kb clear.
Proof. unfold clear. keeps. Qed.
#[export] Instance keeps_clear_set : Keeps kb clear_set.
Proof. unfold clear_set. keeps. Qed.
#[export] Instance keeps_delete : Keeps kb delete.
Proof. unfold delete. keeps. Qed.
#[export] Instance keeps_keep_on_page b t : Keeps kb (keep_on_page b t).
Proof. unfold keep_on_page, scroll. keeps. Qed.
#[export] Instance keeps_putc_on b t c : Keeps kb (putc_on b t c).
Proof. unfold putc_on, wrap_rows. keeps. Qed.
#[export] Instance keeps_putc c : Keeps kb (putc c).
Proof. unfold putc. keeps. Qed.
#[export] Instance keeps_puts p : Keeps kb (puts p).
Proof. unfold puts. keeps. Qed.
#[export] Instance keeps_printf p l : Keeps kb (printf p l).
Proof. unfold printf, printf_conv, next_arg, arg_word. keeps. Qed.
#[export] Instance keeps_change_terminal_cursor t : Keeps kb (change_terminal_cursor t).
Proof. unfold change_terminal_cursor. keeps. Qed.

#[export] Instance keeps_set_pd i v : Keeps kb (set_pd i v).
Proof. unfold set_pd. keeps. Qed.
#[export] Instance keeps_set_ptv i v : Keeps kb (set_ptv i v).
Proof. unfold set_ptv. keeps. Qed.
#[export] Instance keeps_map_program k : Keeps kb (map_program k).
Proof. unfold map_program, flush_tlb. keeps. Qed.
#[export] Instance keeps_map_window : Keeps kb map_window.
Proof. unfold map_window. keeps. Qed.
#[export] Instance keeps_terminal_switch t : Keeps kb (terminal_switch t).
Proof. unfold terminal_switch, swap_vid_mem, swap_kb_cursor, flush_tlb. keeps. Qed.

(** ** Files, descriptors and processes *)

#[export] Instance keeps_read_dentry_by_name p d : Keeps kb (read_dentry_by_name p d).
Proof. unfold read_dentry_by_name, load_dentry. keeps. Qed.
#[export] Instance keeps_read_data i o b n : Keeps kb (read_data i o b n).
Proof. unfold read_data, read_data_loop. keeps. Qed.
#[export] Instance keeps_running_pcb : Keeps kb running_pcb.
Proof. unfold running_pcb. keeps. Qed.
#[export] Instance keeps_running_fd i : Keeps kb (running_fd i).
Proof. unfold running_fd. keeps. Qed.
#[export] Instance keeps_update_running_pcb g : Keeps kb (update_running_pcb g).
Proof. unfold update_running_pcb. keeps. Qed.
#[export] Instance keeps_update_fd i g : Keeps kb (update_fd i g).
Proof. unfold update_fd. keeps. Qed.
#[export] Instance keeps_call_close f fd : Keeps kb (call_close f fd).
Proof. unfold call_close, terminal_close, rtc_close, dir_close, file_close. keeps. Qed.
#[export] Instance keeps_close fd : Keeps kb (close fd).
Proof. unfold close. keeps. Qed.

#[export] Instance keeps_set_pid i v : Keeps kb (set_pid i v).
Proof. unfold set_pid. keeps. Qed.
#[export] Instance keeps_update_pcb a g : Keeps kb (update_pcb a g).
Proof. unfold update_pcb. keeps. Qed.
#[export] Instance keeps_parse c f a : Keeps kb (parse c f a).
Proof. unfold parse, skip_spaces, parse_name, parse_arg. keeps. Qed.
#[export] Instance keeps_isExe f : Keeps kb (isExe f).
Proof. unfold isExe. keeps. Qed.
#[export] Instance keeps_init_pcb a g k : Keeps kb (init_pcb a g k).
Proof. unfold init_pcb, init_std. keeps. Qed.
#[export] Instance keeps_load_program d : Keeps kb (load_program d).
Proof. unfold load_program. keeps. Qed.
#[export] Instance keeps_launch d : Keeps kb (launch d).
Proof. unfold launch, find_pid, enter_program, set_tss, context_switch, execute_return. keeps. Qed.
#[export] Instance keeps_execute p : Keeps kb (execute p).
Proof. unfold execute, execute_file. keeps. Qed.
#[export] Instance keeps_halt st : Keeps kb (halt st).
Proof. unfold halt, set_esp0, halt_close. keeps. Qed.

End keyboard_kept.
