(* ===== verification/Keyboard.v ===== *)
(** The keyboard driver, the first half of [src/student-distrib/keyboard.c]:
    the key maps, [keyboard_init] and [keyboard_handler], with the modifier
    keys as a state machine and the line editor the handler implements on the
    buffer [terminal_read] reads. *)
From stdpp Require Import base numbers list gmap strings.
From Stdlib Require Import ZArith Lia.
From S2P Require Import Prelude Machine Strings Pic Rtc Console Paging Terminal Descriptors Process Execute Frames.

Definition KEYBOARD_BUFFER_SIZE : Z := 0x7F.
Definition KEYBOARD_CONTROLLER_PORT : Z := 0x60.
Definition KEYBOARD_CONTROLLER_IRQ : Z := 0x01.
Definition ON : Z := 1.
Definition OFF : Z := 0.
Definition L_KEY : Z := 0x26.
Definition L_SHIFT_RELEASE : Z := 0xAA.
Definition R_SHIFT_RELEASE : Z := 0xB6.
Definition L_SHIFT_PRESSED : Z := 0x2A.
Definition R_SHIFT_PRESSED : Z := 0x36.
Definition CAPSLOCK_PRESSED : Z := 0x3A.
Definition CAPSLOCK_RELEASE : Z := 0xBA.
Definition CAPSLOCK_STATE_0 : Z := 0.
Definition CAPSLOCK_STATE_1 : Z := 1.
Definition CAPSLOCK_STATE_2 : Z := 2.
Definition CAPSLOCK_STATE_3 : Z := 3.
Definition CONTROL_PRESSED : Z := 0x1D.
Definition CONTROL_RELEASE : Z := 0x9D.
Definition BACKSPACE_PRESSED : Z := 0x0E.
Definition TAB_PRESSED : Z := 0x0F.
Definition TAB_LENGTH : Z := 4.
Definition C_KEY : Z := 0x2E.
Definition CTRL_CLEAR_VAL : Z := 2.
Definition F1_KEY : Z := 0x3B.
Definition F2_KEY : Z := 0x3C.
Definition F3_KEY : Z := 0x3D.
Definition LEFT_ALT : Z := 0x38.
Definition LEFT_ALT_RELEASE : Z := 0xB8.
Definition CURSOR_START : Z := 0.

(** * The key maps: 256 characters, by scan code *)

Definition keymap : list Z :=
  [0; 0] ++ bytes_of "1234567890-=" ++ [0; 0] ++
  bytes_of "qwertyuiop[]" ++ [10; 0] ++ bytes_of "as" ++
  bytes_of "dfghjkl;'`" ++ [0] ++ bytes_of "\zxcv" ++
  bytes_of "bnm,./" ++ [0; 0; 0] ++ bytes_of " " ++ replicate 6 0 ++
  replicate 192 0.

Definition keymapShift : list Z :=
  [0; 0] ++ bytes_of "!@3$%^&*()_+" ++ [0; 0] ++
  bytes_of "QWERTYUIOP{}" ++ [10; 0] ++ bytes_of "AS" ++
  bytes_of "DFGHJKL:" ++ [34] ++ bytes_of "~" ++ [0] ++ bytes_of "|ZXCV" ++
  bytes_of "BNM<>?" ++ [0; 0; 0] ++ bytes_of " " ++ replicate 6 0 ++
  replicate 192 0.

Definition keymapCapslock : list Z :=
  [0; 0] ++ bytes_of "1234567890-=" ++ [0; 0] ++
  bytes_of "QWERTYUIOP[]" ++ [10; 0] ++ bytes_of "AS" ++
  bytes_of "DFGHJKL;'`" ++ [0] ++ bytes_of "\ZXCV" ++
  bytes_of "BNM,./" ++ [0; 0; 0] ++ bytes_of " " ++ replicate 6 0 ++
  replicate 192 0.

(** * The driver's variables *)

Definition set_shift (v : Z) (k : kbd) : kbd :=
  Kbd v (capslock k) (capsChecker k) (control k) (left_alt k) (keybufferCount k) (cursor k) (keyBuf k) (readFlag k).
Definition set_capslock (v c : Z) (k : kbd) : kbd :=
  Kbd (shift k) v c (control k) (left_alt k) (keybufferCount k) (cursor k) (keyBuf k) (readFlag k).
Definition set_capsChecker (c : Z) (k : kbd) : kbd := set_capslock (capslock k) c k.
Definition set_control (v : Z) (k : kbd) : kbd :=
  Kbd (shift k) (capslock k) (capsChecker k) v (left_alt k) (keybufferCount k) (cursor k) (keyBuf k) (readFlag k).
Definition set_left_alt (v : Z) (k : kbd) : kbd :=
  Kbd (shift k) (capslock k) (capsChecker k) (control k) v (keybufferCount k) (cursor k) (keyBuf k) (readFlag k).
Definition set_counts (l : list Z) (k : kbd) : kbd :=
  Kbd (shift k) (capslock k) (capsChecker k) (control k) (left_alt k) l (cursor k) (keyBuf k) (readFlag k).
Definition set_cursors (l : list Z) (k : kbd) : kbd :=
  Kbd (shift k) (capslock k) (capsChecker k) (control k) (left_alt k) (keybufferCount k) l (keyBuf k) (readFlag k).
Definition set_bufs (l : list (list Z)) (k : kbd) : kbd :=
  Kbd (shift k) (capslock k) (capsChecker k) (control k) (left_alt k) (keybufferCount k) (cursor k) l (readFlag k).

(** ** The modifier keys, lines 131 to 171 of the handler *)

Definition shift_key (code : Z) (k : kbd) : kbd :=
  if (code =? L_SHIFT_RELEASE) || (code =? R_SHIFT_RELEASE) then set_shift OFF k
  else if (code =? L_SHIFT_PRESSED) || (code =? R_SHIFT_PRESSED) then set_shift ON k
  else k.

Definition capslock_key (code : Z) (k : kbd) : kbd :=
  if (code =? CAPSLOCK_PRESSED) && (capsChecker k =? CAPSLOCK_STATE_0) then
    set_capslock ON CAPSLOCK_STATE_1 k
  else if (code =? CAPSLOCK_RELEASE) && (capsChecker k =? CAPSLOCK_STATE_1) then
    set_capsChecker CAPSLOCK_STATE_2 k
  else if (code =? CAPSLOCK_PRESSED) && (capsChecker k =? CAPSLOCK_STATE_2) then
    set_capslock OFF CAPSLOCK_STATE_3 k
  else if (code =? CAPSLOCK_RELEASE) && (capsChecker k =? CAPSLOCK_STATE_3) then
    set_capsChecker CAPSLOCK_STATE_0 k
  else k.

Definition control_key (code : Z) (k : kbd) : kbd :=
  if code =? CONTROL_PRESSED then set_control ON k
  else if code =? CONTROL_RELEASE then set_control OFF k
  else k.

Definition alt_key (code : Z) (k : kbd) : kbd :=
  let k := if code =? LEFT_ALT then set_left_alt ON k else k in
  if code =? LEFT_ALT_RELEASE then set_left_alt OFF k else k.

Definition modifier_keys (code : Z) (k : kbd) : kbd :=
  alt_key code (control_key code (capslock_key code (shift_key code k))).

Section keyboard.
Context `{Env}.

(** [keybufferCount[t]], read and written. *)
Definition get_count (t : Z) : K Z :=
  let* k := gets kb in get_or_fault t (aget (keybufferCount k) t).

Definition set_count (t v : Z) : K unit :=
  let* k := gets kb in
  let* l := get_or_fault t (aset (keybufferCount k) t (u8 v)) in
  modify (on_kb (set_counts l)).

Definition set_cursor (t v : Z) : K unit :=
  let* k := gets kb in
  let* l := get_or_fault t (aset (cursor k) t (u16 v)) in
  modify (on_kb (set_cursors l)).

(** [keyBuf[t][keybufferCount[t]] = c] *)
Definition put_key (t c : Z) : K unit :=
  let* i := get_count t in
  let* k := gets kb in
  let* row := get_or_fault t (aget (keyBuf k) t) in
  let* row' := get_or_fault i (aset row i c) in
  let* l := get_or_fault t (aset (keyBuf k) t row') in
  modify (on_kb (set_bufs l)).

(** A key stored and echoed when the line has room. *)
Definition type_char (c : Z) : K unit :=
  let* ct := gets (fun s => current_terminal (ttys s)) in
  let* n := get_count ct in
  if n <? KEYBOARD_BUFFER_SIZE then
    put_key ct c ;;
    set_count ct (n + 1) ;;
    putc c
  else ret tt.

Definition keyboard_init : K unit :=
  modify (on_kb (set_shift OFF)) ;;
  modify (on_kb (set_capslock OFF OFF)) ;;
  modify (on_kb (set_control OFF)) ;;
  modify (on_kb (set_left_alt OFF)) ;;
  set_count TERM_0 OFF ;;
  set_count TERM_1 OFF ;;
  set_count TERM_2 OFF ;;
  set_readFlag TERM_0 UNLOCK ;;
  set_readFlag TERM_1 UNLOCK ;;
  set_readFlag TERM_2 UNLOCK ;;
  set_cursor TERM_0 CURSOR_START ;;
  set_cursor TERM_1 CURSOR_START ;;
  set_cursor TERM_2 CURSOR_START ;;
  enable_cursor CURSOR_START NUM_ROWS ;;
  enable_irq KEYBOARD_CONTROLLER_IRQ.

(** The character of a key under the shift and caps lock of [k]. *)
Definition key_mapped (k : kbd) (code : Z) : option Z :=
  if Z.lxor (shift k) (capslock k) =? ON then
    if shift k =? ON then aget keymapShift code else aget keymapCapslock code
  else aget keymap code.

(** Enter completes the line of the terminal on screen. *)
Definition enter_key : K unit :=
  let* ct := gets (fun s => current_terminal (ttys s)) in
  put_key ct NEWLINE ;;
  set_readFlag ct UNLOCK ;;
  set_count ct 0 ;;
  putc NEWLINE.

(** The comparison [readFlag==OFF] of the source is of the array's address,
    which is not null. *)
Definition readFlag_is_off : bool := false.

Definition control_l : K unit :=
  clear ;;
  clear_set ;;
  if readFlag_is_off then
    let* ct := gets (fun s => current_terminal (ttys s)) in
    set_count ct 0
  else ret tt.

Definition backspace : K unit :=
  let* ct := gets (fun s => current_terminal (ttys s)) in
  let* n := get_count ct in
  if 0 <? n then delete ;; set_count ct (n - 1) else ret tt.

(** The handler's last branch. *)
Definition plain_key (code : Z) : K unit :=
  let* k := gets kb in
  let* c := get_or_fault code (key_mapped k code) in
  if c =? 0 then ret tt
  else if c =? NEWLINE then enter_key
  else type_char c.

(** The handler after it has read the scan code. *)
Definition handle_key (code : Z) : K Z :=
  modify (on_kb (modifier_keys code)) ;;
  let* k := gets kb in
  if code =? BACKSPACE_PRESSED then backspace ;; ret SUCCESS
  else if code =? TAB_PRESSED then
    for_up (Z.to_nat TAB_LENGTH) 0 (fun _ => type_char SPACE) ;; ret SUCCESS
  else if (control k =? ON) && (code =? L_KEY) then control_l ;; ret SUCCESS
  else if (left_alt k =? ON) && (code =? F1_KEY) then terminal_switch TERM_0 ;; ret SUCCESS
  else if (left_alt k =? ON) && (code =? F2_KEY) then terminal_switch TERM_1 ;; ret SUCCESS
  else if (left_alt k =? ON) && (code =? F3_KEY) then terminal_switch TERM_2 ;; ret SUCCESS
  else if (control k =? ON) && (code =? C_KEY) then
    putc NEWLINE ;; halt CTRL_CLEAR_VAL ;; ret SUCCESS
  else plain_key code ;; ret SUCCESS.

Definition keyboard_handler : K Z :=
  send_eoi KEYBOARD_CONTROLLER_IRQ ;;
  let* key_code := inb KEYBOARD_CONTROLLER_PORT in
  handle_key key_code.

End keyboard.

(** * Specification: the line editor

    What the driver promises to [terminal_read]: the buffer of the terminal on
    screen holds the line [w] being edited, its cursor is right of the echo of
    [w], and scan codes change the line as [edit] does. *)

(** The character before the cursor rubbed out. *)
Definition rub_out (v : screen) : screen :=
  Screen (<[Z.to_nat (cursor_pos v - 1) := (0, ATTRIB)]> (cells v)) (row v) (col v - 1).

(** The driver's variables have the sizes and values of their declarations; in
    particular every count indexes its buffer. *)
Record kbd_ok (k : kbd) : Prop := {
  kb_counts : length (keybufferCount k) = 128%nat;
  kb_count : forall t n, 0 <= t < 3 -> aget (keybufferCount k) t = Some n -> 0 <= n <= KEYBOARD_BUFFER_SIZE;
  kb_bufs : length (keyBuf k) = 3%nat;
  kb_buf : forall t row, aget (keyBuf k) t = Some row -> length row = 128%nat /\ bytes row;
  kb_flags : length (readFlag k) = 3%nat;
  kb_caps : (capsChecker k, capslock k) ∈ [(0, 0); (1, 1); (2, 1); (3, 0)];
  kb_mods : shift k ∈ [0; 1] /\ control k ∈ [0; 1] /\ left_alt k ∈ [0; 1] }.

(** The caps lock key: its lock, and whether it is held down. *)
Record caps : Type := Caps { lock : bool; held : bool }.

Definition caps_of (k : kbd) : caps := Caps (capslock k =? ON) (Z.odd (capsChecker k)).

(** A press toggles the lock unless the key is already down (auto-repeat). *)
Definition caps_step (code : Z) (c : caps) : caps :=
  if code =? CAPSLOCK_PRESSED then (if held c then c else Caps (negb (lock c)) true)
  else if code =? CAPSLOCK_RELEASE then Caps (lock c) false
  else c.

(** The line [w] after a scan code. *)
Definition edit (k : kbd) (code : Z) (w : list Z) : list Z :=
  if code =? BACKSPACE_PRESSED then take (length w - 1) w
  else if code =? TAB_PRESSED then take 127 (w ++ replicate 4 SPACE)
  else match key_mapped k code with
       | Some c => if c =? 0 then w else take 127 (w ++ [c])
       | None => w
       end.

(** Its echo on the screen. *)
Definition echo (k : kbd) (code : Z) (w : list Z) (v : screen) : screen :=
  if code =? BACKSPACE_PRESSED then match w with [] => v | _ => rub_out v end
  else put_text (drop (length w) (edit k code w)) v.

(** A key that only edits the line: not Enter, and no shortcut. *)
Definition editing_key (k : kbd) (code : Z) : bool :=
  (0 <=? code) && (code <? 256) &&
  negb ((control k =? ON) && ((code =? L_KEY) || (code =? C_KEY))) &&
  negb ((left_alt k =? ON) && ((code =? F1_KEY) || (code =? F2_KEY) || (code =? F3_KEY))) &&
  negb (match key_mapped k code with Some c => c =? NEWLINE | None => true end).

(** A whole sequence of scan codes: the driver's variables, the line, the screen. *)
Fixpoint edit_all (k : kbd) (codes : list Z) (w : list Z) : list Z :=
  match codes with
  | [] => w
  | code :: codes' => let k' := modifier_keys code k in edit_all k' codes' (edit k' code w)
  end.

Fixpoint editing_keys (k : kbd) (codes : list Z) : bool :=
  match codes with
  | [] => true
  | code :: codes' => let k' := modifier_keys code k in editing_key k' code && editing_keys k' codes'
  end.

Fixpoint echo_all (k : kbd) (codes : list Z) (w : list Z) (v : screen) : screen :=
  match codes with
  | [] => v
  | code :: codes' =>
    let k' := modifier_keys code k in echo_all k' codes' (edit k' code w) (echo k' code w v)
  end.

Definition mods_all (k : kbd) (codes : list Z) : kbd := foldl (fun k code => modifier_keys code k) k codes.

(** The buffer of terminal [t] holds the first characters [w] of a line. *)
Definition typed (k : kbd) (t : Z) (w : list Z) : Prop :=
  aget (keybufferCount k) t = Some (Z.of_nat (length w)) /\
  (exists row r, aget (keyBuf k) t = Some row /\ row = w ++ r) /\
  Forall (fun c => c <> NEWLINE) w.

Definition set_kb (k : kbd) : kernel -> kernel := on_kb (fun _ => k).

(** The running terminal is on screen, shows [v], and its line is [w]. *)
Record editing `{Env} (s : kernel) (w : list Z) (v : screen) : Prop := {
  ed_visible : curr_scheduler (ttys s) = current_terminal (ttys s);
  ed_shows : running_shows s v;
  ed_ok : kbd_ok (kb s);
  ed_typed : typed (kb s) (current_terminal (ttys s)) w;
  ed_cursor : Z.of_nat (length w) <= col v }.

(** Only the driver's variables, the screen and the ports changed. *)
Definition only_typing `{Env} (s t : kernel) : Prop := only_running_screen (set_kb (kb t) s) t.

(** The Enter key. *)
Definition ENTER_PRESSED : Z := 0x1C.

(** The handler as it runs when the keyboard answers [code]. *)
Definition key_irq `{Env} (code : Z) : K unit :=
  send_eoi KEYBOARD_CONTROLLER_IRQ ;;
  modify (log_io (In KEYBOARD_CONTROLLER_PORT code)) ;;
  handle_key code ;; ret tt.

Section keyboard_lemmas.
Context `{Env}.

Lemma keyboard_handler_key_irq s :
  exists code, 0 <= code < 256 /\
    (keyboard_handler ;; ret tt) s = key_irq code s.
Proof.
  unfold keyboard_handler, key_irq, inb, KEYBOARD_CONTROLLER_IRQ.
  unfold bind. rewrite send_eoi_master by lia. cbn [gets modify ret id].
  eexists. split; [apply u8_range|reflexivity].
Qed.

(** ** The screen under the driver *)

Lemma shows_term s base t v : shows s base t v ->
  exists T, aget (terminal (ttys s)) t = Some T /\ screen_y T = row v /\ screen_x T = col v.
Proof. intros (_ & _ & HT). exact HT. Qed.

Lemma delete_spec s v E :
  curr_scheduler (ttys s) = current_terminal (ttys s) -> running_shows s v -> 1 <= col v ->
  wp delete (fun _ t => running_shows t (rub_out v) /\ only_running_screen s t) E s.
Proof.
  intros Hvis [Hcs Hs] Hcol. pose proof Hs as (Hg & (Hlen & Hr & Hc & Hpos) & T & HT & Hy & Hx).
  unfold cursor_pos in *. assert (Hp : page_of s = video_mem) by (unfold page_of; by rewrite Hvis, Z.eqb_refl).
  rewrite Hp in *. unfold delete. wp_step. wp_step. rewrite <- Hvis. wp_step. wp_use (get_term_eq _ _ _ HT).
  wp_step. wp_use (put_term_eq _ _ _ (set_screen_x (screen_x T - 1) T) HT).
  set (T' := set_screen_x (screen_x T - 1) T). set (s1 := with_term _ T' s).
  assert (HT' : screen_y T' = row v /\ screen_x T' = col v - 1).
  { unfold T', set_screen_x. cbn. rewrite Hx, u32_small by lia. done. }
  destruct HT' as [Hy' Hx']. wp_step. unfold put_cell. rewrite Hx', Hy'.
  unfold video_mem, VIDEO. rewrite cell_addr_eq, u32_small by lia.
  destruct (on_page_term s video_mem _ _ _ T' (conj Hg HT)) as [Hg1 HT1].
  eapply wp_mono; [apply (grid_put s1 0xB8000 (cells v) (80 * row v + (col v - 1)));
    [exact Hg1|lia|lia|done|done]| |done].
  intros ? s2 [Hg2 Hm2]. destruct (write_cursor_eq (term_pos T') s2) as (es & Hrun & _). wp_use Hrun.
  assert (Ho : only_screen video_mem (curr_scheduler (ttys s)) s s2).
  { eapply only_screen_trans; [by eapply (only_screen_with_term _ _ _ T T')|].
    by apply only_screen_modifies. }
  assert (Hsh : running_shows s2 (rub_out v)).
  { assert (Htt : ttys s2 = ttys s1) by by apply (modifies_ttys _ _ _ _ Hm2).
    assert (Hp2 : page_of s2 = video_mem) by (unfold page_of; by rewrite Htt; cbn; rewrite Hvis, Z.eqb_refl).
    unfold running_shows. rewrite Hp2, Htt. split; [done|]. split; [|split].
    - unfold rub_out, cursor_pos. cbn. by replace (80 * row v + col v - 1) with (80 * row v + (col v - 1)) by lia.
    - unfold screen_ok, rub_out, cursor_pos. cbn. rewrite length_insert. split_and!; [done|lia|lia|lia].
    - exists T'. rewrite Htt. split; [exact HT1|done]. }
  split; [by apply running_shows_log_all|]. unfold only_running_screen. rewrite Hp.
  eapply only_screen_trans; [exact Ho|apply only_screen_log_all].
Qed.

(** ** The driver's variables *)

Lemma caps_keys code k :
  kbd_ok k -> 0 <= code < 256 ->
  kbd_ok (modifier_keys code k) /\ caps_of (modifier_keys code k) = caps_step code (caps_of k).
Proof.
  intros [K1 K2 K3 K4 K5 K6 K7] Hc.
  assert (Hk : forall c, keybufferCount (modifier_keys c k) = keybufferCount k /\
    keyBuf (modifier_keys c k) = keyBuf k /\ readFlag (modifier_keys c k) = readFlag k).
  { intros c. unfold modifier_keys, alt_key, control_key, capslock_key, shift_key.
    repeat case_match; done. }
  destruct (Hk code) as (E1 & E2 & E3).
  assert (Hcaps : (capsChecker k, capslock k) ∈ [(0, 0); (1, 1); (2, 1); (3, 0)] ->
    (capsChecker (modifier_keys code k), capslock (modifier_keys code k))
      ∈ [(0, 0); (1, 1); (2, 1); (3, 0)] /\
    caps_of (modifier_keys code k) = caps_step code (caps_of k)).
  { assert (Hm : forall k', capsChecker (alt_key code (control_key code k')) = capsChecker k' /\
      capslock (alt_key code (control_key code k')) = capslock k').
    { intros k'. unfold alt_key, control_key. repeat case_match; done. }
    assert (Hs : capsChecker (shift_key code k) = capsChecker k /\ capslock (shift_key code k) = capslock k).
    { unfold shift_key. repeat case_match; done. }
    unfold modifier_keys, caps_of. destruct (Hm (capslock_key code (shift_key code k))) as [-> ->].
    destruct Hs as [S1 S2]. rewrite <- S1, <- S2. generalize (shift_key code k) as u. clear -code. intros u Hu.
    unfold capslock_key, caps_step, CAPSLOCK_PRESSED, CAPSLOCK_RELEASE, CAPSLOCK_STATE_0,
      CAPSLOCK_STATE_1, CAPSLOCK_STATE_2, CAPSLOCK_STATE_3.
    destruct u as [sh cl cc ct la ? ? ? ?]. cbn in *.
    assert (Hc : code = 58 \/ code = 186 \/ ((code =? 58) = false /\ (code =? 186) = false)) by lia.
    repeat (apply elem_of_cons in Hu as [[= -> ->]|Hu]); try (by apply elem_of_nil in Hu);
      (destruct Hc as [->|[->|[-> ->]]]; cbn; (split; [set_solver|done])). }
  destruct (Hcaps K6) as [C1 C2]. split; [|exact C2].
  constructor; rewrite ?E1, ?E2, ?E3; try done.
  destruct K7 as (M1 & M2 & M3).
  assert (F1 : shift (modifier_keys code k) = shift (shift_key code k)).
  { unfold modifier_keys, alt_key, control_key, capslock_key. repeat case_match; done. }
  assert (F2 : control (modifier_keys code k) = control (control_key code k)).
  { unfold modifier_keys, alt_key, control_key, capslock_key, shift_key. repeat case_match; done. }
  assert (F3 : left_alt (modifier_keys code k) = left_alt (alt_key code k)).
  { unfold modifier_keys, alt_key, control_key, capslock_key, shift_key. repeat case_match; done. }
  rewrite F1, F2, F3. unfold alt_key, control_key, shift_key, ON, OFF.
  split_and!; repeat case_match; cbn;
    first [assumption | apply list_elem_of_here | apply list_elem_of_further, list_elem_of_here].
Qed.

(** ** [kbd_ok] is an invariant, whatever way the handler ends *)

Notation Inv m Q := (Invariant kb kbd_ok m Q).
Notation always := (fun _ => True).

Lemma inv_bind_keeps {A B} (m : K A) (k : A -> K B) Q :
  Keeps kb m -> (forall a, Inv (k a) Q) -> Inv (bind m k) Q.
Proof. intros Hm Hk. eapply invariant_bind; [by apply invariant_keeps|]. intros a _. apply Hk. Qed.

Lemma inv_modifiers code : 0 <= code < 256 -> Inv (modify (on_kb (modifier_keys code)) : K unit) always.
Proof. intros Hc. apply invariant_modify. intros s Hs. by apply caps_keys. Qed.

Lemma inv_get_count t : Inv (get_count t) (fun n => 0 <= t < 3 -> 0 <= n <= KEYBOARD_BUFFER_SIZE).
Proof.
  intros s Hs. unfold get_count, bind, gets. destruct (aget (keybufferCount (kb s)) t) as [n|] eqn:E.
  - split; [done|]. intros a u [= <- _] Ht. by apply (kb_count _ Hs t).
  - split; [done|]. discriminate.
Qed.

Lemma inv_set_count t v : (0 <= t < 3 -> 0 <= v <= KEYBOARD_BUFFER_SIZE) -> Inv (set_count t v) always.
Proof.
  intros Hv s Hs. unfold set_count, bind, gets.
  destruct (aset (keybufferCount (kb s)) t (u8 v)) as [l|] eqn:E; [|done]. split; [|done]. cbn.
  destruct Hs as [K1 K2 K3 K4 K5 K6 K7]. constructor; cbn; try done.
  - by rewrite (aset_length _ _ _ _ E).
  - intros j n Hj. rewrite (aget_aset _ _ _ j _ E). destruct (Z.eqb_spec j t) as [->|Hne].
    + unfold KEYBOARD_BUFFER_SIZE in *. intros [= <-]. rewrite u8_small by lia. by apply Hv.
    + by apply K2.
Qed.

Lemma inv_put_key t c : 0 <= c < 256 -> Inv (put_key t c) always.
Proof.
  intros Hc s Hs. unfold put_key, get_count, bind, gets.
  destruct (aget (keybufferCount (kb s)) t) as [n|]; cbn; [|done].
  destruct (aget (keyBuf (kb s)) t) as [r|] eqn:E1; cbn; [|done].
  destruct (aset r n c) as [r'|] eqn:E2; cbn; [|done].
  destruct (aset (keyBuf (kb s)) t r') as [l|] eqn:E3; cbn; [|done]. split; [|done].
  destruct Hs as [K1 K2 K3 K4 K5 K6 K7]. constructor; cbn; try done.
  - by rewrite (aset_length _ _ _ _ E3).
  - intros j row. rewrite (aget_aset _ _ _ j _ E3). destruct (j =? t); [|by apply K4].
    intros [= <-]. destruct (K4 _ _ E1) as [L B]. rewrite (aset_length _ _ _ _ E2). split; [done|].
    unfold aset in E2. destruct (_ && _); [|done]. injection E2 as <-. by apply Forall_insert.
Qed.

Lemma inv_set_readFlag t v : Inv (set_readFlag t v) always.
Proof.
  intros s Hs. unfold set_readFlag, bind, gets.
  destruct (aset (readFlag (kb s)) t (u8 v)) as [l|] eqn:E; cbn; [|done]. split; [|done].
  destruct Hs as [K1 K2 K3 K4 K5 K6 K7]. constructor; cbn; try done.
  by rewrite (aset_length _ _ _ _ E).
Qed.

Lemma inv_type_char c : 0 <= c < 256 -> Inv (type_char c) always.
Proof.
  intros Hc. unfold type_char. apply inv_bind_keeps; [apply _|intros ct].
  eapply invariant_bind; [apply inv_get_count|intros n Hn]. cbn beta in Hn.
  destruct (Z.ltb_spec n KEYBOARD_BUFFER_SIZE); [|by apply invariant_ret].
  eapply invariant_bind; [by apply inv_put_key|intros _ _].
  eapply invariant_bind; [apply inv_set_count; lia|intros _ _]. apply invariant_keeps, _.
Qed.

Lemma inv_enter_key : Inv enter_key always.
Proof.
  unfold enter_key. apply inv_bind_keeps; [apply _|intros ct].
  eapply invariant_bind; [apply inv_put_key; unfold NEWLINE; lia|intros _ _].
  eapply invariant_bind; [apply inv_set_readFlag|intros _ _].
  eapply invariant_bind; [apply inv_set_count; unfold KEYBOARD_BUFFER_SIZE; lia|intros _ _].
  apply invariant_keeps, _.
Qed.

Lemma inv_backspace : Inv backspace always.
Proof.
  unfold backspace. apply inv_bind_keeps; [apply _|intros ct].
  eapply invariant_bind; [apply inv_get_count|intros n Hn]. cbn beta in Hn.
  destruct (Z.ltb_spec 0 n); [|by apply invariant_ret].
  apply inv_bind_keeps; [apply _|intros _]. apply inv_set_count. lia.
Qed.

(** Every map holds bytes. *)
Lemma key_mapped_range k code c : key_mapped k code = Some c -> 0 <= c < 256.
Proof.
  assert (Hb : forall l, bytes l -> aget l code = Some c -> 0 <= c < 256).
  { intros l Hl. unfold aget. destruct (_ && _); [|done]. intros Hc.
    by apply (Forall_lookup_1 _ _ _ _ Hl Hc). }
  assert (Hd : forall l, forallb (fun b => (0 <=? b) && (b <? 256)) l = true -> bytes l).
  { intros l Hl. apply Forall_forall. intros b Hin. rewrite forallb_forall in Hl.
    specialize (Hl b (proj1 (list_elem_of_In _ _) Hin)). unbool. lia. }
  unfold key_mapped. repeat case_match; apply Hb, Hd; reflexivity.
Qed.

Lemma inv_plain_key code : Inv (plain_key code) always.
Proof.
  unfold plain_key. apply inv_bind_keeps; [apply _|intros k].
  destruct (key_mapped k code) as [c|] eqn:E; simpl.
  - eapply invariant_bind; [by apply (invariant_ret _ _ _ (fun a => a = c))|intros ? ->].
    repeat case_match; [by apply invariant_ret|apply inv_enter_key|].
    apply inv_type_char. by eapply key_mapped_range.
  - intros s Hs. done.
Qed.

Lemma inv_handle_key code : 0 <= code < 256 -> Inv (handle_key code) always.
Proof.
  intros Hc. unfold handle_key. eapply invariant_bind; [by apply inv_modifiers|intros _ _].
  apply inv_bind_keeps; [apply _|intros k].
  destruct (code =? BACKSPACE_PRESSED).
  { eapply invariant_bind; [apply inv_backspace|intros _ _; by apply invariant_ret]. }
  destruct (code =? TAB_PRESSED).
  { eapply invariant_bind; [apply invariant_for_up; intros _; apply inv_type_char; unfold SPACE; lia|].
    intros _ _; by apply invariant_ret. }
  do 5 (destruct (_ && _); [apply invariant_keeps; unfold control_l, readFlag_is_off; keeps|]).
  eapply invariant_bind; [apply inv_plain_key|intros _ _; by apply invariant_ret].
Qed.

(** ** Typing *)

Lemma only_running_set_kb k s t :
  only_running_screen s t -> only_running_screen (set_kb k s) (set_kb k t).
Proof. intros [[] Ho]. split; [by constructor|exact Ho]. Qed.

Lemma only_typing_refl s : only_typing s s.
Proof.
  unfold only_typing. replace (set_kb (kb s) s) with s by by destruct s.
  by apply (only_screen_log_all _ _ s []).
Qed.

Lemma only_typing_trans s t u : only_typing s t -> only_typing t u -> only_typing s u.
Proof. unfold only_typing. intros H1 H2. eapply only_running_trans; [|exact H2]. by apply (only_running_set_kb (kb u)) in H1. Qed.

Lemma only_typing_kb k s : only_typing s (set_kb k s).
Proof. apply (only_screen_log_all _ _ (set_kb k s) []). Qed.

Lemma only_typing_screen s t : only_running_screen s t -> only_typing s t.
Proof.
  intros Ho. unfold only_typing. assert (Hk : kb t = kb s) by apply (sb_kb _ _ _ (proj1 Ho)). rewrite Hk.
  by replace (set_kb (kb s) s) with s by by destruct s.
Qed.

(** Nothing but the line's buffer and its length changed. *)
Definition only_line (t : Z) (k k' : kbd) : Prop :=
  k' = set_counts (keybufferCount k') (set_bufs (keyBuf k') k) /\
  forall j, j <> t -> aget (keybufferCount k') j = aget (keybufferCount k) j /\
    aget (keyBuf k') j = aget (keyBuf k) j.

Lemma typed_length k t w : kbd_ok k -> 0 <= t < 3 -> typed k t w -> Z.of_nat (length w) <= 127.
Proof. intros Hok Ht [Hc _]. apply (kb_count _ Hok) in Hc; [|done]. unfold KEYBOARD_BUFFER_SIZE in Hc. lia. Qed.

Lemma put_key_eq s t w c :
  kbd_ok (kb s) -> 0 <= t < 3 -> typed (kb s) t w -> 0 <= c < 256 ->
  exists k' (row r : list Z), put_key t c s = Ret tt (set_kb k' s) /\ kbd_ok k' /\ only_line t (kb s) k' /\ keybufferCount k' = keybufferCount (kb s) /\ aget (keyBuf k') t = Some row /\ row = w ++ c :: r.
Proof.
  intros Hok Ht Hw Hc. pose proof (typed_length _ _ _ Hok Ht Hw) as Hlen.
  pose proof (inv_put_key t c Hc s Hok) as [Hok' _]. destruct Hw as (Hn & (row & r & Hrow & Hr) & _).
  destruct (kb_buf _ Hok _ _ Hrow) as [Hl _].
  destruct (aset_total row (Z.of_nat (length w)) c) as [row' Hrow']; [lia|].
  destruct (aset_total (keyBuf (kb s)) t row') as [l Hset]; [rewrite (kb_bufs _ Hok); lia|].
  assert (Hrun : put_key t c s = Ret tt (set_kb (set_bufs l (kb s)) s)).
  { unfold put_key, get_count, bind, gets. rewrite Hn. cbn. rewrite Hrow. cbn. rewrite Hrow'. cbn.
    rewrite Hset. reflexivity. }
  rewrite Hrun in Hok'. cbn in Hok'.
  exists (set_bufs l (kb s)), row', (drop 1 r). split_and!; try done.
  - split; [done|]. intros j Hj. split; [done|]. cbn. rewrite (aget_aset _ _ _ j _ Hset). by rewrite (proj2 (Z.eqb_neq j t)).
  - cbn. rewrite (aget_aset _ _ _ t _ Hset). by rewrite Z.eqb_refl.
  - unfold aset in Hrow'. destruct (_ && _); [|done]. injection Hrow' as <-. rewrite Nat2Z.id, Hr.
    rewrite insert_app_r_alt, Nat.sub_diag by lia. destruct r as [|x r]; [|done].
    rewrite Hr, app_nil_r in Hl. lia.
Qed.

Lemma set_count_eq s t n :
  kbd_ok (kb s) -> 0 <= t < 3 -> 0 <= n <= 127 ->
  exists k', set_count t n s = Ret tt (set_kb k' s) /\ kbd_ok k' /\ only_line t (kb s) k' /\ keyBuf k' = keyBuf (kb s) /\ aget (keybufferCount k') t = Some n.
Proof.
  intros Hok Ht Hn. pose proof (inv_set_count t n (fun _ => Hn) s Hok) as [Hok' _].
  destruct (aset_total (keybufferCount (kb s)) t (u8 n)) as [l Hset]; [rewrite (kb_counts _ Hok); lia|].
  assert (Hrun : set_count t n s = Ret tt (set_kb (set_counts l (kb s)) s)).
  { unfold set_count, bind, gets. rewrite Hset. reflexivity. }
  rewrite Hrun in Hok'. cbn in Hok'. rewrite u8_small in Hset by lia.
  exists (set_counts l (kb s)). split_and!; try done.
  - split; [done|]. intros j Hj. split; [|done]. cbn. rewrite (aget_aset _ _ _ j _ Hset). by rewrite (proj2 (Z.eqb_neq j t)).
  - cbn. rewrite (aget_aset _ _ _ t _ Hset). by rewrite Z.eqb_refl.
Qed.

Lemma only_line_trans t k1 k2 k3 : only_line t k1 k2 -> only_line t k2 k3 -> only_line t k1 k3.
Proof.
  intros [H1 J1] [H2 J2]. split.
  - rewrite H2, H1 at 1. done.
  - intros j Hj. destruct (J1 j Hj) as [<- <-]. by apply J2.
Qed.

Lemma put_char_col v c n :
  screen_ok v -> c <> NEWLINE -> c <> CARRIAGE_RETURN -> n <= 126 -> n <= col v ->
  n + 1 <= col (put_char c v).
Proof.
  intros (_ & Hr & Hc & Hpos) Hnl Hcr Hn Hcol. unfold put_char, fit.
  rewrite (proj2 (Z.eqb_neq c NEWLINE) Hnl), (proj2 (Z.eqb_neq c CARRIAGE_RETURN) Hcr). cbn [orb].
  unfold cursor_pos in *. cbn [row col]. destruct (Z.leb_spec 2000 (80 * row v + (col v + 1))); [|cbn; lia].
  destruct (Z.ltb_spec 0 (row v)); cbn; lia.
Qed.

Lemma editing_bounds s w v :
  editing s w v -> 0 <= current_terminal (ttys s) < 3 /\ Z.of_nat (length w) <= 127 /\ screen_ok v.
Proof.
  intros []. destruct ed_shows0 as [Hct (_ & Hok & _)]. rewrite ed_visible0 in Hct. split; [done|].
  split; [|done]. by apply (typed_length (kb s) (current_terminal (ttys s))).
Qed.

(** An editing state survives what keeps the driver's variables and the screen. *)
Lemma editing_after s t w v :
  only_typing s t -> running_shows t v -> curr_scheduler (ttys s) = current_terminal (ttys s) ->
  kbd_ok (kb t) -> typed (kb t) (current_terminal (ttys s)) w -> Z.of_nat (length w) <= col v ->
  editing t w v.
Proof.
  intros Ho Hs Hvis Hok Hw Hc. destruct (sb_cur _ _ _ (proj1 Ho)) as [E1 E2]. cbn in E1, E2.
  constructor; try done; [by rewrite E1, E2|by rewrite E1].
Qed.

Lemma type_char_spec s w v c E :
  editing s w v -> 0 <= c < 256 -> c <> NEWLINE -> c <> CARRIAGE_RETURN ->
  wp (type_char c) (fun _ t =>
    editing t (take 127 (w ++ [c])) (put_text (drop (length w) (take 127 (w ++ [c]))) v) /\
    only_typing s t /\ only_line (current_terminal (ttys s)) (kb s) (kb t)) E s.
Proof.
  intros He Hc Hnl Hcr. destruct (editing_bounds _ _ _ He) as (Hct & Hlen & Hv).
  destruct He as [Hvis Hsh Hok Hw Hcol]. set (ct := current_terminal (ttys s)) in *.
  pose proof Hw as (Hn & (row0 & r0 & Hrow & Hr0) & Hw0).
  unfold type_char. wp_step. wp_step. fold ct. wp_step.
  assert (Hg : get_count ct s = Ret (Z.of_nat (length w)) s).
  { unfold get_count, bind, gets. by rewrite Hn. }
  wp_use Hg. unfold KEYBOARD_BUFFER_SIZE. destruct (Z.ltb_spec (Z.of_nat (length w)) 127) as [Hlt|Hge].
  - rewrite take_ge by (rewrite length_app; simpl; lia). rewrite drop_app_length.
    destruct (put_key_eq s ct w c Hok Hct Hw Hc) as (k1 & row & r & R1 & Ok1 & L1 & C1 & B1 & Hrow1).
    wp_step. wp_use R1.
    destruct (set_count_eq (set_kb k1 s) ct (Z.of_nat (length w) + 1) Ok1 Hct ltac:(lia))
      as (k2 & R2 & Ok2 & L2 & B2 & C2). wp_step. wp_use R2.
    change (set_kb k2 (set_kb k1 s)) with (set_kb k2 s).
    eapply wp_mono; [apply (putc_spec (set_kb k2 s) v c); [exact Hsh|done]| |done].
    intros ? t [Ht Ho]. assert (Hk : kb t = k2) by apply (sb_kb _ _ _ (proj1 Ho)).
    assert (Hot : only_typing s t).
    { unfold only_typing. rewrite Hk. exact Ho. }
    split; [|split; [done|rewrite Hk; by eapply only_line_trans]].
    eapply editing_after; [exact Hot|exact Ht|exact Hvis|by rewrite Hk| |].
    + rewrite Hk. fold ct. split; [|split].
      * rewrite C2, length_app. f_equal. simpl. lia.
      * exists row, r. cbn in B2. rewrite B2. split; [done|]. by rewrite <- app_assoc.
      * apply Forall_app. split; [done|]. by repeat constructor.
    + rewrite length_app. simpl. pose proof (put_char_col v c (Z.of_nat (length w)) Hv Hnl Hcr). lia.
  - rewrite take_app_le by lia. rewrite take_ge, drop_all by lia. apply wp_ret.
    split; [by constructor|]. split; [apply only_typing_refl|]. split; [by destruct (kb s)|done].
Qed.

Lemma backspace_spec s w v E :
  editing s w v ->
  wp backspace (fun _ t =>
    editing t (take (length w - 1) w) (match w with [] => v | _ => rub_out v end) /\
    only_typing s t /\ only_line (current_terminal (ttys s)) (kb s) (kb t)) E s.
Proof.
  intros He. destruct (editing_bounds _ _ _ He) as (Hct & Hlen & Hv).
  destruct He as [Hvis Hsh Hok Hw Hcol]. set (ct := current_terminal (ttys s)) in *.
  pose proof Hw as (Hn & (row0 & r0 & Hrow & Hr0) & Hw0).
  unfold backspace. wp_step. wp_step. fold ct. wp_step.
  assert (Hg : get_count ct s = Ret (Z.of_nat (length w)) s).
  { unfold get_count, bind, gets. by rewrite Hn. }
  wp_use Hg. destruct (Z.ltb_spec 0 (Z.of_nat (length w))) as [Hlt|Hge].
  - wp_step. eapply wp_mono; [apply (delete_spec s v); [done|done|lia]| |done].
    intros ? s1 [Hs1 Ho1]. assert (Hk1 : kb s1 = kb s) by apply (sb_kb _ _ _ (proj1 Ho1)).
    destruct (set_count_eq s1 ct (Z.of_nat (length w) - 1)) as (k2 & R2 & Ok2 & L2 & B2 & C2);
      [by rewrite Hk1|done|lia|]. wp_use R2.
    assert (Hot : only_typing s (set_kb k2 s1)).
    { eapply only_typing_trans; [by apply only_typing_screen|apply only_typing_kb]. }
    rewrite Hk1 in L2, B2. split; [|split; [done|exact L2]].
    assert (Hdec : w = take (length w - 1) w ++ drop (length w - 1) w) by by rewrite take_drop.
    eapply editing_after; [exact Hot| |exact Hvis|exact Ok2| |].
    + destruct w; [simpl in Hlt; lia|]. exact Hs1.
    + fold ct. split; [|split].
      * cbn [kb set_kb on_kb]. rewrite C2, length_take. f_equal. lia.
      * exists row0, (drop (length w - 1) w ++ r0). cbn [kb set_kb on_kb]. rewrite B2. split; [done|].
        by rewrite app_assoc, take_drop.
      * by apply Forall_take.
    + rewrite length_take. destruct w; [simpl in Hlt; lia|]. cbn [rub_out col]. lia.
  - assert (w = []) as -> by (destruct w; [done|simpl in Hge; lia]). apply wp_ret.
    split; [by constructor|]. split; [apply only_typing_refl|]. split; [by destruct (kb s)|done].
Qed.

(** Typing [c] after [a] is typing [a] and [c]. *)
Lemma typed_more (w a : list Z) c v :
  (length w <= 127)%nat ->
  let l := take 127 (w ++ a) in let m := take 127 (w ++ a ++ [c]) in
  take 127 (l ++ [c]) = m /\
  put_text (drop (length l) (take 127 (l ++ [c]))) (put_text (drop (length w) l) v) =
  put_text (drop (length w) m) v.
Proof.
  intros Hw l m. assert (Hm : take 127 (l ++ [c]) = m).
  { unfold l, m. rewrite app_assoc. generalize (w ++ a) as x. intros x.
    destruct (Nat.le_gt_cases (length x) 127) as [Hx|Hx].
    - by rewrite (take_ge x) by lia.
    - rewrite (take_app_le x) by lia. rewrite take_app_le by (rewrite length_take; lia).
      by rewrite take_take. }
  split; [done|]. rewrite Hm. unfold put_text. rewrite <- foldl_app. f_equal.
  assert (Hl : take (length l) m = l).
  { rewrite <- Hm, take_take. destruct (Nat.le_gt_cases (length l + 1) 127).
    - rewrite Nat.min_l by lia. by rewrite take_app_length.
    - assert (length l <= 127)%nat by (unfold l; rewrite length_take; lia).
      rewrite Nat.min_l by lia. by rewrite take_app_length. }
  assert (Hle : (length w <= length l)%nat).
  { unfold l. rewrite length_take, length_app. lia. }
  rewrite <- (take_drop (length l) m) at 2. rewrite Hl, drop_app_le by lia. done.
Qed.

Lemma tab_spec s w v E :
  editing s w v ->
  wp (for_up (Z.to_nat TAB_LENGTH) 0 (fun _ => type_char SPACE)) (fun _ t =>
    editing t (take 127 (w ++ replicate 4 SPACE))
      (put_text (drop (length w) (take 127 (w ++ replicate 4 SPACE))) v) /\
    only_typing s t /\ only_line (current_terminal (ttys s)) (kb s) (kb t)) E s.
Proof.
  intros He. destruct (editing_bounds _ _ _ He) as (Hct & Hlen & Hv).
  change (Z.to_nat TAB_LENGTH) with 4%nat.
  apply (wp_for_up (fun j t => editing t (take 127 (w ++ replicate (Z.to_nat j) SPACE))
      (put_text (drop (length w) (take 127 (w ++ replicate (Z.to_nat j) SPACE))) v) /\
    only_typing s t /\ only_line (current_terminal (ttys s)) (kb s) (kb t))).
  - change (Z.to_nat 0) with 0%nat. rewrite app_nil_r, take_ge, drop_all by lia. split; [done|].
    split; [apply only_typing_refl|]. split; [by destruct (kb s)|done].
  - intros j t Hj (Ht & Ho & Hl).
    eapply wp_mono; [apply (type_char_spec t _ _ SPACE E Ht); [unfold SPACE; lia|done|done]| |done].
    intros ? u (Hu & Ho' & Hl').
    destruct (typed_more w (replicate (Z.to_nat j) SPACE) SPACE v) as [E1 E2]; [lia|].
    rewrite E2, E1 in Hu. replace (Z.to_nat (j + 1)) with (Z.to_nat j + 1)%nat by lia.
    rewrite replicate_add. split; [exact Hu|]. split; [by eapply only_typing_trans|].
    destruct (sb_cur _ _ _ (proj1 Ho)) as [E3 _]. cbn in E3. rewrite E3 in Hl'.
    by eapply only_line_trans.
  - intros t Ht. exact Ht.
Qed.

(** No key is mapped to a carriage return. *)
Lemma key_mapped_cr k code c : key_mapped k code = Some c -> c <> CARRIAGE_RETURN.
Proof.
  assert (Hd : forall l, forallb (fun b => negb (b =? CARRIAGE_RETURN)) l = true ->
    aget l code = Some c -> c <> CARRIAGE_RETURN).
  { intros l Hl. unfold aget. destruct (_ && _); [|done]. intros Hc ->.
    rewrite forallb_forall in Hl. apply list_elem_of_lookup_2, list_elem_of_In, Hl in Hc. done. }
  unfold key_mapped. repeat case_match; apply Hd; reflexivity.
Qed.

Lemma editing_modifiers s w v code :
  editing s w v -> 0 <= code < 256 -> editing (set_kb (modifier_keys code (kb s)) s) w v.
Proof.
  intros [Hvis Hsh Hok Hw Hcol] Hc. constructor; try done.
  - by apply caps_keys.
  - assert (Hk : keybufferCount (modifier_keys code (kb s)) = keybufferCount (kb s) /\
      keyBuf (modifier_keys code (kb s)) = keyBuf (kb s)).
    { unfold modifier_keys, alt_key, control_key, capslock_key, shift_key. repeat case_match; done. }
    unfold typed. cbn [kb set_kb on_kb]. destruct Hk as [-> ->]. exact Hw.
Qed.

Lemma handle_editing_key s w v code E :
  editing s w v -> let k := modifier_keys code (kb s) in editing_key k code = true ->
  wp (handle_key code) (fun r t => r = SUCCESS /\ editing t (edit k code w) (echo k code w v) /\
    only_typing s t /\ only_line (current_terminal (ttys s)) k (kb t)) E s.
Proof.
  intros He k Hk. unfold editing_key in Hk. apply andb_true_iff in Hk as [Hk Hnl].
  apply andb_true_iff in Hk as [Hk Halt]. apply andb_true_iff in Hk as [Hk Hctl].
  apply negb_true_iff in Hnl, Halt, Hctl. unbool.
  destruct (editing_bounds _ _ _ He) as (Hct & Hlen & Hv).
  pose proof (editing_modifiers s w v code He ltac:(lia)) as He1. fold k in He1.
  unfold handle_key. wp_step. wp_step.
  change (on_kb (modifier_keys code) s) with (set_kb k s). wp_step. wp_step.
  change (kb (set_kb k s)) with k.
  assert (Hdone : forall (m : K unit) w' v',
    wp m (fun _ t => editing t w' v' /\ only_typing (set_kb k s) t /\
      only_line (current_terminal (ttys s)) k (kb t)) E (set_kb k s) ->
    wp (m ;; ret SUCCESS) (fun r t => r = SUCCESS /\ editing t w' v' /\
      only_typing s t /\ only_line (current_terminal (ttys s)) k (kb t)) E (set_kb k s)).
  { intros m w' v' Hm. wp_step. eapply wp_mono; [exact Hm| |done]. intros ? t (? & ? & ?).
    by apply wp_ret. }
  unfold edit, echo. destruct (Z.eqb_spec code BACKSPACE_PRESSED) as [->|Hb].
  { apply Hdone. exact (backspace_spec (set_kb k s) w v E He1). }
  unfold edit. rewrite (proj2 (Z.eqb_neq _ _) Hb).
  destruct (Z.eqb_spec code TAB_PRESSED) as [->|Ht]; [apply Hdone; exact (tab_spec (set_kb k s) w v E He1)|].
  assert (Hc : forall key, key = L_KEY \/ key = C_KEY -> (control k =? ON) && (code =? key) = false).
  { intros key Hkey. destruct (control k =? ON); [|done]. destruct Hctl as [|Hctl]; [done|]. unbool.
    apply Z.eqb_neq. by destruct Hkey as [->| ->]. }
  assert (Ha : forall key, key = F1_KEY \/ key = F2_KEY \/ key = F3_KEY ->
    (left_alt k =? ON) && (code =? key) = false).
  { intros key Hkey. destruct (left_alt k =? ON); [|done]. destruct Halt as [|Halt]; [done|]. unbool.
    apply Z.eqb_neq. by destruct Hkey as [->|[->| ->]]. }
  rewrite (Hc L_KEY), (Hc C_KEY), (Ha F1_KEY), (Ha F2_KEY), (Ha F3_KEY) by auto.
  apply Hdone. unfold plain_key. wp_step. wp_step. change (kb (set_kb k s)) with k.
  destruct (key_mapped k code) as [c|] eqn:Hm; [|done]. wp_step. apply (wp_ret c). cbn beta.
  destruct (Z.eqb_spec c 0) as [->|Hz].
  - apply wp_ret. rewrite drop_all. split; [exact He1|]. split; [apply only_typing_refl|].
    split; [by destruct k|done].
  - unbool. rewrite (proj2 (Z.eqb_neq c NEWLINE)) by done.
    apply (type_char_spec (set_kb k s) w v c); [exact He1| |done|].
    + by eapply key_mapped_range.
    + by eapply key_mapped_cr.
Qed.

(** Editing goes on after stores outside the page. *)
Lemma editing_put s a n t w v :
  modifies s a n t -> (forall i, 0 <= i < 4000 -> outside (pgs s) a n (page_of s + i)) ->
  editing s w v -> editing t w v.
Proof.
  intros Hm Ho [H1 H2 H3 H4 H5]. pose proof (modifies_pgs _ _ _ _ Hm) as Hp.
  pose proof (modifies_ttys _ _ _ _ Hm) as Ht. assert (Hk : kb t = kb s) by by destruct Hm as [-> _].
  constructor; rewrite ?Ht, ?Hk; try done.
  eapply running_shows_frame; [done|done| |exact H2]. intros i Hi. by apply (modifies_out _ _ _ _ _ Hm), Ho.
Qed.

(** ** Enter, and reading the line *)

Lemma enter_mapped k : modifier_keys ENTER_PRESSED k = k /\ key_mapped k ENTER_PRESSED = Some NEWLINE.
Proof. split; [by destruct k|]. unfold key_mapped. by repeat case_match. Qed.

Lemma set_readFlag_eq s t v :
  kbd_ok (kb s) -> 0 <= t < 3 -> 0 <= v < 256 ->
  exists k', set_readFlag t v s = Ret tt (set_kb k' s) /\ kbd_ok k' /\
    k' = Kbd (shift (kb s)) (capslock (kb s)) (capsChecker (kb s)) (control (kb s)) (left_alt (kb s))
      (keybufferCount (kb s)) (cursor (kb s)) (keyBuf (kb s)) (readFlag k') /\
    nth (Z.to_nat t) (readFlag k') 0 = v.
Proof.
  intros Hok Ht Hv. pose proof (inv_set_readFlag t v s Hok) as [Hok' _].
  destruct (aset_total (readFlag (kb s)) t (u8 v)) as [l Hset]; [rewrite (kb_flags _ Hok); lia|].
  assert (Hrun : set_readFlag t v s = Ret tt (set_kb (Kbd (shift (kb s)) (capslock (kb s))
      (capsChecker (kb s)) (control (kb s)) (left_alt (kb s)) (keybufferCount (kb s)) (cursor (kb s))
      (keyBuf (kb s)) l) s)).
  { unfold set_readFlag, bind, gets. rewrite Hset. reflexivity. }
  rewrite Hrun in Hok'. eexists. split; [exact Hrun|]. split; [exact Hok'|]. split; [done|]. cbn.
  pose proof (aget_aset _ _ _ t _ Hset) as Hg. rewrite Z.eqb_refl, u8_small in Hg by lia.
  unfold aget in Hg. destruct (_ && _); [|done]. by apply nth_lookup_Some with (d := 0) in Hg.
Qed.

(** The editor depends on the modifier keys only. *)
Definition same_mods (k k' : kbd) : Prop :=
  shift k = shift k' /\ capslock k = capslock k' /\ capsChecker k = capsChecker k' /\
  control k = control k' /\ left_alt k = left_alt k'.

Lemma same_mods_trans k1 k2 k3 : same_mods k1 k2 -> same_mods k2 k3 -> same_mods k1 k3.
Proof. unfold same_mods. intros (-> & -> & -> & -> & ->). done. Qed.

Lemma only_line_mods t k k' : only_line t k k' -> same_mods k' k /\ readFlag k' = readFlag k.
Proof. intros [-> _]. done. Qed.

Lemma enter_spec s w v E :
  editing s w v ->
  wp (handle_key ENTER_PRESSED) (fun r t => r = SUCCESS /\ editing t [] (put_char NEWLINE v) /\
    line_pending t = false /\ line_ready t w /\ only_typing s t /\ same_mods (kb t) (kb s)) E s.
Proof.
  intros He. destruct (editing_bounds _ _ _ He) as (Hct & Hlen & Hv).
  destruct He as [Hvis Hsh Hok Hw Hcol]. set (ct := current_terminal (ttys s)) in *.
  destruct (enter_mapped (kb s)) as [Em Ec].
  unfold handle_key. wp_step. wp_step. change (on_kb _ s) with (set_kb (modifier_keys ENTER_PRESSED (kb s)) s).
  rewrite Em. replace (set_kb (kb s) s) with s by by destruct s. wp_step. wp_step.
  change (ENTER_PRESSED =? BACKSPACE_PRESSED) with false. change (ENTER_PRESSED =? TAB_PRESSED) with false.
  change (ENTER_PRESSED =? L_KEY) with false. change (ENTER_PRESSED =? C_KEY) with false.
  change (ENTER_PRESSED =? F1_KEY) with false. change (ENTER_PRESSED =? F2_KEY) with false.
  change (ENTER_PRESSED =? F3_KEY) with false. rewrite !andb_false_r. cbn iota. wp_step.
  unfold plain_key. wp_step. wp_step. rewrite Ec. wp_step. apply (wp_ret NEWLINE).
  change (NEWLINE =? 0) with false. rewrite Z.eqb_refl. cbn iota.
  unfold enter_key. wp_step. wp_step. fold ct.
  destruct (put_key_eq s ct w NEWLINE Hok Hct Hw ltac:(unfold NEWLINE; lia))
    as (k1 & row & r & R1 & Ok1 & L1 & C1 & B1 & Hrow1). wp_step. wp_use R1.
  destruct (set_readFlag_eq (set_kb k1 s) ct UNLOCK Ok1 Hct ltac:(unfold UNLOCK; lia))
    as (k2 & R2 & Ok2 & E2 & F2). wp_step. wp_use R2. change (set_kb k2 (set_kb k1 s)) with (set_kb k2 s).
  destruct (set_count_eq (set_kb k2 s) ct 0 Ok2 Hct ltac:(lia)) as (k3 & R3 & Ok3 & L3 & B3 & C3).
  wp_step. wp_use R3. change (set_kb k3 (set_kb k2 s)) with (set_kb k3 s).
  eapply wp_mono; [apply (putc_spec (set_kb k3 s) v NEWLINE); [exact Hsh|unfold NEWLINE; lia]| |done].
  intros ? t [Ht Ho]. apply wp_ret. assert (Hk : kb t = k3) by apply (sb_kb _ _ _ (proj1 Ho)).
  assert (Hot : only_typing s t).
  { unfold only_typing. rewrite Hk. exact Ho. }
  destruct (sb_cur _ _ _ (proj1 Hot)) as [E4 E5]. cbn in E4, E5.
  assert (Hbuf : keyBuf k3 = keyBuf k1).
  { rewrite B3. cbn [kb set_kb on_kb]. by rewrite E2. }
  split; [done|]. split; [|split; [|split; [|split; [done|]]]].
  - eapply editing_after; [exact Hot|exact Ht|exact Hvis|by rewrite Hk| |].
    + rewrite Hk. fold ct. split; [exact C3|]. split; [|done]. exists row, row. by rewrite Hbuf.
    + destruct Ht as [_ (_ & (_ & _ & Hc0 & _) & _)]. simpl. lia.
  - unfold line_pending. rewrite Hk, E5, Hvis. fold ct. destruct L3 as [-> _]. cbn [readFlag set_counts set_bufs kb set_kb on_kb].
    by rewrite F2.
  - exists row. rewrite Hk, E5, Hvis, Hbuf. fold ct. split; [done|]. split; [|split].
    + by apply (kb_buf _ Ok1 ct).
    + exists r. done.
    + by destruct Hw as (_ & _ & Hw).
  - rewrite Hk. eapply same_mods_trans; [by apply (only_line_mods _ _ _ L3)|].
    eapply same_mods_trans; [|by apply (only_line_mods _ _ _ L1)]. cbn [kb set_kb on_kb] in E2 |- *. by rewrite E2.
Qed.

Lemma same_mods_step k k' code :
  same_mods k k' ->
  same_mods (modifier_keys code k) (modifier_keys code k') /\
  (forall c w, edit k c w = edit k' c w) /\ (forall c, editing_key k c = editing_key k' c).
Proof.
  intros (E1 & E2 & E3 & E4 & E5).
  assert (Hm : forall c, key_mapped k c = key_mapped k' c) by (intros c; unfold key_mapped; by rewrite E1, E2).
  split; [|split].
  - assert (Hs : same_mods (shift_key code k) (shift_key code k')).
    { unfold shift_key. repeat case_match; done. }
    unfold modifier_keys. revert Hs. generalize (shift_key code k), (shift_key code k'). clear. intros k k' (E1 & E2 & E3 & E4 & E5).
    assert (Hs : same_mods (capslock_key code k) (capslock_key code k')).
    { unfold capslock_key. rewrite E3. repeat case_match; done. }
    revert Hs. generalize (capslock_key code k), (capslock_key code k'). clear.
    intros k k' (E1 & E2 & E3 & E4 & E5).
    unfold alt_key, control_key. repeat case_match; done.
  - intros c w. unfold edit. by rewrite Hm.
  - intros c. unfold editing_key. by rewrite Hm, E4, E5.
Qed.

Lemma same_mods_echo k k' code w v : same_mods k k' -> echo k code w v = echo k' code w v.
Proof. intros Hm. unfold echo. by destruct (same_mods_step k k' code Hm) as (_ & -> & _). Qed.

Lemma same_mods_all codes k k' w v :
  same_mods k k' -> edit_all k codes w = edit_all k' codes w /\
    editing_keys k codes = editing_keys k' codes /\ echo_all k codes w v = echo_all k' codes w v /\
    same_mods (mods_all k codes) (mods_all k' codes).
Proof.
  revert k k' w v. induction codes as [|c codes IH]; intros k k' w v Hm; [done|].
  destruct (same_mods_step k k' c Hm) as [Hm' _]. destruct (same_mods_step _ _ c Hm') as (_ & He & Hk).
  unfold mods_all. cbn [edit_all editing_keys echo_all foldl]. cbv zeta. rewrite He, Hk, (same_mods_echo _ _ _ _ _ Hm').
  destruct (IH _ _ (edit (modifier_keys c k') c w) (echo (modifier_keys c k') c w v) Hm')
    as (-> & -> & -> & Hms). done.
Qed.

Lemma modifiers_readFlag code k : readFlag (modifier_keys code k) = readFlag k.
Proof. unfold modifier_keys, alt_key, control_key, capslock_key, shift_key. repeat case_match; done. Qed.

Lemma key_irq_eq code s :
  exists es, key_irq code s = (handle_key code ;; ret tt) (log_all es s).
Proof.
  exists [In KEYBOARD_CONTROLLER_PORT code; Out (Z.lor EOI KEYBOARD_CONTROLLER_IRQ) MASTER_8259_PORT].
  unfold key_irq, KEYBOARD_CONTROLLER_IRQ. unfold bind at 1. rewrite send_eoi_master by lia. reflexivity.
Qed.

Lemma editing_log_all es s w v : editing s w v -> editing (log_all es s) w v.
Proof. intros [H1 H2 H3 H4 H5]. induction es as [|e es IH]; [done|]. by destruct IH. Qed.

Lemma log_all_kb es s : kb (log_all es s) = kb s /\ ttys (log_all es s) = ttys s.
Proof. by induction es. Qed.

(** A handler run, from a triple of its body. *)
Lemma key_irq_spec code s (Q : kernel -> Prop) E :
  (forall es, wp (handle_key code) (fun _ t => Q t) E (log_all es s)) ->
  wp (key_irq code) (fun _ t => Q t) E s.
Proof.
  intros Hh. destruct (key_irq_eq code s) as [es Hes]. unfold wp. rewrite Hes.
  change (wp (handle_key code ;; ret tt) (fun _ t => Q t) E (log_all es s)). wp_step.
  eapply wp_mono; [apply Hh| |done]. intros r t Ht. by apply wp_ret.
Qed.

Lemma only_typing_log s es t : only_typing (log_all es s) t -> only_typing s t.
Proof.
  intros Ho. eapply only_typing_trans; [|exact Ho].
  apply only_typing_screen, (only_screen_log_all (page_of s) (curr_scheduler (ttys s))).
Qed.

(** A waiting read served by keys that edit the line and then Enter. *)
Lemma spin_typing codes s w v E :
  editing s w v -> line_pending s = true -> editing_keys (kb s) codes = true ->
  wp (spin line_pending (map key_irq codes ++ [key_irq ENTER_PRESSED])) (fun _ t =>
    line_ready t (edit_all (kb s) codes w) /\ only_typing s t /\
    editing t [] (put_char NEWLINE (echo_all (kb s) codes w v)) /\
    same_mods (kb t) (mods_all (kb s) codes)) E s.
Proof.
  revert s w v. induction codes as [|code codes IH]; intros s w v He Hp Hc;
    cbn [map app spin]; wp_step; wp_step; rewrite Hp; cbn [negb]; wp_step.
  - eapply wp_mono; [apply (key_irq_spec ENTER_PRESSED s (fun t => line_pending t = false /\
      line_ready t w /\ only_typing s t /\ editing t [] (put_char NEWLINE v) /\ same_mods (kb t) (kb s)))| |done].
    + intros es. eapply wp_mono; [apply (enter_spec _ w v), editing_log_all, He| |done].
      destruct (log_all_kb es s) as [-> _].
      intros r t (_ & ? & Hf & Hr & Ho & Hm). split_and!; [done..|by apply (only_typing_log s es)|done|done].
    + intros ? t (Hf & Hr & Ho & He' & Hm). wp_step. wp_step. rewrite Hf. cbn [negb]. by apply wp_ret.
  - cbn [editing_keys] in Hc. cbv zeta in Hc. apply andb_true_iff in Hc as [Hk Hks].
    set (k := modifier_keys code (kb s)) in *.
    eapply wp_mono; [apply (key_irq_spec code s (fun t => editing t (edit k code w) (echo k code w v) /\
      only_typing s t /\ same_mods (kb t) k /\ readFlag (kb t) = readFlag k))| |done].
    + intros es. destruct (log_all_kb es s) as [Ek _].
      eapply wp_mono; [apply (handle_editing_key _ w v code)|intros r t|done].
      * apply editing_log_all, He.
      * rewrite Ek. exact Hk.
      * rewrite Ek. fold k. intros (_ & He' & Ho & Hl). apply only_line_mods in Hl as [Hl1 Hl2].
        split_and!; [done|by apply (only_typing_log s es)|done|done].
    + intros ? t (He' & Ho & Hm & Hf).
      destruct (same_mods_all codes _ _ (edit k code w) (echo k code w v) Hm) as (Ee & Ek & Es & Em).
      eapply wp_mono; [eapply (IH t _ _ He'); [|by rewrite Ek]| |done].
      * unfold line_pending in *. destruct (sb_cur _ _ _ (proj1 Ho)) as [_ E2]. cbn in E2.
        rewrite E2, Hf. unfold k. by rewrite modifiers_readFlag.
      * intros ? u (Hr & Ho' & Heu & Hmu). rewrite Ee in Hr. rewrite Es in Heu. split; [exact Hr|].
        split; [by eapply only_typing_trans|]. split; [exact Heu|]. by eapply same_mods_trans.
Qed.

(** ** Shortcuts *)

(** An empty page with the cursor in its corner. *)
Definition blank_screen : screen := Screen (replicate CELLS blank) 0 0.

(** [clear (); clear_set ();] on the visible terminal: the state it leaves. *)
Definition cleared_screen (s u : kernel) : Prop :=
  exists s1 T es, modifies s video_mem 4000 s1 /\
    aget (terminal (ttys s)) (curr_scheduler (ttys s)) = Some T /\
    u = log_all es (with_term (curr_scheduler (ttys s)) (set_screen_y 0 (set_screen_x 0 T)) s1).

Lemma clear_screen_spec {A} s v (k : K A) Q E :
  curr_scheduler (ttys s) = current_terminal (ttys s) -> running_shows s v ->
  (forall u, running_shows u blank_screen -> cleared_screen s u -> wp k Q E u) ->
  wp (clear ;; clear_set ;; k) Q E s.
Proof.
  intros Hvis [Hcs (Hg & Hv & T & HT & _)] HQ.
  assert (Hp : page_of s = video_mem) by (unfold page_of; by rewrite Hvis, Z.eqb_refl).
  rewrite Hp in Hg. wp_step.
  eapply wp_mono; [by apply (clear_spec s (cells v) (fun _ _ => False))| |done]. intros ? s1 [Hg1 Hm1].
  pose proof (modifies_ttys _ _ _ _ Hm1) as Et. unfold clear_set. do 4 wp_step.
  rewrite Et, <- Hvis.
  assert (HT1 : aget (terminal (ttys s1)) (curr_scheduler (ttys s)) = Some T) by by rewrite Et.
  wp_use (get_term_eq _ _ _ HT1). wp_step. wp_use (put_term_eq _ _ _ (set_screen_y 0 (set_screen_x 0 T)) HT1).
  set (T' := set_screen_y 0 (set_screen_x 0 T)). set (s2 := with_term _ T' s1).
  destruct (write_cursor_eq (term_pos T') s2) as (es & Hrun & _). wp_use Hrun.
  destruct (on_page_term s1 video_mem _ _ _ T' (conj Hg1 HT1)) as [Hg2 HT2]. fold s2 in Hg2, HT2.
  assert (Htt : curr_scheduler (ttys s2) = curr_scheduler (ttys s) /\
    current_terminal (ttys s2) = curr_scheduler (ttys s)).
  { cbn. rewrite Et. done. }
  destruct Htt as [Ec1 Ec2]. apply HQ.
  - apply running_shows_log_all. assert (Hp2 : page_of s2 = video_mem).
    { unfold page_of. by rewrite Ec1, Ec2, Z.eqb_refl. }
    unfold running_shows. rewrite Hp2, Ec1. split; [done|]. split; [exact Hg2|]. split; [done|].
    exists T'. split; [exact HT2|done].
  - by exists s1, T, es.
Qed.

Lemma cleared_only s u :
  curr_scheduler (ttys s) = current_terminal (ttys s) -> cleared_screen s u -> only_running_screen s u.
Proof.
  intros Hvis (s1 & T & es & Hm & HT & ->). pose proof (modifies_ttys _ _ _ _ Hm) as Et.
  unfold only_running_screen, page_of. rewrite Hvis, Z.eqb_refl.
  eapply only_screen_trans; [by apply only_screen_modifies|].
  eapply only_screen_trans; [|apply only_screen_log_all]. apply (only_screen_with_term _ _ _ T); [|done].
  by rewrite Et, <- Hvis.
Qed.

Lemma control_l_spec s v E :
  curr_scheduler (ttys s) = current_terminal (ttys s) -> running_shows s v ->
  wp control_l (fun _ t => running_shows t blank_screen /\ only_running_screen s t) E s.
Proof.
  intros Hvis Hs. unfold control_l. apply (clear_screen_spec s v); [done|done|]. intros u Hu Hcl.
  unfold readFlag_is_off. wp_step. split; [done|]. by apply cleared_only.
Qed.

Lemma low_unmapped p va :
  table_linked -> tables_ok p -> 0x1000 <= va < 0xB8000 -> cell p va = None.
Proof.
  intros Hl Hok Hva. unfold cell. rewrite (proj2 (Z.ltb_ge va 0)) by lia.
  assert (Hd : va / MB4 = 0) by (unfold MB4; apply Z.div_small; lia).
  rewrite (translate_table p va 3 Hl); [|apply Hok|lia|done|rewrite Hd; apply Hok].
  unfold pt_frame, MB4, KB4. rewrite (Z.mod_small va) by lia.
  assert (Hi : 1 <= va / 4096 < 0xB8) by (split; [apply Z.div_le_lower_bound|apply Z.div_lt_upper_bound]; lia).
  rewrite (t_pt_rest _ Hok) by lia. done.
Qed.

Lemma put_cell_fault b y x c s :
  mem_get s (cell_addr b y x) = None -> put_cell b y x c s = Fault (cell_addr b y x) s.
Proof. intros Hm. unfold put_cell. by apply bind_Fault, store8_fault. Qed.

(** Rubbing out at the corner of the page reaches the byte pair below it. *)
Lemma delete_corner s T :
  table_linked -> tables_ok (pgs s) ->
  aget (terminal (ttys s)) (current_terminal (ttys s)) = Some T -> screen_x T = 0 -> screen_y T = 0 ->
  exists t, delete s = Fault 0xB7FFE t.
Proof.
  intros Hl Hok HT Hx Hy. unfold delete.
  set (T' := set_screen_x (screen_x T - 1) T). set (s1 := with_term (current_terminal (ttys s)) T' s).
  exists s1. unfold bind at 1, gets at 1. unfold bind at 1. rewrite (get_term_eq _ _ _ HT). cbv zeta.
  change (set_screen_x (screen_x T - 1) T) with T'. unfold bind at 1. rewrite (put_term_eq _ _ _ T' HT). fold s1.
  apply bind_Fault. assert (Ha : cell_addr video_mem (screen_y T') (screen_x T') = 0xB7FFE).
  { unfold T', set_screen_x. cbn [screen_x screen_y]. rewrite Hx, Hy. reflexivity. }
  rewrite <- Ha. apply put_cell_fault. rewrite Ha. unfold mem_get.
  change (pgs s1) with (pgs s). by rewrite low_unmapped by (done || lia).
Qed.

(** ** Properties *)

(** A read from the keyboard while a line is typed, as a triple: the line is
    copied from the state the last key left. *)
Lemma typed_line_spec s fd buf n w v codes E :
  editing s w v -> buf <> 0 -> 0 <= n < 2 ^ 31 -> region s buf n ->
  (forall i, 0 <= i < n -> outside (pgs s) (page_of s) 4000 (buf + i)) ->
  editing_keys (kb s) codes = true ->
  let line := edit_all (kb s) codes w in
  wp (terminal_read (map key_irq codes ++ [key_irq ENTER_PRESSED]) fd buf n) (fun r t =>
    r = Z.min n (Z.of_nat (length line) + 1) /\ exists u, t = put_bytes buf (delivered line n) u /\
    region u buf n /\ only_typing s u /\ editing u [] (put_char NEWLINE (echo_all (kb s) codes w v)) /\
    same_mods (kb u) (mods_all (kb s) codes)) E s.
Proof.
  intros He Hbuf Hn Hreg Hout Hc line. destruct (editing_bounds _ _ _ He) as (Hct & _ & _).
  destruct He as [Hvis Hsh Hok Hw Hcol].
  unfold terminal_read, NULL. wp_step. wp_step. rewrite Hvis.
  destruct (set_readFlag_eq s (current_terminal (ttys s)) LOCK Hok Hct ltac:(unfold LOCK; lia))
    as (k & Rk & Okk & Ek & Fk). wp_step. wp_use Rk.
  rewrite (proj2 (Z.eqb_neq buf 0)), (proj2 (Z.ltb_ge n 0)) by lia. cbn [orb]. wp_step.
  assert (Hm : same_mods k (kb s)) by (rewrite Ek; by repeat split).
  destruct (same_mods_all codes _ _ w v Hm) as (El & Ec & Es & Em).
  eapply wp_mono; [apply (spin_typing codes (set_kb k s) w v E)| |done].
  - constructor; try done. unfold typed in *. cbn [kb set_kb on_kb]. rewrite Ek. exact Hw.
  - unfold line_pending. cbn. by rewrite Hvis, Fk.
  - cbn [kb set_kb on_kb]. by rewrite Ec.
  - intros ? t (Hr & Ho & Het & Hmt). cbn [kb set_kb on_kb] in Hr, Het, Hmt. rewrite El in Hr.
    rewrite Es in Het. fold line in Hr.
    assert (Hreg' : region t buf n).
    { destruct Ho as [Hsb _]. destruct Hreg as [Hb Hi]. pose proof (sb_pgs _ _ _ Hsb) as Ep. split.
      - intros i Hir. rewrite (sb_mem _ _ _ Hsb); [by apply Hb|]. by apply Hout.
      - intros i j. rewrite Ep. apply Hi. }
    eapply wp_mono; [by apply (read_line_spec t line buf n E)| |done].
    intros r u [-> ->]. pose proof (delivered_length line n ltac:(lia)) as Hlen. split; [done|].
    exists t. split_and!; [done|done|exact Ho|exact Het|by eapply same_mods_trans].
Qed.

(** C1: typing a line.  A read on the terminal on screen that waits while keys
    are pressed - any keys that edit the line, then Enter - returns with the
    line those keys spell: the characters of the key maps under the shift and
    caps lock of the moment, tabs as four spaces, less what was rubbed out, at
    most 127 characters, then a newline; or as much of it as the buffer holds.
    The terminal shows the echo of the keys, and the next line starts empty. *)
Theorem typed_line_is_read s fd buf n w v codes :
  editing s w v -> buf <> 0 -> 0 <= n < 2 ^ 31 -> region s buf n ->
  (forall i, 0 <= i < n -> outside (pgs s) (page_of s) 4000 (buf + i)) ->
  (forall i, 0 <= i < 4000 -> outside (pgs s) buf n (page_of s + i)) ->
  editing_keys (kb s) codes = true ->
  let line := edit_all (kb s) codes w in
  exists t, terminal_read (map key_irq codes ++ [key_irq ENTER_PRESSED]) fd buf n s =
      Ret (Z.min n (Z.of_nat (length line) + 1)) t /\
    bytes_at t buf (delivered line n) /\
    editing t [] (put_char NEWLINE (echo_all (kb s) codes w v)).
Proof.
  intros He Hbuf Hn Hreg Hout Hpage Hc line.
  pose proof (typed_line_spec s fd buf n w v codes (fun _ _ => False) He Hbuf Hn Hreg Hout Hc) as Hw.
  apply wp_Ret in Hw as (r & t & Hrun & -> & u & -> & Hregu & Ho & Heu & _).
  pose proof (delivered_length line n ltac:(lia)) as Hlen. exists (put_bytes buf (delivered line n) u).
  split; [exact Hrun|]. assert (Hm : modifies u buf n (put_bytes buf (delivered line n) u)).
  { apply modifies_put_bytes. lia. }
  split.
  - apply bytes_at_put_bytes. rewrite Hlen, <- (Z.add_0_r buf). eapply region_mono; [exact Hregu|lia|lia].
  - apply (editing_put u _ _ _ _ _ Hm); [|exact Heu]. destruct (page_of_only _ _ Ho) as [Hp _].
    intros i Hi. rewrite Hp, (sb_pgs _ _ _ (proj1 Ho)). by apply Hpage.
Qed.

(** One key.  On the terminal on screen, a scan code that is neither Enter
    nor a shortcut makes the handler return 0 with the line and the screen
    edited as [edit] and [echo] say: a character appended and shown while
    fewer than 127 are stored, the last one dropped and rubbed out, four spaces
    for a tab; no other terminal's line changes. *)
Theorem keyboard_edits_line s w v code :
  editing s w v -> let k := modifier_keys code (kb s) in editing_key k code = true ->
  exists t, handle_key code s = Ret SUCCESS t /\ editing t (edit k code w) (echo k code w v) /\
    only_typing s t /\ only_line (current_terminal (ttys s)) k (kb t).
Proof.
  intros He k Hk. pose proof (handle_editing_key s w v code (fun _ _ => False) He Hk) as Hw.
  apply wp_Ret in Hw as (r & t & Hrun & -> & H'). by exists t.
Qed.

(** C25: the driver's arrays.  Whatever state the machine is in and whatever way
    the handler ends - return, fault, program halted - its variables keep the
    sizes and ranges of their declarations: the count of each of the three
    lines stays between 0 and 127, so it always indexes the 128-byte buffer. *)
Theorem keyboard_invariant s :
  kbd_ok (kb s) -> kbd_ok (kb (final (keyboard_handler s))).
Proof.
  intros Hok. unfold keyboard_handler.
  assert (Hi : Inv (let* c := inb KEYBOARD_CONTROLLER_PORT in handle_key c) always).
  { intros u Hu. unfold inb, bind, gets, modify, ret. cbn beta iota.
    apply (inv_handle_key (u8 _) (u8_range _)). exact Hu. }
  pose proof (inv_bind_keeps (send_eoi KEYBOARD_CONTROLLER_IRQ) _ _ _ (fun _ => Hi)) as Ha.
  by apply (Ha s Hok).
Qed.

(** C31: caps lock.  Over any scan code the handler moves the caps lock as a
    toggle with auto-repeat: a press flips the lock unless the key is held,
    a release only ends the hold - and no other key touches it. *)
Theorem capslock_toggles s code :
  kbd_ok (kb s) -> 0 <= code < 256 ->
  caps_of (kb (final (handle_key code s))) = caps_step code (caps_of (kb s)).
Proof.
  intros Hok Hc. destruct (caps_keys code (kb s) Hok Hc) as [_ <-].
  assert (Hset : forall m : K Z, Keeps (fun s => caps_of (kb s)) m ->
    caps_of (kb (final ((modify (on_kb (modifier_keys code)) ;; m) s))) =
    caps_of (modifier_keys code (kb s))) by (intros m Hm; apply Hm).
  apply Hset. assert (Hkb : forall A (m : K A), Keeps kb m -> Keeps (fun s => caps_of (kb s)) m).
  { intros A m Hm u. by rewrite Hm. }
  assert (Hc1 : forall t n, Keeps (fun s => caps_of (kb s)) (set_count t n)) by (intros; unfold set_count; keeps).
  assert (Hc2 : forall t n, Keeps (fun s => caps_of (kb s)) (set_readFlag t n)) by (intros; unfold set_readFlag; keeps).
  assert (Hc3 : forall t, Keeps (fun s => caps_of (kb s)) (get_count t)) by (intros; unfold get_count; keeps).
  assert (Hc4 : forall t c, Keeps (fun s => caps_of (kb s)) (put_key t c)) by (intros; unfold put_key; keeps).
  assert (Hc5 : forall c, Keeps (fun s => caps_of (kb s)) (putc c)) by (intros; apply Hkb, _).
  assert (Hc6 : forall c, Keeps (fun s => caps_of (kb s)) (type_char c)) by (intros; unfold type_char; keeps).
  assert (Hc7 : Keeps (fun s => caps_of (kb s)) delete) by (apply Hkb, _).
  assert (Hc8 : forall t, Keeps (fun s => caps_of (kb s)) (terminal_switch t)) by (intros; apply Hkb, _).
  assert (Hc9 : Keeps (fun s => caps_of (kb s)) control_l).
  { apply Hkb. unfold control_l, readFlag_is_off. keeps. }
  assert (Hc10 : forall t, Keeps (fun s => caps_of (kb s)) (halt t)) by (intros; apply Hkb, _).
  unfold backspace, plain_key, enter_key. keeps.
Qed.

(** The layout.  The three maps have 256 entries and agree: caps lock
    changes the letters to capitals, and shift gives the upper legend of every
    key of a US keyboard except the key 3, which stays a 3. *)
Theorem keymap_layout code :
  0 <= code < 256 ->
  let lower := bytes_of "abcdefghijklmnopqrstuvwxyz`1234567890-=[]\;',./" in
  let upper := bytes_of "ABCDEFGHIJKLMNOPQRSTUVWXYZ~!@3$%^&*()_+{}|:" ++ [34] ++ bytes_of "<>?" in
  exists c i, aget keymap code = Some c /\
    aget keymapShift code = Some (nth i upper c) /\
    aget keymapCapslock code = Some (if (i <? 26)%nat then nth i upper c else c) /\
    ((i < length lower)%nat /\ nth i lower 0 = c \/ i = length lower /\ c ∈ [0; NEWLINE; SPACE]).
Proof.
  intros Hc lower upper.
  set (find := fix find (l : list Z) (c : Z) : nat :=
    match l with [] => O | x :: l' => if x =? c then O else Datatypes.S (find l' c) end).
  pose proof (byte_cases (fun code =>
    match aget keymap code, aget keymapShift code, aget keymapCapslock code with
    | Some c, Some sc, Some cc =>
      let i := find lower c in
      (sc =? nth i upper c) && (cc =? if (i <? 26)%nat then nth i upper c else c) &&
      ((i <? length lower)%nat && (nth i lower 0 =? c) ||
       (i =? length lower)%nat && ((c =? 0) || (c =? 10) || (c =? 32)))
    | _, _, _ => false
    end) eq_refl code Hc) as Hb. cbn beta in Hb.
  destruct (aget keymap code) as [c|]; [|done]. destruct (aget keymapShift code) as [sc|]; [|done].
  destruct (aget keymapCapslock code) as [cc|]; [|done]. cbv zeta in Hb.
  exists c, (find lower c). apply andb_true_iff in Hb as [[->%Z.eqb_eq ->%Z.eqb_eq]%andb_true_iff Hb].
  split_and!; try done. apply orb_true_iff in Hb as [[H1%Nat.ltb_lt H2%Z.eqb_eq]%andb_true_iff|Hb]; [by left|].
  apply andb_true_iff in Hb as [H1%Nat.eqb_eq H2]. right. split; [done|].
  apply orb_true_iff in H2 as [[->%Z.eqb_eq| ->%Z.eqb_eq]%orb_true_iff| ->%Z.eqb_eq]; unfold NEWLINE, SPACE; set_solver.
Qed.

(** C39: Control-L.  It blanks the screen and puts the cursor in the corner, but
    keeps the line that was being typed; after it, the first Backspace on a
    line that is not empty stores below video memory and faults. *)
Theorem ctrl_l_keeps_line s w v :
  table_linked -> tables_ok (pgs s) -> editing s w v -> control (kb s) = ON ->
  exists t, handle_key L_KEY s = Ret SUCCESS t /\ running_shows t blank_screen /\ kb t = kb s /\
    (w <> [] -> exists u, handle_key BACKSPACE_PRESSED t = Fault 0xB7FFE u).
Proof.
  intros Hl Htab He Hctl. destruct (editing_bounds _ _ _ He) as (Hct & _ & _).
  destruct He as [Hvis Hsh Hok (Hn & _) _].
  assert (Hmod : forall c, c = L_KEY \/ c = BACKSPACE_PRESSED -> forall u, modify (on_kb (modifier_keys c)) u
    = @Ret kernel transfer unit tt u).
  { intros c Hc [? ? ? ? ? ? [] ? ? ?]. by destruct Hc as [->| ->]. }
  pose proof (control_l_spec s v (fun _ _ => False) Hvis Hsh) as Hw.
  apply wp_Ret in Hw as ([] & t & Hrun & Ht & Ho). exists t.
  pose proof (proj1 Ho) as Hsb. pose proof (sb_kb _ _ _ Hsb) as Hk. destruct (sb_cur _ _ _ Hsb) as [E1 E2].
  split_and!; try done.
  - unfold handle_key. unfold bind at 1. rewrite Hmod by auto. unfold bind at 1, gets at 1. rewrite Hctl.
    change (L_KEY =? BACKSPACE_PRESSED) with false. change (L_KEY =? TAB_PRESSED) with false.
    rewrite !Z.eqb_refl. cbn [andb]. by rewrite (bind_Ret _ _ _ _ _ Hrun).
  - intros Hw. destruct Ht as [_ (_ & _ & T & HT & Hy & Hx)]. rewrite E2, Hvis, <- E1 in HT.
    destruct (delete_corner t T Hl) as [u Hu]; [by rewrite (sb_pgs _ _ _ Hsb)|done|done|done|]. exists u.
    unfold handle_key. unfold bind at 1. rewrite Hmod by auto. unfold bind at 1, gets at 1.
    rewrite Z.eqb_refl. apply bind_Fault. unfold backspace. unfold bind at 1, gets at 1. rewrite E1.
    assert (Hg : get_count (current_terminal (ttys s)) t = Ret (Z.of_nat (length w)) t).
    { unfold get_count, bind, gets. by rewrite Hk, Hn. }
    rewrite (bind_Ret _ _ _ _ _ Hg), (proj2 (Z.ltb_lt 0 _)) by (destruct w; [done|simpl; lia]).
    by apply bind_Fault.
Qed.

Lemma child_of_shown s t v T child parent :
  only_running_screen s t -> running_shows t v -> child_of s T child parent ->
  exists T', term_pcb T' = term_pcb T /\ child_of t T' child parent.
Proof.
  intros Ho Hs [C1 C2 C3 C4 C5 C6 C7]. destruct (running_shown _ _ _ _ Ho Hs C1) as (T' & HT' & Hpcb).
  exists T'. split; [done|]. destruct Ho as [Hsb _]. pose proof (sb_prc _ _ _ Hsb) as Ep.
  constructor; by rewrite ?Ep, ?Hpcb.
Qed.

(** C35: Control-C.  It moves to a new line and halts the running program with
    status 2: the handler does not return, the program's parent goes on as
    after [halt]. *)
Theorem ctrl_c_halts s v T child parent :
  tables_ok (pgs s) -> running_shows s v -> child_of s T child parent -> control (kb s) = ON ->
  exists t T' u, handle_key C_KEY s = Leave JmpReturn u /\
    running_shows t (put_char NEWLINE v) /\ only_running_screen s t /\ term_pcb T' = term_pcb T /\
    halted t T' child parent CTRL_CLEAR_VAL u.
Proof.
  intros Htab Hsh Hch Hctl. pose proof (putc_spec s v NEWLINE (fun _ _ => False) Hsh ltac:(unfold NEWLINE; lia)) as Hw.
  apply wp_Ret in Hw as ([] & t & Hrun & Ht & Ho). pose proof (proj1 Ho) as Hsb.
  destruct (child_of_shown _ _ _ _ _ _ Ho Ht Hch) as (T' & Hpcb & Hch').
  pose proof (halt_spec t T' child parent CTRL_CLEAR_VAL) as Hh.
  rewrite (sb_pgs _ _ _ Hsb) in Hh. specialize (Hh Htab Hch').
  apply wp_Leave in Hh as (x & u & Hhalt & -> & Hha).
  exists t, T', u. split; [|done].
  unfold handle_key. assert (Hmod : modify (on_kb (modifier_keys C_KEY)) s = @Ret kernel transfer unit tt s).
  { by destruct s as [? ? ? ? ? ? [] ? ? ?]. }
  unfold bind at 1. rewrite Hmod. unfold bind at 1, gets at 1. rewrite Hctl.
  change (C_KEY =? BACKSPACE_PRESSED) with false. change (C_KEY =? TAB_PRESSED) with false.
  change (C_KEY =? L_KEY) with false. change (C_KEY =? F1_KEY) with false.
  change (C_KEY =? F2_KEY) with false. change (C_KEY =? F3_KEY) with false.
  rewrite !andb_false_r, !Z.eqb_refl. cbn [andb].
  rewrite (bind_Ret _ _ _ _ _ Hrun). by apply bind_Leave.
Qed.

(** Alt and a function key.  With the left Alt key down, F1, F2 and F3 bring
    terminal 0, 1 and 2 on screen with its text, and keep the text of the
    others, the processes and the lines being typed. *)
Theorem alt_switches_terminal s n :
  table_linked -> video_ready s -> 0 <= current_terminal (ttys s) < 3 -> 0 <= n < 3 ->
  0 <= curr_scheduler (ttys s) < 3 -> length (terminal (ttys s)) = 3%nat -> left_alt (kb s) = ON ->
  exists t, handle_key (F1_KEY + n) s = Ret SUCCESS t /\ current_terminal (ttys t) = n /\
    (forall k i, 0 <= k < 3 -> 0 <= i < KB4 -> text_at t k i = text_at s k i) /\
    kb t = kb s /\ prc t = prc s.
Proof.
  intros Hl Hv Hcur Hn Hcs Hlen Halt.
  pose proof (terminal_switch_spec s n (fun _ _ => False) Hl Hv Hcur Hn Hcs Hlen) as Hw.
  apply wp_Ret in Hw as (r & t & Hrun & _ & _ & Ht & Hk & Hp & _ & _ & _ & _ & Htext).
  exists t. split_and!; try done; [|by rewrite Ht].
  unfold handle_key. assert (Hmod : modify (on_kb (modifier_keys (F1_KEY + n))) s = @Ret kernel transfer unit tt s).
  { assert (Hc : n = 0 \/ n = 1 \/ n = 2) by lia.
    destruct s as [? ? ? ? ? ? [] ? ? ?]. by destruct Hc as [->|[->| ->]]. }
  unfold bind at 1. rewrite Hmod. unfold bind at 1, gets at 1. rewrite Halt.
  assert (Hc : n = 0 \/ n = 1 \/ n = 2) by lia. clear -Hc Hrun.
  destruct Hc as [->|[->| ->]]; rewrite !andb_false_r;
    exact (bind_Ret (terminal_switch _) (fun _ => ret SUCCESS) r s t Hrun).
Qed.

End keyboard_lemmas.

(** * Closed examples *)

Lemma initial_kbd_ok : kbd_ok (kb initial_kernel).
Proof.
  constructor; try done.
  - intros t n Ht. unfold aget. destruct (_ && _); [|done]. intros Hn.
    apply lookup_replicate in Hn as [-> _]. unfold KEYBOARD_BUFFER_SIZE. lia.
  - intros t row. unfold aget. destruct (_ && _); [|done]. intros Hr.
    apply lookup_replicate in Hr as [-> _]. split; [done|]. apply Forall_replicate. lia.
  - set_solver.
  - split_and!; set_solver.
Qed.

Lemma kb_set_mem m s : kb (set_mem m s) = kb s.
Proof. done. Qed.

Section demo.
Let H := quiet_env.
Local Existing Instance H.

Lemma demo_editing : editing demo_kernel [] demo_screen.
Proof.
  constructor; try done.
  - apply demo_shows.
  - unfold demo_kernel. rewrite kb_set_mem. apply initial_kbd_ok.
  - split; [done|]. split; [|done]. by eexists _, _.
Qed.

(** A terminal whose text is the pattern of [demo_terminals]: its first
    character typed, one modifier down. *)
Definition demo_typing (ctl alt : Z) : kernel :=
  set_terminal [Term NULL 1 0; zero_term; zero_term]
    (set_kb (Kbd 0 0 0 ctl alt (1 :: replicate 127 0) (replicate 3 0)
       [97 :: replicate 127 0; replicate 128 0; replicate 128 0] (replicate 3 0)) demo_terminals).

Lemma demo_typing_ok ctl alt : ctl ∈ [0; 1] -> alt ∈ [0; 1] -> kbd_ok (kb (demo_typing ctl alt)).
Proof.
  intros Hc Ha. constructor; try done.
  - intros t n Ht Hn. unfold KEYBOARD_BUFFER_SIZE. assert (Hc3 : t = 0 \/ t = 1 \/ t = 2) by lia.
    destruct Hc3 as [->|[->| ->]]; injection Hn as <-; lia.
  - intros t row Hr. pose proof (aget_bound _ _ _ Hr) as Hb. cbn in Hb.
    assert (Hc3 : t = 0 \/ t = 1 \/ t = 2) by lia.
    destruct Hc3 as [->|[->| ->]]; injection Hr as <-; (split; [done|]);
      repeat (constructor; [lia|]); constructor.
  - cbn. set_solver.
  - cbn. split_and!; [set_solver|done|done].
Qed.

Lemma demo_typing_shows ctl alt : exists v, running_shows (demo_typing ctl alt) v /\ col v = 1.
Proof.
  destruct (video_grid demo_terminals demo_table_linked demo_video_ready) as [g Hg].
  exists (Screen g 0 1). split; [|done]. split; [done|].
  change (page_of (demo_typing ctl alt)) with video_mem. split; [exact Hg|]. split.
  - split; [apply Hg|]. unfold cursor_pos. cbn. lia.
  - by eexists.
Qed.
End demo.

Lemma typed_line_is_read_witness :
  let H := quiet_env in
  exists t, terminal_read (map key_irq [0x23; 0x17; 0x17; 0x0E] ++ [key_irq ENTER_PRESSED]) 0 0xB9000 16 demo_kernel
    = Ret 3 t /\ bytes_at t 0xB9000 [104; 105; 10].
Proof.
  intros H.
  destruct (typed_line_is_read demo_kernel 0 0xB9000 16 [] demo_screen [0x23; 0x17; 0x17; 0x0E])
    as (t & Hrun & Hb & _).
  - apply demo_editing.
  - done.
  - lia.
  - apply (region_ram _ (fun _ => 0) video_mem 0x2000); done.
  - intros i Hi. apply outside_unpaged; [done|done|lia|].
    right. change (page_of demo_kernel) with 0xB8000. lia.
  - intros i Hi. change (page_of demo_kernel) with 0xB8000. apply outside_unpaged; [done|done|lia|lia].
  - reflexivity.
  - exists t. split; [exact Hrun|exact Hb].
Defined.

Lemma keyboard_edits_line_witness :
  let H := quiet_env in
  exists t, handle_key 0x23 demo_kernel = Ret SUCCESS t /\
    editing t [104] (put_char 104 demo_screen).
Proof.
  intros H. destruct (keyboard_edits_line demo_kernel [] demo_screen 0x23) as (t & Hrun & He & _).
  - apply demo_editing.
  - reflexivity.
  - exists t. split; [exact Hrun|exact He].
Defined.

Lemma keyboard_invariant_witness :
  let H := quiet_env in kbd_ok (kb (final (keyboard_handler initial_kernel))).
Proof. intros H. apply keyboard_invariant, initial_kbd_ok. Defined.

Lemma capslock_toggles_witness :
  let H := quiet_env in
  caps_of (kb (final (handle_key CAPSLOCK_PRESSED initial_kernel))) = Caps true true.
Proof.
  intros H. apply (capslock_toggles initial_kernel CAPSLOCK_PRESSED); [apply initial_kbd_ok|].
  unfold CAPSLOCK_PRESSED. lia.
Defined.

Lemma keymap_layout_witness :
  exists c i, aget keymap 4 = Some c /\
    aget keymapShift 4 = Some (nth i (bytes_of "ABCDEFGHIJKLMNOPQRSTUVWXYZ~!@3$%^&*()_+{}|:" ++ [34] ++ bytes_of "<>?") c).
Proof.
  destruct (keymap_layout 4) as (c & i & Hc & Hs & _); [lia|]. exists c, i. split; [exact Hc|exact Hs].
Defined.

Lemma ctrl_l_keeps_line_witness :
  let H := quiet_env in
  exists t, handle_key L_KEY (demo_typing 1 0) = Ret SUCCESS t /\
    exists u, handle_key BACKSPACE_PRESSED t = Fault 0xB7FFE u.
Proof.
  intros H. destruct (demo_typing_shows 1 0) as (v & Hv & Hc).
  destruct (ctrl_l_keeps_line (demo_typing 1 0) [97] v) as (t & Hrun & _ & _ & Hf).
  - apply demo_table_linked.
  - apply demo_tables_ok.
  - constructor; [reflexivity|exact Hv|apply demo_typing_ok; set_solver| |cbn; lia].
    split; [reflexivity|]. split; [by eexists _, _|by repeat constructor].
  - reflexivity.
  - exists t. split; [exact Hrun|]. apply Hf. discriminate.
Defined.

(** The child of [demo_two] on a machine with video memory, Control down. *)
Definition demo_ctrl_c : kernel :=
  set_mem (ram_of demo_text VIDEO 0x4000) (set_kb (Kbd 0 0 0 1 0 (replicate 128 0) (replicate 3 0)
    (replicate 3 (replicate 128 0)) (replicate 3 0)) demo_two).

Lemma demo_ctrl_c_shows : let H := quiet_env in exists g, running_shows demo_ctrl_c (Screen g 6 5).
Proof.
  intros H. assert (Hv : video_ready demo_ctrl_c).
  { split; [apply demo_tables_ok|]. intros i Hi. exists (demo_text (VIDEO + i)). split.
    - unfold mem_get. rewrite (cell_video demo_ctrl_c) by (apply demo_table_linked || apply demo_tables_ok || lia).
      change (mem (mach demo_ctrl_c)) with (ram_of demo_text VIDEO 0x4000). apply ram_of_lookup. lia.
    - unfold demo_text. pose proof (Z.mod_pos_bound (VIDEO + i) 251 ltac:(lia)). lia. }
  destruct (video_grid demo_ctrl_c demo_table_linked Hv) as [g Hg]. exists g.
  split; [cbn; lia|]. change (page_of demo_ctrl_c) with video_mem. split; [exact Hg|]. split.
  - split; [apply Hg|]. unfold cursor_pos. cbn. lia.
  - by eexists.
Qed.

Lemma demo_ctrl_c_child : child_of demo_ctrl_c (Term 0x7FC000 5 6) demo_child demo_pcb.
Proof.
  constructor; try reflexivity; try (cbn; lia).
  split; [reflexivity|]. repeat constructor; cbn; try done; intros _; set_solver.
Qed.

Lemma ctrl_c_halts_witness :
  let H := quiet_env in exists u, handle_key C_KEY demo_ctrl_c = Leave JmpReturn u.
Proof.
  intros H. destruct demo_ctrl_c_shows as [g Hg].
  destruct (ctrl_c_halts demo_ctrl_c (Screen g 6 5) (Term 0x7FC000 5 6) demo_child demo_pcb)
    as (t & T' & u & Hrun & _).
  - apply demo_tables_ok.
  - exact Hg.
  - apply demo_ctrl_c_child.
  - reflexivity.
  - exists u. exact Hrun.
Defined.

Lemma alt_switches_terminal_witness :
  let H := quiet_env in
  exists t, handle_key (F1_KEY + 2) (demo_typing 0 1) = Ret SUCCESS t /\ current_terminal (ttys t) = 2.
Proof.
  intros H. destruct (alt_switches_terminal (demo_typing 0 1) 2) as (t & Hrun & Hc & _).
  - apply demo_table_linked.
  - apply demo_video_ready.
  - cbn. lia.
  - lia.
  - cbn. lia.
  - reflexivity.
  - reflexivity.
  - exists t. split; [exact Hrun|exact Hc].
Defined.
