(* ===== verification/Sched.v ===== *)
(** The timer and the scheduler, [src/student-distrib/pit.c]: [pit_init],
    [pit_handler] and [scheduler], which gives the three terminals' programs the
    processor in turn. *)
From stdpp Require Import base numbers list gmap strings.
From Stdlib Require Import ZArith Lia.
From S2P Require Import Prelude Machine Strings Pic Console Paging FileSys Terminal Descriptors Process Execute Frames Keyboard.

Definition PIT_MODE : Z := 0x37.
Definition PIT_CMD : Z := 0x43.
Definition PIT_FREQ : Z := 11932.
Definition PIT_DATA : Z := 0x40.
Definition PIT_IRQ : Z := 0.
Definition SHIFT_8 : Z := 8.
Definition MAX_TERMINAL : Z := 3.

Section sched.
Context `{Env}.

Definition pit_init : K unit :=
  outb PIT_MODE PIT_CMD ;;
  outb (s8 PIT_FREQ) PIT_DATA ;;
  outb (Z.shiftr (s8 PIT_FREQ) SHIFT_8) PIT_DATA ;;
  enable_irq PIT_IRQ.

(** A shell started because the terminal has no program; [execute] does not
    come back when it starts one. *)
Definition first_shell : K unit :=
  sti ;;
  clear ;;
  clear_set ;;
  execute (cstr "shell") ;; ret tt.

Definition new_shell : K unit :=
  sti ;;
  execute (cstr "shell") ;; ret tt.

(** The terminal's program has the processor's page, stack and frame. *)
Definition resume : K unit :=
  map_window ;;
  let* p := running_pcb in
  map_program (pcb_pid p) ;;
  set_tss KERNEL_DS (kernel_stack (pcb_pid p)) ;;
  modify (set_frame (ebp_val p) (esp_val p)) ;;
  sti ;;
  leave SwitchFrame.

Definition scheduler : K unit :=
  send_eoi PIT_IRQ ;;
  cli ;;
  let* t := gets ttys in
  let* T := get_term (curr_scheduler t) in
  (if (curr_scheduler t =? 0) && (term_pcb T =? NULL) then first_shell else ret tt) ;;
  let* m := gets mach in
  update_running_pcb (set_frame_vals (ebp m) (esp m)) ;;
  let* t := gets ttys in
  modify (set_curr_scheduler ((curr_scheduler t + 1) mod MAX_TERMINAL)) ;;
  let* t := gets ttys in
  (if curr_scheduler t =? current_terminal t then enable_irq KEYBOARD_CONTROLLER_IRQ
   else disable_irq KEYBOARD_CONTROLLER_IRQ) ;;
  let* T := get_term (curr_scheduler t) in
  (if term_pcb T =? NULL then new_shell else ret tt) ;;
  resume.

Definition pit_handler : K unit := scheduler.

End sched.

(** * Specifications *)

(** The terminal after [t] in the round. *)
Definition next_terminal (t : Z) : Z := (t + 1) mod MAX_TERMINAL.

(** Each of the three terminals runs a process of its own. *)
Record all_running `{Env} (s : kernel) : Prop := {
  ar_tables : tables_ok (pgs s);
  ar_masks : pic_ok s;
  ar_current : 0 <= curr_scheduler (ttys s) < 3;
  ar_terms : length (terminal (ttys s)) = 3%nat;
  ar_pcb : forall t T, aget (terminal (ttys s)) t = Some T ->
    term_pcb T <> NULL /\ exists p, pcbs (prc s) !! term_pcb T = Some p /\ 0 <= pcb_pid p < 6;
  ar_apart : forall t t' T T', aget (terminal (ttys s)) t = Some T ->
    aget (terminal (ttys s)) t' = Some T' -> term_pcb T = term_pcb T' -> t = t' }.

(** The process of terminal [t]. *)
Definition program_of (s : kernel) (t : Z) : option pcb :=
  match aget (terminal (ttys s)) t with Some T => pcbs (prc s) !! term_pcb T | None => None end.

(** The processor belongs to terminal [t] and its process [p]. *)
Record serves `{Env} (s : kernel) (t : Z) (p : pcb) : Prop := {
  sv_turn : curr_scheduler (ttys s) = t;
  sv_frame : ebp (mach s) = ebp_val p /\ esp (mach s) = esp_val p;
  sv_page : aget (page_directory (pgs s)) 32 = Some (2 ^ 22 * (2 + pcb_pid p) + 0x87);
  sv_window : aget (page_table_video (pgs s)) 0 = Some (window_page s + 7);
  sv_stack : tss s = Tss KERNEL_DS (kernel_stack (pcb_pid p));
  sv_keys : masked s 1 = negb (t =? current_terminal (ttys s));
  sv_irqs : iflag (mach s) = true }.

Section sched_lemmas.
Context `{Env}.

(** The two ways the keyboard's line is set. *)
Lemma keyboard_line s b :
  pic_ok s ->
  exists t, (if b : bool then enable_irq KEYBOARD_CONTROLLER_IRQ else disable_irq KEYBOARD_CONTROLLER_IRQ) s = Ret tt t /\
    pic_ok t /\ masked t 1 = negb b /\ (forall j, 0 <= j < 16 -> j <> 1 -> masked t j = masked s j) /\
    t = log_io (Out (master_mask (pics t)) MASTER_8259_DATA) (on_pics (fun _ => pics t) s).
Proof.
  intros Hok. unfold KEYBOARD_CONTROLLER_IRQ. destruct b.
  - destruct (enable_irq_spec 1 s ltac:(lia) Hok) as (t & Hrun & Hw & Hok' & Hm). exists t.
    split_and!; [done|done| | |].
    + rewrite Hm by lia. by rewrite andb_false_r.
    + intros j Hj Hne. rewrite Hm by lia. by rewrite (proj2 (Z.eqb_neq j 1)), andb_true_r.
    + exact Hw.
  - destruct (disable_irq_spec 1 s ltac:(lia) Hok) as (t & Hrun & Hw & Hok' & Hm). exists t.
    split_and!; [done|done| | |].
    + rewrite Hm by lia. by rewrite orb_true_r.
    + intros j Hj Hne. rewrite Hm by lia. cbn. by rewrite (proj2 (Z.eqb_neq j 1)), orb_false_r.
    + exact Hw.
Qed.

Lemma log_all_eq es s : exists l, log_all es s =
  on_mach (fun m => Machine (mem m) (iflag m) (ebp m) (esp m) (l ++ io m)) s.
Proof.
  induction es as [|e es [l IH]].
  - exists []. by destruct s as [[] ? ? ? ? ? ? ? ? ?].
  - exists (e :: l). simpl. by rewrite IH.
Qed.

Lemma next_terminal_range t : 0 <= t < 3 -> 0 <= next_terminal t < 3 /\ next_terminal t <> t.
Proof.
  intros Ht. unfold next_terminal, MAX_TERMINAL.
  assert (t = 0 \/ t = 1 \/ t = 2) as [->|[->| ->]] by lia; done.
Qed.

Lemma next_terminal_cycle t : 0 <= t < 3 -> next_terminal (next_terminal (next_terminal t)) = t.
Proof. intros Ht. assert (t = 0 \/ t = 1 \/ t = 2) as [->|[->| ->]] by lia; done. Qed.

Lemma program_of_Some s t p : program_of s t = Some p ->
  exists T, aget (terminal (ttys s)) t = Some T /\ pcbs (prc s) !! term_pcb T = Some p.
Proof. unfold program_of. destruct (aget _ _) as [T|]; [|done]. eauto. Qed.

Lemma all_running_program s t : all_running s -> 0 <= t < 3 -> exists p, program_of s t = Some p.
Proof.
  intros Har Ht. destruct (aget_total (terminal (ttys s)) t) as [T HT].
  { rewrite (ar_terms _ Har). lia. }
  destruct (ar_pcb _ Har t T HT) as (_ & p & Hp & _). exists p. unfold program_of. by rewrite HT.
Qed.

(** [resume] for a terminal whose program is known. *)
Lemma resume_spec s T p E :
  tables_ok (pgs s) -> 0 <= curr_scheduler (ttys s) < 3 ->
  aget (terminal (ttys s)) (curr_scheduler (ttys s)) = Some T ->
  pcbs (prc s) !! term_pcb T = Some p -> 0 <= pcb_pid p < 6 ->
  wp resume E (fun x t => x = SwitchFrame /\ tables_ok (pgs t) /\
    aget (page_directory (pgs t)) 32 = Some (2 ^ 22 * (2 + pcb_pid p) + 0x87) /\
    aget (page_table_video (pgs t)) 0 = Some (window_page s + 7) /\
    pgs t = program_at (pcb_pid p) (window_at (window_page s) (pgs s)) /\
    t = set_iflag true (set_frame (ebp_val p) (esp_val p)
          (on_tss (fun _ => Tss KERNEL_DS (kernel_stack (pcb_pid p)))
            (on_pgs (fun _ => pgs t) s)))) s.
Proof.
  intros Hok Hc HT Hp Hpid. unfold resume. wp_step.
  eapply wp_mono; [apply (map_window_spec s (fun _ _ => False)); done| |done].
  intros [] s1 (H1 & H2 & H3 & H4 & H5).
  assert (R : running s1 (term_pcb T) p) by (rewrite H2; by exists T).
  wp_step. wp_use (running_pcb_eq _ _ _ R). wp_step.
  eapply wp_mono; [apply (map_program_spec s1 (pcb_pid p) (fun _ _ => False)); done| |done].
  intros [] s2 (K1 & K2 & K3 & K4 & K5). unfold set_tss, sti. repeat wp_step.
  unfold leave, wp. cbn. split; [done|]. split; [done|]. split; [done|].
  split; [by rewrite K4|]. split; [by rewrite K5, H5|]. by rewrite K2, H2.
Qed.

(** The turn passes from terminal [T] with its process [p]: its frame is saved,
    the line of the keyboard was set in the masks [pc], and interrupts are off. *)
Definition half_tick (s : kernel) (T : term) (p : pcb) (pc : pic) : kernel :=
  Kernel
    (Machine (mem (mach s)) false (ebp (mach s)) (esp (mach s))
      (Out (master_mask pc) MASTER_8259_DATA :: Out (Z.lor EOI PIT_IRQ) MASTER_8259_PORT :: io (mach s)))
    (pgs s) (tss s) pc (rtc_interrupt_occurred s)
    (Tty (terminal (ttys s)) (current_terminal (ttys s)) (next_terminal (curr_scheduler (ttys s))))
    (kb s) (fsg s) (prc (with_pcb (term_pcb T) (set_frame_vals (ebp (mach s)) (esp (mach s)) p) s)) (idt s).

(** The whole state after a tick that gives the processor to process [q]. *)
Definition after_tick (s : kernel) (T : term) (p q : pcb) (pc : pic) : kernel :=
  let u := half_tick s T p pc in
  Kernel
    (Machine (mem (mach s)) true (ebp_val q) (esp_val q) (io (mach u)))
    (program_at (pcb_pid q) (window_at (window_page u) (pgs s)))
    (Tss KERNEL_DS (kernel_stack (pcb_pid q))) pc (rtc_interrupt_occurred s) (ttys u)
    (kb s) (fsg s) (prc u) (idt s).

Lemma after_tick_rest s T p q pc :
  current_terminal (ttys (after_tick s T p q pc)) = current_terminal (ttys s) /\
  process_counter (prc (after_tick s T p q pc)) = process_counter (prc s).
Proof. done. Qed.

(** The first half of a tick: the frame of the running program [p] of terminal
    [T] is saved, the turn passes to the next terminal, and the keyboard's line
    follows the screen. *)
Record saved (s : kernel) (T : term) (p : pcb) (u : kernel) : Prop := {
  sd_prc : prc u = prc (with_pcb (term_pcb T) (set_frame_vals (ebp (mach s)) (esp (mach s)) p) s);
  sd_ttys : ttys u = Tty (terminal (ttys s)) (current_terminal (ttys s))
    (next_terminal (curr_scheduler (ttys s)));
  sd_keys : masked u 1 = negb (next_terminal (curr_scheduler (ttys s)) =? current_terminal (ttys s));
  sd_lines : forall j, 0 <= j < 16 -> j <> 1 -> masked u j = masked s j;
  sd_masks : pic_ok u;
  sd_rest : mem (mach u) = mem (mach s) /\ ebp (mach u) = ebp (mach s) /\ esp (mach u) = esp (mach s) /\
    pgs u = pgs s /\ kb u = kb s /\ fsg u = fsg s /\ idt u = idt s /\ tss u = tss s /\
    rtc_interrupt_occurred u = rtc_interrupt_occurred s;
  sd_state : u = half_tick s T p (pics u) }.

Lemma scheduler_saves s T p T' :
  pic_ok s -> aget (terminal (ttys s)) (curr_scheduler (ttys s)) = Some T -> term_pcb T <> NULL ->
  pcbs (prc s) !! term_pcb T = Some p ->
  aget (terminal (ttys s)) (next_terminal (curr_scheduler (ttys s))) = Some T' ->
  exists u, saved s T p u /\ forall Q E,
    wp ((if term_pcb T' =? NULL then new_shell else ret tt) ;; resume) Q E u -> wp scheduler Q E s.
Proof.
  intros Hok HT HTn Hp HT'. set (n := next_terminal _) in *.
  set (s0 := set_iflag false (log_io (Out (Z.lor EOI PIT_IRQ) MASTER_8259_PORT) s)).
  set (s1 := set_curr_scheduler n (with_pcb (term_pcb T) (set_frame_vals (ebp (mach s)) (esp (mach s)) p) s0)).
  assert (R : running s0 (term_pcb T) p) by by exists T.
  destruct (keyboard_line s1 (n =? current_terminal (ttys s)) Hok)
    as (u & Hrun & Hoku & Hkeys & Hlines & Hu).
  exists u. split.
  { constructor; try done; try exact Hu; rewrite Hu; repeat split. }
  intros Q E Hwp. assert (G1 : get_term (curr_scheduler (ttys s0)) s0 = Ret T s0) by by apply get_term_eq.
  assert (G2 : get_term n u = Ret T' u).
  { apply get_term_eq. rewrite Hu. exact HT'. }
  unfold scheduler, cli. wp_step. wp_use (send_eoi_master PIT_IRQ s ltac:(unfold PIT_IRQ; lia)).
  do 5 wp_step. wp_use G1. rewrite (proj2 (Z.eqb_neq (term_pcb T) NULL)), andb_false_r by done.
  do 5 wp_step. wp_use (update_running_pcb_eq s0 _ _ (set_frame_vals (ebp (mach s)) (esp (mach s))) R).
  do 7 wp_step. wp_use Hrun. wp_step. wp_use G2. exact Hwp.
Qed.

(** A whole tick when both programs [p] and [q] exist. *)
Record switched (s : kernel) (p q : pcb) (t : kernel) : Prop := {
  sw_serves : serves t (next_terminal (curr_scheduler (ttys s))) q;
  sw_saved : exists T, aget (terminal (ttys s)) (curr_scheduler (ttys s)) = Some T /\
    prc t = prc (with_pcb (term_pcb T) (set_frame_vals (ebp (mach s)) (esp (mach s)) p) s) /\
    t = after_tick s T p q (pics t);
  sw_terms : terminal (ttys t) = terminal (ttys s) /\
    current_terminal (ttys t) = current_terminal (ttys s);
  sw_lines : forall j, 0 <= j < 16 -> j <> 1 -> masked t j = masked s j;
  sw_tables : tables_ok (pgs t);
  sw_masks : pic_ok t;
  sw_rest : mem (mach t) = mem (mach s) /\ kb t = kb s /\ fsg t = fsg s /\ idt t = idt s /\
    rtc_interrupt_occurred t = rtc_interrupt_occurred s }.

Lemma scheduler_spec s p q :
  all_running s ->
  program_of s (curr_scheduler (ttys s)) = Some p ->
  program_of s (next_terminal (curr_scheduler (ttys s))) = Some q ->
  exists t, scheduler s = Leave SwitchFrame t /\ switched s p q t.
Proof.
  intros Har HP HQ. pose proof (ar_current _ Har) as Hc.
  destruct (next_terminal_range _ Hc) as [Hn Hne].
  destruct (program_of_Some _ _ _ HP) as (T & HT & Hp).
  destruct (program_of_Some _ _ _ HQ) as (T' & HT' & Hq).
  destruct (ar_pcb _ Har _ _ HT) as (HTn & _).
  destruct (ar_pcb _ Har _ _ HT') as (HTn' & q' & Hq' & Hpid).
  rewrite Hq in Hq'. injection Hq' as <-.
  assert (Hdiff : term_pcb T <> term_pcb T').
  { intros He. apply Hne. symmetry. by apply (ar_apart _ Har _ _ T T'). }
  cut (wp scheduler (fun _ _ => False) (fun x t => x = SwitchFrame /\ switched s p q t) s).
  { intros (x & t & Hrun & -> & Ht)%wp_Leave. by exists t. }
  destruct (scheduler_saves s T p T' (ar_masks _ Har) HT HTn Hp HT')
    as (u & [U1 U2 U3 U4 U5 (V1 & V2 & V3 & V4 & V5 & V6 & V7 & V8 & V9) U6] & Hwp). apply Hwp. clear Hwp.
  rewrite (proj2 (Z.eqb_neq (term_pcb T') NULL)) by done. do 2 wp_step.
  eapply wp_mono; [apply (resume_spec u T' q (fun _ _ => False)); rewrite ?U1, ?U2, ?V4|done|]; try done.
  - apply Har.
  - cbn. by rewrite lookup_insert_ne.
  - intros x t (-> & Hok & H32 & H0 & Hpg & Ht). split; [done|].
    assert (Hw : window_page t = window_page u) by by rewrite Ht.
    assert (Hm : forall j, masked t j = masked u j) by (intros j; by rewrite Ht).
    constructor; try done.
    + constructor; rewrite ?Hm, ?Hw; try done; rewrite Ht; try done; cbn; by rewrite ?U3, U2.
    + exists T. split; [done|]. split; [by rewrite Ht|]. rewrite Ht at 1. rewrite Hpg, V4. unfold after_tick.
      assert (Hpc : pics t = pics u) by by rewrite Ht. rewrite Hpc, <- U6, U2. by rewrite U6.
    + rewrite Ht. cbn. by rewrite U2.
    + intros j Hj Hj1. rewrite Hm. by apply U4.
    + by rewrite Ht.
    + rewrite Ht. cbn. done.
Qed.

(** The programs of the other terminals after a tick. *)
Lemma switched_program s p q t j :
  all_running s -> switched s p q t -> 0 <= j < 3 -> j <> curr_scheduler (ttys s) ->
  program_of t j = program_of s j.
Proof.
  intros Har Hsw Hj Hne. destruct (sw_saved _ _ _ _ Hsw) as (T & HT & Hp & _).
  destruct (sw_terms _ _ _ _ Hsw) as [Ht _]. unfold program_of. rewrite Ht, Hp.
  destruct (aget (terminal (ttys s)) j) as [T'|] eqn:HT'; [|done]. cbn.
  apply lookup_insert_ne. intros He. apply Hne. by eapply (ar_apart _ Har).
Qed.

Lemma switched_saved s p q t :
  switched s p q t ->
  program_of t (curr_scheduler (ttys s)) = Some (set_frame_vals (ebp (mach s)) (esp (mach s)) p).
Proof.
  intros Hsw. destruct (sw_saved _ _ _ _ Hsw) as (T & HT & Hp & _).
  destruct (sw_terms _ _ _ _ Hsw) as [Ht _]. unfold program_of. rewrite Ht, Hp, HT.
  apply lookup_insert_eq.
Qed.

Lemma switched_running s p q t :
  all_running s -> program_of s (curr_scheduler (ttys s)) = Some p -> switched s p q t -> all_running t.
Proof.
  intros Har HP Hsw. pose proof (next_terminal_range _ (ar_current _ Har)) as [Hn Hne].
  destruct (sw_terms _ _ _ _ Hsw) as [Ht _].
  constructor.
  - apply (sw_tables _ _ _ _ Hsw).
  - apply (sw_masks _ _ _ _ Hsw).
  - by rewrite (sv_turn _ _ _ (sw_serves _ _ _ _ Hsw)).
  - rewrite Ht. apply Har.
  - intros j T HT. rewrite Ht in HT. destruct (ar_pcb _ Har j T HT) as (HTn & p' & Hp' & Hpid).
    split; [done|]. destruct (sw_saved _ _ _ _ Hsw) as (T0 & HT0 & Hprc & _). rewrite Hprc. cbn.
    destruct (decide (term_pcb T0 = term_pcb T)) as [He|He].
    + rewrite He, lookup_insert_eq. eexists. split; [done|]. unfold program_of in HP.
      rewrite HT0, He, Hp' in HP. injection HP as <-. done.
    + rewrite lookup_insert_ne by done. by exists p'.
  - intros j j' T T'. rewrite Ht. apply Har.
Qed.

(** What the program of terminal [c] and the interrupts it takes leave alone
    until the next tick: the turn, and the other terminals' programs. *)
Definition others_kept (s s' : kernel) : Prop :=
  all_running s' /\ curr_scheduler (ttys s') = curr_scheduler (ttys s) /\
  forall j, 0 <= j < 3 -> j <> curr_scheduler (ttys s) -> program_of s' j = program_of s j.

(** One tick, for a program that waits meanwhile. *)
Lemma tick_keeps s c p :
  all_running s -> 0 <= c < 3 -> c <> curr_scheduler (ttys s) -> program_of s c = Some p ->
  exists t, scheduler s = Leave SwitchFrame t /\ all_running t /\
    curr_scheduler (ttys t) = next_terminal (curr_scheduler (ttys s)) /\ program_of t c = Some p /\
    (c = next_terminal (curr_scheduler (ttys s)) -> serves t c p).
Proof.
  intros Har Hc Hne HP. pose proof (ar_current _ Har) as Hcur.
  destruct (all_running_program s _ Har Hcur) as [p0 Hp0].
  destruct (all_running_program s _ Har (proj1 (next_terminal_range _ Hcur))) as [q Hq].
  destruct (scheduler_spec s p0 q Har Hp0 Hq) as (t & Hrun & Hsw). exists t.
  split; [done|]. split; [by eapply switched_running|].
  split; [apply (sv_turn _ _ _ (sw_serves _ _ _ _ Hsw))|].
  split; [by rewrite (switched_program s p0 q t c)|].
  intros ->. rewrite HP in Hq. injection Hq as <-. apply Hsw.
Qed.

(** [startable] is about nothing the first half of a tick changes but the turn. *)
Lemma startable_saved s T p T' u k ino size blocks data ds dot md mi :
  table_linked -> saved s T p u -> aget (terminal (ttys s)) (curr_scheduler (ttys s)) = Some T ->
  pcbs (prc s) !! term_pcb T = Some p -> term_pcb T' = NULL ->
  startable (set_curr_scheduler (next_terminal (curr_scheduler (ttys s))) s) T' k ino size blocks data ds dot md mi ->
  startable u T' k ino size blocks data ds dot md mi.
Proof.
  intros Hl [U1 U2 U3 U4 U5 (V1 & V2 & V3 & V4 & V5 & V6 & V7 & V8 & V9) U6] HT Hp Hn [S1 S2 S3 S4 S5 S6 S7 S8 S9 S10].
  assert (Hok : tables_ok (pgs u)) by by rewrite V4.
  constructor; try done.
  - destruct S2 as [S2 _]. split; [|done]. by rewrite U2.
  - by rewrite U1.
  - by rewrite U1.
  - revert S6. unfold old_pcb. rewrite U1. cbn.
    destruct (decide (pcb_addr k = term_pcb T)) as [->|Hne].
    + by rewrite lookup_insert_eq, Hp.
    + by rewrite lookup_insert_ne.
  - eapply image_frame; [done|exact S1|split; [done|]|done|exact S7]. intros pa _. by rewrite V1.
  - intros i Hi. rewrite V1. by apply S10.
Qed.

Lemma startable_turn s c T T' k ino size blocks data ds dot md mi :
  table_linked -> startable s T k ino size blocks data ds dot md mi ->
  aget (terminal (ttys s)) c = Some T' -> term_pcb T' = NULL ->
  startable (set_curr_scheduler c s) T' k ino size blocks data ds dot md mi.
Proof.
  intros Hl [S1 S2 S3 S4 S5 S6 S7 S8 S9 S10] HT Hn. constructor; try done.
  - rewrite Hn. destruct S4 as (Hk & _). intros He. by destruct (pcb_addr_pos k Hk) as [_ []].
  - apply (image_frame s); [done|exact S1|by split|done|exact S7].
Qed.

(** [startable] is about nothing a blank screen and the flag change. *)
Lemma startable_cleared s u T k ino size blocks data ds dot md mi :
  table_linked -> cleared_screen s u -> term_pcb T = NULL ->
  aget (terminal (ttys s)) (curr_scheduler (ttys s)) = Some T ->
  startable s T k ino size blocks data ds dot md mi ->
  startable u (set_screen_y 0 (set_screen_x 0 T)) k ino size blocks data ds dot md mi.
Proof.
  intros Hl (s1 & T0 & es & Hm & HT0 & ->) Hn HT [S1 S2 S3 S4 S5 S6 S7 S8 S9 S10].
  rewrite HT in HT0. injection HT0 as <-. set (T' := set_screen_y _ _).
  destruct (log_all_eq es (with_term (curr_scheduler (ttys s)) T' s1)) as [l ->].
  set (u := on_mach _ _). pose proof Hm as [H1 Hmem].
  assert (F : pgs u = pgs s /\ prc u = prc s /\ fsg u = fsg s /\ curr_scheduler (ttys u) = curr_scheduler (ttys s) /\
    terminal (ttys u) = <[Z.to_nat (curr_scheduler (ttys s)) := T']> (terminal (ttys s)) /\
    mem (mach u) = mem (mach s1)) by (unfold u; split_and!; cbn; try done; by rewrite H1).
  destruct F as (F1 & F2 & F3 & F4 & F5 & F6).
  assert (Hhigh : forall pa, 0xC0000 <= pa -> mem (mach s1) !! pa = mem (mach s) !! pa).
  { intros pa Hpa. apply Hmem. intros i Hi. unfold video_mem, VIDEO.
    rewrite (cell_video s) by (done || (unfold VIDEO; lia)). intros [=]. lia. }
  constructor; rewrite ?F1, ?F2; try done.
  - split; [|done]. rewrite F4, F5. by eapply aget_insert.
  - unfold old_pcb. by rewrite F2.
  - eapply image_frame; [done|exact S1|split; [by rewrite F1|]|done|exact S7].
    intros pa Hpa. rewrite F6. apply Hhigh. lia.
  - intros i Hi. rewrite F6, Hhigh; [by apply S10|].
    destruct S4 as (Hk & _). unfold image_cell, EIGHT_MB, FOUR_MB, PROGRAM_IMG. lia.
Qed.

(** ** Properties *)

(** C20: a tick of the timer.  When every terminal runs a program, [scheduler]
    gives the processor to the program of the next terminal: its frame
    registers, program page, video window and kernel stack are the ones in
    force, and the keyboard's line is open exactly when that terminal is on the
    screen.  The frame of the old program is saved in its control block.  The
    state after the tick is given in full ([after_tick]): but for that control
    block, the two page table entries, the kernel stack, the frame registers,
    the turn, the keyboard's bit of the interrupt masks and the two ports that
    were written, it is the state before - the process table and count, every
    other control block, memory, terminals, keyboard, file system and descriptor
    table included. *)
Theorem scheduler_switches s p q :
  all_running s ->
  program_of s (curr_scheduler (ttys s)) = Some p ->
  program_of s (next_terminal (curr_scheduler (ttys s))) = Some q ->
  exists t, pit_handler s = Leave SwitchFrame t /\
    serves t (next_terminal (curr_scheduler (ttys s))) q /\
    program_of t (curr_scheduler (ttys s)) = Some (set_frame_vals (ebp (mach s)) (esp (mach s)) p) /\
    (forall j, 0 <= j < 3 -> j <> curr_scheduler (ttys s) -> program_of t j = program_of s j) /\
    (forall j, 0 <= j < 16 -> j <> 1 -> masked t j = masked s j) /\ pic_ok t /\
    tables_ok (pgs t) /\
    exists T, aget (terminal (ttys s)) (curr_scheduler (ttys s)) = Some T /\ t = after_tick s T p q (pics t).
Proof.
  intros Har HP HQ. destruct (scheduler_spec s p q Har HP HQ) as (t & Hrun & Hsw).
  destruct (sw_saved _ _ _ _ Hsw) as (T & HT & _ & Ht).
  exists t. split; [done|]. split; [apply Hsw|]. split; [by eapply switched_saved|].
  split; [intros j Hj Hne; by eapply switched_program|]. split; [apply Hsw|].
  split; [apply Hsw|]. split; [apply Hsw|]. by exists T.
Qed.

(** C7: round robin.  Whatever the programs of the other terminals do with the
    kernel in between, as long as they leave one another's programs alone, the
    third tick after a program was interrupted gives it the processor back with
    the frame it had. *)
Theorem scheduler_round_robin s p :
  all_running s -> program_of s (curr_scheduler (ttys s)) = Some p ->
  exists s1, scheduler s = Leave SwitchFrame s1 /\ forall s1', others_kept s1 s1' ->
  exists s2, scheduler s1' = Leave SwitchFrame s2 /\ forall s2', others_kept s2 s2' ->
  exists s3, scheduler s2' = Leave SwitchFrame s3 /\
    serves s3 (curr_scheduler (ttys s)) (set_frame_vals (ebp (mach s)) (esp (mach s)) p) /\
    ebp (mach s3) = ebp (mach s) /\ esp (mach s3) = esp (mach s).
Proof.
  intros Har HP. pose proof (ar_current _ Har) as Hc. set (c := curr_scheduler (ttys s)) in *.
  destruct (next_terminal_range c Hc) as [Hn1 Hne1].
  destruct (next_terminal_range _ Hn1) as [Hn2 Hne2].
  pose proof (next_terminal_cycle c Hc) as Hcyc.
  assert (Hne3 : c <> next_terminal (next_terminal c)).
  { intros He. destruct (next_terminal_range _ Hn2) as [_ Hne3]. congruence. }
  destruct (all_running_program s _ Har Hn1) as [q Hq].
  destruct (scheduler_spec s p q Har HP Hq) as (s1 & R1 & Hsw). exists s1. split; [done|].
  pose proof (sv_turn _ _ _ (sw_serves _ _ _ _ Hsw)) as T1. fold c in T1.
  pose proof (switched_saved _ _ _ _ Hsw) as P1. fold c in P1.
  intros s1' (Har1 & T1' & K1). rewrite T1 in K1, T1'. rewrite <- (K1 c) in P1 by done.
  destruct (tick_keeps s1' c _ Har1 Hc ltac:(by rewrite T1') P1) as (s2 & R2 & _ & T2 & P2 & _).
  exists s2. split; [done|]. intros s2' (Har2 & T2' & K2). rewrite T2, T1' in K2, T2'.
  rewrite <- (K2 c) in P2 by done.
  destruct (tick_keeps s2' c _ Har2 Hc ltac:(by rewrite T2') P2) as (s3 & R3 & _ & _ & _ & Hsv).
  specialize (Hsv ltac:(by rewrite T2')). exists s3. split; [done|]. split; [done|].
  destruct (sv_frame _ _ _ Hsv) as [-> ->]. done.
Qed.

(** C28: the first shells.  When the turn reaches a terminal that runs nothing,
    [scheduler] saves the running program's frame and starts a shell there. *)
Theorem scheduler_starts_shell s T p T' k d size blocks data ds dot md mi :
  table_linked -> pic_ok s ->
  aget (terminal (ttys s)) (curr_scheduler (ttys s)) = Some T -> term_pcb T <> NULL ->
  pcbs (prc s) !! term_pcb T = Some p ->
  aget (terminal (ttys s)) (next_terminal (curr_scheduler (ttys s))) = Some T' -> term_pcb T' = NULL ->
  find_dentry (bytes_of "shell") ds = Some d -> take 4 data = magic_identifiers ->
  startable (set_curr_scheduler (next_terminal (curr_scheduler (ttys s))) s) T' k (inode_num_ d)
    size blocks data ds dot md mi ->
  exists u t, scheduler s = Leave (EnterUser (entry_of data)) t /\ saved s T p u /\
    launched u T' k size [] data t.
Proof.
  intros Hlink Hpic HT HTn Hp HT' HTn' Hd Hmag Hst.
  destruct (scheduler_saves s T p T' Hpic HT HTn Hp HT') as (u & Hu & Hwp).
  exists u. cut (wp scheduler (fun _ _ => False) (fun x t => x = EnterUser (entry_of data) /\
    launched u T' k size [] data t) s).
  { intros (x & t & Hrun & -> & Hla)%wp_Leave. by exists t. }
  apply Hwp. clear Hwp. rewrite HTn'. change (NULL =? NULL) with true. cbv iota.
  pose proof (startable_saved s T p T' u k _ _ _ _ _ _ _ _ Hlink Hu HT Hp HTn' Hst) as Hsu.
  unfold new_shell, sti. do 4 wp_step.
  eapply wp_mono; [apply (execute_spec (set_iflag true u) (cstr "shell") (bytes_of "shell") T' k d
    size blocks data ds dot md mi Hlink (demo_command _))|done|]; try done.
  - apply Nat.ltb_lt. reflexivity.
  - by apply startable_iflag.
  - by left.
  - intros x t (-> & Hla). split; [done|]. by eapply launched_iflag.
Qed.

(** The first tick.  With terminal 0 on the screen and no program anywhere,
    the first tick blanks the screen, homes the cursor and starts a shell on
    terminal 0. *)
Theorem scheduler_first_shell s v T k d size blocks data ds dot md mi :
  table_linked -> curr_scheduler (ttys s) = 0 -> current_terminal (ttys s) = 0 -> running_shows s v ->
  aget (terminal (ttys s)) 0 = Some T -> term_pcb T = NULL ->
  find_dentry (bytes_of "shell") ds = Some d -> take 4 data = magic_identifiers ->
  startable s T k (inode_num_ d) size blocks data ds dot md mi ->
  exists u t, pit_handler s = Leave (EnterUser (entry_of data)) t /\
    running_shows u blank_screen /\ launched u (Term NULL 0 0) k size [] data t.
Proof.
  intros Hlink Hc0 Hvis Hsh HT HTn Hd Hmag Hst.
  cut (wp scheduler (fun _ _ => False) (fun x t => x = EnterUser (entry_of data) /\
    exists u, running_shows u blank_screen /\ launched u (Term NULL 0 0) k size [] data t) s).
  { intros (x & t & Hrun & -> & u & Hu & Hla)%wp_Leave. by exists u, t. }
  set (s0 := set_iflag true (set_iflag false (log_io (Out (Z.lor EOI PIT_IRQ) MASTER_8259_PORT) s))).
  assert (Hst0 : startable s0 T k (inode_num_ d) size blocks data ds dot md mi).
  { apply startable_iflag, startable_iflag; [done..|]. destruct Hst as [S1 S2 S3 S4 S5 S6 S7 S8 S9 S10].
    constructor; try done. eapply image_frame; [done|exact S1|by split|done|exact S7]. }
  assert (G : get_term 0 (set_iflag false (log_io (Out (Z.lor EOI PIT_IRQ) MASTER_8259_PORT) s)) = Ret T
    (set_iflag false (log_io (Out (Z.lor EOI PIT_IRQ) MASTER_8259_PORT) s))) by by apply get_term_eq.
  unfold scheduler, cli. wp_step. wp_use (send_eoi_master PIT_IRQ s ltac:(unfold PIT_IRQ; lia)).
  do 5 wp_step. cbn [ttys set_iflag log_io on_mach]. rewrite Hc0. wp_use G. rewrite HTn.
  change ((0 =? 0) && (NULL =? NULL)) with true. cbv iota. wp_step.
  unfold first_shell, sti. do 2 wp_step. fold s0.
  apply (clear_screen_spec s0 v); [by rewrite <- Hc0 in Hvis|done|].
  intros u Hu Hcl. wp_step.
  eapply wp_mono; [apply (execute_spec u (cstr "shell") (bytes_of "shell") (set_screen_y 0 (set_screen_x 0 T)) k d
    size blocks data ds dot md mi Hlink (demo_command _))|done|]; try done.
  - apply Nat.ltb_lt. reflexivity.
  - eapply startable_cleared; [done|exact Hcl|done|by rewrite <- Hc0 in HT|done].
  - by left.
  - intros x t (-> & Hla). split; [done|]. exists u. split; [done|].
    destruct T as [a x y]. cbn in HTn. by subst a.
Qed.

(** Programming the timer.  [pit_init] selects channel 0, mode 3 in BCD, and
    sends 0x9C and 0xFF as the two bytes of the divisor, because [PIT_FREQ] is
    first truncated to a signed byte, where the constant 11932 is 0x2E9C; then it
    opens line 0. *)
Theorem pit_init_programs s :
  pic_ok s -> exists t, pit_init s = Ret tt t /\ pic_ok t /\
    (forall j, 0 <= j < 16 -> masked t j = masked s j && negb (j =? 0)) /\
    io (mach t) = Out (master_mask (pics t)) MASTER_8259_DATA :: Out 0xFF PIT_DATA :: Out 0x9C PIT_DATA ::
      Out 0x37 PIT_CMD :: io (mach s) /\
    0xFF9C <> PIT_FREQ.
Proof.
  intros Hok. set (s1 := log_io (Out 0xFF PIT_DATA) (log_io (Out 0x9C PIT_DATA) (log_io (Out 0x37 PIT_CMD) s))).
  destruct (enable_irq_spec PIT_IRQ s1 ltac:(unfold PIT_IRQ; lia) Hok) as (t & Hrun & Hw & Hok' & Hm).
  exists t. split; [exact Hrun|]. split; [done|]. split; [exact Hm|]. split; [|done].
  rewrite Hw at 1. done.
Qed.

End sched_lemmas.

(** * Closed examples *)

(** Three shells, one per terminal; the first is running and on the screen. *)
Definition demo_shell (k bp sp : Z) : pcb :=
  set_frame_vals bp sp (set_parent NULL (-1) k demo_pcb).

Definition demo_ring : kernel :=
  set_frame 0x7FDF80 0x7FDF00
    (on_pics (fun _ => Pic 0xF8 0xFF)
      (set_terminal [Term 0x7FE000 0 0; Term 0x7FC000 0 0; Term 0x7FA000 0 0]
        (set_pcbs (list_to_map [(0x7FE000, demo_shell 0 0 0); (0x7FC000, demo_shell 1 0x7FBF80 0x7FBF00);
            (0x7FA000, demo_shell 2 0x7F9F80 0x7F9F00)]) demo_exec))).

Lemma demo_ring_running : let H := quiet_env in all_running demo_ring.
Proof.
  intros H. assert (Ht : forall t T, aget (terminal (ttys demo_ring)) t = Some T ->
    0 <= t < 3 /\ T = Term (0x7FE000 - 0x2000 * t) 0 0).
  { intros t T HT. pose proof (aget_bound _ _ _ HT) as Hb. change (length (terminal (ttys demo_ring))) with 3%nat in Hb.
    split; [lia|]. assert (t = 0 \/ t = 1 \/ t = 2) as [->|[->| ->]] by lia; by injection HT as <-. }
  constructor; try done.
  - apply demo_tables_ok.
  - intros t T [Hb ->]%Ht. split; [cbn [term_pcb]; unfold NULL; lia|]. cbn [term_pcb].
    exists (nth (Z.to_nat t) [demo_shell 0 0 0; demo_shell 1 0x7FBF80 0x7FBF00;
      demo_shell 2 0x7F9F80 0x7F9F00] demo_pcb).
    assert (t = 0 \/ t = 1 \/ t = 2) as [->|[->| ->]] by lia; split; done.
  - intros t t' T T' [Hb ->]%Ht [Hb' ->]%Ht. cbn [term_pcb]. lia.
Qed.

Lemma scheduler_switches_witness :
  let H := quiet_env in
  exists t, pit_handler demo_ring = Leave SwitchFrame t /\ curr_scheduler (ttys t) = 1 /\
    ebp (mach t) = 0x7FBF80 /\ masked t 1 = true /\ process_counter (prc t) = process_counter (prc demo_ring).
Proof.
  intros H. destruct (scheduler_switches demo_ring (demo_shell 0 0 0) (demo_shell 1 0x7FBF80 0x7FBF00))
    as (t & Hrun & Hsv & Hsaved & Hothers & Hlines & Hpic & Hok & T & HT & Ht).
  - apply demo_ring_running.
  - reflexivity.
  - reflexivity.
  - exists t. split; [exact Hrun|]. destruct Hsv as [S1 [S2 S3] S4 S5 S6 S7 S8].
    split; [exact S1|]. split; [exact S2|].
    destruct (after_tick_rest demo_ring T (demo_shell 0 0 0) (demo_shell 1 0x7FBF80 0x7FBF00) (pics t)) as [Hcur Hprc].
    rewrite <- Ht in Hcur, Hprc. split; [|exact Hprc]. rewrite S7, Hcur. reflexivity.
Defined.

Lemma scheduler_round_robin_witness :
  let H := quiet_env in
  exists s1, scheduler demo_ring = Leave SwitchFrame s1 /\ forall s1', others_kept s1 s1' ->
  exists s2, scheduler s1' = Leave SwitchFrame s2 /\ forall s2', others_kept s2 s2' ->
  exists s3, scheduler s2' = Leave SwitchFrame s3 /\ ebp (mach s3) = 0x7FDF80.
Proof.
  intros H. destruct (scheduler_round_robin demo_ring (demo_shell 0 0 0)) as (s1 & R1 & K1).
  - apply demo_ring_running.
  - reflexivity.
  - exists s1. split; [exact R1|]. intros s1' O1. destruct (K1 s1' O1) as (s2 & R2 & K2).
    exists s2. split; [exact R2|]. intros s2' O2. destruct (K2 s2' O2) as (s3 & R3 & _ & E3 & _).
    exists s3. split; [exact R3|exact E3].
Defined.

Lemma demo_next_startable : let H := quiet_env in
  startable (set_curr_scheduler 1 demo_exec) zero_term 1 0 29 [0] (demo_exec_bytes 0x502000 4096)
    demo_exec_dents (demo_exec_bytes 0x500040 64) 1 1.
Proof.
  intros H. eapply startable_turn; [apply demo_table_linked|apply demo_startable|reflexivity|reflexivity].
Qed.

Lemma scheduler_starts_shell_witness :
  let H := quiet_env in
  exists u t, scheduler demo_exec = Leave (EnterUser 0x8048001) t /\
    launched u zero_term 1 29 [] (demo_exec_bytes 0x502000 4096) t.
Proof.
  intros H. destruct (scheduler_starts_shell demo_exec demo_caller demo_pcb zero_term 1
    (demo_exec_bytes 0x500080 64) 29 [0] (demo_exec_bytes 0x502000 4096) demo_exec_dents
    (demo_exec_bytes 0x500040 64) 1 1) as (u & t & Hrun & Hu & Hla).
  - apply demo_table_linked.
  - by split.
  - reflexivity.
  - discriminate.
  - apply lookup_singleton_eq.
  - reflexivity.
  - reflexivity.
  - apply demo_find.
  - reflexivity.
  - apply demo_next_startable.
  - exists u, t. split; [exact Hrun|exact Hla].
Defined.

Lemma pit_init_programs_witness :
  let H := quiet_env in
  exists t, pit_init initial_kernel = Ret tt t /\ masked t 0 = false.
Proof.
  intros H. destruct (pit_init_programs initial_kernel) as (t & Hrun & _ & Hm & _).
  - by split.
  - exists t. split; [exact Hrun|]. rewrite Hm by lia. reflexivity.
Defined.

(** No program yet, and memory behind the screen. *)
Definition demo_idle : kernel :=
  set_mem (ram_of demo_text VIDEO 0x4000 ∪ ram_of demo_exec_byte 0x500000 0x800000)
    (on_prc (fun _ => Procs (replicate 6 (-1)) 0 0 (-1) stdin_table stdout_table null_fops null_fops file_table ∅)
      (set_terminal (replicate 3 zero_term) demo_exec)).

Lemma mem_set_mem m s : mem (mach (set_mem m s)) = m.
Proof. reflexivity. Qed.

Lemma demo_idle_mem pa : VIDEO + 0x4000 <= pa -> mem (mach demo_idle) !! pa = mem (mach demo_exec) !! pa.
Proof.
  intros Hpa. unfold demo_idle, demo_exec. rewrite !mem_set_mem, lookup_union_r; [done|].
  apply ram_of_lookup_None. lia.
Qed.

Lemma demo_idle_startable : let H := quiet_env in
  startable demo_idle zero_term 0 0 29 [0] (demo_exec_bytes 0x502000 4096)
    demo_exec_dents (demo_exec_bytes 0x500040 64) 1 1.
Proof.
  intros H. destruct demo_startable as [S1 S2 S3 S4 S5 S6 S7 S8 S9 S10]. constructor.
  - exact S1.
  - split; [reflexivity|]. intros []. reflexivity.
  - reflexivity.
  - split; [lia|]. split; [reflexivity|]. intros i Hi. lia.
  - discriminate.
  - unfold old_pcb. change (pcbs (prc demo_idle)) with (∅ : gmap Z pcb). by rewrite lookup_empty.
  - eapply image_frame; [apply demo_table_linked|exact S1|split; [exact S1|]|reflexivity|exact S7].
    intros pa Hpa. apply demo_idle_mem. unfold VIDEO. lia.
  - exact S8.
  - exact S9.
  - intros i Hi. rewrite demo_idle_mem by (unfold image_cell, VIDEO, EIGHT_MB, FOUR_MB, PROGRAM_IMG; lia).
    unfold demo_exec. rewrite mem_set_mem, ram_of_lookup; [by eexists|].
    unfold image_cell, EIGHT_MB, FOUR_MB, PROGRAM_IMG. lia.
Qed.

Lemma demo_idle_shows : let H := quiet_env in exists g, running_shows demo_idle (Screen g 0 0).
Proof.
  intros H. assert (Hv : video_ready demo_idle).
  { split; [apply demo_tables_ok|]. intros i Hi. exists (demo_text (VIDEO + i)). split.
    - unfold mem_get. rewrite (cell_video demo_idle) by (apply demo_table_linked || apply demo_tables_ok || lia).
      unfold demo_idle. rewrite mem_set_mem. apply lookup_union_Some_l, ram_of_lookup. lia.
    - unfold demo_text. pose proof (Z.mod_pos_bound (VIDEO + i) 251 ltac:(lia)). lia. }
  destruct (video_grid demo_idle demo_table_linked Hv) as [g Hg]. exists g.
  split; [cbn; lia|]. change (page_of demo_idle) with video_mem. split; [exact Hg|]. split.
  - split; [apply Hg|]. unfold cursor_pos. cbn. lia.
  - by eexists.
Qed.

Lemma scheduler_first_shell_witness :
  let H := quiet_env in
  exists t, pit_handler demo_idle = Leave (EnterUser 0x8048001) t /\ tss t = Tss 0x18 0x7FFFFC.
Proof.
  intros H. destruct demo_idle_shows as [g Hg].
  destruct (scheduler_first_shell demo_idle (Screen g 0 0) zero_term 0
    (demo_exec_bytes 0x500080 64) 29 [0] (demo_exec_bytes 0x502000 4096) demo_exec_dents
    (demo_exec_bytes 0x500040 64) 1 1) as (u & t & Hrun & _ & Hla).
  - apply demo_table_linked.
  - reflexivity.
  - reflexivity.
  - exact Hg.
  - reflexivity.
  - reflexivity.
  - apply demo_find.
  - reflexivity.
  - apply demo_idle_startable.
  - exists t. split; [exact Hrun|]. apply (la_tss _ _ _ _ _ _ _ Hla).
Defined.
