(* ===== verification/Syscall.v ===== *)
(** The system calls that are no part of another component and the gate that
    dispatches all ten: [getargs], [vidmap], [set_handler], [sigreturn] of
    [src/student-distrib/system_call.c] and [system_call_asm] of
    [system_call_asm.S]. *)
From stdpp Require Import base numbers list gmap strings.
From Stdlib Require Import ZArith Lia.
From S2P Require Import Prelude Machine Strings Pic Console Paging FileSys Terminal Descriptors Process Execute Frames Sched.

Definition LOWERBOUND_VID : Z := 0x8000000.
Definition UPPERBOUND_VID : Z := 0x8400000.
Definition UPPERBOUND : Z := 10.
Definition LOWERBOUND : Z := 1.
Definition NEGONE : Z := -1.

Section syscalls.
Context `{Env}.

(** The argument of the process is read where [execute] left it; [buf] is where
    the caller wants it. *)
Definition getargs (buf nbytes : Z) : K Z :=
  if (nbytes <=? 0) || (buf =? NULL) then ret FAILURE else
  let* p := running_pcb in
  let* len := strlen (Lit (argument p)) in
  if len =? 0 then ret FAILURE else
  let* p := running_pcb in
  strncpy buf (Lit (argument p)) nbytes ;;
  loop (fun i =>
    if i <? nbytes then
      let* b := load8 (buf + i) in
      if b =? NULL_TERM then ret (inr SUCCESS) else ret (inl (i + 1))
    else ret (inr FAILURE)) 0.

(** [page_table_video[video_mem] = ... | vid_mem_flag], with the address of
    video memory for an index. *)
Definition vidmap_entry : K unit :=
  let* t := gets ttys in
  if curr_scheduler t =? current_terminal t then set_ptv video_mem (Z.lor video_mem vid_mem_flag)
  else
    let* page := get_or_fault (curr_scheduler t) (aget vid_page (curr_scheduler t)) in
    set_ptv video_mem (Z.lor page vid_mem_flag).

Definition vidmap (screen_start : Z) : K Z :=
  cli ;;
  if (screen_start =? NULL) || (screen_start <? LOWERBOUND_VID) || (UPPERBOUND_VID <? screen_start)
  then ret FAILURE else
  map_video_memory MB136 video_mem ;;
  vidmap_entry ;;
  flush_tlb ;;
  store32 screen_start MB136 ;;
  sti ;;
  ret SUCCESS.

Definition set_handler (signum handler_address : Z) : K Z := ret FAILURE.
Definition sigreturn : K Z := ret FAILURE.

(** The functions of [jmp_table], numbered as the gate numbers them; [irqs] are
    the interrupts a read waits for. *)
Definition jmp_table (irqs : list (K unit)) (eax ebx ecx edx : Z) : K Z :=
  match eax with
  | 1 => halt (u8 ebx)
  | 2 => execute (Addr ebx)
  | 3 => read irqs (s32 ebx) ecx (s32 edx)
  | 4 => write (s32 ebx) ecx (s32 edx)
  | 5 => open (Addr ebx)
  | 6 => close (s32 ebx)
  | 7 => getargs ebx (s32 ecx)
  | 8 => vidmap ebx
  | 9 => set_handler (s32 ebx) ecx
  | 10 => sigreturn
  | _ => fault eax
  end.

(** [int 0x80]: the registers hold 32-bit words.  The flags the processor and
    [pushfl] saved come back with [popfl] and [iret]. *)
Definition system_call_asm (irqs : list (K unit)) (eax ebx ecx edx : Z) : K Z :=
  if (UPPERBOUND <? eax) || (eax <? LOWERBOUND) then ret NEGONE else
  let* m := gets mach in
  let* r := jmp_table irqs eax ebx ecx edx in
  modify (set_iflag (iflag m)) ;;
  ret r.

End syscalls.

(** * Specifications *)

(** A 32-bit word as memory holds it. *)
Definition le32 (v : Z) : list Z := [u8 v; u8 (Z.shiftr v 8); u8 (Z.shiftr v 16); u8 (Z.shiftr v 24)].

(** Where [page_table_video[video_mem]] is: 0x2E0000 bytes past the table. *)
Definition stray `{Env} : Z := page_table_video_addr + 4 * video_mem.

Section syscall_lemmas.
Context `{Env}.

Lemma store32_put s a v : region s a 4 -> store32 a v s = Ret tt (put_bytes a (le32 v) s).
Proof.
  intros [Hm _]. unfold store32, bind.
  assert (Hs : forall i, 0 <= i < 4 -> is_Some (mem_get s (a + i))) by done.
  rewrite store8_set by (specialize (Hs 0); rewrite Z.add_0_r in Hs; apply Hs; lia).
  rewrite store8_set by (apply mem_get_set_is_Some, Hs; lia).
  rewrite store8_set by (do 2 apply mem_get_set_is_Some; apply Hs; lia).
  rewrite store8_set by (do 3 apply mem_get_set_is_Some; apply Hs; lia).
  unfold le32. cbn [put_bytes]. by rewrite <- !Z.add_assoc.
Qed.

(** ** getargs *)

Lemma strncpy_ref_cstring n w r :
  Forall (fun b => b <> 0) w ->
  strncpy_ref n (w ++ 0 :: r) = Some (take n (w ++ replicate n 0)).
Proof.
  intros Hw. revert n. induction Hw as [|b w Hb Hw IH]; intros n; simpl.
  - rewrite (take_ge (replicate n 0)); [done|]. by rewrite length_replicate.
  - rewrite (proj2 (Z.eqb_neq b 0)) by done. destruct n as [|n]; [done|].
    rewrite IH. simpl. do 2 f_equal.
    change (0 :: replicate n 0) with (replicate (S n) 0).
    rewrite !take_app, !take_replicate. do 2 f_equal. lia.
Qed.

(** The loop that looks for the terminator in the buffer. *)
Lemma getargs_scan buf n out w s E :
  bytes_at s buf out -> Z.of_nat (length out) = n -> n < 2 ^ 31 ->
  out = take (Z.to_nat n) (w ++ replicate (Z.to_nat n) 0) -> Forall (fun b => b <> 0) w ->
  wp (loop (fun i => if i <? n then
      let* b := load8 (buf + i) in
      if b =? NULL_TERM then ret (inr SUCCESS) else ret (inl (i + 1))
    else ret (inr FAILURE)) 0)
    (fun r t => t = s /\ r = if Z.of_nat (length w) <? n then SUCCESS else FAILURE) E s.
Proof.
  intros Hb Hl Hn Hout Hw. apply wp_loop with
    (I := fun i t => t = s /\ 0 <= i <= Z.of_nat (length w) /\ i <= n) (mu := fun i _ => n - i);
    [solve_inv | unfold loop_fuel; lia |].
  intros i t (-> & Hi & Hin). split; [lia|]. wp_step; unbool.
  2:{ apply wp_ret. split; [done|]. by rewrite (proj2 (Z.ltb_ge _ _)) by lia. }
  destruct (lookup_lt_is_Some_2 out (Z.to_nat i)) as [b Hbi]; [lia|].
  pose proof (Hb _ _ Hbi) as Hg. rewrite Z2Nat.id in Hg by lia.
  wp_step. wp_use (load8_get _ _ _ Hg).
  rewrite Hout, lookup_take_lt in Hbi by lia.
  destruct (decide (i = Z.of_nat (length w))) as [->|Hne].
  - rewrite lookup_app_r, Nat2Z.id, Nat.sub_diag in Hbi by lia.
    apply lookup_replicate in Hbi as [-> _]. cbn. split; [done|].
    by rewrite (proj2 (Z.ltb_lt _ _)) by lia.
  - rewrite lookup_app_l in Hbi by lia. pose proof (Forall_lookup_1 _ _ _ _ Hw Hbi) as Hb0. cbn beta in Hb0.
    unfold NULL_TERM. rewrite (proj2 (Z.eqb_neq b 0)) by done. apply wp_ret. solve_inv.
Qed.

Lemma argument_length s p w :
  cstring (argument p) = Some w -> Z.of_nat (length w) < 2 ^ 32 ->
  strlen (Lit (argument p)) s = Ret (Z.of_nat (length w)) s.
Proof. intros Hw Hl. by apply (strlen_spec s _ (argument p)); [apply reads_Lit| |]. Qed.

Lemma getargs_refuses s a p buf n w :
  running s a p -> cstring (argument p) = Some w -> Z.of_nat (length w) < 2 ^ 32 ->
  n <= 0 \/ buf = NULL \/ w = [] -> getargs buf n s = Ret FAILURE s.
Proof.
  intros Hr Hw Hlw Hc. unfold getargs. destruct ((n <=? 0) || (buf =? NULL)) eqn:E; [done|]. unbool.
  destruct Hc as [?|[?| ->]]; [lia|lia|].
  rewrite (bind_Ret _ _ _ _ _ (running_pcb_eq _ _ _ Hr)).
  by rewrite (bind_Ret _ _ _ _ _ (argument_length s p [] Hw Hlw)).
Qed.

Lemma getargs_stores s a p buf n w :
  running s a p -> cstring (argument p) = Some w -> bytes w ->
  Z.of_nat (length w) < 2 ^ 32 -> region s buf n -> 0 < n < 2 ^ 31 -> buf <> NULL -> w <> [] ->
  getargs buf n s = Ret (if Z.of_nat (length w) <? n then SUCCESS else FAILURE)
    (put_bytes buf (take (Z.to_nat n) (w ++ replicate (Z.to_nat n) 0)) s).
Proof.
  intros Hr Hw Hb Hlw Hreg Hn Hbuf Hwn. pose proof (cstring_spec _ _ Hw) as (r & Hl & Hnz).
  unfold getargs. rewrite (proj2 (Z.leb_gt n 0)), (proj2 (Z.eqb_neq buf NULL)) by lia. cbn [orb].
  rewrite (bind_Ret _ _ _ _ _ (running_pcb_eq _ _ _ Hr)), (bind_Ret _ _ _ _ _ (argument_length s p w Hw Hlw)).
  rewrite (proj2 (Z.eqb_neq _ 0)) by (destruct w; [done|simpl; lia]).
  rewrite (bind_Ret _ _ _ _ _ (running_pcb_eq _ _ _ Hr)).
  set (out := take _ _). assert (Lo : Z.of_nat (length out) = n).
  { unfold out. rewrite length_take, length_app, length_replicate. lia. }
  assert (Hcp : strncpy buf (Lit (argument p)) n s = Ret buf (put_bytes buf out s)).
  { apply (strncpy_spec s buf _ (w ++ [0])); [|apply Forall_app; by repeat constructor|lia|done|done|by apply strncpy_ref_cstring].
    rewrite Hl. intros i b Hi. apply reads_Lit. change (0 :: r) with ([0] ++ r). rewrite app_assoc. by apply lookup_app_l_Some. }
  rewrite (bind_Ret _ _ _ _ _ Hcp). apply Ret_of_wp.
  eapply wp_mono; [eapply (getargs_scan buf n out w _ (fun _ _ => False))| |done]; try done; try lia.
  + apply bytes_at_put_bytes. by rewrite Lo.
  + intros ? ? [-> ->]. done.
Qed.

(** ** vidmap *)

Lemma stray_entry s (E : transfer -> kernel -> Prop) :
  tables_ok (pgs s) -> 0 <= curr_scheduler (ttys s) < 3 -> 0 < stray < 2 ^ 32 -> region s stray 4 ->
  wp vidmap_entry (fun _ t => t = put_bytes stray (le32 (window_page s + 7)) s) E s.
Proof.
  intros Hok Hc Hst Hreg. pose proof (window_page_video s Hc) as Hw.
  assert (Hset : wp (set_ptv video_mem (Z.lor (window_page s) vid_mem_flag))
    (fun _ t => t = put_bytes stray (le32 (window_page s + 7)) s) E s).
  { unfold set_ptv. do 2 wp_step. unfold aset. rewrite (t_pt_len _ Hok).
    change ((0 <=? video_mem) && (video_mem <? Z.of_nat 1024)) with false. cbv iota.
    rewrite window_flags by done. fold stray. rewrite (u32_small stray) by lia.
    wp_use (store32_put s stray (window_page s + 7) Hreg). reflexivity. }
  unfold vidmap_entry. do 2 wp_step. unfold window_page in *.
  destruct (curr_scheduler (ttys s) =? current_terminal (ttys s)); [exact Hset|].
  wp_step. eapply wp_get_or_fault; [|exact Hset].
  assert (Hc3 : curr_scheduler (ttys s) = 0 \/ curr_scheduler (ttys s) = 1 \/
    curr_scheduler (ttys s) = 2) by lia. by destruct Hc3 as [->|[->| ->]].
Qed.

(** The user's window shows the page that entry 0 of the table names. *)
Lemma window_open p page off :
  table_linked -> tables_ok p -> page ∈ video_pages ->
  aget (page_directory p) 34 = Some (page_table_video_addr + 7) ->
  aget (page_table_video p) 0 = Some (page + 7) -> 0 <= off < KB4 ->
  user_translate p (MB136 + off) = Some (page + off).
Proof.
  intros Hlink Hok Hp H34 H0 Ho. unfold KB4 in Ho.
  pose proof (window_translate p (MB136 + off) page Hlink Hok Hp H34 H0 ltac:(unfold KB4; lia)) as Ht.
  unfold user_translate. rewrite (t_on _ Hok). cbn [negb]. unfold MB4, KB4, MB136 in *.
  assert (Hd : (0x8800000 + off) / 0x400000 = 34) by (symmetry; apply Z.div_unique with off; lia).
  assert (Hm : (0x8800000 + off) mod 0x400000 = off) by (symmetry; apply Z.mod_unique with 34; lia).
  rewrite Hd, H34, Hm, (Z.div_small off 4096), H0 by lia.
  destruct (pde_table 7 Hlink) as (_ & -> & -> & _); [lia|done|].
  destruct (window_entry page 7 off) as (_ & -> & _); [done|by right|done|].
  change (Z.testbit 7 2) with true. change (Z.testbit 7 7) with false. cbn [negb]. rewrite Ht.
  f_equal. lia.
Qed.

(** Kernel memory and the program's page hold distinct bytes at distinct
    addresses. *)
Lemma kmem_region s a n :
  table_linked -> tables_ok (pgs s) -> 0x400000 <= a -> a + n <= 0x800000 ->
  (forall i, 0 <= i < n -> is_Some (mem (mach s) !! (a + i))) -> region s a n.
Proof.
  intros Hl Hok Ha He Hm. split.
  - intros i Hi. unfold mem_get. rewrite kmem_cell by (done || lia). by apply Hm.
  - intros i j Hi Hj. rewrite !kmem_cell by (done || lia). intros [=]. lia.
Qed.

Lemma user_region s k a n :
  tables_ok (pgs s) -> 0 <= k < 6 ->
  aget (page_directory (pgs s)) 32 = Some (2 ^ 22 * (2 + k) + 0x87) ->
  0x8000000 <= a -> a + n <= 0x8400000 ->
  (forall i, 0 <= i < n -> is_Some (mem (mach s) !! (EIGHT_MB + k * FOUR_MB + (a + i - 0x8000000)))) ->
  region s a n.
Proof.
  intros Hok Hk H32 Ha He Hm.
  assert (Hc : forall i, 0 <= i < n ->
    cell (pgs s) (a + i) = Some (EIGHT_MB + k * FOUR_MB + (a + i - 0x8000000))).
  { intros i Hi. unfold cell. rewrite (proj2 (Z.ltb_ge _ _)) by lia.
    apply program_translate; (done || lia). }
  split.
  - intros i Hi. unfold mem_get. rewrite Hc by done. by apply Hm.
  - intros i j Hi Hj. rewrite !Hc by done. intros [=]. lia.
Qed.

(** What [vidmap] needs: a user pointer to a word of the program's page, and
    memory where the stray entry goes. *)
Record vidmap_ready (s : kernel) (k scr : Z) : Prop := {
  vr_tables : tables_ok (pgs s);
  vr_turn : 0 <= curr_scheduler (ttys s) < 3;
  vr_pid : 0 <= k < 6;
  vr_page : aget (page_directory (pgs s)) 32 = Some (2 ^ 22 * (2 + k) + 0x87);
  vr_scr : LOWERBOUND_VID <= scr /\ scr + 4 <= UPPERBOUND_VID;
  vr_word : forall i, 0 <= i < 4 ->
    is_Some (mem (mach s) !! (EIGHT_MB + k * FOUR_MB + (scr + i - 0x8000000)));
  vr_stray : 0x400000 <= stray /\ stray + 4 <= 0x800000 /\
    forall i, 0 <= i < 4 -> is_Some (mem (mach s) !! (stray + i)) }.

(** ** The gate *)

(** Arguments a call refuses whatever the state. *)
Definition refused (eax ebx ecx edx : Z) : Prop :=
  match eax with
  | 3 | 4 => s32 edx < 0 \/ s32 ebx < 0 \/ 7 < s32 ebx \/ ecx = NULL
  | 5 => ebx = NULL
  | 6 => s32 ebx < 2 \/ 7 < s32 ebx
  | 7 => s32 ecx <= 0 \/ ebx = NULL
  | 8 => ebx < LOWERBOUND_VID \/ UPPERBOUND_VID < ebx
  | 9 | 10 => True
  | _ => eax < 1 \/ 10 < eax
  end.

Lemma bad_arguments fd buf n s :
  n < 0 \/ fd < 0 \/ 7 < fd \/ buf = NULL -> bad_descriptor fd buf n s = Ret true s.
Proof.
  intros Hc. unfold bad_descriptor, END_OF_FDA.
  destruct (Z.ltb_spec n 0); [done|]. destruct (Z.ltb_spec fd 0); [done|].
  destruct (Z.ltb_spec 7 fd); [done|]. destruct (Z.eqb_spec buf NULL); [done|]. lia.
Qed.

Lemma jmp_table_refused irqs eax ebx ecx edx s :
  1 <= eax <= 10 -> refused eax ebx ecx edx ->
  exists b, jmp_table irqs eax ebx ecx edx s = Ret FAILURE (set_iflag b s).
Proof.
  intros He Hr. assert (Hid : set_iflag (iflag (mach s)) s = s) by by destruct s as [[] ? ? ? ? ? ? ? ? ?].
  assert (Hc : eax = 1 \/ eax = 2 \/ eax = 3 \/ eax = 4 \/ eax = 5 \/ eax = 6 \/ eax = 7 \/ eax = 8 \/
    eax = 9 \/ eax = 10) by lia.
  destruct Hc as [->|[->|[->|[->|[->|[->|[->|[->|[->| ->]]]]]]]]]; cbn [refused] in Hr; cbn [jmp_table].
  - lia.
  - lia.
  - exists (iflag (mach s)). rewrite Hid. unfold read. by rewrite (bind_Ret _ _ _ _ _ (bad_arguments _ _ _ _ Hr)).
  - exists (iflag (mach s)). rewrite Hid. unfold write. by rewrite (bind_Ret _ _ _ _ _ (bad_arguments _ _ _ _ Hr)).
  - exists (iflag (mach s)). rewrite Hid. by rewrite Hr.
  - exists (iflag (mach s)). rewrite Hid. unfold close, BEGINING_FDA, END_OF_FDA.
    destruct (Z.ltb_spec (s32 ebx) 2); [done|]. destruct (Z.ltb_spec 7 (s32 ebx)); [done|lia].
  - exists (iflag (mach s)). rewrite Hid. unfold getargs.
    destruct (Z.leb_spec (s32 ecx) 0); [done|]. destruct (Z.eqb_spec ebx NULL); [done|lia].
  - exists false. unfold vidmap, cli, bind at 1, modify.
    destruct (ebx =? NULL); [done|]. destruct (Z.ltb_spec ebx LOWERBOUND_VID); [done|].
    destruct (Z.ltb_spec UPPERBOUND_VID ebx); [done|]. lia.
  - exists (iflag (mach s)). by rewrite Hid.
  - exists (iflag (mach s)). by rewrite Hid.
Qed.

(** A call that returns, through the gate. *)
Lemma gate_call irqs eax ebx ecx edx s r t :
  1 <= eax <= 10 -> jmp_table irqs eax ebx ecx edx s = Ret r t ->
  system_call_asm irqs eax ebx ecx edx s = Ret r (set_iflag (iflag (mach s)) t).
Proof.
  intros He Hj. unfold system_call_asm, UPPERBOUND, LOWERBOUND.
  rewrite (proj2 (Z.ltb_ge 10 eax)), (proj2 (Z.ltb_ge eax 1)) by lia. cbn [orb].
  unfold bind, gets, modify, ret. by rewrite Hj.
Qed.

Lemma gate_refuses irqs eax ebx ecx edx s :
  refused eax ebx ecx edx -> system_call_asm irqs eax ebx ecx edx s = Ret FAILURE s.
Proof.
  intros Hr. destruct (decide (1 <= eax <= 10)) as [He|He].
  - destruct (jmp_table_refused irqs eax ebx ecx edx s He Hr) as [b Hb].
    rewrite (gate_call _ _ _ _ _ _ _ _ He Hb). f_equal. by destruct s as [[] ? ? ? ? ? ? ? ? ?].
  - unfold system_call_asm, UPPERBOUND, LOWERBOUND.
    destruct (Z.ltb_spec 10 eax), (Z.ltb_spec eax 1); try done; lia.
Qed.

(** ** Properties *)

(** The argument of the command line.  For a process whose argument is [w],
    [getargs] fills the caller's buffer with [w] padded with zeros; it succeeds
    when the terminator fits and fails, the buffer filled, when it does not.  A
    process without argument, an empty buffer and NULL are refused. *)
Theorem getargs_copies s a p buf n w :
  running s a p -> cstring (argument p) = Some w -> bytes w ->
  Z.of_nat (length w) < 2 ^ 32 -> n < 2 ^ 31 -> region s buf n ->
  (n <= 0 \/ buf = NULL \/ w = [] -> getargs buf n s = Ret FAILURE s) /\
  (0 < n -> buf <> NULL -> w <> [] ->
   getargs buf n s = Ret (if Z.of_nat (length w) <? n then SUCCESS else FAILURE)
     (put_bytes buf (take (Z.to_nat n) (w ++ replicate (Z.to_nat n) 0)) s)).
Proof.
  intros Hr Hw Hb Hlw Hn Hreg. split; [by eapply getargs_refuses|].
  intros Hn0 Hbuf Hwn. by eapply getargs_stores.
Qed.

(** C21: the video window.  For a user pointer to a word of the program's page,
    [vidmap] opens the window at 136 MB, stores that address in the word and
    returns 0 with interrupts on.  The window shows the screen also when the
    terminal of the program is not the one on the screen: the entry meant for
    that case is stored 0x2E0000 bytes past the page table, over whatever the
    kernel's memory holds there. *)
Theorem vidmap_maps s k scr :
  table_linked -> vidmap_ready s k scr ->
  exists t, vidmap scr s = Ret SUCCESS t /\
    t = set_iflag true (put_bytes scr (le32 MB136) (put_bytes stray (le32 (window_page s + 7))
          (on_pgs (fun _ => pgs t) (set_iflag false s)))) /\
    tables_ok (pgs t) /\ bytes_at t scr (le32 MB136) /\
    (forall off, 0 <= off < KB4 -> user_translate (pgs t) (MB136 + off) = Some (VIDEO + off)).
Proof.
  intros Hlink [Hok Hc Hk H32 [Hs1 Hs2] Hword (Hst1 & Hst2 & Hst3)].
  unfold LOWERBOUND_VID, UPPERBOUND_VID in *.
  cut (wp (vidmap scr) (fun r t => r = SUCCESS /\
    t = set_iflag true (put_bytes scr (le32 MB136) (put_bytes stray (le32 (window_page s + 7))
          (on_pgs (fun _ => pgs t) (set_iflag false s)))) /\
    tables_ok (pgs t) /\ bytes_at t scr (le32 MB136) /\
    (forall off, 0 <= off < KB4 -> user_translate (pgs t) (MB136 + off) = Some (VIDEO + off)))
    (fun _ _ => False) s).
  { intros (r & t & Hrun & -> & Ht)%wp_Ret. by exists t. }
  unfold vidmap, cli, LOWERBOUND_VID, UPPERBOUND_VID. do 2 wp_step.
  rewrite (proj2 (Z.eqb_neq scr NULL)) by (unfold NULL; lia).
  rewrite (proj2 (Z.ltb_ge scr _)), (proj2 (Z.ltb_ge _ scr)) by lia. cbn [orb].
  assert (Hv : VIDEO ∈ video_pages) by apply list_elem_of_here.
  wp_step. eapply wp_mono; [apply (map_video_memory_spec (set_iflag false s) VIDEO (fun _ _ => False)); done| |done].
  intros [] s1 (Hok1 & Ho1 & H34 & H32' & H0).
  assert (Fm : mem (mach s1) = mem (mach s) /\ ttys s1 = ttys s) by by rewrite Ho1.
  destruct Fm as [Fm Ft]. assert (Hw1 : window_page s1 = window_page s) by (unfold window_page; by rewrite Ft).
  assert (Rst : region s1 stray 4) by (apply kmem_region; rewrite ?Fm; done).
  wp_step. eapply wp_mono; [apply (stray_entry s1 (fun _ _ => False)); [done|by rewrite Ft|lia|done]| |done].
  intros [] s2 ->. rewrite Hw1. set (s2 := put_bytes stray _ s1).
  assert (Rscr : region s2 scr 4).
  { apply region_put_bytes, (user_region s1 k); try done; try lia; [by rewrite H32'|].
    intros i Hi. rewrite Fm. by apply Hword. }
  unfold flush_tlb. wp_step. wp_step. wp_step. wp_use (store32_put s2 scr MB136 Rscr). unfold sti. do 3 wp_step.
  split; [done|]. assert (Hpg : pgs (put_bytes scr (le32 MB136) s2) = pgs s1) by (unfold s2; by rewrite !pgs_put_bytes).
  change (pgs (set_iflag true (put_bytes scr (le32 MB136) s2))) with (pgs (put_bytes scr (le32 MB136) s2)).
  rewrite Hpg. split; [unfold s2; do 3 f_equal; exact Ho1|]. split; [done|]. split.
  - by apply (bytes_at_put_bytes scr (le32 MB136) s2).
  - intros off Hoff. by apply window_open.
Qed.

(** C23: the gate.  [int 0x80] with a number outside 1-10, with the number of a
    signal call, or with arguments its function refuses returns -1 and leaves
    the whole state as it was, the interrupt flag included, although [vidmap]
    itself returns with interrupts off; every call that returns leaves that
    flag as it found it. *)
Theorem system_call_gate irqs eax ebx ecx edx s :
  (refused eax ebx ecx edx -> system_call_asm irqs eax ebx ecx edx s = Ret FAILURE s) /\
  (forall r t, system_call_asm irqs eax ebx ecx edx s = Ret r t -> iflag (mach t) = iflag (mach s)).
Proof.
  split; [apply gate_refuses|]. unfold system_call_asm. destruct (_ || _); [by intros r t [= _ <-]|].
  intros r t. unfold bind, gets, modify, ret. destruct (jmp_table _ _ _ _ _ _) as [r' t'| | |]; try done.
  by intros [= _ <-].
Qed.

End syscall_lemmas.

(** * Closed examples *)

Definition demo_args : pcb := set_argument (bytes_of "fish" ++ replicate 124 0) demo_pcb.
Definition demo_caller_args : kernel :=
  set_terminal [Term 0x7FE000 0 0; zero_term; zero_term] (set_pcbs {[ 0x7FE000 := demo_args ]} demo_buffer).

Lemma getargs_copies_witness :
  let H := quiet_env in
  getargs 0x20000 8 demo_caller_args
    = Ret SUCCESS (put_bytes 0x20000 (bytes_of "fish" ++ [0; 0; 0; 0]) demo_caller_args) /\
  getargs 0x20000 4 demo_caller_args
    = Ret FAILURE (put_bytes 0x20000 (bytes_of "fish") demo_caller_args).
Proof.
  intros H. assert (Hr : running demo_caller_args 0x7FE000 demo_args).
  { eexists. split; [reflexivity|]. split; [reflexivity|]. apply lookup_singleton_eq. }
  assert (Hreg : forall n, n <= 16 -> region demo_caller_args 0x20000 n).
  { intros n Hn. apply (region_ram _ (fun _ => 0) 0x20000 16); [reflexivity|reflexivity|lia|lia|lia]. }
  assert (Hb : bytes (bytes_of "fish")) by (unfold bytes; cbn; repeat constructor; lia).
  split.
  - apply (getargs_copies demo_caller_args 0x7FE000 demo_args 0x20000 8 (bytes_of "fish"));
      [exact Hr|reflexivity|exact Hb|reflexivity|lia|apply Hreg; lia|lia|discriminate|discriminate].
  - apply (getargs_copies demo_caller_args 0x7FE000 demo_args 0x20000 4 (bytes_of "fish"));
      [exact Hr|reflexivity|exact Hb|reflexivity|lia|apply Hreg; lia|lia|discriminate|discriminate].
Defined.

Lemma demo_vidmap_ready : let H := quiet_env in vidmap_ready demo_exec 0 0x8001000.
Proof.
  intros H. change stray with 0x6EF000. constructor.
  - apply demo_tables_ok.
  - cbn. lia.
  - lia.
  - reflexivity.
  - unfold LOWERBOUND_VID, UPPERBOUND_VID. lia.
  - intros i Hi. change (mem (mach demo_exec)) with (ram_of demo_exec_byte 0x500000 0x800000).
    rewrite ram_of_lookup; [by eexists|]. unfold EIGHT_MB, FOUR_MB. lia.
  - change stray with 0x6EF000. split; [lia|]. split; [lia|]. intros i Hi.
    change (mem (mach demo_exec)) with (ram_of demo_exec_byte 0x500000 0x800000).
    rewrite ram_of_lookup; [by eexists|]. lia.
Qed.

Lemma vidmap_maps_witness :
  let H := quiet_env in
  exists t, vidmap 0x8001000 demo_exec = Ret SUCCESS t /\ bytes_at t 0x8001000 [0; 0; 0x80; 8] /\
    user_translate (pgs t) 0x8800000 = Some 0xB8000.
Proof.
  intros H. destruct (vidmap_maps demo_exec 0 0x8001000) as (t & Hrun & _ & _ & Hb & Hu).
  - apply demo_table_linked.
  - apply demo_vidmap_ready.
  - exists t. split; [exact Hrun|]. split; [exact Hb|]. apply (Hu 0). unfold KB4. lia.
Defined.

Lemma system_call_gate_witness :
  let H := quiet_env in
  system_call_asm [] 8 0x1000 0 0 demo_exec = Ret FAILURE demo_exec /\
  system_call_asm [] 11 0 0 0 demo_exec = Ret FAILURE demo_exec.
Proof.
  intros H. split.
  - apply (system_call_gate [] 8 0x1000 0 0 demo_exec). left. unfold LOWERBOUND_VID. lia.
  - apply (system_call_gate [] 11 0 0 0 demo_exec). right. lia.
Defined.
