(* ===== verification/Interrupts.v ===== *)
(** The interrupt descriptor table and the exception handlers,
    [src/student-distrib/idt.c] and [exception_handler.c]. *)
From stdpp Require Import base numbers list gmap strings.
From Stdlib Require Import ZArith Lia.
From S2P Require Import Prelude Machine Strings Pic Console Paging FileSys Terminal Descriptors Process Execute Frames Keyboard.

Definition NUM_VEC : Z := 256.
Definition KERNEL_CS : Z := 0x10.
Definition SYSTEM_CALL_GATE : Z := 3.
Definition INTERRUPT_START_VECTOR : Z := 0x20.
Definition KEYBOARD_VECTOR : Z := 0x21.
Definition RTC_VECTOR : Z := 0x28.
Definition INTERRUPT_END_VECTOR : Z := 0x2F.
Definition SYSTEM_CALL_VECTOR : Z := 0x80.
Definition PIT_VECTOR : Z := 0x20.

Section interrupts.
Context `{Env}.

(** [idt[i] = f idt[i]], field by field in the source. *)
Definition update_idt (i : Z) (f : idt_desc -> idt_desc) : K unit :=
  let* l := gets idt in
  let* d := get_or_fault i (aget l i) in
  let* l' := get_or_fault i (aset l i (f d)) in
  modify (set_idt l').

(** The fields [idt_init] gives entry [i]; its handler's address stays. *)
Definition init_gate (i : Z) (d : idt_desc) : idt_desc := {|
  offset_15_00 := offset_15_00 d;
  seg_selector := KERNEL_CS;
  reserved4 := 0;
  reserved3 := if (INTERRUPT_START_VECTOR <=? i) && (i <=? INTERRUPT_END_VECTOR) then 0 else 1;
  reserved2 := 1;
  reserved1 := 1;
  idt_size := 1;
  reserved0 := 0;
  dpl := if i =? SYSTEM_CALL_VECTOR then SYSTEM_CALL_GATE else 0;
  present := 1;
  offset_31_16 := offset_31_16 d |}.

(** The two halves of a handler's address. *)
Definition set_offset (handler : Z) (d : idt_desc) : idt_desc := {|
  offset_15_00 := u16 (Z.land handler 0xFFFF);
  seg_selector := seg_selector d; reserved4 := reserved4 d; reserved3 := reserved3 d;
  reserved2 := reserved2 d; reserved1 := reserved1 d; idt_size := idt_size d;
  reserved0 := reserved0 d; dpl := dpl d; present := present d;
  offset_31_16 := u16 (Z.shiftr (Z.land handler 0xFFFF0000) 16) |}.

Definition SET_IDT_ENTRY (i : Z) (handler : string) : K unit :=
  update_idt i (set_offset (u32 (handler_addr handler))).

Definition idt_init : K unit :=
  for_up (Z.to_nat NUM_VEC) 0 (fun i => update_idt i (init_gate i)) ;;
  SET_IDT_ENTRY 0 "de_asm" ;;
  SET_IDT_ENTRY 1 "db_asm" ;;
  SET_IDT_ENTRY 2 "nmi_asm" ;;
  SET_IDT_ENTRY 3 "bp_asm" ;;
  SET_IDT_ENTRY 4 "of_asm" ;;
  SET_IDT_ENTRY 5 "br_asm" ;;
  SET_IDT_ENTRY 6 "ud_asm" ;;
  SET_IDT_ENTRY 7 "nm_asm" ;;
  SET_IDT_ENTRY 8 "df_asm" ;;
  SET_IDT_ENTRY 9 "cso_asm" ;;
  SET_IDT_ENTRY 10 "ts_asm" ;;
  SET_IDT_ENTRY 11 "np_asm" ;;
  SET_IDT_ENTRY 12 "ss_asm" ;;
  SET_IDT_ENTRY 13 "gp_asm" ;;
  SET_IDT_ENTRY 14 "pf_asm" ;;
  SET_IDT_ENTRY 16 "mf_asm" ;;
  SET_IDT_ENTRY 17 "ac_asm" ;;
  SET_IDT_ENTRY 18 "mc_asm" ;;
  SET_IDT_ENTRY 19 "xf_asm" ;;
  SET_IDT_ENTRY KEYBOARD_VECTOR "keyboard_asm" ;;
  SET_IDT_ENTRY RTC_VECTOR "rtc_asm" ;;
  SET_IDT_ENTRY SYSTEM_CALL_VECTOR "system_call_asm" ;;
  SET_IDT_ENTRY PIT_VECTOR "pit_asm" ;;
  ret tt.

(** [#error_msg]: the argument is a string literal, so the text has its
    quotation marks. *)
Definition stringize (error_msg : string) : list Z := [34] ++ bytes_of error_msg ++ [34].

(** The body of a handler; [while (1)] never ends. *)
Definition EXCEPTION (error_msg : string) : K unit :=
  printf (Lit (bytes_of "%s" ++ [NEWLINE; 0])) [PStr (Lit (stringize error_msg ++ [0]))] ;;
  modify (set_global_halt 1) ;;
  halt 1 ;;
  unfinished.

Definition DE_exception : K unit := EXCEPTION "Divide Error".
Definition DB_exception : K unit := EXCEPTION "RESERVED".
Definition NMI_exception : K unit := EXCEPTION "NMI Interrupt".
Definition BP_exception : K unit := EXCEPTION "Breakpoint Exception".
Definition OF_exception : K unit := EXCEPTION "Overflow Exception".
Definition BR_exception : K unit := EXCEPTION "BOUND Range Exceeded".
Definition UD_exception : K unit := EXCEPTION "Invalid Opcode".
Definition NM_exception : K unit := EXCEPTION "Device Not Available".
Definition DF_exception : K unit := EXCEPTION "Double Fault".
Definition CSO_exception : K unit := EXCEPTION "Coprocessor Segment Overrun".
Definition TS_exception : K unit := EXCEPTION "Invalid TSS".
Definition NP_exception : K unit := EXCEPTION "Segment Not Present".
Definition SS_exception : K unit := EXCEPTION "Stack-Segment Fault".
Definition GP_exception : K unit := EXCEPTION "General Protection".
Definition PF_exception : K unit := EXCEPTION "Page Fault".
Definition MF_exception : K unit := EXCEPTION "x87 FPU Floating-Point error".
Definition AC_exception : K unit := EXCEPTION "Alignment Check".
Definition MC_exception : K unit := EXCEPTION "Machine Check".
Definition XF_exception : K unit := EXCEPTION "SIMD Floating-Point Exception".

End interrupts.

(** * Specifications *)

(** The stub each vector leads to. *)
Definition vector_stubs : list (Z * string) :=
  [(0, "de_asm");
   (1, "db_asm");
   (2, "nmi_asm");
   (3, "bp_asm");
   (4, "of_asm");
   (5, "br_asm");
   (6, "ud_asm");
   (7, "nm_asm");
   (8, "df_asm");
   (9, "cso_asm");
   (10, "ts_asm");
   (11, "np_asm");
   (12, "ss_asm");
   (13, "gp_asm");
   (14, "pf_asm");
   (16, "mf_asm");
   (17, "ac_asm");
   (18, "mc_asm");
   (19, "xf_asm");
   (KEYBOARD_VECTOR, "keyboard_asm"); (RTC_VECTOR, "rtc_asm");
   (SYSTEM_CALL_VECTOR, "system_call_asm"); (PIT_VECTOR, "pit_asm")].

(** The names of the exceptions. *)
Definition exception_names : list string :=
  ["Divide Error";
   "RESERVED";
   "NMI Interrupt";
   "Breakpoint Exception";
   "Overflow Exception";
   "BOUND Range Exceeded";
   "Invalid Opcode";
   "Device Not Available";
   "Double Fault";
   "Coprocessor Segment Overrun";
   "Invalid TSS";
   "Segment Not Present";
   "Stack-Segment Fault";
   "General Protection";
   "Page Fault";
   "x87 FPU Floating-Point error";
   "Alignment Check";
   "Machine Check";
   "SIMD Floating-Point Exception"].

(** A gate as the processor reads it: the four type bits, 14 for an interrupt
    gate, which turns interrupts off, and 15 for a trap gate; the address it
    leads to. *)
Definition gate_type (d : idt_desc) : Z :=
  reserved3 d + 2 * reserved2 d + 4 * reserved1 d + 8 * idt_size d.
Definition gate_offset (d : idt_desc) : Z := offset_15_00 d + 2 ^ 16 * offset_31_16 d.

(** The stub of vector [i], if it has one. *)
Fixpoint stub_of (es : list (Z * string)) (i : Z) : option string :=
  match es with
  | [] => None
  | e :: es' => if i =? fst e then Some (snd e) else stub_of es' i
  end.

Section interrupt_lemmas.
Context `{Env}.

Lemma halves a : 0 <= a < 2 ^ 32 ->
  u16 (Z.land a 0xFFFF) + 2 ^ 16 * u16 (Z.shiftr (Z.land a 0xFFFF0000) 16) = a.
Proof.
  intros Ha. change 0xFFFF with (Z.ones 16). rewrite Z.land_ones by lia.
  rewrite Z.shiftr_land. change (Z.shiftr 0xFFFF0000 16) with (Z.ones 16).
  rewrite Z.land_ones, Z.shiftr_div_pow2 by lia.
  assert (Hq : 0 <= a / 2 ^ 16 < 65536).
  { split; [apply Z.div_pos; lia|]. apply Z.div_lt_upper_bound; lia. }
  rewrite (Z.mod_small (a / 2 ^ 16) (2 ^ 16)) by lia.
  pose proof (Z.mod_pos_bound a (2 ^ 16) ltac:(lia)). rewrite !u16_small by lia.
  pose proof (Z.div_mod a (2 ^ 16) ltac:(lia)). lia.
Qed.

Lemma update_idt_eq s i f d :
  aget (idt s) i = Some d -> update_idt i f s = Ret tt (set_idt (<[Z.to_nat i := f d]> (idt s)) s).
Proof.
  intros Hd. unfold update_idt, bind, gets. rewrite Hd. cbn [get_or_fault].
  pose proof (aget_bound _ _ _ Hd). unfold ret, aset.
  by rewrite (proj2 (Z.leb_le 0 i)), (proj2 (Z.ltb_lt i _)) by lia.
Qed.

Lemma aget_insert_any {A} (l : list A) i j x d :
  aget l i = Some d -> aget (<[Z.to_nat i := x]> l) j = if j =? i then Some x else aget l j.
Proof.
  intros Hd. pose proof (aget_bound _ _ _ Hd). apply aget_aset. unfold aset.
  by rewrite (proj2 (Z.leb_le 0 i)), (proj2 (Z.ltb_lt i _)) by lia.
Qed.

(** The loop: the entries before [i] are gates, the others untouched. *)
Definition gates_upto (i : Z) (s t : kernel) : Prop :=
  t = set_idt (idt t) s /\ length (idt t) = 256%nat /\
  forall j d, aget (idt s) j = Some d ->
    aget (idt t) j = Some (if j <? i then init_gate j d else d).

Lemma init_loop s E :
  length (idt s) = 256%nat ->
  wp (for_up (Z.to_nat NUM_VEC) 0 (fun i => update_idt i (init_gate i)))
    (fun _ => gates_upto 256 s) E s.
Proof.
  intros Hl. apply wp_for_up with (I := fun i => gates_upto i s).
  - split; [by destruct s as [? ? ? ? ? ? ? ? ? ?]|]. split; [done|]. intros j d Hd.
    pose proof (aget_bound _ _ _ Hd). by rewrite (proj2 (Z.ltb_ge j 0)) by lia.
  - change (0 + Z.of_nat (Z.to_nat NUM_VEC)) with 256. intros i t Hi (Ht & Hlt & Hg).
    destruct (aget_total (idt s) i) as [d Hd]; [lia|]. pose proof (Hg i d Hd) as Hi'.
    rewrite (proj2 (Z.ltb_ge i i)) in Hi' by lia.
    wp_use (update_idt_eq t i (init_gate i) d Hi'). split; [by rewrite Ht|].
    split; [cbn; by rewrite length_insert|]. intros j d' Hj.
    cbn [idt set_idt]. rewrite (aget_insert_any _ _ _ _ _ Hi'), (Hg j d' Hj).
    destruct (Z.eqb_spec j i) as [->|Hne].
    + rewrite Hd in Hj. injection Hj as <-. by rewrite (proj2 (Z.ltb_lt i _)) by lia.
    + destruct (Z.ltb_spec j i), (Z.ltb_spec j (i + 1)); (done || lia).
  - done.
Qed.

(** A sequence of [SET_IDT_ENTRY]. *)
Definition set_entries (es : list (Z * string)) : K unit :=
  fold_right (fun e k => SET_IDT_ENTRY (fst e) (snd e) ;; k) (ret tt) es.

Lemma set_entries_spec es s E :
  length (idt s) = 256%nat -> NoDup (map fst es) -> Forall (fun e => 0 <= fst e < 256) es ->
  wp (set_entries es) (fun _ t => t = set_idt (idt t) s /\ length (idt t) = 256%nat /\
    forall j d, aget (idt s) j = Some d -> aget (idt t) j = Some
      (match stub_of es j with Some h => set_offset (u32 (handler_addr h)) d | None => d end)) E s.
Proof.
  revert s. induction es as [|[v h] es IH]; intros s Hl Hnd Hes; cbn [set_entries fold_right].
  - apply wp_ret. split; [by destruct s as [? ? ? ? ? ? ? ? ? ?]|]. split; [done|]. by intros j d.
  - inversion Hnd as [|? ? Hv Hnd']; subst. inversion Hes as [|? ? Hr Hes']; subst. cbn [fst snd] in *.
    destruct (aget_total (idt s) v) as [d Hd]; [lia|].
    wp_step. unfold SET_IDT_ENTRY. wp_use (update_idt_eq s v (set_offset (u32 (handler_addr h))) d Hd).
    set (s1 := set_idt _ s).
    eapply wp_mono; [apply (IH s1); [cbn; by rewrite length_insert|done|done]| |done].
    intros [] t (Ht & Hlt & Hg). split; [by rewrite Ht|]. split; [done|].
    intros j d' Hj. cbn [stub_of fst snd].
    assert (H1 : aget (idt s1) j = if j =? v then Some (set_offset (u32 (handler_addr h)) d) else aget (idt s) j)
      by by apply (aget_insert_any _ _ _ _ _ Hd).
    destruct (Z.eqb_spec j v) as [->|Hne].
    + rewrite Hd in Hj. injection Hj as <-. rewrite (Hg _ _ H1).
      replace (stub_of es v) with (@None string); [done|]. symmetry. clear -Hv.
      induction es as [|[v' h'] es IH]; [done|]. cbn [stub_of fst snd map] in *.
      apply not_elem_of_cons in Hv as [Hne Hv]. rewrite (proj2 (Z.eqb_neq _ _)) by done. by apply IH.
    + rewrite Hj in H1. by rewrite (Hg _ _ H1).
Qed.

Lemma idt_init_spec s E :
  length (idt s) = 256%nat ->
  wp idt_init (fun _ t => t = set_idt (idt t) s /\ length (idt t) = 256%nat /\
    forall j d, aget (idt s) j = Some d -> aget (idt t) j = Some
      (match stub_of vector_stubs j with
       | Some h => set_offset (u32 (handler_addr h)) (init_gate j d)
       | None => init_gate j d end)) E s.
Proof.
  intros Hl. unfold idt_init. wp_step. eapply wp_mono; [by apply init_loop| |done].
  intros [] t (Ht & Hlt & Hg). change (wp (set_entries vector_stubs) ?Q ?E t) with (wp (set_entries vector_stubs) Q E t).
  eapply wp_mono; [apply (set_entries_spec vector_stubs t)| |done].
  - done.
  - apply (bool_decide_unpack _). by vm_compute.
  - apply (bool_decide_unpack _). by vm_compute.
  - intros [] u (Hu & Hlu & Hgu). split; [by rewrite Hu, Ht|]. split; [done|].
    intros j d Hj. pose proof (aget_bound _ _ _ Hj). pose proof (Hg j d Hj) as Hj'.
    rewrite (proj2 (Z.ltb_lt j 256)) in Hj' by lia. by rewrite (Hgu _ _ Hj').
Qed.

(** ** Exceptions *)

(** [printf] of a [%s] and a newline. *)
Lemma printf_line s w v E :
  running_shows s v -> bytes w -> Forall (fun c => c <> 0) w -> Z.of_nat (length w) < 2 ^ 32 ->
  wp (printf (Lit (bytes_of "%s" ++ [NEWLINE; 0])) [PStr (Lit (w ++ [0]))])
    (fun _ t => running_shows t (put_text (w ++ [NEWLINE]) v) /\ only_running_screen s t) E s.
Proof.
  intros Hs Hb Hnz Hl. unfold printf.
  apply wp_loop with
    (I := fun (st : Z * list parg) t =>
       (st = (0, [PStr (Lit (w ++ [0]))]) /\ t = s) \/
       (st = (2, []) /\ running_shows t (put_text w v) /\ only_running_screen s t) \/
       (st = (3, []) /\ running_shows t (put_text (w ++ [NEWLINE]) v) /\ only_running_screen s t))
    (mu := fun st _ => 3 - fst st); [by left|unfold loop_fuel; cbn; lia|].
  intros st t [[-> ->]|[(-> & Ht & Ho)|(-> & Ht & Ho)]]; (split; [cbn; lia|]); cbn [fst snd].
  - wp_step. wp_use (reads_Lit s (bytes_of "%s" ++ [NEWLINE; 0]) 0%nat 37 eq_refl).
    change (37 =? 0) with false. change (37 =? 37) with true. cbv iota. wp_step.
    apply wp_loop with (I := fun st t => st = (1, 0) /\ t = s) (mu := fun _ _ => 0);
      [done|unfold loop_fuel; lia|]. intros st t [-> ->]. split; [lia|]. cbn [fst snd].
    wp_step. wp_use (reads_Lit s (bytes_of "%s" ++ [NEWLINE; 0]) 1%nat 115 eq_refl).
    change (115 =? 35) with false. cbv iota. wp_step. cbn [fst snd]. wp_step.
    change (printf_conv 0 115 [PStr (Lit (w ++ [0]))]) with (puts (Lit (w ++ [0])) ;; ret ([] : list parg)).
    wp_step. eapply wp_mono; [apply (puts_spec s (Lit (w ++ [0])) w [] v (fun _ _ => False)); try done;
      apply reads_Lit| |done].
    intros n t (_ & Ht & Ho). wp_step. wp_step. split; [right; by left|cbn; lia].
  - wp_step. wp_use (reads_Lit t (bytes_of "%s" ++ [NEWLINE; 0]) 2%nat NEWLINE eq_refl).
    change (NEWLINE =? 0) with false. change (NEWLINE =? 37) with false. cbv iota. wp_step.
    eapply wp_mono; [apply (putc_spec t _ NEWLINE (fun _ _ => False) Ht); unfold NEWLINE; lia| |done].
    intros [] u [Hu Hou]. wp_step. split; [right; right|cbn; lia]. split; [done|].
    split; [unfold put_text in *; by rewrite foldl_app|]. by eapply only_running_trans.
  - wp_step. by wp_use (reads_Lit t (bytes_of "%s" ++ [NEWLINE; 0]) 3%nat 0 eq_refl).
Qed.

Lemma exception_text m :
  m ∈ exception_names ->
  bytes (stringize m) /\ Forall (fun c => c <> 0) (stringize m) /\ Z.of_nat (length (stringize m)) < 2 ^ 32.
Proof.
  revert m. apply Forall_forall. unfold bytes. apply (bool_decide_unpack _). by vm_compute.
Qed.

(** ** Properties *)

(** C29: the descriptor table.  After [idt_init] every one of the 256 entries is a
    present gate into the kernel's code: an interrupt gate for the vectors 0x20
    to 0x2F, which starts its handler with interrupts off, a trap gate for the
    others, open to user programs only at 0x80.  The 19 exceptions, the three
    device interrupts and the system call lead to their stubs; every other entry
    keeps the address it had, zero at boot. *)
Theorem idt_init_gates s :
  length (idt s) = 256%nat ->
  exists t, idt_init s = Ret tt t /\ t = set_idt (idt t) s /\ length (idt t) = 256%nat /\
    forall i d, aget (idt s) i = Some d -> exists g, aget (idt t) i = Some g /\
      present g = 1 /\ seg_selector g = KERNEL_CS /\
      gate_type g = (if (0x20 <=? i) && (i <=? 0x2F) then 14 else 15) /\
      dpl g = (if i =? 0x80 then 3 else 0) /\
      gate_offset g = match stub_of vector_stubs i with
                      | Some h => u32 (handler_addr h) | None => gate_offset d end.
Proof.
  intros Hl. pose proof (idt_init_spec s (fun _ _ => False) Hl) as Hw.
  apply wp_Ret in Hw as ([] & t & Hrun & Ht & Hlt & Hg). exists t. split_and!; try done.
  intros i d Hd. eexists. split; [by apply Hg|].
  assert (Ho : forall h, gate_offset (set_offset (u32 (handler_addr h)) (init_gate i d)) = u32 (handler_addr h)).
  { intros h. apply halves, u32_range. }
  assert (Hty : gate_type (init_gate i d) = (if (0x20 <=? i) && (i <=? 0x2F) then 14 else 15)).
  { unfold gate_type, init_gate, INTERRUPT_START_VECTOR, INTERRUPT_END_VECTOR.
    cbn [reserved3 reserved2 reserved1 idt_size]. by destruct (_ && _). }
  destruct (stub_of vector_stubs i) as [h|]; split_and!; done.
Qed.


End interrupt_lemmas.

(** * Closed examples *)

Lemma idt_init_gates_witness :
  let H := quiet_env in
  exists t g, idt_init initial_kernel = Ret tt t /\ aget (idt t) 0x80 = Some g /\ dpl g = 3 /\
    gate_offset g = 0x401000.
Proof.
  intros H. destruct (idt_init_gates initial_kernel) as (t & Hrun & _ & _ & Hg).
  - reflexivity.
  - destruct (Hg 0x80 (IdtDesc 0 0 0 0 0 0 0 0 0 0 0)) as (g & Hget & _ & _ & _ & Hdpl & Hoff);
      [reflexivity|]. exists t, g. split; [exact Hrun|]. split; [exact Hget|]. split; [exact Hdpl|exact Hoff].
Defined.

