(* ===== verification/Boot.v ===== *)
(** Start-up, [src/student-distrib/kernel.c]: what [entry] reports about the
    machine and the order in which it brings the parts of the kernel up. *)
From stdpp Require Import base numbers list gmap strings.
From Stdlib Require Import ZArith Lia.
From S2P Require Import Prelude Machine Strings Pic Rtc Console Paging FileSys Terminal Descriptors Process Execute Frames Keyboard Sched Interrupts.

Definition MULTIBOOT_BOOTLOADER_MAGIC : Z := 0x2BADB002.
Definition KERNEL_TSS : Z := 0x30.
Definition KERNEL_LDT : Z := 0x38.
Definition TSS_SIZE : Z := 104.

(** A segment descriptor, its fields in the order of the structure. *)
Record seg_desc : Type := SegDesc {
  seg_lim_15_00 : Z; base_15_00 : Z; base_23_16 : Z; type : Z; sys : Z; seg_dpl : Z;
  seg_present : Z; seg_lim_19_16 : Z; avail : Z; reserved : Z; opsize : Z;
  granularity : Z; base_31_24 : Z }.

(** The eight bytes of the packed structure. *)
Definition seg_bytes (d : seg_desc) : list Z :=
  [u8 (seg_lim_15_00 d); u8 (Z.shiftr (seg_lim_15_00 d) 8);
   u8 (base_15_00 d); u8 (Z.shiftr (base_15_00 d) 8); u8 (base_23_16 d);
   u8 (type d + 16 * sys d + 32 * seg_dpl d + 128 * seg_present d);
   u8 (seg_lim_19_16 d + 16 * avail d + 32 * reserved d + 64 * opsize d + 128 * granularity d);
   u8 (base_31_24 d)].

(** [SET_LDT_PARAMS] and [SET_TSS_PARAMS], which are the same text. *)
Definition SET_LDT_PARAMS (addr lim : Z) (d : seg_desc) : seg_desc := {|
  base_31_24 := u8 (Z.shiftr (Z.land (u32 addr) 0xFF000000) 24);
  base_23_16 := u8 (Z.shiftr (Z.land (u32 addr) 0x00FF0000) 16);
  base_15_00 := u16 (Z.land (u32 addr) 0x0000FFFF);
  seg_lim_19_16 := Z.land (Z.shiftr (Z.land lim 0x000F0000) 16) 0xF;
  seg_lim_15_00 := u16 (Z.land lim 0x0000FFFF);
  type := type d; sys := sys d; seg_dpl := seg_dpl d; seg_present := seg_present d;
  avail := avail d; reserved := reserved d; opsize := opsize d; granularity := granularity d |}.
Definition SET_TSS_PARAMS : Z -> Z -> seg_desc -> seg_desc := SET_LDT_PARAMS.

Definition the_ldt_desc (ldt ldt_size : Z) : seg_desc :=
  SET_LDT_PARAMS ldt ldt_size (SegDesc 0 0 0 2 0 0 1 0 0 0 1 0 0).
Definition the_tss_desc (tss tss_size : Z) : seg_desc :=
  SET_TSS_PARAMS tss tss_size (SegDesc (Z.land TSS_SIZE 0x0000FFFF) 0 0 9 0 0 1
    (Z.land (Z.land TSS_SIZE 0x000F0000) 0xF) 0 0 0 0 0).

Section boot.
Context `{Env}.

(** [*p = d]. *)
Fixpoint store_bytes (a : Z) (l : list Z) : K unit :=
  match l with [] => ret tt | b :: l' => store8 a b ;; store_bytes (a + 1) l' end.

(** The two blocks that fill the GDT: [ldt_size] and [tss_size] are the sizes
    less one of the areas [x86_desc.S] reserves.  Loading the registers changes
    nothing the model sees. *)
Definition init_ldt : K unit :=
  store_bytes (handler_addr "ldt_desc_ptr") (seg_bytes (the_ldt_desc (handler_addr "ldt") 31)).
Definition init_tss : K unit :=
  store_bytes (handler_addr "tss_desc_ptr") (seg_bytes (the_tss_desc (handler_addr "tss") 103)) ;;
  store_bytes (handler_addr "tss" + 96) [KERNEL_LDT; 0] ;;
  set_tss KERNEL_DS 0x800000.

(** ** The report *)

Definition CHECK_FLAG (flags bit : Z) : bool := negb (Z.land flags (Z.shiftl 1 bit) =? 0).

Definition flag (mbi bit : Z) : K bool :=
  let* flags := load32 mbi in ret (CHECK_FLAG flags bit).

(** [printf] of a format and its newline. *)
Definition print (format : string) (args : list parg) : K unit :=
  printf (Lit (bytes_of format ++ [NEWLINE; 0])) args ;; ret tt.

Definition print_module (mod_count mod_ : Z) : K unit :=
  let* mod_start := load32 mod_ in
  print "Module %d loaded at address: 0x%#x" [PInt mod_count; PInt mod_start] ;;
  let* mod_end := load32 (mod_ + 4) in
  print "Module %d ends at address: 0x%#x" [PInt mod_count; PInt mod_end] ;;
  print "First few bytes of module:" [] ;;
  for_up 16 0 (fun i =>
    let* mod_start := load32 mod_ in
    let* b := load8 (u32 (mod_start + i)) in
    printf (cstr "0x%x ") [PInt (s8 b)] ;; ret tt) ;;
  print "" [].

(** The loop over the modules; the file system starts at the first. *)
Definition print_modules (mbi : Z) : K Z :=
  let* mods_addr := load32 (mbi + 24) in
  let* start_addr := load32 mods_addr in
  loop (fun st : Z * Z =>
    let* mods_count := load32 (mbi + 20) in
    if fst st <? mods_count then
      print_module (fst st) (snd st) ;; ret (inl (fst st + 1, u32 (snd st + 16)))
    else ret (inr tt)) (0, mods_addr) ;;
  ret start_addr.

Definition print_mmap (mbi : Z) : K unit :=
  let* mmap_addr := load32 (mbi + 48) in
  let* mmap_length := load32 (mbi + 44) in
  print "mmap_addr = 0x%#x, mmap_length = 0x%x" [PInt mmap_addr; PInt mmap_length] ;;
  let* mmap_addr := load32 (mbi + 48) in
  loop (fun mmap : Z =>
    let* mmap_addr := load32 (mbi + 48) in
    let* mmap_length := load32 (mbi + 44) in
    if negb (mmap <? u32 (mmap_addr + mmap_length)) then ret (inr tt) else
    let* size := load32 mmap in
    let* base_addr_high := load32 (mmap + 8) in
    let* base_addr_low := load32 (mmap + 4) in
    let* type := load32 (mmap + 20) in
    let* length_high := load32 (mmap + 16) in
    let* length_low := load32 (mmap + 12) in
    print "    size = 0x%x, base_addr = 0x%#x%#x
    type = 0x%x,  length    = 0x%#x%#x"
      [PInt size; PInt base_addr_high; PInt base_addr_low; PInt type; PInt length_high; PInt length_low] ;;
    ret (inl (u32 (mmap + size + 4)))) mmap_addr.

(** The automatic variable [start_addr], unset when no module was loaded. *)
Definition START_ADDR : Z := -9216.

(** The report; [None] when [entry] returns without starting anything. *)
Definition report (magic addr : Z) : K (option Z) :=
  clear ;;
  if negb (magic =? MULTIBOOT_BOOTLOADER_MAGIC) then
    print "Invalid magic number: 0x%#x" [PInt magic] ;; ret None
  else
  let* flags := load32 addr in
  print "flags = 0x%#x" [PInt flags] ;;
  let* f0 := flag addr 0 in
  (if f0 : bool then
     let* mem_lower := load32 (addr + 4) in
     let* mem_upper := load32 (addr + 8) in
     print "mem_lower = %uKB, mem_upper = %uKB" [PInt mem_lower; PInt mem_upper]
   else ret tt) ;;
  let* f1 := flag addr 1 in
  (if f1 : bool then
     let* boot_device := load32 (addr + 12) in print "boot_device = 0x%#x" [PInt boot_device]
   else ret tt) ;;
  let* f2 := flag addr 2 in
  (if f2 : bool then
     let* cmdline := load32 (addr + 16) in print "cmdline = %s" [PStr (Addr cmdline)]
   else ret tt) ;;
  let* f3 := flag addr 3 in
  let* start_addr := (if f3 : bool then print_modules addr else ret (u32 (garbage START_ADDR))) in
  let* f4 := flag addr 4 in
  let* f5 := flag addr 5 in
  if f4 && f5 then
    print "Both bits 4 and 5 are set." [] ;; ret None
  else
  (if f5 : bool then
     let* num := load32 (addr + 28) in
     let* size := load32 (addr + 32) in
     let* addr' := load32 (addr + 36) in
     let* shndx := load32 (addr + 40) in
     print "elf_sec: num = %u, size = 0x%#x, addr = 0x%#x, shndx = 0x%#x"
       [PInt num; PInt size; PInt addr'; PInt shndx]
   else ret tt) ;;
  let* f6 := flag addr 6 in
  (if f6 : bool then print_mmap addr else ret tt) ;;
  ret (Some start_addr).

(** ** The start *)

Definition boot_init (start_addr : Z) : K unit :=
  init_ldt ;;
  init_tss ;;
  idt_init ;;
  i8259_init ;;
  keyboard_init ;;
  paging_init ;;
  rtc_init ;;
  file_sys_init start_addr ;;
  init_fops_table ;;
  terminal_init ;;
  pit_init ;;
  sti.

(** [entry]; it idles for ever once everything runs: every program starts from
    an interrupt. *)
Definition entry (magic addr : Z) : K unit :=
  let* start_addr := report magic addr in
  match start_addr with
  | None => ret tt
  | Some start_addr => boot_init start_addr ;; unfinished
  end.

End boot.

(** * Specifications *)

(** A descriptor as the processor reads it. *)
Definition desc_base (l : list Z) : Z :=
  nth 2 l 0 + 2 ^ 8 * nth 3 l 0 + 2 ^ 16 * nth 4 l 0 + 2 ^ 24 * nth 7 l 0.
Definition desc_limit (l : list Z) : Z :=
  nth 0 l 0 + 2 ^ 8 * nth 1 l 0 + 2 ^ 16 * (nth 6 l 0 mod 16).

(** The areas of the GDT and the TSS [entry] fills. *)
Definition gdt_areas `{Env} : list (Z * Z) :=
  [(handler_addr "ldt_desc_ptr", 8); (handler_addr "tss_desc_ptr", 8); (handler_addr "tss" + 96, 2)].

(** The kernel as the boot loader leaves it, with the image of a file system of
    [inodes] inodes at [start]. *)
Record loaded_kernel `{Env} (s : kernel) (start inodes : Z) : Prop := {
  lk_tables : table_lengths (pgs s);
  lk_unpaged : paging_on (pgs s) = false;
  lk_idt : length (idt s) = 256%nat;
  lk_pics : pics s = initial_pic;
  lk_kb : kb s = kb initial_kernel;
  lk_terms : length (terminal (ttys s)) = 3%nat;
  lk_gdt : Forall (fun an => 0 <= fst an /\
    (forall i, 0 <= i < snd an -> is_Some (mem (mach s) !! (fst an + i))) /\
    (fst an + snd an <= inode_num_at start \/ inode_num_at start + 4 <= fst an)) gdt_areas;
  lk_image : 0x400000 <= inode_num_at start /\ inode_num_at start + 4 <= 0x800000 /\
    word_at s (inode_num_at start) inodes }.

(** The kernel that idles. *)
Record booted `{Env} (s : kernel) (start inodes : Z) (t : kernel) : Prop := {
  bt_tables : tables_ok (pgs t);
  bt_user : forall va, 0 <= va < 2 ^ 32 -> user_translate (pgs t) va = None;
  bt_masks : pic_ok t /\ forall j, 0 <= j < 16 -> masked t j = negb (bool_decide (j ∈ [0; 1; 2; 8]));
  bt_kb : kbd_ok (kb t);
  bt_terms : forall i T, aget (terminal (ttys t)) i = Some T -> term_pcb T = NULL;
  bt_fs : fsg t = Fsys start (u32 (start + 4096)) (u32 (u32 (start + 4096) + inodes * 4096))
    (directory_index (fsg s));
  bt_fops : stdin_fops (prc t) = stdin_table /\ stdout_fops (prc t) = stdout_table /\
    file_fops (prc t) = file_table /\ pid (prc t) = pid (prc s) /\ pcbs (prc t) = pcbs (prc s);
  bt_idt : length (idt t) = 256%nat /\ forall i d, aget (idt s) i = Some d ->
    aget (idt t) i = Some (match stub_of vector_stubs i with
      | Some h => set_offset (u32 (handler_addr h)) (init_gate i d) | None => init_gate i d end);
  bt_tss : tss t = Tss KERNEL_DS 0x800000;
  bt_irqs : iflag (mach t) = true }.

Section boot_lemmas.
Context `{Env}.

Lemma store_bytes_spec a l s :
  bytes l -> region s a (Z.of_nat (length l)) -> store_bytes a l s = Ret tt (put_bytes a l s).
Proof.
  revert a s. induction l as [|b l IH]; intros a s Hb Hr; [done|].
  inversion Hb as [|? ? Hb0 Hb']; subst. cbn [store_bytes put_bytes].
  pose proof Hr as [Hs _]. specialize (Hs 0 ltac:(simpl; lia)). rewrite Z.add_0_r in Hs.
  rewrite (bind_Ret _ _ _ _ _ (store8_set a b s Hs)), u8_small by done. apply IH; [done|].
  apply (region_put_bytes _ _ a [b]).
  apply (region_mono s a (Z.of_nat (length (b :: l))) 1); [done|lia|simpl; lia].
Qed.

(** [s] with other masks, driver variables and port accesses. *)
Definition devices (l : list io_event) (p : pic) (k : kbd) (s : kernel) : kernel :=
  on_mach (fun m => Machine (mem m) (iflag m) (ebp m) (esp m) l)
    (on_pics (fun _ => p) (on_kb (fun _ => k) s)).

(** [m] run in [s] touches the devices only, and leaves the masks [p]. *)
Definition drives {A} (m : K A) (p : pic) (s : kernel) : Prop :=
  exists l a, m s = Ret a (devices l p (kb s) s).

Lemma drives_bind {A B} (m : K A) (k : A -> K B) p q s :
  drives m p s -> (forall a t, pics t = p -> drives (k a) q t) -> drives (bind m k) q s.
Proof.
  intros (l & a & Hm) Hk. destruct (Hk a (devices l p (kb s) s) eq_refl) as (l' & b & Hb).
  exists l', b. by rewrite (bind_Ret _ _ _ _ _ Hm), Hb.
Qed.

Lemma drives_outb d p s : drives (outb d p) (pics s) s.
Proof. exists (Out (u8 d) p :: io (Machine.mach s)), tt. by destruct s as [[] ? ? ? ? ? ? ? ? ?]. Qed.

Lemma drives_inb p s : drives (inb p) (pics s) s.
Proof.
  exists (In p (u8 (port_in (io (Machine.mach s)) p)) :: io (Machine.mach s)), (u8 (port_in (io (Machine.mach s)) p)).
  by destruct s as [[] ? ? ? ? ? ? ? ? ?].
Qed.

Lemma drives_ret {A} (a : A) s : drives (ret a) (pics s) s.
Proof. exists (io (Machine.mach s)), a. by destruct s as [[] ? ? ? ? ? ? ? ? ?]. Qed.

(** [p] with line [i] open. *)
Definition open_line (i : Z) (p : pic) : pic :=
  if i <? 8 then Pic (u8 (Z.land (master_mask p) (Z.lnot (u8 (Z.shiftl 1 i))))) (slave_mask p)
  else Pic (master_mask p) (u8 (Z.land (slave_mask p) (Z.lnot (u8 (Z.shiftl 1 (i - 8)))))).

Lemma drives_irq i s : 0 <= i < 16 -> drives (enable_irq i) (open_line i (pics s)) s.
Proof.
  intros Hi. unfold enable_irq, open_line, MAX_PORTS, NUM_PORTS.
  rewrite (proj2 (Z.ltb_ge i 0)), (proj2 (Z.leb_gt 16 i)) by lia. cbn [orb].
  destruct (i <? 8); destruct s as [[] ? ? [] ? ? ? ? ? ?]; eexists (_ :: _), tt; reflexivity.
Qed.

Lemma drives_gets {A} (f : kernel -> A) s : drives (gets f) (pics s) s.
Proof. exact (drives_ret (f s) s). Qed.

Ltac drive_step := first [apply drives_outb | apply drives_inb | apply drives_gets | apply drives_ret].
Ltac drive := repeat lazymatch goal with
  | |- drives (bind _ _) _ _ => eapply drives_bind; [drive_step|intros ? ? <-]
  | |- _ => drive_step
  end.

Lemma rtc_open_drives f s : drives (rtc_open f) (pics s) s.
Proof. unfold rtc_open. drive. Qed.

Lemma enable_cursor_drives a b s : drives (enable_cursor a b) (pics s) s.
Proof. unfold enable_cursor. drive. Qed.

Lemma i8259_init_drives s : drives i8259_init (open_line 2 (pics s)) s.
Proof. unfold i8259_init. drive. by apply drives_irq. Qed.

Lemma rtc_init_drives s : drives rtc_init (open_line 8 (pics s)) s.
Proof.
  unfold rtc_init. drive. eapply drives_bind; [apply rtc_open_drives|intros ? ? <-]. by apply drives_irq.
Qed.

Lemma pit_init_drives s : drives pit_init (open_line 0 (pics s)) s.
Proof. unfold pit_init. drive. by apply drives_irq. Qed.

(** The driver's variables already hold what [keyboard_init] gives them. *)
Lemma keyboard_init_drives s :
  kb s = kb initial_kernel -> drives keyboard_init (open_line 1 (pics s)) s.
Proof.
  intros Hk.
  assert (Hrest : drives (enable_cursor CURSOR_START NUM_ROWS ;; enable_irq KEYBOARD_CONTROLLER_IRQ)
    (open_line 1 (pics s)) s).
  { eapply drives_bind; [apply enable_cursor_drives|intros ? ? <-]. by apply drives_irq. }
  assert (Hkb : forall f, f (kb initial_kernel) = kb initial_kernel ->
    modify (on_kb f) s = @Ret kernel transfer unit tt s).
  { intros f Hf. unfold modify, on_kb. rewrite Hk, Hf, <- Hk. by destruct s. }
  unfold keyboard_init. do 4 (unfold drives; erewrite (bind_Ret (modify _)); [|by apply Hkb]).
  assert (Hc : forall t, 0 <= t < 3 -> set_count t OFF s = Ret tt s).
  { intros t Ht. unfold set_count, bind at 1, gets. rewrite Hk.
    assert (t = 0 \/ t = 1 \/ t = 2) as [->|[->| ->]] by lia; by apply Hkb. }
  assert (Hf : forall t, 0 <= t < 3 -> set_readFlag t UNLOCK s = Ret tt s).
  { intros t Ht. unfold set_readFlag, bind at 1, gets. rewrite Hk.
    assert (t = 0 \/ t = 1 \/ t = 2) as [->|[->| ->]] by lia; by apply Hkb. }
  assert (Hu : forall t, 0 <= t < 3 -> set_cursor t CURSOR_START s = Ret tt s).
  { intros t Ht. unfold set_cursor, bind at 1, gets. rewrite Hk.
    assert (t = 0 \/ t = 1 \/ t = 2) as [->|[->| ->]] by lia; by apply Hkb. }
  do 3 (erewrite bind_Ret; [|by apply Hc]). do 3 (erewrite bind_Ret; [|by apply Hf]).
  do 3 (erewrite bind_Ret; [|by apply Hu]). exact Hrest.
Qed.

(** ** The segment descriptors *)

Lemma seg_bytes_ok d : bytes (seg_bytes d).
Proof. unfold bytes, seg_bytes. repeat (constructor; [apply u8_range|]). constructor. Qed.

(** The two blocks, and the memory the image of the file system is in. *)
Lemma init_gdt_spec s start inodes (k : K unit) (Q : unit -> kernel -> Prop) E :
  loaded_kernel s start inodes ->
  (forall t, tss t = Tss KERNEL_DS 0x800000 ->
     t = on_tss (fun _ => tss t) (set_mem (mem (mach t)) s) ->
     word_at t (inode_num_at start) inodes -> wp k Q E t) ->
  wp (init_ldt ;; init_tss ;; k) Q E s.
Proof.
  intros [_ Hun _ _ _ _ Hgdt (Hi1 & Hi2 & Hword)] HQ.
  inversion Hgdt as [|? ? (A1 & A2 & A3) Hgdt1]; subst.
  inversion Hgdt1 as [|? ? (B1 & B2 & B3) Hgdt2]; subst.
  inversion Hgdt2 as [|? ? (C1 & C2 & C3) _]; subst. cbn [fst snd] in *.
  assert (Hstore : forall a l u, pgs u = pgs s -> bytes l ->
    0 <= a -> region u a (Z.of_nat (length l)) ->
    (a + Z.of_nat (length l) <= inode_num_at start \/ inode_num_at start + 4 <= a) ->
    word_at u (inode_num_at start) inodes ->
    store_bytes a l u = Ret tt (put_bytes a l u) /\ pgs (put_bytes a l u) = pgs s /\
    word_at (put_bytes a l u) (inode_num_at start) inodes).
  { intros a l u Hp Hb Ha Hr Hap Hw. split; [by apply store_bytes_spec|].
    split; [by rewrite pgs_put_bytes|].
    eapply (word_frame u _ (pgs u) a (Z.of_nat (length l))); [done|by apply modifies_put_bytes| |done].
    intros i Hi. rewrite Hp. apply outside_unpaged; (done || lia). }
  assert (Hreg : forall a n, 0 <= a -> (forall i, 0 <= i < n -> is_Some (mem (mach s) !! (a + i))) -> region s a n).
  { intros a n Ha Hm. by apply region_unpaged. }
  unfold init_ldt, init_tss. set (l1 := seg_bytes (the_ldt_desc _ _)). set (l2 := seg_bytes (the_tss_desc _ _)).
  set (a1 := handler_addr "ldt_desc_ptr") in *. set (a2 := handler_addr "tss_desc_ptr") in *.
  set (a3 := handler_addr "tss" + 96) in *.
  destruct (Hstore a1 l1 s) as (S1 & P1 & W1); [done|apply seg_bytes_ok|done|by apply Hreg|done|done|].
  destruct (Hstore a2 l2 (put_bytes a1 l1 s)) as (S2 & P2 & W2);
    [done|apply seg_bytes_ok|done|by apply region_put_bytes, Hreg|done|done|].
  destruct (Hstore a3 [KERNEL_LDT; 0] (put_bytes a2 l2 (put_bytes a1 l1 s))) as (S3 & P3 & W3);
    [done|repeat constructor; unfold KERNEL_LDT; lia|done
    |by apply region_put_bytes, region_put_bytes, Hreg|done|done|].
  wp_step. wp_use S1. do 2 wp_step. wp_use S2. wp_step. wp_use S3. unfold set_tss. apply wp_modify.
  apply HQ; [done| |done].
  assert (Hmod : forall a l u, put_bytes a l u = set_mem (mem (mach (put_bytes a l u))) u).
  { intros a l u. by destruct (modifies_put_bytes u a (Z.of_nat (length l)) l ltac:(lia)) as [Hm _]. }
  set (u := put_bytes a3 _ _). assert (Hu : u = set_mem (mem (mach u)) s).
  { assert (Htr : forall u v w, v = set_mem (mem (mach v)) u -> w = set_mem (mem (mach w)) v ->
      w = set_mem (mem (mach w)) u) by (intros x v w Hv Hw; rewrite Hw at 1; by rewrite Hv).
    eapply Htr; [|apply Hmod]. eapply Htr; [apply Hmod|apply Hmod]. }
  rewrite Hu. done.
Qed.

(** A run of a driver inside a larger one. *)
Lemma wp_drives {A} (m : K A) p s Q E :
  drives m p s -> (forall l a, Q a (devices l p (kb s) s)) -> wp m Q E s.
Proof. intros (l & a & Hm) HQ. by wp_use Hm. Qed.

Lemma terminal_init_spec s E :
  length (terminal (ttys s)) = 3%nat ->
  wp terminal_init (fun _ t => t = on_ttys (fun _ => ttys t) s /\
    forall i T, aget (terminal (ttys t)) i = Some T -> term_pcb T = NULL) E s.
Proof.
  intros Hl. destruct s as [m g ts p r [l ct cs] k f q i]. cbn in Hl.
  destruct l as [|T0 [|T1 [|T2 [|]]]]; try done. unfold wp. cbn. split; [done|].
  intros j T HT. pose proof (aget_bound _ _ _ HT) as Hj. simpl in Hj.
  assert (j = 0 \/ j = 1 \/ j = 2) as [->|[->| ->]] by lia; by injection HT as <-.
Qed.

(** [file_sys_init] reads the number of inodes from the boot block. *)
Lemma file_sys_init_spec s start inodes E :
  word_at s (inode_num_at start) inodes ->
  wp (file_sys_init start) (fun _ t => t = on_fsg (fun f => Fsys start (u32 (start + 4096))
    (u32 (u32 (start + 4096) + inodes * 4096)) (directory_index f)) s) E s.
Proof.
  intros Hw. unfold file_sys_init. do 4 wp_step. wp_step.
  eapply wp_of_Ret; [apply load32_word; exact Hw|]. do 2 wp_step. by apply wp_modify.
Qed.

(** Kernel memory reads the same once paging is on. *)
Lemma word_paged s p a v :
  table_linked -> paging_on (pgs s) = false -> tables_ok p -> 0x400000 <= a -> a + 4 <= 0x800000 ->
  word_at s a v -> word_at (on_pgs (fun _ => p) s) a v.
Proof.
  intros Hl Hun Hok Ha He (b0 & b1 & b2 & b3 & Hb & ->). exists b0, b1, b2, b3. split; [|done].
  eapply bytes_at_frame; [exact Hb|]. intros i Hi. unfold mem_get.
  rewrite (kmem_cell (on_pgs (fun _ => p) s)) by (done || (simpl in Hi; lia)).
  by rewrite cell_unpaged by (done || (simpl in Hi; lia)).
Qed.

Lemma boot_masks : forall j, 0 <= j < 16 ->
  masked (on_pics (fun _ => open_line 0 (open_line 8 (open_line 1 (open_line 2 initial_pic)))) initial_kernel) j
    = negb (bool_decide (j ∈ [0; 1; 2; 8])).
Proof.
  intros j Hj. pose proof (byte_cases (fun j => if j <? 16 then Bool.eqb
    (masked (on_pics (fun _ => open_line 0 (open_line 8 (open_line 1 (open_line 2 initial_pic)))) initial_kernel) j)
    (negb (bool_decide (j ∈ [0; 1; 2; 8]))) else true) ltac:(by vm_compute) j ltac:(lia)) as Hb.
  cbn beta in Hb. rewrite (proj2 (Z.ltb_lt j 16)) in Hb by lia. by apply Bool.eqb_prop.
Qed.

Lemma boot_init_spec s start inodes E :
  table_linked -> loaded_kernel s start inodes ->
  wp (boot_init start) (fun _ t => booted s start inodes t) E s.
Proof.
  intros Hlink Hld. pose proof Hld as [Hlen Hun Hidt Hpics Hkb Hterm _ (Hi1 & Hi2 & _)].
  unfold boot_init. apply (init_gdt_spec s start inodes); [done|]. intros s1 Htss H1 Hword.
  assert (F1 : pgs s1 = pgs s /\ idt s1 = idt s /\ pics s1 = pics s /\ kb s1 = kb s /\ ttys s1 = ttys s /\
    prc s1 = prc s /\ fsg s1 = fsg s) by by rewrite H1.
  destruct F1 as (F1 & F2 & F3 & F4 & F5 & F6 & F7). clear H1.
  wp_step. eapply wp_mono; [apply (idt_init_spec s1 (fun _ _ => False)); by rewrite F2| |done].
  intros [] s2 (H2 & Hidtl & Hgates). rewrite F2 in Hgates.
  assert (Hw2 : word_at s2 (inode_num_at start) inodes) by (rewrite H2; exact Hword).
  assert (Hk2 : kb s2 = kb s /\ pics s2 = initial_pic /\ pgs s2 = pgs s /\ ttys s2 = ttys s /\ prc s2 = prc s /\
    fsg s2 = fsg s /\ tss s2 = tss s1) by (split_and!; rewrite H2; cbn; congruence).
  destruct Hk2 as (G1 & G2 & G3 & G4 & G5 & G6 & G7). clear H2.
  wp_step. eapply wp_drives; [apply i8259_init_drives|intros l3 []]. rewrite G2.
  wp_step. eapply wp_drives; [apply keyboard_init_drives; exact (eq_trans G1 Hkb)|intros l4 []].
  set (s4 := devices _ _ _ _). assert (Hg4 : pgs s4 = pgs s) by exact G3.
  wp_step. eapply wp_mono; [apply (paging_init_spec s4 (fun _ _ => False)); [done|by rewrite Hg4]| |done].
  intros [] s5 (Hok & H5 & H32 & H34 & _). unfold only_tables in H5. set (p := pgs s5) in *. clearbody p. subst s5.
  assert (Hw4 : word_at (on_pgs (fun _ => p) s4) (inode_num_at start) inodes).
  { apply word_paged; try done. by rewrite Hg4. }
  wp_step. eapply wp_drives; [apply rtc_init_drives|intros l5 []].
  wp_step. eapply wp_mono; [eapply (file_sys_init_spec _ start inodes (fun _ _ => False)); exact Hw4| |done].
  intros [] s6 ->. unfold init_fops_table. do 11 wp_step.
  eapply wp_mono; [apply (terminal_init_spec _ (fun _ _ => False)); cbn; by rewrite G4| |done].
  intros [] s7 (H7 & Hterms). set (ts := ttys s7) in *. clearbody ts. subst s7.
  wp_step. eapply wp_drives; [apply pit_init_drives|intros l6 []]. unfold sti. apply wp_modify.
  constructor.
  - exact Hok.
  - intros va Hva. destruct (user_translate p va) as [pa|] eqn:Hu; [exfalso|exact Hu].
    pose proof (table_addr_range Hlink).
    destruct (user_directory p va Hlink Hok Hva) as [[_ (k & ? & E1)]|[_ E1]];
      [by exists pa|rewrite H32 in E1; injection E1; lia|rewrite H34 in E1; injection E1; lia].
  - split; [by split|]. intros j Hj. exact (boot_masks j Hj).
  - change (kbd_ok (kb s2)). rewrite G1, Hkb. apply initial_kbd_ok.
  - exact Hterms.
  - rewrite <- G6. reflexivity.
  - rewrite <- G5. done.
  - split; [exact Hidtl|]. exact Hgates.
  - change (tss s2 = Tss KERNEL_DS 0x800000). by rewrite G7.
  - reflexivity.
Qed.

(** ** Properties *)

(** C8: coming up.  From the state the boot loader leaves, the initialisation of
    [entry] runs to its end and establishes what every other part relies on: the
    invariant of the page tables with nothing open to user programs, the four
    device lines and no other unmasked, the keyboard driver's variables in
    range, no program on any terminal, the file system's addresses, the
    operation tables, the descriptor table, the kernel's stack and interrupts
    on. *)
Theorem boot_init_ready s start inodes :
  table_linked -> loaded_kernel s start inodes ->
  exists t, boot_init start s = Ret tt t /\ booted s start inodes t.
Proof.
  intros Hlink Hld. pose proof (boot_init_spec s start inodes (fun _ _ => False) Hlink Hld) as Hw.
  apply wp_Ret in Hw as ([] & t & Hrun & Ht). by exists t.
Qed.

(** Segment descriptors.  The base address and the limit the processor reads
    from a packed descriptor are the ones [SET_LDT_PARAMS] was given, whatever
    the other fields hold. *)
Theorem segment_roundtrip d addr lim :
  0 <= lim < 2 ^ 20 ->
  desc_base (seg_bytes (SET_LDT_PARAMS addr lim d)) = u32 addr /\
  desc_limit (seg_bytes (SET_LDT_PARAMS addr lim d)) = lim.
Proof.
  intros Hlim. pose proof (u32_range addr) as Ha. set (a := u32 addr) in *.
  assert (Hbits : forall x m n, 0 <= m -> 0 <= n -> Z.shiftr (Z.land x (Z.shiftl (Z.ones m) n)) n = x / 2 ^ n mod 2 ^ m).
  { intros x m n Hm Hn. rewrite Z.shiftr_land, Z.shiftr_shiftl_l, Z.sub_diag, Z.shiftl_0_r by lia.
    by rewrite Z.land_ones, Z.shiftr_div_pow2 by lia. }
  unfold desc_base, desc_limit, seg_bytes, SET_LDT_PARAMS. cbn [nth base_15_00 base_23_16 base_31_24 seg_lim_15_00
    seg_lim_19_16 avail reserved opsize granularity]. fold a.
  change 0xFF000000 with (Z.shiftl (Z.ones 8) 24). change 0x00FF0000 with (Z.shiftl (Z.ones 8) 16).
  change 0x000F0000 with (Z.shiftl (Z.ones 4) 16). change 0x0000FFFF with (Z.ones 16). change 0xF with (Z.ones 4).
  rewrite !Hbits, !Z.land_ones, !Z.shiftr_div_pow2 by lia. unfold u8, u16. split.
  - change (2 ^ 8) with 256. change (2 ^ 16) with 65536. change (2 ^ 24) with 16777216. change (2 ^ 32) with 4294967296 in *.
    clearbody a. clear -Ha. Z.div_mod_to_equations. lia.
  - change (2 ^ 8) with 256. change (2 ^ 16) with 65536. change (2 ^ 4) with 16. change (2 ^ 20) with 1048576 in *.
    generalize (avail d), (reserved d), (opsize d), (granularity d). clear -Hlim. intros x y z w.
    Z.div_mod_to_equations. lia.
Qed.

End boot_lemmas.

(** * Closed examples *)

(** Symbols in a page of their own, the image of a file system at 5 MB. *)
Definition linked_env : Env := {|
  port_in := fun _ _ => 0; page_table_video_addr := 0x40F000;
  handler_addr := fun n => if (n =? "ldt_desc_ptr")%string then 0x401038 else
    if (n =? "tss_desc_ptr")%string then 0x401030 else 0x402000;
  garbage := fun _ => 0 |}.

Definition demo_loaded : kernel := set_mem (ram 0x400000 0x400000) initial_kernel.

Lemma demo_loaded_kernel : let H := linked_env in loaded_kernel demo_loaded 0x500000 0.
Proof.
  intros H. assert (Hm : forall va, 0x400000 <= va < 0x800000 -> mem (mach demo_loaded) !! va = Some 0).
  { intros va Hva. unfold demo_loaded. rewrite mem_set_mem. apply ram_lookup. lia. }
  constructor.
  - split; [|split]; apply length_replicate.
  - reflexivity.
  - reflexivity.
  - reflexivity.
  - apply kb_set_mem.
  - reflexivity.
  - change gdt_areas with [(0x401038, 8); (0x401030, 8); (0x402060, 2)].
    repeat constructor; cbn [fst snd]; try (unfold inode_num_at; lia);
      intros i Hi; rewrite Hm by lia; by eexists.
  - unfold inode_num_at. split; [lia|]. split; [lia|]. exists 0, 0, 0, 0. split; [|reflexivity].
    intros i b Hi. pose proof (lookup_lt_Some _ _ _ Hi) as Hl. simpl in Hl. unfold mem_get.
    rewrite cell_unpaged by (reflexivity || lia). rewrite Hm by lia.
    destruct i as [|[|[|[|]]]]; try (by injection Hi as <-). lia.
Qed.

Lemma boot_init_ready_witness :
  let H := linked_env in
  exists t, boot_init 0x500000 demo_loaded = Ret tt t /\ masked t 0 = false /\ masked t 3 = true /\
    iflag (mach t) = true.
Proof.
  intros H. destruct (boot_init_ready demo_loaded 0x500000 0) as (t & Hrun & Hb).
  - exists 0x40F. split; [reflexivity|lia].
  - apply demo_loaded_kernel.
  - exists t. split; [exact Hrun|]. destruct (bt_masks _ _ _ _ Hb) as [_ Hm].
    split; [rewrite Hm by lia; reflexivity|]. split; [rewrite Hm by lia; reflexivity|].
    apply (bt_irqs _ _ _ _ Hb).
Defined.

Lemma segment_roundtrip_witness :
  desc_base (seg_bytes (the_tss_desc 0x402000 103)) = 0x402000 /\
  desc_limit (seg_bytes (the_tss_desc 0x402000 103)) = 103.
Proof.
  apply (segment_roundtrip (SegDesc (Z.land TSS_SIZE 0x0000FFFF) 0 0 9 0 0 1
    (Z.land (Z.land TSS_SIZE 0x000F0000) 0xF) 0 0 0 0 0) 0x402000 103). lia.
Defined.
