(* ===== verification/Tests.v ===== *)
(** The kernel's own tests, [src/student-distrib/tests.c], and their verdicts. *)
From stdpp Require Import base numbers list gmap strings.
From Stdlib Require Import ZArith Lia.
From S2P Require Import Prelude Machine Strings Rtc Console Printf Paging Terminal.

Definition PASS : Z := 1.
Definition FAIL : Z := 0.

(** Addresses of the automatic variables. *)
Definition TERMINAL_INPUT : Z := -16384.
Definition FREQUENCY : Z := -16388.

Section tests.
(** [__FILE__]; the processor's response to [int n] and to an exception; the
    addresses of the literals ["1"] and ["\n"]. *)
Context `{Env} (file : cptr) (interrupt : Z -> K unit) (one newline : Z).

Definition TEST_HEADER (name : string) (line : Z) : K unit :=
  printf (Lit (bytes_of "[TEST %s] Running %s at %s:%d" ++ [10; 0]))
    [PStr (cstr name); PStr (cstr name); PStr file; PInt line] ;; ret tt.

Definition TEST_OUTPUT (name : string) (result : Z) : K unit :=
  printf (Lit (bytes_of "[TEST %s] Result = %s" ++ [10; 0]))
    [PStr (cstr name); PStr (if negb (result =? 0) then cstr "PASS" else cstr "FAIL")] ;; ret tt.

Definition assertion_failure : K unit := interrupt 15.

Definition idt_test : K Z :=
  TEST_HEADER "idt_test" 37 ;;
  loop (fun st : Z * Z =>
    let '(i, result) := st in
    if i <? 10 then
      let* t := gets idt in
      let* d := get_or_fault i (aget t i) in
      if (offset_15_00 d =? 0) && (offset_31_16 d =? 0) then
        assertion_failure ;; ret (inl (i + 1, FAIL))
      else ret (inl (i + 1, result))
    else ret (inr result)) (0, PASS).

(** [b / a]; a zero divisor is exception 0. *)
Definition quotient (b a : Z) : K Z := if a =? 0 then interrupt 0 ;; ret 0 else ret (Z.quot b a).

Definition div_zero_test : K Z :=
  TEST_HEADER "div_zero_test" 62 ;;
  quotient 1 0 ;;
  ret PASS.

Definition dereference_null_test : K Z :=
  TEST_HEADER "dereference_null_test" 86 ;;
  load32 0 ;;
  ret PASS.

Definition dereference_invalid_pointer_test : K Z :=
  TEST_HEADER "dereference_invalid_pointer_test" 103 ;;
  load32 0x33333333 ;;
  ret PASS.

Definition dereference_vid_mem_test : K Z :=
  TEST_HEADER "dereference_vid_mem_test" 121 ;;
  load32 0xB8000 ;;
  ret PASS.

Definition dereference_kernel : K Z :=
  TEST_HEADER "dereference_kernel" 138 ;;
  load32 0x00400000 ;;
  ret PASS.

Definition terminal_write_test : K Z :=
  TEST_HEADER "terminal_write_test" 157 ;;
  alloc_local TERMINAL_INPUT 128 ;;
  strcpy TERMINAL_INPUT (Lit (bytes_of "asdf" ++ [10; 0])) ;;
  terminal_write 0 TERMINAL_INPUT 5 ;;
  ret PASS.

Definition terminal_write_garbage_test : K Z :=
  TEST_HEADER "terminal_write_garbage_test" 173 ;;
  alloc_local TERMINAL_INPUT 128 ;;
  strcpy TERMINAL_INPUT (cstr "asdf") ;;
  terminal_write 0 TERMINAL_INPUT 8 ;;
  ret PASS.

(** [irqs i] arrive while the [i]-th line is read; the loop has no end. *)
Definition terminal_read_test (irqs : Z -> list (K unit)) : K Z :=
  TEST_HEADER "terminal_read_test" 189 ;;
  loop (fun i : Z =>
    alloc_local TERMINAL_INPUT 128 ;;
    let* n := terminal_read (irqs i) 0 TERMINAL_INPUT 128 in
    terminal_write 0 TERMINAL_INPUT n ;;
    ret (inl (i + 1))) 0.

(** [n] waits from the [i]-th on, a one after each. *)
Definition ticks (irqs : Z -> list (K unit)) (i n : Z) : K unit :=
  for_up (Z.to_nat n) i (fun j =>
    rtc_read (irqs j) 0 0 0 ;;
    terminal_write 0 one 1 ;; ret tt).

Definition rtc_driver_test (irqs : Z -> list (K unit)) : K Z :=
  TEST_HEADER "rtc_driver_test" 206 ;;
  alloc_local FREQUENCY 4 ;;
  store32 FREQUENCY 2 ;;
  let* waits := loop (fun i =>
    let* frequency := load32 FREQUENCY in
    if frequency <=? 1024 then
      rtc_write 0 FREQUENCY 4 ;;
      ticks irqs i 5 ;;
      let* frequency := load32 FREQUENCY in
      store32 FREQUENCY (u32 (frequency + 1)) ;;
      ret (inl (i + 5))
    else ret (inr i)) 0 in
  rtc_open (Addr 0) ;;
  ticks irqs waits 20 ;;
  terminal_write 0 newline 1 ;;
  rtc_close 0 ;;
  ret PASS.

(** Every call is commented out. *)
Definition launch_tests : K unit := ret tt.

(** * Verdicts *)

Context (fname : list Z).

(** The header's line. *)
Definition header (name : string) (line : Z) : list Z :=
  default [] (format_text None (bytes_of "[TEST %s] Running %s at %s:%d" ++ [10])
    [FStr (bytes_of name); FStr (bytes_of name); FStr fname; FInt line]).

Definition backed (s : kernel) (a : Z) : Prop := forall i, 0 <= i < 4 -> is_Some (mem_get s (a + i)).

Record testable (s : kernel) (v : screen) : Prop := {
  ts_linked : table_linked;
  ts_tables : tables_ok (pgs s);
  ts_closed : aget (page_table_video (pgs s)) 0 = Some 0;
  ts_shows : running_shows s v;
  ts_file : constant s file fname;
  ts_video : backed s 0xB8000;
  ts_kernel : backed s 0x400000;
  ts_gates : forall i, 0 <= i < 10 -> exists g, aget (idt s) i = Some g /\
    ~ (offset_15_00 g = 0 /\ offset_31_16 g = 0) }.

Definition name_ok (name : string) : Prop :=
  bytes (bytes_of name) /\ Forall (fun c => c <> 0) (bytes_of name) /\ Z.of_nat (length (bytes_of name)) < 2 ^ 32.

Lemma cstr_constant s name : name_ok name -> constant s (cstr name) (bytes_of name).
Proof. intros (Hb & Hn & Hl). constructor; try done. apply reads_Lit. Qed.

Lemma header_rule s v name line (Q : unit -> kernel -> Prop) E :
  testable s v -> name_ok name -> 0 <= line < 2 ^ 32 ->
  (forall t, running_shows t (put_text (header name line) v) -> scratched s t -> Q tt t) ->
  wp (TEST_HEADER name line) Q E s.
Proof.
  intros Hs Hname Hline HQ. unfold TEST_HEADER. wp_step.
  eapply wp_mono; [eapply (printf_spec s v _ (bytes_of "[TEST %s] Running %s at %s:%d" ++ [10]) _
    [FStr (bytes_of name); FStr (bytes_of name); FStr fname; FInt line] (header name line))| |done].
  - apply Hs.
  - constructor; [apply reads_Lit|split; repeat constructor; done|done..].
  - apply Forall2_cons. split; [by apply cstr_constant|]. apply Forall2_cons. split; [by apply cstr_constant|].
    apply Forall2_cons. split; [apply Hs|]. apply Forall2_cons. split; [|done]. symmetry. by apply u32_small.
  - unfold header. reflexivity.
  - intros r t (_ & Ht & Hsc). apply wp_ret. by apply HQ.
Qed.

(** A byte that was there is there after the header was printed. *)
Lemma backed_kept s t v v' a :
  running_shows t v' -> scratched s t -> running_shows s v -> 0 <= a -> is_Some (mem_get s a) -> is_Some (mem_get t a).
Proof.
  intros Ht Hsc _ Ha Hs. destruct (page_of_scratched _ _ Hsc) as [Hp Hpg].
  destruct (decide (Forall (fun i => cell (pgs s) (page_of s + i) <> cell (pgs s) a) (seqZ 0 4000))) as [Hout|Hin].
  - rewrite (scratched_get s t a Hsc Ha); [done|]. intros i Hi. rewrite Forall_forall in Hout. apply Hout.
    apply elem_of_seqZ. lia.
  - apply not_Forall_Exists in Hin; [|intros i; apply _]. apply Exists_exists in Hin as (i & Hi & Hc).
    apply elem_of_seqZ in Hi. apply dec_stable in Hc. destruct Ht as [_ ((_ & _ & [Hr _] & _) & _)].
    destruct (Hr i ltac:(lia)) as [b Hb]. rewrite Hp in Hb. exists b. unfold mem_get in *. by rewrite Hpg, <- Hc, <- Hpg.
Qed.

Lemma load32_backed t a : (forall i, 0 <= i < 4 -> is_Some (mem_get t (a + i))) -> exists w, load32 a t = Ret w t.
Proof.
  intros Hb. destruct (Hb 0) as [b0 H0'], (Hb 1) as [b1 H1'], (Hb 2) as [b2 H2'], (Hb 3) as [b3 H3']; try lia.
  eexists. apply (load32_spec t a b0 b1 b2 b3). intros i b Hi.
  destruct i as [|[|[|[|i]]]]; [..|done]; injection Hi as <-; done.
Qed.

Lemma load32_fault t a : mem_get t a = None -> load32 a t = Fault a t.
Proof. intros Hn. unfold load32. apply bind_Fault. unfold load8, bind, gets. cbn. by rewrite Hn. Qed.

(** A test that reads one word. *)
Definition reads_word (name : string) (line a : Z) : K Z := TEST_HEADER name line ;; load32 a ;; ret PASS.

Lemma reads_word_passes s v name line a :
  testable s v -> name_ok name -> 0 <= line < 2 ^ 32 -> 0 <= a -> backed s a ->
  exists t, reads_word name line a s = Ret PASS t /\ running_shows t (put_text (header name line) v).
Proof.
  intros Hs Hn Hl Ha Hb.
  assert (Hw : wp (reads_word name line a) (fun r t => r = PASS /\ running_shows t (put_text (header name line) v))
    (fun _ _ => False) s).
  { unfold reads_word. wp_step. eapply header_rule; [exact Hs|done|done|]. intros t Ht Hsc.
    destruct (load32_backed t a) as [w Hw].
    { intros i Hi. eapply backed_kept; [exact Ht|exact Hsc|apply Hs|lia|by apply Hb]. }
    wp_step. wp_use Hw. by apply wp_ret. }
  apply wp_Ret in Hw as (r & t & Hrun & -> & Ht). by exists t.
Qed.

Lemma reads_word_faults s v name line a :
  testable s v -> name_ok name -> 0 <= line < 2 ^ 32 -> 0 <= a -> translate (pgs s) a = None ->
  exists t, reads_word name line a s = Fault a t /\ running_shows t (put_text (header name line) v).
Proof.
  intros Hs Hn Hl Ha Htr.
  assert (Hw : wp (TEST_HEADER name line) (fun _ t => running_shows t (put_text (header name line) v) /\ scratched s t)
    (fun _ _ => False) s) by (eapply header_rule; [exact Hs|done|done|]; by intros t).
  apply wp_Ret in Hw as (r & t & Hrun & Ht & Hsc). exists t. split; [|done]. unfold reads_word.
  rewrite (bind_Ret _ _ _ _ _ Hrun). apply bind_Fault, load32_fault. unfold mem_get, cell.
  destruct (page_of_scratched _ _ Hsc) as [_ ->]. by rewrite (proj2 (Z.ltb_ge a 0)), Htr by lia.
Qed.

(** With the window closed neither pointer is mapped. *)
Lemma null_unmapped p :
  table_linked -> tables_ok p -> aget (page_table_video p) 0 = Some 0 -> translate p 0 = None.
Proof.
  intros Hl Hok Hclosed. rewrite (translate_table p 0 3 Hl (t_on _ Hok)); [|lia|done|apply Hok].
  unfold pt_frame. change (0 mod MB4 / KB4) with 0. by rewrite Hclosed.
Qed.

Lemma invalid_unmapped p : tables_ok p -> translate p 0x33333333 = None.
Proof.
  intros Hok. unfold translate. rewrite (t_on _ Hok). cbn [negb]. change (0x33333333 / MB4) with 204.
  by rewrite (t_pd_rest _ Hok 204) by lia.
Qed.

Lemma names_ok name :
  forallb (fun c => (0 <? c) && (c <? 256)) (bytes_of name) && (Z.of_nat (length (bytes_of name)) <? 2 ^ 32) = true ->
  name_ok name.
Proof.
  rewrite andb_true_iff. intros [Hall Hlen]. rewrite forallb_forall in Hall. split_and!; [..|by apply Z.ltb_lt];
    apply Forall_forall; intros c Hc%list_elem_of_In%Hall; unbool; lia.
Qed.

Lemma idt_test_passes s v :
  testable s v -> exists t, idt_test s = Ret PASS t /\ running_shows t (put_text (header "idt_test" 37) v).
Proof.
  intros Hs.
  assert (Hw : wp idt_test (fun r t => r = PASS /\ running_shows t (put_text (header "idt_test" 37) v))
    (fun _ _ => False) s).
  { unfold idt_test. wp_step. eapply header_rule; [exact Hs|by apply names_ok|lia|]. intros t Ht Hsc.
    assert (Hidt : idt t = idt s).
    { destruct Hsc as (u & [-> _] & [Hsb _]). by rewrite (sb_idt _ _ _ Hsb). }
    apply wp_loop with (I := fun st u => 0 <= fst st <= 10 /\ snd st = PASS /\ u = t) (mu := fun st _ => 10 - fst st);
      [done|unfold loop_fuel; cbn; lia|].
    intros [i result] u (Hi & Hr & ->). cbn [fst snd] in *. subst result. split; [lia|]. wp_step.
    - unbool. wp_step. wp_step. destruct (ts_gates _ _ Hs i ltac:(lia)) as (g & Hg & Hne). rewrite Hidt.
      wp_step. eapply wp_get_or_fault; [exact Hg|]. cbn beta.
      destruct ((offset_15_00 g =? 0) && (offset_31_16 g =? 0)) eqn:Hz; [unbool; exfalso; by apply Hne|].
      apply wp_ret. cbn [fst snd]. split_and!; (done || lia).
    - by apply wp_ret. }
  apply wp_Ret in Hw as (r & t & Hrun & -> & Ht). by exists t.
Qed.

Lemma terminal_write_test_passes s v :
  testable s v -> exists t, terminal_write_test s = Ret PASS t /\
    running_shows t (put_text (header "terminal_write_test" 157 ++ bytes_of "asdf" ++ [10]) v).
Proof.
  intros Hs. set (w := bytes_of "asdf" ++ [10]).
  assert (Hw : wp terminal_write_test (fun r t => r = PASS /\
      running_shows t (put_text (header "terminal_write_test" 157 ++ w) v)) (fun _ _ => False) s).
  { unfold terminal_write_test. wp_step. eapply header_rule; [exact Hs|by apply names_ok|lia|].
    intros t Ht Hsc. destruct (alloc_local_spec t TERMINAL_INPUT 128) as (t1 & R1 & M1 & G1); [unfold TERMINAL_INPUT; lia|].
    wp_step. wp_use R1. assert (Hreg : region t1 TERMINAL_INPUT (Z.of_nat (length w) + 1)).
    { destruct G1 as [G1 G2]. cbn. split; [intros i Hi; apply G1; lia|intros i j Hi Hj; apply G2; lia]. }
    assert (Hbw : bytes w) by (repeat constructor; done).
    wp_step. wp_use (strcpy_spec t1 TERMINAL_INPUT (Lit (w ++ [0])) (w ++ [0]) w (reads_Lit _ _) eq_refl Hbw Hreg I ltac:(done)).
    pose proof (shows_local _ _ _ _ _ Ht M1 ltac:(done)) as Hs1.
    pose proof (modifies_put_bytes t1 TERMINAL_INPUT 6 (w ++ [0]) ltac:(done)) as M2.
    pose proof (shows_local _ _ _ _ _ Hs1 M2 ltac:(done)) as Hs2.
    wp_step. eapply wp_mono; [apply (terminal_write_spec _ 0 TERMINAL_INPUT w _ (fun _ _ => False) Hs2)| |done]; try done.
    - intros i b Hi. apply (bytes_at_put_bytes TERMINAL_INPUT (w ++ [0]) t1); [exact Hreg|]. by apply lookup_app_l_Some.
    - intros i Hi j Hj. pose proof (page_nonneg _ _ Hs2) as Hp. cbn in Hi. intros Heq. symmetry in Heq. revert Heq.
      apply (outside_local _ TERMINAL_INPUT 6); [lia|done|lia].
    - intros n u (_ & Hu & _). apply wp_ret. split; [done|]. by rewrite put_text_app. }
  apply wp_Ret in Hw as (r & t & Hrun & -> & Ht). by exists t.
Qed.

Lemma word_tests :
  dereference_vid_mem_test = reads_word "dereference_vid_mem_test" 121 0xB8000 /\
  dereference_kernel = reads_word "dereference_kernel" 138 0x400000 /\
  dereference_null_test = reads_word "dereference_null_test" 86 0 /\
  dereference_invalid_pointer_test = reads_word "dereference_invalid_pointer_test" 103 0x33333333.
Proof.
  unfold dereference_vid_mem_test, dereference_kernel, dereference_null_test, dereference_invalid_pointer_test,
    reads_word.
  exact (conj eq_refl (conj eq_refl (conj eq_refl eq_refl))).
Qed.

(** ** Property *)

(** C33: the verdicts of the kernel's tests.  On a kernel with the page tables of
    boot and its window closed, a running program's screen and ten gates that
    are set, the tests do what their comments expect: [idt_test],
    [dereference_vid_mem_test], [dereference_kernel] and [terminal_write_test]
    return [PASS] after their header - and [asdf] - is on the screen, and the
    tests that read through the null pointer and through an invalid one end in a
    page fault at that address. *)
Theorem kernel_tests_verdicts s v :
  testable s v ->
  (exists t, idt_test s = Ret PASS t /\ running_shows t (put_text (header "idt_test" 37) v)) /\
  (exists t, dereference_vid_mem_test s = Ret PASS t /\
     running_shows t (put_text (header "dereference_vid_mem_test" 121) v)) /\
  (exists t, dereference_kernel s = Ret PASS t /\ running_shows t (put_text (header "dereference_kernel" 138) v)) /\
  (exists t, terminal_write_test s = Ret PASS t /\
     running_shows t (put_text (header "terminal_write_test" 157 ++ bytes_of "asdf" ++ [10]) v)) /\
  (exists t, dereference_null_test s = Fault 0 t /\
     running_shows t (put_text (header "dereference_null_test" 86) v)) /\
  (exists t, dereference_invalid_pointer_test s = Fault 0x33333333 t /\
     running_shows t (put_text (header "dereference_invalid_pointer_test" 103) v)).
Proof.
  intros Hs. destruct word_tests as (-> & -> & -> & ->).
  split; [by apply idt_test_passes|].
  split; [apply (reads_word_passes s v _ _ _ Hs); [by apply names_ok|lia|lia|apply (ts_video _ _ Hs)]|].
  split; [apply (reads_word_passes s v _ _ _ Hs); [by apply names_ok|lia|lia|apply (ts_kernel _ _ Hs)]|].
  split; [by apply terminal_write_test_passes|].
  split; (apply (reads_word_faults s v _ _ _ Hs); [by apply names_ok|lia|lia|]).
  - apply null_unmapped; [apply (ts_linked _ _ Hs)|apply (ts_tables _ _ Hs)|apply (ts_closed _ _ Hs)].
  - apply invalid_unmapped, (ts_tables _ _ Hs).
Qed.
End tests.

(** * A closed example: the tests of a kernel with ten gates and four mapped pages *)

Definition demo_gate : idt_desc := IdtDesc 0x1000 0x10 0 0 1 1 1 0 0 1 0x40.

(** The tables with the window closed. *)
Definition demo_closed : paging := {|
  page_directory := page_directory demo_tables;
  page_table_video := table_of [(0xB8%nat, 0xB8003); (0xB9%nat, 0xB9003); (0xBA%nat, 0xBA003); (0xBB%nat, 0xBB003)];
  page_vid_mem := replicate 1024 0; paging_on := true |}.

Lemma demo_closed_ok : let H := quiet_env in tables_ok demo_closed.
Proof.
  intros H. destruct demo_tables_ok. constructor; try done.
  - exists 0. split; [done|by left].
  - intros i Hi. assert (i = 0xB8 \/ i = 0xB9 \/ i = 0xBA \/ i = 0xBB) as Hc by lia.
    by destruct Hc as [->|[->|[->| ->]]].
  - intros i Hi Hn. apply table_of_rest; [lia|]. repeat constructor; simpl; lia.
Qed.

Definition demo_tests : kernel :=
  set_idt (replicate 10 demo_gate)
    (set_terminal (replicate 3 zero_term)
      (on_pgs (fun _ => demo_closed)
        (set_mem (ram_of demo_text VIDEO 0x4000 ∪ ram 0x400000 16) initial_kernel))).

Lemma demo_testable :
  let H := quiet_env in exists g, testable (cstr "tests.c") (bytes_of "tests.c") demo_tests (Screen g 0 0).
Proof.
  intros H.
  assert (Hmem : forall i, 0 <= i < 0x4000 -> mem_get demo_tests (VIDEO + i) = Some (demo_text (VIDEO + i))).
  { intros i Hi. unfold mem_get.
    rewrite (cell_video demo_tests) by (apply demo_table_linked || apply demo_closed_ok || lia).
    change (mem (mach demo_tests)) with (ram_of demo_text VIDEO 0x4000 ∪ ram 0x400000 16).
    apply lookup_union_Some_l, ram_of_lookup. lia. }
  assert (Hv : video_ready demo_tests).
  { split; [apply demo_closed_ok|]. intros i Hi. exists (demo_text (VIDEO + i)). split; [by apply Hmem|].
    unfold demo_text. pose proof (Z.mod_pos_bound (VIDEO + i) 251 ltac:(lia)). lia. }
  destruct (video_grid demo_tests demo_table_linked Hv) as [g Hg]. exists g. constructor.
  - apply demo_table_linked.
  - apply demo_closed_ok.
  - reflexivity.
  - split; [cbn; lia|]. change (page_of demo_tests) with video_mem. split; [exact Hg|]. split.
    + split; [apply Hg|]. unfold cursor_pos. cbn. lia.
    + by eexists.
  - constructor; [apply reads_Lit|split; repeat constructor; done|done..].
  - intros i Hi. change (0xB8000 + i) with (VIDEO + i). rewrite Hmem by lia. by eexists.
  - intros i Hi. exists 0. unfold mem_get, cell. rewrite (proj2 (Z.ltb_ge _ 0)) by lia.
    rewrite kernel_identity by (apply demo_table_linked || apply demo_closed_ok || lia).
    change (mem (mach demo_tests)) with (ram_of demo_text VIDEO 0x4000 ∪ ram 0x400000 16).
    rewrite lookup_union_r by (apply ram_of_lookup_None; unfold VIDEO; lia). apply ram_lookup. lia.
  - intros i Hi. exists demo_gate. split; [|cbn; lia]. unfold aget.
    change (idt demo_tests) with (replicate 10 demo_gate). rewrite length_replicate.
    rewrite (proj2 (Z.leb_le 0 i)), (proj2 (Z.ltb_lt i _)) by lia. cbn [andb]. apply lookup_replicate_2. lia.
Qed.

Lemma kernel_tests_verdicts_witness :
  let H := quiet_env in
  exists g t, idt_test (cstr "tests.c") (fun _ => ret tt) demo_tests = Ret PASS t /\
    running_shows t (put_text (bytes_of "[TEST idt_test] Running idt_test at tests.c:37" ++ [10]) (Screen g 0 0)).
Proof.
  intros H. destruct demo_testable as [g Hg]. exists g.
  destruct (kernel_tests_verdicts (cstr "tests.c") (fun _ => ret tt) (bytes_of "tests.c") demo_tests (Screen g 0 0) Hg)
    as ((t & Hrun & Ht) & _).
  exists t. split; [exact Hrun|]. exact Ht.
Defined.
