(* ===== verification/Support.v ===== *)
(** What every user program is built on: the system calls as user code sees
    them, [src/syscalls/ece391syscall.S], and the routines of
    [src/syscalls/ece391support.c].  A program's loads and stores are accesses
    of the memory the kernel runs on, at user privilege. *)
From stdpp Require Import base numbers list gmap strings.
From Stdlib Require Import ZArith Lia.
From S2P Require Import Prelude Machine Strings Paging.

(** The system calls.  Pointers and numbers are 32-bit words; [int_0x80] is the
    bare trap with a call number, the other registers as they are. *)
Class Syscalls : Type := {
  ece391_halt : Z -> K Z;
  ece391_execute : Z -> K Z;
  ece391_read : Z -> Z -> Z -> K Z;
  ece391_write : Z -> Z -> Z -> K Z;
  ece391_open : Z -> K Z;
  ece391_close : Z -> K Z;
  ece391_getargs : Z -> Z -> K Z;
  ece391_vidmap : Z -> K Z;
  ece391_set_handler : Z -> Z -> K Z;
  ece391_sigreturn : K Z;
  int_0x80 : Z -> K Z }.

(** The linker's part of a program: where the bytes of a string literal, its
    terminator included, are. *)
Class Linked : Type := literal : list Z -> Z.

Definition lit `{Linked} (s : string) : Z := literal (bytes_of s ++ [0]).
Definition line `{Linked} (s : string) : Z := literal (bytes_of s ++ [10; 0]).

Section support.
Context `{Env} `{Syscalls}.

(** Accesses of user code: the processor refuses pages without the user bit. *)
Definition uload8 (va : Z) : K Z :=
  let* p := gets pgs in
  get_or_fault va (user_translate p va) ;; load8 va.

Definition ustore8 (va v : Z) : K unit :=
  let* p := gets pgs in
  get_or_fault va (user_translate p va) ;; store8 va v.

(** 32-bit accesses. *)
Definition uload32 (va : Z) : K Z :=
  let* b0 := uload8 va in
  let* b1 := uload8 (va + 1) in
  let* b2 := uload8 (va + 2) in
  let* b3 := uload8 (va + 3) in
  ret (b0 + b1 * 2 ^ 8 + b2 * 2 ^ 16 + b3 * 2 ^ 24).

Definition ustore32 (va v : Z) : K unit :=
  ustore8 va v ;;
  ustore8 (va + 1) (Z.shiftr v 8) ;;
  ustore8 (va + 2) (Z.shiftr v 16) ;;
  ustore8 (va + 3) (Z.shiftr v 24).

Definition ece391_strlen (s : Z) : K Z :=
  loop (fun len =>
    let* c := uload8 (s + len) in
    if negb (0 =? c) then ret (inl (u32 (len + 1))) else ret (inr len)) 0.

Definition ece391_strcpy (dst src : Z) : K unit :=
  loop (fun ds : Z * Z =>
    let* c := uload8 (snd ds) in
    ustore8 (fst ds) c ;;
    if negb (0 =? c) then ret (inl (fst ds + 1, snd ds + 1)) else ret (inr tt)) (dst, src).

Definition ece391_fdputs (fd s : Z) : K unit :=
  let* n := ece391_strlen s in
  ece391_write fd s n ;; ret tt.

(** The characters are [uint8_t], unlike those of the kernel's [strncmp]. *)
Definition ece391_strcmp (s1 s2 : Z) : K Z :=
  loop (fun p : Z * Z =>
    let* c1 := uload8 (fst p) in
    let* c2 := uload8 (snd p) in
    if c1 =? c2 then
      if c1 =? 0 then ret (inr 0) else ret (inl (fst p + 1, snd p + 1))
    else ret (inr (c1 - c2))) (s1, s2).

Definition ece391_strncmp (s1 s2 n : Z) : K Z :=
  if 0 =? n then ret 0 else
  loop (fun p : Z * Z * Z =>
    let '(s1, s2, n) := p in
    let* c1 := uload8 s1 in
    let* c2 := uload8 s2 in
    if c1 =? c2 then
      if c1 =? 0 then ret (inr 0)
      else if u32 (n - 1) =? 0 then ret (inr 0)
      else ret (inl (s1 + 1, s2 + 1, u32 (n - 1)))
    else ret (inr (c1 - c2))) (s1, s2, n).

Definition ece391_strrev (s : Z) : K Z :=
  let* len := ece391_strlen s in
  let end_ := s32 (len - 1) in
  if end_ <=? 0 then ret s else
  loop (fun be : Z * Z =>
    if fst be <? snd be then
      let* tmp := uload8 (s + snd be) in
      let* b := uload8 (s + fst be) in
      ustore8 (s + snd be) b ;;
      ustore8 (s + fst be) tmp ;;
      ret (inl (fst be + 1, snd be - 1))
    else ret (inr tt)) (0, end_) ;;
  ret s.

Definition ece391_lookup : list Z := bytes_of "0123456789ABCDEFGHIJKLMNOPQRSTUVWXYZ" ++ [0].

(** [newval % radix] converts the radix to unsigned. *)
Definition ece391_itoa (value buf radix : Z) : K Z :=
  if value =? 0 then
    ustore8 buf 48 ;;
    ustore8 (buf + 1) 0 ;;
    ret buf
  else
    let* newbuf := loop (fun p : Z * Z =>
      let '(newbuf, newval) := p in
      if 0 <? newval then
        let i := s32 (newval mod u32 radix) in
        let* c := get_or_fault i (aget ece391_lookup i) in
        ustore8 newbuf c ;;
        ret (inl (newbuf + 1, newval / u32 radix))
      else ret (inr newbuf)) (buf, value) in
    ustore8 newbuf 0 ;;
    ece391_strrev buf.

End support.
