(* ===== verification/Os.v ===== *)
(** What the system calls promise to a user program: an operating system as
    executable functions on an abstract state, the interface [OS] that says a
    family of system calls implements it, and the proof rules a program is
    verified with against that interface. *)
From stdpp Require Import base numbers list gmap strings.
From Stdlib Require Import ZArith Lia.
From S2P Require Import Prelude Machine Strings Console Paging FileSys Support.

(** * The abstract machine a program runs on *)

(** A regular file has its length and the contents of its blocks, which reach
    past the length; any other entry is [Other]. *)
Inductive content : Type :=
| Regular (size : Z) (data : list Z)
| Other.

Inductive descr : Type :=
| Closed
| Stdin
| Stdout
| FileAt (size : Z) (data : list Z) (pos : Z)
| Directory.

#[global] Instance descr_eq_dec : EqDecision descr.
Proof. solve_decision. Defined.

(** The bytes of the program's page by address, the argument of its command
    line, the directory and how many names the listing has given out, the eight
    descriptors, and the screen of its terminal. *)
Record world : Type := World {
  w_mem : Z -> Z;
  w_arg : list Z;
  w_entries : list (list Z * content);
  w_next : nat;
  w_fds : list descr;
  w_screen : screen }.

(** The program's page. *)
Definition user (a : Z) : bool := (0x8000000 <=? a) && (a <? 0x8400000).
Definition user_buffer (a n : Z) : bool := (0x8000000 <=? a) && (a + n <=? 0x8400000) && (0 <=? n).

Definition upd (a v : Z) (f : Z -> Z) (b : Z) : Z := if b =? a then v else f b.
Definition set_w_mem (f : Z -> Z) (w : world) : world :=
  World f (w_arg w) (w_entries w) (w_next w) (w_fds w) (w_screen w).
Definition stored_byte (a v : Z) (w : world) : world := set_w_mem (upd a v (w_mem w)) w.

Fixpoint stored_bytes (a : Z) (l : list Z) (w : world) : world :=
  match l with
  | [] => w
  | b :: l' => stored_bytes (a + 1) l' (stored_byte a b w)
  end.

Definition set_w_fds (l : list descr) (w : world) : world :=
  World (w_mem w) (w_arg w) (w_entries w) (w_next w) l (w_screen w).
Definition set_w_next (n : nat) (w : world) : world :=
  World (w_mem w) (w_arg w) (w_entries w) n (w_fds w) (w_screen w).
Definition shown (v : screen) (w : world) : world :=
  World (w_mem w) (w_arg w) (w_entries w) (w_next w) (w_fds w) v.
Definition printed (l : list Z) (w : world) : world := shown (put_text l (w_screen w)) w.

(** The [n] bytes at [a], and the string there when it has at most [n]
    characters. *)
Definition bytes_in (w : world) (a : Z) (n : nat) : list Z :=
  map (fun i => w_mem w (a + i)) (seqZ 0 (Z.of_nat n)).

Fixpoint string_in (n : nat) (w : world) (a : Z) : option (list Z) :=
  match n with
  | O => None
  | S n' =>
    if negb (user a) then None
    else if w_mem w a =? 0 then Some []
    else match string_in n' w (a + 1) with
         | Some l => Some (w_mem w a :: l)
         | None => None
         end
  end.

(** * The calls

    [None] is a call the specification says nothing about: a read from the
    keyboard, which waits, or a buffer outside the program's page. *)

Definition fd_of (w : world) (fd : Z) : descr := default Closed (aget (w_fds w) fd).

(** What [read] and [write] refuse. *)
Definition bad_fd (w : world) (fd buf n : Z) : bool :=
  (n <? 0) || (fd <? 0) || (7 <? fd) || (buf =? 0) ||
  match fd_of w fd with Closed => true | _ => false end.

Definition os_write (fd buf n : Z) (w : world) : option (Z * world) :=
  if bad_fd w fd buf n then Some (-1, w) else
  match fd_of w fd with
  | Stdout =>
    if user_buffer buf n then Some (n, printed (bytes_in w buf (Z.to_nat n)) w) else None
  | _ => Some (-1, w)
  end.

Definition set_fd (fd : Z) (d : descr) (w : world) : world :=
  set_w_fds (<[Z.to_nat fd := d]> (w_fds w)) w.

(** The names a listing gives out, the directory itself first. *)
Definition listing (w : world) : list (list Z) := [46] :: map fst (w_entries w).

(** What the directory read stores of a name: the first one as a string, the
    others padded to 32 bytes and a terminator. *)
Definition name_record (i : nat) (nm : list Z) : list Z :=
  match i with O => nm ++ [0] | S _ => padded nm ++ [0] end.

Definition os_read (fd buf n : Z) (w : world) : option (Z * world) :=
  if bad_fd w fd buf n then Some (-1, w) else
  match fd_of w fd with
  | FileAt size data pos =>
    if size <=? pos then Some (0, w)
    else if user_buffer buf n && (0 <? n) && (pos + n <=? Z.of_nat (length data)) then
      Some (n, set_fd fd (FileAt size data (pos + n))
        (stored_bytes buf (take (Z.to_nat n) (drop (Z.to_nat pos) data)) w))
    else None
  | Directory =>
    if negb (user_buffer buf 33) then None else
    match listing w !! w_next w with
    | Some nm => Some (Z.of_nat (length nm),
        set_w_next (S (w_next w)) (stored_bytes buf (name_record (w_next w) nm) w))
    | None => Some (0, set_w_next 0 w)
    end
  | Stdin => None
  | _ => Some (-1, w)
  end.

Definition is_closed (d : descr) : bool := match d with Closed => true | _ => false end.

(** The first closed descriptor from 2 on. *)
Definition free_fd (w : world) : option Z := List.find (fun fd => is_closed (fd_of w fd)) (seqZ 2 6).

Definition os_take_fd (d : descr) (w : world) : option (Z * world) :=
  match free_fd w with
  | Some fd => Some (fd, set_fd fd d w)
  | None => Some (-1, w)
  end.

Definition find_entry (nm : list Z) (w : world) : option (list Z * content) :=
  List.find (fun e => bool_decide (fst e = nm)) (w_entries w).

Definition os_open (name : Z) (w : world) : option (Z * world) :=
  if name =? 0 then Some (-1, w) else
  match string_in 1025 w name with
  | None => None
  | Some [] => Some (-1, w)
  | Some nm =>
    if bool_decide (nm = [46]) then os_take_fd Directory w else
    match find_entry nm w with
    | None => Some (-1, w)
    | Some (_, Regular size data) => os_take_fd (FileAt size data 0) w
    | Some (_, Other) => None
    end
  end.

Definition os_close (fd : Z) (w : world) : option (Z * world) :=
  if (fd <? 2) || (7 <? fd) then Some (-1, w) else
  match fd_of w fd with
  | Closed => Some (-1, w)
  | _ => Some (0, set_fd fd Closed w)
  end.

Definition os_getargs (buf n : Z) (w : world) : option (Z * world) :=
  if (n <=? 0) || (buf =? 0) || bool_decide (w_arg w = []) then Some (-1, w)
  else if user_buffer buf n then
    Some (if Z.of_nat (length (w_arg w)) <? n then 0 else -1,
      stored_bytes buf (take (Z.to_nat n) (w_arg w ++ replicate (Z.to_nat n) 0)) w)
  else None.

(** A call refused whatever the state. *)
Definition os_refuse (w : world) : option (Z * world) := Some (-1, w).

(** * The interface *)

(** [int32_t] arguments and 32-bit addresses. *)
Definition int32 (z : Z) : Prop := - 2 ^ 31 <= z < 2 ^ 31.
Definition word32 (z : Z) : Prop := 0 <= z < 2 ^ 32.

(** Where the specification gives a result, the call returns it and leads to a
    state that again represents the abstract one. *)
Definition implements (abs : world -> kernel -> Prop) (m : K Z)
    (spec : world -> option (Z * world)) : Prop :=
  forall w s r w', abs w s -> spec w = Some (r, w') -> exists t, m s = Ret r t /\ abs w' t.

Class OS `{Env} `{Syscalls} (abs : world -> kernel -> Prop) : Prop := {
  os_loads : forall w s a, abs w s -> user a = true -> uload8 a s = Ret (w_mem w a) s;
  os_bytes : forall w s a, abs w s -> user a = true -> 0 <= w_mem w a < 256;
  os_stores : forall w s a v, abs w s -> user a = true ->
    exists t, ustore8 a v s = Ret tt t /\ abs (stored_byte a (u8 v) w) t;
  os_reads : forall fd buf n, int32 fd -> word32 buf -> int32 n ->
    implements abs (ece391_read fd buf n) (os_read fd buf n);
  os_writes : forall fd buf n, int32 fd -> word32 buf -> int32 n ->
    implements abs (ece391_write fd buf n) (os_write fd buf n);
  os_opens : forall name, word32 name -> implements abs (ece391_open name) (os_open name);
  os_closes : forall fd, int32 fd -> implements abs (ece391_close fd) (os_close fd);
  os_args : forall buf n, word32 buf -> int32 n ->
    implements abs (ece391_getargs buf n) (os_getargs buf n);
  os_no_window : forall p, 0 <= p < 0x8000000 -> implements abs (ece391_vidmap p) os_refuse;
  os_no_call : forall num, word32 num -> ~ 1 <= num <= 10 -> implements abs (int_0x80 num) os_refuse }.

(** * The abstract memory *)

(** The string [l] and its terminator are at [a]. *)
Record string_at (w : world) (a : Z) (l : list Z) : Prop := {
  sa_user : user_buffer a (Z.of_nat (length l) + 1) = true;
  sa_mem : forall i b, (l ++ [0]) !! i = Some b -> w_mem w (a + Z.of_nat i) = b;
  sa_chars : Forall (fun b => b <> 0) l }.

Lemma user_buffer_spec a n :
  user_buffer a n = true <-> 0x8000000 <= a /\ a + n <= 0x8400000 /\ 0 <= n.
Proof. unfold user_buffer. rewrite !andb_true_iff, !Z.leb_le. tauto. Qed.

Lemma user_spec a : user a = true <-> 0x8000000 <= a < 0x8400000.
Proof. unfold user. rewrite andb_true_iff, Z.leb_le, Z.ltb_lt. tauto. Qed.

Lemma user_buffer_user a n i : user_buffer a n = true -> 0 <= i < n -> user (a + i) = true.
Proof. rewrite user_buffer_spec, user_spec. lia. Qed.

(** What a store leaves alone. *)
Definition same_but_mem (w w' : world) : Prop := w' = set_w_mem (w_mem w') w.

Lemma stored_bytes_same a l w : same_but_mem w (stored_bytes a l w).
Proof.
  revert a w. induction l as [|b l IH]; intros a w; [by destruct w|]. simpl.
  etransitivity; [apply IH|]. by destruct w.
Qed.

Lemma w_mem_stored_bytes a l w b :
  w_mem (stored_bytes a l w) b =
    if (a <=? b) && (b <? a + Z.of_nat (length l)) then nth (Z.to_nat (b - a)) l 0 else w_mem w b.
Proof.
  revert a w. induction l as [|x l IH]; intros a w; cbn [stored_bytes length].
  - destruct (Z.leb_spec a b), (Z.ltb_spec b (a + Z.of_nat 0)); cbn [andb]; try done. exfalso. lia.
  - rewrite IH. unfold stored_byte, set_w_mem, upd. cbn [w_mem].
    destruct (Z.leb_spec (a + 1) b), (Z.ltb_spec b (a + 1 + Z.of_nat (length l))),
      (Z.leb_spec a b), (Z.ltb_spec b (a + Z.of_nat (S (length l)))), (Z.eqb_spec b a);
      cbn [andb]; try done; try (exfalso; lia).
    + replace (Z.to_nat (b - a)) with (S (Z.to_nat (b - (a + 1)))) by lia. done.
    + subst. by rewrite Z.sub_diag.
Qed.

Lemma stored_in a l w i b : l !! i = Some b -> w_mem (stored_bytes a l w) (a + Z.of_nat i) = b.
Proof.
  intros Hi. pose proof (lookup_lt_Some _ _ _ Hi). rewrite w_mem_stored_bytes.
  rewrite (proj2 (Z.leb_le _ _)), (proj2 (Z.ltb_lt _ _)) by lia. cbn [andb].
  replace (Z.to_nat (a + Z.of_nat i - a)) with i by lia. by apply nth_lookup_Some with (d := 0) in Hi.
Qed.

Lemma stored_out a l w b :
  b < a \/ a + Z.of_nat (length l) <= b -> w_mem (stored_bytes a l w) b = w_mem w b.
Proof.
  intros Hb. rewrite w_mem_stored_bytes.
  destruct (Z.leb_spec a b), (Z.ltb_spec b (a + Z.of_nat (length l))); cbn [andb]; try done; exfalso; lia.
Qed.

Lemma bytes_in_stored a l w : bytes_in (stored_bytes a l w) a (length l) = l.
Proof.
  apply list_eq_same_length with (length l); [done|unfold bytes_in; by rewrite length_map, length_seqZ, Nat2Z.id|].
  intros i x y Hi Hx Hy. unfold bytes_in in Hx. rewrite list_lookup_fmap, lookup_seqZ_lt in Hx by lia.
  injection Hx as <-. rewrite Z.add_0_l. by apply stored_in.
Qed.

(** Strings survive stores elsewhere and everything that is not a store. *)
Lemma string_at_frame w w' a l :
  (forall i, 0 <= i <= Z.of_nat (length l) -> w_mem w' (a + i) = w_mem w (a + i)) ->
  string_at w a l -> string_at w' a l.
Proof.
  intros Hf [Hu Hm Hc]. constructor; [done| |done]. intros i b Hi. pose proof (lookup_lt_Some _ _ _ Hi) as Hl.
  rewrite length_app in Hl. simpl in Hl. rewrite Hf by lia. by apply Hm.
Qed.

Lemma string_at_nth w a l i :
  string_at w a l -> 0 <= i <= Z.of_nat (length l) -> w_mem w (a + i) = nth (Z.to_nat i) (l ++ [0]) 0.
Proof.
  intros Hs Hi. destruct (lookup_lt_is_Some_2 (l ++ [0]) (Z.to_nat i)) as [b Hb].
  { rewrite length_app. simpl. lia. }
  rewrite <- (Z2Nat.id i) at 1 by lia. rewrite (sa_mem _ _ _ Hs _ _ Hb).
  symmetry. by apply nth_lookup_Some.
Qed.

Lemma string_at_tail w a b l : string_at w a (b :: l) -> string_at w (a + 1) l.
Proof.
  intros [Hu Hm Hc]. constructor.
  - rewrite user_buffer_spec in *. simpl in Hu. lia.
  - intros i x Hi. rewrite <- Z.add_assoc. replace (1 + Z.of_nat i) with (Z.of_nat (S i)) by lia.
    by apply Hm.
  - by inversion Hc.
Qed.

Lemma string_at_in w a l n : string_at w a l -> (length l < n)%nat -> string_in n w a = Some l.
Proof.
  revert a n. induction l as [|b l IH]; intros a n Hs Hn; (destruct n as [|n]; [simpl in Hn; lia|]);
    pose proof (sa_user _ _ _ Hs) as Hu; rewrite user_buffer_spec in Hu; cbn [string_in].
  - rewrite (proj2 (user_spec a)) by (simpl in Hu; lia). cbn [negb].
    pose proof (sa_mem _ _ _ Hs 0%nat 0 eq_refl) as H0. rewrite Z.add_0_r in H0. by rewrite H0.
  - rewrite (proj2 (user_spec a)) by (simpl in Hu; lia). cbn [negb].
    pose proof (sa_mem _ _ _ Hs 0%nat b eq_refl) as H0. rewrite Z.add_0_r in H0. rewrite H0.
    pose proof (sa_chars _ _ _ Hs) as Hc. inversion Hc; subst.
    rewrite (proj2 (Z.eqb_neq _ 0)) by done. rewrite (IH (a + 1)); [done|by eapply string_at_tail|].
    simpl in Hn. lia.
Qed.

Lemma string_in_at n w a l : string_in n w a = Some l -> string_at w a l /\ (length l < n)%nat.
Proof.
  revert a l. induction n as [|n IH]; intros a l; cbn [string_in]; [done|].
  destruct (user a) eqn:Hu; cbn [negb]; [|done]. apply user_spec in Hu.
  destruct (Z.eqb_spec (w_mem w a) 0) as [H0|H0].
  - intros [= <-]. split; [|simpl; lia]. constructor; [rewrite user_buffer_spec; simpl; lia| |done].
    intros i b Hi. destruct i as [|i]; [|done]. injection Hi as <-. by rewrite Z.add_0_r.
  - destruct (string_in n w (a + 1)) as [l'|] eqn:Hl'; [|done]. intros [= <-].
    destruct (IH _ _ Hl') as [[Hu' Hm Hc] Hn]. rewrite user_buffer_spec in Hu'.
    split; [|simpl; lia]. constructor.
    + rewrite user_buffer_spec. simpl. lia.
    + intros i b Hi. destruct i as [|i]; [injection Hi as <-; by rewrite Z.add_0_r|].
      replace (a + Z.of_nat (S i)) with (a + 1 + Z.of_nat i) by lia. by apply Hm.
    + by constructor.
Qed.

Lemma bytes_in_string w a l : string_at w a l -> bytes_in w a (length l) = l.
Proof.
  intros Hs. apply list_eq_same_length with (length l);
    [done|unfold bytes_in; by rewrite length_map, length_seqZ, Nat2Z.id|].
  intros i x y Hi Hx Hy. unfold bytes_in in Hx. rewrite list_lookup_fmap, lookup_seqZ_lt in Hx by lia.
  injection Hx as <-. rewrite Z.add_0_l. apply (sa_mem _ _ _ Hs). by apply lookup_app_l_Some.
Qed.
