(* ===== verification/Programs.v ===== *)
(** The user programs of [src/syscalls]: [cat], [ls], [grep], [counter],
    [hello], [shell], [pingpong], [testprint], [sigtest] and the system call
    tests of [syserr].  The addresses of a program's automatic arrays are parameters. *)
From stdpp Require Import base numbers list gmap strings.
From Stdlib Require Import ZArith Lia.
From S2P Require Import Prelude Machine Strings Paging Support.

Definition SBUFSIZE : Z := 33.
Definition BUFSIZE : Z := 1024.
Definition SCREENWIDTH : Z := 79.
Definition ENDING : Z := 2.
Definition BUFMAX : Z := SCREENWIDTH + ENDING.
Definition START : Z := 1.
Definition STARTLOOP : Z := START + 1.
Definition LOOPMAX : Z := BUFMAX - ENDING - 1.
Definition STARTCHAR : Z := 65.
Definition ENDCHAR : Z := 90.
Definition NEG_FD : Z := -1073741823.
Definition BIG_FD : Z := 1073741823.
Definition BIG_NUM : Z := 1073741823.
Definition NEG_NUM : Z := -1073741823.
Definition SEGFAULT : Z := 1.
Definition ALARM : Z := 3.

Section programs.
Context `{Env} `{Syscalls} `{Linked}.

(** [_start]: [main], then [halt] with what it returned. *)
Definition start (main : K Z) : K Z := let* r := main in ece391_halt r.

(** ** cat *)

Definition cat_main (buf : Z) : K Z :=
  let* r := ece391_getargs buf 1024 in
  if negb (0 =? r) then ece391_fdputs 1 (line "could not read arguments") ;; ret 3 else
  let* fd := ece391_open buf in
  if -1 =? fd then ece391_fdputs 1 (line "file not found") ;; ret 2 else
  loop (fun _ : unit =>
    let* cnt := ece391_read fd buf 1024 in
    if 0 =? cnt then ret (inr 0) else
    if -1 =? cnt then ece391_fdputs 1 (line "file read failed") ;; ret (inr 3) else
    let* r := ece391_write 1 buf cnt in
    if -1 =? r then ret (inr 3) else ret (inl tt)) tt.

(** ** ls *)

Definition ls_main (buf : Z) : K Z :=
  let* fd := ece391_open (lit ".") in
  if -1 =? fd then ece391_fdputs 1 (line "directory open failed") ;; ret 2 else
  loop (fun _ : unit =>
    let* cnt := ece391_read fd buf (SBUFSIZE - 1) in
    if 0 =? cnt then ret (inr 0) else
    if -1 =? cnt then ece391_fdputs 1 (line "directory entry read failed") ;; ret (inr 3) else
    ustore8 (buf + cnt) 10 ;;
    let* r := ece391_write 1 buf (cnt + 1) in
    if -1 =? r then ret (inr 3) else ret (inl tt)) tt.

(** ** grep *)

(** [while (line_end < last && '\n' != data[line_end]) line_end++;] *)
Definition find_line_end (data last : Z) : Z -> K Z :=
  loop (fun line_end =>
    if line_end <? last then
      let* c := uload8 (data + line_end) in
      if 10 =? c then ret (inr line_end) else ret (inl (line_end + 1))
    else ret (inr line_end)).

(** The search of one line.  [s] points to [char], [data] to [uint8_t]. *)
Definition search_line (s fname data s_len line_start line_end : Z) : K unit :=
  loop (fun check =>
    if check <? line_end then
      let* s0 := uload8 s in
      let* c := uload8 (data + check) in
      let* same := (if s8 s0 =? c then
                      let* r := ece391_strncmp (data + check) s (u32 s_len) in ret (0 =? r)
                    else ret false) in
      if (same : bool) then
        ece391_fdputs 1 fname ;;
        ece391_fdputs 1 (lit ":") ;;
        ece391_fdputs 1 (data + line_start) ;;
        ece391_fdputs 1 (line "") ;;
        ret (inr tt)
      else ret (inl (check + 1))
    else ret (inr tt)) line_start.

(** One line of the buffer: the start of the next one, or the new [last]. *)
Definition scan_line (s fname data s_len cnt last line_start : Z) : K (Z + Z) :=
  let* line_end := find_line_end data last line_start in
  let* c := uload8 (data + line_end) in
  if negb (10 =? c) && negb (0 =? cnt) && negb (line_start =? 0) then
    ustore8 (data + line_end) 0 ;;
    ece391_strcpy data (data + line_start) ;;
    ret (inr (last - line_start))
  else
    ustore8 (data + line_end) 0 ;;
    search_line s fname data s_len line_start line_end ;;
    if last <=? line_end + 1 then ret (inr 0) else ret (inl (line_end + 1)).

(** The inner [while (1)]. *)
Definition scan_lines (s fname data s_len cnt last : Z) : K Z :=
  loop (scan_line s fname data s_len cnt last) 0.

(** One read of the file: the new [last], or whether the end was reached
    without an error. *)
Definition search_chunk (s fname data s_len fd last : Z) : K (Z + bool) :=
  let* cnt := ece391_read fd (data + last) (BUFSIZE - last) in
  if -1 =? cnt then ece391_fdputs 1 (line "file read failed") ;; ret (inr false) else
  let* last := scan_lines s fname data s_len cnt (last + cnt) in
  if 0 =? cnt then ret (inr true) else ret (inl last).

Definition do_one_file (data s fname : Z) : K Z :=
  let* n := ece391_strlen s in
  let s_len := s32 n in
  let* fd := ece391_open fname in
  if -1 =? fd then ece391_fdputs 1 (line "file open failed") ;; ret (-1) else
  let* ok := loop (search_chunk s fname data s_len fd) 0 in
  if negb (ok : bool) then ret (-1) else
  let* r := ece391_close fd in
  if -1 =? r then ece391_fdputs 1 (line "file close failed") ;; ret (-1) else
  ret 0.

(** One entry of the directory. *)
Definition grep_entry (buf search data fd : Z) : K (unit + Z) :=
  let* cnt := ece391_read fd buf (SBUFSIZE - 1) in
  if 0 =? cnt then ret (inr 0) else
  if -1 =? cnt then ece391_fdputs 1 (line "directory entry read failed") ;; ret (inr 3) else
  let* c := uload8 buf in
  if 46 =? c then ret (inl tt) else
  ustore8 (buf + cnt) 0 ;;
  let* r := do_one_file data search buf in
  if negb (0 =? r) then ret (inr 3) else ret (inl tt).

Definition grep_main (buf search data : Z) : K Z :=
  let* r := ece391_getargs search BUFSIZE in
  if negb (0 =? r) then ece391_fdputs 1 (line "could not read argument") ;; ret 3 else
  let* fd := ece391_open (lit ".") in
  if -1 =? fd then ece391_fdputs 1 (line "directory open failed") ;; ret 2 else
  loop (fun _ : unit => grep_entry buf search data fd) tt.

(** ** counter *)

(** [cnt] is unsigned; the comparison with -1 converts. *)
Definition counter_main (buf : Z) : K Z :=
  ece391_fdputs 1 (line "Enter the Test Number: (0): 100, (1): 10000, (2): 100000") ;;
  let* cnt := ece391_read 0 buf (BUFSIZE - 1) in
  if u32 (-1) =? u32 cnt then
    ece391_fdputs 1 (line "Can't read the number from keyboard.") ;; ret 3
  else
    ustore8 (buf + u32 cnt) 0 ;;
    let* l := ece391_strlen buf in
    let* wrong := (if 2 <? l then ret true else
      let* l := ece391_strlen buf in
      if l =? 2 then
        let* c := uload8 buf in
        if c <? 48 then ret true else let* c := uload8 buf in ret (50 <? c)
      else ret false) in
    if (wrong : bool) then ece391_fdputs 1 (line "Wrong Choice!") ;; ret 0 else
    let* c := uload8 buf in
    let max := if c =? 48 then 100 else if c =? 49 then 10000 else if c =? 50 then 100000 else 0 in
    loop (fun i =>
      if i <? max then
        ece391_itoa (u32 (i + 1)) buf 10 ;;
        ece391_fdputs 1 buf ;;
        ece391_fdputs 1 (line "") ;;
        ret (inl (u32 (i + 1)))
      else ret (inr 0)) 0.

(** ** hello *)

Definition hello_main (buf : Z) : K Z :=
  ece391_fdputs 1 (lit "Hi, what's your name? ") ;;
  let* cnt := ece391_read 0 buf (BUFSIZE - 1) in
  if -1 =? cnt then ece391_fdputs 1 (line "Can't read name from keyboard.") ;; ret 3 else
  ustore8 (buf + cnt) 0 ;;
  ece391_fdputs 1 (lit "Hello, ") ;;
  ece391_fdputs 1 buf ;;
  ret 0.

(** ** shell *)

(** The body of the shell's loop once the line is in the buffer; [inr] is the
    value [main] returns. *)
Definition shell_line (buf : Z) : K (unit + Z) :=
  let* r := ece391_strcmp buf (lit "exit") in
  if 0 =? r then ret (inr 0) else
  let* c := uload8 buf in
  if 0 =? c then ret (inl tt) else
  let* rval := ece391_execute buf in
  (if -1 =? rval then ece391_fdputs 1 (line "no such command")
   else if 256 =? rval then ece391_fdputs 1 (line "program terminated by exception")
   else if negb (0 =? rval) then ece391_fdputs 1 (line "program terminated abnormally")
   else ret tt) ;;
  ret (inl tt).

(** The body from the prompt on. *)
Definition shell_command (buf : Z) : K (unit + Z) :=
  ece391_fdputs 1 (lit "391OS> ") ;;
  let* cnt := ece391_read 0 buf (BUFSIZE - 1) in
  if -1 =? cnt then ece391_fdputs 1 (line "read from keyboard failed") ;; ret (inr 3) else
  let* cnt := (if 0 <? cnt then
                 let* c := uload8 (buf + (cnt - 1)) in
                 if 10 =? c then ret (cnt - 1) else ret cnt
               else ret cnt) in
  ustore8 (buf + cnt) 0 ;;
  shell_line buf.

Definition shell_main (buf : Z) : K Z :=
  ece391_fdputs 1 (line "Starting 391 Shell") ;;
  loop (fun _ => shell_command buf) tt.

(** ** testprint *)

Definition testprint_main : K Z :=
  ece391_fdputs 1 (line "Hello, if this ran, the program was correct. Yay!") ;;
  ret 0.

(** ** sigtest

    [charbuf] and [badbuf] are the addresses of the static variables. *)

Definition sigtest_main (buf charbuf badbuf : Z) : K Z :=
  let* r := ece391_getargs buf BUFSIZE in
  if negb (0 =? r) then ece391_fdputs 1 (line "could not read argument") ;; ret 3 else
  let* c := uload8 buf in
  (if c =? 49 then
     ece391_fdputs 1 (line "Installing signal handlers") ;;
     ece391_set_handler SEGFAULT (handler_addr "segfault_sighandler") ;;
     ece391_set_handler ALARM (handler_addr "alarm_sighandler") ;; ret tt
   else ret tt) ;;
  ece391_fdputs 1 (lit "Hi, what's your name? ") ;;
  let* cnt := ece391_read 0 buf (BUFSIZE - 1) in
  if -1 =? cnt then ece391_fdputs 1 (line "Can't read name from keyboard.") ;; ret 3 else
  let* p := uload32 badbuf in
  ustore8 p 1 ;;
  ustore8 (buf + cnt) 0 ;;
  ece391_fdputs 1 (lit "Hello, ") ;;
  ece391_fdputs 1 buf ;;
  let* c := uload8 charbuf in
  (if c =? 1 then ece391_fdputs 1 (line "success") else ece391_fdputs 1 (line "failure")) ;;
  ret 0.

(** The [switch] both handlers print the number with. *)
Definition put_signum (signum : Z) : K unit :=
  match signum with
  | 0 => ece391_fdputs 1 (line "0")
  | 1 => ece391_fdputs 1 (line "1")
  | 2 => ece391_fdputs 1 (line "2")
  | 3 => ece391_fdputs 1 (line "3")
  | _ => ece391_fdputs 1 (line "invalid")
  end.

(** [signum] is the address of the argument: the handler patches the saved [%eax]
    seven words above it. *)
Definition segfault_sighandler (signum buf charbuf badbuf : Z) : K unit :=
  ece391_fdputs 1 (lit "Segfault signal handler called, signum: ") ;;
  let* n := uload32 signum in
  put_signum (s32 n) ;;
  ece391_fdputs 1 (line "Press enter to continue...") ;;
  ece391_read 0 buf 1 ;;
  ustore32 badbuf charbuf ;;
  ustore32 (signum + 28) charbuf ;;
  ece391_fdputs 1 (line "Signal handler returning").

Definition alarm_sighandler (signum : Z) : K unit :=
  ece391_fdputs 1 (lit "Alarm signal handler called, signum: ") ;;
  let* n := uload32 signum in
  put_signum (s32 n).

(** ** pingpong *)

(** [for (i = from; i < to; i++) buf[i] = ' ';] *)
Definition blank_inner (buf from to : Z) : K unit :=
  for_up (Z.to_nat (to - from)) from (fun i => ustore8 (buf + i) 32).

(** One frame: the character at [j], printed, and a tick awaited. *)
Definition pingpong_frame (buf garbage rtc_fd curchar j : Z) : K unit :=
  blank_inner buf STARTLOOP LOOPMAX ;;
  ustore8 (buf + j) curchar ;;
  ece391_fdputs 1 buf ;;
  ece391_read rtc_fd garbage 4 ;;
  ret tt.

(** Out and back, then the next character. *)
Definition pingpong_round (buf garbage rtc_fd curchar : Z) : K Z :=
  for_up (Z.to_nat (LOOPMAX - STARTLOOP)) STARTLOOP (pingpong_frame buf garbage rtc_fd curchar) ;;
  loop (fun j =>
    if STARTLOOP <=? j then
      pingpong_frame buf garbage rtc_fd curchar j ;; ret (inl (j - 1))
    else ret (inr tt)) (LOOPMAX - 1) ;;
  ret (if curchar =? ENDCHAR then STARTCHAR else u8 (curchar + 1)).

Definition pingpong_main (buf ret_val garbage : Z) : K Z :=
  blank_inner buf 0 BUFMAX ;;
  ustore8 (buf + (BUFMAX - 1)) 0 ;;
  ustore8 (buf + (BUFMAX - 2)) 10 ;;
  ustore8 (buf + (BUFMAX - 3)) 124 ;;
  ustore8 (buf + START) 124 ;;
  let* rtc_fd := ece391_open (lit "rtc") in
  ustore32 ret_val 32 ;;
  let* r := ece391_write rtc_fd ret_val 4 in
  ustore32 ret_val r ;;
  loop (fun curchar =>
    let* c := pingpong_round buf garbage rtc_fd curchar in
    ret (inl c)) STARTCHAR.

(** ** syserr *)

Definition call_sys (num : Z) : K Z := int_0x80 (u32 num).

(** [if (-1 != <call>) { fail = 2; puts <message>; }] on the value of [fail]. *)
Definition expect_failure (call : K Z) (message : string) (fail : Z) : K Z :=
  let* r := call in
  if negb (-1 =? r) then ece391_fdputs 1 (line message) ;; ret 2 else ret fail.

(** The verdict of a test whose name is [name]. *)
Definition report_test (name : string) (fail : Z) : K Z :=
  (if negb (fail =? 0) then ece391_fdputs 1 (line (name ++ ": FAIL"))
   else ece391_fdputs 1 (line (name ++ ": PASS"))) ;;
  ret fail.

Definition err_neg_fd (buf : Z) : K Z :=
  let* fail := expect_failure (ece391_read NEG_FD buf 31) "read fail" 0 in
  let* fail := expect_failure (ece391_write NEG_FD buf 31) "write fail" fail in
  let* fail := expect_failure (ece391_close NEG_FD) "close fail" fail in
  report_test "err_neg_fd" fail.

Definition err_big_fd (buf : Z) : K Z :=
  let* fail := expect_failure (ece391_read BIG_FD buf 31) "read fail" 0 in
  let* fail := expect_failure (ece391_write BIG_FD buf 31) "write fail" fail in
  let* fail := expect_failure (ece391_close BIG_FD) "close fail" fail in
  report_test "err_big_fd" fail.

Definition err_open_lots : K Z :=
  let* cnt := loop (fun ic : Z * Z =>
    if fst ic <? 7 then
      let* r := ece391_open (lit ".") in
      ret (inl (fst ic + 1, if -1 =? r then snd ic + 1 else snd ic))
    else ret (inr (snd ic))) (0, 0) in
  for_up 6 2 (fun i => ece391_close i ;; ret tt) ;;
  if cnt =? 1 then ece391_fdputs 1 (line "err_open_lots: PASS") ;; ret 0
  else ece391_fdputs 1 (line "err_open_lots: FAIL") ;; ret 2.

Definition err_open : K Z :=
  let* fail := expect_failure (ece391_open (lit "helloo")) "'helloo' fail" 0 in
  let* fail := expect_failure (ece391_open (lit "shel")) "'shel' fail" fail in
  let* fail := expect_failure (ece391_open (lit "")) "empty string fail" fail in
  report_test "err_open" fail.

(** A test repeated for [i] from [from] to 7. *)
Definition expect_failures (from : Z) (call : Z -> K Z) (message : string) (fail : Z) : K Z :=
  loop (fun p : Z * Z =>
    if fst p <? 8 then
      let* fail := expect_failure (call (fst p)) message (snd p) in ret (inl (fst p + 1, fail))
    else ret (inr (snd p))) (from, fail).

Definition err_unopened (buf : Z) : K Z :=
  let* fail := expect_failures 0 ece391_close "close unopened or invalid fd fail" 0 in
  let* fail := expect_failures 2 (fun i => ece391_read i buf 31) "read from unopened fd fail" fail in
  let* fail := expect_failures 2 (fun i => ece391_write i buf 31) "write to unopened fd fail" fail in
  report_test "err_unopened" fail.

Definition err_vidmap : K Z :=
  let* fail := expect_failure (ece391_vidmap 0) "Null pointer fail" 0 in
  let* fail := expect_failure (ece391_vidmap 0x400000) "Kernel pointer fail fail" fail in
  report_test "err_vidmap" fail.

Definition err_stdin_out (buf : Z) : K Z :=
  let* fail := expect_failure (ece391_write 0 buf 31) "write to stdin fail" 0 in
  let* fail := expect_failure (ece391_read 1 buf 31) "read from stdout fail" fail in
  report_test "err_stdin_out" fail.

Definition err_syscall_num : K Z :=
  let* fail := expect_failure (call_sys BIG_NUM) "syscall 0 fail" 0 in
  let* fail := expect_failure (call_sys NEG_NUM) "big num syscall fail" fail in
  let* fail := expect_failure (call_sys 0) "neg num syscall fail" fail in
  report_test "err_syscall_num" fail.

(** The line [s] after an empty one. *)
Definition overall (s : string) : Z := literal (10 :: bytes_of s ++ [10; 0]).

(** The case 0 of [main]: all the tests.  [buf32] is the array of whichever test
    runs. *)
Definition run_all_tests (buf32 : Z) : K Z :=
  let* f1 := err_neg_fd buf32 in
  let* f2 := err_big_fd buf32 in
  let* f3 := err_open_lots in
  let* f4 := err_open in
  let* f5 := err_unopened buf32 in
  let* f6 := err_vidmap in
  let* f7 := err_stdin_out buf32 in
  let* f8 := err_syscall_num in
  let fail := f1 + f2 + f3 + f4 + f5 + f6 + f7 + f8 in
  (if negb (fail =? 0) then ece391_fdputs 1 (overall "Overall Tests: FAIL")
   else ece391_fdputs 1 (overall "Overall Tests: PASS")) ;;
  ret fail.

Definition syserr_main (buf buf32 : Z) : K Z :=
  ece391_fdputs 1 (lit "Choose from tests 1-8. 0 to run all: ") ;;
  let* cnt := ece391_read 0 buf 127 in
  if -1 =? cnt then ece391_fdputs 1 (line "Can't read test #") ;; ret 2 else
  let* c := uload8 buf in
  match c - 48 with
  | 0 => run_all_tests buf32
  | 1 => err_neg_fd buf32
  | 2 => err_big_fd buf32
  | 3 => err_open_lots
  | 4 => err_open
  | 5 => err_unopened buf32
  | 6 => err_vidmap
  | 7 => err_stdin_out buf32
  | 8 => err_syscall_num
  | _ => ece391_fdputs 1 (lit "Invalid test number. Choose from tests 1-8 or 0") ;; ret 0
  end.

End programs.
