(* ===== verification/Clients.v ===== *)
(** The user programs verified against the interface [OS]: what [cat] and [ls]
    print on any system that implements it, and the verdicts of the tests. *)
From stdpp Require Import base numbers list gmap strings.
From Stdlib Require Import ZArith Lia.
From S2P Require Import Prelude Machine Strings Console Paging FileSys Support Os Programs.

(** * Proof rules *)

Section rules.
Context `{Env} `{Syscalls} (abs : world -> kernel -> Prop) `{!OS abs}.

Lemma wp_call m spec w s r w' (Q : Z -> kernel -> Prop) E :
  implements abs m spec -> abs w s -> spec w = Some (r, w') -> (forall t, abs w' t -> Q r t) ->
  wp m Q E s.
Proof.
  intros Hm Hw Hspec HQ. destruct (Hm w s r w' Hw Hspec) as (t & Hr & Ht). wp_use Hr. by apply HQ.
Qed.

Lemma uload_string w s a l i b :
  abs w s -> string_at w a l -> (l ++ [0]) !! i = Some b ->
  uload8 (a + Z.of_nat i) s = Ret b s.
Proof.
  intros Hw Hs Hi. rewrite <- (sa_mem _ _ _ Hs _ _ Hi). apply os_loads; [done|].
  eapply user_buffer_user; [apply Hs|]. pose proof (lookup_lt_Some _ _ _ Hi) as Hl.
  rewrite length_app in Hl. simpl in Hl. lia.
Qed.

Lemma strlen_rule w s a l E :
  abs w s -> string_at w a l ->
  wp (ece391_strlen a) (fun r t => r = Z.of_nat (length l) /\ t = s) E s.
Proof.
  intros Hw Hs. pose proof (sa_user _ _ _ Hs) as Hu. rewrite user_buffer_spec in Hu.
  unfold ece391_strlen.
  apply wp_loop with (I := fun i t => t = s /\ 0 <= i <= Z.of_nat (length l))
    (mu := fun i _ => Z.of_nat (length l) - i); [solve_inv|unfold loop_fuel; lia|].
  intros i t [-> Hi]. split; [lia|]. wp_step.
  destruct (lookup_lt_is_Some_2 (l ++ [0]) (Z.to_nat i)) as [b Hb]; [rewrite length_app; simpl; lia|].
  pose proof (uload_string w s a l _ b Hw Hs Hb) as Hl. rewrite Z2Nat.id in Hl by lia. wp_use Hl.
  destruct (decide (i = Z.of_nat (length l))) as [->|Hne].
  - rewrite Nat2Z.id, lookup_app_r, Nat.sub_diag in Hb by done. injection Hb as <-. by apply wp_ret.
  - rewrite lookup_app_l in Hb by lia. pose proof (Forall_lookup_1 _ _ _ _ (sa_chars _ _ _ Hs) Hb) as Hb0.
    cbn beta in Hb0. rewrite (proj2 (Z.eqb_neq 0 b)) by congruence. cbn [negb]. apply wp_ret.
    rewrite u32_small by lia. solve_inv.
Qed.

(** A program that has kept descriptor 1 as it was given. *)
Definition to_screen (w : world) : Prop := fd_of w 1 = Stdout.

Lemma os_write_screen w buf n :
  to_screen w -> user_buffer buf n = true ->
  os_write 1 buf n w = Some (n, printed (bytes_in w buf (Z.to_nat n)) w).
Proof.
  intros H1 Hu. pose proof Hu as Hu'. rewrite user_buffer_spec in Hu'. unfold os_write, bad_fd.
  rewrite H1, Hu, (proj2 (Z.ltb_ge n 0)), (proj2 (Z.eqb_neq buf 0)) by lia. done.
Qed.

Lemma write_rule w s buf n (Q : Z -> kernel -> Prop) E :
  abs w s -> to_screen w -> user_buffer buf n = true ->
  (forall t, abs (printed (bytes_in w buf (Z.to_nat n)) w) t -> Q n t) ->
  wp (ece391_write 1 buf n) Q E s.
Proof.
  intros Hw H1 Hu HQ. pose proof Hu as Hu'. rewrite user_buffer_spec in Hu'.
  eapply wp_call; [apply os_writes; unfold int32, word32; lia|exact Hw|by apply os_write_screen|done].
Qed.

Lemma fdputs_rule w s a l E :
  abs w s -> to_screen w -> string_at w a l ->
  wp (ece391_fdputs 1 a) (fun _ t => abs (printed l w) t) E s.
Proof.
  intros Hw H1 Hs. pose proof (sa_user _ _ _ Hs) as Hu. rewrite user_buffer_spec in Hu.
  unfold ece391_fdputs. wp_step. eapply wp_mono; [by eapply strlen_rule| |done]. intros ? t [-> ->].
  wp_step. eapply write_rule; [done|done|rewrite user_buffer_spec; lia|]. intros t Ht. apply wp_ret.
  by rewrite Nat2Z.id, bytes_in_string in Ht.
Qed.

Lemma store_rule w s a v (Q : unit -> kernel -> Prop) E :
  abs w s -> user a = true -> (forall t, abs (stored_byte a (u8 v) w) t -> Q tt t) ->
  wp (ustore8 a v) Q E s.
Proof.
  intros Hw Hu HQ. destruct (os_stores w s a v Hw Hu) as (t & Hr & Ht). wp_use Hr. by apply HQ.
Qed.

End rules.

(** The first closed descriptor is the one [open] gives out. *)
Lemma free_fd_closed w fd : free_fd w = Some fd -> 2 <= fd <= 7 /\ fd_of w fd = Closed.
Proof.
  unfold free_fd. intros Hf. apply find_some in Hf as [Hin Hc]. apply list_elem_of_In, elem_of_seqZ in Hin.
  split; [lia|]. by destruct (fd_of w fd).
Qed.

Lemma fd_of_set w fd d fd' :
  0 <= fd < Z.of_nat (length (w_fds w)) ->
  fd_of (set_fd fd d w) fd' = if fd' =? fd then d else fd_of w fd'.
Proof.
  intros Hfd. unfold fd_of, set_fd, set_w_fds. cbn [w_fds]. unfold aget. rewrite length_insert.
  destruct (Z.eqb_spec fd' fd) as [->|Hne].
  - rewrite (proj2 (Z.leb_le _ _)), (proj2 (Z.ltb_lt _ _)) by lia. cbn [andb].
    by rewrite list_lookup_insert_eq by lia.
  - destruct ((0 <=? fd') && _) eqn:Hb; [|done]. unbool. by rewrite list_lookup_insert_ne by lia.
Qed.

Lemma string_at_stored a n l w :
  user_buffer a (Z.of_nat n) = true -> Forall (fun b => b <> 0) l -> (length l < n)%nat ->
  string_at (stored_bytes a (take n (l ++ replicate n 0)) w) a l.
Proof.
  intros Hu Hc Hl. rewrite user_buffer_spec in Hu. constructor; [rewrite user_buffer_spec; lia| |done].
  intros i b Hi. pose proof (lookup_lt_Some _ _ _ Hi) as Hlt. rewrite length_app in Hlt. simpl in Hlt.
  apply stored_in. rewrite lookup_take_lt by lia. destruct (decide (i < length l)%nat) as [Hin|Hout].
  - rewrite lookup_app_l in Hi by done. by rewrite lookup_app_l.
  - rewrite lookup_app_r in Hi |- * by lia. replace (i - length l)%nat with O in * by lia.
    injection Hi as <-. apply lookup_replicate_2. lia.
Qed.

(** Everything but memory is as it was after a store. *)
Lemma stored_bytes_fields a l w :
  w_arg (stored_bytes a l w) = w_arg w /\ w_entries (stored_bytes a l w) = w_entries w /\
  w_next (stored_bytes a l w) = w_next w /\ w_fds (stored_bytes a l w) = w_fds w /\
  w_screen (stored_bytes a l w) = w_screen w.
Proof. by rewrite (stored_bytes_same a l w). Qed.

(** Files are read 1024 bytes at a time; the last piece is whole too. *)
Definition whole_chunks (size : Z) : Z := 1024 * ((size + 1023) / 1024).

Section cat.
Context `{Env} `{Syscalls} `{Linked} (abs : world -> kernel -> Prop) `{!OS abs}.

(** [cat]'s loop with the first [pos] bytes printed. *)
Definition catting (size : Z) (data : list Z) (fd : Z) (w0 : world) (pos : Z) (s : kernel) : Prop :=
  exists w, abs w s /\ length (w_fds w) = 8%nat /\ to_screen w /\ fd_of w fd = FileAt size data pos /\
    (w_screen w = put_text (take (Z.to_nat pos) data) (w_screen w0) /\ w_next w = w_next w0) /\
    0 <= pos <= whole_chunks size /\ (1024 | pos).

Lemma cat_chunk w buf size data fd pos :
  2 <= fd <= 7 -> fd_of w fd = FileAt size data pos -> user_buffer buf 1024 = true ->
  os_read fd buf 1024 w =
    if size <=? pos then Some (0, w)
    else if pos + 1024 <=? Z.of_nat (length data) then
      Some (1024, set_fd fd (FileAt size data (pos + 1024))
        (stored_bytes buf (take 1024 (drop (Z.to_nat pos) data)) w))
    else None.
Proof.
  intros Hfd Hd Hu. pose proof Hu as Hu'. rewrite user_buffer_spec in Hu'. unfold os_read, bad_fd.
  rewrite Hd, Hu, (proj2 (Z.ltb_ge fd 0)), (proj2 (Z.ltb_ge 7 fd)), (proj2 (Z.eqb_neq buf 0)) by lia.
  cbn [orb andb Z.ltb]. change (1024 <? 0) with false. cbn [orb]. done.
Qed.

Lemma whole_chunks_bounds size : 0 <= size -> size <= whole_chunks size < size + 1024 /\ (1024 | whole_chunks size).
Proof.
  intros Hs. unfold whole_chunks. split; [|by apply Z.divide_factor_l].
  pose proof (Z.div_mod (size + 1023) 1024 ltac:(lia)). pose proof (Z.mod_pos_bound (size + 1023) 1024). lia.
Qed.

Lemma chunk_fits size len pos :
  0 <= size <= len -> (1024 | len) -> (1024 | pos) -> 0 <= pos < size ->
  pos + 1024 <= len /\ pos + 1024 <= whole_chunks size.
Proof.
  intros Hs [a Ha] [b Hb] Hp. destruct (whole_chunks_bounds size) as [Hw [c Hc]]; [lia|]. lia.
Qed.

Lemma catting_done size data fd w0 pos s :
  0 <= size -> catting size data fd w0 pos s -> size <= pos -> pos = whole_chunks size.
Proof.
  intros Hs (w & _ & _ & _ & _ & _ & Hp & [b Hb]) Hge.
  destruct (whole_chunks_bounds size) as [Hw [c Hc]]; [lia|]. lia.
Qed.

Lemma cat_loop_spec s buf size data fd w0 E :
  2 <= fd <= 7 -> user_buffer buf 1024 = true -> 0 <= size <= Z.of_nat (length data) ->
  (1024 | Z.of_nat (length data)) -> Z.of_nat (length data) < 2 ^ 31 ->
  catting size data fd w0 0 s ->
  wp (loop (fun _ : unit =>
    let* cnt := ece391_read fd buf 1024 in
    if 0 =? cnt then ret (inr 0) else
    if -1 =? cnt then ece391_fdputs 1 (line "file read failed") ;; ret (inr 3) else
    let* r := ece391_write 1 buf cnt in
    if -1 =? r then ret (inr 3) else ret (inl tt)) tt)
    (fun r t => r = 0 /\ catting size data fd w0 (whole_chunks size) t) E s.
Proof.
  intros Hfd Hu Hs Hdiv Hlen Hstart. pose proof Hu as Hu'. rewrite user_buffer_spec in Hu'.
  destruct (whole_chunks_bounds size ltac:(lia)) as [Hwb _].
  apply wp_loop_ghost with (I := fun pos _ t => catting size data fd w0 pos t)
    (mu := fun pos => whole_chunks size - pos) (g := 0); [done|unfold loop_fuel; lia|].
  intros pos _ t Hc. pose proof Hc as (w & Hw & Hl & Hsc & Hf & [Hscr Hnx] & Hp & Hd). split; [lia|]. wp_step.
  pose proof (cat_chunk w buf size data fd pos Hfd Hf Hu) as Hread.
  destruct (Z.leb_spec size pos) as [Hge|Hlt].
  - eapply wp_call; [apply os_reads; unfold int32, word32; lia|exact Hw|exact Hread|].
    intros u Hu2. apply wp_ret. split; [done|].
    rewrite <- (catting_done size data fd w0 pos t) by (done || lia). by exists w.
  - destruct (chunk_fits size (Z.of_nat (length data)) pos) as [Hfit Hmore]; [done..|lia|].
    rewrite (proj2 (Z.leb_le _ _)) in Hread by lia.
    eapply wp_call; [apply os_reads; unfold int32, word32; lia|exact Hw|exact Hread|].
    intros u Hu2. cbn [Z.eqb Pos.eqb]. wp_step.
    set (out := take 1024 (drop (Z.to_nat pos) data)) in *. set (w1 := stored_bytes buf out w) in *.
    assert (Lo : length out = 1024%nat) by (unfold out; rewrite length_take_le; [done|rewrite length_drop; lia]).
    destruct (stored_bytes_fields buf out w) as (_ & _ & F3 & F4 & F5). fold w1 in F3, F4, F5.
    assert (Hfd1 : forall fd', fd_of (set_fd fd (FileAt size data (pos + 1024)) w1) fd' =
        if fd' =? fd then FileAt size data (pos + 1024) else fd_of w fd').
    { intros fd'. rewrite fd_of_set by (rewrite F4, Hl; lia). by unfold fd_of; rewrite F4. }
    eapply write_rule; [done|exact Hu2| |done|].
    { unfold to_screen. rewrite Hfd1, (proj2 (Z.eqb_neq 1 fd)) by lia. exact Hsc. }
    intros v Hv. cbn [Z.eqb Pos.eqb]. apply wp_ret. exists (pos + 1024). split; [|lia].
    eexists. split; [exact Hv|]. split_and!; cbn [printed shown w_fds w_screen w_next set_fd set_w_fds].
    + by rewrite length_insert, F4.
    + unfold to_screen. change (fd_of (printed _ ?x) 1) with (fd_of x 1).
      rewrite Hfd1, (proj2 (Z.eqb_neq 1 fd)) by lia. exact Hsc.
    + change (fd_of (printed _ ?x) fd) with (fd_of x fd). by rewrite Hfd1, Z.eqb_refl.
    + rewrite F5, Hscr, <- put_text_app. f_equal.
      change (bytes_in _ buf (Z.to_nat 1024)) with (bytes_in w1 buf 1024).
      rewrite <- Lo. unfold w1. rewrite bytes_in_stored. unfold out.
      replace (Z.to_nat (pos + 1024)) with (Z.to_nat pos + 1024)%nat by lia. by rewrite take_take_drop.
    + by rewrite F3.
    + lia.
    + lia.
    + destruct Hd as [b Hb]. exists (b + 1). lia.
Qed.

(** What [cat] is given: an argument that fits its buffer, a free descriptor. *)
Record cat_ready (w : world) (buf : Z) (nm : list Z) (fd : Z) : Prop := {
  cr_buf : user_buffer buf 1024 = true;
  cr_arg : w_arg w = nm;
  cr_chars : Forall (fun b => b <> 0) nm;
  cr_len : (0 < length nm < 1024)%nat;
  cr_fds : length (w_fds w) = 8%nat;
  cr_out : to_screen w;
  cr_free : free_fd w = Some fd }.

(** The state after [getargs]. *)
Definition with_args (w : world) (buf : Z) : world :=
  stored_bytes buf (take 1024 (w_arg w ++ replicate 1024 0)) w.

Lemma cat_getargs w buf nm fd :
  cat_ready w buf nm fd -> os_getargs buf 1024 w = Some (0, with_args w buf).
Proof.
  intros [Hu Ha Hc Hl Hf Ho Hfree]. pose proof Hu as Hu'. rewrite user_buffer_spec in Hu'.
  unfold os_getargs. rewrite (proj2 (Z.eqb_neq buf 0)), Hu by lia. cbn [Z.leb Z.compare orb].
  rewrite bool_decide_eq_false_2 by (rewrite Ha; by destruct nm; [simpl in Hl; lia|]).
  rewrite Ha, (proj2 (Z.ltb_lt _ _)) by lia. unfold with_args. by rewrite Ha.
Qed.

Lemma cat_name w buf nm fd : cat_ready w buf nm fd -> string_at (with_args w buf) buf nm.
Proof.
  intros Hr. pose proof (cr_arg _ _ _ _ Hr) as Ha. pose proof (cr_len _ _ _ _ Hr).
  unfold with_args. rewrite Ha. apply string_at_stored; [apply Hr|apply Hr|lia].
Qed.

(** [open] of the argument. *)
Lemma cat_open w buf nm fd :
  cat_ready w buf nm fd -> nm <> [46] ->
  os_open buf (with_args w buf) =
    match find_entry nm w with
    | None => Some (-1, with_args w buf)
    | Some (_, Regular size data) => Some (fd, set_fd fd (FileAt size data 0) (with_args w buf))
    | Some (_, Other) => None
    end.
Proof.
  intros Hr Hdot. pose proof (cr_buf _ _ _ _ Hr) as Hu. rewrite user_buffer_spec in Hu.
  pose proof (cr_len _ _ _ _ Hr) as Hl.
  destruct (stored_bytes_fields buf (take 1024 (w_arg w ++ replicate 1024 0)) w) as (_ & F2 & _ & F4 & _).
  fold (with_args w buf) in F2, F4. unfold os_open. rewrite (proj2 (Z.eqb_neq buf 0)) by lia.
  rewrite (string_at_in _ _ nm 1025 (cat_name _ _ _ _ Hr)) by lia.
  destruct nm as [|c nm]; [simpl in Hl; lia|]. rewrite bool_decide_eq_false_2 by done.
  unfold find_entry. rewrite F2. destruct (List.find _ (w_entries w)) as [[nm' [size data|]]|]; [|done..].
  unfold os_take_fd, free_fd, fd_of. rewrite F4. pose proof (cr_free _ _ _ _ Hr) as Hf.
  unfold free_fd, fd_of in Hf. by rewrite Hf.
Qed.

(** [cat] of a file prints it in whole pieces and returns 0. *)
Lemma cat_prints w s buf nm fd nm' size data E :
  abs w s -> cat_ready w buf nm fd -> nm <> [46] -> find_entry nm w = Some (nm', Regular size data) ->
  0 <= size <= Z.of_nat (length data) -> (1024 | Z.of_nat (length data)) ->
  Z.of_nat (length data) < 2 ^ 31 ->
  wp (cat_main buf) (fun r t => r = 0 /\
    catting size data fd w (whole_chunks size) t) E s.
Proof.
  intros Hw Hr Hdot Hfile Hs Hdiv Hlen. pose proof (cr_buf _ _ _ _ Hr) as Hu. rewrite user_buffer_spec in Hu.
  unfold cat_main. wp_step.
  eapply wp_call; [apply os_args; unfold word32, int32; lia|exact Hw|by eapply cat_getargs|].
  intros t1 Hw1. cbn beta. change (0 =? 0) with true. cbn [negb]. wp_step.
  pose proof (cat_open w buf nm fd Hr Hdot) as Hopen. rewrite Hfile in Hopen.
  eapply wp_call; [apply os_opens; unfold word32; lia|exact Hw1|exact Hopen|].
  intros t2 Hw2. destruct (free_fd_closed _ _ (cr_free _ _ _ _ Hr)) as [Hfd _].
  destruct (stored_bytes_fields buf (take 1024 (w_arg w ++ replicate 1024 0)) w) as (_ & _ & F3 & F4 & F5).
  fold (with_args w buf) in F3, F4, F5. pose proof (cr_fds _ _ _ _ Hr) as Hl.
  cbn beta. rewrite (proj2 (Z.eqb_neq (-1) fd)) by lia. apply cat_loop_spec; try done; [apply Hr|].
  assert (Hfd2 : forall fd', fd_of (set_fd fd (FileAt size data 0) (with_args w buf)) fd' =
      if fd' =? fd then FileAt size data 0 else fd_of w fd').
  { intros fd'. rewrite fd_of_set by (rewrite F4, Hl; lia). by unfold fd_of; rewrite F4. }
  destruct (whole_chunks_bounds size ltac:(lia)) as [Hb _].
  eexists. split; [exact Hw2|]. split_and!.
  - cbn [w_fds set_fd set_w_fds]. by rewrite length_insert, F4.
  - unfold to_screen. rewrite Hfd2, (proj2 (Z.eqb_neq 1 fd)) by lia. apply Hr.
  - by rewrite Hfd2, Z.eqb_refl.
  - cbn [w_screen set_fd set_w_fds]. by rewrite F5.
  - cbn [w_next set_fd set_w_fds]. by rewrite F3.
  - lia.
  - lia.
  - by exists 0.
Qed.

(** [cat] of a name no entry has says so and returns 2. *)
Lemma cat_not_found w s buf nm fd E :
  abs w s -> cat_ready w buf nm fd -> nm <> [46] -> find_entry nm w = None ->
  string_at (with_args w buf) (line "file not found") (bytes_of "file not found" ++ [10]) ->
  wp (cat_main buf) (fun r t => r = 2 /\
    abs (printed (bytes_of "file not found" ++ [10]) (with_args w buf)) t) E s.
Proof.
  intros Hw Hr Hdot Hfile Hmsg. pose proof (cr_buf _ _ _ _ Hr) as Hu. rewrite user_buffer_spec in Hu.
  unfold cat_main. wp_step.
  eapply wp_call; [apply os_args; unfold word32, int32; lia|exact Hw|by eapply cat_getargs|].
  intros t1 Hw1. cbn beta. change (0 =? 0) with true. cbn [negb]. wp_step.
  pose proof (cat_open w buf nm fd Hr Hdot) as Hopen. rewrite Hfile in Hopen.
  eapply wp_call; [apply os_opens; unfold word32; lia|exact Hw1|exact Hopen|].
  intros t2 Hw2. cbn beta. change (-1 =? -1) with true. cbn beta iota. wp_step. eapply wp_mono; [eapply fdputs_rule; [done|exact Hw2| |exact Hmsg]| |done].
  - pose proof (cr_out _ _ _ _ Hr) as Ho.
    destruct (stored_bytes_fields buf (take 1024 (w_arg w ++ replicate 1024 0)) w) as (_ & _ & _ & F4 & _).
    fold (with_args w buf) in F4. unfold to_screen, fd_of in *. by rewrite F4.
  - intros ? t3 Ht3. apply wp_ret. by split.
Qed.

End cat.

Lemma bytes_in_length w a n : length (bytes_in w a n) = n.
Proof. unfold bytes_in. by rewrite length_map, length_seqZ, Nat2Z.id. Qed.

Lemma bytes_in_lookup w a n i : (i < n)%nat -> bytes_in w a n !! i = Some (w_mem w (a + Z.of_nat i)).
Proof.
  intros Hi. unfold bytes_in. rewrite list_lookup_fmap, lookup_seqZ_lt by lia. cbn. by rewrite Z.add_0_l.
Qed.

(** A line made of a record that starts with [nm] and a newline stored after
    the name. *)
Lemma line_in w buf nm tail :
  bytes_in (stored_byte (buf + Z.of_nat (length nm)) 10 (stored_bytes buf (nm ++ tail) w)) buf
    (S (length nm)) = nm ++ [10].
Proof.
  apply list_eq_same_length with (S (length nm)); [rewrite length_app; simpl; lia|apply bytes_in_length|].
  intros i x y Hi Hx Hy. rewrite bytes_in_lookup in Hx by done. injection Hx as <-.
  unfold stored_byte, set_w_mem, upd. cbn [w_mem].
  destruct (Z.eqb_spec (buf + Z.of_nat i) (buf + Z.of_nat (length nm))) as [He|Hne].
  - assert (i = length nm) as -> by lia. rewrite lookup_app_r, Nat.sub_diag in Hy by done. by injection Hy.
  - assert (i < length nm)%nat by lia. rewrite lookup_app_l in Hy by done.
    apply stored_in. by rewrite lookup_app_l.
Qed.

Lemma name_record_prefix i nm : exists tail, name_record i nm = nm ++ tail.
Proof.
  destruct i as [|i]; cbn [name_record]; [by eexists|]. unfold padded. rewrite <- app_assoc. by eexists.
Qed.

(** What [ls] prints. *)
Definition ls_output (w : world) : list Z := concat (map (fun nm => nm ++ [10]) (listing w)).

Section ls.
Context `{Env} `{Syscalls} `{Linked} (abs : world -> kernel -> Prop) `{!OS abs}.

(** What [ls] is given: a listing at its start, names that are not empty and
    fit their field, a free descriptor. *)
Record ls_ready (w : world) (buf fd : Z) : Prop := {
  lr_buf : user_buffer buf 33 = true;
  lr_dot : string_at w (lit ".") (bytes_of ".");
  lr_start : w_next w = O;
  lr_count : (length (w_entries w) <= 62)%nat;
  lr_names : Forall (fun e => (0 < length (fst e) <= 32)%nat) (w_entries w);
  lr_fds : length (w_fds w) = 8%nat;
  lr_out : to_screen w;
  lr_free : free_fd w = Some fd }.

(** [ls]'s loop with the first [i] names printed. *)
Definition listed (w0 : world) (fd : Z) (i : nat) (s : kernel) : Prop :=
  exists w, abs w s /\ length (w_fds w) = 8%nat /\ to_screen w /\ fd_of w fd = Directory /\
    w_entries w = w_entries w0 /\ w_next w = i /\
    w_screen w = put_text (concat (map (fun nm => nm ++ [10]) (take i (listing w0)))) (w_screen w0).

Lemma listing_name w i nm :
  Forall (fun e => (0 < length (fst e) <= 32)%nat) (w_entries w) -> listing w !! i = Some nm ->
  (0 < length nm <= 32)%nat.
Proof.
  intros Hn. unfold listing. destruct i as [|i]; [intros [= <-]; simpl; lia|]. cbn.
  intros Hi. apply list_lookup_fmap_Some in Hi as (e & -> & He).
  by apply (Forall_lookup_1 _ _ _ _ Hn He).
Qed.

Lemma ls_name w buf fd i n :
  2 <= fd <= 7 -> fd_of w fd = Directory -> user_buffer buf 33 = true -> 0 <= n -> w_next w = i ->
  os_read fd buf n w = match listing w !! i with
    | Some nm => Some (Z.of_nat (length nm), set_w_next (S i) (stored_bytes buf (name_record i nm) w))
    | None => Some (0, set_w_next 0 w) end.
Proof.
  intros Hfd Hd Hu Hn <-. pose proof Hu as Hu'. rewrite user_buffer_spec in Hu'. unfold os_read, bad_fd.
  rewrite Hd, Hu, (proj2 (Z.ltb_ge fd 0)), (proj2 (Z.ltb_ge 7 fd)), (proj2 (Z.eqb_neq buf 0)),
    (proj2 (Z.ltb_ge n 0)) by lia. done.
Qed.

Lemma ls_step w0 s buf fd i (Q : unit + Z -> kernel -> Prop) E :
  2 <= fd <= 7 -> user_buffer buf 33 = true ->
  Forall (fun e => (0 < length (fst e) <= 32)%nat) (w_entries w0) -> listed w0 fd i s ->
  (i <= length (listing w0))%nat ->
  (i = length (listing w0) -> forall w t, abs w t -> w_next w = O ->
     w_screen w = put_text (ls_output w0) (w_screen w0) -> Q (inr 0) t) ->
  ((i < length (listing w0))%nat -> forall t, listed w0 fd (S i) t -> Q (inl tt) t) ->
  wp (let* cnt := ece391_read fd buf (SBUFSIZE - 1) in
    if 0 =? cnt then ret (inr 0) else
    if -1 =? cnt then ece391_fdputs 1 (line "directory entry read failed") ;; ret (inr 3) else
    ustore8 (buf + cnt) 10 ;;
    let* r := ece391_write 1 buf (cnt + 1) in
    if -1 =? r then ret (inr 3) else ret (inl tt)) Q E s.
Proof.
  intros Hfd Hu Hnames (w & Hw & Hl & Hsc & Hd & He & Hn & Hscr) Hi Hend Hmore.
  pose proof Hu as Hu'. rewrite user_buffer_spec in Hu'.
  assert (Hlist : listing w = listing w0) by (unfold listing; by rewrite He).
  pose proof (ls_name w buf fd i (SBUFSIZE - 1) Hfd Hd Hu ltac:(unfold SBUFSIZE; lia) Hn) as Hread.
  rewrite Hlist in Hread. wp_step.
  destruct (listing w0 !! i) as [nm|] eqn:Hnm.
  - pose proof (listing_name w0 i nm Hnames Hnm) as Hlen.
    eapply wp_call; [apply os_reads; unfold int32, word32, SBUFSIZE; lia|exact Hw|exact Hread|].
    intros t1 Hw1. cbn beta. rewrite (proj2 (Z.eqb_neq 0 _)), (proj2 (Z.eqb_neq (-1) _)) by lia. wp_step.
    eapply store_rule; [done|exact Hw1|eapply user_buffer_user; [exact Hu|lia]|].
    change (u8 10) with 10. intros t2 Hw2. wp_step.
    destruct (name_record_prefix i nm) as (tail & Hrec). rewrite Hrec in Hw2.
    destruct (stored_bytes_fields buf (nm ++ tail) w) as (_ & F2 & _ & F4 & F5).
    set (w1 := stored_bytes buf (nm ++ tail) w) in *.
    eapply write_rule; [done|exact Hw2| |rewrite user_buffer_spec; lia|].
    { unfold to_screen, fd_of in *. cbn. by rewrite F4. }
    intros t3 Hw3. cbn beta. rewrite (proj2 (Z.eqb_neq (-1) _)) by lia. apply wp_ret, Hmore.
    { by eapply lookup_lt_Some. }
    eexists. split; [exact Hw3|]. unfold to_screen, fd_of in *.
    cbn [printed shown w_fds w_entries w_next w_screen stored_byte set_w_mem set_w_next].
    rewrite F2, F4, F5. split_and!; try done. rewrite Hscr, <- put_text_app. f_equal.
    rewrite (take_S_r _ _ _ Hnm), map_app, concat_app. f_equal. cbn [map concat]. rewrite app_nil_r.
    replace (Z.to_nat (Z.of_nat (length nm) + 1)) with (S (length nm)) by lia.
    exact (line_in w buf nm tail).
  - eapply wp_call; [apply os_reads; unfold int32, word32, SBUFSIZE; lia|exact Hw|exact Hread|].
    intros t1 Hw1. cbn beta. change (0 =? 0) with true. cbn iota. apply lookup_ge_None in Hnm.
    apply wp_ret, (Hend ltac:(lia) _ _ Hw1 eq_refl). cbn [w_screen set_w_next].
    rewrite Hscr. by rewrite take_ge.
Qed.

(** [ls] prints every name on a line of its own, the directory's first, and
    leaves the listing at its start. *)
Lemma ls_prints w0 s buf fd E :
  abs w0 s -> ls_ready w0 buf fd ->
  wp (ls_main buf) (fun r t => r = 0 /\ exists w, abs w t /\ w_next w = O /\
    w_screen w = put_text (ls_output w0) (w_screen w0)) E s.
Proof.
  intros Hw [Hu Hdot Hstart Hcount Hnames Hl Hout Hfree]. destruct (free_fd_closed _ _ Hfree) as [Hfd _].
  pose proof (sa_user _ _ _ Hdot) as Hud. rewrite user_buffer_spec in Hud. simpl in Hud.
  unfold ls_main. wp_step.
  assert (Hopen : os_open (lit ".") w0 = Some (fd, set_fd fd Directory w0)).
  { unfold os_open. rewrite (proj2 (Z.eqb_neq _ 0)) by lia.
    rewrite (string_at_in w0 (lit ".") (bytes_of ".") 1025 Hdot) by (simpl; lia). cbn [bytes_of Z.of_N].
    rewrite bool_decide_eq_true_2 by done. unfold os_take_fd. by rewrite Hfree. }
  eapply wp_call; [apply os_opens; unfold word32; lia|exact Hw|exact Hopen|].
  intros t1 Hw1. cbn beta. rewrite (proj2 (Z.eqb_neq (-1) fd)) by lia.
  assert (Hfd1 : forall fd', fd_of (set_fd fd Directory w0) fd' = if fd' =? fd then Directory else fd_of w0 fd').
  { intros fd'. by rewrite fd_of_set by (rewrite Hl; lia). }
  apply wp_loop_ghost with (I := fun i _ t => listed w0 fd i t /\ (i <= length (listing w0))%nat)
    (mu := fun i => Z.of_nat (length (listing w0)) - Z.of_nat i) (g := O).
  - split; [|lia]. eexists. split; [exact Hw1|]. split_and!; try done.
    + cbn. by rewrite length_insert.
    + unfold to_screen. by rewrite Hfd1, (proj2 (Z.eqb_neq 1 fd)) by lia.
    + by rewrite Hfd1, Z.eqb_refl.
  - unfold listing, loop_fuel. cbn [length]. rewrite length_map. lia.
  - intros i _ t [Hi Hle]. split; [lia|]. eapply (ls_step w0 t buf fd i); [done|done|done|done|done| |].
    + intros _ w u Hu1 Hn Hs. split; [done|]. by exists w.
    + intros Hlt u Hu1. exists (S i). split; [split; [done|lia]|lia].
Qed.

End ls.

(** * The system call tests *)

Definition pass_line (name : string) : list Z := bytes_of (name ++ ": PASS") ++ [10].
Definition test_names : list string :=
  ["err_neg_fd"; "err_big_fd"; "err_open_lots"; "err_open"; "err_unopened"; "err_vidmap";
   "err_stdin_out"; "err_syscall_num"]%string.
Definition overall_line : list Z := 10 :: bytes_of "Overall Tests: PASS" ++ [10].

(** What [syserr] prints when every test passes. *)
Definition all_passed : list Z := concat (map pass_line test_names) ++ overall_line.

Section tests.
Context `{Env} `{Syscalls} `{Linked} (abs : world -> kernel -> Prop) `{!OS abs}.

(** A process that has opened nothing, the literals of [syserr] where the linker
    put them, and a directory without the names the test makes up. *)
Record test_world (w : world) : Prop := {
  tw_fds : w_fds w = Stdin :: Stdout :: replicate 6 Closed;
  tw_pass : Forall (fun name => string_at w (line (name ++ ": PASS")) (pass_line name)) test_names;
  tw_overall : string_at w (overall "Overall Tests: PASS") overall_line;
  tw_open : Forall (fun name => string_at w (lit name) (bytes_of name)) ["."; "helloo"; "shel"; ""]%string;
  tw_helloo : find_entry (bytes_of "helloo") w = None;
  tw_shel : find_entry (bytes_of "shel") w = None }.

Lemma test_world_printed w l : test_world w -> test_world (printed l w).
Proof.
  intros [H1' H2 H3 H4 H5 H6]. constructor; try done.
  - eapply Forall_impl; [exact H2|]. intros name. by apply string_at_frame.
  - by apply (string_at_frame w).
  - eapply Forall_impl; [exact H4|]. intros name. by apply string_at_frame.
Qed.

Lemma test_world_screen w : test_world w -> to_screen w.
Proof. intros Hw. unfold to_screen, fd_of. by rewrite (tw_fds _ Hw). Qed.

(** The call fails and nothing changes. *)
Definition fails_in (m : K Z) (w : world) : Prop :=
  forall s, abs w s -> exists t, m s = Ret (-1) t /\ abs w t.

Lemma fails_spec m spec w : implements abs m spec -> spec w = Some (-1, w) -> fails_in m w.
Proof. intros Hm Hspec s Hs. by apply (Hm w s _ _ Hs Hspec). Qed.

Lemma expect_rule m message fail w s (Q : Z -> kernel -> Prop) E :
  fails_in m w -> abs w s -> (forall t, abs w t -> Q fail t) -> wp (expect_failure m message fail) Q E s.
Proof.
  intros Hm Hs HQ. unfold expect_failure. wp_step. destruct (Hm s Hs) as (t & Hr & Ht). wp_use Hr.
  apply wp_ret. by apply HQ.
Qed.

Lemma expect_all_rule from call message fail w s (Q : Z -> kernel -> Prop) E :
  0 <= from <= 8 -> (forall i, from <= i < 8 -> fails_in (call i) w) -> abs w s ->
  (forall t, abs w t -> Q fail t) -> wp (expect_failures from call message fail) Q E s.
Proof.
  intros Hfrom Hcall Hs HQ. unfold expect_failures.
  apply wp_loop with (I := fun p t => from <= fst p <= 8 /\ snd p = fail /\ abs w t)
    (mu := fun p _ => 8 - fst p); [cbn; split_and!; [lia|lia|done|done]|unfold loop_fuel; cbn; lia|].
  intros [i f] t (Hi & -> & Ht). cbn [fst snd] in *. split; [lia|]. destruct (Z.ltb_spec i 8).
  - wp_step. eapply expect_rule; [apply Hcall; lia|exact Ht|]. intros u Hu. apply wp_ret. cbn [fst snd].
    split_and!; [lia|lia|done|done|lia].
  - apply wp_ret. by apply HQ.
Qed.

(** How a test ends when everything failed as it should. *)
Definition passes (name : string) (w : world) (m : K Z) : Prop := forall s E, abs w s ->
  wp m (fun r t => r = 0 /\ abs (printed (pass_line name) w) t) E s.

Lemma report_rule name w : test_world w -> name ∈ test_names -> passes name w (report_test name 0).
Proof.
  intros Hw Hin s E Hs. unfold report_test. cbn [Z.eqb negb]. wp_step.
  pose proof (tw_pass _ Hw) as Hp. rewrite Forall_forall in Hp.
  eapply wp_mono; [eapply (fdputs_rule abs w s); [exact Hs|by apply test_world_screen|by apply Hp]| |done].
  intros ? t Ht. by apply wp_ret.
Qed.

Lemma bad_read w fd buf n :
  int32 fd -> word32 buf -> int32 n -> bad_fd w fd buf n = true -> fails_in (ece391_read fd buf n) w.
Proof.
  intros Hfd Hb Hn Hbad. eapply fails_spec; [by apply os_reads|]. unfold os_read. by rewrite Hbad.
Qed.

Lemma bad_write w fd buf n :
  int32 fd -> word32 buf -> int32 n -> bad_fd w fd buf n = true -> fails_in (ece391_write fd buf n) w.
Proof.
  intros Hfd Hb Hn Hbad. eapply fails_spec; [by apply os_writes|]. unfold os_write. by rewrite Hbad.
Qed.

Lemma bad_close w fd : int32 fd -> fd_of w fd = Closed \/ fd < 2 \/ 7 < fd -> fails_in (ece391_close fd) w.
Proof.
  intros Hfd Hc. eapply fails_spec; [by apply os_closes|]. unfold os_close.
  destruct (Z.ltb_spec fd 2), (Z.ltb_spec 7 fd); cbn [orb]; try done.
  destruct Hc as [->|?]; [done|lia].
Qed.

Lemma neg_fd_passes w buf : test_world w -> word32 buf -> passes "err_neg_fd" w (err_neg_fd buf).
Proof.
  intros Hw Hb s E Hs. unfold err_neg_fd. assert (Hn : int32 NEG_FD) by (unfold int32, NEG_FD; lia).
  wp_step. eapply expect_rule; [apply bad_read; try done; unfold int32; lia|exact Hs|]. intros s1 Hs1.
  wp_step. eapply expect_rule; [apply bad_write; try done; unfold int32; lia|exact Hs1|]. intros s2 Hs2.
  wp_step. eapply expect_rule; [apply bad_close; [done|right; left; unfold NEG_FD; lia]|exact Hs2|]. intros s3 Hs3.
  apply report_rule; [done|set_solver|done].
Qed.

Lemma big_fd_passes w buf : test_world w -> word32 buf -> passes "err_big_fd" w (err_big_fd buf).
Proof.
  intros Hw Hb s E Hs. unfold err_big_fd. assert (Hn : int32 BIG_FD) by (unfold int32, BIG_FD; lia).
  wp_step. eapply expect_rule; [apply bad_read; try done; unfold int32; lia|exact Hs|]. intros s1 Hs1.
  wp_step. eapply expect_rule; [apply bad_write; try done; unfold int32; lia|exact Hs1|]. intros s2 Hs2.
  wp_step. eapply expect_rule; [apply bad_close; [done|right; right; unfold BIG_FD; lia]|exact Hs2|]. intros s3 Hs3.
  apply report_rule; [done|set_solver|done].
Qed.

Lemma name_placed w name :
  test_world w -> name ∈ ["."; "helloo"; "shel"; ""]%string -> string_at w (lit name) (bytes_of name).
Proof. intros Hw Hin. pose proof (tw_open _ Hw) as Ho. rewrite Forall_forall in Ho. by apply Ho. Qed.

Lemma placed_word w a l : string_at w a l -> word32 a /\ a <> 0.
Proof. intros Hs. pose proof (sa_user _ _ _ Hs) as Hu. rewrite user_buffer_spec in Hu. unfold word32. lia. Qed.

Lemma missing_open w name :
  test_world w -> name ∈ ["."; "helloo"; "shel"; ""]%string ->
  name = ""%string \/ (bytes_of name <> [46] /\ find_entry (bytes_of name) w = None) ->
  (length (bytes_of name) < 1025)%nat -> fails_in (ece391_open (lit name)) w.
Proof.
  intros Hw Hin Hc Hlen. pose proof (name_placed w name Hw Hin) as Hs. destruct (placed_word _ _ _ Hs) as [Hwd Hn0].
  eapply fails_spec; [by apply os_opens|]. unfold os_open. rewrite (proj2 (Z.eqb_neq _ 0)) by done.
  rewrite (string_at_in _ _ _ 1025 Hs) by done. destruct Hc as [->|[Hdot Hnone]]; [done|].
  destruct (bytes_of name); [done|]. rewrite bool_decide_eq_false_2 by done. by rewrite Hnone.
Qed.

Lemma open_passes w : test_world w -> passes "err_open" w err_open.
Proof.
  intros Hw s E Hs. unfold err_open.
  wp_step. eapply expect_rule; [apply missing_open; [done|set_solver|right; split; [done|by apply Hw]|simpl; lia]|exact Hs|].
  intros s1 Hs1. wp_step.
  eapply expect_rule; [apply missing_open; [done|set_solver|right; split; [done|by apply Hw]|simpl; lia]|exact Hs1|].
  intros s2 Hs2. wp_step.
  eapply expect_rule; [apply missing_open; [done|set_solver|by left|simpl; lia]|exact Hs2|].
  intros s3 Hs3. apply report_rule; [done|set_solver|done].
Qed.

Lemma fd_closed w i : test_world w -> 2 <= i < 8 -> fd_of w i = Closed.
Proof.
  intros Hw Hi. unfold fd_of. rewrite (tw_fds _ Hw).
  assert (i = 2 \/ i = 3 \/ i = 4 \/ i = 5 \/ i = 6 \/ i = 7) as Hc by lia.
  by destruct Hc as [->|[->|[->|[->|[->| ->]]]]].
Qed.

Lemma closed_bad w i buf n : test_world w -> 2 <= i < 8 -> bad_fd w i buf n = true.
Proof. intros Hw Hi. unfold bad_fd. rewrite (fd_closed w i) by done. by rewrite !orb_true_r. Qed.

Lemma unopened_passes w buf : test_world w -> word32 buf -> passes "err_unopened" w (err_unopened buf).
Proof.
  intros Hw Hb s E Hs. unfold err_unopened. wp_step.
  eapply expect_all_rule; [lia| |exact Hs|].
  { intros i Hi. apply bad_close; [unfold int32; lia|]. destruct (Z.lt_ge_cases i 2); [by right; left|]. left. apply fd_closed; [done|lia]. }
  intros s1 Hs1. wp_step. eapply expect_all_rule; [lia| |exact Hs1|].
  { intros i Hi. apply bad_read; [unfold int32; lia|done|unfold int32; lia|by apply closed_bad]. }
  intros s2 Hs2. wp_step. eapply expect_all_rule; [lia| |exact Hs2|].
  { intros i Hi. apply bad_write; [unfold int32; lia|done|unfold int32; lia|by apply closed_bad]. }
  intros s3 Hs3. apply report_rule; [done|set_solver|done].
Qed.

Lemma vidmap_passes w : test_world w -> passes "err_vidmap" w err_vidmap.
Proof.
  intros Hw s E Hs. unfold err_vidmap.
  wp_step. eapply expect_rule; [eapply fails_spec; [apply os_no_window; lia|done]|exact Hs|]. intros s1 Hs1.
  wp_step. eapply expect_rule; [eapply fails_spec; [apply os_no_window; lia|done]|exact Hs1|]. intros s2 Hs2.
  apply report_rule; [done|set_solver|done].
Qed.

Lemma stdin_out_passes w buf : test_world w -> word32 buf -> passes "err_stdin_out" w (err_stdin_out buf).
Proof.
  intros Hw Hb s E Hs. unfold err_stdin_out.
  assert (Hwr : os_write 0 buf 31 w = Some (-1, w)).
  { unfold os_write. destruct (bad_fd w 0 buf 31); [done|]. unfold fd_of. by rewrite (tw_fds _ Hw). }
  assert (Hrd : os_read 1 buf 31 w = Some (-1, w)).
  { unfold os_read. destruct (bad_fd w 1 buf 31); [done|]. unfold fd_of. by rewrite (tw_fds _ Hw). }
  wp_step. eapply expect_rule; [eapply fails_spec; [apply os_writes; unfold int32; (done || lia)|done]|exact Hs|].
  intros s1 Hs1. wp_step.
  eapply expect_rule; [eapply fails_spec; [apply os_reads; unfold int32; (done || lia)|done]|exact Hs1|].
  intros s2 Hs2. apply report_rule; [done|set_solver|done].
Qed.

Lemma syscall_num_passes w : test_world w -> passes "err_syscall_num" w err_syscall_num.
Proof.
  intros Hw s E Hs. unfold err_syscall_num, call_sys, BIG_NUM, NEG_NUM.
  assert (Hno : forall num, ~ 1 <= u32 num <= 10 -> fails_in (int_0x80 (u32 num)) w).
  { intros num Hn. eapply fails_spec; [apply os_no_call; [apply u32_range|done]|done]. }
  wp_step. eapply expect_rule; [apply Hno; by vm_compute; intros [??]|exact Hs|]. intros s1 Hs1.
  wp_step. eapply expect_rule; [apply Hno; by vm_compute; intros [??]|exact Hs1|]. intros s2 Hs2.
  wp_step. eapply expect_rule; [apply Hno; by vm_compute; intros [??]|exact Hs2|]. intros s3 Hs3.
  apply report_rule; [done|set_solver|done].
Qed.

(** The descriptors after [i] successful opens, and after [i] closes. *)
Definition opened (i : nat) (w : world) : world :=
  set_w_fds (Stdin :: Stdout :: replicate i Directory ++ replicate (6 - i) Closed) w.
Definition reclosed (i : nat) (w : world) : world :=
  set_w_fds (Stdin :: Stdout :: replicate i Closed ++ replicate (6 - i) Directory) w.

Lemma opened_start w : test_world w -> opened 0 w = w.
Proof. intros Hw. pose proof (tw_fds _ Hw) as Hf. destruct w. cbn in Hf. by rewrite Hf. Qed.

Lemma reclosed_end w : test_world w -> reclosed 6 w = w.
Proof. intros Hw. pose proof (tw_fds _ Hw) as Hf. destruct w. cbn in Hf. by rewrite Hf. Qed.

Lemma os_open_dot w i :
  test_world w -> (i <= 6)%nat ->
  os_open (lit ".") (opened i w) =
    if (i <? 6)%nat then Some (2 + Z.of_nat i, opened (S i) w) else Some (-1, opened i w).
Proof.
  intros Hw Hi. pose proof (name_placed w "." Hw ltac:(set_solver)) as Hs.
  destruct (placed_word _ _ _ Hs) as [_ Hn0]. unfold os_open. rewrite (proj2 (Z.eqb_neq _ 0)) by done.
  assert (Hs' : string_at (opened i w) (lit ".") (bytes_of ".")) by by apply (string_at_frame w).
  rewrite (string_at_in _ _ _ 1025 Hs') by (simpl; lia). cbn [bytes_of]. rewrite bool_decide_eq_true_2 by done.
  assert (i = 0 \/ i = 1 \/ i = 2 \/ i = 3 \/ i = 4 \/ i = 5 \/ i = 6)%nat as Hc by lia.
  by destruct Hc as [->|[->|[->|[->|[->|[->| ->]]]]]].
Qed.

Lemma os_reclose w i :
  (i < 6)%nat -> os_close (2 + Z.of_nat i) (reclosed i w) = Some (0, reclosed (S i) w).
Proof.
  intros Hi. assert (i = 0 \/ i = 1 \/ i = 2 \/ i = 3 \/ i = 4 \/ i = 5)%nat as Hc by lia.
  by destruct Hc as [->|[->|[->|[->|[->| ->]]]]].
Qed.

Lemma open_lots_passes w : test_world w -> passes "err_open_lots" w err_open_lots.
Proof.
  intros Hw s E Hs. unfold err_open_lots. wp_step.
  destruct (placed_word _ _ _ (name_placed w "." Hw ltac:(set_solver))) as [Hdot _].
  apply wp_loop with (I := fun ic t => exists i : nat, (i <= 7)%nat /\ fst ic = Z.of_nat i /\
      snd ic = (if (i <? 7)%nat then 0 else 1) /\ abs (opened (i `min` 6) w) t)
    (mu := fun ic _ => 7 - fst ic).
  { exists O. split_and!; [lia|done|done|]. by rewrite opened_start. }
  { unfold loop_fuel. cbn. lia. }
  intros [i c] t (n & Hn & Hi & Hc & Ht). cbn [fst snd] in *. subst i c. split; [lia|].
  destruct (Z.ltb_spec (Z.of_nat n) 7).
  - wp_step. pose proof (os_open_dot w n Hw ltac:(lia)) as Ho. replace (n `min` 6)%nat with n in Ht by lia.
    rewrite (proj2 (Nat.ltb_lt n 7)) by lia. destruct (Nat.ltb_spec n 6).
    + eapply wp_call; [by apply os_opens|exact Ht|exact Ho|]. intros u Hu. apply wp_ret. cbn [fst snd].
      rewrite (proj2 (Z.eqb_neq (-1) _)) by lia. split; [|lia]. exists (S n).
      rewrite (proj2 (Nat.ltb_lt (S n) 7)) by lia. replace (S n `min` 6)%nat with (S n) by lia.
      split_and!; [lia|lia|done|done].
    + eapply wp_call; [by apply os_opens|exact Ht|exact Ho|]. intros u Hu. apply wp_ret. cbn [fst snd].
      split; [|lia]. exists (S n). assert (n = 6)%nat as -> by lia. split_and!; [lia|done|done|done].
  - apply wp_ret. assert (n = 7)%nat as -> by lia. cbn [Nat.ltb Nat.leb]. wp_step.
    change (opened (7 `min` 6) w) with (reclosed 0 w) in Ht.
    apply (wp_for_up (fun i t => exists n, (n <= 6)%nat /\ i = 2 + Z.of_nat n /\ abs (reclosed n w) t)).
    + exists O. split_and!; [lia|done|done].
    + intros j u Hj (m & Hm & -> & Hu). wp_step.
      eapply wp_call; [apply os_closes; unfold int32; lia|exact Hu|apply os_reclose; lia|].
      intros v Hv. apply wp_ret. exists (S m). split_and!; [lia|lia|done].
    + intros u (m & Hm & Hj & Hu). assert (m = 6)%nat as -> by lia. rewrite (reclosed_end w Hw) in Hu.
      change (1 =? 1) with true. cbn iota. wp_step.
      pose proof (tw_pass _ Hw) as Hp. rewrite Forall_forall in Hp.
      eapply wp_mono; [eapply (fdputs_rule abs w u); [exact Hu|by apply test_world_screen|]| |done].
      * apply (Hp "err_open_lots"%string). set_solver.
      * intros ? v Hv. apply wp_ret. by split.
Qed.

(** One more test. *)
Lemma passes_next name w (m : K Z) (k : Z -> K Z) s (Q : Z -> kernel -> Prop) E :
  passes name w m -> abs w s ->
  (forall t, abs (printed (pass_line name) w) t -> wp (k 0) Q E t) -> wp (bind m k) Q E s.
Proof.
  intros Hm Hs HQ. wp_step. eapply wp_mono; [by apply Hm| |done]. intros ? t [-> Ht]. by apply HQ.
Qed.

(** All tests pass, and nothing but the screen changes. *)
Lemma all_tests_pass w s buf E :
  abs w s -> test_world w -> word32 buf ->
  wp (run_all_tests buf) (fun r t => r = 0 /\ abs (printed all_passed w) t) E s.
Proof.
  intros Hs Hw Hb. unfold run_all_tests.
  pose proof (test_world_printed w (pass_line "err_neg_fd") Hw) as W1.
  set (w1 := printed (pass_line "err_neg_fd") w) in *.
  pose proof (test_world_printed w1 (pass_line "err_big_fd") W1) as W2.
  set (w2 := printed (pass_line "err_big_fd") w1) in *.
  pose proof (test_world_printed w2 (pass_line "err_open_lots") W2) as W3.
  set (w3 := printed (pass_line "err_open_lots") w2) in *.
  pose proof (test_world_printed w3 (pass_line "err_open") W3) as W4.
  set (w4 := printed (pass_line "err_open") w3) in *.
  pose proof (test_world_printed w4 (pass_line "err_unopened") W4) as W5.
  set (w5 := printed (pass_line "err_unopened") w4) in *.
  pose proof (test_world_printed w5 (pass_line "err_vidmap") W5) as W6.
  set (w6 := printed (pass_line "err_vidmap") w5) in *.
  pose proof (test_world_printed w6 (pass_line "err_stdin_out") W6) as W7.
  set (w7 := printed (pass_line "err_stdin_out") w6) in *.
  pose proof (test_world_printed w7 (pass_line "err_syscall_num") W7) as W8.
  eapply (passes_next _ w); [by apply neg_fd_passes|exact Hs|]. intros t1 Ht1.
  eapply (passes_next _ w1); [by apply big_fd_passes|exact Ht1|]. intros t2 Ht2.
  eapply (passes_next _ w2); [by apply open_lots_passes|exact Ht2|]. intros t3 Ht3.
  eapply (passes_next _ w3); [by apply open_passes|exact Ht3|]. intros t4 Ht4.
  eapply (passes_next _ w4); [by apply unopened_passes|exact Ht4|]. intros t5 Ht5.
  eapply (passes_next _ w5); [by apply vidmap_passes|exact Ht5|]. intros t6 Ht6.
  eapply (passes_next _ w6); [by apply stdin_out_passes|exact Ht6|]. intros t7 Ht7.
  eapply (passes_next _ w7); [by apply syscall_num_passes|exact Ht7|]. intros t8 Ht8.
  cbn [Z.add Z.eqb negb]. wp_step.
  eapply wp_mono; [eapply fdputs_rule; [done|exact Ht8|by apply test_world_screen|apply W8]| |done].
  intros ? t9 Ht9. apply wp_ret. split; [done|]. revert Ht9. clear.
  assert (Hc : forall l m x, printed m (printed l x) = printed (l ++ m) x).
  { intros l m x. unfold printed. cbn. by rewrite put_text_app. }
  unfold w7, w6, w5, w4, w3, w2, w1. rewrite !Hc. unfold all_passed, test_names. cbn [map concat].
  by rewrite app_nil_r, <- !app_assoc.
Qed.

End tests.
