(* ===== verification/Runs.v ===== *)
(** The relation between the state of the kernel and the abstract machine of the
    program that runs, and the proof that the system calls made through
    [int 0x80] implement the interface [OS] on it. *)
From stdpp Require Import base numbers list gmap strings.
From Stdlib Require Import ZArith Lia.
From S2P Require Import Prelude Machine Strings Console Paging FileSys Terminal Descriptors.
From S2P Require Import Process Execute Syscall Support Os Programs Clients.

(** The stubs of [ece391syscall.S]: the call number in [%eax], the first three
    words of the caller's stack, whatever they are, in the other registers.
    [irqs] are the interrupts served while a read waits. *)
Definition kernel_syscalls `{Env} (irqs : list (K unit)) : Syscalls := {|
  ece391_halt := fun status => system_call_asm irqs 1 (u32 status) 0 0;
  ece391_execute := fun command => system_call_asm irqs 2 command 0 0;
  ece391_read := fun fd buf n => system_call_asm irqs 3 (u32 fd) buf (u32 n);
  ece391_write := fun fd buf n => system_call_asm irqs 4 (u32 fd) buf (u32 n);
  ece391_open := fun name => system_call_asm irqs 5 name 0 0;
  ece391_close := fun fd => system_call_asm irqs 6 (u32 fd) 0 0;
  ece391_getargs := fun buf n => system_call_asm irqs 7 buf (u32 n) 0;
  ece391_vidmap := fun p => system_call_asm irqs 8 p 0 0;
  ece391_set_handler := fun signum handler => system_call_asm irqs 9 (u32 signum) handler 0;
  ece391_sigreturn := system_call_asm irqs 10 0 0 0;
  int_0x80 := fun num => system_call_asm irqs num 0 0 0 |}.

Definition dir_table : fops := Fops fn_dir_open fn_dir_close fn_dir_read fn_dir_write.

(** * The relation *)

(** Inode [ino] holds a file of [size] bytes whose blocks hold [data]. *)
Definition file_at `{Env} (s : kernel) (ino size : Z) (data : list Z) : Prop :=
  exists ds dot blocks md mi, image s ds dot ino size blocks data md mi /\ ino < mi /\
    0 <= size <= Z.of_nat (length data) /\ Z.of_nat (length data) <= 4096 * 1022 /\
    Z.of_nat (length data) <= 4096 * md.

(** A directory entry and its abstract counterpart. *)
Definition entry_is `{Env} (s : kernel) (d : dentry) (e : list Z * content) : Prop :=
  dname d = fst e /\
  match snd e with
  | Regular size data => file_type_ d = FILE_TYPE /\ file_at s (inode_num_ d) size data
  | Other => True
  end.

(** A descriptor of the control block and its abstract counterpart. *)
Definition fd_is `{Env} (s : kernel) (d : file_array) (a : descr) : Prop :=
  match a with
  | Closed => flags_ d = 0
  | Stdin => flags_ d = 1 /\ pointer_ d = stdin_table
  | Stdout => flags_ d = 1 /\ pointer_ d = stdout_table
  | FileAt size data pos => flags_ d = 1 /\ pointer_ d = file_table /\ file_position_ d = pos /\
      0 <= pos <= Z.of_nat (length data) /\ file_at s (inode_ d) size data
  | Directory => flags_ d = 1 /\ pointer_ d = dir_table
  end.

(** The file system of [s] has the entries of [w]; the unused ones are blank. *)
Record fs_is `{Env} (s : kernel) (w : world) (ds : list dentry) (dot : dentry) : Prop := {
  fi_dir : directory s (boot_block_addr (fsg s)) ds dot;
  fi_range : 0x400000 <= boot_block_addr (fsg s) /\ boot_block_addr (fsg s) + KB4 <= 0x800000;
  fi_count : word_at s (dir_entry_num_at (boot_block_addr (fsg s))) (Z.of_nat (length (w_entries w)) + 1);
  fi_few : (length (w_entries w) <= 62)%nat;
  fi_next : directory_index (fsg s) = Z.of_nat (w_next w) - 1 /\
    (w_next w <= length (w_entries w) + 1)%nat;
  fi_dot : file_type_ dot = DIR_TYPE;
  fi_entries : Forall2 (entry_is s) (take (length (w_entries w)) ds) (w_entries w);
  fi_blank : Forall (fun d => dname d = []) (drop (length (w_entries w)) ds);
  fi_tables : file_fops (prc s) = file_table /\ dir_fops (prc s) = dir_table }.

(** The control block of the running process. *)
Record process_is `{Env} (s : kernel) (w : world) (p : pcb) : Prop := {
  pi_arg : cstring (argument p) = Some (w_arg w);
  pi_bytes : bytes (w_arg w);
  pi_len : (length (argument p) <= 128)%nat;
  pi_fds : length (file_descriptor p) = 8%nat;
  pi_fd : Forall2 (fd_is s) (file_descriptor p) (w_fds w) }.

(** Physical memory holds the program's page of process [k]. *)
Definition frame_of (k a : Z) : Z := EIGHT_MB + k * FOUR_MB + (a - 0x8000000).
Definition user_mem (k : Z) (s : kernel) (w : world) : Prop :=
  forall a, user a = true -> mem (mach s) !! frame_of k a = Some (w_mem w a) /\ 0 <= w_mem w a < 256.

(** The page of process [k]. *)
Definition in_frame (k c : Z) : Prop := EIGHT_MB + k * FOUR_MB <= c < EIGHT_MB + (k + 1) * FOUR_MB.

(** The process number [j] can be given to a new program: memory backs its page
    and descriptor 7 of its control block, which [init_pcb] does not touch, is
    closed. *)
Record spare `{Env} (j : Z) (s : kernel) : Prop := {
  sp_page : forall c, in_frame j c -> exists b, mem (mach s) !! c = Some b /\ 0 <= b < 256;
  sp_fds : length (file_descriptor (old_pcb s (pcb_addr j))) = 8%nat;
  sp_seven : exists d, aget (file_descriptor (old_pcb s (pcb_addr j))) 7 = Some d /\ flags_ d = 0 }.

(** [own] are the process numbers of the running program and of those it may
    start; the bytes of memory that are neither in their pages nor on the page
    the running program prints on are foreign. *)
Definition foreign (own : Z -> Prop) (s : kernel) (c : Z) : Prop :=
  0 <= c /\ (forall j, 0 <= j < 6 -> own j -> ~ in_frame j c) /\ ~ (page_of s <= c < page_of s + 4000).

(** What the program in page [k] leaves alone: all of the kernel's state but its
    descriptors and the frame saved for a program to return to, the control
    blocks of the programs it starts, the place in the listing, the cursor of
    its terminal, and all foreign memory. *)
Record others `{Env} (own : Z -> Prop) (k : Z) (s t : kernel) : Prop := {
  ot_pgs : pgs t = pgs s;
  ot_cpu : tss t = tss s /\ pics t = pics s /\ idt t = idt s;
  ot_kb : kb t = kb s;
  ot_frame : ebp (mach t) = ebp (mach s) /\ esp (mach t) = esp (mach s);
  ot_fsg : fsg t = Fsys (boot_block_addr (fsg s)) (inode_addr (fsg s)) (data_block_addr (fsg s))
    (directory_index (fsg t));
  ot_cur : current_terminal (ttys t) = current_terminal (ttys s) /\
    curr_scheduler (ttys t) = curr_scheduler (ttys s);
  ot_term_pcbs : map term_pcb (terminal (ttys t)) = map term_pcb (terminal (ttys s));
  ot_terms : forall j, j <> curr_scheduler (ttys s) ->
    aget (terminal (ttys t)) j = aget (terminal (ttys s)) j;
  ot_pids : pid (prc t) = pid (prc s) /\ process_counter (prc t) = process_counter (prc s) /\
    global_halt (prc t) = global_halt (prc s);
  ot_ops : same_tables (prc s) (prc t);
  ot_pcb : forall p, pcbs (prc s) !! pcb_addr k = Some p -> exists fds bp sp,
    pcbs (prc t) !! pcb_addr k = Some (set_halt_frame bp sp (set_file_descriptor fds p));
  ot_pcbs : forall a, (forall j, 0 <= j < 6 -> own j -> a <> pcb_addr j) -> pcbs (prc t) !! a = pcbs (prc s) !! a;
  ot_spare : forall j, 0 <= j < 6 -> j <> k -> spare j s -> spare j t;
  ot_mem : forall c, foreign own s c -> mem (mach t) !! c = mem (mach s) !! c }.

Section user_kernel.
Context `{Env}.
Hypothesis linked : table_linked.

(** ** What is left alone *)

Lemma term_pcb_at s t j T :
  map term_pcb (terminal (ttys t)) = map term_pcb (terminal (ttys s)) ->
  aget (terminal (ttys s)) j = Some T ->
  exists T', aget (terminal (ttys t)) j = Some T' /\ term_pcb T' = term_pcb T.
Proof.
  intros Hm HT. pose proof (f_equal length Hm) as Hl. rewrite !length_map in Hl.
  unfold aget in *. rewrite Hl. destruct (_ && _); [|done].
  apply (f_equal (fun l => l !! Z.to_nat j)) in Hm. change (map term_pcb ?l) with (term_pcb <$> l) in Hm.
  cbn beta in Hm. rewrite !list_lookup_fmap, HT in Hm.
  destruct (terminal (ttys t) !! Z.to_nat j) as [T'|]; [|done]. exists T'. split; [done|]. by injection Hm.
Qed.

(** The process numbers the running program, [k], owns. *)
Variable own : Z -> Prop.

Lemma others_running k s t p :
  others own k s t -> running s (pcb_addr k) p ->
  exists fds bp sp, running t (pcb_addr k) (set_halt_frame bp sp (set_file_descriptor fds p)).
Proof.
  intros Ho (T & HT & Ha & Hp). destruct (ot_pcb _ _ _ _ Ho p Hp) as (fds & bp & sp & Hp').
  destruct (term_pcb_at s t _ T (ot_term_pcbs _ _ _ _ Ho) HT) as (T' & HT' & Ha').
  exists fds, bp, sp, T'. rewrite (proj2 (ot_cur _ _ _ _ Ho)), Ha'. done.
Qed.

Lemma others_page k s t : others own k s t -> page_of t = page_of s.
Proof. intros Ho. unfold page_of. by destruct (ot_cur _ _ _ _ Ho) as [-> ->]. Qed.

#[export] Instance others_refl k : Reflexive (others own k).
Proof.
  intros s. constructor; try done; [by destruct (fsg s)|]. intros p Hp.
  exists (file_descriptor p), (halt_ebp p), (halt_esp p). rewrite Hp. by destruct p.
Qed.

#[export] Instance others_trans k : Transitive (others own k).
Proof.
  intros s t u Hst Htu. pose proof (others_page _ _ _ Hst) as Hpage.
  destruct Hst as [A1 (A2 & A3 & A4) A5 [A6 A7] A8 [A9 A10] A11 A12 (A13 & A14 & A15) A16 A17 A18 A19 A20].
  destruct Htu as [B1 (B2 & B3 & B4) B5 [B6 B7] B8 [B9 B10] B11 B12 (B13 & B14 & B15) B16 B17 B18 B19 B20].
  constructor; rewrite ?B1, ?B2, ?B3, ?B4, ?B5, ?B6, ?B7, ?B9, ?B10, ?B11, ?B13, ?B14, ?B15; try done.
  - by rewrite B8, A8.
  - intros j Hj. rewrite B12 by by rewrite A10. by apply A12.
  - unfold same_tables in *. destruct B16 as (-> & -> & -> & -> & ->). exact A16.
  - intros p Hp. destruct (A17 p Hp) as (f1 & b1 & e1 & H1). destruct (B17 _ H1) as (f2 & b2 & e2 & H2).
    exists f2, b2, e2. rewrite H2. done.
  - intros a Ha. by rewrite B18, A18.
  - intros j Hj Hne Hsp. by apply B19, A19.
  - intros c Hc. rewrite B20, A20; [done|done|]. unfold foreign in *. by rewrite Hpage.
Qed.

Lemma page_low s : 0 <= page_of s /\ page_of s + 4000 <= EIGHT_MB.
Proof.
  unfold page_of, EIGHT_MB. destruct (_ =? _); [unfold video_mem, VIDEO; lia|].
  destruct (nth_in_or_default (Z.to_nat (curr_scheduler (ttys s))) vid_page 0) as [Hin| ->]; [|lia].
  revert Hin. generalize (nth (Z.to_nat (curr_scheduler (ttys s))) vid_page 0). intros c Hin.
  unfold vid_page, term_1_mem, term_2_mem, term_3_mem in Hin. cbn in Hin. lia.
Qed.

Lemma pcb_addr_inj j k : 0 <= j < 6 -> 0 <= k < 6 -> pcb_addr j = pcb_addr k -> j = k.
Proof.
  intros Hj Hk He. destruct (pcb_addr_pos j Hj) as [Ej _], (pcb_addr_pos k Hk) as [Ek _].
  rewrite Ej, Ek in He. unfold EIGHT_KB in He. lia.
Qed.

(** Steps of the running program itself, in process [k]. *)
Lemma others_step k s t :
  own k -> 0 <= k < 6 ->
  pgs t = pgs s -> tss t = tss s /\ pics t = pics s /\ idt t = idt s -> kb t = kb s ->
  ebp (mach t) = ebp (mach s) /\ esp (mach t) = esp (mach s) ->
  fsg t = Fsys (boot_block_addr (fsg s)) (inode_addr (fsg s)) (data_block_addr (fsg s)) (directory_index (fsg t)) ->
  current_terminal (ttys t) = current_terminal (ttys s) /\ curr_scheduler (ttys t) = curr_scheduler (ttys s) ->
  map term_pcb (terminal (ttys t)) = map term_pcb (terminal (ttys s)) ->
  (forall j, j <> curr_scheduler (ttys s) -> aget (terminal (ttys t)) j = aget (terminal (ttys s)) j) ->
  prc t = prc s \/ (exists p fds, pcbs (prc s) !! pcb_addr k = Some p /\
    prc t = prc (set_pcbs (<[pcb_addr k := set_file_descriptor fds p]> (pcbs (prc s))) s)) ->
  (forall c, foreign (eq k) s c -> mem (mach t) !! c = mem (mach s) !! c) -> others own k s t.
Proof.
  intros Hown Hk H1 H2 H3 H4 H5 H6 H7 H8 Hp Hm.
  assert (Hpcbs : forall a, a <> pcb_addr k -> pcbs (prc t) !! a = pcbs (prc s) !! a).
  { intros a Ha. destruct Hp as [-> |(p & fds & _ & ->)]; [done|]. cbn. by rewrite lookup_insert_ne. }
  assert (Hframe : forall j c, 0 <= j < 6 -> j <> k -> in_frame j c -> mem (mach t) !! c = mem (mach s) !! c).
  { intros j c Hj Hne Hc. apply Hm. pose proof (page_low s).
    unfold foreign, in_frame, EIGHT_MB, FOUR_MB in *. split; [lia|]. split; [intros ? _ <-; lia|lia]. }
  constructor; try done.
  - destruct Hp as [-> |(p & fds & _ & ->)]; done.
  - destruct Hp as [-> |(p & fds & _ & ->)]; done.
  - intros q Hq. destruct Hp as [-> |(p & fds & Hpk & ->)].
    + exists (file_descriptor q), (halt_ebp q), (halt_esp q). rewrite Hq. by destruct q.
    + assert (p = q) as -> by congruence. exists fds, (halt_ebp q), (halt_esp q). cbn.
      rewrite lookup_insert_eq. by destruct q.
  - intros a Ha. apply Hpcbs. by apply Ha.
  - intros j Hj Hne [S1 S2 S3].
    assert (Hold : old_pcb t (pcb_addr j) = old_pcb s (pcb_addr j)).
    { unfold old_pcb. rewrite Hpcbs; [done|]. intros He. by apply Hne, pcb_addr_inj. }
    constructor; rewrite ?Hold; [|done|done]. intros c Hc. rewrite (Hframe j) by done. by apply S1.
  - intros c (Hc & Hf & Hpage). apply Hm. split; [done|]. split; [|done]. intros j _ <-. by apply Hf.
Qed.

(** A buffer in the program's page or among the automatic arrays. *)
Definition own_buffer (k : Z) (s : kernel) (a n : Z) : Prop :=
  forall i c, 0 <= i < n -> cell (pgs s) (a + i) = Some c -> c < 0 \/ in_frame k c.

Lemma others_modifies k s a n t :
  own k -> 0 <= k < 6 -> modifies s a n t -> own_buffer k s a n -> others own k s t.
Proof.
  intros Hk Hk6 [Ht Hm] Ho. apply others_step; try done; try (by rewrite Ht).
  { assert (fsg t = fsg s) as -> by by rewrite Ht. by destruct (fsg s). }
  { left. by rewrite Ht. }
  intros c (Hc & Hf & _). apply Hm. intros i Hi He. destruct (Ho i c Hi He); [lia|by eapply Hf].
Qed.

Lemma others_iflag k s b : own k -> 0 <= k < 6 -> others own k s (set_iflag b s).
Proof. intros Hk Hk6. apply others_step; try done; [by destruct (fsg s) eqn:E; cbn; rewrite E|by left]. Qed.

Lemma others_with_fd k s p fd d :
  own k -> 0 <= k < 6 -> running s (pcb_addr k) p -> others own k s (with_fd (pcb_addr k) p fd d s).
Proof.
  intros Hk Hk6 (T & HT & Ha & Hp).
  apply others_step; try done; [by destruct (fsg s) eqn:E; cbn; rewrite E|]. right. by eexists _, _.
Qed.

(** The page of the running terminal is one of the four. *)
Lemma page_cell s i :
  tables_ok (pgs s) -> 0 <= curr_scheduler (ttys s) < 3 -> 0 <= i < 4000 ->
  cell (pgs s) (page_of s + i) = Some (page_of s + i) /\ VIDEO <= page_of s + i < VIDEO + 0x4000.
Proof.
  intros Hok Hc Hi. assert (Hp : page_of s = window_page s) by done.
  pose proof (window_page_video s Hc) as Hin. rewrite <- Hp in Hin.
  assert (VIDEO <= page_of s /\ page_of s + 4096 <= VIDEO + 0x4000).
  { unfold video_pages, VIDEO, term_1_mem, term_2_mem, term_3_mem in Hin |- *.
    repeat (apply elem_of_cons in Hin as [->|Hin]; [lia|]). by apply elem_of_nil in Hin. }
  split; [|lia]. apply cell_video; [done|done|lia].
Qed.

Lemma others_printed k s t :
  own k -> 0 <= k < 6 -> tables_ok (pgs s) -> 0 <= curr_scheduler (ttys s) < 3 -> only_running_screen s t -> others own k s t.
Proof.
  intros Hk Hk6 Hok Hc [Hsb Hterms]. destruct (sb_cpu _ _ _ Hsb) as (_ & C2 & C3).
  apply others_step; try apply Hsb; try done.
  - split_and!; apply Hsb.
  - rewrite (sb_fsg _ _ _ Hsb). by destruct (fsg s).
  - left. apply Hsb.
  - intros c (Hc0 & _ & Hpage). apply (sb_cells _ _ _ Hsb). intros i Hi.
    destruct (page_cell s i Hok Hc Hi) as [-> _]. intros [=]. lia.
Qed.

(** The state since which nothing foreign has changed. *)
Variable base : kernel.

(** Process [k] runs, and [w] is what it sees. *)
Record runs (k : Z) (w : world) (s : kernel) : Prop := {
  rn_tables : tables_ok (pgs s);
  rn_pid : 0 <= k < 6;
  rn_page : aget (page_directory (pgs s)) 32 = Some (2 ^ 22 * (2 + k) + 0x87);
  rn_mem : user_mem k s w;
  rn_screen : running_shows s (w_screen w);
  rn_own : own k;
  rn_block : forall a p, running s a p -> a = pcb_addr k /\ pcb_pid p = k;
  rn_process : exists a p, running s a p /\ process_is s w p;
  rn_fs : exists ds dot, fs_is s w ds dot;
  rn_others : others own k base s }.

(** ** The program's page *)

Lemma user_cell p k a :
  tables_ok p -> 0 <= k < 6 -> aget (page_directory p) 32 = Some (2 ^ 22 * (2 + k) + 0x87) ->
  user a = true -> cell p a = Some (frame_of k a).
Proof.
  intros Hok Hk H32 Ha. apply user_spec in Ha. unfold cell. rewrite (proj2 (Z.ltb_ge a 0)) by lia.
  by apply program_translate.
Qed.

Lemma user_access p k a :
  tables_ok p -> 0 <= k < 6 -> aget (page_directory p) 32 = Some (2 ^ 22 * (2 + k) + 0x87) ->
  user a = true -> user_translate p a = Some (frame_of k a).
Proof.
  intros Hok Hk H32 Ha. pose proof (user_cell p k a Hok Hk H32 Ha) as Hc. apply user_spec in Ha.
  unfold cell in Hc. rewrite (proj2 (Z.ltb_ge a 0)) in Hc by lia.
  assert (Hd : a / MB4 = 32) by (unfold MB4; symmetry; apply Z.div_unique with (a - 0x8000000); lia).
  unfold user_translate. rewrite (t_on _ Hok), Hd, H32, !entry_testbit by lia. exact Hc.
Qed.

Lemma user_get k w s a : runs k w s -> user a = true -> mem_get s a = Some (w_mem w a).
Proof.
  intros Hr Ha. unfold mem_get.
  rewrite (user_cell _ k) by (apply Hr || done). by apply (rn_mem _ _ _ Hr).
Qed.

(** The page is apart from everything the kernel keeps. *)
Lemma user_outside k w s a n va :
  runs k w s -> user_buffer a n = true -> va < 0x800000 ->
  (va < 0 \/ cell (pgs s) va = Some va) -> outside (pgs s) a n va.
Proof.
  intros Hr Hu Hva Hc i Hi. rewrite (user_cell _ k) by (apply Hr || (eapply user_buffer_user; done)).
  rewrite user_buffer_spec in Hu. pose proof (rn_pid _ _ _ Hr).
  assert (Hcell : cell (pgs s) va = Some va) by (destruct Hc; [by apply cell_local|done]).
  rewrite Hcell. unfold frame_of, EIGHT_MB, FOUR_MB. intros [=]. lia.
Qed.

Lemma user_buffer_region k w s a n : runs k w s -> user_buffer a n = true -> region s a n.
Proof.
  intros Hr Hu. pose proof Hu as Hu'. rewrite user_buffer_spec in Hu'.
  apply (user_region s k); try apply Hr; try lia.
  intros i Hi. destruct (rn_mem _ _ _ Hr (a + i)) as [Hm _]; [by eapply user_buffer_user|].
  unfold frame_of in Hm. by eexists.
Qed.

Lemma user_bytes_at k w s a n :
  runs k w s -> user_buffer a (Z.of_nat n) = true -> bytes_at s a (bytes_in w a n) /\ bytes (bytes_in w a n).
Proof.
  intros Hr Hu. split.
  - intros i b Hi. pose proof (lookup_lt_Some _ _ _ Hi) as Hlt. rewrite bytes_in_length in Hlt.
    rewrite bytes_in_lookup in Hi by done. injection Hi as <-.
    apply (user_get k); [done|]. eapply user_buffer_user; [done|lia].
  - apply Forall_lookup. intros i b Hi. pose proof (lookup_lt_Some _ _ _ Hi) as Hlt.
    rewrite bytes_in_length in Hlt. rewrite bytes_in_lookup in Hi by done. injection Hi as <-.
    apply (rn_mem _ _ _ Hr). eapply user_buffer_user; [done|lia].
Qed.

Lemma user_mem_set k s w a v :
  tables_ok (pgs s) -> 0 <= k < 6 -> aget (page_directory (pgs s)) 32 = Some (2 ^ 22 * (2 + k) + 0x87) ->
  user a = true -> 0 <= v < 256 -> user_mem k s w -> user_mem k (mem_set a v s) (stored_byte a v w).
Proof.
  intros Hok Hk H32 Ha Hv Hm b Hb. unfold mem_set. rewrite (user_cell _ k) by done.
  cbn [mach set_mem on_mach mem stored_byte set_w_mem w_mem]. unfold upd.
  destruct (Z.eqb_spec b a) as [->|Hne].
  - by rewrite lookup_insert_eq.
  - rewrite lookup_insert_ne by (unfold frame_of; lia). by apply Hm.
Qed.

Lemma user_mem_put k s w a l :
  tables_ok (pgs s) -> 0 <= k < 6 -> aget (page_directory (pgs s)) 32 = Some (2 ^ 22 * (2 + k) + 0x87) ->
  user_buffer a (Z.of_nat (length l)) = true -> bytes l -> user_mem k s w ->
  user_mem k (put_bytes a l s) (stored_bytes a l w).
Proof.
  intros Hok Hk H32 Hu Hb. revert a s w Hok H32 Hu.
  induction Hb as [|v l Hv Hb IH]; intros a s w Hok H32 Hu Hm; [done|].
  rewrite user_buffer_spec in Hu. cbn [length] in Hu. cbn [put_bytes stored_bytes].
  apply IH; rewrite ?pgs_mem_set; [done|done|rewrite user_buffer_spec; lia|].
  apply user_mem_set; try done. rewrite user_spec. lia.
Qed.

(** ** What a step of the kernel leaves alone *)

Lemma file_at_frame s t ino size data :
  tables_ok (pgs s) -> same_kmem s t -> fsg t = fsg s -> file_at s ino size data -> file_at t ino size data.
Proof.
  intros Hok Hk Hf (ds & dot & blocks & md & mi & Himg & Hrest). exists ds, dot, blocks, md, mi.
  split; [by eapply image_frame|done].
Qed.

Lemma fd_is_frame s t d a :
  tables_ok (pgs s) -> same_kmem s t -> fsg t = fsg s -> fd_is s d a -> fd_is t d a.
Proof.
  intros Hok Hk Hf. destruct a; cbn; try done. intros (H1 & H2 & H3 & H4 & H5).
  do 4 (split; [done|]). by eapply file_at_frame.
Qed.

Lemma fs_is_frame s t w w' ds dot :
  tables_ok (pgs s) -> same_kmem s t -> fsg t = fsg s -> prc t = prc s \/
    (file_fops (prc t) = file_fops (prc s) /\ dir_fops (prc t) = dir_fops (prc s)) ->
  w_entries w' = w_entries w -> w_next w' = w_next w -> fs_is s w ds dot -> fs_is t w' ds dot.
Proof.
  intros Hok Hk Hf Hp He Hn [D R C F N T E B TB].
  assert (HTB : file_fops (prc t) = file_table /\ dir_fops (prc t) = dir_table).
  { destruct Hp as [-> | [-> ->]]; done. }
  pose proof (kmem_directory s t _ _ _ linked Hok Hk R D) as D'.
  unfold KB4 in R. constructor; rewrite ?Hf, ?He, ?Hn; try done.
  - eapply (kmem_word s t); [done|done|done| | |exact C]; unfold dir_entry_num_at; lia.
  - eapply Forall2_impl; [exact E|]. intros d e [H1 H2]. split; [done|].
    destruct (snd e); [|done]. destruct H2 as [H2 H3]. split; [done|]. by eapply file_at_frame.
Qed.

Lemma process_is_frame s t w w' p :
  tables_ok (pgs s) -> same_kmem s t -> fsg t = fsg s -> w_arg w' = w_arg w -> w_fds w' = w_fds w ->
  process_is s w p -> process_is t w' p.
Proof.
  intros Hok Hk Hf Ha Hfd [A B C D E]. constructor; rewrite ?Ha, ?Hfd; try done.
  eapply Forall2_impl; [exact E|]. intros d a. by apply fd_is_frame.
Qed.

(** ** The relation along the kernel's steps *)

Lemma runs_intro k w w' s t a p :
  runs k w s -> others own k s t -> fsg t = fsg s ->
  w_entries w' = w_entries w -> w_next w' = w_next w ->
  user_mem k t w' -> running_shows t (w_screen w') -> running t a p -> process_is s w' p ->
  runs k w' t.
Proof.
  intros Hr Ho Hf He Hn Hm Hs Hrun Hpi. pose proof (rn_tables _ _ _ Hr) as Hok.
  pose proof (ot_pgs _ _ _ _ Ho) as Hp. pose proof (rn_pid _ _ _ Hr) as Hk.
  assert (Hkm : same_kmem s t).
  { split; [by rewrite Hp|]. intros pa Hpa. apply (ot_mem _ _ _ _ Ho).
    destruct (page_cell s 0 Hok (proj1 (rn_screen _ _ _ Hr)) ltac:(lia)) as [_ Hpage].
    unfold foreign, in_frame, EIGHT_MB, FOUR_MB, VIDEO in *. split; [lia|]. split; [|lia].
    intros j Hj6 Hj Hc. lia. }
  constructor; rewrite ?Hp; try apply Hr; try done.
  - intros b q Hq. destruct (rn_process _ _ _ Hr) as (b0 & p0 & Hrun0 & _).
    destruct (rn_block _ _ _ Hr b0 p0 Hrun0) as [-> Hpid].
    destruct (others_running k s t p0 Ho Hrun0) as (fds & bp & sp & T & HT & Ha & Hb).
    destruct Hq as (T' & HT' & Ha' & Hq). rewrite HT in HT'. injection HT' as <-. rewrite Ha in Ha'. subst b.
    rewrite Hb in Hq. injection Hq as <-. done.
  - exists a, p. split; [done|]. by eapply process_is_frame.
  - destruct (rn_fs _ _ _ Hr) as (ds & dot & Hfs). exists ds, dot. eapply fs_is_frame; try done.
    right. destruct (ot_ops _ _ _ _ Ho) as (_ & _ & _ & ? & ?). done.
  - etransitivity; [apply Hr|exact Ho].
Qed.

Lemma modifies_fields s a n t :
  modifies s a n t -> pgs t = pgs s /\ ttys t = ttys s /\ fsg t = fsg s /\ prc t = prc s.
Proof. intros [Ht _]. split; [|split; [|split]]; by rewrite Ht. Qed.

(** Code that changes the program's page and automatic arrays only. *)
Lemma runs_modifies k w f s t a n :
  runs k w s -> modifies s a n t -> own_buffer k s a n ->
  user_mem k t (set_w_mem f w) -> runs k (set_w_mem f w) t.
Proof.
  intros Hr Hm Ho Hu. destruct (rn_process _ _ _ Hr) as (b & p & Hrun & Hpi).
  destruct (modifies_fields _ _ _ _ Hm) as (Fp & Ft & Ff & Fc). pose proof (rn_tables _ _ _ Hr) as Hok.
  apply (runs_intro k w (set_w_mem f w) s t b p); try done; [eapply others_modifies; try done; apply Hr| | |].
  - cbn [w_screen set_w_mem]. eapply running_shows_frame; [exact Ft|exact Fp| |apply Hr].
    intros i Hi. destruct (page_cell s i Hok) as [Hc Hb]; [apply (rn_screen _ _ _ Hr)|done|].
    apply (modifies_out _ _ _ _ _ Hm). intros j Hj He. rewrite Hc in He. pose proof (rn_pid _ _ _ Hr).
    destruct (Ho j _ Hj He) as [?|?]; unfold in_frame, EIGHT_MB, FOUR_MB, VIDEO in *; lia.
  - destruct Hrun as (T & HT & Ha & Hp). exists T. by rewrite Ft, Fc.
  - destruct Hpi. by constructor.
Qed.

Lemma runs_put k w s a l :
  runs k w s -> user_buffer a (Z.of_nat (length l)) = true -> bytes l ->
  runs k (stored_bytes a l w) (put_bytes a l s).
Proof.
  intros Hr Hu Hb. pose proof (stored_bytes_same a l w) as Hsame. unfold same_but_mem in Hsame.
  rewrite Hsame.
  eapply runs_modifies; [exact Hr|by apply (modifies_put_bytes s a (Z.of_nat (length l)))| |].
  - intros i c Hi Hc. right. rewrite (user_cell _ k) in Hc by (apply Hr || by eapply user_buffer_user).
    injection Hc as <-. rewrite user_buffer_spec in Hu. pose proof (rn_pid _ _ _ Hr).
    unfold in_frame, frame_of, EIGHT_MB, FOUR_MB. lia.
  - rewrite <- Hsame. apply user_mem_put; try apply Hr; done.
Qed.

Lemma runs_local k w s t a n :
  runs k w s -> modifies s a n t -> a + n <= 0 -> runs k w t.
Proof.
  intros Hr Hm Ha. assert (Hw : w = set_w_mem (w_mem w) w) by by destruct w. rewrite Hw.
  eapply runs_modifies; [exact Hr|exact Hm| |].
  - intros i c Hi Hc. left. rewrite cell_local in Hc by lia. injection Hc as <-. lia.
  - intros b Hb. pose proof (rn_mem _ _ _ Hr b Hb) as [Hg Hrange]. cbn [w_mem set_w_mem]. split; [|done]. rewrite <- Hg.
    pose proof (modifies_out _ _ _ _ b Hm) as Ho. unfold mem_get in Ho.
    rewrite (modifies_pgs _ _ _ _ Hm), (user_cell _ k) in Ho by (apply Hr || done).
    apply Ho, outside_local; [apply user_spec in Hb; lia|lia].
Qed.

Lemma runs_iflag k w s b : runs k w s -> runs k w (set_iflag b s).
Proof.
  intros Hr. destruct (rn_process _ _ _ Hr) as (a & p & Hrun & Hpi).
  apply (runs_intro k w w s _ a p); try done; [apply others_iflag; apply Hr|apply Hr|].
  eapply running_shows_frame; [done|done|done|apply Hr].
Qed.

(** A descriptor is replaced. *)
Lemma runs_with_fd k w s a p fd d x :
  runs k w s -> running s a p -> process_is s w p -> 0 <= fd < 8 -> fd_is s d x ->
  runs k (set_fd fd x w) (with_fd a p fd d s).
Proof.
  intros Hr Hrun Hpi Hfd Hd. destruct (rn_block _ _ _ Hr a p Hrun) as [-> Hpid].
  eapply (runs_intro k w _ s); try done; [apply others_with_fd; try apply Hr; done|apply Hr| |by apply running_with_fd|].
  - cbn [w_screen set_fd set_w_fds]. eapply running_shows_frame; [done|done|done|apply Hr].
  - destruct Hpi as [A B C D E]. constructor; cbn; try done; [by rewrite length_insert|].
    by apply Forall2_insert.
Qed.

(** The listing moves on. *)
Lemma image_index s v ds dot ino size blocks data md mi :
  image s ds dot ino size blocks data md mi ->
  image (set_directory_index v s) ds dot ino size blocks data md mi.
Proof.
  intros [[D1 D2 D3 D4 D5 D6] Hmd Hmi [S1 S2 S3 S4 S5] Hr1 Hr2 Hr3].
  constructor; try done; constructor; done.
Qed.

Lemma file_at_index s v ino size data : file_at s ino size data -> file_at (set_directory_index v s) ino size data.
Proof.
  intros (ds & dot & blocks & md & mi & Himg & Hrest). exists ds, dot, blocks, md, mi.
  split; [by apply image_index|done].
Qed.

Lemma fd_is_index s v d x : fd_is s d x -> fd_is (set_directory_index v s) d x.
Proof.
  destruct x; cbn; try done. intros (H1 & H2 & H3 & H4 & H5). do 4 (split; [done|]).
  by apply file_at_index.
Qed.

Lemma runs_next k w s n :
  runs k w s -> (n <= length (w_entries w) + 1)%nat ->
  runs k (set_w_next n w) (set_directory_index (Z.of_nat n - 1) s).
Proof.
  intros Hr Hn. destruct (rn_process _ _ _ Hr) as (a & p & Hrun & [A B C D E]).
  destruct (rn_fs _ _ _ Hr) as (ds & dot & [[D1 D2 D3 D4 D5 D6] R Cn F N T En Bl TB]).
  constructor; try apply Hr.
  - exists a, p. split; [exact Hrun|]. constructor; try done.
    eapply Forall2_impl; [exact E|]. intros d x. apply fd_is_index.
  - exists ds, dot. constructor; try done.
    + cbn. split; [|done]. apply s32_small. lia.
    + eapply Forall2_impl; [exact En|]. intros d [nm [size data|]] [H1 H2]; (split; [done|]); [|done].
      cbn [snd] in *. destruct H2 as [H2 H3]. split; [done|]. by apply file_at_index.
  - etransitivity; [apply Hr|]. apply others_step; try apply Hr; try done. by left.
Qed.

(** ** The calls implement the interface *)

Lemma s32_u32 z : int32 z -> s32 (u32 z) = z.
Proof.
  unfold int32, s32, u32. intros Hz. rewrite <- (Zplus_mod_idemp_l (z mod 2 ^ 32)), Zmod_mod, Zplus_mod_idemp_l.
  rewrite Z.mod_small; lia.
Qed.

Lemma fd_lookup s w p fd :
  process_is s w p -> 0 <= fd < 8 ->
  exists d, aget (file_descriptor p) fd = Some d /\ fd_is s d (fd_of w fd).
Proof.
  intros Hpi Hfd. pose proof (pi_fds _ _ _ Hpi) as Hl. destruct (aget_total (file_descriptor p) fd) as [d Hd]; [lia|].
  exists d. split; [done|]. pose proof (pi_fd _ _ _ Hpi) as Hall. pose proof (Forall2_length _ _ _ Hall) as Hl2.
  unfold fd_of. destruct (aget_total (w_fds w) fd) as [x Hx]; [lia|]. rewrite Hx. cbn [default].
  unfold aget in Hd, Hx. destruct (_ && _) in Hd; [|done]. destruct (_ && _) in Hx; [|done].
  by eapply Forall2_lookup_lr.
Qed.

Lemma fd_is_closed s d x : fd_is s d x -> (flags_ d = 0 <-> x = Closed).
Proof. intros Hf. destruct x; cbn in Hf; split; try done; destruct Hf as [Hf _]; rewrite Hf; discriminate. Qed.

(** The checks [read] and [write] share. *)
Lemma bad_fd_spec s a p w fd buf n :
  running s a p -> process_is s w p ->
  if bad_fd w fd buf n then bad_descriptor fd buf n s = Ret true s
  else 0 <= n /\ 0 <= fd < 8 /\ buf <> 0 /\ fd_of w fd <> Closed /\
    exists d, aget (file_descriptor p) fd = Some d /\ flags_ d <> 0 /\ fd_is s d (fd_of w fd).
Proof.
  intros Hrun Hpi. destruct (bad_descriptor_eq s a p fd buf n Hrun (pi_fds _ _ _ Hpi)) as (b & Hb & Hiff).
  destruct (bad_fd w fd buf n) eqn:Hbad; unfold bad_fd in Hbad.
  - rewrite Hb. f_equal. apply Hiff. destruct (Z.ltb_spec n 0); [by left|].
    destruct (Z.ltb_spec fd 0); [by right; left|]. destruct (Z.ltb_spec 7 fd); [by right; right; left|].
    destruct (Z.eqb_spec buf 0); [by do 3 right; left|]. cbn [orb] in Hbad. do 4 right.
    destruct (fd_lookup s w p fd Hpi) as (d & Hd & Hx); [lia|]. exists d. split; [done|].
    apply (fd_is_closed _ _ _ Hx). by destruct (fd_of w fd).
  - unbool. split; [lia|]. split; [lia|]. split; [lia|].
    destruct (fd_lookup s w p fd Hpi) as (d & Hd & Hx); [lia|]. split; [by destruct (fd_of w fd)|].
    exists d. split; [done|]. split; [|done]. intros Hf. apply (fd_is_closed _ _ _ Hx) in Hf.
    by rewrite Hf in *.
Qed.

(** The terminal shows something else. *)
Lemma runs_screen k w s t v :
  runs k w s -> only_running_screen s t -> running_shows t v -> runs k (shown v w) t.
Proof.
  intros Hr Ho Hs. destruct (rn_process _ _ _ Hr) as (a & p & (T & HT & Ha & Hp) & Hpi).
  destruct (running_shown _ _ _ _ Ho Hs HT) as (T' & HT' & Hpcb).
  pose proof (rn_tables _ _ _ Hr) as Hok. pose proof (rn_screen _ _ _ Hr) as [Hc _].
  pose proof (others_printed k s t (rn_own _ _ _ Hr) (rn_pid _ _ _ Hr) Hok Hc Ho) as Hot. destruct Ho as [Hsb _].
  apply (runs_intro k w _ s t a p); try done.
  - apply (sb_fsg _ _ _ Hsb).
  - intros b Hb. pose proof (rn_pid _ _ _ Hr). rewrite (sb_cells _ _ _ Hsb); [by apply (rn_mem _ _ _ Hr)|].
    intros i Hi. destruct (page_cell s i Hok Hc Hi) as [-> Hpage]. intros [=]. apply user_spec in Hb.
    unfold frame_of, EIGHT_MB, FOUR_MB, VIDEO in *. lia.
  - exists T'. rewrite (sb_prc _ _ _ Hsb). split; [done|]. by rewrite Hpcb.
  - destruct Hpi. by constructor.
Qed.

Lemma runs_printed k w s t l :
  runs k w s -> only_running_screen s t -> running_shows t (put_text l (w_screen w)) ->
  runs k (printed l w) t.
Proof. apply runs_screen. Qed.

Lemma kernel_write irqs k fd buf n :
  int32 fd -> word32 buf -> int32 n ->
  implements (runs k) (system_call_asm irqs 4 (u32 fd) buf (u32 n)) (os_write fd buf n).
Proof.
  intros Hfd Hbuf Hn w s r w' Hr. destruct (rn_process _ _ _ Hr) as (a & p & Hrun & Hpi).
  assert (Hgo : forall v t, write fd buf n s = Ret v t ->
    system_call_asm irqs 4 (u32 fd) buf (u32 n) s = Ret v (set_iflag (iflag (mach s)) t)).
  { intros v t Hw. apply gate_call; [lia|]. cbn [jmp_table]. by rewrite !s32_u32. }
  pose proof (bad_fd_spec s a p w fd buf n Hrun Hpi) as Hbad. unfold os_write.
  destruct (bad_fd w fd buf n).
  - intros [= <- <-]. eexists. split; [apply Hgo; unfold write; by rewrite (bind_Ret _ _ _ _ _ Hbad)|].
    by apply runs_iflag.
  - destruct Hbad as (Hn0 & Hfd8 & Hb0 & Hx & d & Hd & Hf & Hdx).
    pose proof (write_open s a p fd buf n d Hrun (pi_fds _ _ _ Hpi) Hn0 Hb0 Hd Hf) as Hw.
    assert (Hfail : call_write (write_ (pointer_ d)) fd buf n s = Ret FAILURE s -> Some (-1, w) = Some (r, w') ->
      exists t, system_call_asm irqs 4 (u32 fd) buf (u32 n) s = Ret r t /\ runs k w' t).
    { intros Hc [= <- <-]. eexists. split; [apply Hgo; by rewrite Hw|]. by apply runs_iflag. }
    destruct (fd_of w fd); cbn [fd_is] in Hdx; [done| | | |].
    + apply Hfail. by rewrite (proj2 Hdx).
    + destruct (user_buffer buf n) eqn:Hu; [|done]. intros [= <- <-].
      pose proof (user_bytes_at k w s buf (Z.to_nat n) Hr) as Hbytes. rewrite Z2Nat.id in Hbytes by lia.
      destruct (Hbytes Hu) as [Hat Hb].
      pose proof (terminal_write_spec s fd buf (bytes_in w buf (Z.to_nat n)) (w_screen w) (fun _ _ => False)) as Hspec.
      rewrite bytes_in_length, Z2Nat.id in Hspec by lia.
      apply wp_Ret in Hspec as (v & t & Hrunt & -> & Hshow & Ho); [|apply Hr|done|done|done|unfold int32 in Hn; lia|].
      * eexists. split; [apply Hgo; rewrite Hw, (proj2 Hdx); exact Hrunt|].
        apply runs_iflag. by eapply runs_printed.
      * intros i Hi j Hj. rewrite bytes_in_length, Z2Nat.id in Hi by lia.
        destruct (page_cell s j (rn_tables _ _ _ Hr) (proj1 (rn_screen _ _ _ Hr)) Hj) as [-> Hrange].
        rewrite (user_cell _ k) by (apply Hr || by eapply user_buffer_user).
        rewrite user_buffer_spec in Hu. pose proof (rn_pid _ _ _ Hr).
        unfold frame_of, EIGHT_MB, FOUR_MB, VIDEO in *. intros [=]. lia.
    + apply Hfail. by rewrite (proj1 (proj2 Hdx)).
    + apply Hfail. by rewrite (proj2 Hdx).
Qed.

Lemma set_fd_same w fd : 0 <= fd < Z.of_nat (length (w_fds w)) -> set_fd fd (fd_of w fd) w = w.
Proof.
  intros Hfd. unfold set_fd, fd_of. destruct (aget_total (w_fds w) fd Hfd) as [x Hx]. rewrite Hx. cbn [default].
  unfold aget in Hx. destruct (_ && _) in Hx; [|done]. destruct w. unfold set_w_fds. cbn in *.
  by rewrite list_insert_id.
Qed.

Lemma fds_length s w p : process_is s w p -> length (w_fds w) = 8%nat.
Proof. intros Hpi. rewrite <- (Forall2_length _ _ _ (pi_fd _ _ _ Hpi)). apply Hpi. Qed.

Lemma running_modifies s a n t b p : modifies s a n t -> running s b p -> running t b p.
Proof. intros (_ & Ft & _ & Fc)%modifies_fields (T & HT & Hp). exists T. by rewrite Ft, Fc. Qed.

(** Reading from a file. *)
Lemma file_at_read s ino size data k w buf pos n :
  runs k w s -> file_at s ino size data -> word32 buf -> buf <> 0 -> 0 <= pos ->
  (size <= pos -> forall m, read_data ino pos buf m s = Ret 0 s) /\
  (pos < size -> user_buffer buf n = true -> 0 < n -> pos + n <= Z.of_nat (length data) ->
   read_data ino pos buf n s =
     Ret n (put_bytes buf (take (Z.to_nat n) (drop (Z.to_nat pos) data)) s)).
Proof.
  intros Hr (ds & dot & blocks & md & mi & Himg & Hino & Hsize & H1 & H2) Hbuf Hb0 Hpos. split.
  - intros Hge m. destruct Himg as [_ I1 I2 I3 _ _ _].
    rewrite (read_data_prefix s ino pos buf m md mi size I1 I2 (st_size _ _ _ _ _ I3)).
    by rewrite (proj2 (Z.leb_gt mi ino)), (proj2 (Z.eqb_neq buf 0)), (proj2 (Z.leb_le size pos)).
  - intros Hlt Hu Hn Hfit. pose proof Hu as Hu'. rewrite user_buffer_spec in Hu'.
    eapply image_read; [exact Himg| |by eapply user_buffer_region|done|left; lia|lia|lia|lia|lia|lia].
    intros va Hva. eapply user_outside; [exact Hr|done|lia|right; apply kmem_cell; [done|apply Hr|lia]].
Qed.

Lemma file_data_bytes s ino size data : file_at s ino size data -> bytes data.
Proof. intros (ds & dot & blocks & md & mi & Himg & _). by destruct (img_stored _ _ _ _ _ _ _ _ _ Himg). Qed.

Lemma padded_bytes d : length d = 64%nat -> bytes d -> bytes (padded (dname d)).
Proof.
  intros Hd Hb. destruct (until_nul_spec (file_name_ d)) as (_ & _ & Hu). unfold padded.
  apply Forall_app. split; [apply Hu; by apply Forall_take|]. apply Forall_replicate. lia.
Qed.

Lemma runs_listed k w s buf l n :
  runs k w s -> user_buffer buf (Z.of_nat (length l)) = true -> bytes l ->
  (n <= length (w_entries w) + 1)%nat ->
  let t := set_directory_index (Z.of_nat n - 1) (put_bytes buf l s) in
  runs k (set_w_next n (stored_bytes buf l w)) t /\ prc t = prc s /\ ttys t = ttys s.
Proof.
  intros Hr Hu Hb Hn t. destruct (stored_bytes_fields buf l w) as (_ & F2 & _). split.
  - apply runs_next; [by apply runs_put|by rewrite F2].
  - by destruct (modifies_fields _ _ _ _ (modifies_put_bytes s buf (Z.of_nat (length l)) l ltac:(done)))
      as (_ & Ft & _ & Fc).
Qed.

(** Reading the directory. *)
Lemma kernel_dir_read k w s fd buf n :
  runs k w s -> user_buffer buf 33 = true ->
  match listing w !! w_next w with
  | Some nm => exists t, dir_read fd buf n s = Ret (Z.of_nat (length nm)) t /\ (length nm <= 32)%nat /\
      runs k (set_w_next (S (w_next w)) (stored_bytes buf (name_record (w_next w) nm) w)) t /\
      prc t = prc s /\ ttys t = ttys s
  | None => exists t, dir_read fd buf n s = Ret 0 t /\ runs k (set_w_next 0 w) t /\
      prc t = prc s /\ ttys t = ttys s
  end.
Proof.
  intros Hr Hu. pose proof Hu as Hu'. rewrite user_buffer_spec in Hu'.
  destruct (rn_fs _ _ _ Hr) as (ds & dot & Hfs). pose proof Hfs as [D R Cn F [N1 N2] T En Bl TB].
  pose proof (user_buffer_region k w s buf 33 Hr Hu) as Hreg.
  destruct (w_next w) as [|i] eqn:Hi.
  - change (listing w !! O) with (Some [46]). cbv iota beta. exists (set_directory_index 0 (put_bytes buf [46; 0] s)). split; [|split; [simpl; lia|]].
    + apply (dir_read_dot s fd buf n (Z.of_nat (length (w_entries w)) + 1)); [done|lia|lia|done|lia].
    + apply (runs_listed k w s buf [46; 0] 1); [done|rewrite user_buffer_spec; simpl; lia|by repeat constructor|lia].
  - change (listing w !! S i) with ((fst <$> w_entries w) !! i).
    rewrite list_lookup_fmap. destruct (w_entries w !! i) as [e|] eqn:He; cbn [fmap option_fmap option_map].
    + pose proof (lookup_lt_Some _ _ _ He) as Hlt.
      destruct (Forall2_lookup_r _ _ _ _ _ En He) as (d & Hd & Hname & _).
      rewrite lookup_take_lt in Hd by done. rewrite <- Hname.
      destruct (Forall_lookup_1 _ _ _ _ (dir_shape _ _ _ _ D) Hd) as [Ld Bd].
      pose proof (padded_length d) as Lp.
      exists (set_directory_index (Z.of_nat i + 1) (put_bytes buf (padded (dname d) ++ [0]) s)).
      split; [|split].
      * rewrite (dir_read_name s fd buf n (Z.of_nat (length (w_entries w)) + 1) ds dot d D Cn);
          [by rewrite N1; replace (Z.of_nat (S i) - 1) with (Z.of_nat i) by lia|lia|lia| |lia|done|].
        -- rewrite N1. by replace (Z.to_nat (Z.of_nat (S i) - 1)) with i by lia.
        -- intros j Hj. rewrite N1. unfold KB4 in R.
           assert (Hva : 0x400000 <= dentry_at (boot_block_addr (fsg s)) (Z.of_nat (S i) - 1) + j < 0x800000).
           { unfold dentry_at, DENTRY_SIZE. lia. }
           eapply user_outside; [exact Hr|done|lia|right; apply kmem_cell; [done|apply Hr|lia]].
      * unfold padded in Lp. rewrite length_app in Lp. lia.
      * replace (Z.of_nat i + 1) with (Z.of_nat (S (S i)) - 1) by lia.
        apply (runs_listed k w s buf (padded (dname d) ++ [0]) (S (S i))); [done| | |lia].
        -- rewrite length_app, Lp, user_buffer_spec. simpl. lia.
        -- apply Forall_app. split; [by apply padded_bytes|by repeat constructor].
    + apply lookup_ge_None in He. exists (set_directory_index (-1) s). split; [|split; [|done]].
      * apply (dir_read_end s fd buf n (Z.of_nat (length (w_entries w)) + 1)); [done|lia|lia|lia].
      * apply (runs_next k w s 0); [done|lia].
Qed.

(** A read of an open descriptor, whose own operation leads to [t]. *)
Record reading (k : Z) (w : world) (s : kernel) (a : Z) (p : pcb) (fd buf n : Z) (d : file_array) : Prop := {
  rd_runs : runs k w s;
  rd_process : running s a p /\ process_is s w p;
  rd_fd : 0 <= fd < 8;
  rd_buf : word32 buf /\ buf <> 0;
  rd_n : 0 <= n < 2 ^ 31;
  rd_at : aget (file_descriptor p) fd = Some d;
  rd_open : flags_ d <> 0;
  rd_is : fd_is s d (fd_of w fd) }.

Lemma read_through irqs k w s a p fd buf n d v t w1 x :
  reading k w s a p fd buf n d -> call_read irqs (read_ (pointer_ d)) fd buf n s = Ret v t ->
  runs k w1 t -> prc t = prc s -> ttys t = ttys s -> int32 v ->
  fd_is t (set_file_position_ (file_position_ d + v) d) x ->
  exists u, system_call_asm irqs 3 (u32 fd) buf (u32 n) s = Ret v u /\ runs k (set_fd fd x w1) u.
Proof.
  intros [Hr [Hrun Hpi] Hfd [Hbuf Hb0] Hn Hd Hf Hdx] Hc Hr1 Hpr Htt Hv Hx.
  assert (Hrun1 : running t a p) by (destruct Hrun as (T & HT & Hp); exists T; by rewrite Htt, Hpr).
  eexists. split.
  - apply gate_call; [lia|]. cbn [jmp_table]. rewrite !s32_u32 by (unfold int32; lia).
    eapply read_open; try done; [by eapply pi_fds|lia].
  - apply runs_iflag. destruct (rn_process _ _ _ Hr1) as (a1 & p1 & Hrun2 & Hpi1).
    assert (Hp1 : p1 = p /\ a1 = a).
    { destruct Hrun1 as (T & HT & Ha & Hp), Hrun2 as (T2 & HT2 & Ha2 & Hp2). by simplify_eq. }
    destruct Hp1 as [-> ->]. by apply runs_with_fd.
Qed.

(** The same when the abstract descriptor does not change. *)
Lemma read_unmoved irqs k w s a p fd buf n d v t w1 :
  reading k w s a p fd buf n d -> call_read irqs (read_ (pointer_ d)) fd buf n s = Ret v t ->
  runs k w1 t -> prc t = prc s -> ttys t = ttys s -> int32 v -> w_fds w1 = w_fds w ->
  fd_is t (set_file_position_ (file_position_ d + v) d) (fd_of w fd) ->
  exists u, system_call_asm irqs 3 (u32 fd) buf (u32 n) s = Ret v u /\ runs k w1 u.
Proof.
  intros Hrd Hc Hr1 Hpr Htt Hv Hfds Hx.
  destruct (read_through irqs k w s a p fd buf n d v t w1 _ Hrd Hc Hr1 Hpr Htt Hv Hx) as (u & Hu & Hru).
  exists u. split; [done|]. pose proof (rd_fd _ _ _ _ _ _ _ _ _ Hrd).
  pose proof (fds_length s w p (proj2 (rd_process _ _ _ _ _ _ _ _ _ Hrd))) as Hl.
  assert (Hfd : fd_of w fd = fd_of w1 fd) by (unfold fd_of; by rewrite Hfds).
  rewrite Hfd, set_fd_same in Hru by (rewrite Hfds, Hl; lia). exact Hru.
Qed.

Lemma kernel_read_file irqs k w s a p fd buf n d size data pos r w' :
  reading k w s a p fd buf n d -> fd_of w fd = FileAt size data pos ->
  (if size <=? pos then Some (0, w)
   else if user_buffer buf n && (0 <? n) && (pos + n <=? Z.of_nat (length data)) then
     Some (n, set_fd fd (FileAt size data (pos + n))
       (stored_bytes buf (take (Z.to_nat n) (drop (Z.to_nat pos) data)) w))
   else None) = Some (r, w') ->
  exists u, system_call_asm irqs 3 (u32 fd) buf (u32 n) s = Ret r u /\ runs k w' u.
Proof.
  intros Hrd Hfdw. pose proof Hrd as [Hr [Hrun Hpi] Hfd [Hbuf Hb0] Hn Hd Hf Hdx]. rewrite Hfdw in Hdx.
  destruct Hdx as (Hf1 & Hptr & Hpos & Hrange & Hfile).
  assert (Hcr : forall v t, read_data (inode_ d) pos buf (u32 n) s = Ret v t ->
    call_read irqs (read_ (pointer_ d)) fd buf n s = Ret v t).
  { intros v t Hv. rewrite Hptr. cbn [read_ file_table call_read]. unfold file_read.
    rewrite (bind_Ret _ _ _ _ _ (running_fd_eq s a p fd d Hrun Hd)). by rewrite Hpos. }
  destruct (file_at_read s (inode_ d) size data k w buf pos n Hr Hfile Hbuf Hb0 ltac:(lia)) as [Hend Hmore].
  assert (Hsmall : Z.of_nat (length data) < 2 ^ 32).
  { destruct Hfile as (? & ? & ? & ? & ? & _ & _ & _ & ? & _). lia. }
  destruct (Z.leb_spec size pos) as [Hge|Hlt].
  - intros [= <- <-]. eapply read_unmoved; try done; [by apply Hcr, Hend|].
    rewrite Hfdw. cbn. rewrite Hpos, Z.add_0_r, u32_small by lia. done.
  - destruct (user_buffer buf n) eqn:Hub; cbn [andb]; [|done]. destruct (Z.ltb_spec 0 n); cbn [andb]; [|done].
    destruct (Z.leb_spec (pos + n) (Z.of_nat (length data))) as [Hfit|]; [|done]. intros [= <- <-].
    set (out := take (Z.to_nat n) (drop (Z.to_nat pos) data)).
    assert (Lo : Z.of_nat (length out) = n).
    { unfold out. rewrite length_take_le; [lia|]. rewrite length_drop. lia. }
    assert (Hm : modifies s buf n (put_bytes buf out s)) by (apply modifies_put_bytes; lia).
    destruct (modifies_fields _ _ _ _ Hm) as (_ & Ft & Ff & Fc).
    eapply read_through; try done; [apply Hcr; rewrite u32_small by lia; by apply Hmore| |unfold int32; lia|].
    + apply runs_put; [done|by rewrite Lo|]. apply Forall_take, Forall_drop. by eapply file_data_bytes.
    + cbn. rewrite Hpos, u32_small by lia. do 3 (split; [done|]). split; [lia|].
      eapply file_at_frame; [apply Hr| |exact Ff|exact Hfile]. eapply same_kmem_modifies; [done|apply Hr|exact Hm|].
      intros va Hva. eapply user_outside; [exact Hr|done|lia|right; apply kmem_cell; [done|apply Hr|lia]].
Qed.

Lemma kernel_read_directory irqs k w s a p fd buf n d r w' :
  reading k w s a p fd buf n d -> fd_of w fd = Directory ->
  (if negb (user_buffer buf 33) then None else
   match listing w !! w_next w with
   | Some nm => Some (Z.of_nat (length nm),
       set_w_next (S (w_next w)) (stored_bytes buf (name_record (w_next w) nm) w))
   | None => Some (0, set_w_next 0 w)
   end) = Some (r, w') ->
  exists u, system_call_asm irqs 3 (u32 fd) buf (u32 n) s = Ret r u /\ runs k w' u.
Proof.
  intros Hrd Hfdw. pose proof Hrd as [Hr _ _ _ _ _ _ Hdx]. rewrite Hfdw in Hdx. destruct Hdx as [Hf1 Hptr].
  destruct (user_buffer buf 33) eqn:Hub; cbn [negb]; [|done].
  pose proof (kernel_dir_read k w s fd buf n Hr Hub) as Hdir.
  destruct (listing w !! w_next w) as [nm|].
  - destruct Hdir as (t & Ht & Hlen & Hrt & Fc & Ft). intros [= <- <-].
    destruct (stored_bytes_fields buf (name_record (w_next w) nm) w) as (F1 & F2 & F3 & F4 & F5).
    eapply read_unmoved; try done; [by rewrite Hptr|unfold int32; lia|by rewrite Hfdw].
  - destruct Hdir as (t & Ht & Hrt & Fc & Ft). intros [= <- <-].
    eapply read_unmoved; try done; [by rewrite Hptr|by rewrite Hfdw].
Qed.

Lemma kernel_read irqs k fd buf n :
  int32 fd -> word32 buf -> int32 n ->
  implements (runs k) (system_call_asm irqs 3 (u32 fd) buf (u32 n)) (os_read fd buf n).
Proof.
  intros Hfd Hbuf Hn w s r w' Hr. destruct (rn_process _ _ _ Hr) as (a & p & Hrun & Hpi).
  pose proof (bad_fd_spec s a p w fd buf n Hrun Hpi) as Hbad. unfold os_read.
  destruct (bad_fd w fd buf n).
  { intros [= <- <-]. eexists. split; [apply gate_call; [lia|]|by apply runs_iflag].
    cbn [jmp_table]. rewrite !s32_u32 by done. unfold read. by rewrite (bind_Ret _ _ _ _ _ Hbad). }
  destruct Hbad as (Hn0 & Hfd8 & Hb0 & Hx & d & Hd & Hf & Hdx).
  assert (Hrd : reading k w s a p fd buf n d) by (constructor; try done; unfold int32 in Hn; lia).
  destruct (fd_of w fd) as [| | |size data pos|] eqn:Hfdw; try done.
  - intros [= <- <-]. eapply read_unmoved; try done; [by rewrite (proj2 Hdx)|by rewrite Hfdw].
  - by apply (kernel_read_file irqs k w s a p fd buf n d size data pos).
  - by apply (kernel_read_directory irqs k w s a p fd buf n d).
Qed.

(** ** Opening and closing *)

Lemma free_fd_spec s w p :
  process_is s w p ->
  match free_fd w with Some fd => first_closed p fd | None => all_open p end.
Proof.
  intros Hpi.
  assert (Hd : forall i, 2 <= i <= 7 -> exists d, aget (file_descriptor p) i = Some d /\
      if is_closed (fd_of w i) then flags_ d = 0 else flags_ d <> 0).
  { intros i Hi. destruct (fd_lookup s w p i Hpi) as (d & Hd & Hx); [lia|]. exists d. split; [done|].
    pose proof (fd_is_closed _ _ _ Hx). destruct (fd_of w i); cbn; intuition discriminate. }
  assert (Hf : forall l i, (forall j, 2 <= j < i -> exists d, aget (file_descriptor p) j = Some d /\ flags_ d <> 0) ->
    2 <= i -> Z.of_nat (length l) = 8 - i -> (forall m x, l !! m = Some x -> x = i + Z.of_nat m) ->
    match List.find (fun fd => is_closed (fd_of w fd)) l with
    | Some fd => first_closed p fd | None => all_open p end).
  { induction l as [|x l IH]; intros i Hb Hi Hl Hx; cbn [List.find length] in *.
    - intros j Hj. apply Hb. lia.
    - pose proof (Hx O x eq_refl) as ->. rewrite Z.add_0_r in *. destruct (Hd i ltac:(lia)) as (d & Hdi & Hc).
      destruct (is_closed (fd_of w i)).
      + split; [lia|]. split; [by exists d|done].
      + apply (IH (i + 1)); [|lia|lia|].
        * intros j Hj. destruct (decide (j = i)) as [->|]; [by exists d|]. apply Hb. lia.
        * intros m y Hm. rewrite (Hx (S m) y Hm). lia. }
  apply (Hf (seqZ 2 6) 2); [lia|lia|done|]. intros m x Hm. by apply lookup_seqZ in Hm as [-> _].
Qed.

(** The lookup of a name that is not the directory's. *)
Lemma find_entry_spec s w ds dot nm :
  fs_is s w ds dot -> nm <> [] ->
  match find_entry nm w with
  | Some e => exists d, find_dentry nm ds = Some d /\ entry_is s d e
  | None => find_dentry nm ds = None
  end.
Proof.
  intros [_ _ _ _ _ _ En Bl _] Hne. unfold find_entry.
  rewrite <- (take_drop (length (w_entries w)) ds).
  assert (Hblank : find_dentry nm (drop (length (w_entries w)) ds) = None).
  { apply find_dentry_none. eapply Forall_impl; [exact Bl|]. intros d Hd. by rewrite Hd. }
  clear Bl.
  revert En Hblank. generalize (drop (length (w_entries w)) ds) as rest. intros rest.
  generalize (take (length (w_entries w)) ds) as used. intros used En Hblank.
  induction En as [|d e used es Hde En IH]; [done|]. cbn [List.find app]. rewrite find_dentry_cons.
  destruct Hde as [Hname Hc]. rewrite Hname. case_bool_decide; [|exact IH]. by exists d.
Qed.

Lemma string_reads k w s a l :
  runs k w s -> string_at w a l ->
  reads s (Addr a) (l ++ [0]) /\ bytes l /\ (forall n, unaliased s (Addr a) n TEMP 33).
Proof.
  intros Hr Hs. pose proof (sa_user _ _ _ Hs) as Hu. pose proof Hu as Hu'. rewrite user_buffer_spec in Hu'.
  assert (Hget : forall i b, (l ++ [0]) !! i = Some b -> mem_get s (a + Z.of_nat i) = Some b /\ 0 <= b < 256).
  { intros i b Hi. pose proof (lookup_lt_Some _ _ _ Hi) as Hlt. rewrite length_app in Hlt. simpl in Hlt.
    assert (Hin : user (a + Z.of_nat i) = true) by (eapply user_buffer_user; [exact Hu|lia]).
    rewrite (user_get k w) by done. rewrite <- (sa_mem _ _ _ Hs _ _ Hi). split; [done|].
    by apply (rn_mem _ _ _ Hr). }
  split; [|split].
  - apply bytes_at_reads. intros i b Hi. by apply Hget.
  - apply Forall_lookup. intros i b Hi. apply (Hget i b). by apply lookup_app_l_Some.
  - intros n i Hi. apply outside_local; [lia|unfold TEMP; lia].
Qed.

(** A descriptor is given out by a state that differs in [TEMP]. *)
Lemma runs_opened k w s t a p fd f ino x (ops : procs -> fops) filename :
  runs k w s -> modifies s TEMP 33 t -> running s a p -> process_is s w p ->
  ops (prc s) = f -> f = file_table \/ f = dir_table ->
  free_fd w = Some fd -> fd_is t (FileArray f ino 0 1) x ->
  (let* fd := find_fd in
   if fd =? -1 then ret FAILURE else let* p := gets prc in open_as (ops p) ino fd filename) t =
    Ret fd (with_fd a p fd (FileArray f ino 0 1) t) /\
  runs k (set_fd fd x w) (with_fd a p fd (FileArray f ino 0 1) t).
Proof.
  intros Hr Hm Hrun Hpi Hops Hf Hfree Hx. pose proof (free_fd_spec s w p Hpi) as Hfc. rewrite Hfree in Hfc.
  assert (Hrt : runs k w t) by (eapply runs_local; [exact Hr|exact Hm|unfold TEMP; lia]).
  pose proof (running_modifies _ _ _ _ _ _ Hm Hrun) as Hrunt.
  pose proof Hfc as (Hrange & (d0 & Hd0 & _) & _). split.
  - eapply open_free; try done.
    + by destruct (modifies_fields _ _ _ _ Hm) as (_ & _ & _ & ->).
    + by destruct Hf as [-> | ->].
  - destruct (rn_process _ _ _ Hrt) as (a1 & p1 & Hrun1 & Hpi1).
    assert (Hp1 : p1 = p /\ a1 = a).
    { destruct Hrunt as (T & HT & Ha & Hp), Hrun1 as (T2 & HT2 & Ha2 & Hp2). by simplify_eq. }
    destruct Hp1 as [-> ->]. apply runs_with_fd; try done. lia.
Qed.

Lemma kernel_open irqs k name :
  word32 name -> implements (runs k) (system_call_asm irqs 5 name 0 0) (os_open name).
Proof.
  intros Hname w s r w' Hr. destruct (rn_process _ _ _ Hr) as (a & p & Hrun & Hpi).
  assert (Hgo : forall v t, open (Addr name) s = Ret v t -> runs k w' t -> v = r ->
    exists u, system_call_asm irqs 5 name 0 0 s = Ret r u /\ runs k w' u).
  { intros v t Ho Ht <-. eexists. split; [apply gate_call; [lia|exact Ho]|]. by apply runs_iflag. }
  unfold os_open. destruct (Z.eqb_spec name 0) as [->|Hn0].
  { intros [= <- <-]. by apply (Hgo (-1) s). }
  destruct (string_in 1025 w name) as [nm|] eqn:Hnm; [|done].
  apply string_in_at in Hnm as [Hs Hlen]. destruct (string_reads k w s name nm Hr Hs) as (Hreads & Hb & Hu).
  assert (Hnull : is_null (Addr name) = false) by by apply Z.eqb_neq.
  destruct nm as [|c nm].
  { intros [= <- <-]. apply (Hgo (-1) s); [|done|done]. unfold open. rewrite Hnull.
    pose proof (Hreads 0%nat 0 eq_refl) as Hc. change (Z.of_nat 0) with 0 in Hc.
    unfold bind. by rewrite Hc. }
  destruct (rn_fs _ _ _ Hr) as (ds & dot & Hfs).
  destruct (open_lookup s (Addr name) (c :: nm) [] ds dot) as (t & Hm & Hopen);
    [exact Hreads|apply Hs|done|done|done|apply Hu|apply Hfs|].
  assert (Hrt : runs k w t) by (eapply runs_local; [exact Hr|exact Hm|unfold TEMP; lia]).
  pose proof (find_entry_spec s w ds dot (c :: nm) Hfs ltac:(done)) as Hfind.
  pose proof (free_fd_spec s w p Hpi) as Hfree.
  destruct (fi_tables _ _ _ _ Hfs) as [Tf Td].
  assert (Hfull : forall kk, free_fd w = None ->
    (let* fd := find_fd in if fd =? -1 then ret FAILURE else kk fd) t = Ret FAILURE t).
  { intros kk Hf. rewrite Hf in Hfree. eapply open_full; [by eapply running_modifies|done]. }
  case_bool_decide as Hdot.
  - unfold os_take_fd. rewrite (fi_dot _ _ _ _ Hfs) in Hopen.
    destruct (free_fd w) as [fd|] eqn:Hf; intros [= <- <-].
    + destruct (runs_opened k w s t a p fd dir_table NULL Directory dir_fops (Addr name)) as [Ho Hro];
        try done; [by right|]. eapply Hgo; [rewrite Hopen; exact Ho|exact Hro|done].
    + eapply (Hgo (-1) t); [|done|done]. rewrite Hopen. by apply Hfull.
  - destruct (find_entry (c :: nm) w) as [[nm' [size data|]]|]; [|done|].
    + destruct Hfind as (d & Hd & _ & Hty & Hfile). rewrite Hd, Hty in Hopen. unfold os_take_fd.
      destruct (free_fd w) as [fd|] eqn:Hf; intros [= <- <-].
      * destruct (modifies_fields _ _ _ _ Hm) as (_ & _ & Ff & _).
        destruct (runs_opened k w s t a p fd file_table (inode_num_ d) (FileAt size data 0) file_fops (Addr name))
          as [Ho Hro]; try done; [by left| |eapply Hgo; [rewrite Hopen; exact Ho|exact Hro|done]].
        cbn. do 3 (split; [done|]). split; [lia|]. eapply file_at_frame; [apply Hr| |exact Ff|exact Hfile].
        eapply same_kmem_local; [done|apply Hr|exact Hm|unfold TEMP; lia].
      * eapply (Hgo (-1) t); [|done|done]. rewrite Hopen. by apply Hfull.
    + rewrite Hfind in Hopen. intros [= <- <-]. by apply (Hgo (-1) t).
Qed.

Lemma kernel_close irqs k fd :
  int32 fd -> implements (runs k) (system_call_asm irqs 6 (u32 fd) 0 0) (os_close fd).
Proof.
  intros Hfd w s r w' Hr. destruct (rn_process _ _ _ Hr) as (a & p & Hrun & Hpi).
  assert (Hgo : forall v t, close fd s = Ret v t -> runs k w' t -> v = r ->
    exists u, system_call_asm irqs 6 (u32 fd) 0 0 s = Ret r u /\ runs k w' u).
  { intros v t Ho Ht <-. eexists. split; [apply gate_call; [lia|cbn [jmp_table]; by rewrite s32_u32]|].
    by apply runs_iflag. }
  unfold os_close. destruct ((fd <? 2) || (7 <? fd)) eqn:Hrange.
  { intros [= <- <-]. apply (Hgo (-1) s); [|done|done]. unfold close, BEGINING_FDA, END_OF_FDA. by rewrite Hrange. }
  unbool. destruct (fd_lookup s w p fd Hpi) as (d & Hd & Hx); [lia|].
  destruct (decide (fd_of w fd = Closed)) as [Hc|Hc].
  - rewrite Hc in *. intros [= <- <-]. apply (Hgo (-1) s); [|done|done].
    unfold close, BEGINING_FDA, END_OF_FDA, bind.
    rewrite (proj2 (Z.ltb_ge fd 2)), (proj2 (Z.ltb_ge 7 fd)) by lia. cbn [orb].
    rewrite (running_fd_eq _ _ _ _ _ Hrun Hd). cbn in Hx. by rewrite Hx.
  - assert (Hres : Some (0, set_fd fd Closed w) = Some (r, w') ->
      exists u, system_call_asm irqs 6 (u32 fd) 0 0 s = Ret r u /\ runs k w' u).
    { intros [= <- <-]. eapply Hgo; [eapply close_eq; [exact Hrun|lia|exact Hd| |]| |done].
      - intros Hf. by apply Hc, (fd_is_closed _ _ _ Hx).
      - destruct (fd_of w fd); cbn in Hx; [done|..]; try (rewrite (proj2 Hx); set_solver).
        rewrite (proj1 (proj2 Hx)). set_solver.
      - apply runs_with_fd; try done. lia. }
    by destruct (fd_of w fd).
Qed.

Lemma kernel_getargs irqs k buf n :
  word32 buf -> int32 n ->
  implements (runs k) (system_call_asm irqs 7 buf (u32 n) 0) (os_getargs buf n).
Proof.
  intros Hbuf Hn w s r w' Hr. destruct (rn_process _ _ _ Hr) as (a & p & Hrun & [A B C D E]).
  assert (Hgo : forall v t, getargs buf n s = Ret v t -> runs k w' t -> v = r ->
    exists u, system_call_asm irqs 7 buf (u32 n) 0 s = Ret r u /\ runs k w' u).
  { intros v t Ho Ht <-. eexists. split; [apply gate_call; [lia|cbn [jmp_table]; by rewrite s32_u32]|].
    by apply runs_iflag. }
  assert (Hlen : Z.of_nat (length (w_arg w)) <= 128).
  { destruct (cstring_spec _ _ A) as (rest & He & _). rewrite He, length_app in C. lia. }
  unfold os_getargs. destruct ((n <=? 0) || (buf =? 0) || bool_decide (w_arg w = [])) eqn:Hbad.
  - intros [= <- <-]. apply (Hgo (-1) s); [|done|done]. eapply getargs_refuses; [exact Hrun|exact A|lia|].
    rewrite !orb_true_iff, Z.leb_le, Z.eqb_eq, bool_decide_eq_true in Hbad. unfold NULL. tauto.
  - rewrite !orb_false_iff, Z.leb_gt, Z.eqb_neq, bool_decide_eq_false in Hbad.
    destruct Hbad as [[Hn0 Hb0] Hne]. destruct (user_buffer buf n) eqn:Hu; [|done]. intros [= <- <-].
    eapply Hgo; [eapply getargs_stores; [exact Hrun|exact A|exact B|lia|by eapply user_buffer_region| |done|done]| |done].
    + unfold int32 in Hn. lia.
    + apply runs_put; [done| |].
      * rewrite length_take, length_app, length_replicate. replace (Z.of_nat _) with n by lia. done.
      * apply Forall_take, Forall_app. split; [done|apply Forall_replicate; lia].
Qed.

(** The kernel is such an operating system. *)
Lemma kernel_loads k w s a : runs k w s -> user a = true -> uload8 a s = Ret (w_mem w a) s.
Proof.
  intros Hr Ha. unfold uload8, bind, gets. rewrite (user_access _ k) by (apply Hr || done).
  cbn. by apply load8_get, (user_get k).
Qed.

Lemma kernel_stores k w s a v :
  runs k w s -> user a = true -> exists t, ustore8 a v s = Ret tt t /\ runs k (stored_byte a (u8 v) w) t.
Proof.
  intros Hr Ha. exists (put_bytes a [u8 v] s). split.
  - unfold ustore8, bind, gets. rewrite (user_access _ k) by (apply Hr || done). cbn.
    apply store8_set. rewrite (user_get k w) by done. by eexists.
  - apply (runs_put k w s a [u8 v]); [done| |].
    + apply user_spec in Ha. rewrite user_buffer_spec. simpl. lia.
    + repeat constructor; apply u8_range.
Qed.

Lemma kernel_refuses irqs k eax ebx ecx edx :
  refused eax ebx ecx edx -> implements (runs k) (system_call_asm irqs eax ebx ecx edx) os_refuse.
Proof. intros Href w s r w' Hr [= <- <-]. exists s. by rewrite gate_refuses. Qed.

Lemma kernel_os irqs k : @OS _ (kernel_syscalls irqs) (runs k).
Proof.
  constructor.
  - apply kernel_loads.
  - intros w s a Hr. apply (rn_mem _ _ _ Hr).
  - apply kernel_stores.
  - apply kernel_read.
  - apply kernel_write.
  - apply kernel_open.
  - apply kernel_close.
  - apply kernel_getargs.
  - intros p Hp. apply kernel_refuses. left. unfold LOWERBOUND_VID. lia.
  - intros num Hw Hn. apply kernel_refuses. destruct num as [|q|q]; [cbn; lia| |cbn; lia].
    unfold refused. destruct q as [q|q|]; try (exfalso; lia);
      repeat (destruct q as [q|q|]; try (exfalso; lia); try (left; lia); try (right; lia); try lia).
Qed.

(** ** What the relation gives for the files *)

Lemma runs_file k w s nm nm' size data :
  runs k w s -> nm <> [] -> find_entry nm w = Some (nm', Regular size data) ->
  0 <= size <= Z.of_nat (length data) /\ (1024 | Z.of_nat (length data)) /\
  Z.of_nat (length data) < 2 ^ 31.
Proof.
  intros Hr Hne Hf. destruct (rn_fs _ _ _ Hr) as (ds & dot & Hfs).
  pose proof (find_entry_spec s w ds dot nm Hfs Hne) as Hfind. rewrite Hf in Hfind.
  destruct Hfind as (d & _ & _ & _ & Hfile).
  destruct Hfile as (ds' & dot' & blocks & md & mi & Himg & _ & Hs & Hl & _).
  destruct (img_stored _ _ _ _ _ _ _ _ _ Himg) as [_ _ Hlen _ _].
  split_and!; [lia|lia| |lia]. exists (4 * Z.of_nat (length blocks)). lia.
Qed.

End user_kernel.
