(* ===== verification/UserKernel.v ===== *)
(** The kernel as the operating system of its programs: sequences of calls
    refine the abstract system, and what that gives for the programs. *)
From stdpp Require Import base numbers list gmap strings.
From Stdlib Require Import ZArith Lia.
From S2P Require Import Prelude Machine Strings Console Paging FileSys Terminal Descriptors.
From S2P Require Import Process Execute Syscall Support Os Programs Clients Runs.

(** * Sequences of calls *)

(** What a program does between its computations: a call, or a store. *)
Inductive request : Type :=
| Read (fd buf n : Z)
| Write (fd buf n : Z)
| Open (name : Z)
| Close (fd : Z)
| Getargs (buf n : Z)
| Store (a v : Z).

Definition request_ok (q : request) : Prop :=
  match q with
  | Read fd buf n | Write fd buf n => int32 fd /\ word32 buf /\ int32 n
  | Open name => word32 name
  | Close fd => int32 fd
  | Getargs buf n => word32 buf /\ int32 n
  | Store a v => True
  end.

Definition serve `{Env} (irqs : list (K unit)) (q : request) : K Z :=
  match q with
  | Read fd buf n => system_call_asm irqs 3 (u32 fd) buf (u32 n)
  | Write fd buf n => system_call_asm irqs 4 (u32 fd) buf (u32 n)
  | Open name => system_call_asm irqs 5 name 0 0
  | Close fd => system_call_asm irqs 6 (u32 fd) 0 0
  | Getargs buf n => system_call_asm irqs 7 buf (u32 n) 0
  | Store a v => ustore8 a v ;; ret 0
  end.

Definition os_serve (q : request) : world -> option (Z * world) :=
  match q with
  | Read fd buf n => os_read fd buf n
  | Write fd buf n => os_write fd buf n
  | Open name => os_open name
  | Close fd => os_close fd
  | Getargs buf n => os_getargs buf n
  | Store a v => fun w => if user a then Some (0, stored_byte a (u8 v) w) else None
  end.

Fixpoint serve_all `{Env} (irqs : list (K unit)) (qs : list request) : K (list Z) :=
  match qs with
  | [] => ret []
  | q :: qs' => let* r := serve irqs q in let* rs := serve_all irqs qs' in ret (r :: rs)
  end.

Fixpoint os_serve_all (qs : list request) (w : world) : option (list Z * world) :=
  match qs with
  | [] => Some ([], w)
  | q :: qs' =>
    match os_serve q w with
    | None => None
    | Some (r, w1) =>
      match os_serve_all qs' w1 with
      | None => None
      | Some (rs, w2) => Some (r :: rs, w2)
      end
    end
  end.

Section theorems.
Context `{Env}.

Lemma serve_implements irqs own base k q :
  table_linked -> request_ok q -> implements (runs own base k) (serve irqs q) (os_serve q).
Proof.
  intros Hl Hq. destruct q as [fd buf n|fd buf n|name|fd|buf n|a v]; cbn [serve os_serve request_ok] in *.
  - apply kernel_read; tauto.
  - apply kernel_write; tauto.
  - by apply kernel_open.
  - by apply kernel_close.
  - apply kernel_getargs; tauto.
  - intros w s r w' Hr. destruct (user a) eqn:Ha; [|done]. intros [= <- <-].
    destruct (kernel_stores Hl own base k w s a v Hr Ha) as (t & Ht & Hrt). exists t.
    by rewrite (bind_Ret _ _ _ _ _ Ht).
Qed.

Lemma runs_shows own base k l w t : runs own base k (printed l w) t -> running_shows t (put_text l (w_screen w)).
Proof. intros Hr. exact (rn_screen _ _ _ _ _ Hr). Qed.

Lemma with_args_screen w buf : w_screen (with_args w buf) = w_screen w.
Proof. apply stored_bytes_fields. Qed.

(** ** Properties *)

(** C6: the kernel implements the abstract operating system.  For any sequence of
    reads, writes, opens, closes, argument requests and stores of the running
    program, whenever the specification gives results, the system calls made
    through [int 0x80] return exactly these results and lead to a kernel state
    that again represents the specification's: descriptors, positions, the
    listing, the program's memory and the screen.  Nothing foreign has changed:
    no other process, no page table, no memory but the program's own page and
    that of its terminal. *)
Theorem kernel_refines_os irqs own base k qs w s rs w' :
  table_linked -> Forall request_ok qs -> runs own base k w s -> os_serve_all qs w = Some (rs, w') ->
  exists t, serve_all irqs qs s = Ret rs t /\ runs own base k w' t.
Proof.
  intros Hl Hqs. revert w s rs. induction Hqs as [|q qs Hq Hqs IH]; intros w s rs Hr; cbn [os_serve_all serve_all].
  - intros [= <- <-]. by exists s.
  - destruct (os_serve q w) as [[r w1]|] eqn:Hs; [|done].
    destruct (os_serve_all qs w1) as [[rs' w2]|] eqn:Hrest; [|done]. intros [= <- <-].
    destruct (serve_implements irqs own base k q Hl Hq w s r w1 Hr Hs) as (t & Ht & Hrt).
    destruct (IH w1 t rs' Hrt Hrest) as (u & Hu & Hru). exists u. split; [|done].
    by rewrite (bind_Ret _ _ _ _ _ Ht), (bind_Ret _ _ _ _ _ Hu).
Qed.

(** C12: [cat] on this kernel.  Given the name of a regular file it returns 0 and
    the terminal shows the blocks of the file up to the next multiple of 1024
    bytes past its length, since a read is not cut at the end of the file; given
    a name no entry has it prints [file not found] and returns 2. *)
Theorem cat_prints_file `{Linked} irqs own base k w s buf nm fd :
  table_linked -> runs own base k w s -> cat_ready w buf nm fd -> nm <> [46] ->
  (forall nm' size data, find_entry nm w = Some (nm', Regular size data) ->
     exists t, @cat_main _ (kernel_syscalls irqs) _ buf s = Ret 0 t /\
       running_shows t (put_text (take (Z.to_nat (whole_chunks size)) data) (w_screen w))) /\
  (find_entry nm w = None ->
   string_at (with_args w buf) (line "file not found") (bytes_of "file not found" ++ [10]) ->
   exists t, @cat_main _ (kernel_syscalls irqs) _ buf s = Ret 2 t /\
     running_shows t (put_text (bytes_of "file not found" ++ [10]) (w_screen w))).
Proof.
  intros Hl Hr Hc Hdot. pose proof (kernel_os Hl own base irqs k) as Hos.
  assert (Hne : nm <> []) by (intros ->; pose proof (cr_len _ _ _ _ Hc) as Hlen; simpl in Hlen; lia). split.
  - intros nm' size data Hf. destruct (runs_file own base k w s nm nm' size data Hr Hne Hf) as (Hs & Hdiv & Hlen).
    pose proof (@cat_prints _ (kernel_syscalls irqs) _ _ Hos w s buf nm fd nm' size data (fun _ _ => False)
      Hr Hc Hdot Hf Hs Hdiv Hlen) as Hw.
    apply wp_Ret in Hw as (r & t & Hrun & -> & w' & Hw' & _ & _ & _ & [Hscr _] & _). exists t.
    split; [exact Hrun|]. rewrite <- Hscr. apply Hw'.
  - intros Hf Hmsg.
    pose proof (@cat_not_found _ (kernel_syscalls irqs) _ _ Hos w s buf nm fd (fun _ _ => False)
      Hr Hc Hdot Hf Hmsg) as Hw.
    apply wp_Ret in Hw as (r & t & Hrun & -> & Hw'). exists t. split; [exact Hrun|].
    pose proof (runs_shows _ _ _ _ _ _ Hw') as Hshow. rewrite with_args_screen in Hshow. exact Hshow.
Qed.

(** C13: [ls] on this kernel.  It returns 0 and the terminal shows the name of the
    directory and of every entry, each on a line of its own; a second [ls] would
    list them again. *)
Theorem ls_lists_directory `{Linked} irqs own base k w s buf fd :
  table_linked -> runs own base k w s -> ls_ready w buf fd ->
  exists t, @ls_main _ (kernel_syscalls irqs) _ buf s = Ret 0 t /\
    running_shows t (put_text (ls_output w) (w_screen w)) /\ directory_index (fsg t) = -1.
Proof.
  intros Hl Hr Hc. pose proof (kernel_os Hl own base irqs k) as Hos.
  pose proof (@ls_prints _ (kernel_syscalls irqs) _ _ Hos w s buf fd (fun _ _ => False) Hr Hc) as Hw.
  apply wp_Ret in Hw as (r & t & Hrun & -> & w' & Hw' & Hn & Hscr). exists t.
  split; [exact Hrun|]. rewrite <- Hscr. split; [apply Hw'|].
  destruct (rn_fs _ _ _ _ _ Hw') as (ds & dot & Hfs). destruct (fi_next _ _ _ _ Hfs) as [-> _]. by rewrite Hn.
Qed.

(** C11: the repository's own system call tests.  Run by a fresh process, the eight
    tests of [syserr] all print [PASS], their sum is 0, and the terminal shows
    exactly their nine lines. *)
Theorem system_call_tests_pass `{Linked} irqs own base k w s buf :
  table_linked -> runs own base k w s -> test_world w -> word32 buf ->
  exists t, @run_all_tests _ (kernel_syscalls irqs) _ buf s = Ret 0 t /\
    running_shows t (put_text all_passed (w_screen w)).
Proof.
  intros Hl Hr Hw Hb. pose proof (kernel_os Hl own base irqs k) as Hos.
  pose proof (@all_tests_pass _ (kernel_syscalls irqs) _ _ Hos w s buf (fun _ _ => False) Hr Hw Hb) as Hwp.
  apply wp_Ret in Hwp as (r & t & Hrun & -> & Hw'). exists t. split; [exact Hrun|].
  exact (runs_shows _ _ _ _ _ _ Hw').
Qed.

End theorems.

(** * A closed example

    Process 0 with nothing open, run with the argument [shell] on the image with
    that one file; the linker has put the literals of the programs 64 bytes
    apart from [0x8050000] on. *)

Definition demo_literals : list (list Z) :=
  map (fun s => bytes_of s ++ [0]) ["."; "helloo"; "shel"; ""]%string ++
  map (fun name => bytes_of (name ++ ": PASS")%string ++ [10; 0]) test_names ++
  [10 :: bytes_of "Overall Tests: PASS" ++ [10; 0]; bytes_of "file not found" ++ [10; 0];
   bytes_of "391OS> " ++ [0]; bytes_of "exit" ++ [0]; bytes_of "no such command" ++ [10; 0];
   bytes_of "shell shell" ++ [0]; bytes_of "Starting 391 Shell" ++ [10; 0];
   bytes_of "Hi, what's your name? " ++ [0]; bytes_of "Hello, " ++ [0];
   bytes_of ":" ++ [0]; [10; 0]].

Fixpoint position (l : list Z) (ls : list (list Z)) : Z :=
  match ls with
  | [] => 0
  | x :: ls' => if bool_decide (x = l) then 0 else 1 + position l ls'
  end.

Definition demo_linked : Linked := fun l => 0x8050000 + 64 * position l demo_literals.

Definition demo_user_byte (a : Z) : Z :=
  if (0x850000 <=? a) && (a <? 0x851000)
  then nth (Z.to_nat ((a - 0x850000) mod 64)) (nth (Z.to_nat ((a - 0x850000) / 64)) demo_literals []) 0
  else demo_exec_byte a.

Definition demo_user_pcb : pcb :=
  Pcb 0 (-1) 0 0 0 0 (bytes_of "shell" ++ replicate 123 0)
    (FileArray stdin_table 0 0 1 :: FileArray stdout_table 0 0 1
       :: replicate 6 (FileArray null_fops 0 0 0)) 0.

Definition demo_user_procs : procs :=
  Procs [1; -1; -1; -1; -1; -1] 0 0 0 stdin_table stdout_table null_fops dir_table file_table
    {[ 0x7FE000 := demo_user_pcb ]}.

Definition demo_user : kernel :=
  set_mem (ram_of demo_text VIDEO 0x4000 ∪ ram_of demo_user_byte 0x500000 0xB00000)
    (on_tss (fun _ => Tss KERNEL_DS (kernel_stack 0)) (on_prc (fun _ => demo_user_procs) demo_exec)).

Definition demo_world (g : list (Z * Z)) : world :=
  World (fun a => demo_user_byte (frame_of 0 a)) (bytes_of "shell")
    [(bytes_of "shell", Regular 29 (demo_exec_bytes 0x502000 4096))] 0
    (Stdin :: Stdout :: replicate 6 Closed) (Screen g 0 0).

Section demo.
Let H := quiet_env.
Local Existing Instance H.

Lemma demo_user_low pa :
  0x500000 <= pa < 0x800000 -> mem (mach demo_user) !! pa = mem (mach demo_exec) !! pa.
Proof.
  intros Hpa. unfold demo_user, demo_exec. cbn [mach set_mem on_mach mem].
  rewrite lookup_union_r by (apply ram_of_lookup_None; unfold VIDEO; lia).
  rewrite !ram_of_lookup by lia. unfold demo_user_byte.
  by rewrite (proj2 (Z.leb_gt 0x850000 pa)) by lia.
Qed.

Lemma demo_user_kmem : same_kmem demo_exec demo_user.
Proof.
  split; [apply demo_tables_ok|]. intros pa Hpa. destruct (Z.lt_ge_cases pa 0x500000).
  - unfold demo_user, demo_exec. cbn [mach set_mem on_mach mem].
    rewrite lookup_union_r by (apply ram_of_lookup_None; unfold VIDEO; lia).
    by rewrite !ram_of_lookup_None by lia.
  - apply demo_user_low. lia.
Qed.

Lemma demo_literal_bytes l j i : demo_literals !! j = Some l -> 0 <= nth i l 0 < 256.
Proof.
  assert (Hall : Forall (fun l => forallb (fun b => (0 <=? b) && (b <? 256)) l = true) demo_literals)
    by (apply Forall_forall; intros x Hx; repeat (apply elem_of_cons in Hx as [->|Hx]; [by vm_compute|]);
        by apply elem_of_nil in Hx).
  intros Hl. pose proof (Forall_lookup_1 _ _ _ _ Hall Hl) as Hf. cbn beta in Hf. rewrite forallb_forall in Hf.
  destruct (nth_in_or_default i l 0) as [Hin| ->]; [|lia]. specialize (Hf _ Hin). unbool. lia.
Qed.

Lemma demo_user_range a : 0 <= demo_user_byte a < 256.
Proof.
  unfold demo_user_byte. destruct (_ && _).
  - destruct (demo_literals !! Z.to_nat ((a - 0x850000) / 64)) as [l|] eqn:Hl.
    + rewrite (nth_lookup_Some _ _ _ _ Hl). by eapply demo_literal_bytes.
    + rewrite (nth_overflow demo_literals) by by apply lookup_ge_None.
      assert (Hnil : forall i, nth i (@nil Z) 0 = 0) by by intros [].
      rewrite Hnil. lia.
  - apply demo_exec_byte_range.
Qed.

Lemma demo_user_shows : exists g, running_shows demo_user (Screen g 0 0).
Proof.
  assert (Hv : video_ready demo_user).
  { split; [apply demo_tables_ok|]. intros i Hi. exists (demo_text (VIDEO + i)). split.
    - unfold mem_get. rewrite (cell_video demo_user) by (apply demo_table_linked || apply demo_tables_ok || lia).
      unfold demo_user. cbn [mach set_mem on_mach mem]. apply lookup_union_Some_l, ram_of_lookup. lia.
    - unfold demo_text. pose proof (Z.mod_pos_bound (VIDEO + i) 251 ltac:(lia)). lia. }
  destruct (video_grid demo_user demo_table_linked Hv) as [g Hg]. exists g.
  split; [cbn; lia|]. change (page_of demo_user) with video_mem. split; [exact Hg|]. split.
  - split; [apply Hg|]. unfold cursor_pos. cbn. lia.
  - by eexists.
Qed.

Lemma demo_user_file : file_at demo_user 0 29 (demo_exec_bytes 0x502000 4096).
Proof.
  eapply (file_at_frame demo_table_linked demo_exec); [apply demo_tables_ok|apply demo_user_kmem|reflexivity|].
  do 5 eexists. split; [apply demo_exec_image|]. rewrite demo_exec_length by lia. split_and!; lia.
Qed.

Lemma mem_set_mem_eq m s : mem (mach (set_mem m s)) = m.
Proof. reflexivity. Qed.

Lemma pgs_set_mem m s : pgs (set_mem m s) = pgs s.
Proof. reflexivity. Qed.

Lemma fsg_set_mem m s : fsg (set_mem m s) = fsg s.
Proof. reflexivity. Qed.

Lemma prc_set_mem m s : prc (set_mem m s) = prc s.
Proof. reflexivity. Qed.

Lemma fsg_on_prc f s : fsg (on_prc f s) = fsg s.
Proof. reflexivity. Qed.

Lemma fsg_on_tss f s : fsg (on_tss f s) = fsg s.
Proof. reflexivity. Qed.

Lemma prc_on_tss f s : prc (on_tss f s) = prc s.
Proof. reflexivity. Qed.

Lemma mem_on_prc f s : mem (mach (on_prc f s)) = mem (mach s).
Proof. reflexivity. Qed.

Lemma directory_on_prc f s b ds dot : directory s b ds dot -> directory (on_prc f s) b ds dot.
Proof. intros []. by constructor. Qed.

Lemma word_on_prc f s a v : word_at s a v -> word_at (on_prc f s) a v.
Proof. done. Qed.

Lemma image_on_prc f s ds dot ino size blocks data md mi :
  image s ds dot ino size blocks data md mi -> image (on_prc f s) ds dot ino size blocks data md mi.
Proof. intros [[] ? ? [] ? ? ?]. constructor; try done; by constructor. Qed.

Lemma demo_user_fs g :
  fs_is demo_user (demo_world g) demo_exec_dents (demo_exec_bytes 0x500040 64).
Proof.
  assert (Hk : same_kmem (on_prc (fun _ => demo_user_procs) demo_exec) demo_user).
  { split; [apply demo_tables_ok|]. intros pa Hpa. rewrite mem_on_prc.
    exact (proj2 demo_user_kmem pa Hpa). }
  assert (Ht : tables_ok (pgs (on_prc (fun _ => demo_user_procs) demo_exec))) by apply demo_tables_ok.
  assert (Hf : fsg demo_user = fsg (on_prc (fun _ => demo_user_procs) demo_exec))
    by (unfold demo_user; by rewrite fsg_set_mem, fsg_on_tss).
  assert (Hp : prc demo_user = prc (on_prc (fun _ => demo_user_procs) demo_exec))
    by (unfold demo_user; by rewrite prc_set_mem, prc_on_tss).
  revert Hk Ht Hf Hp. generalize demo_user as t. intros t Hk Ht Hf Hp.
  apply (fs_is_frame demo_table_linked _ t (demo_world g) (demo_world g) _ _ Ht Hk Hf (or_introl Hp) eq_refl eq_refl).
  pose proof demo_exec_image as Himg. constructor; rewrite ?fsg_on_prc.
  - apply directory_on_prc. apply Himg.
  - apply (img_boot_range _ _ _ _ _ _ _ _ _ Himg).
  - apply word_on_prc. by apply demo_exec_word.
  - cbn. lia.
  - split; [reflexivity|]. cbn. lia.
  - by vm_compute.
  - cbn [w_entries demo_world length]. constructor; [|constructor]. split; [by vm_compute|]. cbn [snd].
    split; [by vm_compute|]. do 5 eexists. split; [apply image_on_prc, demo_exec_image|].
    split; [by vm_compute|]. rewrite demo_exec_length by lia. split_and!; lia.
  - apply Forall_forall. intros d Hd. cbn [w_entries demo_world length] in Hd.
    assert (Hall : forallb (fun d => bool_decide (dname d = [])) (drop 1 demo_exec_dents) = true) by by vm_compute.
    rewrite forallb_forall in Hall. apply (proj1 (bool_decide_eq_true _)), Hall. by apply list_elem_of_In.
  - done.
Qed.
Lemma demo_runs (own : Z -> Prop) : own 0 -> exists g, runs own demo_user 0 (demo_world g) demo_user.
Proof.
  intros Hown. destruct demo_user_shows as [g Hg]. exists g.
  assert (Hdirs : pgs demo_user = demo_tables) by reflexivity.
  constructor; rewrite ?Hdirs.
  - apply demo_tables_ok.
  - lia.
  - reflexivity.
  - intros a Ha. split; [|exact (demo_user_range (frame_of 0 a))]. apply user_spec in Ha.
    unfold demo_user. rewrite mem_set_mem_eq, lookup_union_r.
    + change (w_mem (demo_world g) a) with (demo_user_byte (frame_of 0 a)). apply ram_of_lookup.
      unfold frame_of, EIGHT_MB, FOUR_MB. lia.
    + apply ram_of_lookup_None. unfold frame_of, EIGHT_MB, FOUR_MB, VIDEO. lia.
  - exact Hg.
  - exact Hown.
  - intros a p (T & HT & Ha & Hp). injection HT as <-. cbn in Ha. subst a. split; [reflexivity|].
    change (pcbs (prc demo_user)) with ({[ 0x7FE000 := demo_user_pcb ]} : gmap Z pcb) in Hp.
    rewrite lookup_singleton_eq in Hp. by injection Hp as <-.
  - exists 0x7FE000, demo_user_pcb. split.
    + eexists. split; [reflexivity|]. split; [reflexivity|]. apply lookup_singleton_eq.
    + constructor; [reflexivity| |by vm_compute; lia|reflexivity|].
      * unfold bytes. cbn. repeat constructor; lia.
      * repeat constructor; cbn; done.
  - exists demo_exec_dents, (demo_exec_bytes 0x500040 64). apply demo_user_fs.
  - reflexivity.
Qed.

(** Where the literals are. *)
Lemma demo_string g (j : nat) l :
  demo_literals !! j = Some (l ++ [0]) -> (j < 64)%nat -> (length l < 64)%nat ->
  Forall (fun b => b <> 0) l -> string_at (demo_world g) (0x8050000 + 64 * Z.of_nat j) l.
Proof.
  intros Hj Hj64 Hl Hc. constructor; [rewrite user_buffer_spec; lia| |done].
  intros i b Hi. pose proof (lookup_lt_Some _ _ _ Hi) as Hlt. rewrite length_app in Hlt. simpl in Hlt.
  cbn [w_mem demo_world]. unfold demo_user_byte, frame_of, EIGHT_MB, FOUR_MB.
  set (a := 0x800000 + 0 * 0x400000 + (0x8050000 + 64 * Z.of_nat j + Z.of_nat i - 0x8000000)).
  assert (Ha : a - 0x850000 = 64 * Z.of_nat j + Z.of_nat i) by lia.
  rewrite (proj2 (Z.leb_le 0x850000 a)), (proj2 (Z.ltb_lt a 0x851000)), Ha by lia. cbn [andb].
  replace ((64 * Z.of_nat j + Z.of_nat i) / 64) with (Z.of_nat j)
    by (apply Z.div_unique with (Z.of_nat i); lia).
  replace ((64 * Z.of_nat j + Z.of_nat i) mod 64) with (Z.of_nat i)
    by (apply Z.mod_unique with (Z.of_nat j); lia).
  rewrite !Nat2Z.id, (nth_lookup_Some _ _ _ _ Hj). by apply nth_lookup_Some.
Qed.

Lemma demo_placed g (j : nat) l a :
  demo_literals !! j = Some (l ++ [0]) -> (j < 64)%nat -> (length l < 64)%nat ->
  forallb (fun b => negb (b =? 0)) l = true -> a = 0x8050000 + 64 * Z.of_nat j ->
  string_at (demo_world g) a l.
Proof.
  intros Hj Hj64 Hl Hc ->. apply demo_string; try done. apply Forall_forall. intros b Hb.
  rewrite forallb_forall in Hc. apply list_elem_of_In, Hc in Hb. by unbool.
Qed.

Ltac demo_literal g j :=
  apply (demo_placed g j);
  [reflexivity|lia|simpl; lia|vm_compute; reflexivity|vm_compute; reflexivity].

Let L := demo_linked.
Local Existing Instance L.

Lemma demo_cat_ready g : cat_ready (demo_world g) 0x8060000 (bytes_of "shell") 2.
Proof.
  constructor; [reflexivity|reflexivity| |simpl; lia|reflexivity|reflexivity|reflexivity].
  by repeat constructor.
Qed.

Lemma demo_ls_ready g : ls_ready (demo_world g) 0x8060000 2.
Proof.
  constructor; [reflexivity| |reflexivity|simpl; lia| |reflexivity|reflexivity|reflexivity].
  - demo_literal g 0%nat.
  - repeat constructor; simpl; lia.
Qed.

Lemma demo_test_world g : test_world (demo_world g).
Proof.
  constructor; [reflexivity| | | |reflexivity|reflexivity].
  - repeat apply Forall_cons_2; [demo_literal g 4%nat|demo_literal g 5%nat|demo_literal g 6%nat
      |demo_literal g 7%nat|demo_literal g 8%nat|demo_literal g 9%nat
      |demo_literal g 10%nat|demo_literal g 11%nat|apply Forall_nil_2].
  - demo_literal g 12%nat.
  - repeat apply Forall_cons_2; [demo_literal g 0%nat|demo_literal g 1%nat|demo_literal g 2%nat
      |demo_literal g 3%nat|apply Forall_nil_2].
Qed.
End demo.

Definition demo_requests : list request :=
  [Getargs 0x8060000 128; Open 0x8060000; Read 2 0x8060100 4; Close 2; Close 2].

Lemma kernel_refines_os_witness :
  let H := quiet_env in
  exists t, serve_all [] demo_requests demo_user = Ret [0; 2; 4; 0; -1] t.
Proof.
  intros H. destruct (demo_runs (eq 0) eq_refl) as [g Hr].
  assert (Hrs : option_map fst (os_serve_all demo_requests (demo_world g)) = Some [0; 2; 4; 0; -1])
    by (vm_compute; reflexivity).
  destruct (os_serve_all demo_requests (demo_world g)) as [[rs w']|] eqn:Hos; [|discriminate].
  cbn [option_map fst] in Hrs. injection Hrs as ->.
  destruct (kernel_refines_os [] (eq 0) demo_user 0 demo_requests (demo_world g) demo_user [0; 2; 4; 0; -1] w') as (t & Ht & _).
  - apply demo_table_linked.
  - repeat constructor; unfold int32, word32; lia.
  - exact Hr.
  - exact Hos.
  - exists t. exact Ht.
Defined.

Lemma cat_prints_file_witness :
  let H := quiet_env in
  exists g t, @cat_main _ (kernel_syscalls []) demo_linked 0x8060000 demo_user = Ret 0 t /\
    running_shows t (put_text (take (Z.to_nat (whole_chunks 29)) (demo_exec_bytes 0x502000 4096)) (Screen g 0 0)).
Proof.
  intros H. destruct (demo_runs (eq 0) eq_refl) as [g Hr]. exists g.
  destruct (@cat_prints_file quiet_env demo_linked [] (eq 0) demo_user 0 (demo_world g) demo_user 0x8060000 (bytes_of "shell") 2)
    as [Hfound _].
  - apply demo_table_linked.
  - exact Hr.
  - apply demo_cat_ready.
  - discriminate.
  - apply (Hfound (bytes_of "shell") 29 (demo_exec_bytes 0x502000 4096)). reflexivity.
Defined.

Lemma ls_lists_directory_witness :
  let H := quiet_env in
  exists g t, @ls_main _ (kernel_syscalls []) demo_linked 0x8060000 demo_user = Ret 0 t /\
    running_shows t (put_text (ls_output (demo_world g)) (Screen g 0 0)).
Proof.
  intros H. destruct (demo_runs (eq 0) eq_refl) as [g Hr]. exists g.
  destruct (@ls_lists_directory quiet_env demo_linked [] (eq 0) demo_user 0 (demo_world g) demo_user 0x8060000 2)
    as (t & Ht & Hshow & _).
  - apply demo_table_linked.
  - exact Hr.
  - apply demo_ls_ready.
  - exists t. split; [exact Ht|exact Hshow].
Defined.

Lemma system_call_tests_pass_witness :
  let H := quiet_env in
  exists g t, @run_all_tests _ (kernel_syscalls []) demo_linked 0x8060000 demo_user = Ret 0 t /\
    running_shows t (put_text all_passed (Screen g 0 0)).
Proof.
  intros H. destruct (demo_runs (eq 0) eq_refl) as [g Hr]. exists g.
  apply (@system_call_tests_pass quiet_env demo_linked [] (eq 0) demo_user 0 (demo_world g) demo_user 0x8060000).
  - apply demo_table_linked.
  - exact Hr.
  - apply demo_test_world.
  - unfold word32. lia.
Defined.
