(* ===== verification/Grep.v ===== *)
(** [grep] verified against the interface [OS]: its specification on lists of
    lines, the proof rules for its buffer, and [do_one_file]. *)
From stdpp Require Import base numbers list gmap strings.
From Stdlib Require Import ZArith Lia.
From S2P Require Import Prelude Machine Strings Console Paging FileSys Support Os Programs Clients.

(** * The specification

    A text file is a list of lines, each ended by a newline. *)

Definition flat (ls : list (list Z)) : list Z := concat (map (fun l => l ++ [10]) ls).

Fixpoint split_lines (l : list Z) : list (list Z) :=
  match l with
  | [] => []
  | c :: l' =>
    if c =? 10 then [] :: split_lines l' else
    match split_lines l' with
    | [] => [[c]]
    | x :: xs => (c :: x) :: xs
    end
  end.

Fixpoint prefixb (p l : list Z) : bool :=
  match p, l with
  | [], _ => true
  | x :: p', y :: l' => (x =? y) && prefixb p' l'
  | _ :: _, [] => false
  end.

Fixpoint contains (p l : list Z) : bool :=
  prefixb p l || match l with [] => false | _ :: l' => contains p l' end.

(** The lines of the file [nm] that contain [pat], the way [grep] prints them. *)
Definition matches (pat nm : list Z) (ls : list (list Z)) : list Z :=
  concat (map (fun l => if contains pat l then nm ++ [58] ++ l ++ [10] else []) ls).

(** [grep] reads a file through a buffer of 1024 bytes, as many whole lines at a
    time as fit: the lines of the last buffer. *)
Fixpoint last_fill (room : nat) (win ls : list (list Z)) : list (list Z) :=
  match ls with
  | [] => win
  | l :: ls' =>
    if Nat.leb (S (length l)) room
    then last_fill (room - S (length l)) (win ++ [l]) ls'
    else last_fill (1024 - S (length l)) [l] ls'
  end.

(** What is left of them after the last line was searched: terminators where
    the newlines were, the first byte overwritten.  [grep] searches these bytes
    again, as many as there was room for after the last line. *)
Definition nulled (ls : list (list Z)) : list Z := concat (map (fun l => l ++ [0]) ls).
Definition stale (pat : list Z) (ls : list (list Z)) : bool :=
  contains pat (take (1023 - length (flat ls)) (drop 1 (nulled ls))).

Definition grep_output (pat nm : list Z) (ls : list (list Z)) : list Z :=
  matches pat nm ls ++ (if stale pat (last_fill 1024 [] ls) then nm ++ [58; 10] else []).

(** A text file on this kernel: no line is longer than the buffer, and the blocks
    reach as far past the end as [grep] reads, with zeros there. *)
Definition line_ok (l : list Z) : Prop :=
  (length l <= 1023)%nat /\ Forall (fun c => c <> 0 /\ c <> 10) l.

Record text_file (size : Z) (data : list Z) (ls : list (list Z)) : Prop := {
  tf_size : size = Z.of_nat (length (flat ls));
  tf_lines : Forall line_ok ls;
  tf_data : exists pad, data = flat ls ++ replicate pad 0 /\
    (1024 <= length (flat (last_fill 1024 [] ls)) + pad)%nat;
  tf_length : Z.of_nat (length data) < 2 ^ 31 }.

(** * Lists *)

Lemma flat_app a b : flat (a ++ b) = flat a ++ flat b.
Proof. unfold flat. by rewrite map_app, concat_app. Qed.

Lemma flat_cons l ls : flat (l :: ls) = l ++ 10 :: flat ls.
Proof. unfold flat. cbn. by rewrite <- app_assoc. Qed.

Lemma nulled_app a b : nulled (a ++ b) = nulled a ++ nulled b.
Proof. unfold nulled. by rewrite map_app, concat_app. Qed.

Lemma nulled_cons l ls : nulled (l :: ls) = l ++ 0 :: nulled ls.
Proof. unfold nulled. cbn. by rewrite <- app_assoc. Qed.

Lemma nulled_length ls : length (nulled ls) = length (flat ls).
Proof. induction ls as [|l ls IH]; [done|]. rewrite nulled_cons, flat_cons, !length_app. cbn. by rewrite IH. Qed.

Lemma flat_nil ls : length (flat ls) = O -> ls = [].
Proof. destruct ls as [|l ls]; [done|]. rewrite flat_cons, length_app. cbn. lia. Qed.

Lemma matches_app pat nm a b : matches pat nm (a ++ b) = matches pat nm a ++ matches pat nm b.
Proof. unfold matches. by rewrite map_app, concat_app. Qed.

Lemma nulled_no_newline ls : Forall line_ok ls -> Forall (fun c => c <> 10) (nulled ls).
Proof.
  induction 1 as [|l ls [_ Hl] _ IH]; [done|]. rewrite nulled_cons. apply Forall_app. split.
  - eapply Forall_impl; [exact Hl|]. by intros c [_ Hc].
  - by constructor.
Qed.

(** A pattern is not empty and has no terminator. *)
Definition pattern (p : list Z) : Prop := p <> [] /\ Forall (fun c => c <> 0) p.

Lemma contains_cons p c l : contains p (c :: l) = prefixb p (c :: l) || contains p l.
Proof. done. Qed.

Lemma contains_nil p : p <> [] -> contains p [] = false.
Proof. by destruct p. Qed.

Lemma contains_zero p l : pattern p -> contains p (0 :: l) = contains p l.
Proof.
  intros [Hp Hc]. rewrite contains_cons. destruct p as [|x p]; [done|]. apply Forall_cons_1 in Hc as [Hx _].
  cbn [prefixb]. by rewrite (proj2 (Z.eqb_neq x 0)).
Qed.

Lemma prefixb_zeros p l n : Forall (fun c => c <> 0) p -> prefixb p (l ++ replicate n 0) = prefixb p l.
Proof.
  intros Hp. revert l. induction Hp as [|x p Hx Hp IH]; intros l; [by destruct l|].
  destruct l as [|y l]; cbn.
  - destruct n as [|n]; [done|]. cbn. by rewrite (proj2 (Z.eqb_neq x 0)).
  - by rewrite IH.
Qed.

Lemma contains_zeros p l n : pattern p -> contains p (l ++ replicate n 0) = contains p l.
Proof.
  intros Hp. induction l as [|y l IH]; cbn [app].
  - rewrite (contains_nil p) by apply Hp. induction n as [|n IHn]; [by apply contains_nil, Hp|].
    cbn [replicate]. by rewrite contains_zero.
  - rewrite !contains_cons, IH. f_equal. apply (prefixb_zeros p (y :: l)), Hp.
Qed.

(** The whole lines that fit. *)
Fixpoint fill (room : nat) (ls : list (list Z)) : list (list Z) * list (list Z) :=
  match ls with
  | [] => ([], [])
  | l :: ls' =>
    if Nat.leb (S (length l)) room
    then let '(a, b) := fill (room - S (length l)) ls' in (l :: a, b)
    else ([], ls)
  end.

Lemma fill_spec room ls :
  ls = fst (fill room ls) ++ snd (fill room ls) /\ (length (flat (fst (fill room ls))) <= room)%nat /\
  match snd (fill room ls) with
  | [] => True
  | l :: _ => (room - length (flat (fst (fill room ls))) <= length l)%nat
  end.
Proof.
  revert room. induction ls as [|l ls IH]; intros room; [cbn; split_and!; (done || lia)|]. cbn [fill].
  destruct (Nat.leb_spec (S (length l)) room) as [Hl|Hl].
  - destruct (IH (room - S (length l))%nat) as (H1 & H2 & H3).
    destruct (fill (room - S (length l)) ls) as [a b]. cbn [fst snd] in *.
    rewrite flat_cons, length_app. cbn [length]. split_and!; [by rewrite H1 at 1|lia|]. destruct b; [done|lia].
  - cbn. split_and!; (done || lia).
Qed.

Lemma last_fill_fill room win ls :
  Forall line_ok ls ->
  last_fill room win ls =
    match snd (fill room ls) with [] => win ++ fst (fill room ls) | _ => last_fill 1024 [] (snd (fill room ls)) end.
Proof.
  intros Hls. revert room win. induction Hls as [|l ls [Hl _] Hls IH]; intros room win; cbn [last_fill fill].
  { by rewrite app_nil_r. }
  destruct (Nat.leb_spec (S (length l)) room) as [Hr|Hr].
  - rewrite IH. destruct (fill (room - S (length l)) ls) as [a [|b bs]]; cbn [fst snd]; [|done].
    by rewrite <- app_assoc.
  - cbn [fst snd last_fill]. by rewrite (proj2 (Nat.leb_le _ _)) by lia.
Qed.

Lemma flat_count ls : (length ls <= length (flat ls))%nat.
Proof. induction ls as [|l ls IH]; [done|]. rewrite flat_cons, length_app. cbn [length]. lia. Qed.

Lemma moved_end (p L : list Z) n : (S (length p) <= n)%nat -> (p ++ 0 :: drop (S (length p)) L) !! n = L !! n.
Proof.
  intros Hn. rewrite lookup_app_r by lia. destruct (n - length p)%nat as [|k] eqn:Hk; [lia|].
  change ((0 :: drop (S (length p)) L) !! S k) with (drop (S (length p)) L !! k).
  rewrite lookup_drop. f_equal. lia.
Qed.

(** What a full buffer holds behind its whole lines: the start of the next line,
    or the zeros after the last one. *)
Definition tail_of (ws rem : list (list Z)) : list Z :=
  match rem with
  | [] => replicate (1024 - length (flat ws)) 0
  | l :: _ => take (1024 - length (flat ws)) l
  end.

(** Its string. *)
Definition carry_of (ws rem : list (list Z)) : list Z := match rem with [] => [] | _ => tail_of ws rem end.

Lemma window rem pad ws rem' :
  fill 1024 rem = (ws, rem') -> (rem' = [] -> (1024 <= length (flat ws) + pad)%nat) ->
  take 1024 (flat rem ++ replicate pad 0) = flat ws ++ tail_of ws rem' /\
  (length (flat ws) + length (tail_of ws rem') = 1024)%nat.
Proof.
  intros Hfill Hpad. pose proof (fill_spec 1024 rem) as (Hrem & Hlen & Hnext). rewrite Hfill in Hrem, Hlen, Hnext.
  cbn [fst snd] in *. rewrite Hrem, flat_app, <- app_assoc, take_app, (take_ge (flat ws)) by done.
  destruct rem' as [|l rem']; cbn [tail_of].
  - specialize (Hpad eq_refl). cbn [flat map concat app]. rewrite take_replicate, length_replicate, Nat.min_l by lia.
    split; [done|lia].
  - rewrite flat_cons, <- app_assoc, take_app_le, length_take by lia. split; [done|lia].
Qed.

Lemma tail_of_no_newline ws rem : Forall line_ok rem -> Forall (fun c => c <> 10) (tail_of ws rem).
Proof.
  intros Hrem. destruct rem as [|l rem]; cbn [tail_of]; [by apply Forall_replicate|].
  apply Forall_inv in Hrem as [_ Hl]. apply Forall_take. eapply Forall_impl; [exact Hl|]. by intros c [_ Hc].
Qed.

Lemma carry_of_string ws rem :
  Forall line_ok rem -> Forall (fun c => c <> 0) (carry_of ws rem) /\
  exists rest, tail_of ws rem ++ [0] = carry_of ws rem ++ 0 :: rest.
Proof.
  intros Hrem. destruct rem as [|l rem]; cbn [carry_of tail_of].
  - split; [done|]. exists (replicate (1024 - length (flat ws)) 0). by rewrite <- replicate_cons_app.
  - split; [|by exists []]. apply Forall_inv in Hrem as [_ Hl]. apply Forall_take.
    eapply Forall_impl; [exact Hl|]. by intros c [Hc _].
Qed.

(** The buffer when its last line has been searched and the zeros behind it
    moved to the front. *)
Definition leftover (ws : list (list Z)) : list Z :=
  0 :: drop 1 (nulled ws ++ replicate (1024 - length (flat ws)) 0 ++ [0]).

Lemma nulled_not_nil ws : ws <> [] -> nulled ws <> [].
Proof. destruct ws as [|l ws]; [done|]. intros _. rewrite nulled_cons. by destruct l. Qed.

Lemma leftover_tail ws :
  ws <> [] -> drop 1 (nulled ws ++ replicate (1024 - length (flat ws)) 0 ++ [0]) =
  drop 1 (nulled ws) ++ replicate (S (1024 - length (flat ws))) 0.
Proof.
  intros Hws. pose proof (nulled_not_nil ws Hws) as Hn. destruct (nulled ws) as [|x l]; [done|].
  cbn [drop app]. by rewrite replicate_S_end.
Qed.

Lemma stale_leftover pat ws :
  pattern pat -> ws <> [] -> (length (flat ws) < 1024)%nat ->
  contains pat (take (1024 - length (flat ws)) (leftover ws)) = stale pat ws.
Proof.
  intros Hp Hws Hlt. unfold leftover, stale. rewrite leftover_tail by done.
  replace (1024 - length (flat ws))%nat with (S (1023 - length (flat ws))) at 1 by lia.
  cbn [take]. rewrite contains_zero by done. by rewrite take_app, take_replicate, contains_zeros.
Qed.

Lemma leftover_no_newline ws : Forall line_ok ws -> Forall (fun c => c <> 10) (leftover ws).
Proof.
  intros Hws. constructor; [done|]. apply Forall_drop, Forall_app. split; [by apply nulled_no_newline|].
  apply Forall_app. split; [by apply Forall_replicate|by repeat constructor].
Qed.

Lemma leftover_length ws : (length (flat ws) <= 1024)%nat -> length (leftover ws) = 1025%nat.
Proof.
  intros Hle. unfold leftover. cbn [length]. rewrite length_drop, !length_app, length_replicate, nulled_length. cbn. lia.
Qed.

Lemma stale_full pat ws : pattern pat -> (1023 <= length (flat ws))%nat -> stale pat ws = false.
Proof.
  intros [Hp _] Hle. unfold stale. replace (1023 - length (flat ws))%nat with O by lia. by apply contains_nil.
Qed.

Lemma fill_not_nil l ls : line_ok l -> fst (fill 1024 (l :: ls)) <> [].
Proof.
  intros [Hl _]. cbn [fill]. rewrite (proj2 (Nat.leb_le _ _)) by lia. by destruct (fill _ ls).
Qed.

(** * The buffer

    [buffered w B s]: the state [s] represents [w] but for the 1025 bytes of
    [grep]'s array [data], which are [B]. *)

Section grep.
Context `{Env} `{Syscalls} `{Linked} (abs : world -> kernel -> Prop) `{!OS abs} (data : Z).
Hypothesis Hdata : user_buffer data 1025 = true.

Definition clear_of (a n : Z) : Prop := a + n <= data \/ data + 1025 <= a.

Definition buffered (w : world) (B : list Z) (s : kernel) : Prop :=
  exists w', abs w' s /\ same_but_mem w w' /\ bytes_in w' data 1025 = B /\
    forall a, clear_of a 1 -> w_mem w' a = w_mem w a.

Lemma data_range : 0x8000000 <= data /\ data + 1025 <= 0x8400000.
Proof. pose proof Hdata as Hd. rewrite user_buffer_spec in Hd. lia. Qed.

Lemma buffered_length w B s : buffered w B s -> length B = 1025%nat.
Proof. intros (w' & _ & _ & <- & _). apply bytes_in_length. Qed.

Lemma buffered_start w s : abs w s -> buffered w (bytes_in w data 1025) s.
Proof. intros Hw. exists w. split_and!; try done. by destruct w. Qed.

Lemma bytes_in_get w i : (i < 1025)%nat -> bytes_in w data 1025 !! i = Some (w_mem w (data + Z.of_nat i)).
Proof. apply bytes_in_lookup. Qed.

Lemma buf_load w B s i b : buffered w B s -> B !! i = Some b -> uload8 (data + Z.of_nat i) s = Ret b s.
Proof.
  intros (w' & Hw & _ & <- & _) Hi. pose proof (lookup_lt_Some _ _ _ Hi) as Hl. rewrite bytes_in_length in Hl.
  rewrite bytes_in_get in Hi by done. injection Hi as <-. apply os_loads; [done|].
  eapply user_buffer_user; [exact Hdata|lia].
Qed.

Lemma buf_byte w B s i b : buffered w B s -> B !! i = Some b -> 0 <= b < 256.
Proof.
  intros (w' & Hw & _ & <- & _) Hi. pose proof (lookup_lt_Some _ _ _ Hi) as Hl. rewrite bytes_in_length in Hl.
  rewrite bytes_in_get in Hi by done. injection Hi as <-. apply (os_bytes w' s); [done|].
  eapply user_buffer_user; [exact Hdata|lia].
Qed.

Lemma bytes_in_stored_byte w i v :
  (i < 1025)%nat ->
  bytes_in (stored_byte (data + Z.of_nat i) v w) data 1025 = <[i := v]> (bytes_in w data 1025).
Proof.
  intros Hi. apply list_eq. intros j. destruct (decide (j < 1025)%nat) as [Hj|Hj].
  - rewrite bytes_in_get by done. unfold stored_byte, set_w_mem, upd. cbn [w_mem].
    destruct (Z.eqb_spec (data + Z.of_nat j) (data + Z.of_nat i)) as [He|Hne].
    + assert (j = i) as -> by lia. by rewrite list_lookup_insert_eq by by rewrite bytes_in_length.
    + rewrite list_lookup_insert_ne by (intros ->; done). by rewrite bytes_in_get.
  - rewrite !lookup_ge_None_2; [done|rewrite length_insert|]; rewrite bytes_in_length; lia.
Qed.

Lemma same_mem_store w w' a v : same_but_mem w w' -> same_but_mem w (stored_byte a v w').
Proof. unfold same_but_mem, stored_byte, set_w_mem. intros ->. done. Qed.

Lemma buf_store w B s i v (Q : unit -> kernel -> Prop) E :
  buffered w B s -> (i < 1025)%nat -> 0 <= v < 256 -> (forall t, buffered w (<[i := v]> B) t -> Q tt t) ->
  wp (ustore8 (data + Z.of_nat i) v) Q E s.
Proof.
  intros (w' & Hw & Hsame & <- & Hout) Hi Hv HQ.
  eapply store_rule; [done|exact Hw|eapply user_buffer_user; [exact Hdata|lia]|].
  rewrite u8_small by done. intros t Ht. apply HQ. eexists. split; [exact Ht|].
  split; [by apply same_mem_store|]. split; [by apply bytes_in_stored_byte|].
  intros a Ha. unfold clear_of in Ha. unfold stored_byte, set_w_mem, upd. cbn [w_mem].
  rewrite (proj2 (Z.eqb_neq a _)) by lia. apply Hout. unfold clear_of. lia.
Qed.

(** Strings outside the buffer. *)
Lemma buf_string w w' a l :
  (forall b, clear_of b 1 -> w_mem w' b = w_mem w b) -> string_at w a l ->
  clear_of a (Z.of_nat (length l) + 1) -> string_at w' a l.
Proof.
  intros Hout Hs Ha. apply (string_at_frame w); [|done]. intros i Hi. apply Hout.
  unfold clear_of in *. lia.
Qed.

Lemma buf_load_string w B s a l i b :
  buffered w B s -> string_at w a l -> clear_of a (Z.of_nat (length l) + 1) -> (l ++ [0]) !! i = Some b ->
  uload8 (a + Z.of_nat i) s = Ret b s.
Proof.
  intros (w' & Hw & _ & _ & Hout) Hs Ha Hi.
  eapply uload_string; [done|exact Hw|by eapply buf_string|exact Hi].
Qed.

Lemma same_mem_printed w w' l : same_but_mem w w' -> same_but_mem (printed l w) (printed l w').
Proof. unfold same_but_mem. intros ->. done. Qed.

Lemma buf_printed w w' l t :
  abs (printed l w') t -> same_but_mem w w' -> (forall a, clear_of a 1 -> w_mem w' a = w_mem w a) ->
  buffered (printed l w) (bytes_in w' data 1025) t.
Proof. intros Ht Hsame Hout. exists (printed l w'). split; [done|]. split; [by apply same_mem_printed|]. by split. Qed.

(** Printing a string from elsewhere, and one from the buffer. *)
Lemma buf_puts w B s a l (Q : unit -> kernel -> Prop) E :
  buffered w B s -> to_screen w -> string_at w a l -> clear_of a (Z.of_nat (length l) + 1) ->
  (forall t, buffered (printed l w) B t -> Q tt t) ->
  wp (ece391_fdputs 1 a) Q E s.
Proof.
  intros (w' & Hw & Hsame & <- & Hout) Hsc Hs Ha HQ.
  eapply wp_mono; [eapply fdputs_rule; [done|exact Hw| |by eapply buf_string]| |done].
  - unfold to_screen, fd_of in *. by rewrite Hsame.
  - intros [] t Ht. apply HQ. by apply buf_printed.
Qed.

Lemma buf_puts_line w B s l X Y (Q : unit -> kernel -> Prop) E :
  buffered w B s -> to_screen w -> B = X ++ l ++ 0 :: Y -> Forall (fun c => c <> 0) l ->
  (forall t, buffered (printed l w) B t -> Q tt t) ->
  wp (ece391_fdputs 1 (data + Z.of_nat (length X))) Q E s.
Proof.
  intros Hb Hsc HB Hl HQ. pose proof (buffered_length _ _ _ Hb) as HBl.
  destruct Hb as (w' & Hw & Hsame & HB' & Hout). pose proof data_range as Hr.
  rewrite HB, !length_app in HBl. cbn [length] in HBl.
  eapply wp_mono; [eapply fdputs_rule with (l := l); [done|exact Hw| |]| |done].
  - unfold to_screen, fd_of in *. by rewrite Hsame.
  - constructor; [rewrite user_buffer_spec; lia| |exact Hl]. intros i b Hi.
    assert (Hi' : B !! (length X + i)%nat = Some b).
    { rewrite HB, lookup_app_r by lia. replace (length X + i - length X)%nat with i by lia.
      change (l ++ 0 :: Y) with (l ++ [0] ++ Y). rewrite app_assoc. by apply lookup_app_l_Some. }
    rewrite <- HB' in Hi'. pose proof (lookup_lt_Some _ _ _ Hi') as Hlt. rewrite bytes_in_length in Hlt.
    rewrite bytes_in_get in Hi' by done. injection Hi' as <-. f_equal. lia.
  - intros [] t Ht. apply HQ. rewrite <- HB'. by apply buf_printed.
Qed.

Lemma bytes_in_refilled w last chunk d :
  0 <= last <= 1024 -> length chunk = Z.to_nat (1024 - last) ->
  bytes_in (set_w_fds d (stored_bytes (data + last) chunk w)) data 1025 =
  take (Z.to_nat last) (bytes_in w data 1025) ++ chunk ++ drop 1024 (bytes_in w data 1025).
Proof.
  intros Hlast Hc. apply list_eq_same_length with 1025%nat; [|by apply bytes_in_length|].
  { rewrite !length_app, length_take, length_drop, bytes_in_length. lia. }
  intros i x y Hi Hx Hy. rewrite bytes_in_get in Hx by done. injection Hx as <-. cbn [w_mem set_w_fds].
  destruct (decide (i < Z.to_nat last)%nat) as [Hlo|Hlo].
  { rewrite lookup_app_l, lookup_take_lt, bytes_in_get in Hy by (rewrite ?length_take, ?bytes_in_length; lia).
    injection Hy as <-. apply stored_out. lia. }
  rewrite lookup_app_r in Hy by (rewrite length_take, bytes_in_length; lia).
  rewrite length_take, bytes_in_length, Nat.min_l in Hy by lia.
  destruct (decide (i < 1024)%nat) as [Hmid|Hmid].
  - rewrite lookup_app_l in Hy by lia.
    replace (data + Z.of_nat i) with (data + last + Z.of_nat (i - Z.to_nat last)) by lia. by apply stored_in.
  - rewrite lookup_app_r, Hc, lookup_drop in Hy by lia.
    rewrite bytes_in_get in Hy by lia. injection Hy as <-. rewrite stored_out by lia. f_equal. lia.
Qed.

(** A read of the open file into the buffer behind [last] bytes. *)
Lemma buf_read w B s fd last size text pos (Q : Z -> kernel -> Prop) E :
  buffered w B s -> 2 <= fd <= 7 -> length (w_fds w) = 8%nat -> fd_of w fd = FileAt size text pos ->
  0 <= last <= 1024 -> 0 <= pos ->
  (size <= pos -> forall t, buffered w B t -> Q 0 t) ->
  (pos < size -> last < 1024 /\ pos + (1024 - last) <= Z.of_nat (length text) /\ forall t,
     buffered (set_fd fd (FileAt size text (pos + (1024 - last))) w)
       (take (Z.to_nat last) B ++ take (Z.to_nat (1024 - last)) (drop (Z.to_nat pos) text)
          ++ drop 1024 B) t -> Q (1024 - last) t) ->
  wp (ece391_read fd (data + last) (BUFSIZE - last)) Q E s.
Proof.
  intros (w' & Hw & Hsame & HB & Hout) Hfd Hl Hf Hlast Hpos Hend Hmore. pose proof data_range as Hr.
  unfold BUFSIZE. assert (Hf' : fd_of w' fd = FileAt size text pos) by (unfold fd_of in *; by rewrite Hsame).
  assert (Hread : os_read fd (data + last) (1024 - last) w' =
    if size <=? pos then Some (0, w') else
    if user_buffer (data + last) (1024 - last) && (0 <? 1024 - last) && (pos + (1024 - last) <=? Z.of_nat (length text))
    then Some (1024 - last, set_fd fd (FileAt size text (pos + (1024 - last)))
      (stored_bytes (data + last) (take (Z.to_nat (1024 - last)) (drop (Z.to_nat pos) text)) w'))
    else None).
  { unfold os_read, bad_fd. rewrite Hf', (proj2 (Z.ltb_ge (1024 - last) 0)), (proj2 (Z.ltb_ge fd 0)),
      (proj2 (Z.ltb_ge 7 fd)), (proj2 (Z.eqb_neq (data + last) 0)) by lia. done. }
  destruct (Z.leb_spec size pos) as [Hge|Hlt].
  - eapply wp_call; [apply os_reads; unfold int32, word32; lia|exact Hw|exact Hread|].
    intros t Ht. apply (Hend Hge). by exists w'.
  - destruct (Hmore Hlt) as (Hlast' & Hfits & HQ).
    rewrite (proj2 (user_buffer_spec _ _)), (proj2 (Z.ltb_lt 0 _)), (proj2 (Z.leb_le _ _)) in Hread by lia.
    eapply wp_call; [apply os_reads; unfold int32, word32; lia|exact Hw|exact Hread|].
    set (chunk := take (Z.to_nat (1024 - last)) (drop (Z.to_nat pos) text)) in *.
    assert (Hc : length chunk = Z.to_nat (1024 - last)).
    { unfold chunk. rewrite length_take_le; [done|rewrite length_drop; lia]. }
    intros t Ht. apply HQ. eexists. split; [exact Ht|]. split_and!.
    + unfold same_but_mem, set_fd, set_w_fds, set_w_mem in *.
      rewrite (stored_bytes_same (data + last) chunk w'), Hsame. done.
    + rewrite <- HB. by apply bytes_in_refilled.
    + intros a Ha. cbn [w_mem set_fd set_w_fds]. unfold clear_of in Ha. rewrite stored_out by lia. by apply Hout.
Qed.

(** Moving the string at [k > 0] down to the start of the buffer. *)
Lemma buf_strcpy w B s l X Y E :
  buffered w B s -> B = X ++ l ++ 0 :: Y -> X <> [] -> Forall (fun c => c <> 0) l ->
  wp (ece391_strcpy data (data + Z.of_nat (length X)))
    (fun _ t => buffered w (l ++ 0 :: drop (S (length l)) B) t) E s.
Proof.
  intros Hb HB HX Hl. pose proof (buffered_length _ _ _ Hb) as Hlen.
  assert (HX0 : (0 < length X)%nat) by (destruct X; [done|cbn; lia]).
  assert (HBl : (length X + length l < 1025)%nat)
    by (rewrite HB, !length_app in Hlen; cbn [length] in Hlen; lia).
  unfold ece391_strcpy.
  apply wp_loop_ghost with (I := fun (i : nat) ds t =>
      ds = (data + Z.of_nat i, data + Z.of_nat (length X + i)) /\ (i <= length l)%nat /\
      buffered w (take i l ++ drop i B) t)
    (mu := fun i => 1025 - Z.of_nat i) (g := O); [|unfold loop_fuel; lia|].
  { rewrite Nat.add_0_r, Z.add_0_r. split_and!; [done|lia|done]. }
  intros i ds t (-> & Hi & Ht). split; [lia|]. cbn [fst snd]. wp_step.
  assert (Hsrc : exists b, (l ++ [0]) !! i = Some b) by (apply lookup_lt_is_Some_2; rewrite length_app; cbn; lia).
  destruct Hsrc as [b Hb0].
  assert (Hget : (take i l ++ drop i B) !! (length X + i)%nat = Some b).
  { rewrite lookup_app_r, length_take, Nat.min_l, lookup_drop by (rewrite ?length_take; lia).
    replace (i + (length X + i - i))%nat with (length X + i)%nat by lia.
    rewrite HB, lookup_app_r by lia. replace (length X + i - length X)%nat with i by lia.
    change (l ++ 0 :: Y) with (l ++ [0] ++ Y). rewrite app_assoc. by apply lookup_app_l_Some. }
  pose proof (buf_load _ _ _ _ _ Ht Hget) as Hload. wp_use Hload. wp_step.
  eapply buf_store; [exact Ht|lia|by eapply buf_byte|]. intros u Hu. cbn beta.
  assert (Hins : <[i := b]> (take i l ++ drop i B) = take i l ++ b :: drop (S i) B).
  { rewrite insert_app_r_alt by (rewrite length_take; lia).
    rewrite length_take, Nat.min_l, Nat.sub_diag by lia. f_equal.
    destruct (lookup_lt_is_Some_2 B i) as [y Hy]; [lia|]. by rewrite (drop_S _ _ _ Hy). }
  rewrite Hins in Hu.
  destruct (decide (i = length l)) as [->|Hne].
  - rewrite lookup_app_r, Nat.sub_diag in Hb0 by done. injection Hb0 as <-. change (negb (0 =? 0)) with false.
    cbn iota. apply wp_ret. by rewrite take_ge in Hu.
  - rewrite lookup_app_l in Hb0 by lia. pose proof (Forall_lookup_1 _ _ _ _ Hl Hb0) as Hnz. cbn beta in Hnz.
    rewrite (proj2 (Z.eqb_neq 0 b)) by congruence. cbn [negb]. apply wp_ret. exists (S i). split; [|lia].
    split_and!; [f_equal; lia|lia|].
    rewrite (take_S_r _ _ _ Hb0), <- app_assoc. exact Hu.
Qed.

(** Comparing the bytes at [k] with the pattern. *)
Lemma buf_strncmp w B s a pat k seg Y E :
  buffered w B s -> string_at w a pat -> clear_of a (Z.of_nat (length pat) + 1) -> pat <> [] ->
  drop k B = seg ++ 0 :: Y ->
  wp (ece391_strncmp (data + Z.of_nat k) a (Z.of_nat (length pat)))
    (fun r t => (0 =? r) = prefixb pat seg /\ t = s) E s.
Proof.
  intros Hb Ha Hclear Hne HB. pose proof (sa_user _ _ _ Ha) as Hu. rewrite user_buffer_spec in Hu.
  assert (Hp0 : (0 < length pat)%nat) by (destruct pat; [done|cbn; lia]).
  unfold ece391_strncmp. rewrite (proj2 (Z.eqb_neq 0 _)) by lia.
  apply wp_loop_ghost with (I := fun (i : nat) args t => t = s /\
      args = (data + Z.of_nat (k + i), a + Z.of_nat i, Z.of_nat (length pat - i)) /\
      (i < length pat)%nat /\ (i <= length seg)%nat /\ prefixb pat seg = prefixb (drop i pat) (drop i seg))
    (mu := fun i => Z.of_nat (length pat) - Z.of_nat i) (g := O); [|unfold loop_fuel; lia|].
  { rewrite Nat.add_0_r, Z.add_0_r, Nat.sub_0_r. split_and!; (done || lia). }
  intros i args t (-> & -> & Hi & Hseg & Hpre). split; [lia|]. cbn beta iota. wp_step.
  destruct (lookup_lt_is_Some_2 (seg ++ [0]) i) as [c1 Hc1]; [rewrite length_app; cbn; lia|].
  destruct (lookup_lt_is_Some_2 pat i) as [c2 Hc2]; [lia|].
  pose proof (Forall_lookup_1 _ _ _ _ (sa_chars _ _ _ Ha) Hc2) as Hnz. cbn beta in Hnz.
  assert (Hget : B !! (k + i)%nat = Some c1).
  { rewrite <- lookup_drop, HB. change (seg ++ 0 :: Y) with (seg ++ [0] ++ Y). rewrite app_assoc.
    by apply lookup_app_l_Some. }
  pose proof (buf_load _ _ _ _ _ Hb Hget) as Hload. wp_use Hload. wp_step.
  pose proof (buf_load_string _ _ _ _ _ i c2 Hb Ha Hclear (lookup_app_l_Some _ _ _ _ Hc2)) as Hload2.
  wp_use Hload2. rewrite (drop_S _ _ _ Hc2) in Hpre.
  destruct (decide (i = length seg)) as [->|Hin].
  - rewrite lookup_app_r, Nat.sub_diag in Hc1 by done. injection Hc1 as <-.
    rewrite (proj2 (Z.eqb_neq 0 c2)) by congruence. apply wp_ret. split; [|done].
    rewrite Hpre, drop_all. cbn [prefixb]. apply Z.eqb_neq. lia.
  - rewrite lookup_app_l in Hc1 by lia. rewrite (drop_S _ _ _ Hc1) in Hpre. cbn [prefixb] in Hpre.
    destruct (Z.eq_dec c1 c2) as [->|Hd].
    + rewrite !Z.eqb_refl in *. cbn [andb] in Hpre. rewrite (proj2 (Z.eqb_neq c2 0)) by done.
      rewrite u32_small by lia.
      destruct (Z.eqb_spec (Z.of_nat (length pat - i) - 1) 0) as [Hlast|Hmore].
      * apply wp_ret. split; [|done]. rewrite Hpre, (drop_ge pat) by lia. done.
      * apply wp_ret. exists (S i). split; [|lia]. split_and!; try done; try lia.
        f_equal; [f_equal; lia|lia].
    + rewrite (proj2 (Z.eqb_neq c1 c2)) by done. rewrite (proj2 (Z.eqb_neq c2 c1)) in Hpre by congruence.
      apply wp_ret. split; [|done]. rewrite Hpre. apply Z.eqb_neq. lia.
Qed.

(** The next newline at or after the end of [X], or the end of the data. *)
Lemma buf_line_end w B s X l Y last E :
  buffered w B s -> B = X ++ l ++ Y -> Forall (fun c => c <> 10) l -> (length X + length l <= 1024)%nat ->
  (last = Z.of_nat (length X + length l) \/ (Z.of_nat (length X + length l) < last /\ head Y = Some 10)) ->
  wp (find_line_end data last (Z.of_nat (length X)))
    (fun r t => r = Z.of_nat (length X + length l) /\ t = s) E s.
Proof.
  intros Hb HB Hl Hlen Hend. unfold find_line_end.
  apply wp_loop_ghost with (I := fun (i : nat) a t => t = s /\ a = Z.of_nat (length X + i) /\ (i <= length l)%nat)
    (mu := fun i => Z.of_nat (length l) - Z.of_nat i) (g := O); [|unfold loop_fuel; lia|].
  { rewrite Nat.add_0_r. split_and!; (done || lia). }
  intros i a t (-> & -> & Hi). split; [lia|].
  assert (Hget : B !! (length X + i)%nat = (l ++ Y) !! i).
  { rewrite HB, lookup_app_r by lia. by replace (length X + i - length X)%nat with i by lia. }
  destruct (decide (i = length l)) as [->|Hne].
  - destruct Hend as [->|[Hlt Hh]].
    + rewrite Z.ltb_irrefl. apply wp_ret. by split.
    + rewrite (proj2 (Z.ltb_lt _ _)) by done. wp_step.
      rewrite lookup_app_r, Nat.sub_diag in Hget by done. destruct Y as [|y Y]; [done|]. injection Hh as ->.
      pose proof (buf_load _ _ _ _ _ Hb Hget) as Hload. wp_use Hload. apply wp_ret. by split.
  - rewrite (proj2 (Z.ltb_lt _ _)) by lia. wp_step.
    destruct (lookup_lt_is_Some_2 l i) as [c Hc]; [lia|]. rewrite lookup_app_l, Hc in Hget by lia.
    pose proof (buf_load _ _ _ _ _ Hb Hget) as Hload. wp_use Hload.
    pose proof (Forall_lookup_1 _ _ _ _ Hl Hc) as Hnl. cbn beta in Hnl.
    rewrite (proj2 (Z.eqb_neq 10 c)) by congruence. apply wp_ret. exists (S i). split_and!; (done || lia).
Qed.

(** ** The lines of a buffer *)

Context (pat nm : list Z) (sp fp : Z).

(** The strings [do_one_file] uses, apart from its buffer. *)
Definition placed (w : world) (a : Z) (l : list Z) : Prop :=
  string_at w a l /\ clear_of a (Z.of_nat (length l) + 1).

Record searching (w : world) : Prop := {
  se_pat : placed w sp pat;
  se_name : placed w fp nm;
  se_colon : placed w (lit ":") [58];
  se_newline : placed w (line "") [10];
  se_screen : to_screen w }.

Hypothesis Hpat : pattern pat.
Hypothesis Hascii : Forall (fun c => 0 <= c < 128) pat.
Hypothesis Hlong : (length pat < 1024)%nat.

Lemma string_at_mem w w' a l : w_mem w' = w_mem w -> string_at w a l -> string_at w' a l.
Proof. intros Hm. apply string_at_frame. by rewrite Hm. Qed.

Lemma searching_mem w w' :
  w_mem w' = w_mem w -> to_screen w' -> searching w -> searching w'.
Proof.
  intros Hm Hsc [[H1' ?] [H2' ?] [H3' ?] [H4' ?] _].
  constructor; [..|done]; (split; [by eapply string_at_mem|done]).
Qed.

Lemma searching_printed w l : searching w -> searching (printed l w).
Proof. intros Hs. by apply (searching_mem w); [|apply Hs|]. Qed.

Lemma printed_printed a b w : printed b (printed a w) = printed (a ++ b) w.
Proof. unfold printed, shown. cbn. by rewrite put_text_app. Qed.

Lemma printed_nil w : printed [] w = w.
Proof. by destruct w. Qed.

Lemma buf_puts_placed w B s a l (Q : unit -> kernel -> Prop) E :
  buffered w B s -> searching w -> placed w a l ->
  (forall t, buffered (printed l w) B t -> searching (printed l w) -> Q tt t) ->
  wp (ece391_fdputs 1 a) Q E s.
Proof.
  intros Hb Hse [Hs Ha] HQ. eapply buf_puts; [exact Hb|apply Hse|exact Hs|exact Ha|].
  intros t Ht. apply HQ; [done|by apply searching_printed].
Qed.

(** The four writes of a matching line, found at [X] in the buffer. *)
Lemma print_match w B s l X Y (Q : Z + unit -> kernel -> Prop) E :
  buffered w B s -> searching w -> B = X ++ l ++ 0 :: Y -> Forall (fun c => c <> 0) l ->
  (forall t, buffered (printed (nm ++ [58] ++ l ++ [10]) w) B t -> Q (inr tt) t) ->
  wp (ece391_fdputs 1 fp ;;
      ece391_fdputs 1 (lit ":") ;;
      ece391_fdputs 1 (data + Z.of_nat (length X)) ;;
      ece391_fdputs 1 (line "") ;;
      ret (inr tt)) Q E s.
Proof.
  intros Hb Hse HB Hl HQ.
  wp_step. eapply buf_puts_placed; [exact Hb|exact Hse|apply Hse|]. intros t1 Hb1 Hs1. cbn beta.
  wp_step. eapply buf_puts_placed; [exact Hb1|exact Hs1|apply Hs1|]. intros t2 Hb2 Hs2. cbn beta.
  wp_step. eapply buf_puts_line; [exact Hb2|apply Hs2|exact HB|exact Hl|]. intros t3 Hb3. cbn beta.
  pose proof (searching_printed _ l Hs2) as Hs3.
  wp_step. eapply buf_puts_placed; [exact Hb3|exact Hs3|apply Hs3|]. intros t4 Hb4 _. cbn beta.
  apply wp_ret, HQ. by rewrite !printed_printed in Hb4.
Qed.

Lemma pattern_first : exists c p, pat = c :: p /\ s8 c = c.
Proof.
  destruct pat as [|c p]; [by destruct Hpat|]. exists c, p. split; [done|].
  pose proof (Forall_inv Hascii) as Hc. cbn beta in Hc. unfold s8. rewrite Z.mod_small; lia.
Qed.

(** Whether the pattern is at one place, the way the source tests it. *)
Lemma match_here {A} w B s k c seg Y (next : bool -> K A) (Q : A -> kernel -> Prop) E :
  buffered w B s -> searching w -> drop k B = c :: seg ++ 0 :: Y ->
  wp (next (prefixb pat (c :: seg))) Q E s ->
  wp (let* s0 := uload8 sp in
      let* c := uload8 (data + Z.of_nat k) in
      let* same := (if s8 s0 =? c then
                      let* r := ece391_strncmp (data + Z.of_nat k) sp (u32 (Z.of_nat (length pat))) in
                      ret (0 =? r)
                    else ret false) in
      next same) Q E s.
Proof.
  intros Hb Hse HB HQ. destruct (se_pat _ Hse) as [Hsp Hclear]. destruct pattern_first as (c0 & p & Hp & Hs8).
  assert (Hfst : (pat ++ [0]) !! 0%nat = Some c0) by by rewrite Hp.
  pose proof (buf_load_string _ _ _ _ _ 0 c0 Hb Hsp Hclear Hfst) as Hload. rewrite Z.add_0_r in Hload.
  wp_step. wp_use Hload. wp_step.
  assert (Hget : B !! k = Some c) by (rewrite <- (Nat.add_0_r k), <- lookup_drop; by rewrite HB).
  pose proof (buf_load _ _ _ _ _ Hb Hget) as Hload2. wp_use Hload2. rewrite Hs8. apply wp_bind.
  destruct (Z.eqb_spec c0 c) as [->|Hne].
  - rewrite u32_small by lia. wp_step.
    eapply wp_mono; [apply (buf_strncmp w B s sp pat k (c :: seg) Y); try done; apply Hpat| |done].
    intros r t [Hr ->]. apply wp_ret. by rewrite Hr.
  - apply wp_ret. revert HQ. rewrite Hp. cbn [prefixb]. by rewrite (proj2 (Z.eqb_neq c0 c)).
Qed.

(** The search of the bytes [seg], whose string is [l]. *)
Lemma search_line_rule w B s X seg l rest Y E :
  buffered w B s -> searching w -> B = X ++ seg ++ 0 :: Y ->
  seg ++ [0] = l ++ 0 :: rest -> Forall (fun c => c <> 0) l ->
  wp (search_line sp fp data (Z.of_nat (length pat)) (Z.of_nat (length X)) (Z.of_nat (length X + length seg)))
    (fun _ t => buffered (printed (if contains pat seg then nm ++ [58] ++ l ++ [10] else []) w) B t) E s.
Proof.
  intros Hb Hse HB Hseg Hl. unfold search_line.
  apply wp_loop_ghost with (I := fun (i : nat) check t => check = Z.of_nat (length X + i) /\ t = s /\
      (i <= length seg)%nat /\ contains pat seg = contains pat (drop i seg))
    (mu := fun i => Z.of_nat (length seg) - Z.of_nat i) (g := O).
  { rewrite Nat.add_0_r. split_and!; (done || lia). }
  { pose proof (buffered_length _ _ _ Hb) as Hlen. rewrite HB, !length_app in Hlen. unfold loop_fuel. lia. }
  intros i check t (-> & -> & Hi & Hc). split; [lia|].
  destruct (decide (i = length seg)) as [->|Hne].
  { rewrite Z.ltb_irrefl. apply wp_ret. rewrite Hc, drop_all, contains_nil by apply Hpat. by rewrite printed_nil. }
  rewrite (proj2 (Z.ltb_lt _ _)) by lia.
  destruct (lookup_lt_is_Some_2 seg i) as [c Hci]; [lia|]. rewrite (drop_S _ _ _ Hci), contains_cons in Hc.
  apply (match_here w B s (length X + i) c (drop (S i) seg) Y); [exact Hb|exact Hse| |].
  { rewrite <- drop_drop, HB, drop_app_length, drop_app_le by lia. by rewrite (drop_S _ _ _ Hci). }
  destruct (prefixb pat (c :: drop (S i) seg)).
  - eapply print_match; [exact Hb|exact Hse| |exact Hl|].
    { rewrite HB. change (seg ++ 0 :: Y) with (seg ++ [0] ++ Y). rewrite (app_assoc seg), Hseg, <- app_assoc. done. }
    intros u Hu. by rewrite Hc.
  - apply wp_ret. exists (S i). split_and!; (done || lia).
Qed.

(** One line that ends in the buffer. *)
Lemma scan_line_rule w B s X l Y cnt last (Q : Z + Z -> kernel -> Prop) E :
  buffered w B s -> searching w -> B = X ++ l ++ 10 :: Y -> line_ok l ->
  Z.of_nat (length X + length l) < last <= 1024 ->
  (forall t, buffered (printed (matches pat nm [l]) w) (X ++ l ++ 0 :: Y) t ->
     Q (if last <=? Z.of_nat (length X + S (length l)) then inr 0
        else inl (Z.of_nat (length X + S (length l)))) t) ->
  wp (scan_line sp fp data (Z.of_nat (length pat)) cnt last (Z.of_nat (length X))) Q E s.
Proof.
  intros Hb Hse HB [Hlen Hl] Hlast HQ. unfold scan_line. wp_step.
  eapply wp_mono; [apply (buf_line_end w B s X l (10 :: Y) last E); try done| |done].
  { eapply Forall_impl; [exact Hl|]. by intros c [_ Hc]. }
  { lia. }
  { right. split; [lia|done]. }
  intros r t [-> ->]. cbn beta. wp_step.
  assert (Hget : B !! (length X + length l)%nat = Some 10).
  { rewrite HB, app_assoc, lookup_app_r, length_app, Nat.sub_diag by (rewrite length_app; lia). done. }
  pose proof (buf_load _ _ _ _ _ Hb Hget) as Hload. wp_use Hload. change (10 =? 10) with true. cbn [negb andb].
  wp_step. eapply buf_store; [exact Hb|lia|lia|]. intros u Hu. cbn beta.
  assert (Hins : <[(length X + length l)%nat := 0]> B = X ++ l ++ 0 :: Y).
  { rewrite HB, !app_assoc, insert_app_r_alt by (rewrite length_app; lia). by rewrite length_app, Nat.sub_diag. }
  rewrite Hins in Hu. wp_step.
  assert (Hnz : Forall (fun c => c <> 0) l) by (eapply Forall_impl; [exact Hl|]; by intros c [Hc _]).
  eapply wp_mono; [apply (search_line_rule w _ u X l l [] Y E Hu Hse eq_refl eq_refl Hnz)| |done].
  intros ? v Hv. cbn beta. replace (Z.of_nat (length X + length l) + 1) with (Z.of_nat (length X + S (length l))) by lia.
  specialize (HQ v). unfold matches in HQ. cbn [map concat] in HQ. rewrite app_nil_r in HQ. specialize (HQ Hv).
  destruct (last <=? _); by apply wp_ret.
Qed.

(** A tail without newline behind whole lines: it is moved to the start. *)
Lemma scan_tail_rule w B s X tail z p rest cnt (Q : Z + Z -> kernel -> Prop) E :
  buffered w B s -> B = X ++ tail ++ [z] -> z <> 10 -> X <> [] -> cnt <> 0 ->
  Forall (fun c => c <> 10) tail -> tail ++ [0] = p ++ 0 :: rest -> Forall (fun c => c <> 0) p ->
  (forall t, buffered w (p ++ 0 :: drop (S (length p)) (X ++ tail ++ [0])) t ->
     Q (inr (Z.of_nat (length tail))) t) ->
  wp (scan_line sp fp data (Z.of_nat (length pat)) cnt 1024 (Z.of_nat (length X))) Q E s.
Proof.
  intros Hb HB H10 HX Hcnt Htail Hp Hpnz HQ. unfold scan_line. wp_step.
  pose proof (buffered_length _ _ _ Hb) as Hlen. rewrite HB, !length_app in Hlen. cbn [length] in Hlen.
  assert (HX0 : (0 < length X)%nat) by (destruct X; [done|cbn; lia]).
  eapply wp_mono; [apply (buf_line_end w B s X tail [z] 1024 E Hb HB Htail)| |done]; [lia|left; lia|].
  intros r t [-> ->]. cbn beta. wp_step.
  assert (Hget : B !! (length X + length tail)%nat = Some z).
  { rewrite HB at 1. rewrite app_assoc, lookup_app_r, length_app, Nat.sub_diag by (rewrite length_app; lia). done. }
  pose proof (buf_load _ _ _ _ _ Hb Hget) as Hload. wp_use Hload.
  rewrite (proj2 (Z.eqb_neq 10 _)), (proj2 (Z.eqb_neq 0 cnt)), (proj2 (Z.eqb_neq (Z.of_nat (length X)) 0))
    by (lia || congruence).
  cbn [negb andb]. wp_step. eapply buf_store; [exact Hb|lia|lia|]. intros u Hu. cbn beta.
  assert (Hins : <[(length X + length tail)%nat := 0]> B = X ++ tail ++ [0]).
  { rewrite HB at 1. rewrite !app_assoc, insert_app_r_alt by (rewrite length_app; lia).
    by rewrite length_app, Nat.sub_diag. }
  rewrite Hins in Hu. wp_step.
  eapply wp_mono; [apply (buf_strcpy w _ u p X rest E Hu); [by rewrite <- Hp|done|done]| |done].
  intros ? v Hv. cbn beta. apply wp_ret. replace (1024 - Z.of_nat (length X)) with (Z.of_nat (length tail)) by lia.
  by apply HQ.
Qed.

(** A full buffer: the whole lines are searched, the rest moves to the front. *)
Lemma scan_full_rule w B s ws tail z p rest cnt E :
  buffered w B s -> searching w -> Forall line_ok ws -> ws <> [] -> cnt <> 0 ->
  B = flat ws ++ tail ++ [z] -> z <> 10 -> Forall (fun c => c <> 10) tail ->
  tail ++ [0] = p ++ 0 :: rest -> Forall (fun c => c <> 0) p ->
  wp (scan_lines sp fp data (Z.of_nat (length pat)) cnt 1024)
    (fun r t => r = Z.of_nat (length tail) /\ exists B', buffered (printed (matches pat nm ws) w) B' t /\
       (tail <> [] -> B' = p ++ 0 :: drop (S (length p)) (nulled ws ++ tail ++ [0])) /\
       exists z', B' !! 1024%nat = Some z' /\ z' <> 10) E s.
Proof.
  intros Hb Hse Hws Hne Hcnt HB Hz Htail Hp Hpnz. unfold scan_lines.
  pose proof (buffered_length _ _ _ Hb) as Hlen. rewrite HB, !length_app in Hlen. cbn [length] in Hlen.
  apply wp_loop_ghost with (I := fun (g : list (list Z) * list (list Z)) a t =>
      ws = g.1 ++ g.2 /\ (g.2 = [] -> tail <> []) /\ a = Z.of_nat (length (nulled g.1)) /\
      buffered (printed (matches pat nm g.1) w) (nulled g.1 ++ flat g.2 ++ tail ++ [z]) t)
    (mu := fun g => Z.of_nat (length g.2)) (g := ([], ws)).
  { split_and!; [done|done|done|]. cbn [fst snd]. change (matches pat nm []) with (@nil Z). by rewrite printed_nil, <- HB. }
  { pose proof (flat_count ws). cbn [snd]. unfold loop_fuel. lia. }
  intros [done_ [|l rem]] a t (Hsplit & Htl & -> & Ht); cbn [fst snd] in *; (split; [lia|]).
  - rewrite app_nil_r in Hsplit. subst done_. change (flat []) with (@nil Z) in Ht.
    assert (Hwn : nulled ws <> []) by (destruct ws as [|l ws']; [done|rewrite nulled_cons; by destruct l]).
    eapply (scan_tail_rule _ _ t (nulled ws) tail z p rest cnt); try done.
    intros u Hu. split; [done|]. eexists. split; [exact Hu|]. split; [done|]. exists 0. split; [|done].
    assert (Hpl : (length p <= length tail)%nat).
    { apply (f_equal length) in Hp. rewrite !length_app in Hp. cbn in Hp. lia. }
    rewrite <- nulled_length in Hlen. assert (Hwn0 : (0 < length (nulled ws))%nat) by (destruct (nulled ws); [done|cbn; lia]).
    rewrite moved_end by lia.
    rewrite app_assoc, lookup_app_r by (rewrite length_app; lia). rewrite length_app.
    by replace (1024 - (length (nulled ws) + length tail))%nat with O by lia.
  - rewrite Hsplit, flat_app, flat_cons, !length_app in Hlen. cbn [length] in Hlen.
    pose proof (nulled_length done_) as Hnl. rewrite flat_cons in Ht. rewrite <- app_assoc in Ht. cbn [app] in Ht.
    assert (Hls : line_ok l) by (rewrite Hsplit in Hws; apply Forall_app in Hws as [_ Hws]; by inversion Hws).
    eapply (scan_line_rule _ _ t (nulled done_) l); [exact Ht|by apply searching_printed|done|done|lia|].
    intros u Hu. rewrite printed_printed, <- matches_app in Hu.
    assert (Hd : nulled (done_ ++ [l]) = nulled done_ ++ l ++ [0]).
    { rewrite nulled_app. unfold nulled at 2. cbn. by rewrite app_nil_r. }
    assert (Hu' : buffered (printed (matches pat nm (done_ ++ [l])) w)
      (nulled (done_ ++ [l]) ++ flat rem ++ tail ++ [z]) u) by (by rewrite Hd, <- !app_assoc).
    destruct (Z.leb_spec 1024 (Z.of_nat (length (nulled done_) + S (length l)))) as [Hend|Hmore].
    + assert (Hr : rem = []) by (apply flat_nil; lia). assert (Ht0 : tail = []) by (destruct tail; [done|cbn in Hlen; lia]).
      subst rem tail. split; [done|]. eexists. rewrite Hsplit. split; [exact Hu'|]. split; [done|]. exists z. split; [|done].
      rewrite Hd. change (flat []) with (@nil Z). cbn [app].
      rewrite lookup_app_r by (rewrite !length_app; cbn [length]; change (length (flat [])) with O in Hlen; cbn in Hlen; lia).
      rewrite !length_app. cbn [length].
      change (length (flat [])) with O in Hlen. cbn in Hlen.
      by replace (1024 - (length (nulled done_) + (length l + 1)))%nat with O by lia.
    + exists (done_ ++ [l], rem). cbn [fst snd length]. split; [|lia]. split_and!; [by rewrite <- app_assoc|..|exact Hu'].
      * intros -> ->. change (length (flat [])) with O in Hlen. cbn in Hlen. lia.
      * rewrite Hd, !length_app. cbn [length]. lia.
Qed.

(** The last pass, after the end of the file: what is left is one line. *)
Lemma scan_rest_rule w B s seg l rest c Y E :
  buffered w B s -> searching w -> B = seg ++ c :: Y -> (length seg <= 1024)%nat ->
  Forall (fun c => c <> 10) seg -> seg ++ [0] = l ++ 0 :: rest -> Forall (fun c => c <> 0) l ->
  wp (scan_lines sp fp data (Z.of_nat (length pat)) 0 (Z.of_nat (length seg)))
    (fun r t => r = 0 /\ exists B', buffered (printed (if contains pat seg then nm ++ [58] ++ l ++ [10] else []) w) B' t /\
       ((length seg < 1024)%nat -> B' !! 1024%nat = B !! 1024%nat)) E s.
Proof.
  intros Hb Hse HB Hlen Hnl Hl Hlnz. unfold scan_lines.
  apply wp_loop with (I := fun a t => a = 0 /\ t = s) (mu := fun _ _ => 0); [done|unfold loop_fuel; lia|].
  intros a t [-> ->]. split; [lia|]. unfold scan_line. wp_step.
  eapply wp_mono; [apply (buf_line_end w B s [] seg (c :: Y) (Z.of_nat (length seg)) E Hb HB Hnl Hlen); by left| |done].
  intros r t [-> ->]. cbn [length Nat.add] in *. wp_step.
  assert (Hget : B !! length seg = Some c) by (by rewrite HB, lookup_app_r, Nat.sub_diag).
  pose proof (buf_load _ _ _ _ _ Hb Hget) as Hload. wp_use Hload. change (0 =? 0) with true.
  cbn [negb]. rewrite andb_false_r. cbn [andb]. wp_step. eapply buf_store; [exact Hb|lia|lia|]. intros u Hu. cbn beta.
  assert (Hins : <[length seg := 0]> B = seg ++ 0 :: Y) by (by rewrite HB, insert_app_r_alt, Nat.sub_diag by lia).
  rewrite Hins in Hu. wp_step.
  eapply wp_mono; [apply (search_line_rule w _ u [] seg l rest Y E Hu Hse eq_refl Hl Hlnz)| |done].
  intros ? v Hv. cbn beta. rewrite (proj2 (Z.leb_le _ _)) by lia. apply wp_ret. split; [done|].
  eexists. split; [exact Hv|]. intros Hlt. rewrite HB, !lookup_app_r by lia.
  by destruct (1024 - length seg)%nat eqn:Hk; [lia|].
Qed.

(** ** One read *)

Lemma fd_of_printed l w d : fd_of (printed l w) d = fd_of w d.
Proof. done. Qed.

Lemma searching_set_fd w fd d :
  2 <= fd <= 7 -> length (w_fds w) = 8%nat -> searching w -> searching (set_fd fd d w).
Proof.
  intros Hfd Hl Hs. apply (searching_mem w); [done| |done]. unfold to_screen.
  rewrite fd_of_set, (proj2 (Z.eqb_neq 1 fd)) by (rewrite ?Hl; lia). apply Hs.
Qed.

(** A read before the end of the file fills the buffer. *)
Lemma chunk_full_rule w B s fd last size text pos ws rem z E :
  buffered w B s -> searching w -> 2 <= fd <= 7 -> length (w_fds w) = 8%nat -> fd_of w fd = FileAt size text pos ->
  0 <= last < 1024 -> 0 <= pos < size -> pos + (1024 - last) <= Z.of_nat (length text) ->
  take (Z.to_nat last) B ++ take (Z.to_nat (1024 - last)) (drop (Z.to_nat pos) text) = flat ws ++ tail_of ws rem ->
  B !! 1024%nat = Some z -> z <> 10 -> ws <> [] -> Forall line_ok ws -> Forall line_ok rem ->
  wp (search_chunk sp fp data (Z.of_nat (length pat)) fd last)
    (fun r t => r = inl (Z.of_nat (length (tail_of ws rem))) /\ exists B',
       buffered (printed (matches pat nm ws) (set_fd fd (FileAt size text (pos + (1024 - last))) w)) B' t /\
       (tail_of ws rem <> [] -> B' = carry_of ws rem ++
          0 :: drop (S (length (carry_of ws rem))) (nulled ws ++ tail_of ws rem ++ [0])) /\
       exists z', B' !! 1024%nat = Some z' /\ z' <> 10) E s.
Proof.
  intros Hb Hse Hfd Hl Hf Hlast Hpos Hfit Hwin Hz Hnz Hne Hws Hrem.
  destruct (carry_of_string ws rem Hrem) as [Hcar [rest Hrest]].
  unfold search_chunk. wp_step. eapply (buf_read w B s fd last size text pos); try done; try lia.
  intros _. split; [lia|]. split; [done|]. intros t Ht. cbn beta.
  assert (Hdrop : drop 1024 B = [z]).
  { pose proof (buffered_length _ _ _ Hb). rewrite (drop_S _ _ _ Hz), drop_ge by lia. done. }
  rewrite app_assoc, Hwin, Hdrop, <- app_assoc in Ht.
  rewrite (proj2 (Z.eqb_neq (-1) _)) by lia. wp_step. replace (last + (1024 - last)) with 1024 by lia.
  eapply wp_mono; [eapply (scan_full_rule _ _ t ws (tail_of ws rem) z (carry_of ws rem) rest (1024 - last));
    [exact Ht|by apply searching_set_fd|done|done|lia|done|done|by apply tail_of_no_newline|done|done]| |done].
  intros r u (-> & B' & Hu & Htl & Hz'). cbn beta. rewrite (proj2 (Z.eqb_neq 0 (1024 - last))) by lia.
  apply wp_ret. split; [done|]. by exists B'.
Qed.

(** A read at the end of the file. *)
Lemma chunk_end_rule w B s fd size text pos seg l rest c Y E :
  buffered w B s -> searching w -> 2 <= fd <= 7 -> length (w_fds w) = 8%nat -> fd_of w fd = FileAt size text pos ->
  0 <= pos -> size <= pos -> B = seg ++ c :: Y -> (length seg < 1024)%nat ->
  Forall (fun c => c <> 10) seg -> seg ++ [0] = l ++ 0 :: rest -> Forall (fun c => c <> 0) l ->
  wp (search_chunk sp fp data (Z.of_nat (length pat)) fd (Z.of_nat (length seg)))
    (fun r t => r = inr true /\ exists B',
       buffered (printed (if contains pat seg then nm ++ [58] ++ l ++ [10] else []) w) B' t /\
       B' !! 1024%nat = B !! 1024%nat) E s.
Proof.
  intros Hb Hse Hfd Hl Hf Hp0 Hpos HB Hlen Hseg Hstr Hnz.
  unfold search_chunk. wp_step.
  eapply (buf_read w B s fd (Z.of_nat (length seg)) size text pos); try done; try lia.
  intros _ t Ht. cbn beta. change (-1 =? 0) with false. cbn iota. wp_step. rewrite Z.add_0_r.
  eapply wp_mono; [eapply (scan_rest_rule w B t seg l rest c Y); try done; lia| |done].
  intros r u (-> & B' & Hu & Hz'). cbn beta. change (0 =? 0) with true. cbn iota. apply wp_ret.
  split; [done|]. exists B'. split; [done|]. by apply Hz'.
Qed.

(** ** The file *)

Definition at_pos (fd size pos : Z) (text out : list Z) (w : world) : world :=
  printed out (set_fd fd (FileAt size text pos) w).

Lemma set_fd_at_pos fd d size pos text out w :
  set_fd fd d (at_pos fd size pos text out w) = printed out (set_fd fd d w).
Proof. unfold at_pos, printed, shown, set_fd, set_w_fds. cbn. by rewrite list_insert_insert_eq. Qed.

Lemma at_pos_facts fd size pos text out w :
  2 <= fd <= 7 -> length (w_fds w) = 8%nat -> searching w ->
  let v := at_pos fd size pos text out w in
  searching v /\ length (w_fds v) = 8%nat /\ fd_of v fd = FileAt size text pos.
Proof.
  intros Hfd Hl Hs v. split_and!.
  - by apply searching_printed, searching_set_fd.
  - unfold v, at_pos. cbn. by rewrite length_insert.
  - unfold v, at_pos. rewrite fd_of_printed, fd_of_set by (rewrite Hl; lia). by rewrite Z.eqb_refl.
Qed.

(** Between two reads: lines remain and the start of the first is in the buffer,
    or the end was reached and zeros were moved to the front. *)
Definition before_read (w : world) (fd size : Z) (text : list Z) (ls : list (list Z))
    (g : list (list Z) * nat + list (list Z)) (last : Z) (t : kernel) : Prop :=
  match g with
  | inl (rem, c) => exists pre B z, ls = pre ++ rem /\ last = Z.of_nat c /\
      (c <= match rem with [] => 0 | l :: _ => length l end)%nat /\
      buffered (at_pos fd size (Z.of_nat (length (flat pre) + c)) text (matches pat nm pre) w) B t /\
      take c B = take c (flat rem) /\ B !! 1024%nat = Some z /\ z <> 10 /\
      match rem with
      | [] => stale pat (last_fill 1024 [] ls) = false
      | _ => last_fill 1024 [] ls = last_fill 1024 [] rem
      end
  | inr ws => exists pos, size <= pos /\ last = Z.of_nat (1024 - length (flat ws)) /\
      ws <> [] /\ (length (flat ws) < 1024)%nat /\ Forall line_ok ws /\ last_fill 1024 [] ls = ws /\
      buffered (at_pos fd size pos text (matches pat nm ls) w) (leftover ws) t
  end.

(** After the last read. *)
Definition searched (w : world) (fd size : Z) (text : list Z) (ls : list (list Z)) (t : kernel) : Prop :=
  exists pos B z, buffered (at_pos fd size pos text (grep_output pat nm ls) w) B t /\
    B !! 1024%nat = Some z /\ z <> 10.

Lemma printed_at_pos a fd size pos text out w :
  printed a (at_pos fd size pos text out w) = at_pos fd size pos text (out ++ a) w.
Proof. apply printed_printed. Qed.

(** All lines were searched and nothing is left in the buffer. *)
Lemma read_after_all w s fd size text ls E :
  searching w -> 2 <= fd <= 7 -> length (w_fds w) = 8%nat -> text_file size text ls ->
  before_read w fd size text ls (inl ([], O)) 0 s ->
  wp (search_chunk sp fp data (Z.of_nat (length pat)) fd 0)
    (fun r t => r = inr true /\ searched w fd size text ls t) E s.
Proof.
  intros Hse Hfd Hl Htf (pre & B & z & Hls & _ & _ & Hb & _ & Hz & Hnz & Hst). rewrite app_nil_r in Hls. subst pre.
  destruct (at_pos_facts fd size (Z.of_nat (length (flat ls) + 0)) text (matches pat nm ls) w Hfd Hl Hse) as (Hv1 & Hv2 & Hv3).
  pose proof (buffered_length _ _ _ Hb) as Hlen. destruct B as [|c Y]; [done|].
  pose proof (tf_size _ _ _ Htf) as Hsize.
  eapply wp_mono; [eapply (chunk_end_rule _ (c :: Y) s fd size text _ [] [] [] c Y); try done; try lia; cbn; lia| |done].
  intros r t (-> & B' & Hu & Hz'). split; [done|]. rewrite contains_nil in Hu by apply Hpat.
  rewrite printed_nil in Hu. rewrite Hz in Hz'. eexists _, B', z. split; [|by split]. unfold grep_output.
  rewrite Hst, app_nil_r. exact Hu.
Qed.

(** What was left is searched once more. *)
Lemma read_leftover w s fd size text ls ws last E :
  searching w -> 2 <= fd <= 7 -> length (w_fds w) = 8%nat -> 0 <= size ->
  before_read w fd size text ls (inr ws) last s ->
  wp (search_chunk sp fp data (Z.of_nat (length pat)) fd last)
    (fun r t => r = inr true /\ searched w fd size text ls t) E s.
Proof.
  intros Hse Hfd Hl Hsize (pos & Hpos & -> & Hne & Hlt & Hok & Hls & Hb).
  destruct (at_pos_facts fd size pos text (matches pat nm ls) w Hfd Hl Hse) as (Hv1 & Hv2 & Hv3).
  pose proof (leftover_length ws ltac:(lia)) as Hlen. set (K := (1024 - length (flat ws))%nat) in *.
  assert (HK : length (take K (leftover ws)) = K) by (rewrite length_take, Hlen; lia).
  destruct (drop K (leftover ws)) as [|c Y] eqn:Hd.
  { apply (f_equal length) in Hd. rewrite length_drop, Hlen in Hd. cbn in Hd. lia. }
  assert (Hseg : exists rest, take K (leftover ws) ++ [0] = [] ++ 0 :: rest).
  { unfold leftover at 1. destruct K as [|k] eqn:HK0; [unfold K in HK0; lia|]. by eexists. }
  destruct Hseg as [rest Hseg]. rewrite <- HK.
  eapply wp_mono; [eapply (chunk_end_rule _ (leftover ws) s fd size text pos _ [] rest c Y); try done; try lia| |done].
  - by rewrite <- Hd, take_drop.
  - unfold K in *. rewrite HK. pose proof (flat_count ws). destruct ws; [done|]. cbn [length] in *. lia.
  - apply Forall_take. by apply leftover_no_newline.
  - intros r t (-> & B' & Hu & Hz'). split; [done|]. unfold K in Hu. rewrite stale_leftover in Hu by done.
    rewrite printed_at_pos in Hu. exists pos, B', 0. split; [|split; [|done]].
    + unfold grep_output. rewrite Hls. by destruct (stale pat ws).
    + rewrite Hz'. unfold leftover. rewrite leftover_tail by done.
      rewrite lookup_cons_ne_0, lookup_app_r by (rewrite ?length_drop, ?nulled_length; lia).
      apply lookup_replicate_2. rewrite length_drop, nulled_length. lia.
Qed.

(** The buffer was filled with the lines [ws] and [rem] is still to be read. *)
Record refilled (w : world) (fd size : Z) (text : list Z) (ls pre ws rem : list (list Z)) (t : kernel) : Prop := {
  rf_split : ls = pre ++ ws ++ rem;
  rf_some : ws <> [];
  rf_lines : Forall line_ok ws;
  rf_room : (length (flat ws) + length (tail_of ws rem) = 1024)%nat;
  rf_last : last_fill 1024 [] ls = match rem with [] => ws | _ => last_fill 1024 [] rem end;
  rf_buffer : exists B,
    buffered (at_pos fd size (Z.of_nat (length (flat pre)) + 1024) text (matches pat nm (pre ++ ws)) w) B t /\
    (tail_of ws rem <> [] -> B = carry_of ws rem ++
       0 :: drop (S (length (carry_of ws rem))) (nulled ws ++ tail_of ws rem ++ [0])) /\
    exists z, B !! 1024%nat = Some z /\ z <> 10 }.

Lemma refilled_last w fd size text ls pre ws t :
  size = Z.of_nat (length (flat ls)) -> refilled w fd size text ls pre ws [] t ->
  exists g, before_read w fd size text ls g (Z.of_nat (length (tail_of ws []))) t /\
    match g with inl (rem, _) => rem = [] | inr _ => True end.
Proof.
  intros Hsize [Hls Hne Hok Hsum Hlast (B & Hb & HB & z & Hz & Hnz)]. rewrite app_nil_r in Hls. rewrite <- Hls in Hb.
  rewrite Hls, flat_app, length_app in Hsize.
  destruct (decide (length (flat ws) = 1024)%nat) as [Hfull|Hpart].
  - exists (inl ([], O)). assert (Ht0 : tail_of ws [] = []) by (apply nil_length_inv; lia). rewrite Ht0.
    split; [|done]. exists ls, B, z. rewrite app_nil_r.
    split_and!; try done; [|rewrite Hlast; apply stale_full; [done|lia]].
    rewrite Hls at 1. rewrite flat_app, length_app, Hfull.
    by replace (Z.of_nat (length (flat pre) + 1024 + 0)) with (Z.of_nat (length (flat pre)) + 1024) by lia.
  - assert (Ht0 : tail_of ws [] <> []) by (intros Ht0; rewrite Ht0 in Hsum; cbn [length] in Hsum; lia).
    exists (inr ws). split; [|done]. exists (Z.of_nat (length (flat pre)) + 1024).
    split_and!; try done; try lia. rewrite (HB Ht0) in Hb. exact Hb.
Qed.

Lemma refilled_more w fd size text ls pre ws l rem t :
  (1024 - length (flat ws) <= length l)%nat -> refilled w fd size text ls pre ws (l :: rem) t ->
  exists c, before_read w fd size text ls (inl (l :: rem, c)) (Z.of_nat (length (tail_of ws (l :: rem)))) t.
Proof.
  intros Hl [Hls Hne Hok Hsum Hlast (B & Hb & HB & z & Hz & Hnz)]. cbn [tail_of carry_of] in *.
  set (tl := take (1024 - length (flat ws)) l) in *. exists (length tl), (pre ++ ws), B, z.
  split_and!; try done.
  - by rewrite <- app_assoc.
  - unfold tl. rewrite length_take. lia.
  - rewrite flat_app, length_app.
    by replace (Z.of_nat (length (flat pre) + length (flat ws) + length tl)) with (Z.of_nat (length (flat pre)) + 1024) by lia.
  - destruct (decide (tl = [])) as [->|Ht0]; [done|]. rewrite (HB Ht0), take_app_length, flat_cons.
    unfold tl at 2. rewrite length_take, take_app_le, Nat.min_l by lia. done.
Qed.

(** A read that fills the buffer with whole lines and the start of the next. *)
Lemma read_lines w s fd size text ls l rem c last E :
  searching w -> 2 <= fd <= 7 -> length (w_fds w) = 8%nat -> text_file size text ls ->
  before_read w fd size text ls (inl (l :: rem, c)) last s ->
  wp (search_chunk sp fp data (Z.of_nat (length pat)) fd last)
    (fun r t => exists pre ws rem', r = inl (Z.of_nat (length (tail_of ws rem'))) /\
       refilled w fd size text ls pre ws rem' t /\ l :: rem = ws ++ rem' /\
       match rem' with [] => True | l' :: _ => (1024 - length (flat ws) <= length l')%nat end) E s.
Proof.
  intros Hse Hfd Hl Htf (pre & B & z & Hls & -> & Hc & Hb & Hcar & Hz & Hnz & Hpend).
  destruct (tf_data _ _ _ Htf) as (pad & Htext & Hpad). pose proof (tf_lines _ _ _ Htf) as Hok.
  rewrite Hls in Hok. apply Forall_app in Hok as [_ Hok]. pose proof (Forall_inv Hok) as [Hll _].
  rewrite Hpend, (last_fill_fill 1024 [] (l :: rem) Hok) in Hpad.
  pose proof (fill_spec 1024 (l :: rem)) as (Hsplit & Hfits & Hroom). pose proof (fill_not_nil l rem (Forall_inv Hok)) as Hne.
  pose proof (last_fill_fill 1024 [] (l :: rem) Hok) as Hlf.
  destruct (fill 1024 (l :: rem)) as [ws rem'] eqn:Hfill. cbn [fst snd app] in *.
  destruct (window (l :: rem) pad ws rem' Hfill) as [Hwin Hsum]; [by intros ->|].
  assert (HF : (c < length (flat (l :: rem)))%nat) by (rewrite flat_cons, length_app; cbn; lia).
  assert (Hge : (1024 <= length (flat (l :: rem)) + pad)%nat).
  { apply (f_equal length) in Hwin. rewrite length_take, !length_app, length_replicate in Hwin. lia. }
  destruct (at_pos_facts fd size (Z.of_nat (length (flat pre) + c)) text (matches pat nm pre) w Hfd Hl Hse) as (Hv1 & Hv2 & Hv3).
  pose proof (tf_size _ _ _ Htf) as Hsize. rewrite Hls, flat_app, length_app in Hsize.
  rewrite Hls, flat_app in Htext. pose proof Hok as Hok2. rewrite Hsplit in Hok2. apply Forall_app in Hok2 as [Hws Hrem'].
  eapply wp_mono; [eapply (chunk_full_rule _ B s fd (Z.of_nat c) size text _ ws rem' z); try done; try lia| |done].
  { rewrite Htext, !length_app, length_replicate. lia. }
  { rewrite Nat2Z.id, Hcar, Htext, Nat2Z.id, <- app_assoc, <- drop_drop, drop_app_length.
    rewrite <- Hwin, <- (take_app_le (flat (l :: rem)) (replicate pad 0)), take_take_drop by lia. f_equal. lia. }
  intros r t (-> & B' & Hu & Htl & Hend). exists pre, ws, rem'. split_and!; try done.
  constructor; try done; [by rewrite <- Hsplit|by rewrite Hpend, Hlf|].
  exists B'. split; [|by split]. rewrite set_fd_at_pos, printed_printed, <- matches_app in Hu.
  by replace (Z.of_nat (length (flat pre)) + 1024) with (Z.of_nat (length (flat pre) + c) + (1024 - Z.of_nat c)) by lia.
Qed.

(** The whole file. *)
Lemma search_file w s fd size text ls E :
  searching w -> 2 <= fd <= 7 -> length (w_fds w) = 8%nat -> text_file size text ls ->
  before_read w fd size text ls (inl (ls, O)) 0 s ->
  wp (loop (search_chunk sp fp data (Z.of_nat (length pat)) fd) 0)
    (fun r t => r = true /\ searched w fd size text ls t) E s.
Proof.
  intros Hse Hfd Hl Htf Hstart. pose proof (tf_size _ _ _ Htf) as Hsize.
  apply wp_loop_ghost with (I := before_read w fd size text ls)
    (mu := fun g => match g with inl (rem, _) => 1 + Z.of_nat (length rem) | inr _ => 0 end) (g := inl (ls, O)); [done| |].
  { pose proof (tf_length _ _ _ Htf) as Hlen. destruct (tf_data _ _ _ Htf) as (pad & -> & _).
    rewrite length_app in Hlen. pose proof (flat_count ls). unfold loop_fuel. lia. }
  intros [[[|l rem] c]|ws] last t Hr.
  - split; [lia|]. pose proof Hr as (_ & _ & _ & _ & Hlast & Hc & _).
    assert (c = O) as -> by lia. subst last.
    eapply wp_mono; [by apply (read_after_all w t fd size text ls E)| |done]. intros r u [-> Hu]. by split.
  - split; [lia|]. eapply wp_mono; [by eapply read_lines| |done]. cbn beta.
    intros r u (pre & ws & rem' & -> & Hu & Hsplit & Hroom). pose proof (rf_some _ _ _ _ _ _ _ _ _ Hu) as Hne.
    assert (Hlt : (length rem' < length (l :: rem))%nat) by (rewrite Hsplit, length_app; destruct ws; [done|cbn; lia]).
    destruct rem' as [|l' rem'].
    + destruct (refilled_last w fd size text ls pre ws u Hsize Hu) as (g & Hg & Hgr). exists g. split; [done|].
      destruct g as [[rem0 c0]|ws0]; [subst rem0|]; cbn [length]; lia.
    + destruct (refilled_more w fd size text ls pre ws l' rem' u Hroom Hu) as (c' & Hg). eexists. split; [exact Hg|].
      cbn [length] in *. lia.
  - split; [lia|]. eapply wp_mono; [apply (read_leftover w t fd size text ls ws last E); try done; lia| |done].
    intros r u [-> Hu]. by split.
Qed.

(** ** [do_one_file] *)

Lemma buf_strlen w B s a l E :
  buffered w B s -> placed w a l ->
  wp (ece391_strlen a) (fun r t => r = Z.of_nat (length l) /\ t = s) E s.
Proof.
  intros (w' & Hw & _ & _ & Hout) [Hs Ha]. eapply strlen_rule; [done|exact Hw|by eapply buf_string].
Qed.

Lemma buf_open w B s fd nm' size text (Q : Z -> kernel -> Prop) E :
  buffered w B s -> placed w fp nm -> (0 < length nm < 1025)%nat -> nm <> [46] -> free_fd w = Some fd ->
  find_entry nm w = Some (nm', Regular size text) ->
  (forall t, buffered (set_fd fd (FileAt size text 0) w) B t -> Q fd t) ->
  wp (ece391_open fp) Q E s.
Proof.
  intros (w' & Hw & Hsame & HB & Hout) [Hs Ha] Hlen Hdot Hfree Hfind HQ.
  pose proof (sa_user _ _ _ Hs) as Hu. rewrite user_buffer_spec in Hu.
  assert (Hopen : os_open fp w' = Some (fd, set_fd fd (FileAt size text 0) w')).
  { unfold os_open. rewrite (proj2 (Z.eqb_neq fp 0)) by lia.
    rewrite (string_at_in w' fp nm 1025) by (lia || by eapply buf_string).
    destruct nm as [|c nm0]; [simpl in Hlen; lia|]. rewrite bool_decide_eq_false_2 by done.
    assert (He : w_entries w' = w_entries w) by (by rewrite Hsame). unfold find_entry in *. rewrite He, Hfind.
    unfold os_take_fd, free_fd, fd_of in *. assert (Hfds : w_fds w' = w_fds w) by (by rewrite Hsame).
    by rewrite Hfds, Hfree. }
  eapply wp_call; [apply os_opens; unfold word32; lia|exact Hw|exact Hopen|].
  intros t Ht. apply HQ. eexists. split; [exact Ht|]. split_and!; [|exact HB|exact Hout].
  unfold same_but_mem, set_fd, set_w_fds, set_w_mem in *. by rewrite Hsame.
Qed.

Lemma buf_close w B s fd (Q : Z -> kernel -> Prop) E :
  buffered w B s -> 2 <= fd <= 7 -> fd_of w fd <> Closed ->
  (forall t, buffered (set_fd fd Closed w) B t -> Q 0 t) -> wp (ece391_close fd) Q E s.
Proof.
  intros (w' & Hw & Hsame & HB & Hout) Hfd Hf HQ.
  assert (Hclose : os_close fd w' = Some (0, set_fd fd Closed w')).
  { unfold os_close. rewrite (proj2 (Z.ltb_ge fd 2)), (proj2 (Z.ltb_ge 7 fd)) by lia. cbn [orb].
    assert (He : fd_of w' fd = fd_of w fd) by (unfold fd_of; by rewrite Hsame). rewrite He.
    by destruct (fd_of w fd). }
  eapply wp_call; [apply os_closes; unfold int32; lia|exact Hw|exact Hclose|].
  intros t Ht. apply HQ. eexists. split; [exact Ht|]. split_and!; [|exact HB|exact Hout].
  unfold same_but_mem, set_fd, set_w_fds, set_w_mem in *. by rewrite Hsame.
Qed.

Lemma set_fd_id fd w :
  0 <= fd < Z.of_nat (length (w_fds w)) -> set_fd fd (fd_of w fd) w = w.
Proof.
  intros Hfd. unfold set_fd, fd_of, set_w_fds, aget. destruct w as [m a e n fds v]. cbn in *. f_equal.
  rewrite (proj2 (Z.leb_le 0 fd)), (proj2 (Z.ltb_lt fd _)) by lia. cbn [andb].
  destruct (lookup_lt_is_Some_2 fds (Z.to_nat fd)) as [d Hd]; [lia|]. rewrite Hd. by apply list_insert_id.
Qed.

(** [do_one_file] of a text file. *)
Lemma do_one_file_rule w B z s fd nm' size text ls E :
  buffered w B s -> searching w -> length (w_fds w) = 8%nat -> (0 < length nm < 1025)%nat -> nm <> [46] ->
  free_fd w = Some fd -> find_entry nm w = Some (nm', Regular size text) -> text_file size text ls ->
  B !! 1024%nat = Some z -> z <> 10 ->
  wp (do_one_file data sp fp) (fun r t => r = 0 /\ exists B' z',
    buffered (printed (grep_output pat nm ls) w) B' t /\ B' !! 1024%nat = Some z' /\ z' <> 10) E s.
Proof.
  intros Hb Hse Hl Hnm Hdot Hfree Hfind Htf Hz Hnz. destruct (free_fd_closed _ _ Hfree) as [Hfd Hclosed].
  unfold do_one_file. wp_step. eapply wp_mono; [eapply buf_strlen; [exact Hb|apply Hse]| |done].
  intros r t [-> ->]. cbn beta. rewrite s32_small by lia. wp_step.
  eapply buf_open; [exact Hb|apply Hse|done|done|done|exact Hfind|]. intros t1 Hb1. cbn beta.
  rewrite (proj2 (Z.eqb_neq (-1) fd)) by lia. wp_step.
  eapply wp_mono; [apply (search_file w t1 fd size text ls E); try done| |done].
  { exists [], B, z. change (flat []) with (@nil Z). cbn [length Nat.add app]. split_and!; try done; try lia. destruct ls; [apply contains_nil, Hpat|done]. }
  intros r t2 (-> & pos & B' & z' & Hb2 & Hz' & Hnz'). cbn [negb]. wp_step.
  destruct (at_pos_facts fd size pos text (grep_output pat nm ls) w Hfd Hl Hse) as (_ & _ & Hf).
  eapply buf_close; [exact Hb2|done|by rewrite Hf|]. intros t3 Hb3. cbn beta.
  change (-1 =? 0) with false. cbn iota. apply wp_ret. split; [done|]. exists B', z'. split; [|by split].
  rewrite set_fd_at_pos in Hb3. rewrite <- Hclosed, set_fd_id in Hb3 by lia. exact Hb3.
Qed.
End grep.
