(* ===== verification/GrepDir.v ===== *)
(** [grep] of a whole directory, against the interface [OS] and on this kernel. *)
From stdpp Require Import base numbers list gmap strings.
From Stdlib Require Import ZArith Lia.
From S2P Require Import Prelude Machine Strings Console Paging FileSys Execute Support Os Programs Clients Runs UserKernel Grep.

(** * The directory *)

Definition hidden (nm : list Z) : bool := match nm with c :: _ => c =? 46 | [] => false end.

(** What [grep] prints of one entry and of the whole directory. *)
Definition entry_output (pat : list Z) (e : list Z * content) : list Z :=
  match e with
  | (nm, Regular size text) =>
    if hidden nm then [] else grep_output pat nm (split_lines (take (Z.to_nat size) text))
  | _ => []
  end.
Definition grep_all (pat : list Z) (w : world) : list Z := concat (map (entry_output pat) (w_entries w)).

Definition separate (a n b m : Z) : Prop := a + n <= b \/ b + m <= a.

(** An entry is hidden or a text file. *)
Definition searchable (e : list Z * content) : Prop :=
  (0 < length (fst e) <= 32)%nat /\ Forall (fun c => c <> 0) (fst e) /\
  (hidden (fst e) = true \/ exists size text, snd e = Regular size text /\
     text_file size text (split_lines (take (Z.to_nat size) text))).

(** What [grep] is given: a pattern as its argument, its three arrays apart from
    each other and from its literals, two free descriptors, a listing at its
    start.  The byte behind the part of [data] that is read into, which [grep]
    looks at before it sets it, is not a newline. *)
Record grep_ready `{Linked} (w : world) (buf search data : Z) (pat : list Z) (fd fd' : Z) : Prop := {
  gr_buf : user_buffer buf 33 = true;
  gr_search : user_buffer search 1024 = true;
  gr_data : user_buffer data 1025 = true;
  gr_apart : separate buf 33 search 1024 /\ separate buf 33 data 1025 /\ separate search 1024 data 1025;
  gr_arg : w_arg w = pat;
  gr_pat : pattern pat;
  gr_ascii : Forall (fun c => 0 <= c < 128) pat;
  gr_long : (length pat < 1024)%nat;
  gr_literals : Forall (fun al : Z * list Z => string_at w al.1 al.2 /\
      separate al.1 (Z.of_nat (length al.2) + 1) buf 33 /\
      separate al.1 (Z.of_nat (length al.2) + 1) search 1024 /\
      separate al.1 (Z.of_nat (length al.2) + 1) data 1025)
    [(lit ".", [46]); (lit ":", [58]); (line "", [10])];
  gr_end : w_mem w (data + 1024) <> 10;
  gr_start : w_next w = O;
  gr_count : (length (w_entries w) <= 62)%nat;
  gr_distinct : NoDup (map fst (w_entries w));
  gr_entries : Forall searchable (w_entries w);
  gr_fds : length (w_fds w) = 8%nat;
  gr_out : to_screen w;
  gr_free : free_fd w = Some fd;
  gr_free' : free_fd (set_fd fd Directory w) = Some fd' }.

Lemma find_entry_distinct w i e :
  NoDup (map fst (w_entries w)) -> w_entries w !! i = Some e -> find_entry (fst e) w = Some e.
Proof.
  unfold find_entry. generalize (w_entries w) as es. intros es. revert i.
  induction es as [|e0 es IH]; intros i Hnd Hi; [done|]. cbn [map] in Hnd. apply NoDup_cons in Hnd as [Hnin Hnd].
  cbn [List.find]. destruct i as [|i].
  - injection Hi as ->. by rewrite bool_decide_eq_true_2.
  - change (es !! i = Some e) in Hi. rewrite bool_decide_eq_false_2; [by eapply IH|]. intros Heq. apply Hnin.
    rewrite Heq. apply list_elem_of_fmap. exists e. split; [done|]. by eapply list_elem_of_lookup_2.
Qed.

Section directory.
Context `{Env} `{Syscalls} `{Linked} (abs : world -> kernel -> Prop) `{!OS abs}.
Context (buf search data : Z) (pat : list Z) (fd fd' : Z) (w0 : world).
Hypothesis Hready : grep_ready w0 buf search data pat fd fd'.

(** The program's state when [i] names were read. *)
Record grepping (i : nat) (w : world) : Prop := {
  gg_entries : w_entries w = w_entries w0;
  gg_next : w_next w = i;
  gg_fds : w_fds w = w_fds (set_fd fd Directory w0);
  gg_pat : string_at w search pat;
  gg_colon : string_at w (lit ":") [58];
  gg_newline : string_at w (line "") [10];
  gg_end : w_mem w (data + 1024) <> 10;
  gg_screen : w_screen w =
    put_text (concat (take i ([] :: map (entry_output pat) (w_entries w0)))) (w_screen w0) }.

Lemma ready_fd : 2 <= fd <= 7 /\ 2 <= fd' <= 7 /\ fd_of (set_fd fd Directory w0) fd' = Closed.
Proof.
  destruct (free_fd_closed _ _ (gr_free _ _ _ _ _ _ _ Hready)) as [Hfd _].
  destruct (free_fd_closed _ _ (gr_free' _ _ _ _ _ _ _ Hready)) as [Hfd' Hc]. split; [exact Hfd|by split].
Qed.

Lemma grepping_fd i w d : grepping i w -> fd_of w d = if d =? fd then Directory else fd_of w0 d.
Proof.
  intros Hg. destruct ready_fd as (Hfd & _). unfold fd_of at 1. rewrite (gg_fds _ _ Hg).
  change (default Closed (aget (w_fds (set_fd fd Directory w0)) d)) with (fd_of (set_fd fd Directory w0) d).
  apply fd_of_set. rewrite (gr_fds _ _ _ _ _ _ _ Hready). lia.
Qed.

Lemma ready_literals :
  (string_at w0 (lit ".") [46] /\ separate (lit ".") 2 search 1024) /\
  (string_at w0 (lit ":") [58] /\ separate (lit ":") 2 buf 33 /\ separate (lit ":") 2 search 1024 /\ separate (lit ":") 2 data 1025) /\
  (string_at w0 (line "") [10] /\ separate (line "") 2 buf 33 /\ separate (line "") 2 search 1024 /\ separate (line "") 2 data 1025).
Proof.
  pose proof (gr_literals _ _ _ _ _ _ _ Hready) as Hl.
  apply Forall_cons_1 in Hl as [(H1' & H2' & H3' & H4') Hl].
  apply Forall_cons_1 in Hl as [(H5' & H6' & H7' & H8') Hl].
  apply Forall_cons_1 in Hl as [(H9' & H10' & H11' & H12') _]. cbn [fst snd length Z.of_nat Pos.of_succ_nat Z.add Pos.add] in *.
  by split_and!.
Qed.

(** Stores into the three arrays do not touch the literals. *)
Lemma string_kept w w' a l b m :
  (forall x, x < b \/ b + m <= x -> w_mem w' x = w_mem w x) ->
  separate a (Z.of_nat (length l) + 1) b m -> string_at w a l -> string_at w' a l.
Proof. intros Hm Hs. apply string_at_frame. intros i Hi. apply Hm. unfold separate in Hs. lia. Qed.

(** Reading a name leaves all but [buf] as it was. *)
Lemma name_record_length i nm : (0 < length nm <= 32)%nat -> (length (name_record i nm) <= 33)%nat.
Proof.
  intros Hnm. unfold name_record. destruct i as [|i].
  - rewrite length_app. cbn. lia.
  - unfold padded. rewrite !length_app, length_replicate. cbn. lia.
Qed.

(** The name in [buf], terminated. *)
Lemma named_buffer b w n i nm :
  user_buffer b 33 = true -> (0 < length nm <= 32)%nat -> Forall (fun c => c <> 0) nm ->
  string_at (stored_byte (b + Z.of_nat (length nm)) 0 (set_w_next n (stored_bytes b (name_record i nm) w))) b nm.
Proof.
  rewrite user_buffer_spec. intros Hu Hlen Hnz. destruct (name_record_prefix i nm) as (tail & Hrec).
  constructor; [rewrite user_buffer_spec; lia| |done]. intros j x Hj.
  unfold stored_byte, set_w_mem, upd. cbn [w_mem set_w_next].
  pose proof (lookup_lt_Some _ _ _ Hj) as Hlt. rewrite length_app in Hlt. cbn [length] in Hlt.
  destruct (Z.eqb_spec (b + Z.of_nat j) (b + Z.of_nat (length nm))) as [He|Hne].
  - assert (j = length nm) as -> by lia. rewrite lookup_app_r, Nat.sub_diag in Hj by done. by injection Hj.
  - rewrite lookup_app_l in Hj by lia. apply stored_in. rewrite Hrec. by apply lookup_app_l_Some.
Qed.

(** A step that stores only into [buf] and perhaps [data]. *)
Lemma grepping_step i w w' :
  grepping i w -> w_entries w' = w_entries w -> w_next w' = S i -> w_fds w' = w_fds w ->
  (forall x, (x < buf \/ buf + 33 <= x) -> (x < data \/ data + 1025 <= x) -> w_mem w' x = w_mem w x) ->
  w_mem w' (data + 1024) <> 10 ->
  (forall out, ([] :: map (entry_output pat) (w_entries w0)) !! i = Some out ->
     w_screen w' = put_text out (w_screen w)) ->
  (i < S (length (w_entries w0)))%nat -> grepping (S i) w'.
Proof.
  intros [He Hn Hf Hp Hc Hnl Hend Hscr] He' Hn' Hf' Hm Hend' Hscr' Hi.
  destruct ready_literals as (_ & (_ & Hcb & _ & Hcd) & (_ & Hlb & _ & Hld)).
  destruct (gr_apart _ _ _ _ _ _ _ Hready) as (Hbs & _ & Hsd). pose proof (gr_long _ _ _ _ _ _ _ Hready) as Hlong.
  assert (Hkeep : forall a l, separate a (Z.of_nat (length l) + 1) buf 33 ->
      separate a (Z.of_nat (length l) + 1) data 1025 -> string_at w a l -> string_at w' a l).
  { intros a l Hab Had Hs. apply (string_at_frame w); [|done]. intros j Hj. unfold separate in *. apply Hm; lia. }
  assert (Hps : separate search (Z.of_nat (length pat) + 1) buf 33 /\ separate search (Z.of_nat (length pat) + 1) data 1025)
    by (unfold separate in *; lia).
  constructor; [congruence|done|congruence|apply Hkeep; tauto|by apply Hkeep|by apply Hkeep|done|].
  destruct (lookup_lt_is_Some_2 ([] :: map (entry_output pat) (w_entries w0)) i) as [out Hout].
  { cbn. rewrite length_map. lia. }
  rewrite (Hscr' out Hout), Hscr, <- put_text_app. f_equal.
  rewrite (take_S_r _ _ _ Hout), concat_app. cbn [concat]. by rewrite app_nil_r.
Qed.

(** The state in which an entry is searched. *)
Definition named (i : nat) (nm : list Z) (w : world) : world :=
  stored_byte (buf + Z.of_nat (length nm)) 0 (set_w_next (S i) (stored_bytes buf (name_record i nm) w)).

Lemma named_mem i nm w x :
  (0 < length nm <= 32)%nat -> x < buf \/ buf + 33 <= x -> w_mem (named i nm w) x = w_mem w x.
Proof.
  intros Hlen Hx. pose proof (name_record_length i nm Hlen) as Hrl. unfold named, stored_byte, set_w_mem, upd.
  cbn [w_mem set_w_next]. rewrite (proj2 (Z.eqb_neq x _)) by lia. apply stored_out. lia.
Qed.

Lemma named_fields i nm w :
  w_entries (named i nm w) = w_entries w /\ w_next (named i nm w) = S i /\ w_fds (named i nm w) = w_fds w /\
  w_screen (named i nm w) = w_screen w.
Proof. by destruct (stored_bytes_fields buf (name_record i nm) w) as (_ & F2 & _ & F4 & F5). Qed.

Lemma named_searching i nm w :
  grepping i w -> (0 < length nm <= 32)%nat -> Forall (fun c => c <> 0) nm ->
  searching data pat nm search buf (named i nm w).
Proof.
  intros Hg Hlen Hnz. pose proof (gr_long _ _ _ _ _ _ _ Hready) as Hlong. destruct ready_fd as (Hfd & _).
  destruct (gr_apart _ _ _ _ _ _ _ Hready) as (Hbs & Hbd & Hsd).
  destruct ready_literals as (_ & (_ & Hcb & _ & Hcd) & (_ & Hlb & _ & Hld)).
  assert (Hk : forall a l, separate a (Z.of_nat (length l) + 1) buf 33 -> string_at w a l -> string_at (named i nm w) a l)
    by (intros a l; apply string_kept; intros x Hx; by apply named_mem).
  unfold separate in *. constructor; [split..|]; try (unfold clear_of; cbn [length] in *; lia).
  - apply Hk; [lia|apply Hg].
  - by apply named_buffer; [apply Hready| |].
  - apply Hk; [exact Hcb|apply Hg].
  - apply Hk; [exact Hlb|apply Hg].
  - destruct (named_fields i nm w) as (_ & _ & F & _). unfold to_screen, fd_of. rewrite F.
    change (default Closed (aget (w_fds w) 1)) with (fd_of w 1).
    rewrite (grepping_fd i w 1 Hg), (proj2 (Z.eqb_neq 1 fd)) by lia. apply (gr_out _ _ _ _ _ _ _ Hready).
Qed.

Lemma visible_not_dot nm : hidden nm = false -> nm <> [46].
Proof. by intros Hh ->. Qed.

(** A visible entry is searched. *)
Lemma visible_entry i w nm size text s (Q : unit + Z -> kernel -> Prop) E :
  grepping (S i) w -> w_entries w0 !! i = Some (nm, Regular size text) -> hidden nm = false ->
  (0 < length nm <= 32)%nat -> Forall (fun c => c <> 0) nm ->
  text_file size text (split_lines (take (Z.to_nat size) text)) ->
  abs (named (S i) nm w) s ->
  (forall w' t, abs w' t -> grepping (S (S i)) w' -> Q (inl tt) t) ->
  wp (let* r := do_one_file data search buf in
      if negb (0 =? r) then ret (inr 3) else ret (inl tt)) Q E s.
Proof.
  intros Hg Hi Hvis Hlen Hnz Htf Hw HQ. destruct ready_fd as (Hfd & Hfd' & Hclosed).
  destruct (named_fields (S i) nm w) as (F2 & F3 & F4 & F5). destruct (gr_apart _ _ _ _ _ _ _ Hready) as (_ & Hbd & _).
  assert (Hend : w_mem (named (S i) nm w) (data + 1024) = w_mem w (data + 1024))
    by (apply named_mem; [done|unfold separate in *; lia]).
  wp_step. eapply wp_mono; [eapply (do_one_file_rule abs data (gr_data _ _ _ _ _ _ _ Hready) pat nm search buf
      (gr_pat _ _ _ _ _ _ _ Hready) (gr_ascii _ _ _ _ _ _ _ Hready) (gr_long _ _ _ _ _ _ _ Hready)
      (named (S i) nm w) _ _ s fd' nm size text)| |done].
  - by apply buffered_start.
  - by apply named_searching.
  - rewrite F4, (gg_fds _ _ Hg). cbn [w_fds set_fd set_w_fds]. by rewrite length_insert, (gr_fds _ _ _ _ _ _ _ Hready).
  - lia.
  - by apply visible_not_dot.
  - pose proof (gr_free' _ _ _ _ _ _ _ Hready) as Hf. unfold free_fd, fd_of in *. by rewrite F4, (gg_fds _ _ Hg).
  - pose proof (find_entry_distinct (named (S i) nm w) i (nm, Regular size text)) as Hfind.
    rewrite F2, (gg_entries _ _ Hg) in Hfind. apply Hfind; [apply Hready|exact Hi].
  - exact Htf.
  - apply bytes_in_get. lia.
  - change (Z.of_nat 1024) with 1024. rewrite Hend. apply Hg.
  - intros r t (-> & B & z & (w' & Hw' & Hsame & HB & Hout) & Hz & Hne). cbn beta. change (0 =? 0) with true.
    cbn [negb]. apply wp_ret, (HQ w' t Hw').
    assert (Hs : w_entries w' = w_entries w /\ w_next w' = S (S i) /\ w_fds w' = w_fds w /\
        w_screen w' = put_text (grep_output pat nm (split_lines (take (Z.to_nat size) text))) (w_screen w))
      by (rewrite Hsame; cbn [w_entries w_next w_fds w_screen set_w_mem printed shown]; by rewrite F2, F3, F4, F5).
    destruct Hs as (G2 & G3 & G4 & G5). apply (grepping_step (S i) w); try done.
    + intros x Hxb Hxd. rewrite Hout by (unfold clear_of; lia). by apply named_mem.
    + rewrite <- HB, bytes_in_get in Hz by lia. injection Hz as <-. exact Hne.
    + intros out Ho. cbn in Ho. apply list_lookup_fmap_Some in Ho as (e & -> & He). rewrite Hi in He.
      injection He as <-. cbn [entry_output]. by rewrite Hvis.
    + apply lookup_lt_Some in Hi. lia.
Qed.

(** A hidden one, the directory itself among them, is passed over. *)
Lemma hidden_entry i w nm :
  grepping i w -> listing w0 !! i = Some nm -> hidden nm = true -> (0 < length nm <= 32)%nat ->
  grepping (S i) (set_w_next (S i) (stored_bytes buf (name_record i nm) w)).
Proof.
  intros Hg Hnm Hh Hlen. destruct (stored_bytes_fields buf (name_record i nm) w) as (_ & F2 & _ & F4 & F5).
  pose proof (name_record_length i nm Hlen) as Hrl. destruct (gr_apart _ _ _ _ _ _ _ Hready) as (_ & Hbd & _).
  apply (grepping_step i w); try done.
  - intros x Hx _. cbn [w_mem set_w_next]. apply stored_out. lia.
  - cbn [w_mem set_w_next]. rewrite stored_out by (unfold separate in *; lia). apply Hg.
  - intros out Ho. cbn [w_screen set_w_next]. rewrite F5. destruct i as [|i]; [by injection Ho as <-|].
    cbn in Ho. apply list_lookup_fmap_Some in Ho as (e & -> & He).
    cbn in Hnm. apply list_lookup_fmap_Some in Hnm as (e' & -> & He'). rewrite He in He'. injection He' as <-.
    destruct e as [nm [size text|]]; cbn [entry_output fst] in *; [by rewrite Hh|done].
  - pose proof (lookup_lt_Some _ _ _ Hnm) as Hlt. unfold listing in Hlt. cbn in Hlt. by rewrite length_map in Hlt.
Qed.

Lemma visible_regular i nm :
  listing w0 !! i = Some nm -> hidden nm = false -> exists j size text, i = S j /\
    w_entries w0 !! j = Some (nm, Regular size text) /\ Forall (fun c => c <> 0) nm /\
    text_file size text (split_lines (take (Z.to_nat size) text)).
Proof.
  intros Hnm Hh. destruct i as [|j]; [by injection Hnm as <-|]. cbn in Hnm.
  apply list_lookup_fmap_Some in Hnm as ([nm' c] & -> & He).
  pose proof (Forall_lookup_1 _ _ _ _ (gr_entries _ _ _ _ _ _ _ Hready) He) as (_ & Hnz & Hs). cbn [fst snd] in *.
  destruct Hs as [Hs|(size & text & -> & Htf)]; [congruence|]. by exists j, size, text.
Qed.

(** One turn of the loop. *)
Lemma grep_entry_rule i w s (Q : unit + Z -> kernel -> Prop) E :
  abs w s -> grepping i w -> (i <= length (listing w0))%nat ->
  (forall w' t, abs w' t -> w_screen w' = put_text (grep_all pat w0) (w_screen w0) -> Q (inr 0) t) ->
  (forall w' t, (i < length (listing w0))%nat -> abs w' t -> grepping (S i) w' -> Q (inl tt) t) ->
  wp (grep_entry buf search data fd) Q E s.
Proof.
  intros Hw Hg Hi Hdone Hmore. destruct ready_fd as (Hfd & _). pose proof (gr_buf _ _ _ _ _ _ _ Hready) as Hub.
  pose proof Hub as Hu. rewrite user_buffer_spec in Hu.
  assert (Hlist : listing w = listing w0) by (unfold listing; by rewrite (gg_entries _ _ Hg)).
  pose proof (ls_name w buf fd i (SBUFSIZE - 1) Hfd) as Hread.
  rewrite (grepping_fd i w fd Hg), Z.eqb_refl in Hread.
  specialize (Hread eq_refl Hub ltac:(unfold SBUFSIZE; lia) (gg_next _ _ Hg)). rewrite Hlist in Hread.
  unfold grep_entry. wp_step. destruct (listing w0 !! i) as [nm|] eqn:Hnm.
  - assert (Hent : Forall (fun e => (0 < length (fst e) <= 32)%nat) (w_entries w0))
      by (eapply Forall_impl; [apply (gr_entries _ _ _ _ _ _ _ Hready)|]; by intros e [He _]).
    pose proof (listing_name w0 i nm Hent Hnm) as Hlen. pose proof (lookup_lt_Some _ _ _ Hnm) as Hlt.
    eapply wp_call; [apply os_reads; unfold int32, word32, SBUFSIZE; lia|exact Hw|exact Hread|].
    intros t1 Hw1. cbn beta. rewrite (proj2 (Z.eqb_neq 0 _)), (proj2 (Z.eqb_neq (-1) _)) by lia.
    destruct nm as [|c nm]; [cbn in Hlen; lia|]. set (nm1 := c :: nm) in *.
    assert (Hload : uload8 buf t1 = Ret c t1).
    { rewrite (os_loads _ t1 buf Hw1) by (rewrite user_spec; lia). f_equal. cbn [w_mem set_w_next].
      destruct (name_record_prefix i nm1) as (tail & ->). rewrite <- (Z.add_0_r buf) at 2.
      by apply (stored_in buf (nm1 ++ tail) w 0). }
    wp_step. wp_use Hload. destruct (Z.eqb_spec 46 c) as [<-|Hne].
    + apply wp_ret. eapply Hmore; [done|exact Hw1|by apply hidden_entry].
    + assert (Hvis : hidden nm1 = false) by (by apply Z.eqb_neq).
      destruct (visible_regular i nm1 Hnm Hvis) as (j & size & text & -> & He & Hnz & Htf).
      wp_step. eapply store_rule; [done|exact Hw1|rewrite user_spec; lia|]. intros t2 Hw2. cbn beta.
      eapply visible_entry; [exact Hg|exact He|done|done|done|done|exact Hw2|]. intros w' t. by apply Hmore.
  - eapply wp_call; [apply os_reads; unfold int32, word32, SBUFSIZE; lia|exact Hw|exact Hread|].
    intros t1 Hw1. change (0 =? 0) with true. cbn iota. apply wp_ret, (Hdone _ _ Hw1). cbn [w_screen set_w_next].
    apply lookup_ge_None in Hnm. rewrite (gg_screen _ _ Hg). f_equal. unfold grep_all.
    rewrite take_ge; [done|]. unfold listing in Hnm. cbn [length] in *. rewrite length_map in *. lia.
Qed.

(** [grep] of a directory. *)
Lemma grep_prints s E :
  abs w0 s ->
  wp (grep_main buf search data) (fun r t => r = 0 /\ exists w, abs w t /\
    w_screen w = put_text (grep_all pat w0) (w_screen w0)) E s.
Proof.
  intros Hw. destruct ready_fd as (Hfd & _). destruct ready_literals as ((Hdot & Hds) & Hcolon & Hnl).
  pose proof (gr_search _ _ _ _ _ _ _ Hready) as Hus. pose proof Hus as Hu. rewrite user_buffer_spec in Hu.
  pose proof (gr_long _ _ _ _ _ _ _ Hready) as Hlong. pose proof (gr_arg _ _ _ _ _ _ _ Hready) as Harg.
  pose proof (gr_pat _ _ _ _ _ _ _ Hready) as [Hpne Hpnz]. destruct (gr_apart _ _ _ _ _ _ _ Hready) as (_ & _ & Hsd).
  set (w1 := with_args w0 search). unfold grep_main, BUFSIZE. wp_step.
  assert (Hargs : os_getargs search 1024 w0 = Some (0, w1)).
  { unfold os_getargs. rewrite (proj2 (Z.eqb_neq search 0)), Hus by lia. cbn [Z.leb Z.compare orb].
    rewrite Harg, bool_decide_eq_false_2, (proj2 (Z.ltb_lt _ _)) by (done || lia). unfold w1, with_args. by rewrite Harg. }
  eapply wp_call; [apply os_args; unfold word32, int32; lia|exact Hw|exact Hargs|]. intros t1 Hw1. cbn beta.
  change (0 =? 0) with true. cbn [negb]. wp_step.
  assert (Hmem : forall x, x < search \/ search + 1024 <= x -> w_mem w1 x = w_mem w0 x).
  { intros x Hx. apply stored_out. rewrite length_take. lia. }
  destruct (stored_bytes_fields search (take 1024 (w_arg w0 ++ replicate 1024 0)) w0) as (_ & F2 & F3 & F4 & F5).
  fold (with_args w0 search) in F2, F3, F4, F5. fold w1 in F2, F3, F4, F5.
  assert (Hopen : os_open (lit ".") w1 = Some (fd, set_fd fd Directory w1)).
  { pose proof (sa_user _ _ _ Hdot) as Hud. rewrite user_buffer_spec in Hud. cbn in Hud.
    unfold os_open. rewrite (proj2 (Z.eqb_neq _ 0)) by lia.
    rewrite (string_at_in w1 (lit ".") [46] 1025) by (cbn; (lia || by eapply string_kept)).
    rewrite bool_decide_eq_true_2 by done. unfold os_take_fd. pose proof (gr_free _ _ _ _ _ _ _ Hready) as Hf.
    unfold free_fd, fd_of in *. by rewrite F4, Hf. }
  eapply wp_call; [apply os_opens; unfold word32; pose proof (sa_user _ _ _ Hdot) as Hud;
    rewrite user_buffer_spec in Hud; cbn in Hud; lia|exact Hw1|exact Hopen|].
  intros t2 Hw2. cbn beta. rewrite (proj2 (Z.eqb_neq (-1) fd)) by lia.
  apply wp_loop_ghost with (I := fun i (_ : unit) t => (exists w, abs w t /\ grepping i w) /\ (i <= length (listing w0))%nat)
    (mu := fun i => Z.of_nat (length (listing w0)) - Z.of_nat i) (g := O).
  - split; [|lia]. exists (set_fd fd Directory w1). split; [exact Hw2|].
    constructor; cbn [w_entries w_next w_fds w_mem w_screen set_fd set_w_fds]; try done.
    + rewrite F3. apply Hready.
    + by rewrite F4.
    + apply (string_at_frame w1); [done|]. unfold w1, with_args. rewrite Harg. by apply string_at_stored; [|..|lia].
    + apply (string_at_frame w1); [done|]. eapply string_kept; [exact Hmem|apply Hcolon|apply Hcolon].
    + apply (string_at_frame w1); [done|]. eapply string_kept; [exact Hmem|apply Hnl|apply Hnl].
    + rewrite Hmem by (unfold separate in *; lia). apply Hready.
  - pose proof (gr_count _ _ _ _ _ _ _ Hready). unfold listing, loop_fuel. cbn [length]. rewrite length_map. lia.
  - intros i _ t [(w & Hwt & Hg) Hle]. split; [lia|]. eapply grep_entry_rule; [exact Hwt|exact Hg|done| |].
    + intros w' u Hu' Hs. split; [done|]. by exists w'.
    + intros w' u Hlt Hu' Hg'. exists (S i). split; [|lia]. split; [by exists w'|lia].
Qed.
End directory.

(** * On this kernel *)

Section theorems.
Context `{Env}.

(** C14: [grep] on this kernel.  Given a pattern and a directory whose visible files
    are text, it returns 0 and the terminal shows, for every visible file in the
    order of the directory, each line that contains the pattern after the name
    of the file and a colon; and after a file what [stale] says: since a read
    goes on past the end of the file, the zeros there are taken for another
    line, and the terminated lines still in the buffer are searched again, which
    prints the name and a colon once more. *)
Theorem grep_finds `{Linked} irqs own base k w s buf search data pat fd fd' :
  table_linked -> runs own base k w s -> grep_ready w buf search data pat fd fd' ->
  exists t, @grep_main _ (kernel_syscalls irqs) _ buf search data s = Ret 0 t /\
    running_shows t (put_text (grep_all pat w) (w_screen w)).
Proof.
  intros Hl Hr Hg. pose proof (kernel_os Hl own base irqs k) as Hos.
  pose proof (@grep_prints _ (kernel_syscalls irqs) _ _ Hos buf search data pat fd fd' w Hg s (fun _ _ => False) Hr) as Hw.
  apply wp_Ret in Hw as (r & t & Hrun & -> & w' & Hw' & Hscr). exists t.
  split; [exact Hrun|]. rewrite <- Hscr. exact (rn_screen _ _ _ _ _ Hw').
Qed.

End theorems.

(** * A closed example

    The one file of the image, read as text: [grep shell] finds its second line,
    and finds it again in what is left in the buffer. *)

Section demo.
Let H := quiet_env.
Local Existing Instance H.
Let L := demo_linked.
Local Existing Instance L.

Lemma demo_lines :
  split_lines (take 29 (demo_exec_bytes 0x502000 4096)) =
  [[0x7F; 69; 76; 70]; bytes_of "the shell"; bytes_of "good bye," ++ [1; 0x80; 4; 8]].
Proof. by vm_compute. Qed.

Lemma demo_text : text_file 29 (demo_exec_bytes 0x502000 4096) (split_lines (take 29 (demo_exec_bytes 0x502000 4096))).
Proof.
  rewrite demo_lines. constructor.
  - by vm_compute.
  - repeat constructor; cbn; try done; lia.
  - exists 4067%nat. split; [by vm_compute|]. apply Nat.leb_le. by vm_compute.
  - rewrite demo_exec_length by lia. lia.
Qed.

Lemma demo_literal_at g s a j :
  demo_literals !! j = Some (s ++ [0]) -> (j < 64)%nat -> (length s < 64)%nat ->
  forallb (fun b => negb (b =? 0)) s = true -> a = 0x8050000 + 64 * Z.of_nat j ->
  string_at (demo_world g) a s /\ separate a (Z.of_nat (length s) + 1) 0x8060000 33 /\
  separate a (Z.of_nat (length s) + 1) 0x8061000 1024 /\ separate a (Z.of_nat (length s) + 1) 0x8062000 1025.
Proof.
  intros Hj Hj64 Hs Hc Ha. split; [by apply (demo_placed g j)|]. unfold separate. lia.
Qed.

Lemma demo_grep_ready g : grep_ready (demo_world g) 0x8060000 0x8061000 0x8062000 (bytes_of "shell") 2 3.
Proof.
  constructor; try reflexivity; try (cbn; lia).
  - unfold separate. lia.
  - split; [done|]. by repeat constructor.
  - repeat constructor; done.
  - repeat apply Forall_cons_2; [..|apply Forall_nil_2]; cbn [fst snd].
    + apply (demo_literal_at g _ _ 0); [done|lia|cbn; lia|done|done].
    + apply (demo_literal_at g _ _ 21); [done|lia|cbn; lia|done|by vm_compute].
    + apply (demo_literal_at g _ _ 22); [done|lia|cbn; lia|done|by vm_compute].
  - by vm_compute.
  - apply NoDup_singleton.
  - apply Forall_cons_2; [|apply Forall_nil_2]. split; [cbn; lia|]. split; [by repeat constructor|].
    right. eexists _, _. split; [done|]. apply demo_text.
Qed.
End demo.

Lemma grep_finds_witness :
  let H := quiet_env in
  exists g t, @grep_main _ (kernel_syscalls []) demo_linked 0x8060000 0x8061000 0x8062000 demo_user = Ret 0 t /\
    running_shows t (put_text (bytes_of "shell:the shell" ++ 10 :: bytes_of "shell:" ++ [10]) (Screen g 0 0)).
Proof.
  intros H. destruct (demo_runs (eq 0) eq_refl) as [g Hr]. exists g.
  assert (Hout : grep_all (bytes_of "shell") (demo_world g) = bytes_of "shell:the shell" ++ 10 :: bytes_of "shell:" ++ [10])
    by (by vm_compute).
  rewrite <- Hout.
  apply (@grep_finds quiet_env demo_linked [] (eq 0) demo_user 0 (demo_world g) demo_user 0x8060000 0x8061000 0x8062000
    (bytes_of "shell") 2 3).
  - apply demo_table_linked.
  - exact Hr.
  - apply demo_grep_ready.
Defined.
