(* ===== verification/Spawn.v ===== *)
(** Programs that start programs: the system calls of the kernel with an
    [execute] that comes back, what such a call does to the caller, and the
    proof that the caller's view of the machine survives it. *)
From stdpp Require Import base numbers list gmap strings.
From Stdlib Require Import ZArith Lia.
From S2P Require Import Prelude Machine Strings Console Paging FileSys Terminal Descriptors.
From S2P Require Import Process Execute Syscall Support Os Programs Clients Runs UserKernel.

(** * [execute] and [halt] from the caller's side *)

Definition with_execute (f : Z -> K Z) (c : Syscalls) : Syscalls := {|
  ece391_halt := @ece391_halt c;
  ece391_execute := f;
  ece391_read := @ece391_read c;
  ece391_write := @ece391_write c;
  ece391_open := @ece391_open c;
  ece391_close := @ece391_close c;
  ece391_getargs := @ece391_getargs c;
  ece391_vidmap := @ece391_vidmap c;
  ece391_set_handler := @ece391_set_handler c;
  ece391_sigreturn := @ece391_sigreturn c;
  int_0x80 := @int_0x80 c |}.

Section system.
Context `{Env}.

(** What the compiler made of a program: the [main] whose [_start] is at an
    entry point. *)
Variable code : Syscalls -> Z -> K Z.
Variable irqs : list (K unit).

(** The gate with call 2.  [execute] leaves the kernel for the new program; the
    program's [halt] jumps to the label [return] in the caller's [execute], whose
    way back through the gate restores the caller's flags. *)
Definition run_command (sys : Syscalls) (command : Z) : K Z := fun s =>
  match system_call_asm irqs 2 command 0 0 s with
  | Leave (EnterUser entry) t =>
    match @start sys (code sys entry) t with
    | Leave JmpReturn u =>
      (let* r := execute_return in modify (set_iflag (iflag (mach s))) ;; ret r) u
    | o => o
    end
  | o => o
  end.

(** The system calls of a program below which [depth] programs can be nested. *)
Fixpoint system (depth : nat) : Syscalls :=
  match depth with
  | O => kernel_syscalls irqs
  | S d => with_execute (run_command (system d)) (kernel_syscalls irqs)
  end.

End system.

(** * The new program *)

Definition fresh_fds : list descr := Stdin :: Stdout :: replicate 6 Closed.

(** The machine of a program started with the argument [arg] by a program that
    sees [w]; its page holds [m]. *)
Definition child_world (w : world) (arg : list Z) (m : Z -> Z) : world :=
  World m arg (w_entries w) (w_next w) fresh_fds (w_screen w).

(** What the running process [k] has when it can start a program as [k']. *)
Record ready `{Env} (k k' : Z) (s : kernel) : Prop := {
  re_pids : length (pid (prc s)) = 6%nat /\ first_vacant (pid (prc s)) k' /\ k' <> k;
  re_spare : spare k' s;
  re_room : 0 <= process_counter (prc s) < 2 ^ 31 - 1 /\ process_counter (prc s) <> MAX_PID;
  re_halt : global_halt (prc s) <> 1;
  re_tss : tss s = Tss KERNEL_DS (kernel_stack k);
  re_std : stdin_fops (prc s) = stdin_table /\ stdout_fops (prc s) = stdout_table }.

Section spawn.
Context `{Env}.
Hypothesis linked : table_linked.

Lemma gate_leaves irqs eax ebx ecx edx s x t :
  1 <= eax <= 10 -> jmp_table irqs eax ebx ecx edx s = Leave x t ->
  system_call_asm irqs eax ebx ecx edx s = Leave x t.
Proof.
  intros He Hj. unfold system_call_asm, UPPERBOUND, LOWERBOUND.
  rewrite (proj2 (Z.ltb_ge 10 eax)), (proj2 (Z.ltb_ge eax 1)) by lia. cbn [orb].
  unfold bind, gets. by rewrite Hj.
Qed.

Lemma ready_others own k k' s t :
  ready k k' s -> others own k s t -> ready k k' t.
Proof.
  intros [(P1 & P2 & P3) S R Hh Ht [O1 O2]] Ho.
  destruct (ot_pids _ _ _ _ Ho) as (E1 & E2 & E3), (ot_ops _ _ _ _ Ho) as (F1 & F2 & _).
  constructor; rewrite ?E1, ?E2, ?E3, ?F1, ?F2; try done.
  - eapply ot_spare; [exact Ho| |done|done]. by destruct P2.
  - by rewrite (proj1 (ot_cpu _ _ _ _ Ho)).
Qed.

Lemma frame_apart j k c : j <> k -> in_frame j c -> ~ in_frame k c.
Proof. unfold in_frame, FOUR_MB. nia. Qed.

Lemma frame_of_in k a : user a = true -> in_frame k (frame_of k a).
Proof. rewrite user_spec. unfold in_frame, frame_of, FOUR_MB. lia. Qed.

Lemma in_frame_of k c : in_frame k c -> exists a, user a = true /\ c = frame_of k a.
Proof.
  intros Hc. exists (c - EIGHT_MB - k * FOUR_MB + 0x8000000). unfold in_frame, frame_of, FOUR_MB in *.
  rewrite user_spec. lia.
Qed.

Lemma image_cell_in k size i :
  PROGRAM_IMG + size <= 0x8400000 -> 0 <= i < size -> in_frame k (image_cell k i).
Proof. unfold in_frame, image_cell, PROGRAM_IMG, FOUR_MB. lia. Qed.

Lemma frame_nonneg k c : 0 <= k < 6 -> in_frame k c -> 0x800000 <= c.
Proof. unfold in_frame, EIGHT_MB, FOUR_MB. lia. Qed.

(** The screen of the running terminal, whatever programs the tables map. *)
Lemma running_shows_remap s t v T T' :
  tables_ok (pgs s) -> tables_ok (pgs t) ->
  ttys t = Tty (<[Z.to_nat (curr_scheduler (ttys s)) := T']> (terminal (ttys s)))
    (current_terminal (ttys s)) (curr_scheduler (ttys s)) ->
  aget (terminal (ttys s)) (curr_scheduler (ttys s)) = Some T ->
  screen_x T' = screen_x T -> screen_y T' = screen_y T ->
  (forall c, 0 <= c < EIGHT_MB -> mem (mach t) !! c = mem (mach s) !! c) ->
  running_shows s v -> running_shows t v.
Proof.
  intros Hok Hok' Ht HT Hx Hy Hm [Hc ((G1 & G2 & [G3 G3'] & G4) & Hs & T0 & HT0 & Hrow & Hcol)].
  assert (Hpage : page_of t = page_of s) by (unfold page_of; by rewrite Ht).
  assert (Hget : forall i, 0 <= i < 4000 -> mem_get t (page_of s + i) = mem_get s (page_of s + i)).
  { intros i Hi. destruct (page_cell linked s i Hok Hc Hi) as [Hcs Hb].
    destruct (page_cell linked t i Hok') as [Hct _]; [by rewrite Ht|done|]. rewrite Hpage in Hct.
    unfold mem_get. rewrite Hcs, Hct. apply Hm. unfold VIDEO, EIGHT_MB in *. lia. }
  unfold running_shows. rewrite Hpage, Ht. cbn [curr_scheduler]. split; [done|]. split; [|split; [done|]].
  - split_and!; [done|lia|lia| |].
    + split; [intros i Hi; rewrite Hget by done; by apply G3|]. intros i j Hi Hj. rewrite <- Hpage.
      destruct (page_cell linked t i Hok') as [-> _]; [by rewrite Ht|done|].
      destruct (page_cell linked t j Hok') as [-> _]; [by rewrite Ht|done|]. intros [=]. lia.
    + intros j c Hj. pose proof (lookup_lt_Some _ _ _ Hj) as Hlt. rewrite G1 in Hlt. unfold CELLS in Hlt.
      destruct (G4 j c Hj) as (? & ? & <- & <-). rewrite <- !Z.add_assoc, !Hget by lia. done.
  - exists T'. rewrite Ht. cbn [terminal]. split; [by eapply aget_insert|]. assert (T0 = T) as -> by congruence.
    by rewrite Hx, Hy.
Qed.

(** ** The state the new program starts in *)

Lemma fresh_fd_is s old parent ppid k' l :
  length (file_descriptor old) = 8%nat ->
  (exists d, aget (file_descriptor old) 7 = Some d /\ flags_ d = 0) ->
  length (file_descriptor (child_pcb old parent ppid k' l stdin_table stdout_table)) = 8%nat /\
  Forall2 (fd_is s) (file_descriptor (child_pcb old parent ppid k' l stdin_table stdout_table)) fresh_fds.
Proof.
  cbn [child_pcb set_file_descriptor file_descriptor].
  destruct (file_descriptor old) as [|d0 [|d1 [|d2 [|d3 [|d4 [|d5 [|d6 [|d7 [|]]]]]]]]]; try done.
  intros _ (d & [= <-] & Hd). split; [done|]. repeat constructor; done.
Qed.

(** The caller of [execute]. *)
Lemma runs_running own base k w s :
  runs own base k w s -> exists T p, aget (terminal (ttys s)) (curr_scheduler (ttys s)) = Some T /\
    term_pcb T = pcb_addr k /\ running s (pcb_addr k) p /\ pcb_pid p = k /\ process_is s w p.
Proof.
  intros Hr. destruct (rn_process _ _ _ _ _ Hr) as (a & p & Hrun & Hpi).
  destruct (rn_block _ _ _ _ _ Hr a p Hrun) as [-> Hpid]. pose proof Hrun as (T & HT & Ha & _).
  by exists T, p.
Qed.

Lemma launched_low s T k' size arg data t own base k w :
  runs own base k w s -> 0 <= k' < 6 -> PROGRAM_IMG + size <= 0x8400000 ->
  launched s T k' size arg data t ->
  forall c, 0 <= c -> ~ in_frame k' c -> mem (mach t) !! c = mem (mach s) !! c.
Proof.
  intros Hr Hk' Hsize Hla c Hc Hf. apply (la_mem _ _ _ _ _ _ _ Hla); [done|].
  intros i Hi ->. by apply Hf, (image_cell_in k' size).
Qed.

Lemma launched_page s T k' size arg data t :
  spare k' s -> 0 <= k' < 6 -> PROGRAM_IMG + size <= 0x8400000 -> bytes data ->
  size <= Z.of_nat (length data) -> launched s T k' size arg data t ->
  (forall c, in_frame k' c -> exists b, mem (mach t) !! c = Some b /\ 0 <= b < 256) /\
  (forall i, 0 <= i < size -> mem (mach t) !! frame_of k' (PROGRAM_IMG + i) = Some (byte_of data (Z.to_nat i))).
Proof.
  intros Hsp Hk' Hsize Hb Hlen Hla.
  assert (Himg : forall i, 0 <= i < size -> mem (mach t) !! image_cell k' i = Some (byte_of data (Z.to_nat i))).
  { intros i Hi. destruct (la_tables _ _ _ _ _ _ _ Hla) as [Hok H32].
    pose proof (la_program _ _ _ _ _ _ _ Hla (Z.to_nat i) (byte_of data (Z.to_nat i))) as Hp.
    rewrite Z2Nat.id in Hp by lia. unfold mem_get in Hp.
    rewrite (image_translate _ k' size) in Hp by done. apply Hp. rewrite lookup_take_lt by lia.
    unfold byte_of. destruct (lookup_lt_is_Some_2 data (Z.to_nat i)) as [x Hx]; [lia|].
    rewrite Hx. f_equal. symmetry. by apply nth_lookup_Some. }
  split.
  - intros c Hc. destruct (decide (0 <= c - image_cell k' 0 < size)) as [Hi|Hi].
    + pose proof (Himg _ Hi) as He. exists (byte_of data (Z.to_nat (c - image_cell k' 0))).
      split; [rewrite <- He; f_equal; unfold image_cell; lia|]. unfold byte_of.
      destruct (nth_in_or_default (Z.to_nat (c - image_cell k' 0)) data 0) as [Hin| ->]; [|lia].
      apply (proj1 (Forall_forall _ _) Hb). by apply list_elem_of_In.
    + rewrite (la_mem _ _ _ _ _ _ _ Hla); [by apply (sp_page _ _ Hsp)|by pose proof (frame_nonneg k' c Hk' Hc); lia|].
      intros i Hi' ->. unfold image_cell in Hi. lia.
  - intros i Hi. rewrite <- (Himg i Hi). f_equal. unfold frame_of, image_cell. lia.
Qed.

Lemma launched_runs own base k k' w s T size arg data t :
  runs own base k w s -> ready k k' s ->
  aget (terminal (ttys s)) (curr_scheduler (ttys s)) = Some T -> term_pcb T = pcb_addr k ->
  PROGRAM_IMG + size <= 0x8400000 -> bytes data -> size <= Z.of_nat (length data) -> bytes arg ->
  launched s T k' size arg data t ->
  exists m, (forall i, 0 <= i < size -> m (PROGRAM_IMG + i) = byte_of data (Z.to_nat i)) /\
    runs (eq k') t k' (child_world w arg m) t.
Proof.
  intros Hr [(P1 & (Hk' & P2 & _) & P3) Hsp _ _ _ [O1 O2]] HT Ha Hend Hb Hlen Hbarg Hla.
  pose proof (launched_low s T k' size arg data t own base k w Hr Hk' Hend Hla) as Hlow.
  destruct (launched_page s T k' size arg data t Hsp Hk' Hend Hb Hlen Hla) as [Hpage Himg].
  pose proof (rn_tables _ _ _ _ _ Hr) as Hok. destruct (la_tables _ _ _ _ _ _ _ Hla) as [Hok' H32].
  destruct (la_child _ _ _ _ _ _ _ Hla) as (ppid & l & Hl & Harg & _ & _ & Hchild).
  rewrite O1, O2 in Hchild. destruct (la_rest _ _ _ _ _ _ _ Hla) as (Ff & _).
  pose proof (la_ttys _ _ _ _ _ _ _ Hla) as Htt.
  destruct (fresh_fd_is t (old_pcb s (pcb_addr k')) (term_pcb T) ppid k' l (sp_fds _ _ Hsp) (sp_seven _ _ Hsp))
    as [Hl8 Hfds].
  exists (fun a => default 0 (mem (mach t) !! frame_of k' a)). split.
  { intros i Hi. by rewrite Himg. }
  constructor; try done.
  - intros a Hu. destruct (Hpage _ (frame_of_in k' a Hu)) as (b & Hb1 & Hb2). cbn [w_mem child_world].
    by rewrite Hb1.
  - apply (running_shows_remap s t _ T (Term (pcb_addr k') (screen_x T) (screen_y T))); try done.
    + intros c Hc. apply Hlow; [lia|]. intros Hf. pose proof (frame_nonneg k' c Hk' Hf). unfold EIGHT_MB in *. lia.
    + apply (rn_screen _ _ _ _ _ Hr).
  - intros a p (T0 & HT0 & Ha0 & Hp). rewrite Htt in HT0. cbn [terminal curr_scheduler] in HT0.
    rewrite (aget_insert _ _ _ _ HT) in HT0. injection HT0 as <-. cbn in Ha0. subst a.
    rewrite Hchild in Hp. by injection Hp as <-.
  - eexists _, _. split.
    + eexists. rewrite Htt. cbn [terminal curr_scheduler]. split; [by eapply aget_insert|]. split; [done|exact Hchild].
    + constructor; [exact Harg|exact Hbarg|cbn; lia|exact Hl8|exact Hfds].
  - destruct (rn_fs _ _ _ _ _ Hr) as (ds & dot & Hfs). exists ds, dot.
    eapply (fs_is_frame linked s); [done|apply (la_kmem _ _ _ _ _ _ _ Hla)|done| | | |exact Hfs]; try done.
    right. by destruct (la_ops _ _ _ _ _ _ _ Hla) as (_ & _ & _ & ? & ?).
Qed.

(** ** The way back *)

Lemma program_at_back p k k' :
  tables_ok p -> aget (page_directory p) 32 = Some (2 ^ 22 * (2 + k) + 0x87) ->
  program_at k (program_at k' p) = p.
Proof.
  intros Hok H32. destruct p as [d pt pv on]. cbn in *. unfold program_at. cbn. f_equal.
  rewrite list_insert_insert_eq. apply list_insert_id. unfold aget in H32. by destruct (_ && _).
Qed.

Lemma word_at_unique s a v v' : word_at s a v -> word_at s a v' -> v = v'.
Proof.
  intros (b0 & b1 & b2 & b3 & Hb & ->) (c0 & c1 & c2 & c3 & Hc & ->).
  assert (He : forall i (x y : Z), [b0; b1; b2; b3] !! i = Some x -> [c0; c1; c2; c3] !! i = Some y -> x = y).
  { intros i x y Hx%Hb Hy%Hc. congruence. }
  by rewrite (He 0%nat b0 c0), (He 1%nat b1 c1), (He 2%nat b2 c2), (He 3%nat b3 c3).
Qed.

(** The descriptors a program leaves behind. *)
Lemma fds_closable s fds ds : Forall2 (fd_is s) fds ds -> closable fds.
Proof.
  intros Hall. apply Forall_lookup. intros i d Hd Hf.
  destruct (Forall2_lookup_l _ _ _ _ _ Hall Hd) as (x & _ & Hx).
  destruct x; cbn in Hx; [done|rewrite (proj2 Hx); set_solver|rewrite (proj2 Hx); set_solver
    |rewrite (proj1 (proj2 Hx)); set_solver|rewrite (proj2 Hx); set_solver].
Qed.

Lemma closed_seven s fds ds :
  Forall2 (fd_is s) fds ds -> length fds = 8%nat ->
  length (closed_upto 8 fds) = 8%nat /\ exists d, aget (closed_upto 8 fds) 7 = Some d /\ flags_ d = 0.
Proof.
  intros Hall Hl. unfold closed_upto. rewrite length_imap. split; [done|].
  destruct (lookup_lt_is_Some_2 fds 7) as [d Hd]; [lia|].
  destruct (Forall2_lookup_l _ _ _ _ _ Hall Hd) as (x & _ & Hx).
  exists (if flags_ d =? 1 then FileArray (pointer_ d) 0 0 0 else d). split.
  - apply aget_lookup; [lia|]. change (Z.to_nat 7) with 7%nat. by rewrite list_lookup_imap, Hd.
  - destruct x; cbn in Hx; try (rewrite (proj1 Hx); done). by rewrite Hx.
Qed.

(** The program [execute] started from process [k] as [k'] is about to halt. *)
Record ending (k k' : Z) (s : kernel) (p : pcb) (u : kernel) (T : term) (child : pcb) : Prop := {
  en_child : child_of u T child (set_halt_frame (ebp (mach s)) (esp (mach s)) p);
  en_term : term_pcb T = pcb_addr k';
  en_pids : pcb_pid child = k' /\ parent_pid child = k /\ parent_pcb child = pcb_addr k;
  en_fds : exists ds, Forall2 (fd_is u) (file_descriptor child) ds }.

Lemma child_ends own base k k' w s T p size arg data t w' u :
  runs own base k w s -> ready k k' s ->
  aget (terminal (ttys s)) (curr_scheduler (ttys s)) = Some T -> term_pcb T = pcb_addr k ->
  running s (pcb_addr k) p ->
  launched s T k' size arg data t -> runs (eq k') t k' w' u ->
  exists Tu child, ending k k' s p u Tu child.
Proof.
  intros Hr [(P1 & (Hk' & _) & P3) _ _ _ _ _] HT Ha Hrun Hla Hru.
  pose proof (rn_pid _ _ _ _ _ Hr) as Hk. destruct (pcb_addr_pos k Hk) as [_ Hnull].
  assert (Hne : pcb_addr k <> pcb_addr k') by (intros He; apply P3; symmetry; by apply (pcb_addr_inj k k')).
  destruct (rn_block _ _ _ _ _ Hr _ _ Hrun) as [_ Hpid].
  destruct (la_child _ _ _ _ _ _ _ Hla) as (ppid & l & _ & _ & _ & Hppid & Hchild).
  rewrite Ha in Hppid, Hchild. specialize (Hppid p Hnull Hrun).
  pose proof (la_parent _ _ _ _ _ _ _ Hla p) as Hpar. rewrite Ha in Hpar. specialize (Hpar Hnull Hrun).
  pose proof (rn_others _ _ _ _ _ Hru) as Ho.
  destruct (ot_pcb _ _ _ _ Ho _ Hchild) as (fds & bp & sp & Hcu).
  destruct (runs_running _ _ _ _ _ Hru) as (Tu & pu & HTu & Hau & Hrunu & Hpidu & Hpiu).
  assert (Hpu : pcbs (prc u) !! pcb_addr k' = Some pu) by by destruct Hrunu as (? & _ & _ & ?).
  assert (Heq : pu = set_halt_frame bp sp (set_file_descriptor fds
    (child_pcb (old_pcb s (pcb_addr k')) (pcb_addr k) ppid k' l (stdin_fops (prc s)) (stdout_fops (prc s)))))
    by congruence.
  assert (Hparu : pcbs (prc u) !! pcb_addr k = Some (set_halt_frame (ebp (mach s)) (esp (mach s)) p)).
  { rewrite <- Hpar. apply (ot_pcbs _ _ _ _ Ho). by intros j _ <-. }
  exists Tu, pu. constructor.
  - constructor; rewrite ?Hau; try done.
    + by rewrite Heq.
    + rewrite Hpidu. split; [done|]. rewrite (proj1 (ot_pids _ _ _ _ Ho)), (la_pid _ _ _ _ _ _ _ Hla).
      by rewrite length_insert.
    + rewrite Heq. cbn. by rewrite Hppid, Hpid.
    + split; [apply Hpiu|]. eapply fds_closable, Hpiu.
    + by rewrite Heq.
  - done.
  - split; [done|]. rewrite Heq. cbn. by rewrite Hppid, Hpid.
  - eexists. apply Hpiu.
Qed.

(** ** The excursion

    Process [k], in state [s], starts the program of [size] bytes as [k']; it
    begins in [t], is about to halt in [u], and the caller goes on in [v]. *)
Section excursion.
Context (own : Z -> Prop) (base : kernel) (k k' : Z) (w w' : world) (s t u v : kernel).
Context (T Tu : term) (p child : pcb) (size status : Z) (arg data : list Z).
Hypothesis Hr : runs own base k w s.
Hypothesis Hready : ready k k' s.
Hypothesis Hown : own k'.
Hypothesis Hend : PROGRAM_IMG + size <= 0x8400000.
Hypothesis HT : aget (terminal (ttys s)) (curr_scheduler (ttys s)) = Some T.
Hypothesis Ha : term_pcb T = pcb_addr k.
Hypothesis Hrun : running s (pcb_addr k) p.
Hypothesis Hla : launched s T k' size arg data t.
Hypothesis Hru : runs (eq k') t k' w' u.
Hypothesis Hen : ending k k' s p u Tu child.
Hypothesis Hha : halted u Tu child (set_halt_frame (ebp (mach s)) (esp (mach s)) p) status v.

Lemma exc_ranges :
  0 <= k < 6 /\ 0 <= k' < 6 /\ k' <> k /\ pcb_addr k <> pcb_addr k' /\ pcb_addr k <> NULL.
Proof.
  destruct (re_pids _ _ _ Hready) as (_ & (Hk' & _) & Hne). pose proof (rn_pid _ _ _ _ _ Hr) as Hk.
  refine (conj Hk (conj Hk' (conj Hne (conj _ _)))); [|by apply pcb_addr_pos].
  intros He. apply Hne. symmetry. by apply (pcb_addr_inj k k').
Qed.

Lemma exc_page : page_of t = page_of s.
Proof. unfold page_of. by rewrite (la_ttys _ _ _ _ _ _ _ Hla). Qed.

Lemma exc_cells c :
  0 <= c -> ~ in_frame k' c -> ~ (page_of s <= c < page_of s + 4000) -> mem (mach v) !! c = mem (mach s) !! c.
Proof.
  destruct exc_ranges as (_ & Hk' & _). intros Hc Hf Hp.
  rewrite (proj1 (ha_mem _ _ _ _ _ _ Hha)), (ot_mem _ _ _ _ (rn_others _ _ _ _ _ Hru)).
  - by apply (launched_low s T k' size arg data t own base k w).
  - split; [done|]. rewrite exc_page. split; [by intros j _ <-|done].
Qed.

Lemma exc_pcbs a : a <> pcb_addr k -> a <> pcb_addr k' -> pcbs (prc v) !! a = pcbs (prc s) !! a.
Proof.
  intros H1 H2. rewrite (ha_pcbs _ _ _ _ _ _ Hha), (en_term _ _ _ _ _ _ _ Hen), lookup_insert_ne by done.
  rewrite (ot_pcbs _ _ _ _ (rn_others _ _ _ _ _ Hru)) by (by intros j _ <-).
  apply (la_others _ _ _ _ _ _ _ Hla); [done|by rewrite Ha].
Qed.

Lemma exc_caller : pcbs (prc v) !! pcb_addr k = Some (set_halt_frame (ebp (mach s)) (esp (mach s)) p).
Proof.
  destruct exc_ranges as (_ & _ & _ & Hne & Hnull).
  rewrite (ha_pcbs _ _ _ _ _ _ Hha), (en_term _ _ _ _ _ _ _ Hen), lookup_insert_ne by done.
  rewrite (ot_pcbs _ _ _ _ (rn_others _ _ _ _ _ Hru)) by (by intros j _ <-).
  pose proof (la_parent _ _ _ _ _ _ _ Hla p) as Hpar. rewrite Ha in Hpar. by apply Hpar.
Qed.

Lemma exc_ttys :
  ttys v = Tty (<[Z.to_nat (curr_scheduler (ttys s)) := Term (pcb_addr k) (screen_x Tu) (screen_y Tu)]>
    (terminal (ttys u))) (current_terminal (ttys s)) (curr_scheduler (ttys s)).
Proof.
  destruct (ot_cur _ _ _ _ (rn_others _ _ _ _ _ Hru)) as [U1 U2].
  rewrite (la_ttys _ _ _ _ _ _ _ Hla) in U1, U2. cbn in U1, U2.
  by rewrite (ha_ttys _ _ _ _ _ _ Hha), U1, U2, (proj2 (proj2 (en_pids _ _ _ _ _ _ _ Hen))).
Qed.

Lemma exc_term_pcbs : map term_pcb (terminal (ttys v)) = map term_pcb (terminal (ttys s)).
Proof.
  assert (Hmap : map term_pcb (terminal (ttys u)) =
    <[Z.to_nat (curr_scheduler (ttys s)) := pcb_addr k']> (term_pcb <$> terminal (ttys s))).
  { rewrite (ot_term_pcbs _ _ _ _ (rn_others _ _ _ _ _ Hru)), (la_ttys _ _ _ _ _ _ _ Hla). cbn [terminal].
    change (map term_pcb ?l) with (term_pcb <$> l). by rewrite list_fmap_insert. }
  rewrite exc_ttys. cbn [terminal]. change (map term_pcb ?l) with (term_pcb <$> l) in Hmap |- *.
  rewrite list_fmap_insert, Hmap, list_insert_insert_eq. apply list_insert_id. cbn [term_pcb].
  rewrite list_lookup_fmap. unfold aget in HT. destruct (_ && _) in HT; [|done]. rewrite HT. cbn. by rewrite Ha.
Qed.

Lemma exc_terms j :
  j <> curr_scheduler (ttys s) -> aget (terminal (ttys v)) j = aget (terminal (ttys s)) j.
Proof.
  intros Hj.
  assert (Hin : forall x (l : list term), aget (<[Z.to_nat (curr_scheduler (ttys s)) := x]> l) j = aget l j).
  { intros x l. unfold aget. rewrite length_insert. destruct ((0 <=? j) && _) eqn:Hb; [|done].
    apply list_lookup_insert_ne. pose proof (aget_bound _ _ _ HT). unbool. lia. }
  pose proof (la_ttys _ _ _ _ _ _ _ Hla) as Ltt. rewrite exc_ttys. cbn [terminal].
  rewrite Hin, (ot_terms _ _ _ _ (rn_others _ _ _ _ _ Hru)), Ltt; [cbn; apply Hin|by rewrite Ltt].
Qed.

Lemma exc_pids :
  pid (prc v) = pid (prc s) /\ process_counter (prc v) = process_counter (prc s) /\
  global_halt (prc v) = global_halt (prc s).
Proof.
  destruct (re_pids _ _ _ Hready) as (_ & (_ & P2 & _) & _). destruct (re_room _ _ _ Hready) as [R1 R2].
  destruct (ot_pids _ _ _ _ (rn_others _ _ _ _ _ Hru)) as (U4 & U5 & U6).
  destruct (la_rest _ _ _ _ _ _ _ Hla) as (_ & _ & _ & _ & _ & Lg).
  rewrite (ha_pid _ _ _ _ _ _ Hha), (ha_counter _ _ _ _ _ _ Hha), (proj2 (ha_status _ _ _ _ _ _ Hha)),
    U4, U5, U6, (la_pid _ _ _ _ _ _ _ Hla), (la_counter _ _ _ _ _ _ _ Hla),
    (proj1 (en_pids _ _ _ _ _ _ _ Hen)), Lg.
  split_and!; [|rewrite !s32_small by (rewrite ?s32_small; lia); lia|done].
  rewrite list_insert_insert_eq. apply list_insert_id. unfold aget in P2. by destruct (_ && _) in P2.
Qed.

Lemma exc_spare j : 0 <= j < 6 -> j <> k -> spare j s -> spare j v.
Proof.
  destruct exc_ranges as (Hk & Hk' & _). intros Hj Hjk [S1 S2 S3]. destruct (decide (j = k')) as [->|Hjk'].
  - destruct (en_fds _ _ _ _ _ _ _ Hen) as [ds Hfds].
    destruct (closed_seven u _ ds Hfds) as [H8 H7]; [apply (en_child _ _ _ _ _ _ _ Hen)|].
    assert (Hold : old_pcb v (pcb_addr k') = set_file_descriptor (closed_upto 8 (file_descriptor child)) child).
    { unfold old_pcb. by rewrite (ha_pcbs _ _ _ _ _ _ Hha), (en_term _ _ _ _ _ _ _ Hen), lookup_insert_eq. }
    constructor; rewrite ?Hold; [|done|done]. intros c Hc. destruct (in_frame_of k' c Hc) as (a & Hu & ->).
    rewrite (proj1 (ha_mem _ _ _ _ _ _ Hha)). eexists. by apply (rn_mem _ _ _ _ _ Hru).
  - assert (Hold : old_pcb v (pcb_addr j) = old_pcb s (pcb_addr j)).
    { unfold old_pcb. rewrite exc_pcbs; [done|by intros ?%pcb_addr_inj|by intros ?%pcb_addr_inj]. }
    constructor; rewrite ?Hold; [|done|done]. intros c Hc. pose proof (frame_nonneg j c Hj Hc).
    rewrite exc_cells; [by apply S1|lia|by eapply frame_apart|].
    pose proof (page_low s). unfold EIGHT_MB in *. lia.
Qed.

(** All of the caller's surroundings are as they were. *)
Lemma exc_others : others own k s v.
Proof.
  destruct exc_ranges as (Hk & Hk' & _). pose proof (rn_others _ _ _ _ _ Hru) as Ho.
  destruct (la_rest _ _ _ _ _ _ _ Hla) as (Lf & Lk & Li & Ld & _), (ot_cpu _ _ _ _ Ho) as (U1 & U2 & U3).
  destruct (ha_mem _ _ _ _ _ _ Hha) as (_ & V2 & V3), (ha_cpu _ _ _ _ _ _ Hha) as [V4 V5].
  destruct (en_pids _ _ _ _ _ _ _ Hen) as (_ & C2 & _).
  constructor.
  - rewrite (ha_pgs _ _ _ _ _ _ Hha), (ot_pgs _ _ _ _ Ho), (la_pgs _ _ _ _ _ _ _ Hla), C2.
    apply program_at_back; apply Hr.
  - rewrite (ha_tss _ _ _ _ _ _ Hha), V4, V5, U1, U2, U3, (la_tss _ _ _ _ _ _ _ Hla), C2,
      (re_tss _ _ _ Hready). done.
  - by rewrite V3, (ot_kb _ _ _ _ Ho).
  - apply (ha_frame _ _ _ _ _ _ Hha).
  - rewrite V2, (ot_fsg _ _ _ _ Ho), Lf. done.
  - by rewrite exc_ttys.
  - apply exc_term_pcbs.
  - apply exc_terms.
  - apply exc_pids.
  - pose proof (la_ops _ _ _ _ _ _ _ Hla) as O1. pose proof (ot_ops _ _ _ _ Ho) as O2.
    pose proof (ha_ops _ _ _ _ _ _ Hha) as O3. unfold same_tables in *.
    destruct O3 as (-> & -> & -> & -> & ->), O2 as (-> & -> & -> & -> & ->). exact O1.
  - intros q Hq. assert (q = p) as -> by (destruct Hrun as (? & _ & _ & Hp); congruence).
    exists (file_descriptor p), (ebp (mach s)), (esp (mach s)). rewrite exc_caller. by destruct p.
  - intros a Hna. apply exc_pcbs; [apply Hna; [done|apply Hr]|by apply Hna].
  - apply exc_spare.
  - intros c (Hc & Hf & Hp). apply exc_cells; [done|by apply Hf|done].
Qed.

Lemma exc_tables : tables_ok (pgs v).
Proof. rewrite (ot_pgs _ _ _ _ exc_others). apply Hr. Qed.

Lemma exc_listing :
  fsg v = fsg (set_directory_index (Z.of_nat (w_next w') - 1) s) /\
  (w_next w' <= length (w_entries w) + 1)%nat.
Proof.
  destruct (ha_mem _ _ _ _ _ _ Hha) as (V1 & V2 & _).
  destruct (rn_fs _ _ _ _ _ Hru) as (du & dotu & Hfu), (rn_fs _ _ _ _ _ Hr) as (ds & dot & Hfs).
  destruct (fi_next _ _ _ _ Hfu) as [N1 N2].
  assert (Hf : fsg v = fsg (set_directory_index (Z.of_nat (w_next w') - 1) s)).
  { etransitivity; [apply (ot_fsg _ _ _ _ exc_others)|]. rewrite V2, N1.
    pose proof (fi_few _ _ _ _ Hfu). cbn. by rewrite s32_small by lia. }
  split; [done|]. assert (Hlen : length (w_entries w') = length (w_entries w)); [|lia].
  pose proof (fi_count _ _ _ _ Hfu) as Cu. pose proof (fi_count _ _ _ _ Hfs) as Cs.
  pose proof (fi_range _ _ _ _ Hfs) as Rs. pose proof (rn_tables _ _ _ _ _ Hr) as Hok.
  assert (Hb : boot_block_addr (fsg u) = boot_block_addr (fsg s)) by by rewrite <- V2, Hf.
  rewrite Hb in Cu. unfold KB4 in Rs.
  assert (Hkv : same_kmem s v).
  { split; [apply exc_tables|]. intros pa Hpa. destruct exc_ranges as (_ & Hk' & _). apply exc_cells; [lia| |].
    - intros Hc. pose proof (frame_nonneg _ _ Hk' Hc). lia.
    - destruct (page_cell linked s 0 Hok (proj1 (rn_screen _ _ _ _ _ Hr)) ltac:(lia)) as [_ Hpage].
      unfold VIDEO in Hpage. lia. }
  assert (Huv : same_kmem u v) by (split; [apply exc_tables|intros pa _; by rewrite V1]).
  apply (kmem_word u v) in Cu; [|done|apply (rn_tables _ _ _ _ _ Hru)|done|unfold dir_entry_num_at; lia..].
  apply (kmem_word s v) in Cs; [|done|done|done|unfold dir_entry_num_at; lia..].
  pose proof (word_at_unique _ _ _ _ Cu Cs). lia.
Qed.

Lemma exc_screen : running_shows v (w_screen w').
Proof.
  destruct (runs_running _ _ _ _ _ Hru) as (Tu' & pu & HTu & _).
  destruct (en_child _ _ _ _ _ _ _ Hen) as [HTu' _ _ _ _ _ _].
  assert (Tu' = Tu) as -> by congruence.
  apply (running_shows_remap u v _ Tu (Term (pcb_addr k) (screen_x Tu) (screen_y Tu))); try done.
  - apply Hru.
  - apply exc_tables.
  - destruct (ot_cur _ _ _ _ (rn_others _ _ _ _ _ Hru)) as [U1 U2]. rewrite (la_ttys _ _ _ _ _ _ _ Hla) in U1, U2.
    cbn in U1, U2. by rewrite exc_ttys, U1, U2.
  - intros c _. by rewrite (proj1 (ha_mem _ _ _ _ _ _ Hha)).
  - apply (rn_screen _ _ _ _ _ Hru).
Qed.

Lemma exc_running :
  running v (pcb_addr k) (set_halt_frame (ebp (mach s)) (esp (mach s)) p).
Proof.
  exists (Term (pcb_addr k) (screen_x Tu) (screen_y Tu)). rewrite exc_ttys. cbn [terminal curr_scheduler].
  split; [|split; [done|apply exc_caller]].
  destruct (en_child _ _ _ _ _ _ _ Hen) as [HTu _ _ _ _ _ _].
  destruct (ot_cur _ _ _ _ (rn_others _ _ _ _ _ Hru)) as [_ U2]. rewrite (la_ttys _ _ _ _ _ _ _ Hla) in U2.
  cbn in U2. rewrite U2 in HTu. by eapply aget_insert.
Qed.

(** The caller sees its own machine with what the program has printed and how
    far the listing has come. *)
Lemma exc_runs : runs own base k (shown (w_screen w') (set_w_next (w_next w') w)) v.
Proof.
  destruct exc_listing as [Hf Hn]. pose proof (runs_next own base k w s (w_next w') Hr Hn) as Hr1.
  set (s1 := set_directory_index (Z.of_nat (w_next w') - 1) s) in *.
  assert (Hpi : process_is s w p).
  { destruct (runs_running _ _ _ _ _ Hr) as (T0 & p0 & HT0 & _ & (T1 & HT1 & Ha1 & Hp0) & _ & Hpi).
    destruct Hrun as (T2 & HT2 & Ha2 & Hp). by assert (p0 = p) as <- by congruence. }
  apply (runs_intro linked own base k (set_w_next (w_next w') w) _ s1 v (pcb_addr k)
    (set_halt_frame (ebp (mach s)) (esp (mach s)) p)); try done.
  - apply (others_trans own k s1 s v); [|apply exc_others].
    apply others_step; try done; [apply Hr|apply Hr| |by left].
    unfold s1. cbn. by destruct (fsg s).
  - intros a Hu. pose proof (rn_mem _ _ _ _ _ Hr a Hu) as [Hm Hb]. split; [|done]. cbn [w_mem shown set_w_next].
    rewrite <- Hm. destruct exc_ranges as (Hk & Hk' & Hne & _). pose proof (frame_of_in k a Hu) as Hin.
    pose proof (frame_nonneg k _ Hk Hin). pose proof (page_low s). unfold EIGHT_MB in *.
    apply exc_cells; [lia|by eapply frame_apart|lia].
  - apply exc_screen.
  - apply exc_running.
  - destruct Hpi as [A B C D E]. constructor; try done. eapply Forall2_impl; [exact E|].
    intros d x. apply fd_is_index.
Qed.

End excursion.

(** ** A call of [execute] *)

(** The file is a program [execute] accepts. *)
Definition executable (size : Z) (data : list Z) : Prop :=
  take 4 data = magic_identifiers /\ 28 <= size /\ PROGRAM_IMG + size <= 0x8400000.

(** A command line of the two parts [execute] has room for. *)
Definition command_fits (l : list Z) : Prop :=
  (0 < length (command_name l) < 32)%nat /\ command_name l <> [46] /\
  Z.of_nat (length (command_arg l)) + Z.of_nat (length (command_name l)) <= 128.

(** Run in process [k'] on the machine [w0], [main] returns and leaves a machine
    as [post] says. *)
Definition verified (main : K Z) (k' : Z) (w0 : world) (post : world -> Prop) : Prop :=
  forall t, runs (eq k') t k' w0 t ->
    wp main (fun _ u => exists w', runs (eq k') t k' w' u /\ post w') (fun _ _ => False) t.

Lemma spawn_startable own base k k' w s nm nm' size data :
  runs own base k w s -> ready k k' s -> nm <> [] ->
  find_entry nm w = Some (nm', Regular size data) -> executable size data ->
  exists T ds dot d blocks md mi, find_dentry nm ds = Some d /\ bytes data /\ size <= Z.of_nat (length data) /\
    term_pcb T = pcb_addr k /\ startable s T k' (inode_num_ d) size blocks data ds dot md mi.
Proof.
  intros Hr [(P1 & P2 & P3) Hsp _ _ _ _] Hne Hf (_ & Hs1 & Hs2).
  destruct (runs_running _ _ _ _ _ Hr) as (T & p & HT & Ha & Hrun & _).
  destruct (rn_fs _ _ _ _ _ Hr) as (ds & dot & Hfs).
  pose proof (find_entry_spec s w ds dot nm Hfs Hne) as Hfind. rewrite Hf in Hfind.
  destruct Hfind as (d & Hd & _ & _ & Hfile).
  destruct Hfile as (ds' & dot' & blocks & md & mi & Himg & Hino & Hsz & Hl1 & Hl2).
  pose proof (rn_pid _ _ _ _ _ Hr) as Hk. pose proof P2 as (Hk' & _).
  exists T, ds, dot, d, blocks, md, mi. split; [done|].
  split; [apply (st_bytes _ _ _ _ _ (img_stored _ _ _ _ _ _ _ _ _ Himg))|]. split; [lia|]. split; [done|].
  constructor; try done.
  - apply Hr.
  - split; [done|]. intros _. exists p. by rewrite Ha.
  - rewrite Ha. intros He. apply P3. symmetry. by apply (pcb_addr_inj k k').
  - apply Hsp.
  - destruct Himg as [_ I2 I3 I4 I5 I6 I7]. constructor; try done. apply Hfs.
  - lia.
  - intros i Hi. destruct (sp_page _ _ Hsp _ (image_cell_in k' size i Hs2 Hi)) as (b & Hb & _). by eexists.
Qed.

Lemma command_user own base k w s a l :
  runs own base k w s -> string_at w a l ->
  command_at s (Addr a) l /\ is_null (Addr a) = false /\ command_apart s (Addr a) l /\
  Z.of_nat (length l) < 2 ^ 31.
Proof.
  intros Hr Hs. destruct (string_reads own base k w s a l Hr Hs) as (Hreads & Hb & _).
  pose proof (sa_user _ _ _ Hs) as Hu. rewrite user_buffer_spec in Hu.
  split; [exists []; split_and!; [done|apply Hs|done]|]. split; [apply Z.eqb_neq; unfold NULL; lia|].
  split; [|lia]. intros b i Hi. apply outside_local; unfold ARG; lia.
Qed.

Variable code : Syscalls -> Z -> K Z.

Lemma system_os irqs depth own base k : @OS _ (system code irqs depth) (runs own base k).
Proof.
  pose proof (kernel_os linked own base irqs k) as Hos. destruct depth; [exact Hos|].
  destruct Hos as [H1 H2 H3 H4 H5 H6 H7 H8 H9 H10].
  constructor; [exact H1|exact H2|exact H3|exact H4|exact H5|exact H6|exact H7|exact H8|exact H9|exact H10].
Qed.

Lemma system_halt irqs depth status :
  @ece391_halt (system code irqs depth) status = system_call_asm irqs 1 (u32 status) 0 0.
Proof. by destruct depth. Qed.

(** The program's [main] and the [halt] of its [_start]. *)
Lemma start_halts irqs depth own base k k' w s T p size arg data t w0 post main :
  runs own base k w s -> ready k k' s ->
  aget (terminal (ttys s)) (curr_scheduler (ttys s)) = Some T -> term_pcb T = pcb_addr k ->
  running s (pcb_addr k) p -> launched s T k' size arg data t ->
  runs (eq k') t k' w0 t -> verified main k' w0 post ->
  exists w' u Tu child status v, post w' /\ runs (eq k') t k' w' u /\ ending k k' s p u Tu child /\
    @start (system code irqs depth) main t = Leave JmpReturn v /\
    halted u Tu child (set_halt_frame (ebp (mach s)) (esp (mach s)) p) status v.
Proof.
  intros Hr Hready HT Ha Hrun Hla Hr0 Hmain. specialize (Hmain t Hr0).
  apply wp_Ret in Hmain as (r & u & Hmain & w' & Hru & Hpost).
  destruct (child_ends own base k k' w s T p size arg data t w' u Hr Hready HT Ha Hrun Hla Hru)
    as (Tu & child & Hen).
  pose proof (halt_spec u Tu child _ (u8 (u32 r)) (rn_tables _ _ _ _ _ Hru) (en_child _ _ _ _ _ _ _ Hen)) as Hh.
  apply wp_Leave in Hh as (x & v & Hh & -> & Hha). exists w', u, Tu, child, (u8 (u32 r)), v.
  split; [done|]. split; [done|]. split; [done|]. split; [|done].
  unfold start. rewrite (bind_Ret _ _ _ _ _ Hmain), system_halt. apply gate_leaves; [lia|exact Hh].
Qed.

Lemma spawn_rule irqs depth own base k k' w s command l nm size data post :
  runs own base k w s -> ready k k' s -> own k' -> string_at w command l -> command_fits l ->
  find_entry (command_name l) w = Some (nm, Regular size data) -> executable size data ->
  (forall m, (forall i, 0 <= i < size -> m (PROGRAM_IMG + i) = byte_of data (Z.to_nat i)) ->
    verified (code (system code irqs depth) (entry_of data)) k' (child_world w (command_arg l) m) post) ->
  exists w' v, @ece391_execute (system code irqs (S depth)) command s = Ret 0 v /\ post w' /\
    runs own base k (shown (w_screen w') (set_w_next (w_next w') w)) v.
Proof.
  intros Hr Hready Hown Hs ([Hn1 Hn2] & Hdot & Harg) Hf Hex Hmain.
  assert (Hne : command_name l <> []) by (intros He; rewrite He in Hn1; simpl in Hn1; lia).
  destruct (spawn_startable own base k k' w s _ nm size data Hr Hready Hne Hf Hex)
    as (T & ds & dot & d & blocks & md & mi & Hd & Hb & Hlen & Ha & Hst).
  destruct (command_user own base k w s command l Hr Hs) as (Hc & Hnull & Hap & Hl).
  destruct Hex as (Hmag & _ & Hend).
  pose proof (execute_spec s (Addr command) l T k' d size blocks data ds dot md mi linked Hc Hnull Hap Hl Hn2
    Harg Hdot Hd Hmag Hst (or_intror (proj2 (re_room _ _ _ Hready)))) as Hx.
  apply wp_Leave in Hx as (x & t & Hx & -> & Hla).
  destruct (runs_running _ _ _ _ _ Hr) as (T0 & p & HT & _ & Hrun & _).
  assert (T0 = T) as -> by (destruct (sa_caller _ _ _ _ _ _ _ _ _ _ _ Hst) as [HT' _]; congruence).
  destruct (command_user own base k w s command l Hr Hs) as ((? & _ & _ & Hbl) & _).
  destruct (launched_runs own base k k' w s T size (command_arg l) data t Hr Hready HT Ha Hend Hb Hlen
    (command_arg_chars _ _ Hbl) Hla) as (m & Hm & Hr0).
  destruct (start_halts irqs depth own base k k' w s T p size _ data t _ post _ Hr Hready HT Ha Hrun Hla Hr0
    (Hmain m Hm)) as (w' & u & Tu & child & status & v & Hpost & Hru & Hen & Hstart & Hha).
  exists w', (set_iflag (iflag (mach s)) v). split; [|split; [done|]].
  - cbn [system with_execute ece391_execute]. unfold run_command.
    rewrite (gate_leaves irqs 2 command 0 0 s (EnterUser (entry_of data)) t) by (lia || exact Hx).
    rewrite Hstart. unfold execute_return, bind, gets, modify, ret.
    assert (Hg : global_halt (prc v) = global_halt (prc s)) by (eapply exc_pids; eassumption).
    by rewrite Hg, (proj2 (Z.eqb_neq _ _) (re_halt _ _ _ Hready)).
  - apply runs_iflag; [done|].
    eapply exc_runs; eassumption.
Qed.

(** ** A refused name *)

Lemma runs_locals own base k w s t : runs own base k w s -> locals s t -> runs own base k w t.
Proof.
  intros Hr [Ht Hm]. destruct (rn_process _ _ _ _ _ Hr) as (a & p & Hrun & Hpi).
  assert (F : pgs t = pgs s /\ ttys t = ttys s /\ prc t = prc s /\ fsg t = fsg s) by by rewrite Ht.
  destruct F as (Fp & Ft & Fc & Ff).
  apply (runs_intro linked own base k w w s t a p); try done.
  - apply others_step; try apply Hr; try (by rewrite Ht); [|by left|].
    + rewrite Ff. by destruct (fsg s).
    + intros c (Hc & _). by apply Hm.
  - intros b Hb. pose proof (rn_mem _ _ _ _ _ Hr b Hb) as [Hg Hrange]. split; [|done]. rewrite <- Hg. apply Hm.
    pose proof (frame_nonneg k _ (rn_pid _ _ _ _ _ Hr) (frame_of_in k b Hb)). lia.
  - apply (running_shows_frame s); [done|done| |apply Hr]. intros i Hi.
    destruct (page_cell linked s i (rn_tables _ _ _ _ _ Hr) (proj1 (rn_screen _ _ _ _ _ Hr)) Hi) as [Hc Hb].
    unfold mem_get. rewrite Fp, Hc. apply Hm. unfold VIDEO in Hb. lia.
  - destruct Hrun as (T & HT & Ha & Hp). exists T. by rewrite Ft, Fc.
Qed.

Lemma unknown_rule irqs depth own base k k' w s command l :
  runs own base k w s -> ready k k' s -> string_at w command l -> command_fits l ->
  find_entry (command_name l) w = None ->
  exists t, @ece391_execute (system code irqs (S depth)) command s = Ret (-1) t /\ runs own base k w t.
Proof.
  intros Hr Hready Hs ([Hn1 Hn2] & Hdot & Harg) Hf.
  assert (Hne : command_name l <> []) by (intros He; rewrite He in Hn1; simpl in Hn1; lia).
  destruct (runs_running _ _ _ _ _ Hr) as (T & _ & HT & _).
  destruct (rn_fs _ _ _ _ _ Hr) as (ds & dot & Hfs).
  pose proof (find_entry_spec s w ds dot _ Hfs Hne) as Hfind. rewrite Hf in Hfind.
  destruct (command_user own base k w s command l Hr Hs) as (Hc & Hnull & Hap & Hl).
  pose proof (execute_unknown s (Addr command) l T ds dot (fun _ _ => False) linked Hc Hnull Hap Hl Hn2 Hdot Harg
    (rn_tables _ _ _ _ _ Hr) HT (proj2 (re_room _ _ _ Hready)) (fi_range _ _ _ _ Hfs) (fi_dir _ _ _ _ Hfs) Hfind) as Hw.
  apply wp_Ret in Hw as (r & t & Hx & -> & Hloc). exists (set_iflag (iflag (mach s)) t). split.
  - cbn [system with_execute ece391_execute]. unfold run_command.
    by rewrite (gate_call irqs 2 command 0 0 s FAILURE t) by (lia || exact Hx).
  - apply runs_iflag; [done|]. eapply runs_locals; [|exact Hloc]. by apply runs_iflag.
Qed.

(** [cat], started with the name of a regular file. *)
Lemma cat_verified `{Linked} irqs depth k' w arg m buf nm size data :
  user_buffer buf 1024 = true -> Forall (fun b => b <> 0) arg -> (0 < length arg < 1024)%nat -> arg <> [46] ->
  find_entry arg w = Some (nm, Regular size data) ->
  verified (@cat_main _ (system code irqs depth) _ buf) k' (child_world w arg m)
    (fun w' => w_screen w' = put_text (take (Z.to_nat (whole_chunks size)) data) (w_screen w) /\
       w_next w' = w_next w).
Proof.
  intros Hu Hc Hl Hdot Hf t Hr. pose proof (system_os irqs depth (eq k') t k') as Hos.
  assert (Hne : arg <> []) by (intros ->; simpl in Hl; lia).
  destruct (runs_file (eq k') t k' (child_world w arg m) t arg nm size data Hr Hne Hf) as (Hs & Hdiv & Hlen).
  eapply wp_mono; [apply (@cat_prints _ (system code irqs depth) _ _ Hos (child_world w arg m) t buf arg 2
    nm size data (fun _ _ => False) Hr)|..]; try done.
  - intros r u (-> & w' & Hw' & _ & _ & _ & Hscr & _). by exists w'.
Qed.

(** ** Properties *)

(** C3: a program that starts a program.  When a running program calls [execute]
    with a command line whose first word names an executable file, the new
    program starts in a process of its own with the rest of the line as its
    argument, the terminal as descriptors 0 and 1 and the file at its address;
    if its [main], run on that machine, returns - with whatever value - the
    call of [execute] returns 0 and the caller goes on: its memory, argument,
    descriptors and process number are what they were, as are the page tables,
    the kernel stack, the keyboard, every other process and terminal and all
    foreign memory, and the screen is as the program left it. *)
Theorem program_returns irqs depth own base k k' w s command l nm size data post :
  runs own base k w s -> ready k k' base -> own k' -> string_at w command l -> command_fits l ->
  find_entry (command_name l) w = Some (nm, Regular size data) -> executable size data ->
  (forall m, (forall i, 0 <= i < size -> m (PROGRAM_IMG + i) = byte_of data (Z.to_nat i)) ->
    verified (code (system code irqs depth) (entry_of data)) k' (child_world w (command_arg l) m) post) ->
  exists w' v, @ece391_execute (system code irqs (S depth)) command s = Ret 0 v /\ post w' /\
    runs own base k (shown (w_screen w') (set_w_next (w_next w') w)) v /\ ready k k' v /\
    running_shows v (w_screen w').
Proof.
  intros Hr Hready Hown Hs Hfit Hf Hex Hmain.
  pose proof (ready_others own k k' base s Hready (rn_others _ _ _ _ _ Hr)) as Hready'.
  destruct (spawn_rule irqs depth own base k k' w s command l nm size data post Hr Hready' Hown Hs Hfit Hf Hex Hmain)
    as (w' & v & Hrun & Hpost & Hrv).
  exists w', v. split; [done|]. split; [done|]. split; [done|].
  split; [|exact (rn_screen _ _ _ _ _ Hrv)].
  exact (ready_others own k k' base v Hready (rn_others _ _ _ _ _ Hrv)).
Qed.

End spawn.

(** * A closed example

    The process of [UserKernel] runs the command [shell shell]: the file system's
    one program is [cat]. *)
Section demo.
Let H := quiet_env.
Local Existing Instance H.

Definition demo_code (sys : Syscalls) (entry : Z) : K Z := @cat_main _ sys demo_linked 0x8060000.

Lemma demo_ready : ready 0 1 demo_user.
Proof.
  assert (Hold : old_pcb demo_user (pcb_addr 1) = raw_pcb (pcb_addr 1)).
  { unfold old_pcb. change (pcbs (prc demo_user)) with ({[ 0x7FE000 := demo_user_pcb ]} : gmap Z pcb).
    by rewrite lookup_singleton_ne. }
  constructor; [|constructor; rewrite ?Hold| | | |].
  - split; [reflexivity|]. split; [|done]. split; [lia|]. split; [reflexivity|].
    intros i Hi. assert (i = 0) as -> by lia. exists 1. by split.
  - intros c Hc. exists (demo_user_byte c). split; [|apply demo_user_range].
    unfold in_frame, EIGHT_MB, FOUR_MB in Hc. unfold demo_user. rewrite mem_set_mem_eq, lookup_union_r.
    + apply ram_of_lookup. lia.
    + apply ram_of_lookup_None. unfold VIDEO. lia.
  - reflexivity.
  - eexists. split; reflexivity.
  - split; [|discriminate]. change (process_counter (prc demo_user)) with 0. lia.
  - discriminate.
  - reflexivity.
  - by split.
Qed.

Lemma demo_own : 1 = 0 \/ 1 = 1.
Proof. by right. Qed.

Lemma demo_command_line g : string_at (demo_world g) 0x8050440 (bytes_of "shell shell").
Proof. apply (demo_placed g 17); [reflexivity|lia|simpl; lia|vm_compute; reflexivity|reflexivity]. Qed.

Lemma demo_executable : executable 29 (demo_exec_bytes 0x502000 4096).
Proof. split; [reflexivity|]. unfold PROGRAM_IMG. lia. Qed.

Lemma demo_fits : command_fits (bytes_of "shell shell").
Proof. split; [vm_compute; lia|]. split; [discriminate|]. apply Z.leb_le. reflexivity. Qed.
End demo.

Lemma program_returns_witness :
  let H := quiet_env in
  exists g v, @ece391_execute (system demo_code [] 1) 0x8050440 demo_user = Ret 0 v /\
    running_shows v (put_text (take (Z.to_nat (whole_chunks 29)) (demo_exec_bytes 0x502000 4096)) (Screen g 0 0)).
Proof.
  intros H. destruct (demo_runs (fun j => j = 0 \/ j = 1) (or_introl eq_refl)) as [g Hr]. exists g.
  destruct (@program_returns quiet_env demo_table_linked demo_code [] 0 (fun j => j = 0 \/ j = 1) demo_user 0 1
    (demo_world g) demo_user 0x8050440 (bytes_of "shell shell") (bytes_of "shell") 29 (demo_exec_bytes 0x502000 4096)
    (fun w' => w_screen w' = put_text (take (Z.to_nat (whole_chunks 29)) (demo_exec_bytes 0x502000 4096))
       (w_screen (demo_world g)) /\ w_next w' = 0%nat)) as (w' & v & Hrun & [Hscr _] & _ & _ & Hshow).
  - exact Hr.
  - apply demo_ready.
  - apply demo_own.
  - apply demo_command_line.
  - apply demo_fits.
  - reflexivity.
  - apply demo_executable.
  - intros m _. apply (@cat_verified quiet_env demo_table_linked demo_code demo_linked [] 0 1 (demo_world g)
      (bytes_of "shell") m 0x8060000 (bytes_of "shell")); [reflexivity| |simpl; lia|discriminate|reflexivity].
    by repeat constructor.
  - exists v. split; [exact Hrun|]. rewrite Hscr in Hshow. exact Hshow.
Defined.
