(* ===== verification/Shell.v ===== *)
(** The shell, [src/syscalls/ece391shell.c], on the kernel: a prompt from the
    keys that are pressed to the screen its command leaves, and whole sessions. *)
From stdpp Require Import base numbers list gmap strings.
From Stdlib Require Import ZArith Lia.
From S2P Require Import Prelude Machine Strings Console Paging FileSys Terminal Descriptors.
From S2P Require Import Process Execute Frames Keyboard Syscall Support Os Programs Clients Runs UserKernel Spawn.

(** * What the shell does *)

Definition prompt : list Z := bytes_of "391OS> ".
Definition exit_word : list Z := bytes_of "exit".
Definition banner : list Z := bytes_of "Starting 391 Shell" ++ [10].
Definition unknown_text : list Z := bytes_of "no such command" ++ [10].

(** The interrupts of a line: its keys and Enter. *)
Definition typing `{Env} (codes : list Z) : list (K unit) := map key_irq codes ++ [key_irq ENTER_PRESSED].

(** What is in the buffer and on the screen when the line [codes] spell on the
    keyboard [m] has been typed at the prompt. *)
Definition typed_line (m : kbd) (codes : list Z) : list Z := edit_all m codes [].

Definition after_line (buf : Z) (m : kbd) (codes : list Z) (w : world) : world :=
  let l := typed_line m codes in
  stored_byte (buf + Z.of_nat (length l)) 0 (stored_bytes buf (l ++ [NEWLINE])
    (shown (put_char NEWLINE (echo_all m codes [] (put_text prompt (w_screen w)))) w)).

(** One line: [effect] is what the programs do to the screen and the listing. *)
Definition shell_does (effect : list Z -> world -> option (screen * nat)) (l : list Z) (w : world)
    : option Z * world :=
  if bool_decide (l = exit_word) then (Some 0, w)
  else match l with
       | [] => (None, w)
       | _ => match effect l w with
              | Some (v, n) => (None, shown v (set_w_next n w))
              | None => (None, printed unknown_text w)
              end
       end.

(** Lines until the shell returns. *)
Fixpoint session (effect : list Z -> world -> option (screen * nat)) (buf : Z) (m : kbd)
    (lines : list (list Z)) (w : world) : option Z * world :=
  match lines with
  | [] => (None, w)
  | codes :: lines' =>
    match shell_does effect (typed_line m codes) (after_line buf m codes w) with
    | (Some r, w') => (Some r, w')
    | (None, w') => session effect buf (mods_all m codes) lines' w'
    end
  end.

(** Every line is blank, [exit], or a command [known] to the specification with
    a name and an argument [execute] has room for. *)
Definition plain_line (known : list Z -> Prop) (l : list Z) : Prop :=
  l = [] \/ l = exit_word \/ (command_fits l /\ known l).

Fixpoint lines_ok (known : list Z -> Prop) (m : kbd) (lines : list (list Z)) : Prop :=
  match lines with
  | [] => True
  | codes :: lines' =>
    editing_keys m codes = true /\ plain_line known (typed_line m codes) /\
    lines_ok known (mods_all m codes) lines'
  end.

(** The shell's loop, each turn with the keys pressed during its read. *)
Fixpoint prompts `{Env} `{Linked} (code : Syscalls -> Z -> K Z) (depth : nat) (buf : Z)
    (lines : list (list Z)) : K (option Z) :=
  match lines with
  | [] => ret None
  | codes :: lines' =>
    let* r := @shell_command _ (system code (typing codes) (S depth)) _ buf in
    match r with
    | inl _ => prompts code depth buf lines'
    | inr v => ret (Some v)
    end
  end.

(** * The rules *)

Section rules.
Context `{Env} `{Syscalls} `{Linked} (abs : world -> kernel -> Prop) `{!OS abs}.

Lemma strcmp_rule w s a b la lb E :
  abs w s -> string_at w a la -> string_at w b lb ->
  wp (ece391_strcmp a b) (fun r t => (r = 0 <-> la = lb) /\ t = s) E s.
Proof.
  intros Hw Ha Hb. pose proof (sa_user _ _ _ Ha) as Ua. pose proof (sa_user _ _ _ Hb) as Ub.
  rewrite user_buffer_spec in Ua, Ub. unfold ece391_strcmp.
  apply wp_loop with (I := fun p t => t = s /\ exists i : nat, p = (a + Z.of_nat i, b + Z.of_nat i) /\
      (i <= length la)%nat /\ (i <= length lb)%nat /\ take i la = take i lb)
    (mu := fun p _ => Z.of_nat (length la) - (fst p - a)).
  - split; [done|]. exists 0%nat. rewrite !Z.add_0_r. split_and!; [done|lia|lia|done].
  - unfold loop_fuel. cbn. lia.
  - intros p t (-> & i & -> & Hia & Hib & Htake). cbn [fst snd]. split; [lia|].
    destruct (lookup_lt_is_Some_2 (la ++ [0]) i) as [x Hx]; [rewrite length_app; simpl; lia|].
    destruct (lookup_lt_is_Some_2 (lb ++ [0]) i) as [y Hy]; [rewrite length_app; simpl; lia|].
    wp_step. wp_use (uload_string abs w s a la i x Hw Ha Hx).
    wp_step. wp_use (uload_string abs w s b lb i y Hw Hb Hy).
    assert (Hend : forall (l : list Z) z, Forall (fun c => c <> 0) l -> (i <= length l)%nat ->
      (l ++ [0]) !! i = Some z -> (z = 0 <-> i = length l) /\ (z <> 0 -> l !! i = Some z)).
    { intros l z Hc Hi Hz. destruct (decide (i = length l)) as [->|Hne].
      - rewrite lookup_app_r, Nat.sub_diag in Hz by done. injection Hz as <-. by split.
      - rewrite lookup_app_l in Hz by lia. pose proof (Forall_lookup_1 _ _ _ _ Hc Hz). by split. }
    destruct (Hend la x (sa_chars _ _ _ Ha) Hia Hx) as [Ex Lx].
    destruct (Hend lb y (sa_chars _ _ _ Hb) Hib Hy) as [Ey Ly].
    destruct (Z.eqb_spec x y) as [->|Hxy].
    + destruct (Z.eqb_spec y 0) as [->|Hy0].
      * apply wp_ret. split; [|done]. split; [|done]. intros _.
        rewrite <- (take_ge la i), <- (take_ge lb i) by lia. done.
      * apply wp_ret. assert (i <> length la) by tauto. assert (i <> length lb) by tauto. split.
        -- split; [done|]. exists (S i). split; [f_equal; lia|]. split; [lia|]. split; [lia|].
           rewrite (take_S_r la i y), (take_S_r lb i y) by auto. by rewrite Htake.
        -- cbn. lia.
    + apply wp_ret. split; [|done]. split; [lia|]. intros ->. congruence.
Qed.

End rules.

(** * Reading a line *)

(** The terminal of the running program is on screen and nobody has typed yet. *)
Record keyboard_idle (s : kernel) : Prop := {
  ki_visible : curr_scheduler (ttys s) = current_terminal (ttys s);
  ki_ok : kbd_ok (kb s);
  ki_typed : typed (kb s) (current_terminal (ttys s)) [] }.

Section keyboard.
Context `{Env}.
Hypothesis linked : table_linked.
Variable own : Z -> Prop.

Lemma idle_editing base k w s : runs own base k w s -> keyboard_idle s -> editing s [] (w_screen w).
Proof.
  intros Hr [I1 I2 I3]. pose proof (rn_screen _ _ _ _ _ Hr) as Hs. constructor; try done.
  destruct Hs as [_ (_ & (_ & _ & Hc & _) & _)]. simpl. lia.
Qed.

Lemma editing_idle s v : editing s [] v -> keyboard_idle s.
Proof. intros []. by constructor. Qed.

Lemma idle_same s t : kb t = kb s -> ttys t = ttys s -> keyboard_idle s -> keyboard_idle t.
Proof. intros Ek Et [I1 I2 I3]. by constructor; rewrite ?Ek, ?Et. Qed.

Lemma idle_others k s t : others own k s t -> keyboard_idle s -> keyboard_idle t.
Proof.
  intros Ho [I1 I2 I3]. destruct (ot_cur _ _ _ _ Ho) as [E1 E2].
  constructor; rewrite ?E1, ?E2, ?(ot_kb _ _ _ _ Ho); done.
Qed.

(** A typed line: at most 127 characters, none of them the terminator or a newline. *)
Definition line_chars (w : list Z) : Prop :=
  (length w <= 127)%nat /\ Forall (fun c => 0 < c < 256 /\ c <> NEWLINE) w.

Lemma edit_chars m code w : editing_key m code = true -> line_chars w -> line_chars (edit m code w).
Proof.
  intros Hk [Hl Hc]. unfold edit.
  assert (Happ : forall l, Forall (fun c => 0 < c < 256 /\ c <> NEWLINE) l -> line_chars (take 127 (w ++ l))).
  { intros l Hf. split; [rewrite length_take; lia|]. by apply Forall_take, Forall_app. }
  destruct (code =? BACKSPACE_PRESSED).
  { split; [rewrite length_take; lia|by apply Forall_take]. }
  destruct (code =? TAB_PRESSED).
  { apply Happ. apply Forall_replicate. unfold SPACE, NEWLINE. lia. }
  destruct (key_mapped m code) as [c|] eqn:Hm; [|done]. destruct (Z.eqb_spec c 0); [done|].
  apply Happ. apply Forall_cons_2; [|by apply Forall_nil_2]. pose proof (key_mapped_range m code c Hm).
  unfold editing_key in Hk. rewrite Hm in Hk. apply andb_true_iff in Hk as [_ Hk].
  apply negb_true_iff in Hk. unbool. lia.
Qed.

Lemma edit_all_chars m codes w : editing_keys m codes = true -> line_chars w -> line_chars (edit_all m codes w).
Proof.
  revert m w. induction codes as [|c codes IH]; intros m w Hk Hw; [done|]. cbn [editing_keys edit_all] in *.
  cbv zeta in *. apply andb_true_iff in Hk as [Hk Hks]. apply IH; [done|]. by apply edit_chars.
Qed.

Lemma typed_line_chars m codes : editing_keys m codes = true -> line_chars (typed_line m codes).
Proof. intros Hk. apply edit_all_chars; [done|]. split; [simpl; lia|done]. Qed.

(** The relation says nothing of the keyboard but that programs leave it alone. *)
Lemma others_set_kb k s t m : others own k s t -> others own k (set_kb m s) (set_kb m t).
Proof.
  intros [A1 A2 A3 A4 A5 A6 A7 A8 A9 A10 A11 A12 A13 A14]. constructor; try done.
  intros j Hj Hne [S1 S2 S3]. destruct (A13 j Hj Hne) as [T1 T2 T3]; by constructor.
Qed.

Lemma directory_set_kb m s b ds dot : directory s b ds dot -> directory (set_kb m s) b ds dot.
Proof. intros []. by constructor. Qed.

Lemma runs_set_kb base k w s m : runs own base k w s -> runs own (set_kb m base) k w (set_kb m s).
Proof.
  intros [R1 R2 R3 R4 R5 R6 R7 R8 (ds & dot & Hfs) R10].
  assert (Hk : same_kmem s (set_kb m s)) by (split; [exact R1|done]).
  constructor; try done.
  - destruct R8 as (a & p & Hrun & Hpi). exists a, p. split; [exact Hrun|].
    by apply (process_is_frame linked s _ w).
  - exists ds, dot. apply (fs_is_frame linked s _ w w ds dot R1 Hk); [done|by left|done|done|exact Hfs].
  - by apply others_set_kb.
Qed.

(** A read of descriptor 0 while a line is typed. *)
Lemma keyboard_read base k w s buf n codes :
  runs own base k w s -> keyboard_idle s -> fd_of w 0 = Stdin ->
  user_buffer buf n = true -> 128 <= n < 2 ^ 31 -> editing_keys (kb s) codes = true ->
  let l := typed_line (kb s) codes in
  exists t, system_call_asm (typing codes) 3 (u32 0) buf (u32 n) s = Ret (Z.of_nat (length l) + 1) t /\
    runs own (set_kb (kb t) base) k (stored_bytes buf (l ++ [NEWLINE])
      (shown (put_char NEWLINE (echo_all (kb s) codes [] (w_screen w))) w)) t /\
    keyboard_idle t /\ same_mods (kb t) (mods_all (kb s) codes).
Proof.
  intros Hr Hidle H0 Hu Hn Hk l. pose proof Hu as Hu'. rewrite user_buffer_spec in Hu'.
  destruct (typed_line_chars _ _ Hk) as [Hlen Hchars]. fold l in Hlen, Hchars.
  destruct (runs_running _ _ _ _ _ Hr) as (T & p & HT & Ha & Hrun & Hpid & Hpi).
  destruct (fd_lookup s w p 0 Hpi) as (d & Hd & Hx); [lia|]. rewrite H0 in Hx. destruct Hx as [Hf Hptr].
  assert (Hpage : forall i, 0 <= i < 4000 -> outside (pgs s) buf n (page_of s + i) /\
      VIDEO <= page_of s + i < VIDEO + 0x4000).
  { intros i Hi. destruct (page_cell linked s i (rn_tables _ _ _ _ _ Hr) (proj1 (rn_screen _ _ _ _ _ Hr)) Hi)
      as [Hc Hb]. split; [|done]. eapply (user_outside own base k w); try done; [unfold VIDEO in Hb; lia|by right]. }
  pose proof (typed_line_spec s 0 buf n [] (w_screen w) codes (fun _ _ => False)
    (idle_editing base k w s Hr Hidle) ltac:(lia) ltac:(lia) (user_buffer_region own base k w s buf n Hr Hu)
    ltac:(intros i Hi j Hj He; destruct (Hpage j Hj) as [Ho _]; by apply (Ho i Hi)) Hk) as Hw.
  apply wp_Ret in Hw as (r & t & Hread & -> & u & -> & _ & Ho & He & Hm). fold (typed_line (kb s) codes) in *.
  fold l in Hread. rewrite Z.min_r in Hread by lia.
  assert (Hdel : delivered l n = l ++ [NEWLINE]).
  { unfold delivered. by rewrite (proj2 (Z.leb_gt n 0)), (proj2 (Z.ltb_lt _ n)) by lia. }
  rewrite Hdel in *. set (v := put_char NEWLINE (echo_all (kb s) codes [] (w_screen w))) in *.
  (* the state after the keys, then after the copy *)
  pose proof (runs_screen linked own _ k w _ u v (runs_set_kb base k w s (kb u) Hr) Ho (ed_shows _ _ _ He)) as Hru.
  assert (Hb : bytes (l ++ [NEWLINE])).
  { apply Forall_app. split; [|repeat constructor; unfold NEWLINE; lia].
    eapply Forall_impl; [exact Hchars|]. cbn. lia. }
  assert (Hfit : user_buffer buf (Z.of_nat (length (l ++ [NEWLINE]))) = true).
  { rewrite user_buffer_spec, length_app. simpl. lia. }
  pose proof (runs_put linked own _ k _ u buf (l ++ [NEWLINE]) Hru Hfit Hb) as Hrp.
  set (t := put_bytes buf (l ++ [NEWLINE]) u) in *.
  set (w1 := stored_bytes buf (l ++ [NEWLINE]) (shown v w)) in *.
  destruct (runs_running _ _ _ _ _ Hrp) as (T1 & p1 & HT1 & Ha1 & Hrun1 & _ & Hpi1).
  assert (Hfds : w_fds w1 = w_fds w) by (unfold w1; by rewrite (stored_bytes_same buf _ _)).
  destruct (fd_lookup t w1 p1 0 Hpi1) as (d1 & Hd1 & Hx1); [lia|].
  assert (Hfd1 : fd_of w1 0 = Stdin) by (unfold fd_of in *; by rewrite Hfds). rewrite Hfd1 in Hx1.
  destruct (modifies_put_bytes u buf (Z.of_nat (length (l ++ [NEWLINE]))) (l ++ [NEWLINE]) (Z.le_refl _)) as [Et _].
  fold t in Et. assert (Hkt : kb t = kb u) by by rewrite Et. assert (Htt : ttys t = ttys u) by by rewrite Et.
  clear Et. eexists. split; [|split; [|split]].
  - apply gate_call; [lia|]. cbn [jmp_table]. rewrite !s32_u32 by (unfold int32; lia).
    eapply read_open; try done; [by eapply pi_fds|lia|lia|by rewrite Hf| |lia].
    rewrite Hptr. exact Hread.
  - apply runs_iflag; [done|].
    pose proof (runs_with_fd linked own _ k w1 t _ p1 0 (set_file_position_ (file_position_ d1 +
      (Z.of_nat (length l) + 1)) d1) Stdin Hrp Hrun1 Hpi1 ltac:(lia) Hx1) as Hrf.
    rewrite <- Hfd1, set_fd_same in Hrf; [|rewrite Hfds]. 2:{ pose proof (fds_length _ _ _ Hpi). lia. }
    change (kb (set_iflag _ _)) with (kb t). rewrite Hkt. exact Hrf.
  - apply (idle_same u); [exact Hkt|exact Htt|by apply (editing_idle u v)].
  - change (kb (set_iflag _ _)) with (kb t). by rewrite Hkt.
Qed.

End keyboard.

(** * Asking for a line *)

Lemma screen_printed l w : w_screen (printed l w) = put_text l (w_screen w).
Proof. reflexivity. Qed.

Lemma shown_printed v l w : shown v (printed l w) = shown v w.
Proof. reflexivity. Qed.

(** A question on the screen and the line that is typed. *)
Lemma asks `{Env} `{Linked} {A} own (sys : Syscalls) base k w s p text buf codes (f : Z -> K A) Q E :
  table_linked -> @OS _ sys (runs own base k) ->
  (forall buf n, @ece391_read sys 0 buf n = system_call_asm (typing codes) 3 (u32 0) buf (u32 n)) ->
  runs own base k w s -> keyboard_idle s -> fd_of w 0 = Stdin -> fd_of w 1 = Stdout ->
  string_at w p text -> user_buffer buf 1024 = true -> editing_keys (kb s) codes = true ->
  let l := typed_line (kb s) codes in
  (forall t, runs own (set_kb (kb t) base) k (stored_bytes buf (l ++ [NEWLINE])
      (shown (put_char NEWLINE (echo_all (kb s) codes [] (put_text text (w_screen w)))) w)) t ->
     keyboard_idle t -> same_mods (kb t) (mods_all (kb s) codes) -> wp (f (Z.of_nat (length l) + 1)) Q E t) ->
  wp (@ece391_fdputs _ sys 1 p ;; let* cnt := @ece391_read sys 0 buf (BUFSIZE - 1) in f cnt) Q E s.
Proof.
  intros linked Hos Hread Hr Hidle Hfd0 Hfd1 Hp Hu Hk l HQ. rewrite user_buffer_spec in Hu. wp_step.
  eapply wp_mono; [apply (@fdputs_rule _ sys _ Hos w s _ text E Hr Hfd1 Hp)| |done]. intros [] s1 Hr1.
  pose proof (rn_others _ _ _ _ _ Hr) as O1. pose proof (rn_others _ _ _ _ _ Hr1) as O2.
  assert (Hks : kb s1 = kb s) by by rewrite (ot_kb _ _ _ _ O2), (ot_kb _ _ _ _ O1).
  assert (Hidle1 : keyboard_idle s1).
  { destruct (ot_cur _ _ _ _ O1) as [E1 E2], (ot_cur _ _ _ _ O2) as [E3 E4], Hidle as [I1 I2 I3].
    constructor; rewrite ?E3, ?E4, <- ?E1, <- ?E2, ?Hks; done. }
  destruct (keyboard_read linked own base k (printed text w) s1 buf 1023 codes Hr1 Hidle1 Hfd0
    ltac:(rewrite user_buffer_spec; lia) ltac:(lia) ltac:(by rewrite Hks)) as (t & Ht & Hrt & Hidt & Hmods).
  rewrite Hks in Ht, Hrt, Hmods. rewrite shown_printed, screen_printed in Hrt. fold l in Ht, Hrt.
  wp_step. rewrite Hread. wp_use Ht. by apply HQ.
Qed.

(** * The shell *)

(** What the shell needs of its own page: its buffer, its descriptors, and the
    strings it prints and compares with, which the buffer does not overlap. *)
Definition kept (buf : Z) (w : world) (a : Z) (l : list Z) : Prop :=
  string_at w a l /\ (a + Z.of_nat (length l) < buf \/ buf + 1024 <= a).

Record shell_world `{Linked} (buf : Z) (w : world) : Prop := {
  sw_buf : user_buffer buf 1024 = true;
  sw_fds : fd_of w 0 = Stdin /\ fd_of w 1 = Stdout;
  sw_prompt : kept buf w (lit "391OS> ") prompt;
  sw_exit : kept buf w (lit "exit") exit_word;
  sw_unknown : kept buf w (line "no such command") unknown_text }.

Lemma kept_frame buf w w' a l :
  (forall b, b < buf \/ buf + 1024 <= b -> w_mem w' b = w_mem w b) -> kept buf w a l -> kept buf w' a l.
Proof. intros Hm [Hs Hd]. split; [|done]. eapply string_at_frame; [|exact Hs]. intros i Hi. apply Hm. lia. Qed.

Lemma shell_world_frame `{Linked} buf w w' :
  (forall b, b < buf \/ buf + 1024 <= b -> w_mem w' b = w_mem w b) -> w_fds w' = w_fds w ->
  shell_world buf w -> shell_world buf w'.
Proof.
  intros Hm Hf [S1 [S2 S3] S4 S5 S6]. constructor; try (by eapply kept_frame); [done|].
  unfold fd_of in *. by rewrite Hf.
Qed.

(** The machine when the line is in the buffer. *)
Lemma after_line_fields buf m codes w :
  w_fds (after_line buf m codes w) = w_fds w /\ w_entries (after_line buf m codes w) = w_entries w /\
  w_next (after_line buf m codes w) = w_next w.
Proof.
  unfold after_line. cbn [stored_byte set_w_mem w_fds w_entries w_next].
  set (l := typed_line m codes ++ [NEWLINE]).
  destruct (stored_bytes_fields buf l (shown (put_char NEWLINE (echo_all m codes [] (put_text prompt (w_screen w)))) w))
    as (_ & -> & -> & -> & _). done.
Qed.

Lemma after_line_screen buf m codes w :
  w_screen (after_line buf m codes w) = put_char NEWLINE (echo_all m codes [] (put_text prompt (w_screen w))).
Proof.
  unfold after_line. cbn [stored_byte set_w_mem w_screen].
  set (l := typed_line m codes ++ [NEWLINE]). set (v := put_char _ _).
  by destruct (stored_bytes_fields buf l (shown v w)) as (_ & _ & _ & _ & ->).
Qed.

Lemma after_line_mem buf m codes w b :
  (length (typed_line m codes) <= 127)%nat -> b < buf \/ buf + 1024 <= b ->
  w_mem (after_line buf m codes w) b = w_mem w b.
Proof.
  intros Hl Hb. unfold after_line. cbn [stored_byte set_w_mem w_mem]. unfold upd.
  rewrite (proj2 (Z.eqb_neq _ _)) by lia. rewrite stored_out; [done|]. rewrite length_app. simpl. lia.
Qed.

Lemma after_line_string buf m codes w :
  user_buffer buf 1024 = true -> line_chars (typed_line m codes) ->
  string_at (after_line buf m codes w) buf (typed_line m codes).
Proof.
  intros Hu [Hl Hc]. rewrite user_buffer_spec in Hu. set (l := typed_line m codes) in *. constructor.
  - rewrite user_buffer_spec. lia.
  - intros i b Hi. unfold after_line. fold l. cbn [stored_byte set_w_mem w_mem]. unfold upd.
    pose proof (lookup_lt_Some _ _ _ Hi) as Hlt. rewrite length_app in Hlt. simpl in Hlt.
    destruct (decide (i = length l)) as [->|Hne].
    + rewrite Z.eqb_refl. rewrite lookup_app_r, Nat.sub_diag in Hi by done. by injection Hi.
    + rewrite (proj2 (Z.eqb_neq _ _)) by lia. apply stored_in.
      rewrite lookup_app_l in Hi |- * by lia. done.
  - eapply Forall_impl; [exact Hc|]. cbn. lia.
Qed.

(** The newline kept, as [hello] does. *)
Lemma line_string buf l w :
  user_buffer buf 1024 = true -> line_chars l ->
  string_at (stored_byte (buf + (Z.of_nat (length l) + 1)) 0 (stored_bytes buf (l ++ [NEWLINE]) w)) buf (l ++ [NEWLINE]).
Proof.
  intros Hu [Hl Hc]. rewrite user_buffer_spec in Hu. constructor.
  - rewrite user_buffer_spec, length_app. simpl. lia.
  - intros i b Hi. cbn [stored_byte set_w_mem w_mem]. unfold upd.
    pose proof (lookup_lt_Some _ _ _ Hi) as Hlt. rewrite !length_app in Hlt. simpl in Hlt.
    destruct (decide (i = S (length l))) as [->|Hne].
    + rewrite (proj2 (Z.eqb_eq _ _)) by lia.
      rewrite lookup_app_r in Hi by (rewrite length_app; simpl; lia). rewrite length_app in Hi. simpl in Hi.
      replace (S (length l) - (length l + 1))%nat with 0%nat in Hi by lia. by injection Hi.
    + rewrite (proj2 (Z.eqb_neq _ _)) by lia. apply stored_in.
      rewrite lookup_app_l in Hi by (rewrite length_app; simpl; lia). done.
  - apply Forall_app. split; [eapply Forall_impl; [exact Hc|]; cbn; lia|]. by repeat constructor.
Qed.

Section shell.
Context `{Env} `{Linked}.
Hypothesis linked : table_linked.
Variable own : Z -> Prop.
Variable code : Syscalls -> Z -> K Z.
Variables k k' : Z.
Hypothesis own_child : own k'.
Variable entries : list (list Z * content).
Variable known : list Z -> Prop.
Variable effect : list Z -> world -> option (screen * nat).

(** The programs of the file system do what [effect] says, and it says nothing
    of a name that is not there. *)
Record contracts : Prop := {
  ct_runs : forall irqs depth l w v n, w_entries w = entries -> effect l w = Some (v, n) ->
    exists nm size data, command_fits l /\ find_entry (command_name l) w = Some (nm, Regular size data) /\
      executable size data /\
      forall m, (forall i, 0 <= i < size -> m (PROGRAM_IMG + i) = byte_of data (Z.to_nat i)) ->
        verified (code (system code irqs depth) (entry_of data)) k' (child_world w (command_arg l) m)
          (fun w' => w_screen w' = v /\ w_next w' = n);
  ct_unknown : forall l w, w_entries w = entries -> command_fits l -> known l -> effect l w = None ->
    find_entry (command_name l) w = None }.
Hypothesis programs : contracts.

Record at_prompt (buf : Z) (base : kernel) (w : world) (s : kernel) : Prop := {
  ap_runs : runs own base k w s;
  ap_ready : ready k k' base;
  ap_idle : keyboard_idle base;
  ap_world : shell_world buf w;
  ap_entries : w_entries w = entries }.

Lemma at_ready buf base w s : at_prompt buf base w s -> ready k k' s /\ keyboard_idle s.
Proof.
  intros [A1 A2 A3 _ _]. pose proof (rn_others _ _ _ _ _ A1) as Ho.
  split; [by eapply ready_others|by eapply idle_others].
Qed.

(** Prompt, read, terminator. *)
Lemma shell_reads (sys : Syscalls) buf base w s codes (Q : unit + Z -> kernel -> Prop) E :
  (forall base', @OS _ sys (runs own base' k)) ->
  (forall buf n, @ece391_read sys 0 buf n = system_call_asm (typing codes) 3 (u32 0) buf (u32 n)) ->
  at_prompt buf base w s -> editing_keys (kb s) codes = true ->
  (forall base' t, at_prompt buf base' (after_line buf (kb s) codes w) t ->
     same_mods (kb t) (mods_all (kb s) codes) -> wp (@shell_line _ sys _ buf) Q E t) ->
  wp (@shell_command _ sys _ buf) Q E s.
Proof.
  intros Hsys Hread Hat Hk HQ. pose proof Hat as [Hr Hready Hidle Hw He]. destruct Hw as [Hu [Hfd0 Hfd1] Hp Hx Hn].
  pose proof Hu as Hu'. rewrite user_buffer_spec in Hu'.
  set (l := typed_line (kb s) codes). destruct (typed_line_chars _ _ Hk) as [Hlen Hchars]. fold l in Hlen, Hchars.
  unfold shell_command. apply (asks own sys base k w s _ prompt buf codes); try done.
  { by eapply idle_others; [apply Hr|]. }
  { exact (proj1 Hp). }
  fold l. intros t Hrt Hidt Hmods. rewrite (proj2 (Z.eqb_neq (-1) _)) by lia.
  wp_step. rewrite (proj2 (Z.ltb_lt 0 _)) by lia.
  set (v := put_char NEWLINE (echo_all (kb s) codes [] (put_text prompt (w_screen w)))) in *.
  set (w1 := stored_bytes buf (l ++ [NEWLINE]) (shown v w)) in *.
  pose proof (Hsys (set_kb (kb t) base)) as Hos'.
  assert (Hlast : uload8 (buf + (Z.of_nat (length l) + 1 - 1)) t = Ret NEWLINE t).
  { replace (Z.of_nat (length l) + 1 - 1) with (Z.of_nat (length l)) by lia.
    rewrite (@os_loads _ sys _ Hos' w1 t) by (done || (rewrite user_spec; lia)). f_equal.
    unfold w1. apply stored_in. by rewrite lookup_app_r, Nat.sub_diag by done. }
  wp_step. wp_use Hlast. change (10 =? NEWLINE) with true. apply wp_ret.
  replace (Z.of_nat (length l) + 1 - 1) with (Z.of_nat (length l)) by lia. wp_step.
  apply (@store_rule _ sys _ Hos' w1 t); [exact Hrt|rewrite user_spec; lia|]. intros u Hru.
  change (u8 0) with 0 in Hru. change (stored_byte (buf + Z.of_nat (length l)) 0 w1)
    with (after_line buf (kb s) codes w) in Hru.
  pose proof (ot_kb _ _ _ _ (rn_others _ _ _ _ _ Hru)) as Hku. cbn in Hku.
  apply (HQ (set_kb (kb t) base) u); [|by rewrite Hku].
  destruct (after_line_fields buf (kb s) codes w) as (F1 & F2 & F3).
  constructor; [exact Hru| | | |by rewrite F2].
  - destruct Hready as [P1 [S1 S2 S3] P3 P4 P5 P6]. by constructor.
  - pose proof (rn_others _ _ _ _ _ Hrt) as Ho. destruct (ot_cur _ _ _ _ Ho) as [E1 E2].
    destruct Hidt as [I1 I2 I3]. rewrite E1, E2 in I1. rewrite E1 in I3. by constructor.
  - eapply shell_world_frame; [|exact F1|constructor; [exact Hu|exact (conj Hfd0 Hfd1)|exact Hp|exact Hx|exact Hn]].
    intros b Hb. by apply after_line_mem.
Qed.

(** The same prompt after a step that leaves the shell's page and descriptors. *)
Lemma at_prompt_step buf base w s w' t :
  at_prompt buf base w s -> runs own base k w' t -> w_mem w' = w_mem w -> w_fds w' = w_fds w ->
  w_entries w' = w_entries w -> at_prompt buf base w' t.
Proof.
  intros [A1 A2 A3 A4 A5] Hr Hm Hf He. constructor; [done|done|done| |by rewrite He].
  eapply shell_world_frame; [|exact Hf|exact A4]. intros b _. by rewrite Hm.
Qed.

(** The calls of [execute] the shell makes. *)
Record executes (sys : Syscalls) : Prop := {
  ex_runs : forall buf base w s l v n, at_prompt buf base w s -> string_at w buf l -> effect l w = Some (v, n) ->
    exists t, @ece391_execute sys buf s = Ret 0 t /\ runs own base k (shown v (set_w_next n w)) t;
  ex_unknown : forall buf base w s l, at_prompt buf base w s -> string_at w buf l -> command_fits l -> known l ->
    effect l w = None -> exists t, @ece391_execute sys buf s = Ret (-1) t /\ runs own base k w t }.

Lemma system_executes irqs depth : executes (system code irqs (S depth)).
Proof.
  constructor.
  - intros buf base w s l v n Hat Hs Hef. pose proof Hat as [Hr _ _ _ He].
    destruct (ct_runs programs irqs depth l w v n He Hef) as (nm & size & data & Hfit & Hfind & Hex & Hv).
    destruct (spawn_rule linked code irqs depth own base k k' w s buf l nm size data _ Hr
      (proj1 (at_ready buf base w s Hat)) own_child Hs Hfit Hfind Hex Hv) as (w' & t & Ht & [E1 E2] & Hrt).
    exists t. split; [exact Ht|]. by rewrite E1, E2 in Hrt.
  - intros buf base w s l Hat Hs Hfit Hknown Hef. pose proof Hat as [Hr _ _ _ He].
    apply (unknown_rule linked code irqs depth own base k k' w s buf l); try done.
    + apply (at_ready buf base w s Hat).
    + by apply (ct_unknown programs).
Qed.

(** What the shell makes of a line. *)
Lemma shell_obeys (sys : Syscalls) buf base w s l E :
  (forall base', @OS _ sys (runs own base' k)) -> executes sys ->
  at_prompt buf base w s -> string_at w buf l -> plain_line known l ->
  wp (@shell_line _ sys _ buf) (fun r t =>
    r = match fst (shell_does effect l w) with Some v => inr v | None => inl tt end /\
    at_prompt buf base (snd (shell_does effect l w)) t) E s.
Proof.
  intros Hsys Hex Hat Hs Hl. pose proof Hat as [Hr _ _ Hw _]. pose proof (Hsys base) as Hos.
  destruct Hw as [Hu [_ Hfd1] _ [Hxs _] [Hns _]]. rewrite user_buffer_spec in Hu.
  unfold shell_line. wp_step.
  eapply wp_mono; [apply (@strcmp_rule _ sys _ Hos w s buf _ l exit_word E Hr Hs Hxs)| |done].
  intros r t [Hiff ->]. unfold shell_does. case_bool_decide as Hexit.
  { rewrite (proj2 Hiff Hexit). by apply wp_ret. }
  rewrite (proj2 (Z.eqb_neq 0 r)) by (intros He; apply Hexit, Hiff; by rewrite He).
  assert (Hhead : uload8 buf s = Ret (nth 0 (l ++ [0]) 0) s).
  { rewrite (@os_loads _ sys _ Hos w s) by (done || (rewrite user_spec; lia)). f_equal.
    rewrite <- (Z.add_0_r buf). rewrite (string_at_nth w buf l 0 Hs) by lia. done. }
  wp_step. wp_use Hhead. destruct l as [|c l]; [by apply wp_ret|].
  cbn [app nth]. pose proof (sa_chars _ _ _ Hs) as Hc. apply Forall_cons in Hc as [Hc _].
  rewrite (proj2 (Z.eqb_neq 0 c)) by congruence. wp_step.
  destruct Hl as [Hl|[Hl|[Hfit Hknown]]]; [done|done|].
  destruct (effect (c :: l) w) as [[v n]|] eqn:Hef.
  - destruct (ex_runs _ Hex buf base w s (c :: l) v n Hat Hs Hef) as (t & Ht & Hrt). wp_use Ht.
    wp_step. apply wp_ret. apply wp_ret. split; [done|]. by apply (at_prompt_step buf base w s).
  - destruct (ex_unknown _ Hex buf base w s (c :: l) Hat Hs Hfit Hknown Hef) as (t & Ht & Hrt). wp_use Ht. wp_step.
    eapply wp_mono; [apply (@fdputs_rule _ sys _ Hos w t _ unknown_text E Hrt Hfd1 Hns)| |done].
    intros [] u Hu'. apply wp_ret. split; [done|]. by apply (at_prompt_step buf base w s).
Qed.

Lemma system_read irqs depth buf n :
  @ece391_read (system code irqs depth) 0 buf n = system_call_asm irqs 3 (u32 0) buf (u32 n).
Proof. by destruct depth. Qed.

(** One turn of the loop. *)
Lemma prompt_turn depth buf base w s codes E :
  at_prompt buf base w s -> editing_keys (kb s) codes = true -> plain_line known (typed_line (kb s) codes) ->
  let o := shell_does effect (typed_line (kb s) codes) (after_line buf (kb s) codes w) in
  wp (@shell_command _ (system code (typing codes) (S depth)) _ buf) (fun r t =>
    r = match fst o with Some v => inr v | None => inl tt end /\
    same_mods (kb t) (mods_all (kb s) codes) /\ exists base', at_prompt buf base' (snd o) t) E s.
Proof.
  intros Hat Hk Hl o. set (sys := system code (typing codes) (S depth)).
  assert (Hsys : forall base', @OS _ sys (runs own base' k)) by (intros base'; by apply system_os).
  apply (shell_reads sys buf base w s codes); [done|by intros; apply system_read|done|done|].
  intros base' t Hat' Hm.
  assert (Hstr : string_at (after_line buf (kb s) codes w) buf (typed_line (kb s) codes)).
  { apply after_line_string; [|by apply typed_line_chars]. apply (sw_buf _ _ (ap_world _ _ _ _ Hat)). }
  eapply wp_mono; [apply (shell_obeys sys buf base' _ t _ E Hsys (system_executes _ depth) Hat' Hstr Hl)| |done].
  intros r u [-> Hu]. split; [done|]. split; [|by exists base'].
  rewrite (ot_kb _ _ _ _ (rn_others _ _ _ _ _ (ap_runs _ _ _ _ Hu))).
  by rewrite <- (ot_kb _ _ _ _ (rn_others _ _ _ _ _ (ap_runs _ _ _ _ Hat'))).
Qed.

(** A session from a prompt on. *)
Lemma session_runs depth buf m lines base w s E :
  at_prompt buf base w s -> same_mods (kb s) m -> lines_ok known m lines ->
  wp (prompts code depth buf lines) (fun r t => r = fst (session effect buf m lines w) /\
    exists base', at_prompt buf base' (snd (session effect buf m lines w)) t) E s.
Proof.
  revert m base w s. induction lines as [|codes lines IH]; intros m base w s Hat Hm Hok; cbn [prompts session].
  { apply wp_ret. split; [done|]. by exists base. }
  destruct Hok as (Hk & Hl & Hrest).
  destruct (same_mods_all codes (kb s) m [] (put_text prompt (w_screen w)) Hm) as (Ee & Ek & Es & Em).
  assert (Hline : typed_line (kb s) codes = typed_line m codes) by exact Ee.
  assert (Hafter : after_line buf (kb s) codes w = after_line buf m codes w).
  { unfold after_line. by rewrite Hline, Es. }
  wp_step. eapply wp_mono; [apply (prompt_turn depth buf base w s codes E Hat); [by rewrite Ek|by rewrite Hline]| |done].
  rewrite Hline, Hafter. intros r t (-> & Hmt & base' & Hat').
  destruct (shell_does effect (typed_line m codes) (after_line buf m codes w)) as [[v|] w']; cbn [fst snd] in *.
  - apply wp_ret. split; [done|]. by exists base'.
  - apply (IH (mods_all m codes) base' w' t); [done|by eapply same_mods_trans|done].
Qed.

(** ** Properties *)

(** C2: a session with the shell.  Whatever lines are typed at its prompts - keys
    that edit, tabs, rubbed-out characters, shift and caps lock included - the
    shell prints its prompt and the echo of each line, does nothing for a blank
    one, runs a program and comes back to the prompt with what the program has
    printed on the screen, prints [no such command] for a name the file system
    does not have, and returns 0 at [exit]; after the last line the screen, the
    shell's memory and the keyboard's shift state are exactly those of the
    specification [session], and the shell is at its prompt again. *)
Theorem shell_session depth buf base w s lines :
  at_prompt buf base w s -> lines_ok known (kb s) lines ->
  let o := session effect buf (kb s) lines w in
  exists t, prompts code depth buf lines s = Ret (fst o) t /\
    running_shows t (w_screen (snd o)) /\ exists base', at_prompt buf base' (snd o) t.
Proof.
  intros Hat Hok o.
  assert (Hm : same_mods (kb s) (kb s)) by by repeat split.
  pose proof (session_runs depth buf (kb s) lines base w s (fun _ _ => False) Hat Hm Hok) as Hw.
  apply wp_Ret in Hw as (r & t & Hrun & -> & base' & Hat'). exists t. split; [exact Hrun|].
  split; [|by exists base']. exact (rn_screen _ _ _ _ _ (ap_runs _ _ _ _ Hat')).
Qed.

(** The shell ends.  [main] of the shell, when [exit] is typed at its first
    prompt, returns 0 with the greeting, the prompt and the echo on the screen. *)
Theorem shell_main_exits depth buf base w s codes :
  at_prompt buf base w s -> kept buf w (line "Starting 391 Shell") banner ->
  editing_keys (kb s) codes = true -> typed_line (kb s) codes = exit_word ->
  exists t, @shell_main _ (system code (typing codes) (S depth)) _ buf s = Ret 0 t /\
    running_shows t (put_char NEWLINE (echo_all (kb s) codes []
      (put_text prompt (put_text banner (w_screen w))))).
Proof.
  intros Hat [Hb _] Hk Hl. set (sys := system code (typing codes) (S depth)).
  pose proof Hat as [Hr _ _ Hw _]. pose proof (system_os linked code (typing codes) (S depth) own base k) as Hos.
  assert (Hwp : wp (@shell_main _ sys _ buf) (fun r t => r = 0 /\
    running_shows t (put_char NEWLINE (echo_all (kb s) codes []
      (put_text prompt (put_text banner (w_screen w)))))) (fun _ _ => False) s).
  { unfold shell_main. wp_step.
    eapply wp_mono; [apply (@fdputs_rule _ sys _ Hos w s _ banner (fun _ _ => False) Hr (proj2 (sw_fds _ _ Hw)) Hb)| |done].
    intros [] s1 Hr1. pose proof (at_prompt_step buf base w s (printed banner w) s1 Hat Hr1 eq_refl eq_refl eq_refl) as Hat1.
    assert (Hks : kb s1 = kb s).
    { by rewrite (ot_kb _ _ _ _ (rn_others _ _ _ _ _ Hr1)), (ot_kb _ _ _ _ (rn_others _ _ _ _ _ Hr)). }
    apply wp_loop with (I := fun _ t => t = s1) (mu := fun _ _ => 0); [done|unfold loop_fuel; lia|].
    intros _ t ->. split; [lia|].
    eapply wp_mono; [apply (prompt_turn depth buf base (printed banner w) s1 codes (fun _ _ => False) Hat1)| |done].
    - by rewrite Hks.
    - rewrite Hks, Hl. right. by left.
    - rewrite Hks, Hl. unfold shell_does. rewrite bool_decide_eq_true_2 by done. cbn [fst snd].
      intros r t (-> & _ & base' & Hat'). split; [done|].
      pose proof (rn_screen _ _ _ _ _ (ap_runs _ _ _ _ Hat')) as Hsh. rewrite after_line_screen, screen_printed in Hsh. exact Hsh. }
  apply wp_Ret in Hwp as (r & t & Hrun & -> & Hsh). by exists t.
Qed.

End shell.

(** ** hello *)

Definition question : list Z := bytes_of "Hi, what's your name? ".
Definition greeting : list Z := bytes_of "Hello, ".

(** C15: [hello] on this kernel.  It asks, waits while a name is typed, and greets
    with exactly the name as it was typed and edited, newline included. *)
Theorem hello_greets `{Env} `{Linked} own base k w s buf codes :
  table_linked -> runs own base k w s -> keyboard_idle s -> user_buffer buf 1024 = true ->
  fd_of w 0 = Stdin -> fd_of w 1 = Stdout ->
  kept buf w (lit "Hi, what's your name? ") question -> kept buf w (lit "Hello, ") greeting ->
  editing_keys (kb s) codes = true ->
  exists t, @hello_main _ (kernel_syscalls (typing codes)) _ buf s = Ret 0 t /\
    running_shows t (put_text (typed_line (kb s) codes ++ [NEWLINE]) (put_text greeting
      (put_char NEWLINE (echo_all (kb s) codes [] (put_text question (w_screen w)))))).
Proof.
  intros linked Hr Hidle Hu Hfd0 Hfd1 [Hq _] Hg Hk. pose proof Hu as Hu'. rewrite user_buffer_spec in Hu'.
  set (l := typed_line (kb s) codes). destruct (typed_line_chars _ _ Hk) as [Hlen Hchars]. fold l in Hlen, Hchars.
  set (sys := kernel_syscalls (typing codes)).
  set (v := put_char NEWLINE (echo_all (kb s) codes [] (put_text question (w_screen w)))).
  assert (Hwp : wp (@hello_main _ sys _ buf) (fun r t => r = 0 /\
    running_shows t (put_text (l ++ [NEWLINE]) (put_text greeting v))) (fun _ _ => False) s).
  { unfold hello_main. apply (asks own sys base k w s _ question buf codes); try done.
    { apply kernel_os, linked. }
    fold l. fold v. intros t Hrt _ _. rewrite (proj2 (Z.eqb_neq (-1) _)) by lia. wp_step.
    pose proof (kernel_os linked own (set_kb (kb t) base) (typing codes) k) as Hos'.
    set (w1 := stored_bytes buf (l ++ [NEWLINE]) (shown v w)) in *.
    apply (@store_rule _ sys _ Hos' w1 t); [exact Hrt|rewrite user_spec; lia|]. change (u8 0) with 0.
    intros t2 Hr2. set (w2 := stored_byte (buf + (Z.of_nat (length l) + 1)) 0 w1) in *.
    assert (Hfields : w_fds w2 = w_fds w /\ w_screen w2 = v).
    { unfold w2, w1. cbn [w_fds w_screen stored_byte set_w_mem].
      destruct (stored_bytes_fields buf (l ++ [NEWLINE]) (shown v w)) as (_ & _ & _ & -> & ->). done. }
    destruct Hfields as [Ff Fs]. assert (Hout : to_screen w2) by (unfold to_screen, fd_of in *; by rewrite Ff).
    assert (Hmem : forall b, b < buf \/ buf + 1024 <= b -> w_mem w2 b = w_mem w b).
    { intros b Hb. unfold w2, w1. cbn [w_mem stored_byte set_w_mem]. unfold upd.
      rewrite (proj2 (Z.eqb_neq _ _)) by lia. rewrite stored_out; [done|]. rewrite length_app. simpl. lia. }
    assert (Hname : string_at w2 buf (l ++ [NEWLINE])) by by apply line_string.
    wp_step. eapply wp_mono; [apply (@fdputs_rule _ sys _ Hos' w2 t2 _ greeting (fun _ _ => False) Hr2 Hout
      (proj1 (kept_frame _ _ _ _ _ Hmem Hg)))| |done].
    intros [] t3 Hr3. wp_step.
    eapply wp_mono; [apply (@fdputs_rule _ sys _ Hos' (printed greeting w2) t3 buf (l ++ [NEWLINE]) (fun _ _ => False) Hr3 Hout)| |done].
    { eapply string_at_frame; [|exact Hname]. done. }
    intros [] t4 Hr4. apply wp_ret. split; [done|].
    pose proof (rn_screen _ _ _ _ _ Hr4) as Hsh. rewrite !screen_printed, Fs in Hsh. exact Hsh. }
  apply wp_Ret in Hwp as (r & t & Hrun & -> & Hsh). by exists t.
Qed.

(** * A closed example

    The keyboard of [initial_kernel]; the lines [shell shell], [foo], an empty
    one and [exit].  The file system's one program is [cat]. *)
Section demo.
Let H := quiet_env.
Local Existing Instance H.
Let L := demo_linked.
Local Existing Instance L.

Definition demo_text_of_file : list Z := take (Z.to_nat (whole_chunks 29)) (demo_exec_bytes 0x502000 4096).
Definition demo_effect (l : list Z) (w : world) : option (screen * nat) :=
  if bool_decide (l = bytes_of "shell shell")
  then Some (put_text demo_text_of_file (w_screen w), w_next w) else None.
Definition demo_known (l : list Z) : Prop :=
  l = bytes_of "shell shell" \/ command_name l <> bytes_of "shell".
Definition demo_entries : list (list Z * content) :=
  [(bytes_of "shell", Regular 29 (demo_exec_bytes 0x502000 4096))].
Definition demo_lines : list (list Z) :=
  [[0x1F; 0x23; 0x12; 0x26; 0x26; 0x39; 0x1F; 0x23; 0x12; 0x26; 0x26]; [0x21; 0x18; 0x18]; [];
   [0x12; 0x2D; 0x17; 0x14]].

Lemma Some_pair_inj {A B} (a a' : A) (b b' : B) : Some (a, b) = Some (a', b') -> a = a' /\ b = b'.
Proof. by intros [= -> ->]. Qed.

Lemma demo_contracts : contracts demo_code 1 demo_entries demo_known demo_effect.
Proof.
  constructor.
  - intros irqs depth l w v n He. unfold demo_effect. case_bool_decide as Hl; [|done]. intros Hvn.
    apply Some_pair_inj in Hvn as [<- <-]. subst l. exists (bytes_of "shell"), 29, (demo_exec_bytes 0x502000 4096). split; [apply demo_fits|].
    assert (Hf : find_entry (bytes_of "shell") w = Some (bytes_of "shell", Regular 29 (demo_exec_bytes 0x502000 4096))).
    { unfold find_entry. by rewrite He. }
    split; [exact Hf|]. split; [apply demo_executable|]. intros m _.
    unfold demo_text_of_file. change (command_arg (bytes_of "shell shell")) with (bytes_of "shell").
    apply (@cat_verified quiet_env demo_table_linked demo_code demo_linked irqs depth 1 w (bytes_of "shell") m 0x8060000 (bytes_of "shell"));
      [reflexivity| |simpl; lia|discriminate|exact Hf]. by repeat constructor.
  - intros l w He _ Hk. unfold demo_effect. case_bool_decide as Hl; [done|]. intros _.
    destruct Hk as [?|Hk]; [done|]. unfold find_entry. rewrite He. unfold demo_entries. cbn [List.find fst].
    by rewrite bool_decide_eq_false_2 by congruence.
Qed.

Lemma demo_kb : kb demo_user = kb initial_kernel.
Proof. unfold demo_user. rewrite kb_set_mem. reflexivity. Qed.

Lemma demo_idle_keyboard : keyboard_idle demo_user.
Proof.
  constructor; [reflexivity|rewrite demo_kb; apply initial_kbd_ok|].
  rewrite demo_kb. split; [reflexivity|]. split; [|by constructor]. by eexists _, _.
Qed.

Ltac demo_kept j :=
  split; [apply (demo_placed _ j);
    [reflexivity|lia|simpl; lia|vm_compute; reflexivity|vm_compute; reflexivity]|left; vm_compute; reflexivity].

Lemma demo_shell_world g : shell_world 0x8060000 (demo_world g).
Proof. constructor; [reflexivity|by split|demo_kept 14%nat|demo_kept 15%nat|demo_kept 16%nat]. Qed.

Lemma demo_banner g : kept 0x8060000 (demo_world g) (line "Starting 391 Shell") banner.
Proof. demo_kept 18%nat. Qed.

Lemma demo_question g : kept 0x8060000 (demo_world g) (lit "Hi, what's your name? ") question.
Proof. demo_kept 19%nat. Qed.

Lemma demo_greeting g : kept 0x8060000 (demo_world g) (lit "Hello, ") greeting.
Proof. demo_kept 20%nat. Qed.

Lemma demo_at_prompt : exists g,
  at_prompt (fun j => j = 0 \/ j = 1) 0 1 demo_entries 0x8060000 demo_user (demo_world g) demo_user.
Proof.
  destruct (demo_runs (fun j => j = 0 \/ j = 1) (or_introl eq_refl)) as [g Hr]. exists g.
  constructor; [exact Hr|apply demo_ready|apply demo_idle_keyboard|apply demo_shell_world|reflexivity].
Qed.

Lemma demo_lines_ok : lines_ok demo_known (kb demo_user) demo_lines.
Proof.
  rewrite demo_kb. split; [reflexivity|]. split.
  { right. right. split; [|by left]. exact demo_fits. }
  split; [reflexivity|]. split.
  { right. right. split; [|right; discriminate]. split; [vm_compute; lia|]. split; [discriminate|].
    apply Z.leb_le. reflexivity. }
  split; [reflexivity|]. split; [by left|].
  split; [reflexivity|]. split; [right; by left|done].
Qed.

Lemma demo_session g :
  fst (session demo_effect 0x8060000 (kb demo_user) demo_lines (demo_world g)) = Some 0.
Proof. rewrite demo_kb. lazy. reflexivity. Qed.
End demo.

Lemma shell_session_witness :
  let H := quiet_env in
  exists t, @prompts _ demo_linked demo_code 0 0x8060000 demo_lines demo_user = Ret (Some 0) t.
Proof.
  intros H. destruct demo_at_prompt as [g Hat].
  destruct (@shell_session quiet_env demo_linked demo_table_linked (fun j => j = 0 \/ j = 1) demo_code 0 1
    demo_own demo_entries demo_known demo_effect demo_contracts 0 0x8060000 demo_user (demo_world g) demo_user
    demo_lines) as (t & Hrun & _).
  - exact Hat.
  - exact demo_lines_ok.
  - exists t. rewrite demo_session in Hrun. exact Hrun.
Defined.

Lemma shell_main_exits_witness :
  let H := quiet_env in
  exists t, @shell_main _ (system demo_code (typing [0x12; 0x2D; 0x17; 0x14]) 1) demo_linked 0x8060000 demo_user =
    Ret 0 t.
Proof.
  intros H. destruct demo_at_prompt as [g Hat].
  destruct (@shell_main_exits quiet_env demo_linked demo_table_linked (fun j => j = 0 \/ j = 1) demo_code 0 1
    demo_own demo_entries demo_known demo_effect demo_contracts 0 0x8060000 demo_user (demo_world g) demo_user
    [0x12; 0x2D; 0x17; 0x14]) as (t & Hrun & _).
  - exact Hat.
  - apply demo_banner.
  - rewrite demo_kb. reflexivity.
  - rewrite demo_kb. reflexivity.
  - exists t. exact Hrun.
Defined.

Lemma hello_greets_witness :
  let H := quiet_env in
  exists g t, @hello_main _ (kernel_syscalls (typing [0x30; 0x18; 0x30])) demo_linked 0x8060000 demo_user = Ret 0 t /\
    running_shows t (put_text (bytes_of "bob" ++ [10]) (put_text greeting
      (put_char NEWLINE (echo_all (kb demo_user) [0x30; 0x18; 0x30] [] (put_text question (Screen g 0 0)))))).
Proof.
  intros H. destruct (demo_runs (eq 0) eq_refl) as [g Hr]. exists g.
  apply (@hello_greets quiet_env demo_linked (eq 0) demo_user 0 (demo_world g) demo_user 0x8060000 [0x30; 0x18; 0x30]).
  - apply demo_table_linked.
  - exact Hr.
  - apply demo_idle_keyboard.
  - reflexivity.
  - reflexivity.
  - reflexivity.
  - apply demo_question.
  - apply demo_greeting.
  - rewrite demo_kb. reflexivity.
Defined.
