(* ===== verification/UserMem.v ===== *)
(** The memory of a user program as a function from addresses to bytes, and a
    program logic for code that works on it: what a load gives, what a store
    leaves, and that nothing but that memory changes. *)
From stdpp Require Import base numbers list gmap strings.
From Stdlib Require Import ZArith Lia.
From S2P Require Import Prelude Machine Strings Paging Support Os Runs.

(** * Words in memory *)

Definition w16 (m : Z -> Z) (a : Z) : Z := m a + m (a + 1) * 2 ^ 8.
Definition w32 (m : Z -> Z) (a : Z) : Z :=
  m a + m (a + 1) * 2 ^ 8 + m (a + 2) * 2 ^ 16 + m (a + 3) * 2 ^ 24.

Definition upd16 (a v : Z) (m : Z -> Z) : Z -> Z := upd (a + 1) (u8 (Z.shiftr v 8)) (upd a (u8 v) m).
Definition upd32 (a v : Z) (m : Z -> Z) : Z -> Z :=
  upd (a + 3) (u8 (Z.shiftr v 24)) (upd (a + 2) (u8 (Z.shiftr v 16)) (upd16 a v m)).

Lemma upd_eq a v m : upd a v m a = v.
Proof. unfold upd. by rewrite Z.eqb_refl. Qed.

Lemma upd_ne a b v m : b <> a -> upd a v m b = m b.
Proof. unfold upd. intros Hb. by rewrite (proj2 (Z.eqb_neq b a)). Qed.

Lemma upd16_out a v m b : b < a \/ a + 2 <= b -> upd16 a v m b = m b.
Proof. intros Hb. unfold upd16. by rewrite !upd_ne by lia. Qed.

Lemma upd32_out a v m b : b < a \/ a + 4 <= b -> upd32 a v m b = m b.
Proof. intros Hb. unfold upd32. by rewrite !upd_ne, upd16_out by lia. Qed.

Lemma w16_ext m m' a : m' a = m a -> m' (a + 1) = m (a + 1) -> w16 m' a = w16 m a.
Proof. unfold w16. by intros -> ->. Qed.

Lemma w32_ext m m' a : (forall i, 0 <= i < 4 -> m' (a + i) = m (a + i)) -> w32 m' a = w32 m a.
Proof.
  intros Hm. unfold w32. rewrite (Hm 1), (Hm 2), (Hm 3) by lia.
  pose proof (Hm 0 ltac:(lia)) as H0. rewrite Z.add_0_r in H0. by rewrite H0.
Qed.

Lemma shiftr_bytes v k : 0 <= k -> u8 (Z.shiftr v k) = (v / 2 ^ k) mod 2 ^ 8.
Proof. intros Hk. unfold u8. by rewrite Z.shiftr_div_pow2. Qed.

Lemma w16_upd16 a v m : w16 (upd16 a v m) a = u16 v.
Proof.
  unfold w16, upd16. rewrite (upd_ne (a + 1) a), !upd_eq, shiftr_bytes by lia. unfold u8, u16.
  change (2 ^ 16) with (2 ^ 8 * 2 ^ 8). rewrite Z.rem_mul_r by lia. lia.
Qed.

Lemma w32_upd32 a v m : w32 (upd32 a v m) a = u32 v.
Proof.
  unfold w32, upd32, upd16. rewrite !upd_eq. rewrite !(upd_ne (a + 3)), !upd_eq, !(upd_ne (a + 2)), !upd_eq,
    !(upd_ne (a + 1)), !upd_eq by lia. rewrite !shiftr_bytes by lia. unfold u8, u32.
  change (2 ^ 32) with (2 ^ 8 * (2 ^ 8 * (2 ^ 8 * 2 ^ 8))). rewrite !Z.rem_mul_r by lia.
  rewrite !Z.div_div by lia. change (2 ^ 8 * 2 ^ 8) with (2 ^ 16). change (2 ^ 16 * 2 ^ 8) with (2 ^ 24). lia.
Qed.

Lemma w16_upd16_out a v m b : b + 2 <= a \/ a + 2 <= b -> w16 (upd16 a v m) b = w16 m b.
Proof. intros Hb. apply w16_ext; apply upd16_out; lia. Qed.

Lemma w16_upd_out a v m b : b + 2 <= a \/ a + 1 <= b -> w16 (upd a v m) b = w16 m b.
Proof. intros Hb. apply w16_ext; apply upd_ne; lia. Qed.

Lemma w16_upd32_out a v m b : b + 2 <= a \/ a + 4 <= b -> w16 (upd32 a v m) b = w16 m b.
Proof. intros Hb. apply w16_ext; apply upd32_out; lia. Qed.

Lemma w32_upd32_out a v m b : b + 4 <= a \/ a + 4 <= b -> w32 (upd32 a v m) b = w32 m b.
Proof. intros Hb. apply w32_ext. intros i Hi. apply upd32_out. lia. Qed.

Lemma w32_upd16_out a v m b : b + 4 <= a \/ a + 2 <= b -> w32 (upd16 a v m) b = w32 m b.
Proof. intros Hb. apply w32_ext. intros i Hi. apply upd16_out. lia. Qed.

Lemma w32_upd_out a v m b : b + 4 <= a \/ a + 1 <= b -> w32 (upd a v m) b = w32 m b.
Proof. intros Hb. apply w32_ext. intros i Hi. apply upd_ne. lia. Qed.

(** * The memory a program sees *)

Section usermem.
Context `{Env}.

(** User code can access the bytes at the addresses [A], no two of them are the
    same cell, and they hold [m]. *)
Record umem (A : Z -> Prop) (m : Z -> Z) (s : kernel) : Prop := {
  um_cell : forall a, A a -> exists c, user_translate (pgs s) a = Some c /\ cell (pgs s) a = Some c /\
    mem (mach s) !! c = Some (m a);
  um_byte : forall a, A a -> 0 <= m a < 256;
  um_inj : forall a b, A a -> A b -> cell (pgs s) a = cell (pgs s) b -> a = b }.

(** Nothing but the cells of [A] has changed. *)
Definition only_user (A : Z -> Prop) (s t : kernel) : Prop :=
  t = set_mem (mem (mach t)) s /\
  forall c, (forall a, A a -> cell (pgs s) a <> Some c) -> mem (mach t) !! c = mem (mach s) !! c.

#[export] Instance only_user_refl A : Reflexive (only_user A).
Proof. intros s. split; [by destruct s as [[]]|done]. Qed.

#[export] Instance only_user_trans A : Transitive (only_user A).
Proof.
  intros s t u [Ht Hst] [Hu Htu]. split; [rewrite Hu, Ht; done|]. intros c Hc.
  rewrite Htu, Hst; [done|done|]. rewrite Ht. exact Hc.
Qed.

(** What [f] does to the memory the program sees. *)
Definition mwp {X} (A : Z -> Prop) (f : K X) (Q : X -> (Z -> Z) -> Prop) (m : Z -> Z) : Prop :=
  forall s, umem A m s ->
    wp f (fun x t => exists m', umem A m' t /\ only_user A s t /\ Q x m') (fun _ _ => False) s.

Context (A : Z -> Prop).

Lemma mwp_ret {X} (x : X) Q m : Q x m -> mwp A (ret x) Q m.
Proof. intros HQ s Hs. apply wp_ret. exists m. by split_and!. Qed.

Lemma mwp_bind {X Y} (f : K X) (g : X -> K Y) Q m :
  mwp A f (fun x m' => mwp A (g x) Q m') m -> mwp A (bind f g) Q m.
Proof.
  intros Hf s Hs. apply wp_bind. eapply wp_mono; [by apply Hf| |done].
  intros x t (m' & Ht & Hst & Hg). eapply wp_mono; [by apply Hg| |done].
  intros y u (m'' & Hu & Htu & HQ). exists m''. split; [done|]. split; [by etransitivity|done].
Qed.

Lemma mwp_mono {X} (f : K X) (Q Q' : X -> (Z -> Z) -> Prop) m :
  mwp A f Q m -> (forall x m', Q x m' -> Q' x m') -> mwp A f Q' m.
Proof.
  intros Hf HQ s Hs. eapply wp_mono; [by apply Hf| |done]. intros x t (m' & ? & ? & ?). exists m'. by auto.
Qed.

Lemma mwp_load8 a Q m : A a -> (0 <= m a < 256 -> Q (m a) m) -> mwp A (uload8 a) Q m.
Proof.
  intros Ha HQ s Hs. destruct (um_cell _ _ _ Hs a Ha) as (c & Hu & Hc & Hm).
  unfold uload8. wp_step. wp_step. wp_step. eapply wp_get_or_fault; [exact Hu|].
  eapply wp_of_Ret; [apply load8_get; unfold mem_get; rewrite Hc; exact Hm|].
  exists m. split; [done|]. split; [reflexivity|]. by apply HQ, (um_byte _ _ _ Hs).
Qed.

Lemma mwp_store8 a v (Q : unit -> (Z -> Z) -> Prop) m : A a -> Q tt (upd a (u8 v) m) -> mwp A (ustore8 a v) Q m.
Proof.
  intros Ha HQ s Hs. destruct (um_cell _ _ _ Hs a Ha) as (c & Hu & Hc & Hm).
  unfold ustore8. wp_step. wp_step. wp_step. eapply wp_get_or_fault; [exact Hu|].
  eapply wp_of_Ret; [apply store8_set; unfold mem_get; rewrite Hc, Hm; by eexists|].
  assert (Ht : mem_set a (u8 v) s = set_mem (<[c := u8 v]> (mem (mach s))) s) by (unfold mem_set; by rewrite Hc).
  exists (upd a (u8 v) m). rewrite Ht. split; [|split; [|done]].
  - constructor.
    + intros b Hb. destruct (um_cell _ _ _ Hs b Hb) as (d & Hbu & Hbc & Hbm). exists d.
      split; [done|]. split; [done|]. cbn [mach set_mem on_mach mem]. unfold upd.
      destruct (Z.eqb_spec b a) as [->|Hne].
      * assert (d = c) as -> by congruence. apply lookup_insert_eq.
      * rewrite lookup_insert_ne; [done|]. intros ->. apply Hne, (um_inj _ _ _ Hs); congruence.
    + intros b Hb. unfold upd. destruct (b =? a); [apply u8_range|by apply (um_byte _ _ _ Hs)].
    + exact (um_inj _ _ _ Hs).
  - split; [done|]. intros d Hd. cbn [mach set_mem on_mach mem]. apply lookup_insert_ne. intros <-.
    by apply (Hd a Ha).
Qed.

Lemma mwp_load32 a Q m :
  A a -> A (a + 1) -> A (a + 2) -> A (a + 3) ->
  (0 <= w32 m a < 2 ^ 32 -> Q (w32 m a) m) -> mwp A (uload32 a) Q m.
Proof.
  intros H0 H1 H2 H3 HQ. unfold uload32. apply mwp_bind, mwp_load8; [done|]. intros B0.
  apply mwp_bind, mwp_load8; [done|]. intros B1. apply mwp_bind, mwp_load8; [done|]. intros B2.
  apply mwp_bind, mwp_load8; [done|]. intros B3. apply mwp_ret, HQ. unfold w32. lia.
Qed.

Lemma mwp_store32 a v (Q : unit -> (Z -> Z) -> Prop) m :
  A a -> A (a + 1) -> A (a + 2) -> A (a + 3) -> Q tt (upd32 a v m) -> mwp A (ustore32 a v) Q m.
Proof.
  intros H0 H1 H2 H3 HQ. unfold ustore32. apply mwp_bind, mwp_store8; [done|].
  apply mwp_bind, mwp_store8; [done|]. apply mwp_bind, mwp_store8; [done|]. by apply mwp_store8.
Qed.

Lemma mwp_loop {X Y} (I : X -> (Z -> Z) -> Prop) (mu : X -> Z) (body : X -> K (X + Y)) x
    (Q : Y -> (Z -> Z) -> Prop) m :
  I x m -> mu x < Z.pos loop_fuel ->
  (forall x m, I x m -> 0 <= mu x /\
     mwp A (body x) (fun r m' => match r with inl x' => I x' m' /\ mu x' < mu x | inr y => Q y m' end) m) ->
  mwp A (loop body x) Q m.
Proof.
  intros Hx Hmu Hbody s Hs.
  apply wp_loop with (I := fun x t => exists m', umem A m' t /\ only_user A s t /\ I x m') (mu := fun x _ => mu x).
  - by exists m.
  - exact Hmu.
  - intros y t (m' & Ht & Hst & Hy). destruct (Hbody y m' Hy) as [Hpos Hw]. split; [done|].
    eapply wp_mono; [by apply Hw| |done]. intros [z|z] u (m'' & Hu & Htu & HQ).
    + destruct HQ as [HI Hlt]. split; [|done]. exists m''. split; [done|]. split; [by etransitivity|done].
    + exists m''. split; [done|]. split; [by etransitivity|done].
Qed.

(** The same with a ghost value that decreases. *)
Lemma mwp_loop_ghost {X Y G} (I : G -> X -> (Z -> Z) -> Prop) (mu : G -> Z) (body : X -> K (X + Y)) g x
    (Q : Y -> (Z -> Z) -> Prop) m :
  I g x m -> mu g < Z.pos loop_fuel ->
  (forall g x m, I g x m -> 0 <= mu g /\
     mwp A (body x) (fun r m' => match r with
       | inl x' => exists g', I g' x' m' /\ mu g' < mu g | inr y => Q y m' end) m) ->
  mwp A (loop body x) Q m.
Proof.
  intros Hx Hmu Hbody s Hs.
  apply wp_loop_ghost with (I := fun g x t => exists m', umem A m' t /\ only_user A s t /\ I g x m') (mu := mu) (g := g).
  - by exists m.
  - exact Hmu.
  - intros h y t (m' & Ht & Hst & Hy). destruct (Hbody h y m' Hy) as [Hpos Hw]. split; [done|].
    eapply wp_mono; [by apply Hw| |done]. intros [z|z] u (m'' & Hu & Htu & HQ).
    + destruct HQ as (h' & HI & Hlt). exists h'. split; [|done]. exists m''.
      split; [done|]. split; [by etransitivity|done].
    + exists m''. split; [done|]. split; [by etransitivity|done].
Qed.

Lemma mwp_for_up (I : Z -> (Z -> Z) -> Prop) n i body m (Q : unit -> (Z -> Z) -> Prop) :
  I i m -> (forall j m, i <= j < i + Z.of_nat n -> I j m -> mwp A (body j) (fun _ => I (j + 1)) m) ->
  (forall m, I (i + Z.of_nat n) m -> Q tt m) -> mwp A (for_up n i body) Q m.
Proof.
  intros Hi Hbody HQ s Hs.
  apply wp_for_up with (I := fun i t => exists m', umem A m' t /\ only_user A s t /\ I i m').
  - by exists m.
  - intros j t Hj (m' & Ht & Hst & Hy). eapply wp_mono; [by apply (Hbody j m' Hj Hy)| |done].
    intros [] u (m'' & Hu & Htu & HI). exists m''. split; [done|]. split; [by etransitivity|done].
  - intros t (m' & Ht & Hst & Hy). exists m'. split; [done|]. split; [done|by apply HQ].
Qed.

(** From the logic to runs. *)
Lemma mwp_run {X} (f : K X) Q m s :
  mwp A f Q m -> umem A m s ->
  exists x t m', f s = Ret x t /\ umem A m' t /\ only_user A s t /\ Q x m'.
Proof.
  intros Hf Hs. specialize (Hf s Hs). apply wp_Ret in Hf as (x & t & Hrun & m' & ? & ? & ?). by exists x, t, m'.
Qed.

End usermem.

(** A process whose window on the screen is open sees its page and the window. *)
Lemma program_umem `{Env} k page (A : Z -> Prop) m s :
  table_linked -> tables_ok (pgs s) -> 0 <= k < 6 -> page ∈ video_pages ->
  aget (page_directory (pgs s)) 32 = Some (2 ^ 22 * (2 + k) + 0x87) ->
  aget (page_directory (pgs s)) 34 = Some (page_table_video_addr + 7) ->
  aget (page_table_video (pgs s)) 0 = Some (page + 7) ->
  (forall a, A a -> user a = true \/ MB136 <= a < MB136 + KB4) ->
  (forall a, A a -> mem_get s a = Some (m a) /\ 0 <= m a < 256) -> umem A m s.
Proof.
  intros Hlink Hok Hk Hpage H32 H34 H0 HA Hm.
  assert (Hwin : forall a, MB136 <= a < MB136 + KB4 ->
    user_translate (pgs s) a = Some (page + (a - MB136)) /\ cell (pgs s) a = Some (page + (a - MB136))).
  { intros a Ha. pose proof (window_translate (pgs s) a page Hlink Hok Hpage H34 H0 Ha) as Ht.
    split; [|unfold cell; rewrite (proj2 (Z.ltb_ge a 0)); [done|unfold MB136 in Ha; lia]].
    destruct (va_split a) as (? & ? & ? & ?). unfold user_translate.
    assert (Hd : a / MB4 = 34) by (unfold MB136, KB4, MB4 in *; symmetry; apply Z.div_unique with (a - 0x8800000); lia).
    assert (Hi : a mod MB4 / KB4 = 0).
    { unfold MB136, KB4, MB4 in *. apply Z.div_small. lia. }
    destruct (pde_table 7 Hlink) as (_ & B7 & B2 & _); [lia|done|].
    destruct (window_entry page 7 0 Hpage) as (_ & P2 & _); [by right|unfold KB4; lia|].
    rewrite (t_on _ Hok), Hd, H34. cbn [negb]. rewrite B2, B7, Hi, H0, P2. exact Ht. }
  assert (Hpg : 0xB8000 <= page /\ page + KB4 <= 0x800000).
  { unfold video_pages in Hpage. repeat (apply elem_of_cons in Hpage as [->|Hpage]; [by split|]). by apply elem_of_nil in Hpage. }
  assert (Hcell : forall a, A a -> exists c, user_translate (pgs s) a = Some c /\ cell (pgs s) a = Some c).
  { intros a Ha. destruct (HA a Ha) as [Hu|Hw]; [|by eexists; apply Hwin].
    eexists. split; [by apply (user_access (pgs s) k)|by apply (user_cell (pgs s) k)]. }
  constructor.
  - intros a Ha. destruct (Hcell a Ha) as (c & Hu & Hc). exists c. split; [done|]. split; [done|].
    destruct (Hm a Ha) as [Hg _]. unfold mem_get in Hg. by rewrite Hc in Hg.
  - intros a Ha. by apply Hm.
  - intros a b Ha Hb. destruct (HA a Ha) as [Ua|Wa], (HA b Hb) as [Ub|Wb].
    + rewrite !(user_cell (pgs s) k) by done. unfold frame_of. intros [=]. lia.
    + rewrite (user_cell (pgs s) k a), (proj2 (Hwin b Wb)) by done. apply user_spec in Ua.
      unfold frame_of, EIGHT_MB, FOUR_MB, MB136, KB4 in *. intros [=]. lia.
    + rewrite (user_cell (pgs s) k b), (proj2 (Hwin a Wa)) by done. apply user_spec in Ub.
      unfold frame_of, EIGHT_MB, FOUR_MB, MB136, KB4 in *. intros [=]. lia.
    + rewrite (proj2 (Hwin a Wa)), (proj2 (Hwin b Wb)). intros [=]. lia.
Qed.
