(* ===== verification/Fish.v ===== *)
(** The blinking fish, [src/fish]: [fish.c], and the list of blinking characters
    that [blink.S] keeps in the program's memory. *)
From stdpp Require Import base numbers list gmap strings.
From Stdlib Require Import ZArith Lia.
From S2P Require Import Prelude Machine Strings Paging Support.

Definition WAIT : Z := 100.
Definition RTC_ADD : Z := 0.
Definition RTC_REMOVE : Z := 1.
Definition RTC_FIND : Z := 2.
Definition RTC_SYNC : Z := 3.

(** The members of [struct mp1_blink_struct]. *)
Definition LOCATION : Z := 0.
Definition ON_CHAR : Z := 2.
Definition OFF_CHAR : Z := 3.
Definition ON_LENGTH : Z := 4.
Definition OFF_LENGTH : Z := 6.
Definition COUNTDOWN : Z := 8.
Definition STATUS : Z := 10.
Definition NEXT : Z := 12.
Definition STRUCT_SIZE : Z := 16.

(** The linker's addresses of the static variables. *)
Class FishData : Type := {
  vmem_base_addr : Z;
  blink_array : Z;
  mp1_list_head : Z;
  file0 : Z;
  file1 : Z }.

Definition s16 (z : Z) : Z := (z + 2 ^ 15) mod 2 ^ 16 - 2 ^ 15.

Section fish.
Context `{Env} `{Syscalls} `{Linked} `{FishData}.

Definition uload16 (va : Z) : K Z :=
  let* b0 := uload8 va in
  let* b1 := uload8 (va + 1) in
  ret (b0 + b1 * 2 ^ 8).

Definition ustore16 (va v : Z) : K unit :=
  ustore8 va v ;; ustore8 (va + 1) (Z.shiftr v 8).

(** ** Memory *)

Definition ece391_memset (memory c n : Z) : K unit :=
  for_up (Z.to_nat n) 0 (fun i => ustore8 (memory + i) c).

Definition ece391_memcpy (dest src n : Z) : K Z :=
  for_up (Z.to_nat n) 0 (fun i => let* c := uload8 (src + i) in ustore8 (dest + i) c) ;;
  ret 0.

(** A cell of [blink_array] is free when its location is 0. *)
Definition mp1_malloc (size : Z) : K Z :=
  loop (fun i =>
    if i <? 80 * 25 then
      let* l := uload16 (blink_array + STRUCT_SIZE * i + LOCATION) in
      if l =? 0 then ret (inr (blink_array + STRUCT_SIZE * i)) else ret (inl (i + 1))
    else ret (inr 0)) 0.

Definition mp1_free (memory : Z) : K unit := ece391_memset memory 0 STRUCT_SIZE.

(** ** blink.S

    Registers are variables; a conditional jump is its condition. *)

Definition mp1_poke (cl eax : Z) : K unit :=
  let* edx := uload32 vmem_base_addr in
  ustore8 (u32 (edx + eax)) cl.

(** One element at [ebx]. *)
Definition tasklet_element (ebx : Z) : K unit :=
  let* countdown := uload16 (ebx + COUNTDOWN) in
  ustore16 (ebx + COUNTDOWN) (u16 (countdown - 1)) ;;
  let* countdown := uload16 (ebx + COUNTDOWN) in
  if 0 <? s16 countdown then ret tt else
  let* location := uload16 (ebx + LOCATION) in
  let eax := u32 (Z.shiftl location 1) in
  let* status := uload16 (ebx + STATUS) in
  let* dx := (if Z.land 1 status =? 0 then
                let* cl := uload8 (ebx + ON_CHAR) in
                mp1_poke cl eax ;;
                uload16 (ebx + ON_LENGTH)
              else
                let* cl := uload8 (ebx + OFF_CHAR) in
                mp1_poke cl eax ;;
                uload16 (ebx + OFF_LENGTH)) in
  ustore16 (ebx + COUNTDOWN) dx ;;
  let* status := uload16 (ebx + STATUS) in
  ustore16 (ebx + STATUS) (Z.lxor 1 status).

Definition mp1_rtc_tasklet (trash : Z) : K unit :=
  let* ebx := uload32 mp1_list_head in
  loop (fun ebx =>
    if ebx =? 0 then ret (inr tt) else
    tasklet_element ebx ;;
    let* ebx := uload32 (ebx + NEXT) in
    ret (inl ebx)) ebx.

(** The first element whose location is the low half of the argument. *)
Definition mp1_find_helper (location : Z) : K Z :=
  let* ebx := uload32 mp1_list_head in
  loop (fun ebx =>
    if ebx =? 0 then ret (inr 0) else
    let* l := uload16 (ebx + LOCATION) in
    if u16 location =? l then ret (inr ebx) else
    let* ebx := uload32 (ebx + NEXT) in
    ret (inl ebx)) ebx.

(** [tmp] is the structure the routine has on its stack. *)
Definition mp1_ioctl_add (tmp arg : Z) : K Z :=
  let* r := ece391_memcpy tmp arg STRUCT_SIZE in
  if negb (r =? 0) then ret (-1) else
  let* location := uload16 (tmp + LOCATION) in
  if 80 * 25 <=? location then ret (-1) else
  ustore16 (tmp + STATUS) 1 ;;
  let* dx := uload16 (tmp + ON_LENGTH) in
  ustore16 (tmp + COUNTDOWN) dx ;;
  let* eax := mp1_malloc STRUCT_SIZE in
  if eax =? 0 then ret (-1) else
  ece391_memcpy eax tmp STRUCT_SIZE ;;
  let edx := eax in
  let* head := uload32 mp1_list_head in
  ustore32 (edx + NEXT) head ;;
  ustore32 mp1_list_head edx ;;
  let* location := uload16 (edx + LOCATION) in
  let* cl := uload8 (edx + ON_CHAR) in
  mp1_poke cl (u32 (Z.shiftl location 1)) ;;
  ret 0.

(** [edx] is the address of the pointer to the current element. *)
Definition mp1_ioctl_remove (arg : Z) : K Z :=
  let* eax := mp1_find_helper arg in
  if eax =? 0 then ret (-1) else
  let* edx := loop (fun edx =>
    let* p := uload32 edx in
    if p =? eax then ret (inr edx) else ret (inl (p + NEXT))) mp1_list_head in
  let* ecx := uload32 (eax + NEXT) in
  ustore32 edx ecx ;;
  mp1_free eax ;;
  ret 0.

(** [cmovl] after [testb $1] moves when the sign and overflow flags differ:
    [testb] sets the sign flag to bit 7 of its result and clears overflow. *)
Definition mp1_ioctl_sync (arg : Z) : K Z :=
  let* esi := mp1_find_helper (Z.shiftr (u32 arg) 16) in
  if esi =? 0 then ret (-1) else
  let* edi := mp1_find_helper (Z.land arg 0xFFFF) in
  if edi =? 0 then ret (-1) else
  let* ax := uload16 (esi + ON_LENGTH) in
  ustore16 (edi + ON_LENGTH) ax ;;
  let* ax := uload16 (esi + OFF_LENGTH) in
  ustore16 (edi + OFF_LENGTH) ax ;;
  let* ax := uload16 (esi + COUNTDOWN) in
  ustore16 (edi + COUNTDOWN) ax ;;
  let* ax := uload16 (esi + STATUS) in
  ustore16 (edi + STATUS) ax ;;
  let* location := uload16 (edi + LOCATION) in
  let* off := uload8 (edi + OFF_CHAR) in
  let* on := uload8 (edi + ON_CHAR) in
  let* status := uload8 (edi + STATUS) in
  let sf := Z.testbit (Z.land 1 status) 7 in
  mp1_poke (if sf then on else off) (u32 (Z.shiftl location 1)) ;;
  ret 0.

(** [tmp] is the two-byte local. *)
Definition mp1_ioctl_find (tmp arg : Z) : K Z :=
  let* r := ece391_memcpy tmp arg 2 in
  if negb (r =? 0) then ret (-1) else
  let* location := uload16 tmp in
  let* eax := mp1_find_helper location in
  if eax =? 0 then ret (-1) else
  let* r := ece391_memcpy arg eax STRUCT_SIZE in
  if r =? 0 then ret 0 else ret (-1).

(** The table has four entries and its index is not checked. *)
Definition mp1_ioctl (tmp arg cmd : Z) : K Z :=
  if cmd =? RTC_ADD then mp1_ioctl_add tmp arg
  else if cmd =? RTC_REMOVE then mp1_ioctl_remove arg
  else if cmd =? RTC_FIND then mp1_ioctl_find tmp arg
  else if cmd =? RTC_SYNC then mp1_ioctl_sync arg
  else fault (u32 (4 * cmd)).

(** ** fish.c *)

Definition mp1_set_video_mode : K Z :=
  let* r := ece391_vidmap vmem_base_addr in
  if r =? -1 then ret 0 else uload32 vmem_base_addr.

(** The next character of a file at [c], a newline at its end; returns the
    new end-of-file mark. *)
Definition next_char (fd c eof : Z) : K Z :=
  let* ch := uload8 c in
  if negb (ch =? 10) then
    let* num_bytes := ece391_read fd c 1 in
    if num_bytes =? 0 then ustore8 c 10 ;; ret 1 else ret eof
  else ret eof.

(** One row of both frames. *)
Definition add_row (blink_struct c0 c1 tmp fd0 fd1 row : Z) (eofs : Z * Z) : K (Z * Z) :=
  loop (fun st : Z * Z * Z =>
    let '(col, eof0, eof1) := st in
    let* eof0 := next_char fd0 c0 eof0 in
    let* eof1 := next_char fd1 c1 eof1 in
    let* ch0 := uload8 c0 in
    let* ch1 := uload8 c1 in
    if (ch0 =? 10) && (ch1 =? 10) then ret (inr (eof0, eof1)) else
    (if (negb (ch0 =? 32) && negb (ch0 =? 10)) || (negb (ch1 =? 32) && negb (ch1 =? 10)) then
       ustore8 (blink_struct + ON_CHAR) (if ch0 =? 10 then 32 else ch0) ;;
       ustore8 (blink_struct + OFF_CHAR) (if ch1 =? 10 then 32 else ch1) ;;
       ustore16 (blink_struct + LOCATION) (row * 80 + col + 40) ;;
       mp1_ioctl tmp blink_struct RTC_ADD ;; ret tt
     else ret tt) ;;
    ret (inl (col + 1, eof0, eof1))) (0, fst eofs, snd eofs).

(** After a row a file that has ended is closed, again after every row. *)
Definition end_row (c fd eof : Z) : K unit :=
  if negb (eof =? 0) then ustore8 c 10 ;; ece391_close fd ;; ret tt
  else ustore8 c 48.

(** The automatic variables are at [blink_struct], [c0] and [c1]. *)
Definition add_frames (blink_struct c0 c1 tmp f0 f1 rtc_fd : Z) : K unit :=
  ustore8 c0 48 ;;
  ustore8 c1 48 ;;
  ustore16 (blink_struct + ON_LENGTH) 15 ;;
  ustore16 (blink_struct + OFF_LENGTH) 15 ;;
  let* fd0 := ece391_open f0 in
  (if fd0 <? 0 then ece391_halt (u8 (-1)) ;; ret tt else ret tt) ;;
  let* fd1 := ece391_open f1 in
  (if fd1 <? 0 then ece391_halt (u8 (-1)) ;; ret tt else ret tt) ;;
  loop (fun st : Z * (Z * Z) =>
    let '(row, (eof0, eof1)) := st in
    if (eof0 =? 0) || (eof1 =? 0) then
      let* '(eof0, eof1) := add_row blink_struct c0 c1 tmp fd0 fd1 row (eof0, eof1) in
      end_row c0 fd0 eof0 ;;
      end_row c1 fd1 eof1 ;;
      ret (inl (row + 1, (eof0, eof1)))
    else ret (inr tt)) (0, (0, 0)).

(** The assignments of [main] to the members of its structure. *)
Definition set_blink (blink_struct on_char off_char on_length off_length location : Z) : K unit :=
  ustore8 (blink_struct + ON_CHAR) on_char ;;
  ustore8 (blink_struct + OFF_CHAR) off_char ;;
  ustore16 (blink_struct + ON_LENGTH) on_length ;;
  ustore16 (blink_struct + OFF_LENGTH) off_length ;;
  ustore16 (blink_struct + LOCATION) location.

(** [for(i=0; i<WAIT; i++) ...] *)
Definition blink_ticks (rtc_fd garbage : Z) : K unit :=
  for_up (Z.to_nat WAIT) 0 (fun _ =>
    ece391_read rtc_fd garbage 4 ;;
    let* g := uload32 garbage in
    mp1_rtc_tasklet g).

Definition fish_main (blink_struct garbage ret_val c0 c1 tmp : Z) : K Z :=
  ece391_memset blink_array 0 (STRUCT_SIZE * 80 * 25) ;;
  let* m := mp1_set_video_mode in
  if m =? 0 then ret (-1) else
  let* rtc_fd := ece391_open (lit "rtc") in
  add_frames blink_struct c0 c1 tmp file0 file1 rtc_fd ;;
  ustore32 ret_val 32 ;;
  let* r := ece391_write rtc_fd ret_val 4 in
  ustore32 ret_val r ;;
  blink_ticks rtc_fd garbage ;;
  set_blink blink_struct 73 77 7 6 (6 * 80 + 60) ;;
  mp1_ioctl tmp blink_struct RTC_ADD ;;
  blink_ticks rtc_fd garbage ;;
  mp1_ioctl tmp (Z.lor (Z.shiftl 40 16) (6 * 80 + 60)) RTC_SYNC ;;
  blink_ticks rtc_fd garbage ;;
  mp1_ioctl tmp (6 * 80 + 60) RTC_REMOVE ;;
  blink_ticks rtc_fd garbage ;;
  ece391_close rtc_fd ;;
  ret 0.

End fish.
