(* ===== verification/Blink.v ===== *)
(** The list of blinking characters of [src/fish/blink.S]: the abstract list its
    operations work on, how the program's memory represents it, and the proof
    that each operation does on the memory what it should do on the list. *)
From stdpp Require Import base numbers list gmap strings.
From Stdlib Require Import ZArith Lia.
From S2P Require Import Prelude Machine Strings Paging Support Os Runs UserMem Fish.

(** * The abstract list *)

(** [struct mp1_blink_struct] without its link. *)
Record blink : Type := Blinker {
  location : Z; on_char : Z; off_char : Z; on_length : Z; off_length : Z;
  countdown : Z; status : Z }.

Definition is_on (b : blink) : bool := negb (Z.land 1 (status b) =? 0).
Definition due (b : blink) : bool := negb (0 <? s16 (u16 (countdown b - 1))).

(** One tick of one element: its countdown, and when that is over its other
    state, for the length of that state. *)
Definition tick (b : blink) : blink :=
  if due b then
    Blinker (location b) (on_char b) (off_char b) (on_length b) (off_length b)
      (if is_on b then off_length b else on_length b) (Z.lxor 1 (status b))
  else
    Blinker (location b) (on_char b) (off_char b) (on_length b) (off_length b)
      (u16 (countdown b - 1)) (status b).

(** The character it then shows: the one of the state it was not in. *)
Definition turned (b : blink) : Z := if is_on b then off_char b else on_char b.

Definition tick_char (chars : Z -> Z) (b : blink) : Z -> Z :=
  if due b then upd (location b) (turned b) chars else chars.

Definition started (b : blink) : blink :=
  Blinker (location b) (on_char b) (off_char b) (on_length b) (off_length b) (on_length b) 1.

Definition synced (b c : blink) : blink :=
  Blinker (location c) (on_char c) (off_char c) (on_length b) (off_length b) (countdown b) (status b).

(** The first element at a location: looking for it, removing it, changing it. *)
Definition find_first (l : Z) (bs : list blink) : option blink := find (fun b => location b =? l) bs.

Fixpoint remove_first (l : Z) (bs : list blink) : list blink :=
  match bs with
  | [] => []
  | b :: bs => if location b =? l then bs else b :: remove_first l bs
  end.

Fixpoint update_first (l : Z) (f : blink -> blink) (bs : list blink) : list blink :=
  match bs with
  | [] => []
  | b :: bs => if location b =? l then f b :: bs else b :: update_first l f bs
  end.

Lemma first_app l bs1 b bs2 :
  Forall (fun c => location c <> l) bs1 -> location b = l ->
  find_first l (bs1 ++ b :: bs2) = Some b /\ remove_first l (bs1 ++ b :: bs2) = bs1 ++ bs2 /\
  forall f, update_first l f (bs1 ++ b :: bs2) = bs1 ++ f b :: bs2.
Proof.
  intros H1 Hb. induction H1 as [|c bs1 Hc _ (I1 & I2 & I3)]; cbn [app].
  - unfold find_first. cbn [find remove_first update_first]. by rewrite (proj2 (Z.eqb_eq _ _) Hb).
  - unfold find_first in *. cbn [find remove_first update_first]. rewrite (proj2 (Z.eqb_neq _ _) Hc), I1, I2.
    split; [done|]. split; [done|]. intros f. by rewrite I3.
Qed.

(** The operations, with what they return. *)
Inductive blink_op : Type := Tick | Add (b : blink) | Remove (l : Z) | Sync (s d : Z).

Definition do_op (op : blink_op) (st : list blink * (Z -> Z)) : Z * (list blink * (Z -> Z)) :=
  let '(bs, chars) := st in
  match op with
  | Tick => (0, (map tick bs, foldl tick_char chars bs))
  | Add b =>
    if (location b <? 2000) && (length bs <? 2000)%nat
    then (0, (started b :: bs, upd (location b) (on_char b) chars)) else (-1, st)
  | Remove l =>
    match find_first l bs with Some _ => (0, (remove_first l bs, chars)) | None => (-1, st) end
  | Sync s d =>
    match find_first s bs, find_first d bs with
    | Some b, Some c => (0, (update_first d (synced b) bs, upd d (off_char c) chars))
    | _, _ => (-1, st)
    end
  end.

Fixpoint do_ops (ops : list blink_op) (st : list blink * (Z -> Z)) : list Z * (list blink * (Z -> Z)) :=
  match ops with
  | [] => ([], st)
  | op :: ops =>
    let '(r, st) := do_op op st in
    let '(rs, st) := do_ops ops st in
    (r :: rs, st)
  end.

(** Members of the right size, and a location other than the corner's. *)
Definition members_ok (b : blink) : Prop :=
  0 <= location b < 2 ^ 16 /\ 0 <= on_char b < 256 /\ 0 <= off_char b < 256 /\
  0 <= on_length b < 2 ^ 16 /\ 0 <= off_length b < 2 ^ 16.

Definition op_ok (op : blink_op) : Prop :=
  match op with
  | Tick => True
  | Add b => members_ok b /\ location b <> 0
  | Remove l => 0 <= l < 2 ^ 16
  | Sync s d => 0 <= s < 2 ^ 16 /\ 0 <= d < 2 ^ 16
  end.

(** * Its representation *)

Section blink.
Context `{Env} `{FishData}.

Definition slot (p : Z) : Prop := exists i, 0 <= i < 2000 /\ p = blink_array + STRUCT_SIZE * i.

Definition fields (m : Z -> Z) (p : Z) : blink :=
  Blinker (w16 m (p + LOCATION)) (m (p + ON_CHAR)) (m (p + OFF_CHAR)) (w16 m (p + ON_LENGTH))
    (w16 m (p + OFF_LENGTH)) (w16 m (p + COUNTDOWN)) (w16 m (p + STATUS)).

Definition next (m : Z -> Z) (p : Z) : Z := w32 m (p + NEXT).

(** The elements [ps] lead from [p] to [q]. *)
Fixpoint chain (m : Z -> Z) (p : Z) (ps : list Z) (q : Z) : Prop :=
  match ps with
  | [] => p = q
  | r :: ps => p = r /\ chain m (next m r) ps q
  end.

(** The list whose head is in [mp1_list_head]; the other cells of the array are
    free. *)
Record listed (m : Z -> Z) (ps : list Z) : Prop := {
  li_chain : chain m (w32 m mp1_list_head) ps 0;
  li_nodup : NoDup ps;
  li_slots : Forall slot ps;
  li_valid : Forall (fun p => 0 < w16 m p < 2000) ps;
  li_free : forall p, slot p -> p ∉ ps -> w16 m p = 0 }.

(** The window on the screen is at [V]; [chars] are its characters. *)
Definition window (V : Z) (chars : Z -> Z) (m : Z -> Z) : Prop :=
  w32 m vmem_base_addr = V /\ forall i, 0 <= i < 2000 -> m (V + 2 * i) = chars i.

Definition blinks (V : Z) (bs : list blink) (chars : Z -> Z) (m : Z -> Z) : Prop :=
  window V chars m /\ exists ps, listed m ps /\ bs = map (fields m) ps.

Definition apart (a n b k : Z) : Prop := a + n <= b \/ b + k <= a.

(** The program's variables and the window. *)
Record layout (A : Z -> Prop) (V : Z) : Prop := {
  ly_array : forall a, blink_array <= a < blink_array + 32000 -> A a;
  ly_head : forall a, mp1_list_head <= a < mp1_list_head + 4 -> A a;
  ly_base : forall a, vmem_base_addr <= a < vmem_base_addr + 4 -> A a;
  ly_window : forall a, V <= a < V + 4000 -> A a;
  ly_range : 0 < blink_array /\ blink_array + 32000 < 2 ^ 32 /\ 0 <= V /\ V + 4000 <= 2 ^ 32;
  ly_array_head : apart blink_array 32000 mp1_list_head 4;
  ly_array_base : apart blink_array 32000 vmem_base_addr 4;
  ly_array_window : apart blink_array 32000 V 4000;
  ly_head_base : apart mp1_list_head 4 vmem_base_addr 4;
  ly_head_window : apart mp1_list_head 4 V 4000;
  ly_base_window : apart vmem_base_addr 4 V 4000 }.

(** ** Accesses *)

Lemma mwp_load16 A a Q m :
  A a -> A (a + 1) -> (0 <= w16 m a < 2 ^ 16 -> Q (w16 m a) m) -> mwp A (uload16 a) Q m.
Proof.
  intros H0' H1 HQ. unfold uload16. apply mwp_bind, mwp_load8; [done|]. intros B0.
  apply mwp_bind, mwp_load8; [done|]. intros B1. apply mwp_ret, HQ. unfold w16. lia.
Qed.

Lemma mwp_store16 A a v (Q : unit -> (Z -> Z) -> Prop) m :
  A a -> A (a + 1) -> Q tt (upd16 a v m) -> mwp A (ustore16 a v) Q m.
Proof. intros H0' H1 HQ. unfold ustore16. apply mwp_bind, mwp_store8; [done|]. by apply mwp_store8. Qed.

Section operations.
Context (A : Z -> Prop) (V : Z) (Hlay : layout A V).

Lemma slot_access p k : slot p -> 0 <= k < 16 -> A (p + k).
Proof. intros (i & Hi & ->) Hk. apply (ly_array _ _ Hlay). unfold STRUCT_SIZE. lia. Qed.

Lemma slot_access1 p k : slot p -> 0 <= k < 15 -> A (p + k + 1).
Proof. intros Hp Hk. rewrite <- Z.add_assoc. apply slot_access; [done|lia]. Qed.

Lemma slot_range p : slot p -> blink_array <= p /\ p + 16 <= blink_array + 32000 /\ 0 < p < 2 ^ 32.
Proof. intros (i & Hi & ->). destruct (ly_range _ _ Hlay) as (? & ? & _). unfold STRUCT_SIZE. lia. Qed.

Lemma slots_apart p q : slot p -> slot q -> p <> q -> p + 16 <= q \/ q + 16 <= p.
Proof. intros (i & Hi & ->) (j & Hj & ->). unfold STRUCT_SIZE. lia. Qed.

(** A character on the screen. *)
Lemma poke_rule chars m l c (Q : unit -> (Z -> Z) -> Prop) :
  window V chars m -> 0 <= l < 2000 -> 0 <= c < 256 ->
  Q tt (upd (V + 2 * l) c m) -> mwp A (mp1_poke c (u32 (Z.shiftl l 1))) Q m.
Proof.
  intros [Hb Hc] Hl Hr HQ. destruct (ly_range _ _ Hlay) as (_ & _ & HV & HV'). unfold mp1_poke.
  apply mwp_bind, mwp_load32; try (apply (ly_base _ _ Hlay); lia). intros _. rewrite Hb.
  rewrite Z.shiftl_mul_pow2, (u32_small (l * 2 ^ 1)) by lia. change (2 ^ 1) with 2.
  rewrite u32_small, (Z.mul_comm l) by lia. apply mwp_store8; [apply (ly_window _ _ Hlay); lia|].
  by rewrite u8_small.
Qed.

Lemma window_frame chars m m' :
  window V chars m -> (forall a, blink_array <= a < blink_array + 32000 \/ m' a = m a) -> window V chars m'.
Proof.
  intros [Hb Hc] Hm. destruct (ly_array_base _ _ Hlay), (ly_array_window _ _ Hlay); split.
  all: try (rewrite <- Hb; apply w32_ext; intros i Hi; destruct (Hm (vmem_base_addr + i)); [lia|done]).
  all: intros i Hi; rewrite <- Hc by done; destruct (Hm (V + 2 * i)); [lia|done].
Qed.

(** ** One element *)

(** The tick of the element at [p]. *)
Definition ticked (m : Z -> Z) (p : Z) (m' : Z -> Z) : Prop :=
  fields m' p = tick (fields m p) /\ next m' p = next m p /\
  (forall a, p <= a < p + 16 \/ a = V + 2 * w16 m p \/ m' a = m a) /\
  m' (V + 2 * w16 m p) = if due (fields m p) then turned (fields m p) else m (V + 2 * w16 m p).

Lemma u16_u16 z : u16 (u16 z) = u16 z.
Proof. unfold u16. by rewrite Z.mod_mod. Qed.

Lemma lxor_bit z : 0 <= z < 2 ^ 16 -> u16 (Z.lxor 1 z) = Z.lxor 1 z.
Proof.
  intros Hz. apply Z.mod_small. split; [apply Z.lxor_nonneg; lia|].
  destruct (decide (Z.lxor 1 z = 0)) as [->|Hne]; [done|]. apply Z.log2_lt_pow2.
  - pose proof (proj2 (Z.lxor_nonneg 1 z) ltac:(lia)). lia.
  - eapply Z.le_lt_trans; [apply Z.log2_lxor; lia|]. apply Z.max_lub_lt; [done|].
    destruct (decide (z = 0)) as [->|]; [done|]. apply Z.log2_lt_pow2; lia.
Qed.

(** The character and the length of the other state. *)
Lemma turn_rule chars m p l k k' (Q : Z -> (Z -> Z) -> Prop) :
  window V chars m -> slot p -> 0 <= l < 2000 -> 0 <= k < 15 -> 0 <= k' < 15 ->
  (0 <= w16 (upd (V + 2 * l) (m (p + k)) m) (p + k') < 2 ^ 16 ->
   Q (w16 (upd (V + 2 * l) (m (p + k)) m) (p + k')) (upd (V + 2 * l) (m (p + k)) m)) ->
  mwp A (let* cl := uload8 (p + k) in
         mp1_poke cl (u32 (Z.shiftl l 1)) ;;
         uload16 (p + k')) Q m.
Proof.
  intros Hw Hp Hl Hk Hk' HQ. apply mwp_bind, mwp_load8; [apply slot_access; [done|lia]|]. intros Hc.
  apply mwp_bind. apply (poke_rule chars m); [done..|].
  apply mwp_load16; [apply slot_access; [done|lia]|by apply slot_access1|exact HQ].
Qed.

Lemma tasklet_element_rule chars m p :
  window V chars m -> slot p -> 0 <= w16 m p < 2000 ->
  mwp A (tasklet_element p) (fun _ m' => ticked m p m') m.
Proof.
  intros Hw Hp Hl. destruct (slot_range p Hp) as (R1 & R2 & R3).
  assert (Hv : p + 16 <= V + 2 * w16 m p \/ V + 2 * w16 m p + 1 <= p).
  { destruct (ly_array_window _ _ Hlay); lia. }
  unfold tasklet_element, COUNTDOWN, LOCATION, STATUS, ON_CHAR, OFF_CHAR, ON_LENGTH, OFF_LENGTH.
  apply mwp_bind, mwp_load16; [by apply slot_access|by apply slot_access1|]. intros Hc.
  apply mwp_bind, mwp_store16; [by apply slot_access|by apply slot_access1|].
  apply mwp_bind, mwp_load16; [by apply slot_access|by apply slot_access1|]. intros _.
  rewrite w16_upd16, u16_u16. set (n := u16 (w16 m (p + 8) - 1)).
  set (m1 := upd16 (p + 8) n m).
  assert (Hw1 : window V chars m1).
  { apply (window_frame chars m); [done|]. intros a. destruct (decide (p + 8 <= a < p + 10)); [left; lia|right].
    apply upd16_out. lia. }
  assert (Hdue : due (fields m p) = negb (0 <? s16 n)) by done.
  destruct (0 <? s16 n) eqn:Hn; cbn [negb] in Hdue.
  - apply mwp_ret. unfold ticked, tick. rewrite Hdue. unfold m1. split_and!.
    + unfold fields. cbn [negb]. unfold COUNTDOWN, LOCATION, STATUS, ON_CHAR, OFF_CHAR, ON_LENGTH, OFF_LENGTH.
      rewrite !w16_upd16, !w16_upd16_out, !upd16_out by lia. unfold n. by rewrite u16_u16.
    + unfold next, NEXT. by rewrite w32_upd16_out by lia.
    + intros a. destruct (decide (p <= a < p + 16)); [by left|]. right; right. apply upd16_out. lia.
    + apply upd16_out. lia.
  - apply mwp_bind, mwp_load16; [by apply slot_access|by apply slot_access1|]. intros _.
    apply mwp_bind, mwp_load16; [by apply slot_access|by apply slot_access1|]. intros Hs. cbv zeta.
    assert (El : w16 m1 (p + 0) = w16 m p) by (rewrite Z.add_0_r; apply w16_upd16_out; lia).
    assert (Es : w16 m1 (p + 10) = w16 m (p + 10)) by (apply w16_upd16_out; lia).
    rewrite El, Es in *. set (l := w16 m p) in *.
    assert (Ew : forall c k, k = 4 \/ k = 6 -> w16 (upd (V + 2 * l) c m1) (p + k) = w16 m (p + k)).
    { intros c k Hk. unfold m1. by rewrite w16_upd_out, w16_upd16_out by lia. }
    assert (Ec : forall k, 2 <= k < 4 -> m1 (p + k) = m (p + k)) by (intros k Hk; apply upd16_out; lia).
    assert (Hon : is_on (fields m p) = negb (Z.land 1 (w16 m (p + 10)) =? 0)) by done.
    apply mwp_bind. eapply mwp_mono with (Q := fun dx m2 =>
      dx = (if is_on (fields m p) then w16 m (p + 6) else w16 m (p + 4)) /\
      m2 = upd (V + 2 * l) (turned (fields m p)) m1 /\ 0 <= dx < 2 ^ 16).
    + unfold turned. rewrite Hon. destruct (Z.land 1 (w16 m (p + 10)) =? 0); cbn [negb].
      all: eapply (turn_rule chars m1 p l); [done..|lia|lia|].
      all: rewrite Ew by lia; intros Hdx; by rewrite Ec by lia.
    + intros dx m2 (-> & -> & Hdx). set (m2 := upd _ _ m1).
      apply mwp_bind, mwp_store16; [by apply slot_access|by apply slot_access1|].
      apply mwp_bind, mwp_load16; [by apply slot_access|by apply slot_access1|]. intros _.
      assert (Es2 : w16 (upd16 (p + 8) (if is_on (fields m p) then w16 m (p + 6) else w16 m (p + 4)) m2) (p + 10)
        = w16 m (p + 10)).
      { unfold m2, m1. by rewrite w16_upd16_out, w16_upd_out, w16_upd16_out by lia. }
      rewrite Es2. apply mwp_store16; [by apply slot_access|by apply slot_access1|].
      unfold ticked, tick. rewrite Hdue. unfold m2, m1. split_and!.
      * unfold fields at 1. unfold COUNTDOWN, LOCATION, STATUS, ON_CHAR, OFF_CHAR, ON_LENGTH, OFF_LENGTH.
        rewrite w16_upd16, (lxor_bit (w16 m (p + 10))), !(w16_upd16_out (p + 10)) by lia.
        rewrite w16_upd16, !w16_upd16_out, !w16_upd_out, !w16_upd16_out, !upd16_out, !upd_ne, !upd16_out by lia.
        rewrite u16_small by lia. reflexivity.
      * unfold next, NEXT. by rewrite !w32_upd16_out, w32_upd_out, w32_upd16_out by lia.
      * intros a. destruct (decide (p <= a < p + 16)); [by left|].
        destruct (decide (a = V + 2 * l)); [by right; left|]. right; right.
        by rewrite !upd16_out, upd_ne, upd16_out by lia.
      * by rewrite !upd16_out, upd_eq by lia.
Qed.
(** ** The whole list *)

(** What a change of one element and one character leaves. *)
Lemma others_kept m m' p l :
  slot p -> 0 <= l < 2000 ->
  (forall a, p <= a < p + 16 \/ a = V + 2 * l \/ m' a = m a) ->
  (forall q, slot q -> q <> p -> fields m' q = fields m q /\ next m' q = next m q) /\
  w32 m' mp1_list_head = w32 m mp1_list_head /\ w32 m' vmem_base_addr = w32 m vmem_base_addr /\
  (forall i, 0 <= i < 2000 -> i <> l -> m' (V + 2 * i) = m (V + 2 * i)).
Proof.
  intros Hp Hl Hm. destruct (slot_range p Hp) as (R1 & R2 & _).
  assert (Hw : forall a, (a < V \/ V + 4000 <= a) -> (a < p \/ p + 16 <= a) -> m' a = m a).
  { intros a Ha Hap. destruct (Hm a) as [?|[?|?]]; [lia|lia|done]. }
  split; [|split; [|split]].
  - intros q Hq Hne. destruct (slot_range q Hq) as (Q1 & Q2 & _). pose proof (slots_apart q p Hq Hp Hne).
    assert (Hq' : forall k, 0 <= k < 16 -> m' (q + k) = m (q + k)).
    { intros k Hk. apply Hw; [|lia]. destruct (ly_array_window _ _ Hlay); lia. }
    unfold fields, next, COUNTDOWN, LOCATION, STATUS, ON_CHAR, OFF_CHAR, ON_LENGTH, OFF_LENGTH, NEXT.
    unfold w16. rewrite <- !Z.add_assoc, !Hq' by lia. split; [done|]. apply w32_ext. intros i Hi.
    rewrite <- Z.add_assoc. apply Hq'. lia.
  - apply w32_ext. intros i Hi. destruct (ly_array_head _ _ Hlay), (ly_head_window _ _ Hlay); apply Hw; lia.
  - apply w32_ext. intros i Hi. destruct (ly_array_base _ _ Hlay), (ly_base_window _ _ Hlay); apply Hw; lia.
  - intros i Hi Hne. destruct (Hm (V + 2 * i)) as [Ha|[Ha|Ha]]; [|lia|done].
    destruct (ly_array_window _ _ Hlay); lia.
Qed.

Lemma chain_ext m m' p ps q :
  (forall r, r ∈ ps -> next m' r = next m r) -> chain m p ps q -> chain m' p ps q.
Proof.
  revert p. induction ps as [|r ps IH]; intros p Hn; [done|]. intros [-> Hc]. split; [done|].
  rewrite (Hn r) by set_solver. apply IH; [|done]. intros r' Hr'. apply Hn. set_solver.
Qed.

Lemma chain_app m p ps ps' q :
  chain m p (ps ++ ps') q <-> exists r, chain m p ps r /\ chain m r ps' q.
Proof.
  revert p. induction ps as [|r ps IH]; intros p; [cbn [chain app]; naive_solver|].
  cbn [chain app]. rewrite IH. naive_solver.
Qed.

(** The list keeps its shape when links and locations stay. *)
Lemma listed_frame m m' ps :
  listed m ps -> w32 m' mp1_list_head = w32 m mp1_list_head ->
  (forall p, slot p -> w16 m' p = w16 m p /\ next m' p = next m p) -> listed m' ps.
Proof.
  intros [C N S L F] Hh Hs. constructor; [|done|done| |].
  - rewrite Hh. eapply chain_ext; [|exact C]. intros r Hr. apply Hs. by apply (Forall_forall slot ps).
  - rewrite Forall_forall in L, S |- *. intros p Hp. rewrite (proj1 (Hs p (S p Hp))). by apply L.
  - intros p Hp Hn. rewrite (proj1 (Hs p Hp)). by apply F.
Qed.

Lemma location_fields m p : location (fields m p) = w16 m p.
Proof. cbn. unfold LOCATION. by rewrite Z.add_0_r. Qed.

(** A change of one element that keeps its place, and of its character. *)
Lemma changed_listed chars m m' ps1 p ps2 c :
  listed m (ps1 ++ p :: ps2) -> window V chars m ->
  location (fields m' p) = w16 m p -> next m' p = next m p -> m' (V + 2 * w16 m p) = c ->
  (forall a, p <= a < p + 16 \/ a = V + 2 * w16 m p \/ m' a = m a) ->
  listed m' (ps1 ++ p :: ps2) /\ window V (upd (w16 m p) c chars) m' /\
  map (fields m') ps1 = map (fields m) ps1 /\ map (fields m') ps2 = map (fields m) ps2.
Proof.
  intros HL [Hb Hch] Hfl Hn Hc Ho. pose proof HL as [_ N S L _].
  rewrite Forall_forall in S, L. assert (Hp : slot p) by (apply S; set_solver).
  assert (Hl : 0 < w16 m p < 2000) by (apply L; set_solver).
  destruct (others_kept m m' p (w16 m p) Hp ltac:(lia) Ho) as (K1 & K2 & K3 & K4).
  apply NoDup_app in N as (N1 & N2 & [N3 N4]%NoDup_cons). split; [|split; [|split]].
  - apply (listed_frame m); [done|done|]. intros q Hq. destruct (decide (q = p)) as [->|Hne].
    + by rewrite <- location_fields, Hfl.
    + destruct (K1 q Hq Hne) as [Kf Kn]. split; [|done]. by rewrite <- !location_fields, Kf.
  - split; [by rewrite K3|]. intros i Hi.
    destruct (decide (i = w16 m p)) as [->|Hne]; [by rewrite upd_eq|by rewrite K4, upd_ne, Hch].
  - apply map_ext_in. intros q Hq%list_elem_of_In. apply K1; [apply S; set_solver|]. intros ->. set_solver.
  - apply map_ext_in. intros q Hq%list_elem_of_In. apply K1; [apply S; set_solver|]. intros ->. set_solver.
Qed.
(** A tick of one element of the list. *)
Lemma ticked_listed chars m m' ps1 p ps2 :
  ticked m p m' -> listed m (ps1 ++ p :: ps2) -> window V chars m ->
  listed m' (ps1 ++ p :: ps2) /\ window V (tick_char chars (fields m p)) m' /\
  map (fields m') ps1 = map (fields m) ps1 /\ map (fields m') ps2 = map (fields m) ps2 /\
  fields m' p = tick (fields m p) /\ next m' p = next m p.
Proof.
  intros (Hf & Hn & Ho & Hc) HL Hw.
  assert (Hloc : location (fields m' p) = w16 m p) by (rewrite Hf, <- location_fields; unfold tick; by destruct (due _)).
  destruct (changed_listed chars m m' ps1 p ps2 _ HL Hw Hloc Hn Hc Ho) as (L' & [Wb Wc] & F1 & F2).
  split_and!; try done. unfold tick_char. rewrite <- location_fields in Wc.
  destruct (due (fields m p)); split; try done. intros i Hi. rewrite Wc by done. unfold upd.
  destruct (Z.eqb_spec i (location (fields m p))) as [->|]; [|done]. rewrite location_fields.
  apply Hw. rewrite <- location_fields. lia.
Qed.

Definition slots : list Z := map (fun i => blink_array + STRUCT_SIZE * i) (seqZ 0 2000).

Lemma slots_spec p : p ∈ slots <-> slot p.
Proof.
  unfold slots, slot. rewrite list_elem_of_In, in_map_iff. split.
  - intros (i & <- & Hi). exists i. split; [|done]. apply list_elem_of_In, elem_of_seqZ in Hi. lia.
  - intros (i & Hi & ->). exists i. split; [done|]. apply list_elem_of_In, elem_of_seqZ. lia.
Qed.

Lemma slots_length : length slots = 2000%nat.
Proof. unfold slots. by rewrite length_map, length_seqZ. Qed.

Lemma listed_length m ps : listed m ps -> (length ps <= 2000)%nat.
Proof.
  intros [_ N S _ _]. rewrite <- slots_length. apply NoDup_incl_length; [by apply NoDup_ListNoDup|].
  intros p Hp. rewrite <- list_elem_of_In in *. apply slots_spec. by apply (Forall_forall slot ps).
Qed.

Lemma tasklet_rule chars m ps trash :
  listed m ps -> window V chars m ->
  mwp A (mp1_rtc_tasklet trash) (fun _ m' => listed m' ps /\
    map (fields m') ps = map tick (map (fields m) ps) /\
    window V (foldl tick_char chars (map (fields m) ps)) m') m.
Proof.
  intros HL Hw. pose proof (listed_length m ps HL) as Hlen. unfold mp1_rtc_tasklet.
  apply mwp_bind, mwp_load32; try (apply (ly_head _ _ Hlay); lia). intros _.
  apply mwp_loop_ghost with (g := ps) (mu := fun ps2 => Z.of_nat (length ps2))
    (I := fun ps2 ebx m' => exists ps1, ps = ps1 ++ ps2 /\ chain m' ebx ps2 0 /\ listed m' ps /\
       map (fields m') ps1 = map tick (map (fields m) ps1) /\ map (fields m') ps2 = map (fields m) ps2 /\
       window V (foldl tick_char chars (map (fields m) ps1)) m').
  - exists []. split_and!; try done. apply HL.
  - unfold loop_fuel. lia.
  - intros ps2 ebx m' (ps1 & E & Hc & HL' & H1 & H2 & Hw'). split; [lia|].
    destruct ps2 as [|p ps2]; cbn [chain] in Hc.
    + subst ebx. rewrite app_nil_r in E. subst ps1. by apply mwp_ret.
    + destruct Hc as [-> Hc]. subst ps.
      assert (Hp : slot p) by (eapply Forall_forall; [apply HL'|set_solver]).
      assert (Hl : 0 < w16 m' p < 2000).
      { pose proof (li_valid _ _ HL') as Hv. rewrite Forall_forall in Hv. apply Hv. set_solver. }
      rewrite (proj2 (Z.eqb_neq p 0)) by (pose proof (slot_range p Hp); lia).
      apply mwp_bind. eapply mwp_mono; [apply (tasklet_element_rule _ m' p Hw' Hp); lia|].
      intros [] m2 Ht. destruct (ticked_listed _ m' m2 ps1 p ps2 Ht HL' Hw') as (L2 & W2 & F1 & F2 & Fp & Np).
      apply mwp_bind, mwp_load32; try (rewrite <- ?Z.add_assoc; apply slot_access; [done|unfold NEXT; lia]).
      intros _. fold (next m2 p). rewrite Np. apply mwp_ret. exists ps2. split; [|simpl; lia].
      exists (ps1 ++ [p]). rewrite <- app_assoc. cbn [map] in H2.
      assert (Hfp : fields m' p = fields m p) by exact (f_equal (hd (fields m p)) H2).
      apply (f_equal tail) in H2. cbn [tail] in H2.
      split; [done|]. split; [|split; [done|split; [|split]]].
      * pose proof (li_nodup _ _ HL') as N. eapply chain_ext; [|exact Hc]. intros r Hr.
        assert (Hrs : slot r) by (eapply Forall_forall; [apply HL'|set_solver]).
        destruct Ht as (_ & _ & Ho & _). destruct (others_kept m' m2 p (w16 m' p) Hp ltac:(lia) Ho) as (K & _).
        apply K; [done|]. intros ->. apply NoDup_app in N as (_ & _ & [N _]%NoDup_cons). done.
      * rewrite !map_app, F1, H1. cbn [map]. by rewrite Fp, Hfp.
      * by rewrite F2.
      * rewrite map_app, foldl_app. cbn [map foldl]. by rewrite <- Hfp.
Qed.
(** ** Looking for an element *)

Lemma find_rule m ps l :
  listed m ps ->
  mwp A (mp1_find_helper l)
    (fun r m' => m' = m /\ r = default 0 (find (fun p => w16 m p =? u16 l) ps)) m.
Proof.
  intros HL. pose proof (listed_length m ps HL) as Hlen. unfold mp1_find_helper.
  apply mwp_bind, mwp_load32; try (apply (ly_head _ _ Hlay); lia). intros _.
  apply mwp_loop_ghost with (g := ps) (mu := fun ps2 => Z.of_nat (length ps2))
    (I := fun ps2 ebx m' => m' = m /\ chain m ebx ps2 0 /\ Forall slot ps2 /\
       find (fun p => w16 m p =? u16 l) ps = find (fun p => w16 m p =? u16 l) ps2).
  - split_and!; [done|apply HL|apply HL|done].
  - unfold loop_fuel. lia.
  - intros ps2 ebx m' (-> & Hc & Hs & Hf). split; [lia|].
    destruct ps2 as [|p ps2]; cbn [chain] in Hc; [subst ebx; apply mwp_ret; by rewrite Hf|].
    destruct Hc as [-> Hc]. apply Forall_cons in Hs as [Hp Hs].
    rewrite (proj2 (Z.eqb_neq p 0)) by (pose proof (slot_range p Hp); lia).
    apply mwp_bind, mwp_load16; [by apply slot_access|by apply slot_access1|]. intros _.
    unfold LOCATION. rewrite Z.add_0_r. cbn [find] in Hf. rewrite Z.eqb_sym. destruct (w16 m p =? u16 l) eqn:E.
    + apply mwp_ret. by rewrite Hf.
    + apply mwp_bind, mwp_load32; try (rewrite <- ?Z.add_assoc; apply slot_access; [done|unfold NEXT; lia]).
      intros _. apply mwp_ret. exists ps2. by split; [|simpl; lia].
Qed.

(** The first free cell. *)
Definition first_free (m : Z -> Z) (p : Z) : Prop :=
  exists i, 0 <= i < 2000 /\ p = blink_array + STRUCT_SIZE * i /\ w16 m p = 0 /\
    forall j, 0 <= j < i -> w16 m (blink_array + STRUCT_SIZE * j) <> 0.

Lemma first_free_slot m p : first_free m p -> slot p /\ w16 m p = 0.
Proof. intros (i & Hi & -> & H0' & _). split; [by exists i|done]. Qed.

Lemma malloc_rule m size :
  mwp A (mp1_malloc size) (fun r m' => m' = m /\
    ((r = 0 /\ forall p, slot p -> w16 m p <> 0) \/ first_free m r)) m.
Proof.
  unfold mp1_malloc.
  apply mwp_loop with (mu := fun i => 2000 - i)
    (I := fun i m' => m' = m /\ 0 <= i <= 2000 /\ forall j, 0 <= j < i -> w16 m (blink_array + STRUCT_SIZE * j) <> 0).
  - split; [done|]. split; [lia|]. intros j Hj. lia.
  - unfold loop_fuel. lia.
  - intros i m' (-> & Hi & Hz). split; [lia|]. change (80 * 25) with 2000. destruct (Z.ltb_spec i 2000).
    + assert (Hp : slot (blink_array + STRUCT_SIZE * i)) by (exists i; split; [lia|done]).
      apply mwp_bind, mwp_load16; [by apply slot_access|by apply slot_access1|]. intros _.
      unfold LOCATION. rewrite Z.add_0_r. destruct (Z.eqb_spec (w16 m (blink_array + STRUCT_SIZE * i)) 0).
      * apply mwp_ret. split; [done|]. right. exists i. split_and!; try done; lia.
      * apply mwp_ret. split; [|lia]. split; [done|]. split; [lia|]. intros j Hj.
        destruct (decide (j = i)) as [->|]; [done|apply Hz; lia].
    + apply mwp_ret. split; [done|]. left. split; [done|]. intros p (j & Hj & ->). apply Hz. lia.
Qed.

(** ** Copies *)

Lemma memcpy_rule m dst src n :
  0 <= n -> (forall i, 0 <= i < n -> A (dst + i)) -> (forall i, 0 <= i < n -> A (src + i)) ->
  apart dst n src n ->
  mwp A (ece391_memcpy dst src n) (fun r m' => r = 0 /\
    (forall i, 0 <= i < n -> m' (dst + i) = m (src + i)) /\
    forall a, dst <= a < dst + n \/ m' a = m a) m.
Proof.
  intros Hn Hd Hs Hap. unfold ece391_memcpy. apply mwp_bind.
  apply mwp_for_up with (I := fun j m' => (forall i, 0 <= i < j -> m' (dst + i) = m (src + i)) /\
    forall a, dst <= a < dst + j \/ m' a = m a).
  - split; [intros; lia|by right].
  - intros j m' Hj [H1 H2]. apply mwp_bind, mwp_load8; [apply Hs; lia|]. intros Hb.
    assert (Hsame : m' (src + j) = m (src + j)) by (destruct (H2 (src + j)); [unfold apart in Hap; lia|done]).
    apply mwp_store8; [apply Hd; lia|]. rewrite u8_small, Hsame by lia. split.
    + intros i Hi. destruct (decide (i = j)) as [->|]; [apply upd_eq|]. rewrite upd_ne by lia. apply H1. lia.
    + intros a. destruct (decide (a = dst + j)) as [->|]; [left; lia|]. rewrite upd_ne by done.
      destruct (H2 a); [left; lia|by right].
  - intros m' [H1 H2]. rewrite Z.add_0_l, Z2Nat.id in * by lia. apply mwp_ret. split; [done|]. by split.
Qed.

Lemma memset_rule m a c n :
  0 <= n -> (forall i, 0 <= i < n -> A (a + i)) ->
  mwp A (ece391_memset a c n) (fun _ m' => (forall i, 0 <= i < n -> m' (a + i) = u8 c) /\
    forall b, a <= b < a + n \/ m' b = m b) m.
Proof.
  intros Hn Ha. unfold ece391_memset.
  apply mwp_for_up with (I := fun j m' => (forall i, 0 <= i < j -> m' (a + i) = u8 c) /\
    forall b, a <= b < a + j \/ m' b = m b).
  - split; [intros; lia|by right].
  - intros j m' Hj [H1 H2]. apply mwp_store8; [apply Ha; lia|]. split.
    + intros i Hi. destruct (decide (i = j)) as [->|]; [apply upd_eq|]. rewrite upd_ne by lia. apply H1. lia.
    + intros b. destruct (decide (b = a + j)) as [->|]; [left; lia|]. rewrite upd_ne by done.
      destruct (H2 b); [left; lia|by right].
  - intros m'. by rewrite Z.add_0_l, Z2Nat.id by lia.
Qed.
(** ** Adding *)

(** Sixteen bytes of the program's own, for a structure. *)
Record buffer_ok (a : Z) : Prop := {
  bf_access : forall i, 0 <= i < 16 -> A (a + i);
  bf_array : apart a 16 blink_array 32000;
  bf_head : apart a 16 mp1_list_head 4;
  bf_base : apart a 16 vmem_base_addr 4;
  bf_window : apart a 16 V 4000 }.

(** The variables of the list and the screen are as they were. *)
Definition same_program (m m' : Z -> Z) : Prop :=
  forall a, blink_array <= a < blink_array + 32000 \/ mp1_list_head <= a < mp1_list_head + 4 \/
    vmem_base_addr <= a < vmem_base_addr + 4 \/ V <= a < V + 4000 -> m' a = m a.

Lemma fields_copy m m' d s :
  (forall i, 0 <= i < 12 -> m' (d + i) = m (s + i)) -> fields m' d = fields m s.
Proof.
  intros Hc. unfold fields, w16, COUNTDOWN, LOCATION, STATUS, ON_CHAR, OFF_CHAR, ON_LENGTH, OFF_LENGTH.
  rewrite <- !Z.add_assoc. by rewrite !Hc by lia.
Qed.

Lemma next_copy m m' p : (forall i, 12 <= i < 16 -> m' (p + i) = m (p + i)) -> next m' p = next m p.
Proof. intros Hc. apply w32_ext. intros i Hi. unfold NEXT. rewrite <- Z.add_assoc. apply Hc. lia. Qed.

Lemma same_program_fields m m' p : same_program m m' -> slot p -> fields m' p = fields m p /\ next m' p = next m p.
Proof.
  intros Hs Hp. destruct (slot_range p Hp) as (R1 & R2 & _). split.
  - apply fields_copy. intros i Hi. apply Hs. lia.
  - apply next_copy. intros i Hi. apply Hs. lia.
Qed.

Lemma same_program_window chars m m' : same_program m m' -> window V chars m -> window V chars m'.
Proof.
  intros Hs [Hb Hc]. split; [rewrite <- Hb; apply w32_ext; intros i Hi; apply Hs; lia|].
  intros i Hi. rewrite <- Hc by done. apply Hs. lia.
Qed.

Lemma same_program_frame chars m m' ps :
  same_program m m' -> listed m ps -> window V chars m ->
  listed m' ps /\ map (fields m') ps = map (fields m) ps /\ window V chars m'.
Proof.
  intros Hs HL Hw. split; [|split].
  - apply (listed_frame m); [done|apply w32_ext; intros i Hi; apply Hs; lia|]. intros p Hp.
    destruct (same_program_fields m m' p Hs Hp) as [Hf Hn]. split; [|done].
    by rewrite <- !location_fields, Hf.
  - apply map_ext_in. intros p Hp%list_elem_of_In. apply same_program_fields; [done|].
    eapply Forall_forall; [apply HL|done].
  - by apply (same_program_window chars m).
Qed.

(** [b] has been put into the free cell [p] in front of the list. *)
Record inserted (tmp p : Z) (b : blink) (m m' : Z -> Z) : Prop := {
  in_free : first_free m p;
  in_fields : fields m' p = started b;
  in_next : next m' p = w32 m mp1_list_head;
  in_head : w32 m' mp1_list_head = p;
  in_char : m' (V + 2 * location b) = on_char b;
  in_frame : forall a, tmp <= a < tmp + 16 \/ p <= a < p + 16 \/ mp1_list_head <= a < mp1_list_head + 4 \/
    a = V + 2 * location b \/ m' a = m a }.

(** What the routine makes of its copy of the structure. *)
Lemma started_copy m m1 tmp arg :
  (forall i, 0 <= i < 16 -> m1 (tmp + i) = m (arg + i)) ->
  0 <= w16 m1 (tmp + 4) < 2 ^ 16 ->
  fields (upd16 (tmp + 8) (w16 m1 (tmp + 4)) (upd16 (tmp + 10) 1 m1)) tmp = started (fields m arg).
Proof.
  intros Hc Hr. assert (Hf : fields m1 tmp = fields m arg) by (apply fields_copy; intros i Hi; apply Hc; lia).
  rewrite <- Hf. unfold started, fields, COUNTDOWN, LOCATION, STATUS, ON_CHAR, OFF_CHAR, ON_LENGTH, OFF_LENGTH.
  rewrite w16_upd16, (w16_upd16_out (tmp + 8) _ _ (tmp + 10)), w16_upd16 by lia.
  rewrite !w16_upd16_out, !upd16_out, u16_small by lia. reflexivity.
Qed.
(** Copying it to the cell [p], linking it and showing it. *)
Lemma link_rule chars m p tmp :
  window V chars m -> slot p -> buffer_ok tmp -> 0 <= location (fields m tmp) < 2000 ->
  mwp A (ece391_memcpy p tmp STRUCT_SIZE ;;
         let* head := uload32 mp1_list_head in
         ustore32 (p + NEXT) head ;;
         ustore32 mp1_list_head p ;;
         let* location := uload16 (p + LOCATION) in
         let* cl := uload8 (p + ON_CHAR) in
         mp1_poke cl (u32 (Z.shiftl location 1)) ;;
         ret 0)
    (fun r m' => r = 0 /\ fields m' p = fields m tmp /\ next m' p = w32 m mp1_list_head /\
       w32 m' mp1_list_head = p /\ m' (V + 2 * location (fields m tmp)) = on_char (fields m tmp) /\
       forall a, p <= a < p + 16 \/ mp1_list_head <= a < mp1_list_head + 4 \/
         a = V + 2 * location (fields m tmp) \/ m' a = m a) m.
Proof.
  intros Hw Hp Htmp Hl. set (b := fields m tmp) in *. destruct (slot_range p Hp) as (R1 & R2 & R3).
  assert (Hh : p + 16 <= mp1_list_head \/ mp1_list_head + 4 <= p) by (destruct (ly_array_head _ _ Hlay); lia).
  assert (Hv : p + 16 <= V \/ V + 4000 <= p) by (destruct (ly_array_window _ _ Hlay); lia).
  apply mwp_bind. eapply mwp_mono; [apply memcpy_rule|].
  - done.
  - intros i Hi. by apply slot_access.
  - intros i Hi. by apply (bf_access _ Htmp).
  - unfold STRUCT_SIZE. destruct (bf_array _ Htmp); unfold apart; lia.
  - intros r m1 (-> & H1 & F1).
    assert (Hf1 : fields m1 p = b) by (apply fields_copy; intros i Hi; apply H1; unfold STRUCT_SIZE; lia).
    assert (Hh1 : w32 m1 mp1_list_head = w32 m mp1_list_head).
    { apply w32_ext. intros i Hi. destruct (F1 (mp1_list_head + i)) as [?|?]; [unfold STRUCT_SIZE in *; lia|done]. }
    apply mwp_bind, mwp_load32; try (apply (ly_head _ _ Hlay); lia). intros Hhr.
    apply mwp_bind, mwp_store32; try (rewrite <- ?Z.add_assoc; apply slot_access; [done|unfold NEXT; lia]).
    apply mwp_bind, mwp_store32; try (apply (ly_head _ _ Hlay); lia).
    set (m2 := upd32 mp1_list_head p (upd32 (p + NEXT) (w32 m1 mp1_list_head) m1)).
    assert (Hf2 : fields m2 p = b).
    { rewrite <- Hf1. apply fields_copy. intros i Hi. unfold m2, NEXT. by rewrite !upd32_out by lia. }
    assert (Hn2 : next m2 p = w32 m mp1_list_head).
    { unfold next, m2, NEXT. rewrite w32_upd32_out, w32_upd32, u32_small by lia. exact Hh1. }
    assert (Hh2 : w32 m2 mp1_list_head = p) by (unfold m2; rewrite w32_upd32, u32_small; lia).
    assert (F2 : forall a, p <= a < p + 16 \/ mp1_list_head <= a < mp1_list_head + 4 \/ m2 a = m a).
    { intros a. destruct (decide (p <= a < p + 16)); [by left|].
      destruct (decide (mp1_list_head <= a < mp1_list_head + 4)); [by right; left|]. right; right.
      unfold m2, NEXT. rewrite !upd32_out by lia. destruct (F1 a); [unfold STRUCT_SIZE in *; lia|done]. }
    assert (Hw2 : window V chars m2).
    { destruct Hw as [Hb Hc]. split.
      - rewrite <- Hb. apply w32_ext. intros i Hi. destruct (F2 (vmem_base_addr + i)) as [?|[?|?]]; [| |done].
        + destruct (ly_array_base _ _ Hlay); lia.
        + destruct (ly_head_base _ _ Hlay); lia.
      - intros i Hi. rewrite <- Hc by done. destruct (F2 (V + 2 * i)) as [?|[?|?]]; [lia| |done].
        destruct (ly_head_window _ _ Hlay); lia. }
    apply mwp_bind, mwp_load16; [by apply slot_access|by apply slot_access1|]. intros _.
    apply mwp_bind, mwp_load8; [by apply slot_access|]. intros Hcr.
    assert (El : w16 m2 (p + LOCATION) = location b) by by rewrite <- Hf2.
    assert (Ec : m2 (p + ON_CHAR) = on_char b) by by rewrite <- Hf2.
    rewrite El, Ec in *. apply mwp_bind. apply (poke_rule chars m2); [done..|]. apply mwp_ret.
    split; [done|]. split; [|split; [|split; [|split]]].
    + etransitivity; [apply fields_copy|exact Hf2]. intros i Hi. apply upd_ne. lia.
    + rewrite <- Hn2. apply next_copy. intros i Hi. apply upd_ne. lia.
    + etransitivity; [apply w32_upd_out|exact Hh2]. destruct (ly_head_window _ _ Hlay); lia.
    + apply upd_eq.
    + intros a. destruct (decide (a = V + 2 * location b)); [by right; right; left|]. rewrite upd_ne by done.
      destruct (F2 a) as [?|[?|?]]; tauto.
Qed.
Lemma buffer_same tmp m m' :
  buffer_ok tmp -> (forall a, tmp <= a < tmp + 16 \/ m' a = m a) -> same_program m m'.
Proof.
  intros Hb Hm a Ha. destruct (Hm a) as [Hr|]; [|done]. exfalso.
  destruct (bf_array _ Hb), (bf_head _ Hb), (bf_base _ Hb), (bf_window _ Hb); lia.
Qed.

(** The three ways [mp1_ioctl_add] ends. *)
Lemma add_rule chars m tmp arg :
  window V chars m -> buffer_ok tmp -> (forall i, 0 <= i < 16 -> A (arg + i)) -> apart tmp 16 arg 16 ->
  mwp A (mp1_ioctl_add tmp arg) (fun r m' =>
    let b := fields m arg in
    (r = -1 /\ (2000 <= location b \/ forall p, slot p -> w16 m p <> 0) /\
       (forall a, tmp <= a < tmp + 16 \/ m' a = m a)) \/
    (r = 0 /\ 0 <= location b < 2000 /\ exists p, inserted tmp p b m m')) m.
Proof.
  intros Hw Htmp Harg Hap. unfold mp1_ioctl_add.
  apply mwp_bind. eapply mwp_mono; [apply memcpy_rule; try done; apply Htmp|]. intros r m1 (-> & H1 & F1).
  change (negb (0 =? 0)) with false. cbv iota. unfold STRUCT_SIZE in *.
  assert (Acc : forall k, 0 <= k < 16 -> A (tmp + k)) by apply Htmp.
  assert (Acc1 : forall k, 0 <= k < 15 -> A (tmp + k + 1)) by (intros k Hk; rewrite <- Z.add_assoc; apply Acc; lia).
  apply mwp_bind, mwp_load16; [by apply Acc|by apply Acc1|]. intros Hlr.
  assert (Hf1 : fields m1 tmp = fields m arg) by (apply fields_copy; intros i Hi; apply H1; lia).
  assert (El : w16 m1 (tmp + LOCATION) = location (fields m arg)) by by rewrite <- Hf1.
  rewrite El in *. change (80 * 25) with 2000. destruct (Z.leb_spec 2000 (location (fields m arg))) as [Hge|Hlt].
  { apply mwp_ret. left. split; [done|]. split; [by left|done]. }
  apply mwp_bind, mwp_store16; [by apply Acc|by apply Acc1|].
  apply mwp_bind, mwp_load16; [by apply Acc|by apply Acc1|]. intros Hon.
  apply mwp_bind, mwp_store16; [by apply Acc|by apply Acc1|].
  unfold STATUS, ON_LENGTH, COUNTDOWN in *.
  rewrite (w16_upd16_out (tmp + 10) 1 m1 (tmp + 4)) in * by lia.
  pose proof (started_copy m m1 tmp arg H1 Hon) as Hst.
  set (m3 := upd16 (tmp + 8) (w16 m1 (tmp + 4)) (upd16 (tmp + 10) 1 m1)) in *.
  assert (F3 : forall a, tmp <= a < tmp + 16 \/ m3 a = m a).
  { intros a. destruct (decide (tmp <= a < tmp + 16)); [by left|]. right. unfold m3.
    rewrite !upd16_out by lia. destruct (F1 a); [lia|done]. }
  pose proof (buffer_same tmp m m3 Htmp F3) as Hsame.
  pose proof (same_program_window chars m m3 Hsame Hw) as Hw3.
  assert (Hloc : forall p, slot p -> w16 m3 p = w16 m p).
  { intros p Hp. rewrite <- !location_fields. by rewrite (proj1 (same_program_fields m m3 p Hsame Hp)). }
  apply mwp_bind. eapply mwp_mono; [apply malloc_rule|]. intros r m4 (-> & [[-> Hfull]|Hfree]).
  { change (0 =? 0) with true. apply mwp_ret. left. split; [done|]. split; [|done]. right.
    intros p Hp. rewrite <- Hloc by done. by apply Hfull. }
  destruct (first_free_slot m3 r Hfree) as [Hp _].
  pose proof (slot_range r Hp) as Hr. rewrite (proj2 (Z.eqb_neq r 0)) by lia. cbv zeta.
  assert (Hls : location (fields m3 tmp) = location (fields m arg)) by by rewrite Hst.
  eapply mwp_mono; [apply (link_rule chars m3 r tmp Hw3 Hp Htmp); lia|].
  intros r' m' (-> & K1 & K2 & K3 & K4 & K5). right. split; [done|]. split; [lia|]. exists r.
  rewrite Hst in *. cbn [location on_char started] in K4, K5. constructor; try done.
  - destruct Hfree as (i & Hi & -> & H0' & Hj). exists i. split; [done|]. split; [done|].
    split; [by rewrite <- Hloc|]. intros j Hji. rewrite <- Hloc; [by apply Hj|]. exists j. split; [lia|done].
  - rewrite K2. apply w32_ext. intros i Hi. apply Hsame. lia.
  - intros a. destruct (K5 a) as [?|[?|[?|Ha]]]; try tauto. destruct (F3 a) as [?|Hb]; [tauto|].
    right; right; right; right. by rewrite Ha.
Qed.

Lemma inserted_window chars tmp p b m m' :
  inserted tmp p b m m' -> buffer_ok tmp -> window V chars m -> 0 <= location b < 2000 ->
  window V (upd (location b) (on_char b) chars) m'.
Proof.
  intros [Hfree _ _ _ Hc Hfr] Htmp [Hb Hch] Hl. destruct (first_free_slot m p Hfree) as [Hp Hp0].
  destruct (slot_range p Hp) as (R1 & R2 & _). split.
  - rewrite <- Hb. apply w32_ext. intros i Hi. destruct (Hfr (vmem_base_addr + i)) as [?|[?|[?|[?|?]]]]; [| | | |done]; exfalso.
    + destruct (bf_base _ Htmp); lia.
    + destruct (ly_array_base _ _ Hlay); lia.
    + destruct (ly_head_base _ _ Hlay); lia.
    + destruct (ly_base_window _ _ Hlay); lia.
  - intros i Hi. destruct (decide (i = location b)) as [->|Hne]; [by rewrite upd_eq|]. rewrite upd_ne, <- Hch by done.
    destruct (Hfr (V + 2 * i)) as [?|[?|[?|[?|?]]]]; [| | |lia|done]; exfalso.
    + destruct (bf_window _ Htmp); lia.
    + destruct (ly_array_window _ _ Hlay); lia.
    + destruct (ly_head_window _ _ Hlay); lia.
Qed.

(** A valid element is at the front of the list. *)
Lemma inserted_listed chars tmp p b m m' ps :
  inserted tmp p b m m' -> buffer_ok tmp -> listed m ps -> window V chars m -> 0 < location b < 2000 ->
  listed m' (p :: ps) /\ map (fields m') (p :: ps) = started b :: map (fields m) ps /\
  window V (upd (location b) (on_char b) chars) m'.
Proof.
  intros Hin Htmp [C N S L F] Hw Hl. pose proof (inserted_window chars tmp p b m m' Hin Htmp Hw ltac:(lia)) as Hw'.
  destruct Hin as [Hfree Hf Hn Hh Hc Hfr]. destruct (first_free_slot m p Hfree) as [Hp Hp0].
  destruct (slot_range p Hp) as (R1 & R2 & _).
  assert (Hq : forall q, slot q -> q <> p -> fields m' q = fields m q /\ next m' q = next m q).
  { intros q Hq Hne. destruct (slot_range q Hq) as (Q1 & Q2 & _). pose proof (slots_apart q p Hq Hp Hne).
    assert (Hsame : forall i, 0 <= i < 16 -> m' (q + i) = m (q + i)).
    { intros i Hi. destruct (Hfr (q + i)) as [?|[?|[?|[?|?]]]]; [| | | |done]; exfalso.
      - destruct (bf_array _ Htmp); lia.
      - lia.
      - destruct (ly_array_head _ _ Hlay); lia.
      - destruct (ly_array_window _ _ Hlay); lia. }
    split; [apply fields_copy|apply next_copy]; intros i Hi; apply Hsame; lia. }
  assert (Hnp : p ∉ ps).
  { intros Hin. rewrite Forall_forall in L. specialize (L p Hin). lia. }
  assert (Hqs : forall q, q ∈ ps -> fields m' q = fields m q /\ next m' q = next m q).
  { intros q Hin. apply Hq; [by apply (Forall_forall slot ps)|]. by intros ->. }
  split; [|split].
  - constructor.
    + rewrite Hh. split; [done|]. rewrite Hn. eapply chain_ext; [|exact C]. intros r Hr. by apply Hqs.
    + by constructor.
    + by constructor.
    + constructor; [rewrite <- location_fields, Hf; done|]. rewrite Forall_forall in L |- *. intros q Hin.
      rewrite <- location_fields, (proj1 (Hqs q Hin)), location_fields. by apply L.
    + intros q Hsq Hin. rewrite <- location_fields, (proj1 (Hq q Hsq ltac:(set_solver))), location_fields.
      apply F; [done|set_solver].
  - cbn [map]. rewrite Hf. f_equal. apply map_ext_in. intros q Hin%list_elem_of_In. by apply Hqs.
  - exact Hw'.
Qed.
(** ** Removing *)

Lemma find_split {B} (f : B -> bool) l x :
  find f l = Some x -> exists l1 l2, l = l1 ++ x :: l2 /\ f x = true /\ Forall (fun y => f y = false) l1.
Proof.
  induction l as [|y l IH]; cbn [find]; [done|]. destruct (f y) eqn:E.
  - intros [= ->]. by exists [], l.
  - intros (l1 & l2 & -> & Hx & H1)%IH. exists (y :: l1), l2. split; [done|]. split; [done|]. by constructor.
Qed.

(** The address of the pointer that leads past the elements [ds]. *)
Definition link_of (ds : list Z) : Z := match last ds with Some q => q + NEXT | None => mp1_list_head end.

Lemma link_value m p ds rest : chain m (w32 m mp1_list_head) (ds ++ p :: rest) 0 -> w32 m (link_of ds) = p.
Proof.
  intros Hc. apply chain_app in Hc as (r & H1 & [-> _]). unfold link_of.
  destruct ds as [|q ds _] using rev_ind; [exact H1|]. rewrite last_snoc.
  apply chain_app in H1 as (r' & _ & [_ H1]). exact H1.
Qed.

Lemma link_access ds k : Forall slot ds -> 0 <= k < 4 -> A (link_of ds + k).
Proof.
  intros Hs Hk. unfold link_of. destruct (last ds) as [q|] eqn:E.
  - rewrite <- Z.add_assoc. apply slot_access; [|unfold NEXT; lia].
    apply last_Some in E as [l ->]. apply Forall_app in Hs as [_ Hs]. by inversion Hs.
  - apply (ly_head _ _ Hlay). lia.
Qed.

Lemma link_access0 ds : Forall slot ds -> A (link_of ds).
Proof. intros Hs. rewrite <- (Z.add_0_r (link_of ds)). by apply link_access. Qed.

Lemma find_prev_rule m p ps1 ps2 :
  listed m (ps1 ++ p :: ps2) ->
  mwp A (loop (fun edx =>
      let* q := uload32 edx in
      if q =? p then ret (inr edx) else ret (inl (q + NEXT))) mp1_list_head)
    (fun edx m' => m' = m /\ edx = link_of ps1) m.
Proof.
  intros HL. pose proof (listed_length m _ HL) as Hlen. pose proof HL as [C N S _ _].
  apply mwp_loop_ghost with (g := ps1) (mu := fun rest => Z.of_nat (length rest))
    (I := fun rest edx m' => m' = m /\ exists ds, ps1 = ds ++ rest /\ edx = link_of ds).
  - split; [done|]. by exists [].
  - rewrite length_app in Hlen. unfold loop_fuel. lia.
  - intros rest edx m' (-> & ds & -> & ->). split; [lia|].
    assert (Hds : Forall slot ds) by (rewrite !Forall_app in S; tauto).
    apply mwp_bind, mwp_load32; try (by apply link_access0); try (apply link_access; [done|lia]).
    intros _. destruct rest as [|q rest].
    + rewrite app_nil_r in *. rewrite (link_value m p ds ps2 C), Z.eqb_refl. by apply mwp_ret.
    + rewrite <- app_assoc in C. cbn [app] in C. rewrite (link_value m q ds (rest ++ p :: ps2) C).
      assert (Hne : q <> p).
      { intros ->. rewrite <- app_assoc in N. apply NoDup_app in N as (_ & _ & N). cbn [app] in N.
        apply NoDup_cons in N as [N _]. apply N. set_solver. }
      rewrite (proj2 (Z.eqb_neq q p)) by done. apply mwp_ret. exists rest. split; [|simpl; lia].
      split; [done|]. exists (ds ++ [q]). rewrite <- app_assoc. split; [done|]. unfold link_of. by rewrite last_snoc.
Qed.

(** [p] has been unlinked and its cell cleared. *)
Definition removed (m : Z -> Z) (ps1 : list Z) (p : Z) (m' : Z -> Z) : Prop :=
  w32 m' (link_of ps1) = next m p /\ (forall i, 0 <= i < 16 -> m' (p + i) = 0) /\
  forall a, p <= a < p + 16 \/ link_of ps1 <= a < link_of ps1 + 4 \/ m' a = m a.

Lemma remove_rule m ps l :
  listed m ps ->
  mwp A (mp1_ioctl_remove l) (fun r m' =>
    match find (fun p => w16 m p =? u16 l) ps with
    | None => r = -1 /\ m' = m
    | Some p => r = 0 /\ exists ps1 ps2, ps = ps1 ++ p :: ps2 /\ w16 m p = u16 l /\
        Forall (fun q => w16 m q <> u16 l) ps1 /\ removed m ps1 p m'
    end) m.
Proof.
  intros HL. pose proof HL as [C N S _ _]. unfold mp1_ioctl_remove.
  apply mwp_bind. eapply mwp_mono; [by apply (find_rule m ps l)|]. intros r m1 (-> & ->).
  destruct (find _ ps) as [p|] eqn:Hfind; cbn [default from_option id].
  2: { change (0 =? 0) with true. by apply mwp_ret. }
  apply find_split in Hfind as (ps1 & ps2 & -> & Hp%Z.eqb_eq & H1).
  apply Forall_app in S as [S1 [Sp S2]%Forall_cons]. pose proof (slot_range p Sp) as Hr.
  rewrite (proj2 (Z.eqb_neq p 0)) by lia.
  apply mwp_bind. eapply mwp_mono; [by apply (find_prev_rule m p ps1 ps2)|]. intros edx m1 (-> & ->).
  apply mwp_bind, mwp_load32; try (rewrite <- ?Z.add_assoc; apply slot_access; [done|unfold NEXT; lia]).
  intros Hnr. apply mwp_bind, mwp_store32; try (by apply link_access0); try (apply link_access; [done|lia]).
  set (m1 := upd32 (link_of ps1) (w32 m (p + NEXT)) m).
  assert (Hap : p + 16 <= link_of ps1 \/ link_of ps1 + 4 <= p).
  { unfold link_of. destruct (last ps1) as [q|] eqn:E; [|destruct (ly_array_head _ _ Hlay); lia].
    apply last_Some in E as [l' ->]. apply Forall_app in S1 as [_ [Sq _]%Forall_cons].
    assert (q <> p). { intros ->. apply NoDup_app in N as (_ & N & _). apply (N p); set_solver. }
    pose proof (slots_apart q p Sq Sp). unfold NEXT. lia. }
  apply mwp_bind. eapply mwp_mono; [apply memset_rule; [done|intros i Hi; by apply slot_access]|].
  intros [] m2 [Hz Hfr]. unfold STRUCT_SIZE in *. apply mwp_ret. split; [done|]. exists ps1, ps2.
  split; [done|]. split; [done|]. split.
  { eapply Forall_impl; [exact H1|]. intros q Hq. by apply Z.eqb_neq. }
  split; [|split].
  - etransitivity; [apply (w32_ext m1)|unfold m1; rewrite w32_upd32, u32_small; [done|exact Hnr]].
    intros i Hi. destruct (Hfr (link_of ps1 + i)); [lia|done].
  - intros i Hi. rewrite Hz by done. done.
  - intros a. destruct (Hfr a) as [?|Ha]; [by left|]. rewrite Ha.
    destruct (decide (link_of ps1 <= a < link_of ps1 + 4)); [by right; left|]. right; right. apply upd32_out. lia.
Qed.
(** Where the pointer that leads past [ds] is. *)
Lemma link_cases ds :
  Forall slot ds -> (ds = [] /\ link_of ds = mp1_list_head) \/
    exists ds' q, ds = ds' ++ [q] /\ slot q /\ link_of ds = q + NEXT.
Proof.
  intros Hs. destruct ds as [|q ds _] using rev_ind; [by left|]. right. exists ds, q. unfold link_of.
  rewrite last_snoc. apply Forall_app in Hs as [_ Hs]. inversion Hs. done.
Qed.

(** Elements other than [p] keep their fields, and those whose link is not the
    one that has been changed their link. *)
Lemma removed_others m ps1 p ps2 m' :
  removed m ps1 p m' -> listed m (ps1 ++ p :: ps2) -> forall q, slot q -> q <> p ->
  fields m' q = fields m q /\ (last ps1 <> Some q -> next m' q = next m q).
Proof.
  intros (_ & _ & Hfr) [_ N S _ _] q Hq Hne. apply Forall_app in S as [S1 [Sp S2]%Forall_cons].
  destruct (slot_range q Hq) as (Q1 & Q2 & _). pose proof (slots_apart q p Hq Sp Hne) as Hqp.
  assert (Hsame : forall i, 0 <= i < 16 -> ~ link_of ps1 <= q + i < link_of ps1 + 4 -> m' (q + i) = m (q + i)).
  { intros i Hi Hl. destruct (Hfr (q + i)) as [?|[?|?]]; [lia|lia|done]. }
  destruct (link_cases ps1 S1) as [[-> E]|(ds & x & -> & Hx & E)]; rewrite E in Hsame.
  - assert (Hh : q + 16 <= mp1_list_head \/ mp1_list_head + 4 <= q) by (destruct (ly_array_head _ _ Hlay); lia).
    split; [apply fields_copy|intros _; apply next_copy]; intros i Hi; apply Hsame; lia.
  - unfold NEXT in Hsame. destruct (decide (q = x)) as [->|Hqx].
    + split; [apply fields_copy; intros i Hi; apply Hsame; lia|]. by rewrite last_snoc.
    + pose proof (slots_apart q x Hq Hx Hqx).
      split; [apply fields_copy|intros _; apply next_copy]; intros i Hi; apply Hsame; lia.
Qed.

Lemma removed_window chars m ps1 p ps2 m' :
  removed m ps1 p m' -> listed m (ps1 ++ p :: ps2) -> window V chars m -> window V chars m'.
Proof.
  intros (_ & _ & Hfr) [_ _ S _ _] [Hb Hc]. apply Forall_app in S as [S1 [Sp _]%Forall_cons].
  destruct (slot_range p Sp) as (R1 & R2 & _).
  assert (Hsame : forall a, vmem_base_addr <= a < vmem_base_addr + 4 \/ V <= a < V + 4000 -> m' a = m a).
  { intros a Ha. destruct (Hfr a) as [?|[Hl|?]]; [| |done]; exfalso.
    - destruct (ly_array_base _ _ Hlay), (ly_array_window _ _ Hlay); lia.
    - destruct (link_cases ps1 S1) as [[-> E]|(ds & x & -> & Hx & E)]; rewrite E in Hl.
      + destruct (ly_head_base _ _ Hlay), (ly_head_window _ _ Hlay); lia.
      + destruct (slot_range x Hx) as (X1 & X2 & _). unfold NEXT in Hl.
        destruct (ly_array_base _ _ Hlay), (ly_array_window _ _ Hlay); lia. }
  split; [rewrite <- Hb; apply w32_ext; intros i Hi; apply Hsame; lia|].
  intros i Hi. rewrite <- Hc by done. apply Hsame. lia.
Qed.

Lemma removed_chain m ps1 p ps2 m' :
  removed m ps1 p m' -> listed m (ps1 ++ p :: ps2) -> chain m' (w32 m' mp1_list_head) (ps1 ++ ps2) 0.
Proof.
  intros Hrm HL. pose proof HL as [C N S _ _]. pose proof (removed_others m ps1 p ps2 m' Hrm HL) as Ho.
  destruct Hrm as (Hlink & _ & Hfr). apply NoDup_app in N as (N1 & N2 & [Np N3]%NoDup_cons).
  apply Forall_app in S as [S1 [Sp S2]%Forall_cons]. rewrite Forall_forall in S1, S2.
  apply chain_app in C as (r & C1 & [-> C2]).
  assert (Hps2 : chain m' (next m p) ps2 0).
  { eapply chain_ext; [|exact C2]. intros q Hq. apply Ho; [by apply S2|by intros ->|]. intros Hl.
    apply last_Some in Hl as [l' ->]. apply (N2 q); set_solver. }
  destruct (link_cases ps1) as [[-> E]|(ds & x & -> & Hx & E)]; [by apply Forall_forall| |].
  - rewrite E in Hlink. cbn [app]. by rewrite Hlink.
  - rewrite E in Hlink. fold (next m' x) in Hlink. apply chain_app. exists (next m p). split; [|exact Hps2].
    apply chain_app in C1 as (r & C1 & [-> Cx]). apply chain_app. exists x.
    apply NoDup_app in N1 as (_ & N4 & _).
    assert (Hh : w32 m' mp1_list_head = w32 m mp1_list_head).
    { apply w32_ext. intros i Hi. destruct (slot_range p Sp) as (? & ? & _), (slot_range x Hx) as (? & ? & _).
      destruct (Hfr (mp1_list_head + i)) as [?|[?|?]]; [| |done]; exfalso; unfold NEXT in *;
        destruct (ly_array_head _ _ Hlay); lia. }
    rewrite Hh. split; [|by split].
    eapply chain_ext; [|exact C1]. intros q Hq. apply Ho; [apply S1; set_solver| |].
    + intros ->. apply (N2 p); set_solver.
    + rewrite last_snoc. intros [= ->]. apply (N4 q); set_solver.
Qed.

Lemma removed_listed chars m ps1 p ps2 m' :
  removed m ps1 p m' -> listed m (ps1 ++ p :: ps2) -> window V chars m ->
  listed m' (ps1 ++ ps2) /\ map (fields m') (ps1 ++ ps2) = map (fields m) (ps1 ++ ps2) /\ window V chars m'.
Proof.
  intros Hrm HL Hw. pose proof (removed_others m ps1 p ps2 m' Hrm HL) as Ho.
  pose proof (removed_chain m ps1 p ps2 m' Hrm HL) as C'. pose proof (removed_window chars m ps1 p ps2 m' Hrm HL Hw) as W'.
  destruct HL as [_ N S L F]. destruct Hrm as (_ & Hz & _).
  assert (Hin : forall q, q ∈ ps1 ++ ps2 -> slot q /\ q <> p /\ 0 < w16 m q < 2000).
  { rewrite Forall_forall in S, L. intros q Hq.
    split; [apply S; set_solver|]. split; [|apply L; set_solver].
    intros ->. apply NoDup_app in N as (_ & N2 & [Np _]%NoDup_cons). apply elem_of_app in Hq as [Hq|Hq]; [|done].
    apply (N2 p); set_solver. }
  assert (Hloc : forall q, slot q -> q <> p -> w16 m' q = w16 m q).
  { intros q Hq Hne. rewrite <- !location_fields. by rewrite (proj1 (Ho q Hq Hne)). }
  split; [|split; [|exact W']].
  - constructor; [exact C'| | | |].
    + apply NoDup_app in N as (N1 & N2 & [_ N3]%NoDup_cons). apply NoDup_app. split; [done|]. split; [|done].
      intros q Hq Hq2. apply (N2 q Hq). set_solver.
    + apply Forall_forall. intros q Hq. by apply Hin.
    + apply Forall_forall. intros q Hq. destruct (Hin q Hq) as (? & ? & ?). by rewrite Hloc.
    + intros q Hq Hn. destruct (decide (q = p)) as [->|Hne].
      * unfold w16. rewrite (Hz 1) by lia. rewrite <- (Z.add_0_r p), (Hz 0) by lia. done.
      * rewrite Hloc by done. apply F; [done|set_solver].
  - apply map_ext_in. intros q Hq%list_elem_of_In. destruct (Hin q Hq) as (? & ? & _). by apply Ho.
Qed.
(** ** Synchronising *)

Lemma no_sign z : Z.testbit (Z.land 1 z) 7 = false.
Proof. by rewrite Z.land_spec. Qed.

Lemma find_slot_spec m ps l p :
  listed m ps -> find (fun p => w16 m p =? u16 l) ps = Some p -> slot p /\ p <> 0 /\ w16 m p = u16 l /\
  exists ps1 ps2, ps = ps1 ++ p :: ps2 /\ Forall (fun b => location b <> u16 l) (map (fields m) ps1).
Proof.
  intros [_ _ S _ _] Hf. apply find_split in Hf as (ps1 & ps2 & -> & Hp%Z.eqb_eq & H1).
  apply Forall_app in S as [_ [Sp _]%Forall_cons]. pose proof (slot_range p Sp). split; [done|]. split; [lia|].
  split; [done|]. exists ps1, ps2. split; [done|]. apply Forall_map. eapply Forall_impl; [exact H1|].
  intros q Hq%Z.eqb_neq. by rewrite location_fields.
Qed.

(** The fields of [q] after the four copies from [p]. *)
Lemma copies_rule m p q (Q : Z -> (Z -> Z) -> Prop) (f : K Z) :
  slot p -> slot q ->
  (forall m', fields m' q = synced (fields m p) (fields m q) -> next m' q = next m q ->
     (forall a, q <= a < q + 16 \/ m' a = m a) -> mwp A f Q m') ->
  mwp A (let* ax := uload16 (p + ON_LENGTH) in
         ustore16 (q + ON_LENGTH) ax ;;
         let* ax := uload16 (p + OFF_LENGTH) in
         ustore16 (q + OFF_LENGTH) ax ;;
         let* ax := uload16 (p + COUNTDOWN) in
         ustore16 (q + COUNTDOWN) ax ;;
         let* ax := uload16 (p + STATUS) in
         ustore16 (q + STATUS) ax ;; f) Q m.
Proof.
  intros Hp Hq Hf.
  assert (Hap : p = q \/ p + 16 <= q \/ q + 16 <= p) by (destruct (decide (p = q)); [by left|right; by apply slots_apart]).
  unfold ON_LENGTH, OFF_LENGTH, COUNTDOWN, STATUS.
  apply mwp_bind, mwp_load16; [by apply slot_access|by apply slot_access1|]. intros R1.
  apply mwp_bind, mwp_store16; [by apply slot_access|by apply slot_access1|].
  apply mwp_bind, mwp_load16; [by apply slot_access|by apply slot_access1|].
  rewrite w16_upd16_out by lia. intros R2.
  apply mwp_bind, mwp_store16; [by apply slot_access|by apply slot_access1|].
  apply mwp_bind, mwp_load16; [by apply slot_access|by apply slot_access1|].
  rewrite !w16_upd16_out by lia. intros R3.
  apply mwp_bind, mwp_store16; [by apply slot_access|by apply slot_access1|].
  apply mwp_bind, mwp_load16; [by apply slot_access|by apply slot_access1|].
  rewrite !w16_upd16_out by lia. intros R4.
  apply mwp_bind, mwp_store16; [by apply slot_access|by apply slot_access1|].
  apply Hf.
  - unfold synced, fields. cbn [on_length off_length countdown status location on_char off_char].
    unfold ON_LENGTH, OFF_LENGTH, COUNTDOWN, STATUS, LOCATION, ON_CHAR, OFF_CHAR.
    rewrite w16_upd16, (w16_upd16_out (q + 10) _ _ (q + 8)), w16_upd16, !(w16_upd16_out (q + 10)), !(w16_upd16_out (q + 8)),
      w16_upd16, !(w16_upd16_out (q + 6)), w16_upd16, w16_upd16_out, !upd16_out, !u16_small by lia. reflexivity.
  - unfold next, NEXT. by rewrite !w32_upd16_out by lia.
  - intros a. destruct (decide (q <= a < q + 16)); [by left|]. right. by rewrite !upd16_out by lia.
Qed.
Lemma sync_rule chars m ps arg :
  listed m ps -> window V chars m -> 0 <= arg < 2 ^ 32 ->
  mwp A (mp1_ioctl_sync arg) (fun r m' =>
    match find (fun p => w16 m p =? u16 (Z.shiftr arg 16)) ps, find (fun p => w16 m p =? u16 (Z.land arg 0xFFFF)) ps with
    | Some p, Some q =>
      r = 0 /\ fields m' q = synced (fields m p) (fields m q) /\ next m' q = next m q /\
      m' (V + 2 * w16 m q) = off_char (fields m q) /\
      forall a, q <= a < q + 16 \/ a = V + 2 * w16 m q \/ m' a = m a
    | _, _ => r = -1 /\ m' = m
    end) m.
Proof.
  intros HL Hw Harg. pose proof HL as [_ _ _ L _]. unfold mp1_ioctl_sync. rewrite (u32_small arg) by lia.
  apply mwp_bind. eapply mwp_mono; [by apply (find_rule m ps)|]. intros r m1 (-> & ->).
  destruct (find _ ps) as [p|] eqn:Ep; cbn [default from_option id].
  2: { change (0 =? 0) with true. by apply mwp_ret. }
  destruct (find_slot_spec m ps _ p HL Ep) as (Hp & Hp0 & _). rewrite (proj2 (Z.eqb_neq p 0)) by done.
  apply mwp_bind. eapply mwp_mono; [by apply (find_rule m ps)|]. intros r m1 (-> & ->).
  destruct (find (fun p => w16 m p =? u16 (Z.land arg 65535)) ps) as [q|] eqn:Eq; cbn [default from_option id].
  2: { change (0 =? 0) with true. by apply mwp_ret. }
  destruct (find_slot_spec m ps _ q HL Eq) as (Hq & Hq0 & Hlq & ps1 & ps2 & Hps & _).
  rewrite (proj2 (Z.eqb_neq q 0)) by done. destruct (slot_range q Hq) as (Q1 & Q2 & _).
  assert (Hl : 0 <= w16 m q < 2000).
  { rewrite Forall_forall in L. specialize (L q). rewrite Hps in L. pose proof (L ltac:(set_solver)). lia. }
  apply copies_rule; [done|done|]. intros m1 Hf Hn Hfr.
  assert (Hloc : w16 m1 (q + LOCATION) = w16 m q) by (change (location (fields m1 q) = w16 m q); by rewrite Hf, <- location_fields).
  assert (Hoff : m1 (q + OFF_CHAR) = off_char (fields m q)) by (change (off_char (fields m1 q) = off_char (fields m q)); by rewrite Hf).
  assert (Hw1 : window V chars m1).
  { apply (window_frame chars m); [done|]. intros a. destruct (Hfr a); [left; lia|by right]. }
  assert (Hv : q + 16 <= V + 2 * w16 m q \/ V + 2 * w16 m q + 1 <= q) by (destruct (ly_array_window _ _ Hlay); lia).
  apply mwp_bind, mwp_load16; [by apply slot_access|by apply slot_access1|]. intros _.
  apply mwp_bind, mwp_load8; [by apply slot_access|]. intros Hcr.
  apply mwp_bind, mwp_load8; [by apply slot_access|]. intros _.
  apply mwp_bind, mwp_load8; [by apply slot_access|]. intros _. cbv zeta. rewrite no_sign, Hloc, Hoff in *.
  apply mwp_bind. apply (poke_rule chars m1); [done..|]. apply mwp_ret. split; [done|].
  split; [|split; [|split]].
  - etransitivity; [apply fields_copy|exact Hf]. intros i Hi. apply upd_ne. lia.
  - etransitivity; [apply next_copy|exact Hn]. intros i Hi. apply upd_ne. lia.
  - apply upd_eq.
  - intros a. destruct (decide (a = V + 2 * w16 m q)); [by right; left|]. rewrite upd_ne by done.
    destruct (Hfr a); [by left|by right; right].
Qed.

(** ** Operations on the abstract list *)

Lemma find_fields m ps l :
  find_first l (map (fields m) ps) = option_map (fields m) (find (fun p => w16 m p =? l) ps).
Proof.
  unfold find_first. induction ps as [|p ps IH]; [done|]. cbn [map find]. rewrite location_fields.
  destruct (w16 m p =? l); [done|exact IH].
Qed.

Lemma tick_op bs chars m trash :
  blinks V bs chars m ->
  mwp A (mp1_rtc_tasklet trash) (fun _ m' => blinks V (map tick bs) (foldl tick_char chars bs) m') m.
Proof.
  intros [Hw (ps & HL & ->)]. eapply mwp_mono; [by apply (tasklet_rule chars m ps)|].
  intros _ m' (L' & F' & W'). split; [exact W'|]. exists ps. by rewrite F'.
Qed.

(** The list is full when no cell is free. *)
Lemma full_listed m ps : listed m ps -> (forall p, slot p -> w16 m p <> 0) -> length ps = 2000%nat.
Proof.
  intros HL Hf. apply Nat.le_antisymm; [by eapply listed_length|]. rewrite <- slots_length.
  apply NoDup_incl_length.
  - apply NoDup_ListNoDup. unfold slots. apply NoDup_fmap_2; [|apply NoDup_seqZ].
    intros i j. unfold STRUCT_SIZE. lia.
  - intros p Hp. rewrite <- list_elem_of_In in *. apply slots_spec in Hp.
    destruct (decide (p ∈ ps)) as [|Hn]; [done|]. exfalso. apply (Hf p Hp). by apply (li_free _ _ HL).
Qed.

Lemma free_listed m ps p : listed m ps -> slot p -> w16 m p = 0 -> (length ps < 2000)%nat.
Proof.
  intros [_ N S L _] Hp H0'. assert (Hn : p ∉ ps).
  { intros Hin. rewrite Forall_forall in L. specialize (L p Hin). lia. }
  assert (Hlen : (length (p :: ps) <= 2000)%nat); [|simpl in Hlen; lia]. rewrite <- slots_length.
  apply NoDup_incl_length; [apply NoDup_ListNoDup; by constructor|].
  intros q Hq. rewrite <- list_elem_of_In in *. apply slots_spec. apply elem_of_cons in Hq as [->|Hq]; [done|].
  by apply (Forall_forall slot ps).
Qed.
Context (tmp arg : Z) (Htmp : buffer_ok tmp) (Harg : buffer_ok arg) (Hapart : apart tmp 16 arg 16).

(** A request, the way [main] makes it. *)
Definition run_op (op : blink_op) : K Z :=
  match op with
  | Tick => mp1_rtc_tasklet 0 ;; ret 0
  | Add b =>
    set_blink arg (on_char b) (off_char b) (on_length b) (off_length b) (location b) ;;
    mp1_ioctl tmp arg RTC_ADD
  | Remove l => mp1_ioctl tmp l RTC_REMOVE
  | Sync s d => mp1_ioctl tmp (Z.lor (Z.shiftl s 16) d) RTC_SYNC
  end.

Fixpoint run_ops (ops : list blink_op) : K (list Z) :=
  match ops with
  | [] => ret []
  | op :: ops => let* r := run_op op in let* rs := run_ops ops in ret (r :: rs)
  end.

Lemma set_blink_rule m b :
  members_ok b ->
  mwp A (set_blink arg (on_char b) (off_char b) (on_length b) (off_length b) (location b))
    (fun _ m' => started (fields m' arg) = started b /\ (forall a, arg <= a < arg + 16 \/ m' a = m a)) m.
Proof.
  intros (Hl & Hon & Hoff & Hol & Hfl).
  assert (Acc : forall k, 0 <= k < 16 -> A (arg + k)) by apply Harg.
  assert (Acc1 : forall k, 0 <= k < 15 -> A (arg + k + 1)) by (intros k Hk; rewrite <- Z.add_assoc; apply Acc; lia).
  unfold set_blink, ON_CHAR, OFF_CHAR, ON_LENGTH, OFF_LENGTH, LOCATION.
  apply mwp_bind, mwp_store8; [by apply Acc|]. apply mwp_bind, mwp_store8; [by apply Acc|].
  apply mwp_bind, mwp_store16; [by apply Acc|by apply Acc1|].
  apply mwp_bind, mwp_store16; [by apply Acc|by apply Acc1|].
  apply mwp_store16; [by apply Acc|by apply Acc1|]. split.
  - unfold started, fields. cbn [on_length off_length countdown status location on_char off_char].
    unfold ON_LENGTH, OFF_LENGTH, LOCATION, ON_CHAR, OFF_CHAR.
    rewrite w16_upd16, (w16_upd16_out (arg + 0) _ _ (arg + 4)), (w16_upd16_out (arg + 0) _ _ (arg + 6)), w16_upd16 by lia.
    rewrite (w16_upd16_out (arg + 6) _ _ (arg + 4)), w16_upd16, !upd16_out by lia.
    rewrite (upd_ne (arg + 3)), !upd_eq, !u16_small, !u8_small by lia. by destruct b.
  - intros a. destruct (decide (arg <= a < arg + 16)); [by left|]. right.
    by rewrite !upd16_out, !upd_ne by lia.
Qed.

Lemma buffer_blinks buf bs chars m m' :
  buffer_ok buf -> (forall a, buf <= a < buf + 16 \/ m' a = m a) -> blinks V bs chars m -> blinks V bs chars m'.
Proof.
  intros Hb Hm [Hw (ps & HL & ->)]. destruct (same_program_frame chars m m' ps) as (L' & F' & W'); [|done..|].
  - by apply (buffer_same buf).
  - split; [exact W'|]. exists ps. by rewrite F'.
Qed.

Lemma run_add_rule chars m b :
  window V chars m -> members_ok b ->
  mwp A (run_op (Add b)) (fun r m' => exists m1 b', started b' = started b /\
    (forall a, arg <= a < arg + 16 \/ m1 a = m a) /\
    ((r = -1 /\ (2000 <= location b \/ forall p, slot p -> w16 m1 p <> 0) /\
        (forall a, tmp <= a < tmp + 16 \/ m' a = m1 a)) \/
     (r = 0 /\ 0 <= location b < 2000 /\ exists p, inserted tmp p b' m1 m'))) m.
Proof.
  intros Hw Hb. apply mwp_bind. eapply mwp_mono; [by apply set_blink_rule|]. intros [] m1 [Hst F1].
  assert (Hw1 : window V chars m1) by (apply (same_program_window chars m); [by apply (buffer_same arg)|done]).
  eapply mwp_mono; [apply (add_rule chars m1 tmp arg Hw1 Htmp); [apply Harg|done]|].
  intros r m2 Hr. exists m1, (fields m1 arg). split; [done|]. split; [done|].
  assert (Hloc : location (fields m1 arg) = location b) by exact (f_equal location Hst).
  cbn beta zeta in Hr. rewrite Hloc in Hr. exact Hr.
Qed.

(** The bytes of the list, of the screen and of the routine's own structure. *)
Definition scratch (a : Z) : Prop :=
  tmp <= a < tmp + 16 \/ blink_array <= a < blink_array + 32000 \/ mp1_list_head <= a < mp1_list_head + 4 \/
  V <= a < V + 4000.

(** A request to add the blinker in the structure at [arg]. *)
Lemma add_blinks bs chars m b :
  blinks V bs chars m -> op_ok (Add b) -> started (fields m arg) = started b ->
  mwp A (mp1_ioctl tmp arg RTC_ADD) (fun r m' =>
    let o := do_op (Add b) (bs, chars) in
    r = fst o /\ blinks V (fst (snd o)) (snd (snd o)) m' /\ forall a, scratch a \/ m' a = m a) m.
Proof.
  intros [Hw (ps & HL & ->)] [Hop Hcorner] Hst.
  eapply mwp_mono; [apply (add_rule chars m tmp arg Hw Htmp); [apply Harg|done]|].
  assert (Hloc : location (fields m arg) = location b) by exact (f_equal location Hst).
  assert (Hon : on_char (fields m arg) = on_char b) by exact (f_equal on_char Hst).
  intros r m2. cbn beta zeta. rewrite Hloc. intros Hr.
  destruct Hr as [(-> & Hfull & F2)|(-> & Hl & p & Hin)]; cbn [do_op]; rewrite length_map.
  - assert (Hno : (location b <? 2000) && (length ps <? 2000)%nat = false).
    { apply andb_false_iff. destruct Hfull as [Hge|Hfull]; [left; apply Z.ltb_ge; lia|right].
      apply Nat.ltb_ge. by rewrite (full_listed m ps). }
    rewrite Hno. split; [done|]. split.
    + apply (buffer_blinks tmp _ _ m); [done|done|]. split; [done|by exists ps].
    + intros a. destruct (F2 a); [by left; left|by right].
  - destruct (first_free_slot m p (in_free _ _ _ _ _ Hin)) as [Hp Hp0].
    pose proof (free_listed m ps p HL Hp Hp0) as Hfree.
    rewrite (proj2 (Z.ltb_lt _ _)), (proj2 (Nat.ltb_lt _ _)) by lia. cbn [andb fst snd].
    destruct (inserted_listed chars tmp p _ m m2 ps Hin Htmp HL Hw) as (L' & F' & W'); [lia|].
    split; [done|]. rewrite Hst in F'. rewrite Hloc, Hon in W'. split; [split; [exact W'|by exists (p :: ps)]|].
    intros a. destruct (slot_range p Hp) as (R1 & R2 & _). pose proof (in_frame _ _ _ _ _ Hin a) as Hf. rewrite Hloc in Hf.
    unfold scratch. destruct Hf as [?|[?|[?|[?|?]]]]; [left; lia..|by right].
Qed.

Lemma add_op bs chars m b :
  blinks V bs chars m -> op_ok (Add b) ->
  mwp A (run_op (Add b)) (fun r m' =>
    let o := do_op (Add b) (bs, chars) in r = fst o /\ blinks V (fst (snd o)) (snd (snd o)) m') m.
Proof.
  intros Hb Hop. cbn [run_op]. apply mwp_bind. eapply mwp_mono; [by apply set_blink_rule, Hop|].
  intros [] m1 [Hst F1]. eapply mwp_mono; [apply (add_blinks bs chars m1 b); [|done|exact Hst]|].
  - by apply (buffer_blinks arg bs chars m).
  - intros r m2 (Hr & Hbl & _). by split.
Qed.

Lemma first_free_unique m p q : first_free m p -> first_free m q -> p = q.
Proof.
  intros (i & Hi & -> & Hi0 & Hij) (j & Hj & -> & Hj0 & Hji).
  destruct (Z.lt_trichotomy i j) as [Hlt|[->|Hlt]]; [|done|].
  - by destruct (Hji i ltac:(lia)).
  - by destruct (Hij j ltac:(lia)).
Qed.

(** A cell that holds an element at the corner counts as free. *)
Lemma corner_free m m' p b : inserted tmp p b m m' -> location b = 0 -> first_free m' p.
Proof.
  intros [Hfree Hf Hn Hh Hc Hfr] Hb. pose proof (first_free_slot m p Hfree) as [Hp _].
  assert (Hsame : forall q, slot q -> q <> p -> w16 m' q = w16 m q).
  { intros q Hq Hne. destruct (slot_range q Hq) as (Q1 & Q2 & _). pose proof (slots_apart q p Hq Hp Hne).
    destruct (slot_range p Hp) as (P1 & P2 & _).
    assert (Hk : forall i, 0 <= i < 2 -> m' (q + i) = m (q + i)).
    { intros i Hi. destruct (Hfr (q + i)) as [?|[?|[?|[?|?]]]]; [| | | |done]; exfalso.
      - destruct (bf_array _ Htmp); lia.
      - lia.
      - destruct (ly_array_head _ _ Hlay); lia.
      - destruct (ly_array_window _ _ Hlay); lia. }
    apply w16_ext; [rewrite <- (Z.add_0_r q)|]; apply Hk; lia. }
  destruct Hfree as (i & Hi & -> & Hi0 & Hj). exists i. split; [done|]. split; [done|]. split.
  - rewrite <- location_fields, Hf. exact Hb.
  - intros j Hji. rewrite Hsame; [by apply Hj|exists j; split; [lia|done]|unfold STRUCT_SIZE; lia].
Qed.

Lemma first_free_frame m m' p : first_free m p -> same_program m m' -> first_free m' p.
Proof.
  intros (i & Hi & -> & Hi0 & Hj) Hs. destruct (ly_range _ _ Hlay) as (? & ? & _).
  assert (Hk : forall j, 0 <= j < 2000 -> w16 m' (blink_array + STRUCT_SIZE * j) = w16 m (blink_array + STRUCT_SIZE * j)).
  { intros j Hj'. apply w16_ext; apply Hs; left; unfold STRUCT_SIZE; lia. }
  exists i. split_and!; try done; try lia; [by rewrite Hk|]. intros j Hji. rewrite Hk by lia. by apply Hj.
Qed.

Lemma corner_rule chars m b0 b :
  window V chars m -> (exists p, slot p /\ w16 m p = 0) -> members_ok b0 -> location b0 = 0 ->
  members_ok b -> location b < 2000 ->
  mwp A (run_ops [Add b0; Add b]) (fun rs m' => rs = [0; 0] /\
    w32 m' mp1_list_head <> 0 /\ next m' (w32 m' mp1_list_head) = w32 m' mp1_list_head) m.
Proof.
  intros Hw (p0 & Hp0 & Hz) Hb0 H00 Hb Hlt. cbn [run_ops].
  apply mwp_bind. eapply mwp_mono; [by apply (run_add_rule chars m b0)|].
  intros r m2 (m1 & b0' & Hst & F1 & Hr). pose proof (buffer_same arg m m1 Harg F1) as S1.
  assert (Hl0 : location b0' = 0) by (rewrite <- H00; exact (f_equal location Hst)).
  destruct Hr as [(_ & [?|Hfull] & _)|(-> & _ & p & Hin)]; [lia| |].
  { exfalso. apply (Hfull p0 Hp0). rewrite <- Hz, <- !location_fields.
    by rewrite (proj1 (same_program_fields m m1 p0 S1 Hp0)). }
  pose proof (inserted_window chars tmp p b0' m1 m2 Hin Htmp (same_program_window chars m m1 S1 Hw) ltac:(lia)) as Hw2.
  apply mwp_bind. apply mwp_bind. eapply mwp_mono; [by apply (run_add_rule _ m2 b Hw2)|].
  intros r m4 (m3 & b' & Hst' & F3 & Hr). pose proof (buffer_same arg m2 m3 Harg F3) as S3.
  pose proof (first_free_frame m2 m3 p (corner_free m1 m2 p b0' Hin Hl0) S3) as Hp3.
  destruct Hr as [(_ & [?|Hfull] & _)|(-> & _ & q & Hin')]; [lia| |].
  { exfalso. destruct (first_free_slot m3 p Hp3) as [Hp Hpz]. by apply (Hfull p Hp). }
  assert (q = p) as -> by exact (first_free_unique m3 q p (in_free _ _ _ _ _ Hin') Hp3).
  repeat (apply mwp_bind || apply mwp_ret). split; [done|]. destruct (first_free_slot m3 p Hp3) as [Hp _].
  rewrite (in_head _ _ _ _ _ Hin'). split; [pose proof (slot_range p Hp); lia|].
  rewrite (in_next _ _ _ _ _ Hin'), <- (in_head _ _ _ _ _ Hin). apply w32_ext. intros i Hi. apply S3. lia.
Qed.

Lemma remove_op bs chars m l :
  blinks V bs chars m -> op_ok (Remove l) ->
  mwp A (run_op (Remove l)) (fun r m' =>
    let o := do_op (Remove l) (bs, chars) in r = fst o /\ blinks V (fst (snd o)) (snd (snd o)) m') m.
Proof.
  intros [Hw (ps & HL & ->)] Hop. cbn [op_ok] in Hop.
  eapply mwp_mono; [by apply (remove_rule m ps l)|]. intros r m' Hr. cbn [do_op].
  rewrite (u16_small l) in Hr by lia. rewrite find_fields. destruct (find _ ps) as [p|]; cbn [option_map].
  - destruct Hr as (-> & ps1 & ps2 & -> & Hp & H1 & Hrm). split; [done|]. cbn [fst snd].
    destruct (removed_listed chars m ps1 p ps2 m' Hrm HL Hw) as (L' & F' & W'). split; [exact W'|].
    exists (ps1 ++ ps2). split; [done|]. rewrite F', !map_app. cbn [map]. apply first_app.
    + apply Forall_map. eapply Forall_impl; [exact H1|]. intros q Hq. by rewrite location_fields.
    + by rewrite location_fields.
  - destruct Hr as [-> ->]. split; [done|]. split; [done|by exists ps].
Qed.

Lemma sync_op bs chars m s d :
  blinks V bs chars m -> op_ok (Sync s d) ->
  mwp A (run_op (Sync s d)) (fun r m' =>
    let o := do_op (Sync s d) (bs, chars) in r = fst o /\ blinks V (fst (snd o)) (snd (snd o)) m') m.
Proof.
  intros [Hw (ps & HL & ->)] [Hs Hd]. set (a := Z.lor (Z.shiftl s 16) d).
  assert (Ha : a = 2 ^ 16 * s + d).
  { unfold a. rewrite Z.shiftl_mul_pow2, Z.mul_comm by lia. apply entry_lor; lia. }
  assert (Ehi : u16 (Z.shiftr a 16) = s).
  { rewrite Ha, Z.shiftr_div_pow2, Z.mul_comm, Z.div_add_l, Z.div_small, Z.add_0_r by lia. apply u16_small. lia. }
  assert (Elo : u16 (Z.land a 0xFFFF) = d).
  { change 0xFFFF with (Z.ones 16). rewrite Z.land_ones, Ha, Z.add_comm, Z.mul_comm, Z_mod_plus_full, Z.mod_small by lia.
    apply u16_small. lia. }
  eapply mwp_mono; [apply (sync_rule chars m ps a HL Hw); lia|]. intros r m' Hr. cbn [do_op].
  rewrite Ehi, Elo in Hr. rewrite !find_fields.
  destruct (find (fun p => w16 m p =? s) ps) as [p|] eqn:Ep; cbn [option_map].
  2: { destruct Hr as [-> ->]. split; [done|]. split; [done|by exists ps]. }
  destruct (find (fun p => w16 m p =? d) ps) as [q|] eqn:Eq; cbn [option_map].
  2: { destruct Hr as [-> ->]. split; [done|]. split; [done|by exists ps]. }
  destruct Hr as (-> & Hf & Hn & Hc & Hfr). split; [done|]. cbn [fst snd].
  rewrite <- (u16_small d) in Eq by lia. destruct (find_slot_spec m ps d q HL Eq) as (Hq & _ & Hlq & ps1 & ps2 & -> & H1).
  rewrite u16_small in Hlq, H1 by lia.
  destruct (changed_listed chars m m' ps1 q ps2 (off_char (fields m q)) HL Hw) as (L' & W' & F1 & F2); try done.
  { by rewrite Hf, <- location_fields. }
  rewrite Hlq in W'. split; [exact W'|]. exists (ps1 ++ q :: ps2). split; [done|].
  rewrite !map_app. cbn [map]. rewrite F1, F2, Hf. apply first_app; [done|by rewrite location_fields].
Qed.
Lemma op_rule op bs chars m :
  blinks V bs chars m -> op_ok op ->
  mwp A (run_op op) (fun r m' =>
    let o := do_op op (bs, chars) in r = fst o /\ blinks V (fst (snd o)) (snd (snd o)) m') m.
Proof.
  intros Hb Hop. destruct op as [|b|l|s d]; [|by apply add_op|by apply remove_op|by apply sync_op].
  apply mwp_bind. eapply mwp_mono; [by apply (tick_op bs chars m)|]. intros [] m' Hm. by apply mwp_ret.
Qed.

Lemma ops_rule ops : forall bs chars m,
  blinks V bs chars m -> Forall op_ok ops ->
  mwp A (run_ops ops) (fun rs m' =>
    let o := do_ops ops (bs, chars) in rs = fst o /\ blinks V (fst (snd o)) (snd (snd o)) m') m.
Proof.
  induction ops as [|op ops IH]; intros bs chars m Hb Hops; [by apply mwp_ret|].
  apply Forall_cons in Hops as [Hop Hops]. cbn [run_ops do_ops].
  apply mwp_bind. eapply mwp_mono; [by apply op_rule|]. intros r m1 [-> Hb1].
  destruct (do_op op (bs, chars)) as [r [bs1 chars1]]. cbn [fst snd] in Hb1 |- *.
  apply mwp_bind. eapply mwp_mono; [by apply (IH bs1 chars1 m1)|]. intros rs m2 [-> Hb2].
  destruct (do_ops ops (bs1, chars1)) as [rs st]. by apply mwp_ret.
Qed.
End operations.

(** ** Properties *)

(** C16: the fish's list of blinking characters.  Whatever ticks and requests -
    add, remove, synchronise - a program that has the list in its memory makes,
    each returns what it returns on the abstract list, and afterwards the memory
    holds the abstract list again: the linked elements in order with their
    fields, every other cell of the array free, the characters in the window on
    the screen.  No two elements share a cell, a full array and an unknown
    location are refused, and nothing outside the program's memory changes.
    Locations are those from 1 to 65535. *)
Theorem blink_refines A V tmp arg ops bs chars m s :
  layout A V -> buffer_ok A V tmp -> buffer_ok A V arg -> apart tmp 16 arg 16 ->
  umem A m s -> blinks V bs chars m -> Forall op_ok ops ->
  exists t m', run_ops tmp arg ops s = Ret (fst (do_ops ops (bs, chars))) t /\ umem A m' t /\
    only_user A s t /\ blinks V (fst (snd (do_ops ops (bs, chars)))) (snd (snd (do_ops ops (bs, chars)))) m'.
Proof.
  intros Hlay Htmp Harg Hap Hs Hb Hops.
  pose proof (ops_rule A V Hlay tmp arg Htmp Harg Hap ops bs chars m Hb Hops) as Hw.
  apply (mwp_run A _ _ m s) in Hw as (rs & t & m' & Hrun & Hm' & Hst & -> & Hb'); [|exact Hs].
  by exists t, m'.
Qed.

(** C37: the corner of the screen.  [mp1_malloc] takes a cell whose location is 0
    for a free one, so the cell of an element that blinks at location 0 is given
    out again: after adding such an element and then any valid one, both calls
    returning 0, the list is a cycle - the element at its head is its own
    successor. *)
Theorem add_corner_cycles A V tmp arg chars m s b0 b :
  layout A V -> buffer_ok A V tmp -> buffer_ok A V arg -> apart tmp 16 arg 16 ->
  umem A m s -> window V chars m -> (exists p, slot p /\ w16 m p = 0) ->
  members_ok b0 -> location b0 = 0 -> members_ok b -> location b < 2000 ->
  exists t m', run_ops tmp arg [Add b0; Add b] s = Ret [0; 0] t /\ umem A m' t /\
    w32 m' mp1_list_head <> 0 /\ next m' (w32 m' mp1_list_head) = w32 m' mp1_list_head.
Proof.
  intros Hlay Htmp Harg Hap Hs Hw Hfree Hb0 H0' Hb Hl.
  pose proof (corner_rule A V Hlay tmp arg Htmp Harg Hap chars m b0 b Hw Hfree Hb0 H0' Hb Hl) as Hr.
  apply (mwp_run A _ _ m s) in Hr as (rs & t & m' & Hrun & Hm' & _ & -> & Hne & Hc); [|exact Hs].
  by exists t, m'.
Qed.

End blink.

(** * A closed example

    Process 0 with its window on video memory, its variables all zero but the
    pointer to the window. *)
Section demo.
Let H := quiet_env.
Local Existing Instance H.

Definition demo_data : FishData := {|
  vmem_base_addr := 0x8009010; blink_array := 0x8010000; mp1_list_head := 0x8009000;
  file0 := 0x8009020; file1 := 0x8009030 |}.
Local Existing Instance demo_data.

Definition demo_fish_mem (a : Z) : Z :=
  if a =? 0x8009012 then 0x80 else if a =? 0x8009013 then 0x08 else 0.

Definition demo_fish_ram : gmap Z Z :=
  ram_of (fun c => if 0x800000 <=? c then demo_fish_mem (c - 0x800000 + 0x8000000) else 0) 0xB8000 (0x820000 - 0xB8000).

Definition demo_fish : kernel := set_mem demo_fish_ram (on_pgs (fun _ => demo_tables) initial_kernel).

Definition demo_fish_addr (a : Z) : Prop := 0x8000000 <= a < 0x8020000 \/ MB136 <= a < MB136 + KB4.

Lemma demo_fish_umem : umem demo_fish_addr demo_fish_mem demo_fish.
Proof.
  assert (Hc : forall c, 0xB8000 <= c < 0x820000 -> mem (mach demo_fish) !! c =
    Some (if 0x800000 <=? c then demo_fish_mem (c - 0x800000 + 0x8000000) else 0)).
  { intros c Hc. change (mem (mach demo_fish)) with demo_fish_ram. apply ram_of_lookup. lia. }
  assert (Hok : tables_ok (pgs demo_fish)) by apply demo_tables_ok.
  apply (program_umem 0 VIDEO); try done; [apply demo_table_linked|apply list_elem_of_here|..].
  - intros a [Ha|Ha]; [left; apply user_spec; lia|by right].
  - intros a Ha. split.
    + unfold mem_get. destruct Ha as [Ha|Ha].
      * rewrite (user_cell (pgs demo_fish) 0) by (try done; apply user_spec; lia).
        unfold frame_of, EIGHT_MB, FOUR_MB. rewrite Hc by lia. rewrite (proj2 (Z.leb_le _ _)) by lia. do 2 f_equal. lia.
      * assert (Ht : cell (pgs demo_fish) a = Some (VIDEO + (a - MB136))).
        { unfold cell. rewrite (proj2 (Z.ltb_ge a 0)) by (unfold MB136 in Ha; lia).
          apply (window_translate _ _ VIDEO demo_table_linked Hok); [apply list_elem_of_here|done|done|done]. }
        rewrite Ht. unfold VIDEO, MB136, KB4 in *. rewrite Hc by lia. rewrite (proj2 (Z.leb_gt _ _)) by lia.
        unfold demo_fish_mem. rewrite !(proj2 (Z.eqb_neq _ _)) by lia. done.
    + unfold demo_fish_mem. destruct (a =? 0x8009012); [lia|]. destruct (a =? 0x8009013); lia.
Qed.

Lemma demo_layout : layout demo_fish_addr MB136.
Proof.
  constructor; unfold demo_fish_addr, apart, MB136, KB4; cbn [blink_array mp1_list_head vmem_base_addr demo_data]; lia.
Qed.

Lemma demo_buffer a : 0x800A000 <= a <= 0x800B000 -> buffer_ok demo_fish_addr MB136 a.
Proof.
  intros Ha. constructor; unfold demo_fish_addr, apart, MB136, KB4;
    cbn [blink_array mp1_list_head vmem_base_addr demo_data]; lia.
Qed.

Lemma demo_window : window MB136 (fun _ => 0) demo_fish_mem.
Proof.
  split; [done|]. intros i Hi. unfold demo_fish_mem, MB136. by rewrite !(proj2 (Z.eqb_neq _ _)) by lia.
Qed.

Lemma demo_free p : slot p -> w16 demo_fish_mem p = 0.
Proof.
  intros (i & Hi & ->). unfold w16, demo_fish_mem, STRUCT_SIZE. cbn [blink_array demo_data].
  by rewrite !(proj2 (Z.eqb_neq _ _)) by lia.
Qed.

Lemma demo_blinks : blinks MB136 [] (fun _ => 0) demo_fish_mem.
Proof.
  split; [apply demo_window|]. exists []. split; [|done]. constructor; try by constructor.
  intros p Hp _. by apply demo_free.
Qed.

Definition demo_ops : list blink_op :=
  [Add (Blinker 100 73 77 2 1 0 0); Tick; Add (Blinker 7 65 66 9 8 0 0); Add (Blinker 2000 65 66 9 8 0 0);
   Tick; Sync 7 100; Remove 7; Remove 7; Tick].

(** The element at 100 is copied from the one at 7, whose countdown is 8, and
    ticks once more. *)
Lemma blink_refines_witness :
  exists t m', run_ops 0x800A000 0x800A010 demo_ops demo_fish = Ret [0; 0; 0; -1; 0; 0; 0; -1; 0] t /\
    umem demo_fish_addr m' t /\ only_user demo_fish_addr demo_fish t /\
    blinks MB136 [Blinker 100 73 77 9 8 7 1] (snd (snd (do_ops demo_ops ([], fun _ => 0)))) m'.
Proof.
  apply (blink_refines demo_fish_addr MB136 0x800A000 0x800A010 demo_ops [] (fun _ => 0) demo_fish_mem).
  - apply demo_layout.
  - apply demo_buffer. lia.
  - apply demo_buffer. lia.
  - unfold apart. lia.
  - apply demo_fish_umem.
  - apply demo_blinks.
  - repeat constructor; cbn; lia.
Defined.

Lemma add_corner_cycles_witness :
  exists t m', run_ops 0x800A000 0x800A010 [Add (Blinker 0 73 77 2 1 0 0); Add (Blinker 7 65 66 9 8 0 0)] demo_fish
      = Ret [0; 0] t /\ umem demo_fish_addr m' t /\
    w32 m' mp1_list_head <> 0 /\ next m' (w32 m' mp1_list_head) = w32 m' mp1_list_head.
Proof.
  apply (add_corner_cycles demo_fish_addr MB136 0x800A000 0x800A010 (fun _ => 0) demo_fish_mem).
  - apply demo_layout.
  - apply demo_buffer. lia.
  - apply demo_buffer. lia.
  - unfold apart. lia.
  - apply demo_fish_umem.
  - apply demo_window.
  - exists 0x8010000. split; [by exists 0|]. apply demo_free. by exists 0.
  - repeat split; cbn; lia.
  - done.
  - repeat split; cbn; lia.
  - cbn. lia.
Defined.

End demo.
