(* ===== verification/FishFrames.v ===== *)
(** [add_frames] of fish.c on the kernel: the two text files it reads become one
    blinking character for every place where either of them is not blank. *)
From stdpp Require Import base numbers list gmap strings.
From Stdlib Require Import ZArith Lia.
From S2P Require Import Prelude Machine Strings Console Paging FileSys Support Os Programs Clients Runs UserKernel.
From S2P Require Import Execute UserMem Fish Blink.

(** * What the frames say *)

(** The lines of a text; there is always a last one, without a newline. *)
Fixpoint lines (l : list Z) : list (list Z) :=
  match l with
  | [] => [[]]
  | c :: l' =>
    if c =? 10 then [] :: lines l'
    else match lines l' with [] => [[c]] | x :: xs => (c :: x) :: xs end
  end.

(** The lines joined again. *)
Fixpoint text (ls : list (list Z)) : list Z :=
  match ls with
  | [] => []
  | [x] => x
  | x :: ls' => x ++ 10 :: text ls'
  end.

Definition visible (c : Z) : bool := negb (c =? 32) && negb (c =? 10).
Definition or_blank (c : Z) : Z := if c =? 10 then 32 else c.

(** The character of a line in a column, a newline behind its end. *)
Definition at_col (l : list Z) (col : nat) : Z := default 10 (l !! col).

Definition cell_ops (row : nat) (l0 l1 : list Z) (col : nat) : list blink_op :=
  if visible (at_col l0 col) || visible (at_col l1 col) then
    [Add (Blinker (Z.of_nat row * 80 + Z.of_nat col + 40)
      (or_blank (at_col l0 col)) (or_blank (at_col l1 col)) 15 15 0 0)]
  else [].

Definition row_ops (row : nat) (l0 l1 : list Z) : list blink_op :=
  flat_map (cell_ops row l0 l1) (seq 0 (length l0 `max` length l1)).

Definition frame_ops (ls0 ls1 : list (list Z)) : list blink_op :=
  flat_map (fun row => row_ops row (nth row ls0 []) (nth row ls1 [])) (seq 0 (length ls0 `max` length ls1)).

Example two_fish :
  frame_ops (lines [60; 62; 10; 32; 42]) (lines [60]) =
    [Add (Blinker 40 60 60 15 15 0 0); Add (Blinker 41 62 32 15 15 0 0); Add (Blinker 121 42 32 15 15 0 0)].
Proof. reflexivity. Qed.

Lemma lines_spec l : text (lines l) = l /\ lines l <> [] /\ Forall (Forall (fun c => c <> 10)) (lines l).
Proof.
  induction l as [|c l (IH & Hne & Hf)]; [by repeat constructor|]. cbn [lines]. destruct (Z.eqb_spec c 10) as [->|Hc].
  - split_and!; [|done|by constructor]. destruct (lines l) as [|x xs]; [done|].
    change (10 :: text (x :: xs) = 10 :: l). by rewrite IH.
  - destruct (lines l) as [|x xs]; [done|]. apply Forall_cons in Hf as [Hx Hxs].
    split_and!; [|done|by repeat constructor]. rewrite <- IH. by destruct xs.
Qed.

(** The state of the list after a sequence of requests. *)
Definition after (ops : list blink_op) (st : list blink * (Z -> Z)) : list blink * (Z -> Z) := snd (do_ops ops st).

Lemma after_app ops1 ops2 st : after (ops1 ++ ops2) st = after ops2 (after ops1 st).
Proof.
  unfold after. revert st. induction ops1 as [|op ops1 IH]; intros st; [done|]. cbn [app do_ops].
  destruct (do_op op st) as [r st1]. specialize (IH st1).
  destruct (do_ops (ops1 ++ ops2) st1) as [? st2], (do_ops ops1 st1) as [? st3]. exact IH.
Qed.

Lemma row_ops_snoc row l0 l1 n :
  flat_map (cell_ops row l0 l1) (seq 0 (S n)) = flat_map (cell_ops row l0 l1) (seq 0 n) ++ cell_ops row l0 l1 n.
Proof. by rewrite seq_S, flat_map_app, Nat.add_0_l; cbn [flat_map]; rewrite app_nil_r. Qed.

(** * The program and its window *)

Section fish_kernel.
Context `{Env} `{FishData}.
Hypothesis linked : table_linked.
Context (own : Z -> Prop) (base : kernel) (k : Z) (irqs : list (K unit)) (es : list (list Z * content)).

#[local] Instance fish_syscalls : Syscalls := kernel_syscalls irqs.

(** The program's page and the window [vidmap] opened on the page it prints on. *)
Definition seen_at (a : Z) : Prop := user a = true \/ MB136 <= a < MB136 + 4000.

Definition window_open (s : kernel) : Prop :=
  aget (page_directory (pgs s)) 34 = Some (page_table_video_addr + 7) /\
  aget (page_table_video (pgs s)) 0 = Some (page_of s + 7).

Definition look (w : world) (a : Z) : Z :=
  if user a then w_mem w a else
  match cells (w_screen w) !! Z.to_nat ((a - MB136) / 2) with
  | Some c => if Z.even a then fst c else snd c
  | None => 0
  end.

Definition sees (w : world) (m : Z -> Z) : Prop := forall a, seen_at a -> look w a = m a.

(** The machine [w] after the program has made [m] of what it sees. *)
Definition redrawn (m : Z -> Z) (w : world) : world :=
  World m (w_arg w) (w_entries w) (w_next w) (w_fds w)
    (Screen (map (fun i => (m (MB136 + 2 * i), m (MB136 + 2 * i + 1))) (seqZ 0 2000))
      (row (w_screen w)) (col (w_screen w))).

Lemma window_not_user a : MB136 <= a -> user a = false.
Proof. intros Ha. destruct (user a) eqn:Hu; [|done]. apply user_spec in Hu. unfold MB136 in Ha. lia. Qed.

(** An address in the window is one of the two bytes of a cell. *)
Lemma window_split a : MB136 <= a < MB136 + 4000 ->
  exists i, 0 <= i < 2000 /\ ((a = MB136 + 2 * i /\ Z.even a = true) \/ (a = MB136 + 2 * i + 1 /\ Z.even a = false)) /\
    (a - MB136) / 2 = i.
Proof.
  intros Ha. exists ((a - MB136) / 2). pose proof (Z.div_mod (a - MB136) 2 ltac:(lia)) as Hd.
  pose proof (Z.mod_pos_bound (a - MB136) 2 ltac:(lia)) as Hm. split; [lia|]. split; [|done].
  assert (He : Z.even a = Z.even ((a - MB136) mod 2)).
  { assert (Ha2 : a = (a - MB136) mod 2 + 2 * ((a - MB136) / 2 + 0x4400000)) by (unfold MB136 in *; lia).
    rewrite Ha2 at 1. by rewrite Z.even_add_mul_2. }
  rewrite He. assert ((a - MB136) mod 2 = 0 \/ (a - MB136) mod 2 = 1) as [E|E] by lia; rewrite E; [left|right];
    (split; [lia|done]).
Qed.

Lemma sees_redrawn m w : sees (redrawn m w) m.
Proof.
  intros a [Ha|Ha]; unfold look; [by rewrite Ha|]. rewrite window_not_user by lia.
  destruct (window_split a Ha) as (i & Hi & Hc & ->). cbn [w_screen redrawn cells].
  rewrite list_lookup_fmap, lookup_seqZ_lt by lia. cbn [fmap option_fmap option_map fst snd].
  rewrite Z2Nat.id, Z.add_0_l by lia. by destruct Hc as [[-> ->]|[-> ->]].
Qed.

Lemma window_cell s a :
  tables_ok (pgs s) -> 0 <= curr_scheduler (ttys s) < 3 -> window_open s -> MB136 <= a < MB136 + 4000 ->
  cell (pgs s) a = Some (page_of s + (a - MB136)).
Proof.
  intros Hok Hc [H34 H0'] Ha. assert (Hin : page_of s ∈ video_pages) by exact (window_page_video s Hc).
  unfold cell. rewrite (proj2 (Z.ltb_ge a 0)) by (unfold MB136 in Ha; lia).
  apply (window_translate (pgs s) a (page_of s) linked Hok Hin H34 H0'). unfold KB4. lia.
Qed.

Lemma runs_umem w m s : runs own base k w s -> window_open s -> sees w m -> umem seen_at m s.
Proof.
  intros Hr Hw Hm. pose proof (rn_tables _ _ _ _ _ Hr) as Hok. destruct (rn_screen _ _ _ _ _ Hr) as [Hc [Hg _]].
  apply (program_umem k (page_of s)); try apply Hw; try apply Hr; try done; [exact (window_page_video s Hc)|..].
  - intros a [Ha|Ha]; [by left|right]. unfold KB4. lia.
  - intros a Ha. rewrite <- (Hm a Ha). unfold look. destruct Ha as [Ha|Ha].
    + rewrite Ha. split; [by eapply user_get|]. by apply (rn_mem _ _ _ _ _ Hr).
    + rewrite window_not_user by lia. destruct (window_split a Ha) as (i & Hi & Hcase & ->).
      destruct Hg as (Hlen & _ & _ & Hg).
      destruct (lookup_lt_is_Some_2 (cells (w_screen w)) (Z.to_nat i)) as [c Hcell]; [rewrite Hlen; unfold CELLS; lia|].
      rewrite Hcell. destruct (Hg _ _ Hcell) as (G1 & G2 & G3 & G4). rewrite Z2Nat.id in G3, G4 by lia.
      assert (Hmem : forall j, 0 <= j < 4000 -> mem_get s (MB136 + j) = mem_get s (page_of s + j)).
      { intros j Hj. unfold mem_get. rewrite (window_cell s) by (done || lia). rewrite (proj1 (page_cell linked s j Hok Hc Hj)).
        by replace (MB136 + j - MB136) with j by lia. }
      destruct Hcase as [[-> ->]|[-> ->]]; [|rewrite <- Z.add_assoc]; rewrite Hmem by lia; [done|].
      by rewrite Z.add_assoc.
Qed.

(** Code that only works on what the program sees. *)
Lemma runs_redrawn w m s t :
  runs own base k w s -> window_open s -> only_user seen_at s t -> umem seen_at m t ->
  runs own base k (redrawn m w) t.
Proof.
  intros Hr Hw [Ht Hm] Hu. pose proof (rn_tables _ _ _ _ _ Hr) as Hok. pose proof (rn_pid _ _ _ _ _ Hr) as Hk.
  destruct (rn_screen _ _ _ _ _ Hr) as [Hc [(Hlen & Hbase & [_ Hinj] & Hcells) [(S1 & S2 & S3 & S4) Hterm]]].
  assert (Fp : pgs t = pgs s) by by rewrite Ht. assert (Ft : ttys t = ttys s) by by rewrite Ht.
  assert (Ff : fsg t = fsg s) by by rewrite Ht. assert (Fc : prc t = prc s) by by rewrite Ht.
  assert (Hpage : page_of t = page_of s) by (unfold page_of; by rewrite Ft).
  assert (Huser : forall a, user a = true -> cell (pgs s) a = Some (frame_of k a)).
  { intros a Ha. apply (user_cell (pgs s) k a); try done; apply Hr. }
  assert (Hget : forall i, 0 <= i < 4000 -> mem_get t (page_of s + i) = Some (m (MB136 + i)) /\ 0 <= m (MB136 + i) < 256).
  { intros i Hi. assert (Hs : seen_at (MB136 + i)) by (right; lia). split; [|by apply (um_byte _ _ _ Hu)].
    destruct (um_cell _ _ _ Hu _ Hs) as (c & _ & Hcc & Hcm). rewrite Fp in Hcc. rewrite (window_cell s) in Hcc by (done || lia).
    unfold mem_get. rewrite Fp, (proj1 (page_cell linked s i Hok Hc Hi)).
    replace (MB136 + i - MB136) with i in Hcc by lia. by injection Hcc as ->. }
  destruct (rn_process _ _ _ _ _ Hr) as (b & p & Hrun & Hpi).
  apply (runs_intro linked own base k w (redrawn m w) s t b p); try done.
  - apply (others_step own k s t); try done; try apply Hr; try (by rewrite Ht); [rewrite Ff; by destruct (fsg s)|by left|].
    intros c (Hc0 & Hnf & Hnp). apply Hm. intros a [Ha|Ha] He.
    + rewrite Huser in He by done. injection He as <-. apply (Hnf k Hk eq_refl). apply user_spec in Ha.
      unfold Runs.in_frame, frame_of, EIGHT_MB, FOUR_MB. lia.
    + rewrite (window_cell s) in He by done. injection He as <-. apply Hnp. lia.
  - intros a Ha. destruct (um_cell _ _ _ Hu a (or_introl Ha)) as (c & _ & Hcc & Hcm).
    rewrite Fp, Huser in Hcc by done. injection Hcc as <-. split; [exact Hcm|]. by apply (um_byte _ _ _ Hu); left.
  - split; [by rewrite Ft|]. rewrite Hpage, Ft. cbn [w_screen redrawn]. split; [|split].
    + split; [|split; [done|split]].
      * cbn [cells]. by rewrite length_map, length_seqZ.
      * split; [|by rewrite Fp]. intros i Hi. by eexists; apply Hget.
      * intros i c Hi. cbn [cells] in Hi. rewrite list_lookup_fmap in Hi.
        destruct (seqZ 0 2000 !! i) as [z|] eqn:Hz; [|done]. injection Hi as <-. apply lookup_seqZ in Hz as [-> Hlt]. cbn [fst snd]. rewrite Z.add_0_l, <- !Z.add_assoc.
        destruct (Hget (2 * Z.of_nat i) ltac:(lia)) as [G1 R1], (Hget (2 * Z.of_nat i + 1) ltac:(lia)) as [G2 R2]. done.
    + split; [cbn [cells]; by rewrite length_map, length_seqZ|done].
    + rewrite Ft; exact Hterm.
  - destruct Hrun as (T & HT & Ha & Hp). exists T. by rewrite Ft, Fc.
  - destruct Hpi. by constructor.
Qed.

(** What the program sees, its descriptors and the directory [es]. *)
Record fishing (fds : list descr) (m : Z -> Z) (s : kernel) : Prop := {
  fg_window : window_open s;
  fg_world : exists w, runs own base k w s /\ sees w m /\ w_fds w = fds /\ w_entries w = es }.

Lemma fishing_mwp {X} (f : K X) fds m s Q E :
  fishing fds m s -> mwp seen_at f Q m ->
  wp f (fun x t => exists m', fishing fds m' t /\ Q x m') E s.
Proof.
  intros [Hw (w & Hr & Hm & Hf & He)] HQ. eapply wp_mono; [exact (HQ s (runs_umem w m s Hr Hw Hm))| |done].
  intros x t (m' & Hu & Ho & Hx). exists m'. split; [|done].
  assert (Fp : pgs t = pgs s) by by rewrite (proj1 Ho). assert (Ft : ttys t = ttys s) by by rewrite (proj1 Ho).
  constructor.
  - unfold window_open, page_of. rewrite Fp, Ft. exact Hw.
  - exists (redrawn m' w). split; [by apply (runs_redrawn w m' s)|]. split; [apply sees_redrawn|done].
Qed.

Lemma fishing_store8 fds m s a v (Q : unit -> kernel -> Prop) E :
  fishing fds m s -> seen_at a -> 0 <= v < 256 -> (forall t, fishing fds (upd a v m) t -> Q tt t) ->
  wp (ustore8 a v) Q E s.
Proof.
  intros Hs Ha Hv HQ.
  eapply wp_mono; [eapply (fishing_mwp (ustore8 a v) fds m s (fun _ m' => m' = upd a v m)); [done|]| |done].
  - apply mwp_store8; [done|]. by rewrite u8_small.
  - intros [] t (m' & Ht & ->). by apply HQ.
Qed.

Lemma fishing_store16 fds m s a v (Q : unit -> kernel -> Prop) E :
  fishing fds m s -> seen_at a -> seen_at (a + 1) -> (forall t, fishing fds (upd16 a v m) t -> Q tt t) ->
  wp (ustore16 a v) Q E s.
Proof.
  intros Hs Ha Ha1 HQ.
  eapply wp_mono; [eapply (fishing_mwp (ustore16 a v) fds m s (fun _ m' => m' = upd16 a v m)); [done|]| |done].
  - by apply mwp_store16.
  - intros [] t (m' & Ht & ->). by apply HQ.
Qed.

(** ** The calls the program makes *)

Lemma window_stays w w' s t : runs own base k w s -> runs own base k w' t -> window_open s -> window_open t.
Proof.
  intros Hs Ht. pose proof (rn_others _ _ _ _ _ Hs) as Os. pose proof (rn_others _ _ _ _ _ Ht) as Ot.
  unfold window_open. rewrite (others_page own k base s Os), (others_page own k base t Ot).
  by rewrite (ot_pgs _ _ _ _ Os), (ot_pgs _ _ _ _ Ot).
Qed.

Lemma fishing_call f spec fds s w r w' m' (Q : Z -> kernel -> Prop) E :
  implements (runs own base k) f spec -> runs own base k w s -> window_open s ->
  spec w = Some (r, w') -> sees w' m' -> w_fds w' = fds -> w_entries w' = es ->
  (forall t, fishing fds m' t -> Q r t) -> wp f Q E s.
Proof.
  intros Hf Hr Hw Hspec Hs Hfd He HQ. destruct (Hf w s r w' Hr Hspec) as (t & Hrun & Ht). wp_use Hrun.
  apply HQ. constructor; [by apply (window_stays w w' s t)|]. by exists w'.
Qed.

Definition open_at (fds : list descr) (fd : Z) (d : descr) : Prop := 2 <= fd <= 7 /\ aget fds fd = Some d.

Lemma read_char fds m s fd c size data pos E :
  fishing fds m s -> open_at fds fd (FileAt size data pos) -> 0 <= pos -> size <= Z.of_nat (length data) -> user c = true ->
  wp (ece391_read fd c 1) (fun r t =>
    if size <=? pos then r = 0 /\ fishing fds m t
    else r = 1 /\ exists x, data !! Z.to_nat pos = Some x /\
      fishing (<[Z.to_nat fd := FileAt size data (pos + 1)]> fds) (upd c x m) t) E s.
Proof.
  intros [Hw (w & Hr & Hm & Hf & He)] [Hfd Hat] Hpos Hsize Hc. pose proof (proj1 (user_spec c) Hc) as Hcr.
  assert (Hread : os_read fd c 1 w =
    if size <=? pos then Some (0, w) else
    if user_buffer c 1 && (0 <? 1) && (pos + 1 <=? Z.of_nat (length data)) then
      Some (1, set_fd fd (FileAt size data (pos + 1)) (stored_bytes c (take (Z.to_nat 1) (drop (Z.to_nat pos) data)) w))
    else None).
  { unfold os_read, bad_fd, fd_of. rewrite Hf, Hat. cbn [default].
    by rewrite (proj2 (Z.ltb_ge fd 0)), (proj2 (Z.ltb_ge 7 fd)), (proj2 (Z.eqb_neq c 0)) by lia. }
  destruct (Z.leb_spec size pos) as [Hend|Hmore].
  - eapply fishing_call; [apply (kernel_read linked); unfold int32, word32; lia|exact Hr|exact Hw|exact Hread|exact Hm|exact Hf|exact He|done].
  - destruct (lookup_lt_is_Some_2 data (Z.to_nat pos)) as [x Hx]; [lia|].
    assert (Hu : user_buffer c 1 = true) by (apply user_buffer_spec; lia).
    rewrite Hu, (proj2 (Z.leb_le _ _)) in Hread by lia. cbn [andb Z.ltb] in Hread.
    assert (Htake : take (Z.to_nat 1) (drop (Z.to_nat pos) data) = [x]) by (by rewrite (drop_S data x _ Hx)).
    rewrite Htake in Hread. cbn [stored_bytes] in Hread.
    eapply (fishing_call _ _ _ _ _ _ _ (upd c x m)); [apply (kernel_read linked); unfold int32, word32; lia|exact Hr|exact Hw|exact Hread| | | |].
    + intros a Ha. specialize (Hm a Ha). unfold look in *. cbn [w_mem w_screen set_fd set_w_fds stored_byte set_w_mem].
      unfold upd. destruct (Z.eqb_spec a c) as [->|]; [by rewrite Hc|done].
    + reflexivity.
    + exact He.
    + intros t Ht. split; [done|]. exists x. split; [done|]. cbn [w_fds set_fd set_w_fds stored_byte set_w_mem] in Ht.
      by rewrite Hf in Ht.
Qed.

Lemma close_file fds m s fd d E :
  fishing fds m s -> open_at fds fd d ->
  wp (ece391_close fd) (fun _ t => fishing (<[Z.to_nat fd := Closed]> fds) m t) E s.
Proof.
  intros [Hw (w & Hr & Hm & Hf & He)] [Hfd Hat].
  assert (Hclose : os_close fd w = match d with Closed => Some (-1, w) | _ => Some (0, set_fd fd Closed w) end).
  { unfold os_close, fd_of. rewrite Hf, Hat, (proj2 (Z.ltb_ge fd 2)), (proj2 (Z.ltb_ge 7 fd)) by lia. done. }
  assert (Hset : forall r, os_close fd w = Some (r, set_fd fd Closed w) ->
    wp (ece391_close fd) (fun _ t => fishing (<[Z.to_nat fd := Closed]> fds) m t) E s).
  { intros r Hs. eapply fishing_call; [apply (kernel_close linked); unfold int32; lia|exact Hr|exact Hw|exact Hs|exact Hm| |exact He|].
    - reflexivity.
    - intros t Ht. cbn [w_fds set_fd set_w_fds] in Ht. by rewrite Hf in Ht. }
  destruct d; try (by eapply Hset).
  assert (Hsame : <[Z.to_nat fd := Closed]> fds = fds).
  { apply list_insert_id. unfold aget in Hat. by destruct (_ && _) in Hat. }
  rewrite Hsame. eapply fishing_call; [apply (kernel_close linked); unfold int32; lia|exact Hr|exact Hw|exact Hclose|exact Hm|exact Hf|exact He|done].
Qed.

(** The string [l] in what the program sees. *)
Record name_at (m : Z -> Z) (a : Z) (l : list Z) : Prop := {
  na_user : user_buffer a (Z.of_nat (length l) + 1) = true;
  na_mem : forall i b, (l ++ [0]) !! i = Some b -> m (a + Z.of_nat i) = b;
  na_chars : Forall (fun b => b <> 0) l }.

Definition first_free_fd (fds : list descr) : option Z :=
  List.find (fun fd => is_closed (default Closed (aget fds fd))) (seqZ 2 6).
Definition file_in (nm : list Z) : option (list Z * content) := List.find (fun e => bool_decide (fst e = nm)) es.

(** A name [open] finds. *)
Record openable (m : Z -> Z) (f : Z) (nm : list Z) (size : Z) (data : list Z) : Prop := {
  op_name : name_at m f nm;
  op_short : (length nm < 1025)%nat;
  op_proper : nm <> [] /\ nm <> [46];
  op_file : exists nm', file_in nm = Some (nm', Regular size data) }.

Lemma open_file fds m s f nm size data fd E :
  fishing fds m s -> openable m f nm size data -> first_free_fd fds = Some fd ->
  wp (ece391_open f) (fun r t => r = fd /\ 0 <= size <= Z.of_nat (length data) /\
    fishing (<[Z.to_nat fd := FileAt size data 0]> fds) m t) E s.
Proof.
  intros [Hw (w & Hr & Hm & Hf & He)] [[Hu Hn Hch] Hs [Hne Hdot] [nm' Hfile]] Hfd. pose proof Hu as Hu'.
  rewrite user_buffer_spec in Hu'.
  assert (Hstr : string_at w f nm).
  { constructor; [done| |done]. intros i b Hi. pose proof (lookup_lt_Some _ _ _ Hi) as Hlt.
    rewrite length_app in Hlt. cbn [length] in Hlt. assert (Hui : user (f + Z.of_nat i) = true) by (apply user_spec; lia).
    rewrite <- (Hn i b Hi), <- (Hm _ (or_introl Hui)). unfold look. by rewrite Hui. }
  assert (Hent : find_entry nm w = Some (nm', Regular size data)) by (unfold find_entry; by rewrite He).
  destruct (runs_file own base k w s nm nm' size data Hr Hne Hent) as (Hsize & _).
  assert (Hopen : os_open f w = Some (fd, set_fd fd (FileAt size data 0) w)).
  { unfold os_open. rewrite (proj2 (Z.eqb_neq f 0)), (string_at_in w f nm 1025 Hstr Hs) by lia.
    destruct nm as [|x nm]; [done|]. rewrite bool_decide_eq_false_2, Hent by done.
    unfold os_take_fd, free_fd, fd_of. unfold first_free_fd in Hfd. by rewrite Hf, Hfd. }
  eapply (fishing_call _ _ _ _ _ _ _ m); [apply (kernel_open linked); unfold word32; lia|exact Hr|exact Hw|exact Hopen|exact Hm|reflexivity|exact He|].
  intros t Ht. cbn [w_fds set_fd set_w_fds] in Ht. by rewrite Hf in Ht.
Qed.

(** * Reading a frame *)

(** A file whose lines from the current row on are [ls], with [col] characters
    of the row asked for; [c] is the character in its variable, [eof] its mark
    and [d] its descriptor. *)
Definition unread (d : descr) (rest : list Z) : Prop :=
  exists size data pos, d = FileAt size data pos /\ 0 <= pos <= size /\ size <= Z.of_nat (length data) /\
    rest = drop (Z.to_nat pos) (take (Z.to_nat size) data).

Definition place (ls : list (list Z)) (col : nat) (c eof : Z) (d : descr) : Prop :=
  match ls with
  | [] => c = 10 /\ eof = 1 /\ d = Closed
  | l :: ls' =>
    if (col <=? length l)%nat then c <> 10 /\ eof = 0 /\ unread d (drop col (text ls))
    else c = 10 /\ match ls' with [] => eof = 1 /\ unread d [] | _ => eof = 0 /\ unread d (text ls') end
  end.

Lemma text_app l ls : text (l :: ls) = l ++ match ls with [] => [] | _ => 10 :: text ls end.
Proof. destruct ls; [by rewrite app_nil_r|done]. Qed.

Lemma text_at l ls col :
  (col <= length l)%nat ->
  drop col (text (l :: ls)) = match l !! col with
    | Some x => x :: drop (S col) (text (l :: ls))
    | None => match ls with [] => [] | _ => 10 :: text ls end
    end.
Proof.
  intros Hc. rewrite text_app. destruct (l !! col) as [x|] eqn:Hx.
  - apply drop_S. by apply lookup_app_l_Some.
  - apply lookup_ge_None in Hx. assert (col = length l) as -> by lia. by rewrite drop_app_length.
Qed.

(** One byte of it. *)
Lemma unread_read fds m s fd c d rest E :
  fishing fds m s -> open_at fds fd d -> unread d rest -> user c = true ->
  wp (ece391_read fd c 1) (fun r t =>
    match rest with
    | [] => r = 0 /\ fishing fds m t
    | x :: rest' => r = 1 /\ exists d', unread d' rest' /\ fishing (<[Z.to_nat fd := d']> fds) (upd c x m) t
    end) E s.
Proof.
  intros Hs Hfd (size & data & pos & -> & Hpos & Hsize & ->) Hc.
  eapply wp_mono; [apply (read_char fds m s fd c size data pos); (done || lia)| |done].
  intros r t. destruct (Z.leb_spec size pos) as [Hend|Hmore].
  - intros [-> Ht]. rewrite drop_ge by (rewrite length_take; lia). done.
  - intros (-> & x & Hx & Ht).
    assert (Hxt : take (Z.to_nat size) data !! Z.to_nat pos = Some x) by (rewrite lookup_take_lt by lia; exact Hx).
    rewrite (drop_S _ x _ Hxt). split; [done|].
    exists (FileAt size data (pos + 1)). split; [|done]. exists size, data, (pos + 1).
    split_and!; [done|lia|lia|lia|]. f_equal. lia.
Qed.

(** Only the byte at [c] may differ. *)
Definition same_but (c : Z) (m m' : Z -> Z) : Prop := forall a, a <> c -> m' a = m a.

Lemma insert_same fds fd d : open_at fds fd d -> <[Z.to_nat fd := d]> fds = fds.
Proof. intros [_ Hat]. apply list_insert_id. unfold aget in Hat. by destruct (_ && _) in Hat. Qed.

Lemma next_char_rule fds m s fd c ls col ch eof d E :
  fishing fds m s -> open_at fds fd d -> place ls col ch eof d -> m c = ch -> user c = true ->
  Forall (Forall (fun x => x <> 10)) ls ->
  wp (next_char fd c eof) (fun eof' t => exists d' m', fishing (<[Z.to_nat fd := d']> fds) m' t /\
    place ls (S col) (m' c) eof' d' /\ m' c = at_col (hd [] ls) col /\ same_but c m m') E s.
Proof.
  intros Hs Hfd Hp Hc Hu Hls. unfold next_char. wp_step.
  eapply wp_mono; [eapply (fishing_mwp (uload8 c) fds m s (fun x m' => x = m c /\ m' = m)); [done|]| |done].
  { apply mwp_load8; [by left|]. by intros _. }
  intros x t (m0 & Ht & -> & ->). rewrite Hc.
  assert (Hkeep : ch = 10 -> place ls (S col) 10 eof d -> at_col (hd [] ls) col = 10 ->
    wp (if negb (ch =? 10) then
          let* n := ece391_read fd c 1 in if n =? 0 then ustore8 c 10 ;; ret 1 else ret eof
        else ret eof)
      (fun eof' t => exists d' m', fishing (<[Z.to_nat fd := d']> fds) m' t /\
        place ls (S col) (m' c) eof' d' /\ m' c = at_col (hd [] ls) col /\ same_but c m m') E t).
  { intros -> Hpl Hat. apply wp_ret. exists d, m. rewrite insert_same, Hc, Hat by done. done. }
  destruct ls as [|l ls]; cbn [place hd] in *; [by destruct Hp as (-> & -> & ->); apply Hkeep|].
  destruct (Nat.leb_spec col (length l)) as [Hin|Hout].
  - clear Hkeep. destruct Hp as (Hch & -> & Hun). rewrite (proj2 (Z.eqb_neq ch 10)) by done. cbn [negb]. wp_step.
    rewrite text_at in Hun by done. unfold at_col. destruct (l !! col) as [y|] eqn:Hy; cbn [default].
    + eapply wp_mono; [by eapply (unread_read fds m t fd c d)| |done]. intros r u (-> & d' & Hun' & Hu').
      apply wp_ret. exists d', (upd c y m). rewrite upd_eq. apply lookup_lt_Some in Hy as Hlt.
      rewrite (proj2 (Nat.leb_le _ _)) by lia. apply Forall_cons in Hls as [Hl _].
      split_and!; try done; [exact (Forall_lookup_1 _ _ _ _ Hl Hy)|]. intros a Ha. by apply upd_ne.
    + apply lookup_ge_None in Hy. rewrite (proj2 (Nat.leb_gt _ _)) by lia.
      eapply wp_mono; [by eapply (unread_read fds m t fd c d)| |done]. intros r u. destruct ls as [|l' ls].
      * intros [-> Hu']. cbn [Z.eqb]. wp_step.
        apply (fishing_store8 fds m); [done|by left|lia|]. intros v Hv. apply wp_ret. exists d, (upd c 10 m). rewrite upd_eq, insert_same by done.
        split_and!; try done. intros a Ha. by apply upd_ne.
      * intros (-> & d' & Hun' & Hu'). apply wp_ret. exists d', (upd c 10 m). rewrite upd_eq.
        split_and!; try done. intros a Ha. by apply upd_ne.
  - destruct Hp as [-> Hp]. apply Hkeep; [done| |].
    + rewrite (proj2 (Nat.leb_gt _ _)) by lia. done.
    + unfold at_col. by rewrite lookup_ge_None_2 by lia.
Qed.

(** * The program's variables *)

Section variables.
Context (blink_struct c0 c1 tmp : Z).

(** A character variable, apart from the list, the structures and the window. *)
Record char_var (c : Z) : Prop := {
  cv_user : user c = true;
  cv_array : apart c 1 blink_array 32000;
  cv_head : apart c 1 mp1_list_head 4;
  cv_base : apart c 1 vmem_base_addr 4;
  cv_struct : apart c 1 blink_struct 16;
  cv_tmp : apart c 1 tmp 16 }.

Record frame_vars : Prop := {
  fv_layout : layout seen_at MB136;
  fv_tmp : buffer_ok seen_at MB136 tmp;
  fv_struct : buffer_ok seen_at MB136 blink_struct;
  fv_apart : apart tmp 16 blink_struct 16;
  fv_c0 : char_var c0;
  fv_c1 : char_var c1;
  fv_two : c0 <> c1 }.

Hypothesis vars : frame_vars.

(** The list is in the memory, and the lengths are in the structure. *)
Record drawn (st : list blink * (Z -> Z)) (m : Z -> Z) : Prop := {
  dr_blinks : blinks MB136 (fst st) (snd st) m;
  dr_on : w16 m (blink_struct + ON_LENGTH) = 15;
  dr_off : w16 m (blink_struct + OFF_LENGTH) = 15 }.

Lemma char_window c : char_var c -> c < MB136.
Proof. intros Hc. pose proof (cv_user _ Hc) as Hu. apply user_spec in Hu. unfold MB136. lia. Qed.

Lemma drawn_char c st m m' : char_var c -> same_but c m m' -> drawn st m -> drawn st m'.
Proof.
  intros Hc Hm [[Hw (ps & HL & Hbs)] Hon Hoff]. pose proof (char_window c Hc) as Hwin.
  assert (Hs : same_program MB136 m m').
  { intros a Ha. apply Hm. intros ->. destruct (cv_array _ Hc), (cv_head _ Hc), (cv_base _ Hc); lia. }
  destruct (same_program_frame seen_at MB136 (fv_layout vars) (snd st) m m' ps Hs HL Hw) as (L' & F' & W').
  constructor.
  - split; [exact W'|]. exists ps. split; [exact L'|]. by rewrite F'.
  - rewrite <- Hon. apply w16_ext; apply Hm; destruct (cv_struct _ Hc); unfold ON_LENGTH; lia.
  - rewrite <- Hoff. apply w16_ext; apply Hm; destruct (cv_struct _ Hc); unfold OFF_LENGTH; lia.
Qed.

(** The structure is filled in for the place at [loc]. *)
Lemma fill_rule {X} st m ch0 ch1 loc (rest : K X) Q :
  drawn st m -> 0 <= ch0 < 256 -> 0 <= ch1 < 256 -> 0 <= loc < 2 ^ 16 ->
  (forall m', drawn st m' -> started (fields m' blink_struct) = started (Blinker loc ch0 ch1 15 15 0 0) ->
     (forall a, blink_struct <= a < blink_struct + 16 \/ m' a = m a) -> mwp seen_at rest Q m') ->
  mwp seen_at
    (ustore8 (blink_struct + ON_CHAR) ch0 ;; ustore8 (blink_struct + OFF_CHAR) ch1 ;;
     ustore16 (blink_struct + LOCATION) loc ;; rest) Q m.
Proof.
  intros [Hb Hon Hoff] R0 R1 Rl HQ.
  assert (Acc : forall j, 0 <= j < 16 -> seen_at (blink_struct + j)) by apply (bf_access _ _ _ (fv_struct vars)).
  unfold ON_CHAR, OFF_CHAR, LOCATION, ON_LENGTH, OFF_LENGTH in *.
  apply mwp_bind, mwp_store8; [by apply Acc|]. apply mwp_bind, mwp_store8; [by apply Acc|].
  apply mwp_bind, mwp_store16; [by apply Acc|rewrite <- Z.add_assoc; by apply Acc|].
  set (m' := upd16 _ _ _). assert (Hfr : forall a, blink_struct <= a < blink_struct + 16 \/ m' a = m a).
  { intros a. destruct (decide (blink_struct <= a < blink_struct + 16)); [by left|]. right.
    unfold m'. by rewrite upd16_out, !upd_ne by lia. }
  assert (Hlen : forall j, j = 4 \/ j = 6 -> w16 m' (blink_struct + j) = w16 m (blink_struct + j)).
  { intros j Hj. unfold m'. by rewrite w16_upd16_out, !w16_upd_out by lia. }
  apply HQ; [constructor| |exact Hfr].
  - by apply (buffer_blinks seen_at MB136 (fv_layout vars) blink_struct _ _ m m' (fv_struct vars)).
  - unfold ON_LENGTH. rewrite Hlen by lia. exact Hon.
  - unfold OFF_LENGTH. rewrite Hlen by lia. exact Hoff.
  - unfold started, fields. cbn [on_length off_length location on_char off_char].
    unfold ON_CHAR, OFF_CHAR, LOCATION, ON_LENGTH, OFF_LENGTH. rewrite (Hlen 4), (Hlen 6), Hon, Hoff by lia. unfold m'.
    by rewrite w16_upd16, !upd16_out, (upd_ne (blink_struct + 3) (blink_struct + 2)), !upd_eq, u16_small, !u8_small by lia.
Qed.

Lemma or_blank_range c : 0 <= c < 256 -> 0 <= or_blank c < 256.
Proof. intros Hc. unfold or_blank. destruct (c =? 10); lia. Qed.

(** Once the characters of a column are known. *)
Lemma column_rule st m row col l0 l1 :
  drawn st m -> m c0 = at_col l0 col -> m c1 = at_col l1 col ->
  0 <= Z.of_nat row * 80 + Z.of_nat col + 40 < 2 ^ 16 -> (col < length l0 `max` length l1)%nat ->
  0 <= at_col l0 col < 256 -> 0 <= at_col l1 col < 256 ->
  mwp seen_at
    (if (negb (at_col l0 col =? 32) && negb (at_col l0 col =? 10)) || (negb (at_col l1 col =? 32) && negb (at_col l1 col =? 10)) then
       ustore8 (blink_struct + ON_CHAR) (if at_col l0 col =? 10 then 32 else at_col l0 col) ;;
       ustore8 (blink_struct + OFF_CHAR) (if at_col l1 col =? 10 then 32 else at_col l1 col) ;;
       ustore16 (blink_struct + LOCATION) (Z.of_nat row * 80 + Z.of_nat col + 40) ;;
       mp1_ioctl tmp blink_struct RTC_ADD ;; ret tt
     else ret tt)
    (fun _ m' => drawn (after (cell_ops row l0 l1 col) st) m' /\ m' c0 = m c0 /\ m' c1 = m c1) m.
Proof.
  intros Hd H0' H1 Hloc Hcol R0 R1. unfold cell_ops. fold (visible (at_col l0 col)). fold (visible (at_col l1 col)).
  destruct (visible (at_col l0 col) || visible (at_col l1 col)); [|by apply mwp_ret].
  fold (or_blank (at_col l0 col)). fold (or_blank (at_col l1 col)).
  set (b := Blinker _ _ _ 15 15 0 0).
  apply (fill_rule st); [done|by apply or_blank_range..|done|]. intros m1 Hd1 Hst F1.
  apply mwp_bind. eapply mwp_mono.
  { apply (add_blinks seen_at MB136 (fv_layout vars) tmp blink_struct (fv_tmp vars) (fv_struct vars) (fv_apart vars)
      (fst st) (snd st) m1 b); [apply Hd1| |exact Hst]. repeat split; cbn; try apply or_blank_range; lia. }
  intros r m2 (_ & Hb & F2). apply mwp_ret. assert (Hkeep : forall c, char_var c -> m2 c = m c).
  { intros c Hc. pose proof (char_window c Hc). destruct (F2 c) as [[?|[?|[?|?]]]| ->].
    - destruct (cv_tmp _ Hc); lia.
    - destruct (cv_array _ Hc); lia.
    - destruct (cv_head _ Hc); lia.
    - lia.
    - destruct (F1 c); [destruct (cv_struct _ Hc); lia|done]. }
  assert (Hlen : forall j, j = 4 \/ j = 6 -> w16 m2 (blink_struct + j) = w16 m1 (blink_struct + j)).
  { intros j Hj. assert (Hs : forall i, 4 <= i < 8 -> m2 (blink_struct + i) = m1 (blink_struct + i)).
    { intros i Hi. destruct (F2 (blink_struct + i)) as [Hin|]; [exfalso|done]. pose proof (fv_apart vars) as Hap.
      pose proof (bf_array _ _ _ (fv_struct vars)) as Ha. pose proof (bf_head _ _ _ (fv_struct vars)) as Hh.
      pose proof (bf_window _ _ _ (fv_struct vars)) as Hw. unfold apart, scratch in *. lia. }
    apply w16_ext; [|rewrite <- Z.add_assoc]; apply Hs; lia. }
  split; [constructor|split; apply Hkeep; apply vars].
  - unfold after. cbn [do_ops]. destruct st as [bs chars]. cbn [fst snd] in Hb. destruct (do_op (Add b) (bs, chars)). exact Hb.
  - unfold ON_LENGTH. rewrite Hlen by lia. apply Hd1.
  - unfold OFF_LENGTH. rewrite Hlen by lia. apply Hd1.
Qed.

(** ** One row *)

Section rows.
Context (F : list descr) (fd0 fd1 : Z).
Hypothesis fds_ok : length F = 8%nat /\ 2 <= fd0 <= 7 /\ 2 <= fd1 <= 7 /\ fd0 <> fd1.

(** The descriptors with the two files at [d0] and [d1]. *)
Definition two (d0 d1 : descr) : list descr := <[Z.to_nat fd0 := d0]> (<[Z.to_nat fd1 := d1]> F).

Lemma two_at d0 d1 : open_at (two d0 d1) fd0 d0 /\ open_at (two d0 d1) fd1 d1.
Proof.
  destruct fds_ok as (Hl & H0' & H1 & Hne). unfold open_at, aget, two. rewrite !length_insert, Hl.
  rewrite !(proj2 (Z.leb_le _ _)), !(proj2 (Z.ltb_lt _ _)) by lia. cbn [andb].
  rewrite list_lookup_insert_eq by (rewrite length_insert; lia).
  rewrite list_lookup_insert_ne, list_lookup_insert_eq by lia. done.
Qed.

Lemma two_set d0 d1 d : <[Z.to_nat fd0 := d]> (two d0 d1) = two d d1 /\ <[Z.to_nat fd1 := d]> (two d0 d1) = two d0 d.
Proof.
  destruct fds_ok as (Hl & H0' & H1 & Hne). unfold two. split; [by rewrite list_insert_insert_eq|].
  rewrite (list_insert_insert_ne _ (Z.to_nat fd1)) by lia. by rewrite list_insert_insert_eq.
Qed.

(** Both files at column [col] of the row, and the list as it then is. *)
Definition row_at (ls0 ls1 : list (list Z)) (col : nat) (eofs : Z * Z) (st : list blink * (Z -> Z)) (s : kernel) : Prop :=
  exists d0 d1 m, fishing (two d0 d1) m s /\ place ls0 col (m c0) (fst eofs) d0 /\
    place ls1 col (m c1) (snd eofs) d1 /\ drawn st m.

Definition plain_lines (ls : list (list Z)) : Prop := Forall (Forall (fun x => x <> 10)) ls.

Lemma plain_hd ls : plain_lines ls -> Forall (fun x => x <> 10) (hd [] ls).
Proof. by intros [|]. Qed.

Lemma at_col_end l col : Forall (fun x => x <> 10) l -> (at_col l col = 10 <-> (length l <= col)%nat).
Proof.
  intros Hl. unfold at_col. destruct (l !! col) as [x|] eqn:Hx; cbn [default].
  - pose proof (Forall_lookup_1 _ _ _ _ Hl Hx) as Hne. apply lookup_lt_Some in Hx. cbn beta in Hne. split; [done|lia].
  - apply lookup_ge_None in Hx. done.
Qed.

(** The two characters of a column. *)
Lemma columns_rule {X} ls0 ls1 col eof0 eof1 st s (rest : Z -> Z -> K X) Q E :
  row_at ls0 ls1 col (eof0, eof1) st s -> plain_lines ls0 -> plain_lines ls1 ->
  (forall eof0 eof1 d0 d1 m t, fishing (two d0 d1) m t -> place ls0 (S col) (m c0) eof0 d0 ->
     place ls1 (S col) (m c1) eof1 d1 -> drawn st m ->
     m c0 = at_col (hd [] ls0) col -> m c1 = at_col (hd [] ls1) col -> wp (rest eof0 eof1) Q E t) ->
  wp (let* eof0 := next_char fd0 c0 eof0 in let* eof1 := next_char fd1 c1 eof1 in rest eof0 eof1) Q E s.
Proof.
  intros (d0 & d1 & m & Hs & P0 & P1 & Hd) L0 L1 HQ. pose proof (fv_two vars) as Hne. wp_step.
  eapply wp_mono; [eapply (next_char_rule (two d0 d1) m s fd0 c0 ls0 col); try done; [apply two_at|apply vars]| |done].
  intros e0 t (d0' & m1 & Ht & P0' & E0 & F0). rewrite (proj1 (two_set _ _ _)) in Ht. wp_step.
  rewrite <- (F0 c1) in P1 by done.
  eapply wp_mono; [eapply (next_char_rule (two d0' d1) m1 t fd1 c1 ls1 col); try done; [apply two_at|apply vars]| |done].
  intros e1 u (d1' & m2 & Hu & P1' & E1 & F1). rewrite (proj2 (two_set _ _ _)) in Hu.
  rewrite <- (F1 c0) in P0', E0 by done. apply (HQ e0 e1 d0' d1' m2 u); try done.
  apply (drawn_char c1 st m1); [apply vars|done|]. apply (drawn_char c0 st m); [apply vars|done|done].
Qed.

Lemma add_row_rule ls0 ls1 row eofs st s E :
  row_at ls0 ls1 0 eofs st s -> plain_lines ls0 -> plain_lines ls1 ->
  Z.of_nat row * 80 + Z.of_nat (length (hd [] ls0) `max` length (hd [] ls1)) + 40 < 2 ^ 16 ->
  wp (add_row blink_struct c0 c1 tmp fd0 fd1 (Z.of_nat row) eofs)
    (fun eofs t => row_at ls0 ls1 (S (length (hd [] ls0) `max` length (hd [] ls1))) eofs
       (after (row_ops row (hd [] ls0) (hd [] ls1)) st) t) E s.
Proof.
  intros Hs L0 L1 Hsize. set (l0 := hd [] ls0) in *. set (l1 := hd [] ls1) in *.
  set (n := (length l0 `max` length l1)%nat) in *. unfold add_row.
  apply wp_loop_ghost with (I := fun col st' t => exists eofs, st' = (Z.of_nat col, fst eofs, snd eofs) /\ (col <= n)%nat /\
      row_at ls0 ls1 col eofs (after (flat_map (cell_ops row l0 l1) (seq 0 col)) st) t)
    (mu := fun col => Z.of_nat n - Z.of_nat col) (g := O); [by exists eofs; split_and!; [|lia|]|unfold loop_fuel; lia|].
  intros col st' t ([eof0 eof1] & -> & Hcol & Hrow). split; [lia|]. cbn [fst snd].
  apply (columns_rule ls0 ls1 col eof0 eof1 _ t _ _ _ Hrow L0 L1). clear eof0 eof1 t Hrow.
  intros eof0 eof1 d0 d1 m t Ht P0 P1 Hd E0 E1. fold l0 in E0. fold l1 in E1.
  pose proof (at_col_end l0 col (plain_hd _ L0)) as A0. pose proof (at_col_end l1 col (plain_hd _ L1)) as A1.
  eapply wp_mono; [eapply (fishing_mwp _ _ m t); [exact Ht|]| |done].
  - apply mwp_bind, mwp_load8; [left; apply (cv_user _ (fv_c0 vars))|]. intros R0.
    apply mwp_bind, mwp_load8; [left; apply (cv_user _ (fv_c1 vars))|]. intros R1. rewrite E0, E1 in *.
    instantiate (1 := fun r m' => match r with
      | inl st' => (col < n)%nat /\ st' = (Z.of_nat col + 1, eof0, eof1) /\ m' c0 = at_col l0 col /\ m' c1 = at_col l1 col /\
          drawn (after (cell_ops row l0 l1 col) (after (flat_map (cell_ops row l0 l1) (seq 0 col)) st)) m'
      | inr es => col = n /\ es = (eof0, eof1) /\ m' = m
      end). cbn beta.
    destruct ((at_col l0 col =? 10) && (at_col l1 col =? 10)) eqn:Hend.
    { apply mwp_ret. apply andb_true_iff in Hend as [T0%Z.eqb_eq T1%Z.eqb_eq]. split; [|done]. unfold n in *. lia. }
    assert (Hlt : (col < n)%nat).
    { destruct (decide (col < n)%nat) as [|Hge]; [done|]. exfalso. revert Hend.
      rewrite (proj2 A0), (proj2 A1) by (unfold n in *; lia). done. }
    apply mwp_bind. eapply mwp_mono; [by apply (column_rule _ m row col l0 l1 Hd E0 E1); [lia|exact Hlt|..]|].
    intros [] m' (Hd' & K0 & K1). apply mwp_ret. by rewrite K0, K1.
  - intros [st'|eofs'] u (m' & Hu & Hr).
    + destruct Hr as (Hlt & -> & K0 & K1 & Hd'). exists (S col). split; [|lia]. exists (eof0, eof1). cbn [fst snd].
      split_and!; [f_equal; f_equal; lia|lia|]. exists d0, d1, m'. rewrite row_ops_snoc, after_app, K0, K1, <- E0, <- E1. done.
    + destruct Hr as (-> & -> & ->). by exists d0, d1, m.
Qed.

(** ** All rows *)

Lemma end_row_rule fds m s fd c ls n eof d E :
  fishing fds m s -> open_at fds fd d -> place ls (S n) (m c) eof d -> (length (hd [] ls) <= n)%nat -> user c = true ->
  wp (end_row c fd eof) (fun _ t => exists d' m', fishing (<[Z.to_nat fd := d']> fds) m' t /\
    place (tl ls) 0 (m' c) eof d' /\ same_but c m m') E s.
Proof.
  intros Hs Hfd Hp Hlen Hu. unfold end_row.
  assert (Hend : eof = 1 -> tl ls = [] -> wp (if negb (eof =? 0) then ustore8 c 10 ;; ece391_close fd ;; ret tt else ustore8 c 48)
    (fun _ t => exists d' m', fishing (<[Z.to_nat fd := d']> fds) m' t /\ place (tl ls) 0 (m' c) eof d' /\ same_but c m m') E s).
  { intros -> ->. cbn [negb Z.eqb]. wp_step. apply (fishing_store8 fds m); [done|by left|lia|]. intros t Ht. wp_step.
    eapply wp_mono; [by eapply (close_file fds _ t fd d)| |done]. intros r u Hu2. apply wp_ret.
    exists Closed, (upd c 10 m). rewrite upd_eq. split_and!; try done. intros a Ha. by apply upd_ne. }
  destruct ls as [|l ls]; cbn [place hd tl] in *; [by apply Hend; destruct Hp as (_ & -> & _)|].
  rewrite (proj2 (Nat.leb_gt _ _)) in Hp by lia. destruct Hp as [_ Hp].
  destruct ls as [|l' ls]; destruct Hp as [-> Hp]; [by apply Hend|]. clear Hend. cbn [negb Z.eqb].
  apply (fishing_store8 fds m); [done|by left|lia|]. intros t Ht. exists d, (upd c 48 m). rewrite upd_eq, insert_same by done.
  split_and!; try done. intros a Ha. by apply upd_ne.
Qed.

Lemma end_rows_rule {X} ls0 ls1 n eof0 eof1 st s (rest : K X) Q E :
  row_at ls0 ls1 (S n) (eof0, eof1) st s -> (length (hd [] ls0) <= n)%nat -> (length (hd [] ls1) <= n)%nat ->
  (forall t, row_at (tl ls0) (tl ls1) 0 (eof0, eof1) st t -> wp rest Q E t) ->
  wp (end_row c0 fd0 eof0 ;; end_row c1 fd1 eof1 ;; rest) Q E s.
Proof.
  intros (d0 & d1 & m & Hs & P0 & P1 & Hd) N0 N1 HQ. pose proof (fv_two vars) as Hne. cbn [fst snd] in *. wp_step.
  eapply wp_mono; [eapply (end_row_rule (two d0 d1) m s fd0 c0 ls0 n); try done; [apply two_at|apply vars]| |done].
  intros [] t (d0' & m1 & Ht & P0' & F0). rewrite (proj1 (two_set _ _ _)) in Ht. wp_step.
  rewrite <- (F0 c1) in P1 by done.
  eapply wp_mono; [eapply (end_row_rule (two d0' d1) m1 t fd1 c1 ls1 n); try done; [apply two_at|apply vars]| |done].
  intros [] u (d1' & m2 & Hu & P1' & F1). rewrite (proj2 (two_set _ _ _)) in Hu. rewrite <- (F1 c0) in P0' by done.
  apply HQ. exists d0', d1', m2. split_and!; try done.
  apply (drawn_char c1 st m1); [apply vars|done|]. apply (drawn_char c0 st m); [apply vars|done|done].
Qed.

Lemma place_end ls c eof d : place ls 0 c eof d -> (eof =? 0) = match ls with [] => false | _ => true end.
Proof. destruct ls as [|l ls]; cbn; [by intros (_ & -> & _)|by intros (_ & -> & _)]. Qed.

(** Frames of at most 800 rows of at most 1000 characters. *)
Definition frame_fits (ls : list (list Z)) : Prop := (length ls <= 800)%nat /\ Forall (fun l => length l <= 1000)%nat ls.

Lemma frame_row ls r : frame_fits ls -> (length (nth r ls []) <= 1000)%nat.
Proof.
  intros [_ Hf]. destruct (nth_in_or_default r ls []) as [Hin| ->]; [|cbn; lia].
  rewrite Forall_forall in Hf. apply Hf. by apply list_elem_of_In.
Qed.

Lemma drop_hd (ls : list (list Z)) r : hd [] (drop r ls) = nth r ls [] /\ tl (drop r ls) = drop (S r) ls.
Proof.
  revert ls. induction r as [|r IH]; intros [|l ls]; try done. apply (IH ls).
Qed.

Lemma plain_drop ls r : plain_lines ls -> plain_lines (drop r ls).
Proof. apply Forall_drop. Qed.

Lemma rows_rule ls0 ls1 st s E :
  row_at ls0 ls1 0 (0, 0) st s -> ls0 <> [] -> ls1 <> [] -> plain_lines ls0 -> plain_lines ls1 ->
  frame_fits ls0 -> frame_fits ls1 ->
  wp (loop (fun st : Z * (Z * Z) =>
      let '(row, (eof0, eof1)) := st in
      if (eof0 =? 0) || (eof1 =? 0) then
        let* '(eof0, eof1) := add_row blink_struct c0 c1 tmp fd0 fd1 row (eof0, eof1) in
        end_row c0 fd0 eof0 ;;
        end_row c1 fd1 eof1 ;;
        ret (inl (row + 1, (eof0, eof1)))
      else ret (inr tt)) (0, (0, 0)))
    (fun _ t => exists m, fishing (two Closed Closed) m t /\ drawn (after (frame_ops ls0 ls1) st) m) E s.
Proof.
  intros Hs Ne0 Ne1 L0 L1 F0 F1. set (n := (length ls0 `max` length ls1)%nat).
  assert (Hn : (n <= 800)%nat) by (unfold n; destruct F0, F1; lia).
  set (upto := fun r => flat_map (fun row => row_ops row (nth row ls0 []) (nth row ls1 [])) (seq 0 r)).
  apply wp_loop_ghost with (I := fun r st' t => exists eofs, st' = (Z.of_nat r, eofs) /\ (r <= n)%nat /\
      row_at (drop r ls0) (drop r ls1) 0 eofs (after (upto r) st) t)
    (mu := fun r => Z.of_nat n - Z.of_nat r) (g := O); [|unfold loop_fuel; lia|].
  { exists (0, 0). split_and!; [done|lia|exact Hs]. }
  intros r st' t ([eof0 eof1] & -> & Hr & Hrow). split; [lia|].
  assert (Hcond : (eof0 =? 0) || (eof1 =? 0) = bool_decide (r < n)%nat).
  { destruct Hrow as (d0 & d1 & m & _ & P0 & P1 & _). cbn [fst snd] in P0, P1. rewrite (place_end _ _ _ _ P0), (place_end _ _ _ _ P1).
    assert (Hnil : forall ls : list (list Z), (match drop r ls with [] => false | _ => true end) = bool_decide (r < length ls)%nat).
    { intros ls. case_bool_decide as Hlt; destruct (drop r ls) eqn:Hdr; try done; apply (f_equal length) in Hdr;
        rewrite length_drop in Hdr; cbn [length] in Hdr; lia. }
    rewrite !Hnil. unfold n. repeat case_bool_decide; cbn; (done || lia). }
  rewrite Hcond. case_bool_decide as Hlt.
  - wp_step. destruct (drop_hd ls0 r) as [H0h H0t], (drop_hd ls1 r) as [H1h H1t].
    pose proof (frame_row ls0 r F0). pose proof (frame_row ls1 r F1).
    eapply wp_mono; [apply (add_row_rule (drop r ls0) (drop r ls1) r _ _ t E Hrow); try by apply plain_drop| |done].
    { rewrite H0h, H1h. lia. }
    rewrite H0h, H1h. intros [e0 e1] u Hu. cbn beta iota.
    eapply end_rows_rule; [exact Hu|rewrite ?H0h; lia|rewrite ?H1h; lia|]. rewrite H0t, H1t. intros v Hv. apply wp_ret.
    exists (S r). split; [|lia]. exists (e0, e1). split_and!; [f_equal; lia|lia|].
    unfold upto. rewrite seq_S, flat_map_app, Nat.add_0_l, after_app. cbn [flat_map]. rewrite app_nil_r. exact Hv.
  - apply wp_ret. assert (r = n) as -> by lia. destruct Hrow as (d0 & d1 & m & Hf & P0 & P1 & Hd).
    rewrite !drop_ge in P0, P1 by (unfold n; lia). cbn in P0, P1. destruct P0 as (_ & _ & ->), P1 as (_ & _ & ->).
    by exists m.
Qed.
End rows.

(** ** The whole function *)

(** A file [add_frames] can show: its name is apart from the variables. *)
Record frame_file (m : Z -> Z) (f : Z) (nm : list Z) (size : Z) (data : list Z) : Prop := {
  ff_open : openable m f nm size data;
  ff_c0 : apart f (Z.of_nat (length nm) + 1) c0 1;
  ff_c1 : apart f (Z.of_nat (length nm) + 1) c1 1;
  ff_struct : apart f (Z.of_nat (length nm) + 1) blink_struct 16;
  ff_fits : frame_fits (lines (take (Z.to_nat size) data)) }.

Definition own_var (a : Z) : Prop := a = c0 \/ a = c1 \/ blink_struct <= a < blink_struct + 16.

Lemma frame_file_kept m m' f nm size data :
  frame_file m f nm size data -> (forall a, own_var a \/ m' a = m a) -> openable m' f nm size data.
Proof.
  intros [[[Hu Hm Hc] Hs Hp Hf] A0 A1 As _] Hk. constructor; try done. constructor; try done.
  intros i b Hi. rewrite <- (Hm i b Hi). apply lookup_lt_Some in Hi as Hlt. rewrite length_app in Hlt. cbn [length] in Hlt.
  destruct (Hk (f + Z.of_nat i)) as [[?|[?|?]]|]; [| | |done]; exfalso.
  - destruct A0; lia.
  - destruct A1; lia.
  - destruct As; lia.
Qed.

(** The variables before the files are opened. *)
Lemma start_rule {X} fds bs chars m s (rest : K X) Q E :
  fishing fds m s -> blinks MB136 bs chars m ->
  (forall m' t, fishing fds m' t -> drawn (bs, chars) m' -> m' c0 = 48 -> m' c1 = 48 ->
     (forall a, own_var a \/ m' a = m a) -> wp rest Q E t) ->
  wp (ustore8 c0 48 ;; ustore8 c1 48 ;; ustore16 (blink_struct + ON_LENGTH) 15 ;;
      ustore16 (blink_struct + OFF_LENGTH) 15 ;; rest) Q E s.
Proof.
  intros Hs Hb HQ. pose proof (fv_c0 vars) as V0. pose proof (fv_c1 vars) as V1. pose proof (fv_two vars) as Hne.
  assert (Acc : forall j, 0 <= j < 16 -> seen_at (blink_struct + j)) by apply (bf_access _ _ _ (fv_struct vars)).
  unfold ON_LENGTH, OFF_LENGTH.
  wp_step. eapply fishing_store8; [exact Hs|left; apply V0|lia|]. clear s Hs. intros s Hs.
  wp_step. eapply fishing_store8; [exact Hs|left; apply V1|lia|]. clear s Hs. intros s Hs.
  wp_step. eapply fishing_store16; [exact Hs|by apply Acc|rewrite <- Z.add_assoc; by apply Acc|]. clear s Hs. intros s Hs.
  wp_step. eapply fishing_store16; [exact Hs|by apply Acc|rewrite <- Z.add_assoc; by apply Acc|]. clear s Hs. intros s Hs.
  revert Hs. set (m1 := upd c1 48 (upd c0 48 m)). set (m2 := upd16 _ _ _). intros Hs.
  assert (S1 : same_program MB136 m m1).
  { intros a Ha. pose proof (char_window c0 V0). pose proof (char_window c1 V1). unfold m1. rewrite !upd_ne; [done|..]; intros ->.
    - destruct (cv_array _ V0), (cv_head _ V0), (cv_base _ V0); lia.
    - destruct (cv_array _ V1), (cv_head _ V1), (cv_base _ V1); lia. }
  assert (Hb1 : blinks MB136 bs chars m1).
  { destruct Hb as [Hw (ps & HL & ->)].
    destruct (same_program_frame seen_at MB136 (fv_layout vars) chars m m1 ps S1 HL Hw) as (L' & F' & W').
    split; [exact W'|]. exists ps. by rewrite F'. }
  assert (F2 : forall a, blink_struct <= a < blink_struct + 16 \/ m2 a = m1 a).
  { intros a. destruct (decide (blink_struct <= a < blink_struct + 16)); [by left|]. right.
    unfold m2. by rewrite !upd16_out by lia. }
  assert (Hout : forall c, char_var c -> m2 c = m1 c).
  { intros c Hc. destruct (F2 c); [destruct (cv_struct _ Hc); lia|done]. }
  apply (HQ m2 s Hs).
  - constructor; cbn [fst snd].
    + by apply (buffer_blinks seen_at MB136 (fv_layout vars) blink_struct _ _ m1 m2 (fv_struct vars)).
    + unfold m2, ON_LENGTH. rewrite w16_upd16_out, w16_upd16 by lia. done.
    + unfold m2, OFF_LENGTH. rewrite w16_upd16. done.
  - rewrite Hout by done. unfold m1. by rewrite upd_ne, upd_eq.
  - rewrite Hout by done. unfold m1. by rewrite upd_eq.
  - intros a. unfold own_var. destruct (F2 a) as [?| ->]; [by left; right; right|]. unfold m1.
    destruct (decide (a = c1)); [by left; right; left|]. destruct (decide (a = c0)); [by left; left|].
    right. by rewrite !upd_ne.
Qed.

Lemma fishing_length fds m s : fishing fds m s -> length fds = 8%nat.
Proof.
  intros [_ (w & Hr & _ & <- & _)]. destruct (rn_process _ _ _ _ _ Hr) as (a & p & _ & Hpi). by eapply fds_length.
Qed.

Lemma first_free_spec fds fd : first_free_fd fds = Some fd -> 2 <= fd <= 7 /\ default Closed (aget fds fd) = Closed.
Proof.
  unfold first_free_fd. intros Hf. apply find_some in Hf as [Hin Hc]. apply list_elem_of_In, elem_of_seqZ in Hin.
  split; [lia|]. by destruct (default Closed (aget fds fd)).
Qed.

Lemma first_row size data : 0 <= size <= Z.of_nat (length data) ->
  place (lines (take (Z.to_nat size) data)) 0 48 0 (FileAt size data 0).
Proof.
  intros Hs. destruct (lines_spec (take (Z.to_nat size) data)) as (Ht & Hne & _). destruct (lines _) as [|l ls]; [done|].
  cbn [place Nat.leb]. split_and!; [done|done|]. exists size, data, 0. split_and!; [done|lia|lia|lia|].
  by rewrite Ht, !drop_0.
Qed.

Lemma add_frames_rule bs chars fds m s f0 nm0 size0 data0 f1 nm1 size1 data1 fd0 fd1 rtc_fd E :
  fishing fds m s -> blinks MB136 bs chars m ->
  frame_file m f0 nm0 size0 data0 -> frame_file m f1 nm1 size1 data1 ->
  first_free_fd fds = Some fd0 -> first_free_fd (<[Z.to_nat fd0 := FileAt size0 data0 0]> fds) = Some fd1 ->
  wp (add_frames blink_struct c0 c1 tmp f0 f1 rtc_fd)
    (fun _ t => exists m', fishing fds m' t /\
       drawn (after (frame_ops (lines (take (Z.to_nat size0) data0)) (lines (take (Z.to_nat size1) data1))) (bs, chars)) m') E s.
Proof.
  intros Hs Hb FF0 FF1 Hfd0 Hfd1. pose proof (fishing_length fds m s Hs) as Hlen.
  destruct (first_free_spec _ _ Hfd0) as [R0 C0]. destruct (first_free_spec _ _ Hfd1) as [R1 C1].
  assert (Hne : fd0 <> fd1).
  { intros <-. unfold aget in C1. rewrite length_insert, Hlen, (proj2 (Z.leb_le _ _)), (proj2 (Z.ltb_lt _ _)) in C1 by lia.
    cbn [andb] in C1. by rewrite list_lookup_insert_eq in C1 by lia. }
  unfold add_frames. eapply start_rule; [exact Hs|exact Hb|]. clear s Hs. intros m1 s Hs Hd E0 E1 Hk.
  wp_step. eapply wp_mono; [eapply (open_file fds m1 s f0); [exact Hs|by eapply frame_file_kept|exact Hfd0]| |done].
  intros r t (-> & Hs0 & Ht). rewrite (proj2 (Z.ltb_ge fd0 0)) by lia. wp_step. apply wp_ret. wp_step.
  eapply wp_mono; [eapply (open_file _ m1 t f1); [exact Ht|by eapply frame_file_kept|exact Hfd1]| |done].
  intros r u (-> & Hs1 & Hu). rewrite (proj2 (Z.ltb_ge fd1 0)) by lia. wp_step. apply wp_ret.
  rewrite list_insert_insert_ne in Hu by lia.
  assert (Hok : length fds = 8%nat /\ 2 <= fd0 <= 7 /\ 2 <= fd1 <= 7 /\ fd0 <> fd1) by done.
  destruct (lines_spec (take (Z.to_nat size0) data0)) as (_ & Ne0 & L0), (lines_spec (take (Z.to_nat size1) data1)) as (_ & Ne1 & L1).
  eapply wp_mono; [eapply (rows_rule fds fd0 fd1 Hok); [|exact Ne0|exact Ne1|exact L0|exact L1|apply FF0|apply FF1]| |done].
  - exists (FileAt size0 data0 0), (FileAt size1 data1 0), m1. cbn [fst snd]. rewrite E0, E1.
    split_and!; [exact Hu|by apply first_row|by apply first_row|exact Hd].
  - intros [] v (m' & Hv & Hd'). exists m'. split; [|exact Hd'].
    assert (Hcl : forall fd, 2 <= fd <= 7 -> default Closed (aget fds fd) = Closed -> fds !! Z.to_nat fd = Some Closed).
    { intros fd Hfd. unfold aget. rewrite Hlen, (proj2 (Z.leb_le _ _)), (proj2 (Z.ltb_lt _ _)) by lia. cbn [andb].
      destruct (lookup_lt_is_Some_2 fds (Z.to_nat fd)) as [d Hd0]; [lia|]. rewrite Hd0. by intros <-. }
    assert (H1 : <[Z.to_nat fd1 := Closed]> fds = fds).
    { apply list_insert_id, Hcl; [done|]. unfold aget in C1 |- *. rewrite length_insert in C1.
      destruct (_ && _); [|done]. by rewrite list_lookup_insert_ne in C1 by lia. }
    unfold two in Hv. rewrite H1, (list_insert_id fds) in Hv by (by apply Hcl). exact Hv.
Qed.

End variables.
End fish_kernel.

(** C17: The fish's frames on the kernel.  [add_frames], run by a process that has
    the list of blinking characters in its memory and the window on the screen
    open, reads the two files it is given byte by byte to their ends and returns;
    for every row and column in which either file has a character other than a
    space, in reading order, it requests the blinking character [frame_ops] says -
    the one of the first file, then the one of the second, a space where a line
    has ended, 15 ticks each, 40 columns to the right - and the list and the
    screen are afterwards what those requests make of them.  Both files are
    closed again, and nothing but the program's memory and the screen has
    changed.  Frames are of at most 800 rows of at most 1000 characters. *)
Theorem add_frames_draws `{Env} `{FishData} own base k irqs es fds m s bs chars blink_struct c0 c1 tmp
    f0 nm0 size0 data0 f1 nm1 size1 data1 fd0 fd1 rtc_fd :
  table_linked -> frame_vars blink_struct c0 c1 tmp ->
  fishing own base k es fds m s -> blinks MB136 bs chars m ->
  frame_file es blink_struct c0 c1 m f0 nm0 size0 data0 -> frame_file es blink_struct c0 c1 m f1 nm1 size1 data1 ->
  first_free_fd fds = Some fd0 -> first_free_fd (<[Z.to_nat fd0 := FileAt size0 data0 0]> fds) = Some fd1 ->
  exists t m', @add_frames _ (kernel_syscalls irqs) _ blink_struct c0 c1 tmp f0 f1 rtc_fd s = Ret tt t /\
    fishing own base k es fds m' t /\
    let ops := frame_ops (lines (take (Z.to_nat size0) data0)) (lines (take (Z.to_nat size1) data1)) in
    blinks MB136 (fst (after ops (bs, chars))) (snd (after ops (bs, chars))) m'.
Proof.
  intros Hl Hv Hs Hb F0 F1 Hfd0 Hfd1.
  pose proof (add_frames_rule Hl own base k irqs es blink_struct c0 c1 tmp Hv bs chars fds m s f0 nm0 size0 data0
    f1 nm1 size1 data1 fd0 fd1 rtc_fd (fun _ _ => False) Hs Hb F0 F1 Hfd0 Hfd1) as Hw.
  apply wp_Ret in Hw as ([] & t & Hrun & m' & Ht & Hd). exists t, m'. split_and!; [done|done|apply Hd].
Qed.

(** * A closed example

    Process 0 of [UserKernel] with the address of the window in its memory; both
    frames are the one file it has. *)
Section demo.
Let H := quiet_env.
Local Existing Instance H.

Definition pond_data : FishData := {|
  vmem_base_addr := 0x8009010; blink_array := 0x8100000; mp1_list_head := 0x8009000;
  file0 := 0x8050446; file1 := 0x8050446 |}.
Local Existing Instance pond_data.

Definition pond (g : list (Z * Z)) : world := stored_byte 0x8009013 8 (stored_byte 0x8009012 0x80 (demo_world g)).

Definition pond_byte (a : Z) : Z :=
  upd 0x8009013 8 (upd 0x8009012 0x80 (fun a => demo_user_byte (frame_of 0 a))) a.

Lemma pond_look g a : user a = true -> look (pond g) a = pond_byte a.
Proof. intros Ha. unfold look. by rewrite Ha. Qed.

Lemma pond_zero a :
  0x8009000 <= a < 0x800A000 /\ ~ 0x8009012 <= a < 0x8009014 \/ 0x8100000 <= a < 0x8200000 -> pond_byte a = 0.
Proof.
  intros Ha. unfold pond_byte. rewrite !upd_ne by lia. unfold demo_user_byte, frame_of, EIGHT_MB, FOUR_MB.
  set (b := 0x800000 + 0 * 0x400000 + (a - 0x8000000)).
  assert (Hb : 0x809000 <= b < 0x80A000 \/ 0x900000 <= b < 0xA00000) by (unfold b; lia).
  assert (Hlit : (0x850000 <=? b) && (b <? 0x851000) = false) by lia. rewrite Hlit.
  unfold demo_exec_byte. rewrite !(proj2 (Z.eqb_neq b _)) by lia.
  assert (Hfile : (0x502000 <=? b) && (b <? 0x50201D) = false) by lia. by rewrite Hfile.
Qed.

Lemma pond_list g : blinks MB136 [] (fun i => look (pond g) (MB136 + 2 * i)) (look (pond g)).
Proof.
  assert (Hu : forall a, 0x8009000 <= a < 0x8200000 -> look (pond g) a = pond_byte a).
  { intros a Ha. apply pond_look, user_spec. lia. }
  split.
  - split; [|done]. unfold w32. cbn [vmem_base_addr pond_data]. rewrite !Hu by lia.
    rewrite (pond_zero 0x8009010), (pond_zero (0x8009010 + 1)) by lia. done.
  - exists []. split; [|done]. constructor; [|by constructor..|].
    + cbn [chain mp1_list_head pond_data]. unfold w32. by rewrite !Hu, !pond_zero by lia.
    + intros p (i & Hi & ->) _. unfold w16, STRUCT_SIZE. cbn [blink_array pond_data]. rewrite !Hu, !pond_zero by lia. done.
Qed.

Lemma pond_layout : layout seen_at MB136.
Proof.
  constructor; cbn [blink_array mp1_list_head vmem_base_addr pond_data]; unfold apart, seen_at;
    try (intros a Ha; rewrite user_spec); unfold MB136, KB4 in *; lia.
Qed.

Lemma pond_buffer a : 0x800A000 <= a <= 0x800A010 -> buffer_ok seen_at MB136 a.
Proof.
  intros Ha. constructor; cbn [blink_array mp1_list_head vmem_base_addr pond_data]; unfold apart, seen_at;
    try (intros i Hi; rewrite user_spec); unfold MB136, KB4 in *; lia.
Qed.

Lemma pond_char c : 0x800A030 <= c <= 0x800A031 -> char_var 0x800A010 0x800A000 c.
Proof.
  intros Hc. constructor; cbn [blink_array mp1_list_head vmem_base_addr pond_data]; unfold apart;
    rewrite ?user_spec; lia.
Qed.

Lemma pond_vars : frame_vars 0x800A010 0x800A030 0x800A031 0x800A000.
Proof.
  constructor; [apply pond_layout|apply pond_buffer; lia|apply pond_buffer; lia|unfold apart; lia|apply pond_char; lia..|lia].
Qed.

Definition pond_lines : list (list Z) := lines (take (Z.to_nat 29) (demo_exec_bytes 0x502000 4096)).

Lemma pond_fits : frame_fits pond_lines.
Proof.
  assert (Hf : forallb (fun l => Nat.leb (length l) 20) pond_lines = true /\ Nat.leb (length pond_lines) 9 = true).
  { by vm_compute. }
  destruct Hf as [Hf Hl%Nat.leb_le]. split; [lia|]. rewrite Forall_forall. rewrite forallb_forall in Hf.
  intros l Hin%list_elem_of_In. apply Hf, Nat.leb_le in Hin. lia.
Qed.

(** The name ["shell"] is the end of the literal ["shell shell"]. *)
Lemma pond_name g : name_at (look (pond g)) 0x8050446 (bytes_of "shell").
Proof.
  assert (Hs : string_at (demo_world g) 0x8050440 (bytes_of "shell shell")).
  { apply (demo_placed g 17); [reflexivity|lia|cbn; lia|reflexivity|reflexivity]. }
  constructor; [reflexivity| |by repeat constructor]. intros i b Hi. pose proof (lookup_lt_Some _ _ _ Hi) as Hlt. cbn in Hlt.
  rewrite pond_look by (apply user_spec; lia). unfold pond_byte. rewrite !upd_ne by lia.
  pose proof (sa_mem _ _ _ Hs (6 + i)%nat b) as Hm. replace (0x8050440 + Z.of_nat (6 + i)) with (0x8050446 + Z.of_nat i) in Hm by lia.
  apply Hm. change (bytes_of "shell shell" ++ [0]) with (bytes_of "shell " ++ bytes_of "shell" ++ [0]).
  rewrite lookup_app_r by (cbn; lia). by replace (6 + i - length (bytes_of "shell "))%nat with i by (cbn; lia).
Qed.

Lemma pond_file g : frame_file (w_entries (demo_world g)) 0x800A010 0x800A030 0x800A031 (look (pond g))
  0x8050446 (bytes_of "shell") 29 (demo_exec_bytes 0x502000 4096).
Proof.
  constructor; [constructor|..]; try (unfold apart; cbn; lia); [apply pond_name|by split| |apply pond_fits].
  by exists (bytes_of "shell").
Qed.

Lemma add_frames_draws_witness :
  exists g t m',
    (ustore8 0x8009012 0x80 ;; ustore8 0x8009013 8 ;;
     @add_frames _ (kernel_syscalls []) _ 0x800A010 0x800A030 0x800A031 0x800A000 0x8050446 0x8050446 2) demo_user = Ret tt t /\
    blinks MB136 (fst (after (frame_ops pond_lines pond_lines) ([], fun i => look (pond g) (MB136 + 2 * i))))
      (snd (after (frame_ops pond_lines pond_lines) ([], fun i => look (pond g) (MB136 + 2 * i)))) m' /\
    length (fst (after (frame_ops pond_lines pond_lines) ([], fun i => look (pond g) (MB136 + 2 * i)))) = 24%nat.
Proof.
  destruct (demo_runs (fun _ => True) I) as [g Hr]. exists g.
  destruct (kernel_stores demo_table_linked (fun _ => True) demo_user 0 _ _ 0x8009012 0x80 Hr eq_refl) as (s1 & H1 & R1).
  destruct (kernel_stores demo_table_linked (fun _ => True) demo_user 0 _ _ 0x8009013 8 R1 eq_refl) as (s2 & H2 & R2).
  assert (Hs : fishing (fun _ => True) demo_user 0 (w_entries (demo_world g)) (w_fds (demo_world g)) (look (pond g)) s2).
  { constructor; [apply (window_stays (fun _ => True) demo_user 0 _ _ _ _ Hr R2); split; reflexivity|].
    exists (pond g). split; [exact R2|]. split; [by intros a _|split; reflexivity]. }
  destruct (add_frames_draws (fun _ => True) demo_user 0 [] (w_entries (demo_world g)) (w_fds (demo_world g)) (look (pond g)) s2
    [] (fun i => look (pond g) (MB136 + 2 * i)) 0x800A010 0x800A030 0x800A031 0x800A000
    0x8050446 (bytes_of "shell") 29 (demo_exec_bytes 0x502000 4096) 0x8050446 (bytes_of "shell") 29 (demo_exec_bytes 0x502000 4096)
    2 3 2 demo_table_linked pond_vars Hs (pond_list g) (pond_file g) (pond_file g) eq_refl eq_refl) as (t & m' & Hrun & _ & Hb).
  exists t, m'. split; [|split; [exact Hb|by vm_compute]].
  rewrite (bind_Ret _ _ _ _ _ H1), (bind_Ret _ _ _ _ _ H2). exact Hrun.
Defined.

End demo.
