(* ===== verification/Emulate.v ===== *)
(** The stand-in for the system calls with which a user program runs on Linux,
    [ece391emulate.c], and the string routines of [src/fish/ece391support.c] it
    uses: how a command line becomes the arguments of a process and the
    arguments become the string [getargs] gives.  Linux is a parameter. *)
From stdpp Require Import base numbers list gmap.
From Stdlib Require Import ZArith Lia.
From S2P Require Import Prelude.

#[local] Open Scope kernel_scope.

(** A process: its memory and the static variables of the file.  [dir] is a
    pointer, 0 when no directory is open. *)
Record process : Type := Process {
  p_mem : gmap Z Z;
  start_esp : Z;
  dir_fd : Z;
  dir : Z;
  mem_fd : Z }.

(** A process leaves its code with an exit status. *)
Definition P : Type -> Type := M process Z.

Definition set_p_mem (m : gmap Z Z) (s : process) : process :=
  Process m (start_esp s) (dir_fd s) (dir s) (mem_fd s).
Definition set_start_esp (v : Z) (s : process) : process :=
  Process (p_mem s) v (dir_fd s) (dir s) (mem_fd s).
Definition set_dir_fd (v : Z) (s : process) : process :=
  Process (p_mem s) (start_esp s) v (dir s) (mem_fd s).
Definition set_dir (v : Z) (s : process) : process :=
  Process (p_mem s) (start_esp s) (dir_fd s) v (mem_fd s).
Definition set_mem_fd (v : Z) (s : process) : process :=
  Process (p_mem s) (start_esp s) (dir_fd s) (dir s) v.

(** The calls of Linux and its C library the file makes.  A string literal is
    part of the name; [fork_child] is [fork] with what the child does, in its
    copy of the process; [readdir] gives the address of the name it read. *)
Class Linux : Type := {
  int_0x80 : Z -> Z -> Z -> Z -> P Z;
  opendir_dot : P Z;
  readdir : Z -> P Z;
  closedir : Z -> P Z;
  open_dev_null : P Z;
  open_dev_mem : P Z;
  close : Z -> P Z;
  fork_child : P unit -> P unit;
  execv : Z -> list Z -> P Z;
  getpid : P Z;
  kill : Z -> Z -> P Z;
  wait : P Z;
  mmap_low : Z -> P Z;
  perror : P unit }.

Definition load (a : Z) : P Z := let* m := gets p_mem in get_or_fault a (m !! a).
Definition store (a v : Z) : P unit :=
  load a ;; modify (fun s => set_p_mem (<[a := u8 v]> (p_mem s)) s).
Definition load_word (a : Z) : P Z :=
  let* b0 := load a in
  let* b1 := load (a + 1) in
  let* b2 := load (a + 2) in
  let* b3 := load (a + 3) in
  ret (b0 + b1 * 2 ^ 8 + b2 * 2 ^ 16 + b3 * 2 ^ 24).
Definition store_word (a v : Z) : P unit :=
  store a v ;; store (a + 1) (Z.shiftr v 8) ;; store (a + 2) (Z.shiftr v 16) ;; store (a + 3) (Z.shiftr v 24).

(** * ece391support.c *)

Definition ece391_strlen (s : Z) : P Z :=
  loop (fun len =>
    let* c := load (s + len) in
    if negb (0 =? c) then ret (inl (u32 (len + 1))) else ret (inr len)) 0.

Definition ece391_strcpy (dst src : Z) : P unit :=
  loop (fun ds : Z * Z =>
    let* c := load (snd ds) in
    store (fst ds) c ;;
    if negb (0 =? c) then ret (inl (fst ds + 1, snd ds + 1)) else ret (inr tt)) (dst, src).

Definition ece391_strcmp (s1 s2 : Z) : P Z :=
  loop (fun p : Z * Z =>
    let* c1 := load (fst p) in
    let* c2 := load (snd p) in
    if c1 =? c2 then
      if c1 =? 0 then ret (inr 0) else ret (inl (fst p + 1, snd p + 1))
    else ret (inr (c1 - c2))) (s1, s2).

(** * ece391emulate.c *)

Section emulate.
Context `{Linux}.

(** The stubs [DO_CALL] makes: errors of Linux are -1. *)
Definition DO_CALL (number a b c : Z) : P Z :=
  let* eax := int_0x80 number a b c in
  if u32 eax <=? 0xFFFFC000 then ret (s32 eax) else ret (-1).

Definition ece391_halt (status : Z) : P Z := DO_CALL 1 status 0 0.
Definition __ece391_read (fd buf nbytes : Z) : P Z := DO_CALL 3 fd buf nbytes.
Definition __ece391_write (fd buf nbytes : Z) : P Z := DO_CALL 4 fd buf nbytes.
Definition __ece391_close (fd : Z) : P Z := DO_CALL 6 fd 0 0.

(** [_start]; [esp] is the stack pointer the process begins with. *)
Definition _start (esp : Z) (main : P Z) : P Z :=
  modify (set_start_esp esp) ;;
  let* r := main in
  ece391_halt r.

(** [while ('\0' != *scan && ' ' != *scan && '\n' != *scan) scan++;] *)
Definition skip_word : Z -> P Z :=
  loop (fun scan =>
    let* c := load scan in
    if negb (0 =? c) && negb (32 =? c) && negb (10 =? c) then ret (inl (scan + 1)) else ret (inr scan)).

Definition skip_spaces : Z -> P Z :=
  loop (fun scan =>
    let* c := load scan in
    if 32 =? c then ret (inl (scan + 1)) else ret (inr scan)).

(** The arguments behind the first word; [args] are those found before. *)
Definition parse_args (scan : Z) (args : list Z) : P (list Z) :=
  loop (fun st : Z * list Z =>
    let* scan := skip_spaces (fst st) in
    let* c := load scan in
    if (0 =? c) || (10 =? c) then
      store scan 0 ;; ret (inr (snd st))
    else
      let* stop := skip_word scan in
      let* c := load stop in
      if negb (0 =? c) then store stop 0 ;; ret (inl (stop + 1, snd st ++ [scan]))
      else ret (inl (stop, snd st ++ [scan]))) (scan, args).

(** The arguments of a command that was copied to [buf + 2]. *)
Definition split_command (buf : Z) : P (list Z) :=
  let* scan := skip_word (buf + 2) in
  let* c := load scan in
  if negb (0 =? c) then store scan 0 ;; parse_args (scan + 1) [buf] else ret [buf].

Definition WIFEXITED (status : Z) : bool := Z.land status 0x7F =? 0.
Definition WEXITSTATUS (status : Z) : Z := Z.shiftr (Z.land status 0xFF00) 8.
Definition WTERMSIG (status : Z) : Z := Z.land status 0x7F.

Definition child (buf : Z) (args : list Z) : P unit :=
  execv buf args ;; let* pid := getpid in kill pid 9 ;; ret tt.

Definition reap : P Z :=
  let* status := wait in
  if WIFEXITED status then ret (WEXITSTATUS status) else
  if 9 =? WTERMSIG status then ret (-1) else
  ret 256.

(** [buf] is the array of 1026 bytes on the stack; the array [args] is a list,
    whose terminating [NULL] is not written. *)
Definition ece391_execute (buf command : Z) : P Z :=
  let* n := ece391_strlen command in
  if 1023 <? n then ret (-1) else
  store buf 46 ;;
  store (buf + 1) 47 ;;
  ece391_strcpy (buf + 2) command ;;
  let* args := split_command buf in
  fork_child (child buf args) ;;
  reap.

(** [dot] is the address of the literal ["."]. *)
Definition ece391_open (dot filename : Z) : P Z :=
  let* r := ece391_strcmp filename dot in
  if 0 =? r then
    let* d := opendir_dot in
    modify (set_dir d) ;;
    let* fd := open_dev_null in
    modify (set_dir_fd fd) ;;
    ret fd
  else
    let* rval := int_0x80 5 filename 0 0 in
    if 0xFFFFC000 <? u32 rval then ret (-1) else ret (s32 rval).

(** The loop of [ece391_getargs] from argument [idx]: whether all were copied,
    and where the string ends. *)
Definition copy_args (argc argv buf nbytes : Z) : P (option (Z * Z)) :=
  loop (fun st : Z * Z * Z =>
    let '(idx, buf, nbytes) := st in
    if idx <? argc then
      let* arg := load_word (argv + 4 * idx) in
      let* len := ece391_strlen arg in
      let len := s32 len in
      if nbytes <? len then ret (inr None) else
      let* arg := load_word (argv + 4 * idx) in
      ece391_strcpy buf arg ;;
      let buf := buf + len in
      let nbytes := nbytes - len in
      if argc <=? idx + 1 then ret (inr (Some (buf, nbytes))) else
      if nbytes <? 1 then ret (inr None) else
      store buf 32 ;;
      ret (inl (idx + 1, buf + 1, nbytes - 1))
    else ret (inr (Some (buf, nbytes)))) (1, buf, nbytes).

Definition ece391_getargs (buf nbytes : Z) : P Z :=
  let* esp := gets start_esp in
  let* argc := load_word esp in
  let argv := esp + 4 in
  let* r := copy_args (s32 argc) argv buf nbytes in
  match r with
  | None => ret (-1)
  | Some (buf, nbytes) =>
    if nbytes <? 1 then ret (-1) else
    store buf 0 ;;
    ret 0
  end.

Definition ece391_vidmap (screen_start : Z) : P Z :=
  let* fd := gets mem_fd in
  (if fd =? -1 then let* fd := open_dev_mem in modify (set_mem_fd fd) else ret tt) ;;
  let* fd := gets mem_fd in
  let* mem_image := mmap_low fd in
  if u32 mem_image =? u32 (-1) then perror ;; ret (-1) else
  store_word screen_start (mem_image + 0xB8000) ;;
  ret 0.

(** Padding of a directory name. *)
Definition pad_name (to nbytes copied : Z) : P Z :=
  loop (fun st : Z * Z =>
    let '(to, copied) := st in
    if (copied <? nbytes) && (copied <? 32) then
      store to 0 ;; ret (inl (to + 1, copied + 1))
    else ret (inr copied)) (to, copied).

(** A name is at most 32 bytes; [inr] is the end of the call. *)
Definition copy_name (from to nbytes : Z) : P (Z * Z + Z) :=
  loop (fun st : Z * Z * Z =>
    let '(from, to, copied) := st in
    let* c := load from in
    if 0 =? c then ret (inr (inl (to, copied))) else
    store to c ;;
    if copied + 1 =? nbytes then ret (inr (inr nbytes)) else
    if 32 =? copied + 1 then ret (inr (inr 32)) else
    ret (inl (from + 1, to + 1, copied + 1))) (from, to, 0).

Definition ece391_read (fd buf nbytes : Z) : P Z :=
  let* s := gets id in
  if (dir s =? 0) || negb (dir_fd s =? fd) then __ece391_read fd buf nbytes else
  let* name := readdir (dir s) in
  if name =? 0 then ret 0 else
  let* r := copy_name name buf nbytes in
  match r with
  | inr n => ret n
  | inl (to, copied) => pad_name to nbytes copied
  end.

Definition ece391_write (fd buf nbytes : Z) : P Z :=
  let* s := gets id in
  if (dir s =? 0) || negb (dir_fd s =? fd) then __ece391_write fd buf nbytes else ret (-1).

Definition ece391_close (fd : Z) : P Z :=
  let* s := gets id in
  if (dir s =? 0) || negb (dir_fd s =? fd) then __ece391_close fd else
  closedir (dir s) ;;
  modify (set_dir 0) ;;
  let* fd := gets dir_fd in
  close fd ;;
  modify (set_dir_fd (-1)) ;;
  ret 0.

End emulate.

(** * Memory *)

Definition holds (s : process) (a : Z) (l : list Z) : Prop :=
  forall (i : nat) b, l !! i = Some b -> p_mem s !! (a + Z.of_nat i) = Some b.

Record string_is (s : process) (a : Z) (l : list Z) : Prop := {
  si_holds : holds s a (l ++ [0]);
  si_chars : Forall (fun c => 0 < c < 256) l }.

Definition mapped (s : process) (a n : Z) : Prop := forall x, a <= x < a + n -> is_Some (p_mem s !! x).

(** Only the [n] bytes at [a] may differ. *)
Record changed (s t : process) (a n : Z) : Prop := {
  ch_rest : t = set_p_mem (p_mem t) s;
  ch_out : forall x, x < a \/ a + n <= x -> p_mem t !! x = p_mem s !! x;
  ch_mapped : forall x, is_Some (p_mem s !! x) -> is_Some (p_mem t !! x) }.

Lemma changed_refl s a n : changed s s a n.
Proof. constructor; [by destruct s|done|done]. Qed.

Lemma changed_trans s t u a n : changed s t a n -> changed t u a n -> changed s u a n.
Proof.
  intros [R1 O1 M1] [R2 O2 M2]. constructor.
  - rewrite R2 at 1. rewrite R1 at 1. done.
  - intros x Hx. by rewrite O2, O1.
  - intros x Hx. by apply M2, M1.
Qed.

Lemma changed_widen s t a n b m : changed s t a n -> b <= a -> a + n <= b + m -> changed s t b m.
Proof. intros [R O Hm] Hb He. constructor; [done| |done]. intros x Hx. apply O. lia. Qed.

Lemma changed_mapped s t a n b m : changed s t a n -> mapped s b m -> mapped t b m.
Proof. intros Hc Hm x Hx. by apply (ch_mapped _ _ _ _ Hc), Hm. Qed.

Lemma holds_changed s t a n b l :
  changed s t a n -> b + Z.of_nat (length l) <= a \/ a + n <= b -> holds s b l -> holds t b l.
Proof.
  intros Hc Hd Hh i x Hi. pose proof (lookup_lt_Some _ _ _ Hi). rewrite (ch_out _ _ _ _ Hc) by lia. by apply Hh.
Qed.

Lemma string_changed s t a n b l :
  changed s t a n -> b + (Z.of_nat (length l) + 1) <= a \/ a + n <= b -> string_is s b l -> string_is t b l.
Proof.
  intros Hc Hd [Hh Hl]. constructor; [|done]. eapply holds_changed; [exact Hc| |done].
  rewrite length_app. cbn [length]. lia.
Qed.

Lemma holds_app s a l1 l2 : holds s a (l1 ++ l2) <-> holds s a l1 /\ holds s (a + Z.of_nat (length l1)) l2.
Proof.
  split.
  - intros Hh. split; intros i b Hi; [apply Hh; by apply lookup_app_l_Some|].
    rewrite <- Z.add_assoc, <- Nat2Z.inj_add. apply Hh.
    rewrite lookup_app_r by lia. by replace (length l1 + i - length l1)%nat with i by lia.
  - intros [H1 H2] i b Hi. destruct (decide (i < length l1)%nat) as [Hlt|Hge].
    + apply H1. by rewrite lookup_app_l in Hi.
    + rewrite lookup_app_r in Hi by lia. specialize (H2 _ _ Hi).
      by replace (a + Z.of_nat i) with (a + Z.of_nat (length l1) + Z.of_nat (i - length l1)) by lia.
Qed.

Lemma holds_cons s a b l : holds s a (b :: l) <-> p_mem s !! a = Some b /\ holds s (a + 1) l.
Proof.
  change (b :: l) with ([b] ++ l). rewrite holds_app. cbn [length]. split; intros [H1 H2]; (split; [|done]).
  - rewrite <- (Z.add_0_r a). by apply (H1 0%nat).
  - intros i x Hi. destruct i as [|i]; [|done]. injection Hi as <-. by rewrite Z.add_0_r.
Qed.

Lemma load_is s a b : p_mem s !! a = Some b -> load a s = Ret b s.
Proof. intros Hb. unfold load, bind, gets, get_or_fault. by rewrite Hb. Qed.

Lemma store_is s a v :
  is_Some (p_mem s !! a) ->
  exists t, store a v s = Ret tt t /\ changed s t a 1 /\ p_mem t !! a = Some (u8 v).
Proof.
  intros [b Hb]. exists (set_p_mem (<[a := u8 v]> (p_mem s)) s). split_and!.
  - unfold store. by rewrite (bind_Ret _ _ _ _ _ (load_is _ _ _ Hb)).
  - constructor; [done| |]; intros x Hx; cbn [p_mem set_p_mem].
    + rewrite lookup_insert_ne by lia. done.
    + destruct (decide (x = a)) as [->|Hne]; [rewrite lookup_insert_eq; by eexists|by rewrite lookup_insert_ne].
  - apply lookup_insert_eq.
Qed.

Lemma string_get s a l i : string_is s a l -> (i <= length l)%nat ->
  exists c, (l ++ [0]) !! i = Some c /\ p_mem s !! (a + Z.of_nat i) = Some c.
Proof.
  intros Hs Hi. destruct (lookup_lt_is_Some_2 (l ++ [0]) i) as [c Hc]; [rewrite length_app; cbn; lia|].
  exists c. split; [done|]. by apply (si_holds _ _ _ Hs).
Qed.

(** The [i]-th byte of a string, inside it or its end. *)
Lemma string_cases s a l i c :
  string_is s a l -> (i <= length l)%nat -> (l ++ [0]) !! i = Some c ->
  (i = length l /\ c = 0) \/ (i < length l)%nat /\ l !! i = Some c /\ 0 < c < 256.
Proof.
  intros Hs Hi Hc. destruct (decide (i = length l)) as [->|Hne].
  - left. split; [done|]. rewrite lookup_app_r, Nat.sub_diag in Hc by done. by injection Hc.
  - right. rewrite lookup_app_l in Hc by lia. split_and!; [lia|done|..];
      apply (Forall_lookup_1 _ _ _ _ (si_chars _ _ _ Hs) Hc).
Qed.

Lemma strlen_host s a l E :
  string_is s a l -> Z.of_nat (length l) < 2 ^ 31 ->
  wp (ece391_strlen a) (fun n t => n = Z.of_nat (length l) /\ t = s) E s.
Proof.
  intros Hs Hl. unfold ece391_strlen.
  apply wp_loop_ghost with (I := fun (i : nat) len t => len = Z.of_nat i /\ t = s /\ (i <= length l)%nat)
    (mu := fun i => Z.of_nat (length l) - Z.of_nat i) (g := O); [split_and!; (done || lia)|unfold loop_fuel; lia|].
  intros i len t (-> & -> & Hi). split; [lia|]. destruct (string_get s a l i Hs Hi) as (c & Hc & Hm).
  wp_step. wp_use (load_is _ _ _ Hm). destruct (string_cases s a l i c Hs Hi Hc) as [[-> ->]|(Hlt & _ & Hr)].
  - by apply wp_ret.
  - rewrite (proj2 (Z.eqb_neq 0 c)) by lia. cbn [negb]. apply wp_ret. exists (S i).
    rewrite u32_small by lia. split_and!; (done || lia).
Qed.

(** Copying a string to bytes apart from it. *)
Lemma strcpy_host s dst src l E :
  string_is s src l -> Z.of_nat (length l) < 2 ^ 31 -> mapped s dst (Z.of_nat (length l) + 1) ->
  src + (Z.of_nat (length l) + 1) <= dst \/ dst + (Z.of_nat (length l) + 1) <= src ->
  wp (ece391_strcpy dst src)
    (fun _ t => changed s t dst (Z.of_nat (length l) + 1) /\ string_is t dst l) E s.
Proof.
  intros Hs Hl Hm Hd. set (n := Z.of_nat (length l) + 1) in *. unfold ece391_strcpy.
  apply wp_loop_ghost with (I := fun (i : nat) ds t => ds = (dst + Z.of_nat i, src + Z.of_nat i) /\
      (i <= length l)%nat /\ changed s t dst n /\ holds t dst (take i l))
    (mu := fun i => n - Z.of_nat i) (g := O); [|unfold loop_fuel, n; lia|].
  { rewrite !Z.add_0_r. split_and!; [done|lia|apply changed_refl|done]. }
  intros i ds t (-> & Hi & Hc & Hh). split; [unfold n; lia|]. cbn [fst snd]. wp_step.
  pose proof (string_changed _ _ _ _ _ _ Hc Hd Hs) as Hst.
  destruct (string_get t src l i Hst Hi) as (c & Hget & Hmem). wp_use (load_is _ _ _ Hmem). wp_step.
  destruct (store_is t (dst + Z.of_nat i) c) as (u & Hstore & Hcu & Hu).
  { apply (changed_mapped _ _ _ _ _ _ Hc Hm). unfold n. lia. }
  wp_use Hstore. assert (Hsu : changed s u dst n).
  { eapply changed_trans; [exact Hc|]. eapply changed_widen; [exact Hcu|unfold n; lia..]. }
  assert (Hhu : holds u dst (take i l)).
  { eapply holds_changed; [exact Hcu| |done]. left. rewrite length_take. lia. }
  destruct (string_cases t src l i c Hst Hi Hget) as [[-> ->]|(Hlt & Hli & Hr)].
  - change (negb (0 =? 0)) with false. apply wp_ret. split; [done|]. constructor; [|apply Hs].
    apply holds_app. rewrite take_ge in Hhu by done. split; [done|]. apply holds_cons. by split.
  - rewrite (proj2 (Z.eqb_neq 0 c)) by lia. cbn [negb]. apply wp_ret. exists (S i). split; [|lia].
    split_and!; [f_equal; lia|lia|done|]. rewrite (take_S_r _ _ _ Hli). apply holds_app. split; [done|].
    rewrite length_take, Nat.min_l by lia. apply holds_cons. rewrite u8_small in Hu by lia. by split.
Qed.

(** * [getargs] *)

Definition word_in (s : process) (a v : Z) : Prop :=
  exists b0 b1 b2 b3, holds s a [b0; b1; b2; b3] /\ v = b0 + b1 * 2 ^ 8 + b2 * 2 ^ 16 + b3 * 2 ^ 24.

Lemma load_word_in s a v : word_in s a v -> load_word a s = Ret v s.
Proof.
  intros (b0 & b1 & b2 & b3 & Hh & ->).
  apply holds_cons in Hh as [G0 Hh]. apply holds_cons in Hh as [G1 Hh].
  apply holds_cons in Hh as [G2 Hh]. apply holds_cons in Hh as [G3 _].
  replace (a + 1 + 1) with (a + 2) in G2, G3 by lia. replace (a + 2 + 1) with (a + 3) in G3 by lia.
  unfold load_word. by rewrite (bind_Ret _ _ _ _ _ (load_is _ _ _ G0)), (bind_Ret _ _ _ _ _ (load_is _ _ _ G1)),
    (bind_Ret _ _ _ _ _ (load_is _ _ _ G2)), (bind_Ret _ _ _ _ _ (load_is _ _ _ G3)).
Qed.

Lemma word_changed s t a n b v :
  changed s t a n -> b + 4 <= a \/ a + n <= b -> word_in s b v -> word_in t b v.
Proof.
  intros Hc Hd (b0 & b1 & b2 & b3 & Hh & ->). exists b0, b1, b2, b3. split; [|done].
  by eapply holds_changed; [exact Hc| |].
Qed.

(** The arguments separated by single spaces. *)
Definition spaced (ws : list (list Z)) : list Z := concat (map (fun w => w ++ [32]) ws).
Fixpoint joined (ws : list (list Z)) : list Z :=
  match ws with
  | [] => []
  | [w] => w
  | w :: ws' => w ++ 32 :: joined ws'
  end.

Lemma spaced_app a b : spaced (a ++ b) = spaced a ++ spaced b.
Proof. unfold spaced. by rewrite map_app, concat_app. Qed.

Lemma joined_app pre w ws : joined (pre ++ w :: ws) = spaced pre ++ joined (w :: ws).
Proof.
  induction pre as [|x pre IH]; [done|].
  change (spaced (x :: pre)) with ((x ++ [32]) ++ spaced pre). rewrite <- !app_assoc, <- IH.
  cbn [app]. by destruct (pre ++ w :: ws) eqn:He; [by destruct pre|].
Qed.

(** What a process begins with: the number of its arguments, the program's name
    counted, and the pointers to them, apart from the buffer of [getargs] and
    the byte behind it. *)
Record arguments (s : process) (ws : list (list Z)) (buf n : Z) : Prop := {
  ar_argc : word_in s (start_esp s) (1 + Z.of_nat (length ws));
  ar_few : Z.of_nat (length ws) < 2 ^ 30;
  ar_block : start_esp s + 4 * (Z.of_nat (length ws) + 2) <= buf \/ buf + n + 1 <= start_esp s;
  ar_argv : forall i w, ws !! i = Some w -> Z.of_nat (length w) < 2 ^ 31 /\
    exists p, word_in s (start_esp s + 4 + 4 * (1 + Z.of_nat i)) p /\ string_is s p w /\
      (p + (Z.of_nat (length w) + 1) <= buf \/ buf + n + 1 <= p);
  ar_buf : mapped s buf (n + 1);
  ar_size : 0 <= n < 2 ^ 31 }.

Lemma arguments_changed s t ws buf n :
  changed s t buf (n + 1) -> arguments s ws buf n -> arguments t ws buf n.
Proof.
  intros Hc [Ha Hf Hb Hv Hm Hs]. assert (He : start_esp t = start_esp s) by (by rewrite (ch_rest _ _ _ _ Hc)).
  constructor; rewrite ?He; try done.
  - eapply word_changed; [exact Hc|lia|done].
  - intros i w Hi. destruct (Hv i w Hi) as (Hw & p & Hp & Hstr & Hd). split; [done|]. exists p.
    pose proof (lookup_lt_Some _ _ _ Hi). split_and!; [|by eapply string_changed; [exact Hc|lia|]|done].
    eapply word_changed; [exact Hc|lia|done].
  - by eapply changed_mapped.
Qed.

(** The state of the loop when the arguments [pre] and a space after each are
    copied. *)
Definition copied (s : process) (ws : list (list Z)) (buf n : Z) (pre : list (list Z)) (st : Z * Z * Z) (t : process) : Prop :=
  st = (1 + Z.of_nat (length pre), buf + Z.of_nat (length (spaced pre)), n - Z.of_nat (length (spaced pre))) /\
  (exists post, ws = pre ++ post /\ (pre = [] \/ post <> [])) /\ 0 <= n - Z.of_nat (length (spaced pre)) /\
  changed s t buf (Z.of_nat (length (spaced pre))) /\ holds t buf (spaced pre).

(** The result of the loop. *)
Definition all_copied (s : process) (ws : list (list Z)) (buf n : Z) (r : option (Z * Z)) (t : process) : Prop :=
  match r with
  | None => n <= Z.of_nat (length (joined ws)) /\ changed s t buf (n + 1)
  | Some (b, m) => b = buf + Z.of_nat (length (joined ws)) /\ m = n - Z.of_nat (length (joined ws)) /\
      0 <= m /\ changed s t buf (Z.of_nat (length (joined ws)) + 1) /\ holds t buf (joined ws)
  end.

(** An argument, behind those copied. *)
Lemma copy_argument s ws buf n pre p w t E :
  arguments s ws buf n -> changed s t buf (Z.of_nat (length (spaced pre))) -> holds t buf (spaced pre) ->
  string_is t p w -> Z.of_nat (length w) < 2 ^ 31 -> p + (Z.of_nat (length w) + 1) <= buf \/ buf + n + 1 <= p ->
  Z.of_nat (length (spaced pre ++ w)) <= n ->
  wp (ece391_strcpy (buf + Z.of_nat (length (spaced pre))) p)
    (fun _ u => changed s u buf (Z.of_nat (length (spaced pre ++ w)) + 1) /\ holds u buf (spaced pre ++ w)) E t.
Proof.
  intros Hs Hc Hh Hst Hwl Hd Hfits. set (m := Z.of_nat (length (spaced pre))) in *.
  assert (Hl : Z.of_nat (length (spaced pre ++ w)) = m + Z.of_nat (length w)) by (rewrite length_app; lia).
  eapply wp_mono; [apply (strcpy_host t (buf + m) p w E Hst Hwl); [|lia]| |done].
  { intros x Hx. apply (changed_mapped _ _ _ _ _ _ Hc (ar_buf _ _ _ _ Hs)). lia. }
  intros [] u [Hcu Hsu]. cbn beta iota. split.
  - eapply changed_trans; eapply changed_widen; [exact Hc|lia|lia|exact Hcu|lia|lia].
  - apply holds_app. split; [eapply holds_changed; [exact Hcu|left; unfold m; lia|done]|].
    pose proof (si_holds _ _ _ Hsu) as Hw. by apply holds_app in Hw as [Hw _].
Qed.

(** The space behind it. *)
Lemma copy_space s ws buf n pre w w' post t :
  ws = pre ++ w :: w' :: post -> arguments s ws buf n ->
  changed s t buf (Z.of_nat (length (spaced pre ++ w)) + 1) -> holds t buf (spaced pre ++ w) ->
  1 <= n - Z.of_nat (length (spaced pre)) - Z.of_nat (length w) ->
  exists u, store (buf + Z.of_nat (length (spaced pre)) + Z.of_nat (length w)) 32 t = Ret tt u /\
    copied s ws buf n (pre ++ [w])
      (1 + Z.of_nat (length pre) + 1, buf + Z.of_nat (length (spaced pre)) + Z.of_nat (length w) + 1,
       n - Z.of_nat (length (spaced pre)) - Z.of_nat (length w) - 1) u.
Proof.
  intros Hsplit Hs Hc Hh Hsp. set (m := Z.of_nat (length (spaced pre))) in *.
  assert (Hl : Z.of_nat (length (spaced pre ++ w)) = m + Z.of_nat (length w)) by (rewrite length_app; lia).
  destruct (store_is t (buf + m + Z.of_nat (length w)) 32) as (v & Hv & Hcv & Hgv).
  { apply (changed_mapped _ _ _ _ _ _ Hc (ar_buf _ _ _ _ Hs)). lia. }
  exists v. split; [done|].
  assert (He : spaced (pre ++ [w]) = (spaced pre ++ w) ++ [32]).
  { rewrite spaced_app. change (spaced [w]) with ((w ++ [32]) ++ []). by rewrite app_nil_r, app_assoc. }
  unfold copied. rewrite He, (length_app _ [32]), (length_app pre), !Nat2Z.inj_add, Hl. cbn [length]. split_and!.
  - f_equal; [f_equal; lia|lia].
  - exists (w' :: post). split; [by rewrite <- app_assoc|by right].
  - lia.
  - eapply changed_trans; eapply changed_widen; [exact Hc|lia|lia|exact Hcv|lia|lia].
  - apply holds_app. split; [eapply holds_changed; [exact Hcv|lia|done]|].
    rewrite Hl, Z.add_assoc. apply holds_cons. by split.
Qed.

(** The loop copies the arguments, a space after each but the last. *)
Lemma copy_args_rule s ws buf n E :
  arguments s ws buf n ->
  wp (copy_args (1 + Z.of_nat (length ws)) (start_esp s + 4) buf n) (all_copied s ws buf n) E s.
Proof.
  intros Hs. pose proof (ar_size _ _ _ _ Hs) as Hn. pose proof (ar_few _ _ _ _ Hs) as Hfew. unfold copy_args.
  apply wp_loop_ghost with (I := copied s ws buf n)
    (mu := fun pre => Z.of_nat (length ws) - Z.of_nat (length pre)) (g := []); [|unfold loop_fuel; cbn; lia|].
  { unfold copied. change (spaced []) with (@nil Z). cbn [length]. rewrite !Z.add_0_r, Z.sub_0_r.
    split_and!; [done|exists ws; split; [done|by left]|lia|apply changed_refl|done]. }
  intros pre st t (-> & (post & Hsplit & Hpost) & Hroom & Hc & Hh). cbn beta iota.
  assert (Hlen : Z.of_nat (length ws) = Z.of_nat (length pre) + Z.of_nat (length post)) by (rewrite Hsplit, length_app; lia).
  split; [lia|]. set (m := Z.of_nat (length (spaced pre))) in *.
  destruct post as [|w post].
  { rewrite (proj2 (Z.ltb_ge _ _)) by (cbn [length] in Hlen; lia). apply wp_ret.
    destruct Hpost as [->|]; [|done]. subst ws. unfold m. change (spaced []) with (@nil Z). cbn [all_copied joined app length].
    split_and!; [lia|lia|lia| |done]. eapply changed_widen; [exact Hc|lia|unfold m; change (spaced []) with (@nil Z); cbn; lia]. }
  cbn [length] in Hlen. rewrite (proj2 (Z.ltb_lt _ _)) by lia.
  assert (Hws : ws !! length pre = Some w) by (by rewrite Hsplit, lookup_app_r, Nat.sub_diag).
  destruct (ar_argv _ _ _ _ Hs _ _ Hws) as (Hwl & p & Hp & Hstr & Hd). pose proof (ar_block _ _ _ _ Hs) as Hblk.
  assert (Hj : Z.of_nat (length (joined ws)) = m + Z.of_nat (length (joined (w :: post))))
    by (rewrite Hsplit, joined_app, length_app; lia).
  assert (Hjw : match post with [] => joined ws = spaced pre ++ w | _ => (length w < length (joined (w :: post)))%nat end).
  { destruct post as [|w' post]; [by rewrite Hsplit, joined_app|cbn [joined]; rewrite length_app; cbn [length]; lia]. }
  assert (Hpt : word_in t (start_esp s + 4 + 4 * (1 + Z.of_nat (length pre))) p) by (eapply word_changed; [exact Hc|lia|exact Hp]).
  assert (Hst : string_is t p w) by (eapply string_changed; [exact Hc|lia|exact Hstr]).
  wp_step. wp_use (load_word_in _ _ _ Hpt). wp_step. eapply wp_mono; [by apply strlen_host| |done].
  intros len u [-> ->]. cbn beta. rewrite s32_small by lia.
  destruct (Z.ltb_spec (n - m) (Z.of_nat (length w))) as [Hbig|Hfits].
  { apply wp_ret. split; [destruct post; cbn [joined length] in *; lia|]. eapply changed_widen; [exact Hc|lia..]. }
  wp_step. wp_use (load_word_in _ _ _ Hpt). wp_step.
  assert (Hl : Z.of_nat (length (spaced pre ++ w)) = m + Z.of_nat (length w)) by (rewrite length_app; lia).
  eapply wp_mono; [eapply (copy_argument s ws buf n pre p w t E); (done || lia)| |done]. intros [] u [Hall Hhu]. cbn beta iota.
  destruct post as [|w' post]; cbn [length] in Hlen.
  { rewrite (proj2 (Z.leb_le _ _)) by lia. apply wp_ret. unfold all_copied. rewrite Hjw, Hl. split_and!; [lia|lia|lia| |done].
    eapply changed_widen; [exact Hall|lia..]. }
  rewrite (proj2 (Z.leb_gt _ _)) by lia. destruct (Z.ltb_spec (n - m - Z.of_nat (length w)) 1) as [Hfull|Hsp].
  { apply wp_ret. split; [lia|]. eapply changed_widen; [exact Hall|lia..]. }
  wp_step. destruct (copy_space s ws buf n pre w w' post u Hsplit Hs Hall Hhu Hsp) as (v & Hv & Hcop).
  wp_use Hv. apply wp_ret. exists (pre ++ [w]). split; [exact Hcop|]. rewrite length_app. cbn. lia.
Qed.

Lemma joined_chars ws : Forall (Forall (fun c => 0 < c < 256)) ws -> Forall (fun c => 0 < c < 256) (joined ws).
Proof.
  induction 1 as [|w ws Hw Hws IH]; [done|]. destruct ws as [|w' ws]; [done|].
  apply Forall_app. split; [done|]. by constructor.
Qed.

Lemma arguments_chars s ws buf n : arguments s ws buf n -> Forall (Forall (fun c => 0 < c < 256)) ws.
Proof.
  intros Hs. apply Forall_lookup. intros i w Hi. destruct (ar_argv _ _ _ _ Hs i w Hi) as (_ & p & _ & Hstr & _). apply Hstr.
Qed.

Lemma getargs_rule s ws buf n E :
  arguments s ws buf n ->
  wp (ece391_getargs buf n) (fun r t =>
    if Z.of_nat (length (joined ws)) <? n
    then r = 0 /\ changed s t buf (Z.of_nat (length (joined ws)) + 1) /\ string_is t buf (joined ws)
    else r = -1 /\ changed s t buf (n + 1)) E s.
Proof.
  intros Hs. pose proof (ar_few _ _ _ _ Hs) as Hfew. unfold ece391_getargs. wp_step. wp_step. wp_step.
  wp_use (load_word_in _ _ _ (ar_argc _ _ _ _ Hs)). rewrite s32_small by lia. wp_step.
  eapply wp_mono; [by eapply copy_args_rule| |done]. intros [[b m]|] t.
  - intros (-> & -> & Hm & Hc & Hh). set (k := Z.of_nat (length (joined ws))) in *.
    destruct (Z.ltb_spec (n - k) 1) as [Hfull|Hroom].
    + apply wp_ret. rewrite (proj2 (Z.ltb_ge k n)) by lia. split; [done|]. eapply changed_widen; [exact Hc|lia..].
    + wp_step. destruct (store_is t (buf + k) 0) as (u & Hu & Hcu & Hgu).
      { apply (changed_mapped _ _ _ _ _ _ Hc (ar_buf _ _ _ _ Hs)). lia. }
      wp_use Hu. apply wp_ret. rewrite (proj2 (Z.ltb_lt k n)) by lia. split; [done|]. split.
      * eapply changed_trans; [exact Hc|]. eapply changed_widen; [exact Hcu|lia..].
      * constructor; [|by eapply joined_chars, arguments_chars]. apply holds_app. split.
        -- eapply holds_changed; [exact Hcu|left; fold k; lia|done].
        -- fold k. apply holds_cons. by split.
  - intros [Hbig Hc]. apply wp_ret. by rewrite (proj2 (Z.ltb_ge _ _)) by lia.
Qed.

(** * [execute] *)

(** A word ends at a space or a newline. *)
Definition sep (c : Z) : bool := (c =? 32) || (c =? 10).

Fixpoint word_of (l : list Z) : list Z :=
  match l with [] => [] | c :: l' => if sep c then [] else c :: word_of l' end.
Fixpoint after_word (l : list Z) : list Z :=
  match l with [] => [] | c :: l' => if sep c then l else after_word l' end.

(** The words of [l]; spaces separate them, a newline where a word could start
    ends them.  [cur] is the word that is being read. *)
Fixpoint words (cur : option (list Z)) (l : list Z) : list (list Z) :=
  match l, cur with
  | [], None => []
  | [], Some w => [w]
  | c :: l', None => if c =? 32 then words None l' else if c =? 10 then [] else words (Some [c]) l'
  | c :: l', Some w => if sep c then w :: words None l' else words (Some (w ++ [c])) l'
  end.

(** The arguments of a command line behind its first word. *)
Definition command_words (l : list Z) : list (list Z) :=
  match after_word l with [] => [] | _ :: r => words None r end.

Lemma word_split l : l = word_of l ++ after_word l.
Proof. induction l as [|c l IH]; [done|]. cbn. destruct (sep c); [done|]. cbn. by rewrite <- IH. Qed.

Lemma after_word_head l : match after_word l with [] => True | c :: _ => sep c = true end.
Proof. induction l as [|c l IH]; [done|]. cbn. destruct (sep c) eqn:Hs; [by rewrite Hs|done]. Qed.

Lemma word_of_sep l : Forall (fun c => sep c = false) (word_of l).
Proof. induction l as [|c l IH]; [done|]. cbn. destruct (sep c) eqn:Hs; [done|]. by constructor. Qed.

Lemma words_some w l :
  words (Some w) l = (w ++ word_of l) :: match after_word l with [] => [] | _ :: r => words None r end.
Proof.
  revert w. induction l as [|c l IH]; intros w; cbn [words word_of after_word]; [by rewrite app_nil_r|].
  destruct (sep c); [by rewrite app_nil_r|]. by rewrite IH, <- app_assoc.
Qed.

(** The word at the front, after spaces. *)
Lemma words_front c l :
  c <> 32 -> c <> 10 ->
  words None (c :: l) = word_of (c :: l) :: match after_word (c :: l) with [] => [] | _ :: r => words None r end.
Proof.
  intros H1 H2. cbn [words]. rewrite (proj2 (Z.eqb_neq c 32)), (proj2 (Z.eqb_neq c 10)) by done.
  rewrite words_some. cbn [word_of after_word].
  assert (Hs : sep c = false) by (unfold sep; by rewrite (proj2 (Z.eqb_neq c 32)), (proj2 (Z.eqb_neq c 10)) by done).
  by rewrite Hs.
Qed.

(** The scanning loops on a string. *)
Lemma skip_word_rule s a l E :
  string_is s a l -> Z.of_nat (length l) < 2 ^ 31 ->
  wp (skip_word a) (fun r t => r = a + Z.of_nat (length (word_of l)) /\ t = s) E s.
Proof.
  intros Hs Hl. unfold skip_word. pose proof (word_split l) as Hsplit.
  assert (Hle : (length (word_of l) <= length l)%nat) by (rewrite Hsplit at 2; rewrite length_app; lia).
  apply wp_loop_ghost with (I := fun (i : nat) p t => p = a + Z.of_nat i /\ t = s /\ (i <= length (word_of l))%nat)
    (mu := fun i => Z.of_nat (length l) - Z.of_nat i) (g := O); [split_and!; (lia || done)|unfold loop_fuel; lia|].
  intros i p t (-> & -> & Hi). split; [lia|]. destruct (string_get s a l i Hs ltac:(lia)) as (c & Hc & Hm).
  wp_step. wp_use (load_is _ _ _ Hm). destruct (string_cases s a l i c Hs ltac:(lia) Hc) as [[-> ->]|(Hlt & Hli & Hr)].
  - change (negb (0 =? 0)) with false. apply wp_ret. split; [lia|done].
  - rewrite (proj2 (Z.eqb_neq 0 c)) by lia. cbn [negb andb]. rewrite <- negb_orb, (Z.eqb_sym 32 c), (Z.eqb_sym 10 c).
    change ((c =? 32) || (c =? 10)) with (sep c). rewrite Hsplit in Hli.
    destruct (decide (i < length (word_of l))%nat) as [Hin|Hout].
    + rewrite lookup_app_l in Hli by done. rewrite (Forall_lookup_1 _ _ _ _ (word_of_sep l) Hli).
      apply wp_ret. exists (S i). split_and!; (done || lia).
    + assert (i = length (word_of l)) as -> by lia. rewrite lookup_app_r, Nat.sub_diag in Hli by done.
      pose proof (after_word_head l) as Hh. destruct (after_word l) as [|c' r]; [done|]. injection Hli as ->.
      rewrite Hh. by apply wp_ret.
Qed.

Fixpoint drop_blanks (l : list Z) : list Z :=
  match l with c :: l' => if c =? 32 then drop_blanks l' else l | [] => [] end.
Fixpoint blanks (l : list Z) : nat :=
  match l with c :: l' => if c =? 32 then S (blanks l') else O | [] => O end.

Lemma blanks_split l : l = replicate (blanks l) 32 ++ drop_blanks l.
Proof. induction l as [|c l IH]; [done|]. cbn. destruct (Z.eqb_spec c 32) as [->|]; [|done]. cbn. by rewrite <- IH. Qed.

Lemma drop_blanks_head l : match drop_blanks l with [] => True | c :: _ => c <> 32 end.
Proof. induction l as [|c l IH]; [done|]. cbn. by destruct (Z.eqb_spec c 32). Qed.

Lemma words_blanks l : words None l = words None (drop_blanks l).
Proof. induction l as [|c l IH]; [done|]. cbn [drop_blanks]. destruct (Z.eqb_spec c 32) as [->|]; [exact IH|done]. Qed.

Lemma skip_spaces_rule s a l E :
  string_is s a l -> Z.of_nat (length l) < 2 ^ 31 ->
  wp (skip_spaces a) (fun r t => r = a + Z.of_nat (blanks l) /\ t = s) E s.
Proof.
  intros Hs Hl. unfold skip_spaces. pose proof (blanks_split l) as Hsplit.
  assert (Hle : (blanks l <= length l)%nat) by (rewrite Hsplit at 2; rewrite length_app, length_replicate; lia).
  apply wp_loop_ghost with (I := fun (i : nat) p t => p = a + Z.of_nat i /\ t = s /\ (i <= blanks l)%nat)
    (mu := fun i => Z.of_nat (length l) - Z.of_nat i) (g := O); [split_and!; (lia || done)|unfold loop_fuel; lia|].
  intros i p t (-> & -> & Hi). split; [lia|]. destruct (string_get s a l i Hs ltac:(lia)) as (c & Hc & Hm).
  wp_step. wp_use (load_is _ _ _ Hm). destruct (string_cases s a l i c Hs ltac:(lia) Hc) as [[-> ->]|(Hlt & Hli & Hr)].
  - change (32 =? 0) with false. apply wp_ret. split; [lia|done].
  - rewrite Hsplit in Hli. destruct (decide (i < blanks l)%nat) as [Hin|Hout].
    + rewrite lookup_app_l, lookup_replicate_2 in Hli by (rewrite ?length_replicate; lia). injection Hli as <-.
      apply wp_ret. exists (S i). split_and!; (done || lia).
    + assert (Hb : i = blanks l) by lia. rewrite lookup_app_r, length_replicate, Hb, Nat.sub_diag in Hli by (rewrite length_replicate; lia).
      pose proof (drop_blanks_head l) as Hh. destruct (drop_blanks l) as [|c' r]; [done|]. injection Hli as ->.
      rewrite (proj2 (Z.eqb_neq 32 c)) by congruence. apply wp_ret. by rewrite Hb.
Qed.

Lemma string_drop s a l1 l2 : string_is s a (l1 ++ l2) -> string_is s (a + Z.of_nat (length l1)) l2.
Proof.
  intros [Hh Hc]. rewrite <- app_assoc in Hh. apply holds_app in Hh as [_ Hh].
  apply Forall_app in Hc as [_ Hc]. by constructor.
Qed.

(** Ending a string earlier. *)
Lemma string_cut s t a l1 c l2 :
  string_is s a (l1 ++ c :: l2) -> changed s t (a + Z.of_nat (length l1)) 1 ->
  p_mem t !! (a + Z.of_nat (length l1)) = Some 0 ->
  string_is t a l1 /\ string_is t (a + Z.of_nat (length l1) + 1) l2.
Proof.
  intros Hs Hc H0. split.
  - destruct Hs as [Hh Hl]. rewrite <- app_assoc in Hh. apply holds_app in Hh as [Hh _].
    apply Forall_app in Hl as [Hl _]. constructor; [|done]. apply holds_app.
    split; [eapply holds_changed; [exact Hc|lia|done]|]. apply holds_cons. by split.
  - change (c :: l2) with ([c] ++ l2) in Hs. rewrite app_assoc in Hs. apply string_drop in Hs.
    rewrite length_app in Hs. cbn [length] in Hs.
    replace (a + Z.of_nat (length l1 + 1)) with (a + Z.of_nat (length l1) + 1) in Hs by lia.
    eapply string_changed; [exact Hc|lia|done].
Qed.

Lemma store_same s a v : p_mem s !! a = Some v -> 0 <= v < 256 -> store a v s = Ret tt s.
Proof.
  intros Ha Hv. unfold store. rewrite (bind_Ret _ _ _ _ _ (load_is _ _ _ Ha)). unfold modify.
  rewrite u8_small, insert_id by done. by destruct s.
Qed.

(** The strings [ws] at the pointers [args], between [lo] and [hi]. *)
Definition pointed (s : process) (lo hi : Z) (args : list Z) (ws : list (list Z)) : Prop :=
  Forall2 (fun p w => lo <= p /\ p + (Z.of_nat (length w) + 1) <= hi /\ string_is s p w) args ws.

Lemma pointed_changed s t a n lo hi args ws :
  changed s t a n -> hi <= a -> pointed s lo hi args ws -> pointed t lo hi args ws.
Proof.
  intros Hc Hh Hp. eapply Forall2_impl; [exact Hp|]. intros p w (H1 & H2 & H3). split_and!; [done|done|].
  eapply string_changed; [exact Hc|lia|done].
Qed.

Lemma pointed_widen s lo hi hi' args ws : hi <= hi' -> pointed s lo hi args ws -> pointed s lo hi' args ws.
Proof. intros Hh Hp. eapply Forall2_impl; [exact Hp|]. intros p w (H1 & H2 & H3). split_and!; [done|lia|done]. Qed.

Lemma pointed_snoc s lo hi args ws p w :
  pointed s lo hi args ws -> lo <= p -> p + (Z.of_nat (length w) + 1) <= hi -> string_is s p w ->
  pointed s lo hi (args ++ [p]) (ws ++ [w]).
Proof. intros Hp H1 H2 H3. apply Forall2_app; [done|]. by constructor. Qed.

(** Where the strings found before [scan] end, when [l] is still to be read:
    the last one may end with the end of the command. *)
Definition found_end (scan : Z) (l : list Z) : Z := match l with [] => scan + 1 | _ => scan end.

Definition parsing (s0 : process) (lo hi : Z) (total : list (list Z)) (l : list Z) (st : Z * list Z) (t : process) : Prop :=
  exists ws, lo <= fst st /\ fst st + (Z.of_nat (length l) + 1) = hi /\ string_is t (fst st) l /\
    changed s0 t lo (hi - lo) /\ pointed t lo (found_end (fst st) l) (snd st) ws /\ total = ws ++ words None l.

(** One word. *)
Lemma parse_word s0 lo hi total l1 c r scan args ws t E :
  l1 = c :: r -> c <> 32 -> c <> 10 -> lo <= scan -> scan + (Z.of_nat (length l1) + 1) = hi -> hi - lo < 2 ^ 31 ->
  string_is t scan l1 -> changed s0 t lo (hi - lo) -> pointed t lo scan args ws -> total = ws ++ words None l1 ->
  wp (let* stop := skip_word scan in
      let* c := load stop in
      if negb (0 =? c) then store stop 0 ;; ret (inl (stop + 1, args ++ [scan]))
      else ret (inl (stop, args ++ [scan])))
    (fun (x : Z * list Z + list Z) u => match x with
       | inl st => exists l', (length l' < length l1)%nat /\ parsing s0 lo hi total l' st u
       | inr _ => False
       end) E t.
Proof.
  intros Hl1 H32 H10 Hlo Hhi Hsz Hs Hc Hp Htot.
  assert (Hw : words None l1 = word_of l1 :: match after_word l1 with [] => [] | _ :: r' => words None r' end)
    by (rewrite Hl1; by apply words_front).
  assert (Hpos : (0 < length (word_of l1))%nat).
  { rewrite Hl1. cbn [word_of]. unfold sep. rewrite (proj2 (Z.eqb_neq c 32)), (proj2 (Z.eqb_neq c 10)) by done. cbn. lia. }
  rewrite Hw in Htot. pose proof (word_split l1) as Hsplit. pose proof (f_equal length Hsplit) as Hlen.
  rewrite length_app in Hlen. wp_step.
  eapply wp_mono; [apply (skip_word_rule t scan l1 E Hs); lia| |done]. intros stop u [-> ->]. cbn beta. wp_step.
  set (k := Z.of_nat (length (word_of l1))) in *.
  destruct (after_word l1) as [|c' r'] eqn:Haft.
  - cbn [length] in Hlen. rewrite app_nil_r in Hsplit.
    assert (Hend : p_mem t !! (scan + k) = Some 0).
    { apply (si_holds _ _ _ Hs). rewrite lookup_app_r, Hlen, Nat.add_0_r, Nat.sub_diag by lia. done. }
    wp_use (load_is _ _ _ Hend). change (negb (0 =? 0)) with false. apply wp_ret. exists []. split; [cbn; lia|].
    exists (ws ++ [word_of l1]). cbn [fst snd found_end length]. split_and!; try lia; try done.
    + rewrite <- (app_nil_r l1) in Hs. apply string_drop in Hs. rewrite Hsplit in Hs at 1. exact Hs.
    + apply pointed_snoc; [eapply pointed_widen; [|exact Hp]; unfold k; lia|done|fold k; lia|by rewrite <- Hsplit].
    + by rewrite <- app_assoc.
  - cbn [length] in Hlen. rewrite Hsplit in Hs. pose proof (string_drop _ _ _ _ Hs) as Hst. fold k in Hst.
    pose proof (si_holds _ _ _ Hst) as Hh. cbn [app] in Hh. apply holds_cons in Hh as [Hc' _].
    pose proof (Forall_inv (si_chars _ _ _ Hst)) as Hr. cbn beta in Hr.
    wp_use (load_is _ _ _ Hc'). rewrite (proj2 (Z.eqb_neq 0 c')) by lia. cbn [negb]. wp_step.
    destruct (store_is t (scan + k) 0) as (v & Hv & Hcv & Hgv); [by eexists|]. wp_use Hv. apply wp_ret.
    destruct (string_cut t v scan (word_of l1) c' r' Hs Hcv Hgv) as [Hword Hrest]. fold k in Hrest.
    exists r'. split; [lia|]. exists (ws ++ [word_of l1]). cbn [fst snd].
    split_and!; [lia|lia|done| | |by rewrite <- app_assoc].
    + eapply changed_trans; [exact Hc|]. eapply changed_widen; [exact Hcv|lia..].
    + apply (pointed_widen _ _ (scan + k + 1)); [destruct r'; cbn; lia|].
      apply pointed_snoc; [|done|unfold k; lia|done].
      apply (pointed_widen _ _ scan); [lia|]. eapply pointed_changed; [exact Hcv|lia|done].
Qed.

Lemma parse_args_rule s0 lo hi total l scan args E s :
  parsing s0 lo hi total l (scan, args) s -> hi - lo < 2 ^ 31 ->
  wp (parse_args scan args) (fun r t => changed s0 t lo (hi - lo) /\ pointed t lo hi r total) E s.
Proof.
  intros Hs Hsz. unfold parse_args.
  apply wp_loop_ghost with (I := parsing s0 lo hi total) (mu := fun l => Z.of_nat (length l)) (g := l); [done| |].
  { destruct Hs as (_ & H1 & H2 & _). cbn [fst] in *. unfold loop_fuel. lia. }
  clear l scan args Hs s. intros l [scan args] t (ws & Hlo & Hhi & Hs & Hc & Hp & Htot). cbn [fst snd] in *. split; [lia|]. wp_step.
  eapply wp_mono; [apply (skip_spaces_rule t scan l E Hs); lia| |done]. intros scan1 u [-> ->]. cbn beta.
  pose proof (blanks_split l) as Hsplit. pose proof (f_equal length Hsplit) as Hlen. rewrite length_app, length_replicate in Hlen.
  rewrite Hsplit in Hs. apply string_drop in Hs. rewrite length_replicate in Hs. rewrite words_blanks in Htot.
  assert (Hend : found_end scan l <= hi) by (destruct l; cbn [found_end]; lia).
  assert (Hfound : drop_blanks l <> [] -> pointed t lo (scan + Z.of_nat (blanks l)) args ws).
  { intros Hne. apply (pointed_widen _ _ (found_end scan l)); [|done]. destruct l; [done|]. cbn [found_end]. lia. }
  pose proof (drop_blanks_head l) as Hhead. pose proof (si_holds _ _ _ Hs) as Hh. pose proof (si_chars _ _ _ Hs) as Hr.
  set (l1 := drop_blanks l) in *. set (scan1 := scan + Z.of_nat (blanks l)) in *. wp_step.
  destruct l1 as [|c r] eqn:Hl1; cbn [length] in Hlen; apply holds_cons in Hh as [Hh _]; wp_use (load_is _ _ _ Hh).
  { cbn [Z.eqb orb]. wp_step. wp_use (store_same _ _ _ Hh ltac:(lia)). apply wp_ret. split; [done|].
    cbn [words] in Htot. rewrite app_nil_r in Htot. subst total. by eapply pointed_widen. }
  apply Forall_inv in Hr. cbn beta in Hr. rewrite (proj2 (Z.eqb_neq 0 c)), (Z.eqb_sym 10 c) by lia. cbn [orb].
  destruct (Z.eqb_spec c 10) as [->|Hnl].
  - wp_step. destruct (store_is t scan1 0) as (v & Hv & Hcv & _); [by eexists|]. wp_use Hv. apply wp_ret.
    cbn in Htot. rewrite app_nil_r in Htot. subst total. split.
    + eapply changed_trans; [exact Hc|]. eapply changed_widen; [exact Hcv|unfold scan1; lia..].
    + apply (pointed_widen _ _ scan1); [unfold scan1; lia|]. eapply pointed_changed; [exact Hcv|lia|by apply Hfound].
  - eapply wp_mono; [eapply (parse_word s0 lo hi total (c :: r)); (done || (unfold scan1; cbn [length]; lia) || by apply Hfound)| |done].
    intros [st|] u; [|done]. intros (l' & Hlt & Hpar). exists l'. split; [done|]. cbn [length] in *. lia.
Qed.

(** The strings [execute] gives to the child. *)
Definition argument_strings (cmd : list Z) : list (list Z) := (46 :: 47 :: word_of cmd) :: command_words cmd.

Lemma split_command_rule s buf cmd E :
  string_is s buf (46 :: 47 :: cmd) -> Z.of_nat (length cmd) < 2 ^ 30 ->
  wp (split_command buf) (fun args t =>
    changed s t buf (Z.of_nat (length cmd) + 3) /\
    pointed t buf (buf + (Z.of_nat (length cmd) + 3)) args (argument_strings cmd)) E s.
Proof.
  intros Hs Hl. unfold split_command. set (hi := buf + (Z.of_nat (length cmd) + 3)).
  pose proof (string_drop s buf [46; 47] cmd Hs) as Hcmd. cbn [length] in Hcmd. change (Z.of_nat 2) with 2 in Hcmd. wp_step.
  eapply wp_mono; [apply (skip_word_rule s (buf + 2) cmd E Hcmd); lia| |done]. intros stop u [-> ->]. cbn beta.
  pose proof (word_split cmd) as Hsplit. pose proof (f_equal length Hsplit) as Hlen. rewrite length_app in Hlen.
  set (k := Z.of_nat (length (word_of cmd))) in *. wp_step. unfold argument_strings, command_words.
  destruct (after_word cmd) as [|c r] eqn:Haft; cbn [length] in Hlen.
  - rewrite app_nil_r in Hsplit. symmetry in Hsplit.
    assert (Hend : p_mem s !! (buf + 2 + k) = Some 0).
    { apply (si_holds _ _ _ Hcmd). by rewrite Hsplit, lookup_app_r, Nat.sub_diag. }
    wp_use (load_is _ _ _ Hend). cbn [negb Z.eqb]. apply wp_ret. split; [apply changed_refl|]. rewrite Hsplit.
    constructor; [|constructor]. split_and!; [lia|unfold hi; cbn [length]; lia|done].
  - rewrite Hsplit in Hs. change (46 :: 47 :: word_of cmd ++ c :: r) with ((46 :: 47 :: word_of cmd) ++ c :: r) in Hs.
    pose proof (string_drop _ _ _ _ Hs) as Hst. pose proof (si_holds _ _ _ Hst) as Hh. cbn [app] in Hh.
    apply holds_cons in Hh as [Hc' _]. pose proof (Forall_inv (si_chars _ _ _ Hst)) as Hr. cbn beta in Hr.
    assert (Hat : buf + 2 + k = buf + Z.of_nat (length (46 :: 47 :: word_of cmd))) by (unfold k; cbn [length]; lia).
    rewrite Hat. wp_use (load_is _ _ _ Hc'). rewrite (proj2 (Z.eqb_neq 0 c)) by lia. cbn [negb]. wp_step.
    destruct (store_is s (buf + Z.of_nat (length (46 :: 47 :: word_of cmd))) 0) as (v & Hv & Hcv & Hgv); [by eexists|]. wp_use Hv.
    destruct (string_cut s v buf _ c r Hs Hcv Hgv) as [Hword Hrest]. rewrite <- Hat in *.
    eapply wp_mono; [apply (parse_args_rule s buf hi ((46 :: 47 :: word_of cmd) :: words None r) r)| |done];
      [|unfold hi; lia|by replace (hi - buf) with (Z.of_nat (length cmd) + 3) by (unfold hi; lia)]. exists [46 :: 47 :: word_of cmd]. cbn [fst snd].
    split_and!; [unfold k; lia|unfold hi, k; lia|done| | |done].
    + eapply changed_widen; [exact Hcv|unfold hi, k; lia..].
    + constructor; [|constructor]. split_and!; [lia| |done]. cbn [length]. destruct r; cbn [found_end]; unfold k; lia.
Qed.

(** A word as [words] makes it. *)
Definition proper (w : list Z) : Prop := w <> [] /\ Forall (fun c => sep c = false) w.

Lemma words_proper cur l : (forall w, cur = Some w -> proper w) -> Forall proper (words cur l).
Proof.
  revert cur. induction l as [|c l IH]; intros [w|] Hcur; cbn [words]; try done.
  - constructor; [by apply Hcur|constructor].
  - destruct (Hcur w eq_refl) as [Hne Hw]. destruct (sep c) eqn:Hc.
    + constructor; [by apply Hcur|]. by apply IH.
    + apply IH. intros v [= <-]. split; [by destruct w|]. apply Forall_app. by repeat constructor.
  - destruct (Z.eqb_spec c 32) as [->|H32]; [by apply IH|]. destruct (Z.eqb_spec c 10) as [->|H10]; [constructor|].
    apply IH. intros v [= <-]. split; [done|]. repeat constructor. unfold sep.
    by rewrite (proj2 (Z.eqb_neq c 32)), (proj2 (Z.eqb_neq c 10)).
Qed.

Lemma word_of_app w l : Forall (fun c => sep c = false) w -> word_of (w ++ 32 :: l) = w.
Proof. induction 1 as [|c w Hc _ IH]; [done|]. cbn. by rewrite Hc, IH. Qed.

Lemma after_word_app w l : Forall (fun c => sep c = false) w -> after_word (w ++ 32 :: l) = 32 :: l.
Proof. induction 1 as [|c w Hc _ IH]; [done|]. cbn. by rewrite Hc. Qed.

Lemma proper_front w : proper w -> exists c r, w = c :: r /\ c <> 32 /\ c <> 10 /\ word_of w = w /\ after_word w = [].
Proof.
  intros [Hne Hw]. destruct w as [|c r]; [done|]. exists c, r. pose proof (Forall_inv Hw) as Hc.
  split; [done|]. split_and!; [by intros ->..| |]; clear Hne Hc; induction Hw as [|d w Hd _ IH]; cbn; rewrite ?Hd; by rewrite ?IH.
Qed.

(** Joining words and splitting them again. *)
Lemma words_joined ws : Forall proper ws -> words None (joined ws) = ws.
Proof.
  induction 1 as [|w ws Hw _ IH]; [done|]. destruct (proper_front w Hw) as (c & r & Hcr & H32 & H10 & Hwo & Hao).
  destruct ws as [|w' ws].
  - cbn [joined]. rewrite Hcr, words_front, <- Hcr by done. by rewrite Hwo, Hao.
  - change (joined (w :: w' :: ws)) with (w ++ 32 :: joined (w' :: ws)).
    pose proof (word_of_app w (joined (w' :: ws)) (proj2 Hw)) as H1.
    pose proof (after_word_app w (joined (w' :: ws)) (proj2 Hw)) as H2.
    rewrite Hcr in H1, H2 |- *. cbn [app] in *. rewrite words_front, H1, H2 by done. by rewrite IH.
Qed.

Lemma command_words_joined name ws :
  Forall (fun c => sep c = false) name -> Forall proper ws -> command_words (name ++ 32 :: joined ws) = ws.
Proof. intros Hn Hws. unfold command_words. rewrite after_word_app by done. by apply words_joined. Qed.

Lemma words_count cur l :
  (2 * length (words cur l) <= length l + match cur with None => 1 | Some _ => 2 end)%nat.
Proof.
  revert cur. induction l as [|c l IH]; intros [w|]; cbn [words length]; try lia.
  - destruct (sep c); [pose proof (IH None) as H1|pose proof (IH (Some (w ++ [c]))) as H1]; cbn [length] in *; lia.
  - pose proof (IH None) as H1. pose proof (IH (Some [c])) as H2. cbn iota in H1, H2.
    destruct (c =? 32); [lia|]. destruct (c =? 10); [cbn; lia|lia].
Qed.

Lemma argument_count cmd : (2 * length (argument_strings cmd) <= length cmd + 3)%nat.
Proof.
  unfold argument_strings, command_words. pose proof (f_equal length (word_split cmd)) as Hl. rewrite length_app in Hl.
  destruct (after_word cmd) as [|c r]; cbn [length] in *; [lia|]. pose proof (words_count None r). cbn iota in *. lia.
Qed.

(** The name of the program in front of the copied command. *)
Lemma execute_copies s buf command cmd :
  string_is s command cmd -> Z.of_nat (length cmd) <= 1023 -> mapped s buf 1026 ->
  command + (Z.of_nat (length cmd) + 1) <= buf \/ buf + 1026 <= command ->
  exists t1 t2 t, store buf 46 s = Ret tt t1 /\ store (buf + 1) 47 t1 = Ret tt t2 /\
    ece391_strcpy (buf + 2) command t2 = Ret tt t /\
    changed s t buf (Z.of_nat (length cmd) + 3) /\ string_is t buf (46 :: 47 :: cmd).
Proof.
  intros Hs Hl Hm Hd. set (n := Z.of_nat (length cmd)) in *.
  destruct (store_is s buf 46) as (t1 & H1 & C1 & G1); [apply Hm; lia|].
  destruct (store_is t1 (buf + 1) 47) as (t2 & H2 & C2 & G2); [apply (ch_mapped _ _ _ _ C1), Hm; lia|].
  assert (C12 : changed s t2 buf 2) by (eapply changed_trans; eapply changed_widen; [exact C1|lia|lia|exact C2|lia|lia]).
  destruct (proj1 (wp_Ret _ _ _) (strcpy_host t2 (buf + 2) command cmd (fun _ _ => False)
    ltac:(eapply string_changed; [exact C12|fold n; lia|done]) ltac:(fold n; lia)
    ltac:(intros x Hx; apply (ch_mapped _ _ _ _ C12), Hm; fold n in Hx; lia) ltac:(fold n; lia))) as ([] & t & H3 & C3 & Hstr).
  fold n in C3. exists t1, t2, t. split_and!; [done..| |].
  - eapply changed_trans; eapply changed_widen; [exact C12|lia|lia|exact C3|lia|lia].
  - constructor; [|repeat constructor; by try apply Hstr]. cbn [app]. apply holds_cons. split.
    + rewrite (ch_out _ _ _ _ C3), (ch_out _ _ _ _ C2) by lia. exact G1.
    + apply holds_cons. split; [rewrite (ch_out _ _ _ _ C3) by lia; exact G2|].
      replace (buf + 1 + 1) with (buf + 2) by lia. apply Hstr.
Qed.

(** What [execute] does before it starts the child. *)
Lemma execute_prepares `{Linux} s buf command cmd :
  string_is s command cmd -> Z.of_nat (length cmd) <= 1023 -> mapped s buf 1026 ->
  command + (Z.of_nat (length cmd) + 1) <= buf \/ buf + 1026 <= command ->
  exists args t, ece391_execute buf command s = (fork_child (child buf args) ;; reap) t /\
    changed s t buf (Z.of_nat (length cmd) + 3) /\
    pointed t buf (buf + (Z.of_nat (length cmd) + 3)) args (argument_strings cmd).
Proof.
  intros Hs Hl Hm Hd.
  destruct (proj1 (wp_Ret _ _ _) (strlen_host s command cmd (fun _ _ => False) Hs ltac:(lia))) as (k & u & Hk & -> & ->).
  destruct (execute_copies s buf command cmd Hs Hl Hm Hd) as (t1 & t2 & t3 & H1 & H2 & H3 & C3 & S3).
  destruct (proj1 (wp_Ret _ _ _) (split_command_rule t3 buf cmd (fun _ _ => False) S3 ltac:(lia))) as (args & t & H4 & C4 & Hp).
  exists args, t. split_and!; [|by eapply changed_trans|done]. unfold ece391_execute.
  rewrite (bind_Ret _ _ _ _ _ Hk), (proj2 (Z.ltb_ge _ _)) by lia.
  by rewrite (bind_Ret _ _ _ _ _ H1), (bind_Ret _ _ _ _ _ H2), (bind_Ret _ _ _ _ _ H3), (bind_Ret _ _ _ _ _ H4).
Qed.

Lemma host_execute_refuses `{Linux} s buf command cmd :
  string_is s command cmd -> 1023 < Z.of_nat (length cmd) < 2 ^ 31 -> ece391_execute buf command s = Ret (-1) s.
Proof.
  intros Hs Hl.
  destruct (proj1 (wp_Ret _ _ _) (strlen_host s command cmd (fun _ _ => False) Hs ltac:(lia))) as (k & u & Hk & -> & ->).
  unfold ece391_execute. by rewrite (bind_Ret _ _ _ _ _ Hk), (proj2 (Z.ltb_lt _ _)) by lia.
Qed.

(** * Reading a directory *)

(** How many bytes a call for [nbytes] may write. *)
Definition room (nbytes : Z) : Z := if 0 <? nbytes then nbytes `min` 32 else 32.

(** The padded name a call for [nbytes] gives. *)
Definition entry (nbytes : Z) (l : list Z) : list Z :=
  if 0 <? nbytes then take (Z.to_nat (room nbytes)) (l ++ replicate 32 0) else take 32 l.

(** Extending what was written by a byte. *)
Lemma store_next s t buf (l : list Z) n c :
  changed s t buf n -> holds t buf l -> mapped s buf n -> Z.of_nat (length l) < n -> 0 <= c < 256 ->
  exists u, store (buf + Z.of_nat (length l)) c t = Ret tt u /\ changed s u buf n /\ holds u buf (l ++ [c]).
Proof.
  intros Hc Hh Hm Hn Hr. destruct (store_is t (buf + Z.of_nat (length l)) c) as (u & Hu & Hcu & Hgu).
  { apply (changed_mapped _ _ _ _ _ _ Hc Hm). lia. }
  exists u. split_and!; [done| |].
  - eapply changed_trans; [exact Hc|]. eapply changed_widen; [exact Hcu|lia..].
  - apply holds_app. split; [eapply holds_changed; [exact Hcu|lia|done]|]. apply holds_cons.
    rewrite u8_small in Hgu by done. by split.
Qed.

Lemma copy_name_rule s from buf nbytes l E :
  string_is s from l -> mapped s buf (room nbytes) -> 
  from + (Z.of_nat (length l) + 1) <= buf \/ buf + room nbytes <= from ->
  wp (copy_name from buf nbytes) (fun r t => changed s t buf (room nbytes) /\
    match r with
    | inl (to, copied) => copied = Z.of_nat (length l) /\ copied < room nbytes /\ to = buf + copied /\ holds t buf l
    | inr n => n = room nbytes /\ room nbytes <= Z.of_nat (length l) /\ holds t buf (take (Z.to_nat n) l)
    end) E s.
Proof.
  intros Hs Hm Hd. assert (Hroom : 1 <= room nbytes <= 32) by (unfold room; destruct (Z.ltb_spec 0 nbytes); lia).
  unfold copy_name.
  apply wp_loop_ghost with (I := fun (i : nat) st t => st = (from + Z.of_nat i, buf + Z.of_nat i, Z.of_nat i) /\
      (i <= length l)%nat /\ Z.of_nat i < room nbytes /\ changed s t buf (room nbytes) /\ holds t buf (take i l))
    (mu := fun i => room nbytes - Z.of_nat i) (g := O); [|unfold loop_fuel; lia|].
  { rewrite !Z.add_0_r. split_and!; [done|lia|lia|apply changed_refl|done]. }
  intros i st t (-> & Hi & Hin & Hc & Hh). split; [lia|]. cbn beta iota.
  pose proof (string_changed _ _ _ _ _ _ Hc Hd Hs) as Hst.
  destruct (string_get t from l i Hst Hi) as (c & Hget & Hmem). wp_step. wp_use (load_is _ _ _ Hmem).
  destruct (string_cases t from l i c Hst Hi Hget) as [[-> ->]|(Hlt & Hli & Hr)].
  { apply wp_ret. split; [done|]. rewrite take_ge in Hh by done. by split_and!. }
  assert (Hlen : length (take i l) = i) by (rewrite length_take; lia).
  rewrite (proj2 (Z.eqb_neq 0 c)) by lia. wp_step.
  destruct (store_next s t buf (take i l) (room nbytes) c Hc Hh Hm) as (u & Hu & Hcu & Hhu); [lia..|].
  rewrite Hlen in Hu. rewrite <- take_S_r in Hhu by done. wp_use Hu.
  assert (Hfull : Z.of_nat i + 1 = room nbytes -> changed s u buf (room nbytes) /\
    room nbytes = room nbytes /\ room nbytes <= Z.of_nat (length l) /\ holds u buf (take (Z.to_nat (room nbytes)) l)).
  { intros He. split_and!; [done|done|lia|]. by replace (Z.to_nat (room nbytes)) with (S i) by lia. }
  destruct (Z.eqb_spec (Z.of_nat i + 1) nbytes) as [Hn|Hn].
  { apply wp_ret. assert (Hrn : nbytes = room nbytes) by (unfold room in *; destruct (Z.ltb_spec 0 nbytes); lia).
    destruct Hfull as (? & ? & ? & ?); [lia|]. split_and!; [done|done|done|]. by rewrite Hrn. }
  destruct (Z.eqb_spec 32 (Z.of_nat i + 1)) as [H32|H32].
  { apply wp_ret. assert (Hrn : 32 = room nbytes) by lia.
    destruct Hfull as (? & ? & ? & ?); [lia|]. split_and!; [done|done|done|]. by rewrite Hrn. }
  apply wp_ret. exists (S i).
  assert (Z.of_nat i + 1 < room nbytes) by (unfold room in *; destruct (Z.ltb_spec 0 nbytes); lia).
  split; [|lia]. split_and!; [f_equal; [f_equal|]; lia|lia|lia|done|done].
Qed.

Lemma take_padded n i (l : list Z) :
  n = Z.of_nat (length l) + Z.of_nat i -> (i <= 32)%nat -> take (Z.to_nat n) (l ++ replicate 32 0) = l ++ replicate i 0.
Proof.
  intros -> Hi. rewrite take_app, take_ge by lia. f_equal. rewrite take_replicate. f_equal. lia.
Qed.

Lemma pad_name_rule s buf nbytes l n E :
  holds s buf l -> mapped s buf n -> Z.of_nat (length l) <= 32 -> n = Z.of_nat (length l) `max` (nbytes `min` 32) ->
  wp (pad_name (buf + Z.of_nat (length l)) nbytes (Z.of_nat (length l)))
    (fun r t => r = n /\ changed s t buf n /\ holds t buf (take (Z.to_nat n) (l ++ replicate 32 0))) E s.
Proof.
  intros Hh Hm Hl Hn. unfold pad_name.
  apply wp_loop_ghost with (I := fun (i : nat) st t =>
      st = (buf + Z.of_nat (length (l ++ replicate i 0)), Z.of_nat (length (l ++ replicate i 0))) /\
      Z.of_nat (length l) + Z.of_nat i <= n /\ changed s t buf n /\ holds t buf (l ++ replicate i 0))
    (mu := fun i => n - Z.of_nat (length l) - Z.of_nat i) (g := O); [|unfold loop_fuel; lia|].
  { cbn [replicate]. rewrite app_nil_r. split_and!; [done|lia|apply changed_refl|done]. }
  intros i st t (-> & Hi & Hc & Ht). split; [lia|]. cbn beta iota. rewrite length_app, length_replicate in *.
  destruct (Z.ltb_spec (Z.of_nat (length l + i)) nbytes) as [H1|H1], (Z.ltb_spec (Z.of_nat (length l + i)) 32) as [H2|H2];
    cbn [andb].
  2-4: apply wp_ret; split_and!; [lia|done|]; by rewrite (take_padded n i) by lia.
  wp_step. destruct (store_next s t buf (l ++ replicate i 0) n 0 Hc Ht Hm) as (u & Hu & Hcu & Hhu);
    [rewrite length_app, length_replicate; lia|lia|].
  rewrite length_app, length_replicate in Hu. wp_use Hu. apply wp_ret. exists (S i).
  rewrite <- app_assoc, <- replicate_S_end in Hhu. rewrite length_app, length_replicate. split; [|lia].
  split_and!; [f_equal; lia|lia|done|done].
Qed.

(** C36: Reading an open directory on Linux gives the next name: for [nbytes] of 1
    or more, the first [nbytes] or 32 bytes, whichever is less, of the name
    followed by zeros, and that many is the result, whether the name is shorter,
    longer or just fits; not a byte elsewhere changes, and writing to the
    directory fails.  A call for 0 bytes, or a negative number, never meets its
    limit and writes the name all the same, up to 32 bytes. *)
Theorem host_directory_read `{Linux} s t fd buf nbytes name l :
  dir s <> 0 -> dir_fd s = fd -> readdir (dir s) s = Ret name t -> name <> 0 ->
  string_is t name l -> mapped t buf (room nbytes) ->
  name + (Z.of_nat (length l) + 1) <= buf \/ buf + room nbytes <= name ->
  ece391_write fd buf nbytes s = Ret (-1) s /\
  exists u, ece391_read fd buf nbytes s = Ret (if 0 <? nbytes then nbytes `min` 32 else 32 `min` Z.of_nat (length l)) u /\
    changed t u buf (room nbytes) /\ holds u buf (entry nbytes l).
Proof.
  intros Hdir Hfd Hrd Hname Hl Hm Hd. unfold ece391_write, ece391_read, gets.
  assert (Hg : (dir s =? 0) || negb (dir_fd s =? fd) = false) by (by rewrite (proj2 (Z.eqb_neq _ _)), (proj2 (Z.eqb_eq _ _))).
  unfold bind at 1 2. cbn [id]. rewrite Hg. split; [done|].
  rewrite (bind_Ret _ _ _ _ _ Hrd), (proj2 (Z.eqb_neq name 0)) by done.
  destruct (proj1 (wp_Ret _ _ _) (copy_name_rule t name buf nbytes l (fun _ _ => False) Hl Hm Hd)) as ([[to copied]|r] & u & Hc & Hch & Hr);
    rewrite (bind_Ret _ _ _ _ _ Hc); unfold entry.
  - destruct Hr as (-> & Hlt & -> & Hh). destruct (Z.ltb_spec 0 nbytes) as [Hpos|Hneg].
    + assert (Hrm : room nbytes = nbytes `min` 32) by (unfold room; by rewrite (proj2 (Z.ltb_lt 0 nbytes))).
      destruct (proj1 (wp_Ret _ _ _) (pad_name_rule u buf nbytes l (room nbytes) (fun _ _ => False) Hh
        (changed_mapped _ _ _ _ _ _ Hch Hm) ltac:(lia) ltac:(lia))) as (r & v & Hp & -> & Hcv & Hhv).
      exists v. rewrite Hp, <- Hrm. split_and!; [done|by eapply changed_trans|done].
    + assert (Hrm : room nbytes = 32) by (unfold room; by rewrite (proj2 (Z.ltb_ge 0 nbytes))).
      destruct (proj1 (wp_Ret _ _ _) (pad_name_rule u buf nbytes l (Z.of_nat (length l)) (fun _ _ => False) Hh
        ltac:(intros x Hx; apply (changed_mapped _ _ _ _ _ _ Hch Hm); lia) ltac:(lia) ltac:(lia))) as (r & v & Hp & -> & Hcv & Hhv).
      exists v. rewrite Hp, Z.min_r, (take_ge l) by lia. split_and!; [done| |].
      * eapply changed_trans; [exact Hch|]. eapply changed_widen; [exact Hcv|lia..].
      * by rewrite Nat2Z.id, take_app_length in Hhv.
  - destruct Hr as (-> & Hle & Hh). exists u. destruct (Z.ltb_spec 0 nbytes) as [Hpos|Hneg].
    + assert (Hrm : room nbytes = nbytes `min` 32) by (unfold room; by rewrite (proj2 (Z.ltb_lt 0 nbytes))).
      rewrite <- Hrm. split_and!; [done|done|]. by rewrite take_app_le by lia.
    + assert (Hrm : room nbytes = 32) by (unfold room; by rewrite (proj2 (Z.ltb_ge 0 nbytes))).
      rewrite Hrm in Hle, Hch, Hh |- *. rewrite Z.min_l by lia. by split_and!.
Qed.

(** C32: On Linux, a program's command line reaches the program it starts as its
    words.  [execute] refuses a command of more than 1023 bytes and changes
    nothing.  Any other is copied to its buffer behind ["./"] and cut there,
    without a byte written elsewhere, and the child gets, in this order and as
    terminated strings that lie in the buffer, the program's name and the words
    behind it; the array of pointers has room for them.  [getargs] in a process
    that begins with those words gives them separated by single spaces if the
    result and its terminator fit, and otherwise -1 with at most one byte
    written behind the buffer; and that result, behind a name in a command line,
    is read as the same words again. *)
Theorem command_line_arrives `{Linux} s buf command cmd u b n :
  string_is s command cmd -> Z.of_nat (length cmd) < 2 ^ 31 -> mapped s buf 1026 ->
  command + (Z.of_nat (length cmd) + 1) <= buf \/ buf + 1026 <= command ->
  arguments u (command_words cmd) b n ->
  (if 1023 <? Z.of_nat (length cmd) then ece391_execute buf command s = Ret (-1) s
   else exists args t, ece391_execute buf command s = (fork_child (child buf args) ;; reap) t /\
     changed s t buf (Z.of_nat (length cmd) + 3) /\
     pointed t buf (buf + (Z.of_nat (length cmd) + 3)) args ((46 :: 47 :: word_of cmd) :: command_words cmd) /\
     (length args < 1024)%nat) /\
  (exists v, if Z.of_nat (length (joined (command_words cmd))) <? n
   then ece391_getargs b n u = Ret 0 v /\
     changed u v b (Z.of_nat (length (joined (command_words cmd))) + 1) /\ string_is v b (joined (command_words cmd))
   else ece391_getargs b n u = Ret (-1) v /\ changed u v b (n + 1)) /\
  command_words (word_of cmd ++ 32 :: joined (command_words cmd)) = command_words cmd.
Proof.
  intros Hs Hl Hm Hd Hu. split_and!.
  - destruct (Z.ltb_spec 1023 (Z.of_nat (length cmd))) as [Hbig|Hok]; [by apply (host_execute_refuses s buf command cmd)|].
    destruct (execute_prepares s buf command cmd Hs Hok Hm Hd) as (args & t & He & Hc & Hp).
    exists args, t. split_and!; [done..|]. apply Forall2_length in Hp. pose proof (argument_count cmd). lia.
  - destruct (proj1 (wp_Ret _ _ _) (getargs_rule u _ b n (fun _ _ => False) Hu)) as (r & v & Hr & Hv). exists v.
    destruct (_ <? n); destruct Hv as [-> Hv]; by split.
  - apply command_words_joined; [apply word_of_sep|]. unfold command_words.
    destruct (after_word cmd) as [|c r]; [constructor|]. by apply words_proper.
Qed.

Lemma holds_part s a l i k : holds s a l -> holds s (a + Z.of_nat i) (take k (drop i l)).
Proof.
  intros Hh j x Hj. apply lookup_take_Some in Hj as [Hj _]. rewrite lookup_drop in Hj.
  replace (a + Z.of_nat i + Z.of_nat j) with (a + Z.of_nat (i + j)) by lia. by apply Hh.
Qed.

(** A Linux whose calls give 0, except that every name in a directory is at [name]. *)
Definition demo_linux (name : Z) : Linux := {|
  int_0x80 := fun _ _ _ _ => ret 0; opendir_dot := ret 0; readdir := fun _ => ret name; closedir := fun _ => ret 0;
  open_dev_null := ret 0; open_dev_mem := ret 0; close := fun _ => ret 0; fork_child := fun _ => ret tt;
  execv := fun _ _ => ret 0; getpid := ret 0; kill := fun _ _ => ret 0; wait := ret 0; mmap_low := fun _ => ret 0;
  perror := ret tt |}.
#[local] Instance quiet_linux : Linux := demo_linux 0.

(** A process with the bytes [l] at 4096, which is where its stack begins. *)
Definition demo_process (l : list Z) : process := Process (map_seqZ 4096 l) 4096 (-1) 0 (-1).

Lemma demo_holds l : holds (demo_process l) 4096 l.
Proof. intros i b Hi. cbn [p_mem demo_process]. apply lookup_map_seqZ_Some. split; [lia|]. by rewrite Z.add_simpl_l, Nat2Z.id. Qed.

(** ["grep -v  is"], and behind it the buffer. *)
Definition demo_command : list Z := [103; 114; 101; 112; 32; 45; 118; 32; 32; 105; 115].
Definition demo_parent : process := demo_process ((demo_command ++ [0]) ++ replicate 1026 0).
(** Three pointers, the strings ["./grep"], ["-v"] and ["is"], and nine bytes. *)
Definition demo_child : process := demo_process
  ([3; 0; 0; 0; 20; 16; 0; 0; 27; 16; 0; 0; 30; 16; 0; 0; 0; 0; 0; 0;
    46; 47; 103; 114; 101; 112; 0; 45; 118; 0; 105; 115; 0] ++ replicate 9 0).

Lemma demo_room l n k a :
  a = 4096 + Z.of_nat (length l) -> n = Z.of_nat k -> mapped (demo_process (l ++ replicate k 0)) a n.
Proof.
  intros -> -> x Hx. exists 0. pose proof (demo_holds (l ++ replicate k 0)) as Hh. apply holds_app in Hh as [_ Hh].
  replace x with (4096 + Z.of_nat (length l) + Z.of_nat (Z.to_nat (x - 4096 - Z.of_nat (length l)))) by lia.
  apply Hh. apply lookup_replicate_2. lia.
Qed.

Lemma host_demo_word i b0 b1 b2 b3 (l : list Z) a v :
  take 4 (drop i l) = [b0; b1; b2; b3] -> a = 4096 + Z.of_nat i -> v = b0 + b1 * 2 ^ 8 + b2 * 2 ^ 16 + b3 * 2 ^ 24 ->
  word_in (demo_process l) a v.
Proof. intros Ht -> ->. exists b0, b1, b2, b3. split; [|done]. rewrite <- Ht. apply holds_part, demo_holds. Qed.

Lemma host_demo_string i (l w : list Z) a :
  take (S (length w)) (drop i l) = w ++ [0] -> a = 4096 + Z.of_nat i -> Forall (fun c => 0 < c < 256) w ->
  string_is (demo_process l) a w.
Proof. intros Ht -> Hw. constructor; [|done]. rewrite <- Ht. apply holds_part, demo_holds. Qed.

Lemma host_demo_arguments : arguments demo_child (command_words demo_command) 4129 8.
Proof.
  constructor; cbn [command_words demo_command after_word sep orb Z.eqb Pos.eqb words length].
  - by apply (host_demo_word 0 3 0 0 0).
  - lia.
  - left; cbn; lia.
  - intros [|[|[|i]]] w Hi; cbn in Hi; try done; injection Hi as <-; cbn [length]; (split; [lia|]).
    + exists 4123. split_and!; [by apply (host_demo_word 8 27 16 0 0)| |cbn; lia].
      apply (host_demo_string 27); [done..|repeat constructor; lia].
    + exists 4126. split_and!; [by apply (host_demo_word 12 30 16 0 0)| |cbn; lia].
      apply (host_demo_string 30); [done..|repeat constructor; lia].
  - by apply demo_room.
  - lia.
Qed.

Lemma command_line_arrives_witness :
  string_is demo_parent 4096 demo_command /\
  (exists args t, ece391_execute 4108 4096 demo_parent = (fork_child (child 4108 args) ;; reap) t /\
     pointed t 4108 4122 args [[46; 47; 103; 114; 101; 112]; [45; 118]; [105; 115]]) /\
  (exists v, ece391_getargs 4129 8 demo_child = Ret 0 v /\ string_is v 4129 [45; 118; 32; 105; 115]).
Proof.
  assert (Hs : string_is demo_parent 4096 demo_command).
  { constructor; [|repeat constructor; lia]. exact (proj1 (proj1 (holds_app _ _ (demo_command ++ [0]) _) (demo_holds ((demo_command ++ [0]) ++ replicate 1026 0)))). }
  split; [exact Hs|].
  destruct (command_line_arrives demo_parent 4108 4096 demo_command demo_child 4129 8 Hs ltac:(cbn; lia)
    ltac:(by apply demo_room) ltac:(cbn; lia) host_demo_arguments) as ((args & t & He & _ & Hp & _) & (v & Hv & _ & Hstr) & _).
  split.
  - exists args, t. split; [exact He|exact Hp].
  - exists v. split; [exact Hv|exact Hstr].
Defined.

(** The name ["is"], and behind it 32 bytes; descriptor 3 is the directory. *)
Definition demo_listing : process := set_dir 1 (set_dir_fd 3 (demo_process ([105; 115; 0] ++ replicate 32 0))).

Lemma host_directory_read_witness :
  string_is demo_listing 4096 [105; 115] /\
  (exists u, @ece391_read (demo_linux 4096) 3 4099 5 demo_listing = Ret 5 u /\ holds u 4099 [105; 115; 0; 0; 0]) /\
  (exists u, @ece391_read (demo_linux 4096) 3 4099 0 demo_listing = Ret 2 u /\ holds u 4099 [105; 115]).
Proof.
  assert (Hs : string_is demo_listing 4096 [105; 115]).
  { destruct (host_demo_string 0 ([105; 115; 0] ++ replicate 32 0) [105; 115] 4096) as [Hh Hc]; [done..|repeat constructor; lia|].
    constructor; [exact Hh|exact Hc]. }
  assert (Hm : forall n, room n <= 32 -> mapped demo_listing 4099 (room n)).
  { intros n Hn x Hx. apply (demo_room [105; 115; 0] 32 32 4099 eq_refl eq_refl). lia. }
  split; [exact Hs|].
  destruct (@host_directory_read (demo_linux 4096) demo_listing demo_listing 3 4099 5 4096 [105; 115]
    ltac:(done) eq_refl eq_refl ltac:(done) Hs (Hm 5 ltac:(done)) ltac:(cbn; lia)) as [_ (u & Hu & _ & Hh)].
  destruct (@host_directory_read (demo_linux 4096) demo_listing demo_listing 3 4099 0 4096 [105; 115]
    ltac:(done) eq_refl eq_refl ltac:(done) Hs (Hm 0 ltac:(done)) ltac:(cbn; lia)) as [_ (v & Hv & _ & Hhv)].
  split; [exists u; split; [exact Hu|exact Hh]|exists v; split; [exact Hv|exact Hhv]].
Defined.
